(* ===== verification/_CoqProject ===== *)
-Q . S2P
Prelude.v
GoStrings.v
GoMemory.v
GoMemorySpec.v
K8sCopies.v
DeepCopyV1alpha1.v
DeepCopyV1alpha2.v
DeepCopySpec.v
OvhTypes.v
GoErrors.v
K8sTypes.v
ApiV1alpha2.v
ApiV1alpha1.v
Effects.v
OvhClient.v
OvhClientSpec.v
Hoare.v
Naming.v
Manager.v
Metrics.v
CapiLib.v
ClusterController.v
ClusterLB.v
ClusterReconcile.v
WorkloadNode.v
MachineController.v
Conditions.v
Demo.v
WatchSpec.v
Work.v
ClusterSafety.v
ClusterDelete.v
ClusterNormal.v
ClusterLBSpec.v
WorkloadSpec.v
MachineSpec.v
Conversion.v
ConversionSpec.v
Webhook.v
WebhookV1alpha1.v
MetricsSpec.v
Admission.v
DeleteProgress.v
ReconcileSpec.v
Idempotence.v
MachineContract.v
World.v
MachineProgress.v
ClusterProgress.v
Tenancy.v
MachineRetirement.v
NetworkContract.v
Orchestration.v
BalancerSpec.v
ClusterSteps.v
ClusterRetirement.v
IgnoredFields.v
Vocabulary.v
Scheme.v
