(* ===== verification/Prelude.v ===== *)
(** * A verification library for cluster-api-provider-ovhcloud

    The program is a Kubernetes Cluster API infrastructure provider, written in
    Go.  It watches two custom resources, OVHCluster and OVHMachine, and drives
    the OVH Public Cloud API until the cloud matches them: a private network and
    subnet, failure domains, security groups, an Octavia load balancer with two
    ports and a floating IP, a DNS record; one instance per machine, its
    membership of the load balancer pools, and the initialisation of its node.

    ** How the parts interact

    The manager (cmd/main.go) runs two reconcilers.  Each call of [Reconcile]
    reads its object and its owners from the management cluster, builds an OVH
    client from the identity secret (util/util.go), runs [ReconcileNormal] or
    [ReconcileDelete] on a scope, and patches the object on the way out.  The
    reconcilers call pkg/ovh/client.go, which sends every request through
    [retryWithBackoff] and classifies errors with pkg/ovh/errors.go.  The
    machine reconciler reads the status the cluster reconciler wrote (network,
    load balancer and pool identifiers), and patches nodes of the workload
    cluster through util/node_init.go.  Objects stored as v1alpha1 pass through
    api/v1alpha1/conversion.go, and writes pass through the webhooks of both
    versions.

    ** How the code is modelled

    A call that leaves the program (the go-ovh client, the clock, Prometheus,
    the two Kubernetes API servers, JSON encoding) is a request of the type
    [Effects.req].  A Go function is a value of [Effects.prog], a tree of
    requests and continuations; a method that mutates the object of its scope is
    a state passer [Effects.M] over that object.  [Effects.runs p t a] says that
    [p] can return [a] after exchanging the events of [t]; nothing is assumed
    about the answers, so a theorem on all runs covers every behaviour of OVH
    and Kubernetes, and [Effects.runs_total] says that every program returns.
    Errors are values of [GoErrors.goerror]; [(T, error)] is
    [result goerror T].  The pure helpers of cluster-api and controller-runtime
    (conditions, finalizers, pause, control plane test) are operations of the
    class [CapiLib.CapiLib], with their documented laws; [ReferenceCapi] is an
    instance, so the laws are consistent and the witnesses compute.

    ** Files

    - Prelude: results, string equality, lists, tactics.
    - GoStrings: the functions of Go's strings, fmt and strconv the program
      uses, on byte strings.
    - GoMemory: Go values on a heap, and what a deep copy is.  GoMemorySpec: the
      statements the generator emits meet the contract.  K8sCopies: the
      third-party types embedded in the API, as a class.  DeepCopyV1alpha1,
      DeepCopyV1alpha2: every type declaration of the two packages and its
      methods of zz_generated.deepcopy.go.  DeepCopySpec: they are deep copies.
    - OvhTypes: pkg/ovh/types.go, one record per struct, [S_F] for the field F
      of S.  K8sTypes: the fields of the third-party Kubernetes types.
      ApiV1alpha2, ApiV1alpha1: the custom resources.  Conditions: their
      condition accessors as a class.
    - GoErrors: pkg/ovh/errors.go and the error values.
    - Effects: requests, programs, state passers, runs, postconditions.
      Hoare: rules and tactics on them ([keeps], [within], inversion of runs).
      Work: how many requests and how much sleep a program can take.  World:
      programs run on a project that keeps a state, and the interface
      [OvhProject] of one that answers well.
    - Scheme: the group versions of both packages and the [init] functions that
      register their types (groupversion_info.go); the builder and the scheme of
      controller-runtime are a class with laws.
    - OvhClient: pkg/ovh/client.go, one definition per method.  OvhClientSpec:
      what the methods promise.
    - Naming: util/util.go and util/cloudinit.go.  Metrics, MetricsSpec:
      internal/metrics/metrics.go, and how the controllers use it.
    - Manager: cmd/main.go, the two SetupWithManager and the set-up of the
      webhooks.  WatchSpec: which reconciliations an event starts.
    - ClusterController, ClusterLB, ClusterReconcile: all the methods of
      internal/controller/ovhcluster_controller.go; long methods are cut at
      their own comments, a step per definition, and composed again under the
      method's name.
    - WorkloadNode: util/node_init.go and util/etcd.go.
    - MachineController: internal/controller/ovhmachine_controller.go.  Its
      methods whose name another component uses carry the prefix Machine.
    - Conversion: api/v1alpha1/conversion.go.  ConversionSpec: the kinds as
      instances of the interfaces Hub and Spoke of controller-runtime.  Webhook,
      WebhookV1alpha1: the validating webhooks of both versions.
    - ClusterSafety, ClusterDelete, ClusterNormal, ClusterLBSpec, MachineSpec,
      WorkloadSpec, ReconcileSpec, Idempotence, Admission, DeleteProgress,
      MachineContract, MachineProgress, ClusterProgress, MachineRetirement,
      ClusterRetirement, NetworkContract, BalancerSpec, Tenancy, Orchestration,
      ClusterSteps, IgnoredFields, Vocabulary: the theorems on the controllers,
      below.
    - Demo: a concrete project, concrete objects and an environment on which the
      programs run, for the witnesses.

    ** What the theorems show

    - The client: the exact runs of the retry loop and its bounds, stability of
      the error classes under wrapping, which answers count as a completed
      deletion, lookup before the creation of a load balancer, image resolution
      (OvhClientSpec, GoErrors).
    - Safety over a whole life of a cluster, by rule induction on [step] and
      [life]: a network given by the user is never touched; the ports of the
      load balancer are created only if missing (ClusterSafety, ClusterLBSpec).
    - Cluster deletion: the finalizer goes only when the deletion of what was
      recorded was accepted (ClusterDelete), and conversely a run that keeps it
      got an answer of OVH that says why (DeleteProgress).  Normal
      reconciliation: nothing before the finalizer, ready means provisioned, the
      endpoint, the network step, security groups, DHCP ranges (ClusterNormal).
    - Machines: an instance is created only if none is found, at most once over
      any sequence of reconciliations from arbitrary statuses, an existing one is
      recorded faithfully, deletion forgets no recorded instance (MachineSpec,
      Idempotence).
    - The machine reconciler refines an abstract contract, whose state is the
      finalizer, the recorded instance, readiness and the instances known to be
      gone; what the contract promises, that no instance leaks, therefore holds
      of the code (MachineContract).
    - So does the cluster reconciler with the contract of its private network:
      what it creates, adopts, forgets, deletes and releases, and that no network
      it created leaks (NetworkContract).  A cluster gets one load balancer, and
      one more for each failed lookup (BalancerSpec).
    - Several clusters and machines of one project, in any interleaving and each
      from stale versions: they do not touch each other's instances unless their
      names coincide (Tenancy).  A cluster and its machines, composed with Cluster
      API through the stored objects: instances come after the infrastructure
      (Orchestration).
    - The best-effort steps: the DNS record, the failure domains, the order
      independence of the deletion of security groups, which ranges over a map,
      the sweep of orphaned balancers (ClusterSteps).
    - A relational reading of the reconcilers shows which fields they never look
      at (IgnoredFields).  The conditions they can write, and that a provisioned
      cluster stays so (Vocabulary).
    - Termination: a bound on the requests and the sleep of one reconciliation
      (Work).  Convergence: on any project that answers well, repeated
      reconciliations make a machine and a cluster ready, and keep them so
      (MachineProgress, ClusterProgress).  On any project that carries deletions
      out, a deleted machine and a deleted cluster go, in a bounded number of
      reconciliations (MachineRetirement, ClusterRetirement).
    - What the controllers write passes the webhooks that guard the same
      objects (Admission).
    - Workload cluster: patches of nodes and commands run in etcd pods are
      justified by what was read in the same run (WorkloadSpec).
    - Reconcile: exactly one patch on every path (ReconcileSpec).
    - The process: the order in which it starts, which events wake which
      clusters, the label counts of the metrics (Manager, WatchSpec,
      MetricsSpec).
    - Round trips and losses of the conversions, an object stored in the old
      version does not drift; what the webhooks accept, and that the two
      versions agree (Conversion, ConversionSpec, Webhook, WebhookV1alpha1).
    - The generated deep copies share no memory with their source that either
      side can write (DeepCopySpec).
    - Behaviour that looks unintended is stated by theorems of its own, for
      example [DeleteInstance_outage_reported_as_deleted],
      [given_network_deleted_after_replacement],
      [orphan_prefix_covers_other_cluster],
      [replaced_balancer_lacks_register_port],
      [network_created_without_lookup], [recreated_machine_stays_ready],
      [namesake_instance_taken], [monitor_of_other_cluster_suffices] and
      [vanished_network_leaves_machines_unattached].

    ** Bounds

    The loops of the source are structural here: five retries
    ([OvhClient.maxRetries]) and ten lookups ([maxLookupAttempts]) as in the
    source; [GoStrings.hex_digits] takes sixteen digits, all a uint64 has;
    [Webhook.parseIPv6_loop] takes eight iterations, each of which fills two of
    the sixteen bytes of an address.  The integers of the API types are [Z]: the
    program only compares and copies them.  Backoff durations are exact, far
    below the 53 bits of the float64 they go through.

    ** What is not modelled, and why

    Logging and contexts (no effect on behaviour); JSON and YAML encoding and
    HTTP (done by libraries); controller-runtime itself, whose work queue, cache
    and manager are requests or hypotheses, and the parsing of the command line,
    whose result is an argument of [main]; Go's difference between nil and empty
    slices and maps outside of the deep copies, which model it (elsewhere it is
    not observable after encoding); nil pointers in a scope, which [Reconcile]
    always fills; the type assertions of conversions and webhooks, which are the
    types of the arguments; the deep copies of third-party types; OVHMachinePool
    beyond its types, which no code handles; the user interface, charts,
    manifests, templates and tests.

    ** Plan

    Every component is complete as definitions.  Next: the contract of the load
    balancer and its floating IP, as for the network, over lives that contain the
    deletion; patches of a status that merge with a concurrent write, instead of
    replacing it; the whole life of a cluster with its machines, from the first
    reconciliation to the last finalizer. *)
From stdpp Require Export base tactics list gmap strings.
From Stdlib Require Export ZArith Lia.
From coqutil Require Export Datatypes.RecordSetters.

(** ** Options and notations shared by every file *)

#[export] Set Primitive Projections.
#[export] Set Default Goal Selector "!".

Export RecordSetters.DoubleBraceUpdate.

(** Concatenation of a literal string computes in proofs. *)
#[global] Arguments String.append : simpl nomatch.

(** Record updates written [s {{ f := v }}] unfold to the plain record. *)
Arguments constant {E} _ _ /.

Declare Scope go_scope.
Delimit Scope go_scope with go.

(** ** Results of fallible Go functions

    A Go function returning [(T, error)] with exactly one meaningful half is
    modelled by [result E T]. *)
Inductive result (E T : Type) : Type :=
| Ok (x : T)
| Err (e : E).
Arguments Ok {E T} x.
Arguments Err {E T} e.

Definition is_ok {E T} (r : result E T) : bool :=
  match r with Ok _ => true | Err _ => false end.

#[export] Instance result_eq_dec {E T} `{EqDecision E, EqDecision T} :
  EqDecision (result E T).
Proof. solve_decision. Defined.

(** [strEqb] is Go's [==] on strings. *)
Definition strEqb (a b : string) : bool := bool_decide (a = b).
Infix "=s?" := strEqb (at level 70, no associativity) : go_scope.
#[export] Instance strEqb_spec_hint a b : Decision (strEqb a b = true) := _.

Lemma strEqb_eq a b : strEqb a b = true <-> a = b.
Proof. unfold strEqb. by rewrite bool_decide_eq_true. Qed.

Lemma strEqb_neq a b : strEqb a b = false <-> a <> b.
Proof. unfold strEqb. by rewrite bool_decide_eq_false. Qed.

Lemma strEqb_refl a : strEqb a a = true.
Proof. by apply strEqb_eq. Qed.

(** ** Tactics *)

(** Turn every boolean string test in the context into an equality. *)
Ltac str_simpl :=
  repeat match goal with
  | H : strEqb _ _ = true |- _ => apply strEqb_eq in H
  | H : strEqb _ _ = false |- _ => apply strEqb_neq in H
  | H : context [strEqb ?a ?a] |- _ => rewrite strEqb_refl in H
  | |- context [strEqb ?a ?a] => rewrite strEqb_refl
  | H : negb _ = true |- _ => apply negb_true_iff in H
  | H : negb _ = false |- _ => apply negb_false_iff in H
  | H : (_ && _)%bool = true |- _ => apply andb_true_iff in H as [? ?]
  | H : (_ || _)%bool = false |- _ => apply orb_false_iff in H as [? ?]
  end.

(** Split a conjunction of goals and close the routine ones. *)
Ltac split_all := repeat split; try done.

(** ** Lists *)

(** The idiom [for i := range l { if p(l[i]) { return &l[i] } }; return nil]. *)
Definition find_first {A} (p : A -> bool) (l : list A) : option A :=
  List.find p l.

Lemma find_first_some {A} (p : A -> bool) l x :
  find_first p l = Some x ->
  p x = true /\ exists l1 l2, l = l1 ++ x :: l2 /\ Forall (fun y => p y = false) l1.
Proof.
  induction l as [|y l IH]; [done|]. cbn.
  destruct (p y) eqn:Hp.
  - intros [= ->]. split; [done|]. by exists [], l.
  - intros (? & l1 & l2 & -> & ?)%IH. split; [done|].
    exists (y :: l1), l2. auto.
Qed.

Lemma find_first_none {A} (p : A -> bool) l :
  find_first p l = None <-> Forall (fun y => p y = false) l.
Proof.
  induction l as [|y l IH]; cbn; [done|].
  rewrite Forall_cons. destruct (p y); [split; [done|by intros []]|].
  rewrite IH. split; [by split|by intros [_ ?]].
Qed.

Lemma find_first_in {A} (p : A -> bool) l x :
  find_first p l = Some x -> x ∈ l /\ p x = true.
Proof.
  intros (Hp & l1 & l2 & -> & _)%find_first_some. split; [set_solver|done].
Qed.

Lemma find_first_exists {A} (p : A -> bool) l x :
  x ∈ l -> p x = true -> exists y, find_first p l = Some y.
Proof.
  intros Hin Hp. destruct (find_first p l) as [y|] eqn:E; [by exists y|].
  apply find_first_none in E. rewrite Forall_forall in E. specialize (E _ Hin). congruence.
Qed.

Lemma find_first_app_skip {A} (p : A -> bool) l1 l2 :
  Forall (fun y => p y = false) l1 -> find_first p (l1 ++ l2) = find_first p l2.
Proof. induction 1 as [|y l1 Hy _ IH]; [done|]. cbn. by rewrite Hy. Qed.

Create HintDb go discriminated.
#[export] Hint Resolve strEqb_refl : go.
