(* ===== verification/GoStrings.v ===== *)
(** * GoStrings: the part of Go's [strings], [strconv] and [fmt] the provider uses

    A Go string is modelled as a Rocq [string] of bytes.  Case mapping is the
    ASCII one: the names the provider handles (Kubernetes object names, OVH
    flavours, images and identifiers) are ASCII, and no claim is made for the
    Unicode case tables. *)
From S2P Require Import Prelude.
From stdpp Require Import pretty.
From Stdlib Require Import Ascii.

(** ** Bytes *)

Definition byte_in (lo hi : nat) (c : ascii) : bool :=
  (lo <=? nat_of_ascii c)%nat && (nat_of_ascii c <=? hi)%nat.

Definition is_lower (c : ascii) : bool := byte_in 97 122 c.
Definition is_upper (c : ascii) : bool := byte_in 65 90 c.
Definition is_digit (c : ascii) : bool := byte_in 48 57 c.
Definition is_hyphen (c : ascii) : bool := bool_decide (c = "-"%char).

(** [unicode.ToLower] on ASCII. *)
Definition lower_ascii (c : ascii) : ascii :=
  if is_upper c then ascii_of_nat (nat_of_ascii c + 32) else c.

(** ** Traversals *)

Fixpoint smap (f : ascii -> ascii) (s : string) : string :=
  match s with
  | EmptyString => EmptyString
  | String c s => String (f c) (smap f s)
  end.

Fixpoint sall (p : ascii -> bool) (s : string) : bool :=
  match s with
  | EmptyString => true
  | String c s => p c && sall p s
  end.

(** ** Package strings *)

(** [strings.ToLower]. *)
Definition ToLower (s : string) : string := smap lower_ascii s.

(** [strings.EqualFold]. *)
Definition EqualFold (s t : string) : bool := strEqb (ToLower s) (ToLower t).

(** [strings.HasPrefix s p]. *)
Fixpoint HasPrefix (s p : string) : bool :=
  match p, s with
  | EmptyString, _ => true
  | String c p', String d s' => bool_decide (c = d) && HasPrefix s' p'
  | String _ _, EmptyString => false
  end.

(** [strings.Contains s sub]. *)
Fixpoint Contains (s sub : string) : bool :=
  HasPrefix s sub ||
  match s with
  | EmptyString => false
  | String _ s' => Contains s' sub
  end.

(** The suffix of [s] after its first [n] bytes. *)
Fixpoint sdrop (n : nat) (s : string) : string :=
  match n, s with
  | S n', String _ s' => sdrop n' s'
  | _, _ => s
  end.

(** [s[:n]], for [n <= len(s)]. *)
Fixpoint stake (n : nat) (s : string) : string :=
  match n, s with
  | S n', String c s' => String c (stake n' s')
  | _, _ => EmptyString
  end.

(** [strings.TrimPrefix]. *)
Definition TrimPrefix (s p : string) : string :=
  if HasPrefix s p then sdrop (String.length p) s else s.

(** [strings.TrimLeft], [strings.TrimRight] and [strings.Trim] for a
    one-byte cutset. *)
Fixpoint TrimLeft (c : ascii) (s : string) : string :=
  match s with
  | String d s' => if bool_decide (d = c) then TrimLeft c s' else s
  | EmptyString => EmptyString
  end.

Fixpoint TrimRight (c : ascii) (s : string) : string :=
  match s with
  | EmptyString => EmptyString
  | String d s' =>
      match TrimRight c s' with
      | EmptyString => if bool_decide (d = c) then EmptyString else String d EmptyString
      | r => String d r
      end
  end.

Definition Trim (c : ascii) (s : string) : string := TrimRight c (TrimLeft c s).

(** [strings.Join]. *)
Fixpoint Join (parts : list string) (sep : string) : string :=
  match parts with
  | [] => EmptyString
  | [p] => p
  | p :: ps => p +:+ sep +:+ Join ps sep
  end.

(** The two halves of [s] around the first occurrence of the byte [c]. *)
Fixpoint cut (c : ascii) (s : string) : option (string * string) :=
  match s with
  | EmptyString => None
  | String d s' =>
      if bool_decide (d = c) then Some (EmptyString, s')
      else match cut c s' with
           | Some (a, b) => Some (String d a, b)
           | None => None
           end
  end.

(** [strings.SplitN s sep 2] for a one-byte separator. *)
Definition SplitN2 (s : string) (c : ascii) : list string :=
  match cut c s with
  | Some (a, b) => [a; b]
  | None => [s]
  end.

(** ** Formatting *)

(** [%d]. *)
Definition fmt_d (z : Z) : string := pretty z.

Definition hex_digit (n : nat) : ascii :=
  if (n <? 10)%nat then ascii_of_nat (48 + n) else ascii_of_nat (87 + n).

Definition dquote : string := String (ascii_of_nat 34) EmptyString.

(** One byte of [strconv.Quote] on ASCII text. *)
Definition quote_byte (c : ascii) : string :=
  match nat_of_ascii c with
  | 34 => String "\" dquote
  | 92 => "\\"
  | 7 => "\a" | 8 => "\b" | 12 => "\f" | 10 => "\n" | 13 => "\r" | 9 => "\t" | 11 => "\v"
  | n => if (n <? 32)%nat || (n =? 127)%nat
         then "\x" +:+ String (hex_digit (n / 16)) (String (hex_digit (n mod 16)) EmptyString)
         else String c EmptyString
  end%nat.

Fixpoint quote_body (s : string) : string :=
  match s with
  | EmptyString => EmptyString
  | String c s => quote_byte c +:+ quote_body s
  end.

(** [%q]. *)
Definition fmt_q (s : string) : string := dquote +:+ quote_body s +:+ dquote.

(** [strconv.FormatUint n 16]: the digits of [n], most significant first.
    Sixteen digits are enough for a [uint64]. *)
Fixpoint hex_digits (fuel : nat) (n : N) (acc : string) : string :=
  match fuel with
  | O => acc
  | S f =>
      let acc := String (hex_digit (N.to_nat (n mod 16))) acc in
      if (n <? 16)%N then acc else hex_digits f (n / 16) acc
  end.

Definition FormatUint16 (n : N) : string := hex_digits 16 n EmptyString.

(** ** Lemmas on concatenation *)

Lemma sapp_assoc (a b c : string) : (a +:+ b) +:+ c = a +:+ (b +:+ c).
Proof. induction a as [|x a IH]; [done|]. cbn. by rewrite IH. Qed.

Lemma sapp_nil_r (a : string) : a +:+ "" = a.
Proof. induction a as [|x a IH]; [done|]. cbn. by rewrite IH. Qed.

Lemma slength_app (a b : string) :
  String.length (a +:+ b) = (String.length a + String.length b)%nat.
Proof. induction a as [|x a IH]; [done|]. cbn. by rewrite IH. Qed.

Lemma sapp_inj_l (p a b : string) : p +:+ a = p +:+ b -> a = b.
Proof. apply (inj (String.append p)). Qed.

Lemma sapp_cons (c : ascii) (a b : string) : String c a +:+ b = String c (a +:+ b).
Proof. done. Qed.

Create Rewrite HintDb strs.
#[export] Hint Rewrite sapp_assoc sapp_nil_r slength_app : strs.

(** Two strings that start with a common prefix and then differ in their first
    bytes are different: decided by cancelling and comparing. *)
Ltac str_cancel H :=
  autorewrite with strs in H;
  repeat first
    [ discriminate H
    | apply sapp_inj_l in H
    | progress (cbn [String.append] in H)
    | injection H as H ].

Ltac str_neq := let H := fresh in intro H; str_cancel H; discriminate.

(** ** Lemmas on traversals *)

Lemma sall_app p (a b : string) : sall p (a +:+ b) = sall p a && sall p b.
Proof. induction a as [|x a IH]; [done|]. cbn. by rewrite IH, andb_assoc. Qed.

Lemma sall_impl (p q : ascii -> bool) s :
  (forall c, p c = true -> q c = true) -> sall p s = true -> sall q s = true.
Proof.
  intros Hpq. induction s as [|c s IH]; [done|]. cbn.
  intros [Hc Hs]%andb_true_iff. by rewrite (Hpq _ Hc), IH.
Qed.

Lemma smap_app f (a b : string) : smap f (a +:+ b) = smap f a +:+ smap f b.
Proof. induction a as [|x a IH]; [done|]. cbn. by rewrite IH. Qed.

Lemma smap_length f (s : string) : String.length (smap f s) = String.length s.
Proof. induction s as [|c s IH]; [done|]. cbn. by rewrite IH. Qed.

Lemma smap_smap f g s : smap f (smap g s) = smap (fun c => f (g c)) s.
Proof. induction s as [|c s IH]; [done|]. cbn. by rewrite IH. Qed.

Lemma smap_id f (p : ascii -> bool) s :
  (forall c, p c = true -> f c = c) -> sall p s = true -> smap f s = s.
Proof.
  intros Hf. induction s as [|c s IH]; [done|]. cbn.
  intros [Hc Hs]%andb_true_iff. by rewrite (Hf _ Hc), IH.
Qed.

Lemma sall_smap p f s : (forall c, p (f c) = true) -> sall p (smap f s) = true.
Proof. intros Hp. induction s as [|c s IH]; [done|]. cbn. by rewrite Hp, IH. Qed.

(** ** Prefixes and substrings *)

Lemma HasPrefix_spec s p : HasPrefix s p = true <-> exists r, s = p +:+ r.
Proof.
  revert s. induction p as [|c p IH]; intros s; cbn.
  - split; [by exists s|by destruct s].
  - destruct s as [|d s]; cbn; [split; [done|by intros [r ?]]|].
    rewrite andb_true_iff, bool_decide_eq_true, IH. split.
    + intros [-> [r ->]]. by exists r.
    + intros [r [= -> ->]]. split; [done|by exists r].
Qed.

Lemma HasPrefix_app p r : HasPrefix (p +:+ r) p = true.
Proof. apply HasPrefix_spec. by exists r. Qed.

Lemma sdrop_app a b : sdrop (String.length a) (a +:+ b) = b.
Proof. induction a as [|x a IH]; [by destruct b|done]. Qed.

Lemma TrimPrefix_app p r : TrimPrefix (p +:+ r) p = r.
Proof. unfold TrimPrefix. by rewrite HasPrefix_app, sdrop_app. Qed.

Lemma Contains_spec s sub :
  Contains s sub = true <-> exists a b, s = a +:+ sub +:+ b.
Proof.
  induction s as [|c s IH].
  - change (Contains "" sub) with (HasPrefix "" sub || false).
    rewrite orb_false_r, HasPrefix_spec. split.
    + intros [r ->]. by exists "", r.
    + intros (a & b & H). exists b. by destruct a.
  - change (Contains (String c s) sub) with (HasPrefix (String c s) sub || Contains s sub).
    rewrite orb_true_iff, HasPrefix_spec, IH. split.
    + intros [[r ->]|(a & b & ->)]; [by exists "", r|by exists (String c a), b].
    + intros ([|x a] & b & H); [left; by exists b|right].
      exists a, b. by injection H.
Qed.

Lemma Contains_mid a sub b : Contains (a +:+ sub +:+ b) sub = true.
Proof. apply Contains_spec. by exists a, b. Qed.

Lemma Contains_embed a s b sub : Contains s sub = true -> Contains (a +:+ s +:+ b) sub = true.
Proof.
  rewrite !Contains_spec. intros (x & y & ->). exists (a +:+ x), (y +:+ b).
  by rewrite !sapp_assoc.
Qed.

(** ** Splitting *)

Lemma cut_app c a b :
  sall (fun d => negb (bool_decide (d = c))) a = true ->
  cut c (a +:+ String c b) = Some (a, b).
Proof.
  induction a as [|d a IH]; cbn; [by rewrite bool_decide_eq_true_2|].
  intros [Hd Ha]%andb_true_iff. apply negb_true_iff in Hd.
  by rewrite Hd, IH.
Qed.

Lemma cut_some c s a b : cut c s = Some (a, b) -> s = a +:+ String c b.
Proof.
  revert a b. induction s as [|d s IH]; [done|]. intros a b. cbn.
  destruct (bool_decide (d = c)) eqn:E.
  - apply bool_decide_eq_true in E as ->. by intros [= <- <-].
  - destruct (cut c s) as [[x y]|]; [|done]. intros [= <- <-]. cbn. f_equal. by apply IH.
Qed.

Lemma cut_some_free c s a b :
  cut c s = Some (a, b) -> sall (fun d => negb (bool_decide (d = c))) a = true.
Proof.
  revert a b. induction s as [|d s IH]; [done|]. intros a b. cbn.
  destruct (bool_decide (d = c)) eqn:E; [by intros [= <- <-]|].
  destruct (cut c s) as [[x y]|] eqn:E2; [|done]. intros [= <- <-]. cbn.
  rewrite E. cbn. by eapply IH.
Qed.

Lemma sapp_same_length a b c d :
  a +:+ b = c +:+ d -> String.length a = String.length c -> a = c /\ b = d.
Proof.
  revert c. induction a as [|x a IH]; intros [|y c]; cbn; try done.
  intros [= -> H] [= Hl]. by destruct (IH _ H Hl) as [-> ->].
Qed.

(** ** Trimming *)

(** The first byte and the last byte of a string are not [c]. *)
Definition first_not (c : ascii) (s : string) : bool :=
  match s with String d _ => negb (bool_decide (d = c)) | EmptyString => true end.

Fixpoint last_not (c : ascii) (s : string) : bool :=
  match s with
  | EmptyString => true
  | String d EmptyString => negb (bool_decide (d = c))
  | String _ s' => last_not c s'
  end.

Lemma TrimLeft_first c s : first_not c (TrimLeft c s) = true.
Proof.
  induction s as [|d s IH]; [done|]. cbn.
  destruct (bool_decide (d = c)) eqn:E; [done|]. cbn. by rewrite E.
Qed.

Lemma TrimRight_last c s : last_not c (TrimRight c s) = true.
Proof.
  induction s as [|d s IH]; [done|]. cbn.
  destruct (TrimRight c s) as [|e r]; [|exact IH].
  destruct (bool_decide (d = c)) eqn:E; [done|]. cbn. by rewrite E.
Qed.

Lemma TrimRight_first c s : first_not c s = true -> first_not c (TrimRight c s) = true.
Proof.
  destruct s as [|d s]; [done|]. cbn. intros H.
  destruct (TrimRight c s); [|done].
  destruct (bool_decide (d = c)) eqn:E; [done|]. cbn. by rewrite E.
Qed.

Lemma TrimLeft_all p c s : sall p s = true -> sall p (TrimLeft c s) = true.
Proof.
  induction s as [|d s IH]; [done|]. cbn. intros [Hd Hs]%andb_true_iff.
  case_bool_decide; [by apply IH|]. cbn. by rewrite Hd, Hs.
Qed.

Lemma TrimRight_all p c s : sall p s = true -> sall p (TrimRight c s) = true.
Proof.
  induction s as [|d s IH]; [done|]. cbn. intros [Hd Hs]%andb_true_iff.
  specialize (IH Hs). destruct (TrimRight c s) as [|e r].
  - case_bool_decide; cbn; by rewrite ?Hd.
  - cbn in *. by rewrite Hd, IH.
Qed.

Lemma TrimLeft_id c s : first_not c s = true -> TrimLeft c s = s.
Proof. destruct s as [|d s]; [done|]. cbn. by destruct (bool_decide (d = c)). Qed.

Lemma TrimRight_id c s : last_not c s = true -> TrimRight c s = s.
Proof.
  induction s as [|d [|e s] IH]; [done|cbn; by destruct (bool_decide (d = c))|].
  intros H. change (TrimRight c (String d (String e s))) with
    (match TrimRight c (String e s) with
     | EmptyString => if bool_decide (d = c) then EmptyString else String d EmptyString
     | r => String d r
     end). by rewrite IH.
Qed.

Lemma TrimRight_length c s : (String.length (TrimRight c s) <= String.length s)%nat.
Proof.
  induction s as [|d s IH]; [done|]. cbn.
  destruct (TrimRight c s); [case_bool_decide; cbn; lia|cbn in *; lia].
Qed.

Lemma stake_length n s : (String.length (stake n s) <= n)%nat.
Proof.
  revert s. induction n as [|n IH]; intros [|c s]; cbn; try lia.
  specialize (IH s). lia.
Qed.

Lemma stake_all p n s : sall p s = true -> sall p (stake n s) = true.
Proof.
  revert s. induction n as [|n IH]; intros [|c s]; cbn; try done.
  intros [Hc Hs]%andb_true_iff. by rewrite Hc, IH.
Qed.

Lemma stake_first c n s : first_not c s = true -> first_not c (stake n s) = true.
Proof. by destruct n, s. Qed.

Lemma last_not_app c a d b : last_not c (a +:+ String d b) = last_not c (String d b).
Proof. induction a as [|x a IH]; [done|]. rewrite <- IH. by destruct a. Qed.

(** The sixteen hexadecimal digits of a byte count are never empty. *)
Lemma hex_digits_nonempty f n acc : hex_digits (S f) n acc <> EmptyString.
Proof.
  assert (Hne : forall f n acc, acc <> EmptyString -> hex_digits f n acc <> EmptyString).
  { clear. induction f as [|f IH]; intros n acc Hacc; cbn; [done|].
    destruct (n <? 16)%N; [done|]. by apply IH. }
  cbn. destruct (n <? 16)%N; [done|]. by apply Hne.
Qed.
