(* ===== verification/GoMemory.v ===== *)
(** * GoMemory: Go values in memory, and what it is to copy one deeply

    The API types are structures with pointers, slices and maps; two of their
    values may share memory.  Here a value is a [val] whose references point
    into a [heap]; [ty] is the type of a value as declared in Go, [reads] says
    which data ([tree]) a value stands for in a heap, and [reaches] which cells
    it reaches.  [copies t into] is the contract of a method DeepCopyInto; the
    statements of the generated methods come with the lemma that each meets the
    contract of its field. *)
From S2P Require Import Prelude.
#[local] Open Scope Z_scope.
#[local] Open Scope go_scope.

(** ** Values and memory *)

Abbreviation loc := positive.

Inductive scalar := SStr (s : string) | SInt (n : Z) | SBool (b : bool).

(** A structure is its fields by name, nested structures inline; a pointer,
    slice or map is a reference, [VRef None] is nil. *)
Inductive val :=
| VScalar (s : scalar)
| VStruct (fs : list (string * val))
| VRef (r : option loc).

(** What a reference points to: the pointee, the elements of a slice, the
    entries of a map[string]string. *)
Inductive obj :=
| OVal (v : val)
| OArr (vs : list val)
| OMap (m : gmap string string).

Abbreviation heap := (gmap loc obj).

(** Code on memory; [None] is a run-time panic. *)
Definition H (A : Type) : Type := heap -> option (A * heap).
Definition hret {A} (a : A) : H A := fun h => Some (a, h).
Definition hpanic {A} : H A := fun _ => None.
Definition hbind {A B} (m : H A) (f : A -> H B) : H B := fun h =>
  match m h with Some (a, h') => f a h' | None => None end.
Notation "'let%' x := m 'in' f" := (hbind m (fun x => f))
  (at level 200, x pattern, m at level 100, f at level 200, right associativity) : go_scope.

Definition alloc (o : obj) : H loc := fun h =>
  let l := fresh (dom h) in Some (l, <[l := o]> h).
Definition load (l : loc) : H obj := fun h =>
  match h !! l with Some o => Some (o, h) | None => None end.
Definition store (l : loc) (o : obj) : H unit := fun h =>
  match h !! l with Some _ => Some (tt, <[l := o]> h) | None => None end.

(** ** Types *)

Inductive ty :=
| TString
| TInt
| TBool
| TMap                                  (* map[string]string *)
| TStruct (fs : list (string * ty))
| TPtr (t : ty)
| TSlice (t : ty).

(** The zero value of a type. *)
Fixpoint zero (t : ty) : val :=
  match t with
  | TString => VScalar (SStr "")
  | TInt => VScalar (SInt 0)
  | TBool => VScalar (SBool false)
  | TStruct fs => VStruct (map (fun '(f, t) => (f, zero t)) fs)
  | TMap | TPtr _ | TSlice _ => VRef None
  end.

(** A type without references: assigning one of its values copies it. *)
Fixpoint flat (t : ty) : bool :=
  match t with
  | TString | TInt | TBool => true
  | TStruct fs => forallb (fun '(_, t) => flat t) fs
  | TMap | TPtr _ | TSlice _ => false
  end.

(** ** What a value stands for, and what it reaches *)

Inductive tree :=
| Leaf (s : scalar)
| Node (xs : list tree)
| Nil
| To (x : tree)
| Seq (xs : list tree)
| Entries (m : gmap string string).

Fixpoint reads (h : heap) (t : ty) (v : val) (x : tree) {struct t} : Prop :=
  match t, v, x with
  | TString, VScalar (SStr s), Leaf s' => s' = SStr s
  | TInt, VScalar (SInt n), Leaf s' => s' = SInt n
  | TBool, VScalar (SBool b), Leaf s' => s' = SBool b
  | TStruct fs, VStruct vs, Node xs =>
      (fix fields (fs : list (string * ty)) (vs : list (string * val)) (xs : list tree) : Prop :=
         match fs, vs, xs with
         | [], [], [] => True
         | (f, t) :: fs, (g, v) :: vs, x :: xs => (g = f /\ reads h t v x) /\ fields fs vs xs
         | _, _, _ => False
         end) fs vs xs
  | TMap, VRef (Some l), Entries m => h !! l = Some (OMap m)
  | TPtr t, VRef (Some l), To x => exists v, h !! l = Some (OVal v) /\ reads h t v x
  | TSlice t, VRef (Some l), Seq xs =>
      exists vs, h !! l = Some (OArr vs) /\ Forall2 (reads h t) vs xs
  | (TMap | TPtr _ | TSlice _), VRef None, Nil => True
  | _, _, _ => False
  end.

(** One field of a structure. *)
Definition reads_field (h : heap) (f : string * ty) (v : string * val) (x : tree) : Prop :=
  v.1 = f.1 /\ reads h f.2 v.2 x.

Inductive reaches (h : heap) : ty -> val -> loc -> Prop :=
| reach_map l : reaches h TMap (VRef (Some l)) l
| reach_ptr t l : reaches h (TPtr t) (VRef (Some l)) l
| reach_pointee t l v l' :
    h !! l = Some (OVal v) -> reaches h t v l' -> reaches h (TPtr t) (VRef (Some l)) l'
| reach_slice t l : reaches h (TSlice t) (VRef (Some l)) l
| reach_elem t l vs v l' :
    h !! l = Some (OArr vs) -> v ∈ vs -> reaches h t v l' ->
    reaches h (TSlice t) (VRef (Some l)) l'
| reach_field fs vs i f g t v l :
    fs !! i = Some (f, t) -> vs !! i = Some (g, v) -> reaches h t v l ->
    reaches h (TStruct fs) (VStruct vs) l.

(** The contract of DeepCopyInto: on a value that stands for [x], it returns
    without panic a value that stands for [x] as well, in a heap that extends
    the given one, and reaches no cell that existed before. *)
Definition copies (t : ty) (into : val -> H val) : Prop :=
  forall h v x, reads h t v x ->
    exists v' h', into v h = Some (v', h') /\ h ⊆ h' /\ reads h' t v' x /\
      forall l, reaches h' t v' l -> h !! l = None.

(** ** The statements of the generated methods *)

Fixpoint assoc (f : string) (fs : list (string * val)) : option val :=
  match fs with
  | [] => None
  | (g, v) :: fs => if g =s? f then Some v else assoc f fs
  end.

(** [v.F] and [v.F = w]. *)
Definition field (f : string) (v : val) : H val :=
  match v with
  | VStruct fs => match assoc f fs with Some v => hret v | None => hpanic end
  | _ => hpanic
  end.
Definition set_field (f : string) (w v : val) : val :=
  match v with
  | VStruct fs => VStruct (map (fun '(g, u) => if g =s? f then (g, w) else (g, u)) fs)
  | v => v
  end.

(** A statement on the field [F]: the value [in.F], to the value of [out.F]. *)
Abbreviation stmt := (string * (val -> H val))%type.

(** The statements of a body in their order, from [out]. *)
Fixpoint stmts (body : list stmt) (in_ out : val) : H val :=
  match body with
  | [] => hret out
  | (f, act) :: body =>
      let% v := field f in_ in
      let% w := act v in
      stmts body in_ (set_field f w out)
  end.

(** [*out = *in] and the statements that follow. *)
Definition DeepCopyInto (body : list stmt) (in_ : val) : H val := stmts body in_ in_.

(** [out.F = in.F]. *)
Definition assign (v : val) : H val := hret v.

(** [if in.F != nil { in, out := &in.F, &out.F; ... }]. *)
Definition if_set (act : loc -> H loc) (v : val) : H val :=
  match v with
  | VRef None => hret v
  | VRef (Some l) => let% l' := act l in hret (VRef (Some l'))
  | _ => hpanic
  end.

(** [*in], of a pointer, a slice, a map. *)
Definition deref (l : loc) : H val :=
  let% o := load l in match o with OVal v => hret v | _ => hpanic end.
Definition elems (l : loc) : H (list val) :=
  let% o := load l in match o with OArr vs => hret vs | _ => hpanic end.
Definition entries (l : loc) : H (gmap string string) :=
  let% o := load l in match o with OMap m => hret m | _ => hpanic end.

(** [*out = new(T); ( *in).DeepCopyInto( *out)]. *)
Definition new_into (t : ty) (into : val -> H val) (l : loc) : H loc :=
  let% l' := alloc (OVal (zero t)) in
  let% v := deref l in
  let% w := into v in
  let% _ := store l' (OVal w) in
  hret l'.

(** [*out = new(T); **out = **in]. *)
Definition new_assign (t : ty) : loc -> H loc := new_into t assign.

(** [*out = make([]T, len( *in)); copy( *out, *in)]. *)
Definition make_copy (t : ty) (l : loc) : H loc :=
  let% vs := elems l in
  let% l' := alloc (OArr (replicate (length vs) (zero t))) in
  let% vs := elems l in
  let% _ := store l' (OArr vs) in
  hret l'.

(** [( *l)[i]] and [( *l)[i] = w]. *)
Definition elem (l : loc) (i : nat) : H val :=
  let% vs := elems l in match vs !! i with Some v => hret v | None => hpanic end.
Definition set_elem (l : loc) (i : nat) (w : val) : H unit :=
  let% vs := elems l in
  if bool_decide (i < length vs)%nat then store l (OArr (<[i := w]> vs)) else hpanic.

(** [for i := range *in { ( *in)[i].DeepCopyInto(&( *out)[i]) }], the [n]
    iterations from [i] on. *)
Fixpoint range_into (into : val -> H val) (l l' : loc) (i n : nat) : H unit :=
  match n with
  | O => hret tt
  | S n =>
      let% v := elem l i in
      let% w := into v in
      let% _ := set_elem l' i w in
      range_into into l l' (S i) n
  end.

(** [*out = make([]T, len( *in))] and the loop. *)
Definition make_into (t : ty) (into : val -> H val) (l : loc) : H loc :=
  let% vs := elems l in
  let% l' := alloc (OArr (replicate (length vs) (zero t))) in
  let% _ := range_into into l l' 0 (length vs) in
  hret l'.

(** [for key, val := range *in { ( *out)[key] = val }], in the order [kvs]. *)
Fixpoint range_store (kvs : list (string * string)) (l' : loc) : H unit :=
  match kvs with
  | [] => hret tt
  | (k, v) :: kvs =>
      let% m := entries l' in
      let% _ := store l' (OMap (<[k := v]> m)) in
      range_store kvs l'
  end.

(** [*out = make(map[string]string, len( *in))] and the loop; by
    [range_store_run] its order does not matter. *)
Definition make_map (l : loc) : H loc :=
  let% m := entries l in
  let% l' := alloc (OMap ∅) in
  let% _ := range_store (map_to_list m) l' in
  hret l'.

(** [DeepCopy]: nil for nil, else [out := new(T); in.DeepCopyInto(out)]. *)
Definition DeepCopy (t : ty) (into : val -> H val) (in_ : val) : H val :=
  if_set (new_into t into) in_.

(** A runtime.Object: a nil interface, or a type and a pointer. *)
Inductive iface := NilInterface | Dynamic (type : string) (p : loc).

(** [if c := in.DeepCopy(); c != nil { return c }; return nil]. *)
Definition DeepCopyObject (type : string) (copy : val -> H val) (in_ : val) : H iface :=
  let% c := copy in_ in
  match c with
  | VRef (Some l) => hret (Dynamic type l)
  | VRef None => hret NilInterface
  | _ => hpanic
  end.
