(* ===== verification/GoMemorySpec.v ===== *)
(** * GoMemorySpec: the contract of deep copies

    Frame lemmas of [reads] and [reaches], what a copy that meets the contract
    isolates, and that each statement of the generated methods meets the
    contract of its field. *)
From S2P Require Import Prelude.
From S2P Require Import GoMemory.
#[local] Open Scope Z_scope.
#[local] Open Scope go_scope.

(** ** Induction on types *)

Section ty_ind'.
Context (P : ty -> Prop) (Hs : P TString) (Hi : P TInt) (Hb : P TBool) (Hm : P TMap)
  (Hst : forall fs, Forall (fun f => P f.2) fs -> P (TStruct fs))
  (Hp : forall t, P t -> P (TPtr t)) (Hsl : forall t, P t -> P (TSlice t)).
Fixpoint ty_ind' (t : ty) : P t :=
  match t with
  | TString => Hs | TInt => Hi | TBool => Hb | TMap => Hm
  | TStruct fs => Hst fs
      ((fix go fs : Forall (fun f => P f.2) fs :=
          match fs with
          | [] => List.Forall_nil _
          | f :: fs => List.Forall_cons _ f fs (ty_ind' f.2) (go fs)
          end) fs)
  | TPtr t => Hp t (ty_ind' t)
  | TSlice t => Hsl t (ty_ind' t)
  end.
End ty_ind'.

Lemma Forall2_impl_elem {A B} (P Q : A -> B -> Prop) l k :
  Forall2 P l k -> (forall x y, x ∈ l -> P x y -> Q x y) -> Forall2 Q l k.
Proof.
  induction 1 as [|x y l k Hx _ IH]; intros HQ; constructor; [apply HQ; [left|done]|].
  apply IH. intros x' y' Hin. apply HQ. by right.
Qed.

(** ** Structures *)

Lemma reads_struct h fs v x :
  reads h (TStruct fs) v x <->
  exists vs xs, v = VStruct vs /\ x = Node xs /\ Forall3 (reads_field h) fs vs xs.
Proof.
  split.
  - destruct v as [|vs|]; try done. destruct x as [|xs| | | |]; try done. intros Hr.
    exists vs, xs. do 2 (split; [done|]). revert vs xs Hr.
    induction fs as [|[f t] fs IH]; intros [|[g v] vs] [|x xs]; cbn; try done; [constructor|].
    intros [[-> Hr] Hrs]. constructor; [done|]. by apply IH.
  - intros (vs & xs & -> & -> & Hf). induction Hf as [|[f t] [g v] x fs vs xs [Hg Hr] _ IH]; [done|].
    cbn in *. by split.
Qed.

Lemma reaches_fields h fs vs (P : loc -> Prop) :
  (forall l, reaches h (TStruct fs) (VStruct vs) l -> P l) <->
  forall i f t g v, fs !! i = Some (f, t) -> vs !! i = Some (g, v) ->
    forall l, reaches h t v l -> P l.
Proof.
  split.
  - intros HP i f t g v Hf Hv l Hl. apply HP. by eapply reach_field.
  - intros HP l Hl. inversion Hl; subst. by eapply HP.
Qed.

Lemma reaches_cons h f t fs g v vs (P : loc -> Prop) :
  (forall l, reaches h (TStruct ((f, t) :: fs)) (VStruct ((g, v) :: vs)) l -> P l) <->
  (forall l, reaches h t v l -> P l) /\
  (forall l, reaches h (TStruct fs) (VStruct vs) l -> P l).
Proof.
  rewrite !reaches_fields. split.
  - intros HP. split; [by apply (HP 0%nat f t g v)|]. intros i. apply (HP (S i)).
  - intros [H0 HS] [|i] f' t' g' v'; cbn; [|apply HS]. by intros [= <- <-] [= <- <-].
Qed.

(** ** Frame *)

(** A value depends on the cells it reaches only. *)
Lemma reads_frame h h' t v x :
  reads h t v x -> (forall l, reaches h t v l -> h' !! l = h !! l) -> reads h' t v x.
Proof.
  revert v x. induction t as [| | | |fs IH|t IH|t IH] using ty_ind'; intros v x Hr Hh.
  1-3: destruct v as [[]| |[]], x; try done.
  - destruct v as [|vs|[l|]], x; try done. cbn in *. rewrite Hh; [done|constructor].
  - apply reads_struct in Hr as (vs & xs & -> & -> & Hf). apply reads_struct.
    exists vs, xs. do 2 (split; [done|]). revert Hh.
    induction Hf as [|[f t] [g v] x fs vs xs [Hg Hr] _ IHf]; intros Hh; [constructor|].
    apply Forall_cons in IH as [IHt IH]. apply reaches_cons in Hh as [Hh1 Hh2].
    constructor; [split; [done|]; by apply IHt|]. by apply IHf.
  - destruct v as [|vs|[l|]], x as [| | |x| |]; try done. cbn in *. destruct Hr as (v & Hl & Hr).
    exists v. split; [rewrite Hh; [done|constructor]|]. apply IH; [done|].
    intros l' Hl'. apply Hh. by eapply reach_pointee.
  - destruct v as [|vs|[l|]], x as [| | | |xs|]; try done. cbn in *. destruct Hr as (vs & Hl & Hr).
    exists vs. split; [rewrite Hh; [done|constructor]|].
    apply (Forall2_impl_elem _ _ _ _ Hr). cbn. intros v x Hv Hr1. apply IH; [done|].
    intros l' Hl'. apply Hh. by eapply reach_elem.
Qed.

Lemma reaches_frame h h' t v l :
  reaches h' t v l -> (forall l, reaches h t v l -> h' !! l = h !! l) -> reaches h t v l.
Proof.
  induction 1 as [l|t l|t l v l' Hl Hr IH|t l|t l vs v l' Hl Hv Hr IH|fs vs i f g t v l Hf Hv Hr IH];
    intros Hh; try by constructor.
  - rewrite Hh in Hl by constructor. eapply reach_pointee; [exact Hl|]. apply IH.
    intros l2 Hl2. apply Hh. by eapply reach_pointee.
  - rewrite Hh in Hl by constructor. eapply reach_elem; [exact Hl|exact Hv|]. apply IH.
    intros l2 Hl2. apply Hh. by eapply reach_elem.
  - eapply reach_field; [done..|]. apply IH. intros l2 Hl2. apply Hh. by eapply reach_field.
Qed.

(** What a readable value reaches exists. *)
Lemma reaches_dom h t v x l : reads h t v x -> reaches h t v l -> is_Some (h !! l).
Proof.
  intros Hr Hl. revert x Hr.
  induction Hl as [l|t l|t l v l' Hl Hr IH|t l|t l vs v l' Hl Hv Hr IH|fs vs i f g t v l Hf Hv Hr IH];
    intros x Hx.
  - by destruct x.
  - destruct x; try done. by destruct Hx as (v & -> & _).
  - destruct x; try done. destruct Hx as (v' & Hl' & Hx). simplify_eq. by eapply IH.
  - destruct x; try done. by destruct Hx as (vs & -> & _).
  - destruct x; try done. destruct Hx as (vs' & Hl' & Hx). simplify_eq.
    apply list_elem_of_lookup in Hv as [i Hi].
    eapply Forall2_lookup_l in Hx as (y & _ & Hy); [|exact Hi]. by eapply IH.
  - apply reads_struct in Hx as (vs' & xs & [= ->] & -> & Hx).
    eapply Forall3_lookup_l in Hx as ([g' v'] & y & Hv' & _ & [_ Hy]); [|exact Hf].
    cbn in *. simplify_eq. by eapply IH.
Qed.

Lemma agree_sub h h' t v x l : reads h t v x -> h ⊆ h' -> reaches h t v l -> h' !! l = h !! l.
Proof.
  intros Hr Hh Hl. destruct (reaches_dom _ _ _ _ _ Hr Hl) as [o Ho]. rewrite Ho.
  by eapply lookup_weaken.
Qed.
Lemma reads_mono h h' t v x : reads h t v x -> h ⊆ h' -> reads h' t v x.
Proof. intros Hr Hh. eapply reads_frame; [exact Hr|]. intros l. by eapply agree_sub. Qed.
Lemma reaches_mono h h' t v x l : reads h t v x -> h ⊆ h' -> reaches h' t v l -> reaches h t v l.
Proof. intros Hr Hh Hl. eapply reaches_frame; [exact Hl|]. intros l'. by eapply agree_sub. Qed.

(** A flat value reaches nothing. *)
Lemma flat_reaches h t v l : flat t = true -> ~ reaches h t v l.
Proof.
  intros Ht Hl. revert Ht. induction Hl as [| | | | |fs vs i f g t v l Hf Hv Hr IH]; cbn; try done.
  intros Ht. apply IH. rewrite forallb_forall in Ht.
  apply (Ht (f, t)), list_elem_of_In. by eapply list_elem_of_lookup_2.
Qed.

(** ** What a copy isolates *)

(** After a copy, writing to what the copy reaches does not change the original,
    and writing to cells that existed before does not change the copy. *)
Lemma copies_isolated t into h v x v' h' :
  copies t into -> reads h t v x -> into v h = Some (v', h') ->
  reads h' t v x /\ reads h' t v' x /\
  (forall h2, (forall l, ~ reaches h' t v' l -> h2 !! l = h' !! l) -> reads h2 t v x) /\
  (forall h2, (forall l, h !! l = None -> h2 !! l = h' !! l) -> reads h2 t v' x).
Proof.
  intros Hc Hr Hrun. destruct (Hc h v x Hr) as (v2 & h2 & Hrun2 & Hsub & Hr' & Hnew).
  rewrite Hrun in Hrun2. injection Hrun2 as <- <-.
  pose proof (reads_mono _ _ _ _ _ Hr Hsub) as Hr1. split_and!; try done.
  - intros h3 H3. apply (reads_frame h' h3); [done|]. intros l Hl. apply H3. intros Hl'.
    apply (reaches_mono _ _ _ _ _ _ Hr Hsub) in Hl.
    apply (reaches_dom _ _ _ _ _ Hr) in Hl as [o Ho]. by rewrite (Hnew l Hl') in Ho.
  - intros h3 H3. apply (reads_frame h' h3); [done|]. intros l Hl. apply H3, Hnew, Hl.
Qed.

(** ** Statements on references *)

(** A reference statement that allocates its result: from a set reference to a
    fresh cell. *)
Definition copies_ref (t : ty) (act : loc -> H loc) : Prop :=
  forall h l x, reads h t (VRef (Some l)) x ->
    exists l' h', act l h = Some (l', h') /\ h ⊆ h' /\ reads h' t (VRef (Some l')) x /\
      forall l2, reaches h' t (VRef (Some l')) l2 -> h !! l2 = None.

Lemma flat_copies t : flat t = true -> copies t assign.
Proof.
  intros Ht h v x Hr. exists v, h. split_and!; [done|done|done|].
  intros l Hl. by apply flat_reaches in Hl.
Qed.

Lemma if_set_copies t act :
  match t with TMap | TPtr _ | TSlice _ => True | _ => False end ->
  copies_ref t act -> copies t (if_set act).
Proof.
  intros Ht Ha h v x Hr.
  destruct t; try done; destruct v as [|vs|[l|]]; try done.
  1,3,5: destruct (Ha h l x Hr) as (l' & h' & Hl & ? & ? & ?);
    exists (VRef (Some l')), h'; unfold if_set, hbind; rewrite Hl; by split_and!.
  all: exists (VRef None), h; split_and!; try done; intros l Hl; inversion Hl.
Qed.

Lemma alloc_run o h : exists l, alloc o h = Some (l, <[l := o]> h) /\ h !! l = None.
Proof. exists (fresh (dom h)). split; [done|]. apply not_elem_of_dom, is_fresh. Qed.

Lemma deref_run h l v : h !! l = Some (OVal v) -> deref l h = Some (v, h).
Proof. intros Hl. unfold deref, hbind, load. by rewrite Hl. Qed.
Lemma elems_run h l vs : h !! l = Some (OArr vs) -> elems l h = Some (vs, h).
Proof. intros Hl. unfold elems, hbind, load. by rewrite Hl. Qed.
Lemma entries_run h l m : h !! l = Some (OMap m) -> entries l h = Some (m, h).
Proof. intros Hl. unfold entries, hbind, load. by rewrite Hl. Qed.
Lemma store_run h l o : is_Some (h !! l) -> store l o h = Some (tt, <[l := o]> h).
Proof. intros [o' Hl]. unfold store. by rewrite Hl. Qed.
Lemma elem_run h l vs i v :
  h !! l = Some (OArr vs) -> vs !! i = Some v -> elem l i h = Some (v, h).
Proof. intros Hl Hi. unfold elem, hbind. by rewrite (elems_run _ _ _ Hl), Hi. Qed.
Lemma set_elem_run h l vs i w :
  h !! l = Some (OArr vs) -> (i < length vs)%nat ->
  set_elem l i w h = Some (tt, <[l := OArr (<[i := w]> vs)]> h).
Proof.
  intros Hl Hi. unfold set_elem, hbind. rewrite (elems_run _ _ _ Hl), bool_decide_true by done.
  by apply store_run; rewrite Hl.
Qed.

(** Replacing what a fresh cell holds. *)
Lemma fresh_sub (h : heap) l o h' : h !! l = None -> <[l := o]> h ⊆ h' -> h ⊆ h'.
Proof. intros Hl Hs. etrans; [|exact Hs]. by apply insert_subseteq. Qed.
Lemma update_sub (h h' : heap) l o : h !! l = None -> h ⊆ h' -> h ⊆ <[l := o]> h'.
Proof. intros Hl Hs. by apply insert_subseteq_r. Qed.

Lemma new_into_copies t into : copies t into -> copies_ref (TPtr t) (new_into t into).
Proof.
  intros Hc h l x Hr. destruct x as [| | |x| |]; try done. destruct Hr as (v & Hl & Hr).
  unfold new_into, hbind. destruct (alloc_run (OVal (zero t)) h) as (l' & -> & Hl').
  set (h1 := <[l' := OVal (zero t)]> h).
  assert (Hs1 : h ⊆ h1) by by apply insert_subseteq.
  rewrite (deref_run h1 l v) by by eapply lookup_weaken.
  destruct (Hc h1 v x (reads_mono _ _ _ _ _ Hr Hs1)) as (w & h2 & -> & Hs2 & Hw & Hnew).
  assert (Hl2 : h2 !! l' = Some (OVal (zero t))).
  { eapply lookup_weaken; [|exact Hs2]. apply lookup_insert_eq. }
  rewrite store_run by by rewrite Hl2. exists l', (<[l' := OVal w]> h2).
  assert (Hwl : forall l2, reaches h2 t w l2 -> l2 <> l' /\ h !! l2 = None).
  { intros l2 Hl3%Hnew. subst h1. apply lookup_insert_None in Hl3 as [? ?]. by split. }
  assert (Hag : forall l2, reaches h2 t w l2 -> <[l' := OVal w]> h2 !! l2 = h2 !! l2).
  { intros l2 [Hne _]%Hwl. by rewrite lookup_insert_ne. }
  split_and!; [done| | |].
  - apply update_sub; [done|]. by etrans.
  - exists w. rewrite lookup_insert_eq. split; [done|]. by eapply reads_frame.
  - intros l2 Hl3. inversion Hl3 as [|? ?|? ? v2 ? Hv2 Hl4| | |]; subst; [done|].
    rewrite lookup_insert_eq in Hv2. injection Hv2 as <-.
    eapply reaches_frame in Hl4; [|exact Hag]. by apply Hwl.
Qed.

Lemma new_assign_copies t : flat t = true -> copies_ref (TPtr t) (new_assign t).
Proof. intros Ht. by apply new_into_copies, flat_copies. Qed.

Lemma make_copy_copies t : flat t = true -> copies_ref (TSlice t) (make_copy t).
Proof.
  intros Ht h l x Hr. destruct x as [| | | |xs|]; try done. destruct Hr as (vs & Hl & Hr).
  unfold make_copy, hbind. rewrite (elems_run _ _ _ Hl).
  destruct (alloc_run (OArr (replicate (length vs) (zero t))) h) as (l' & -> & Hl').
  rewrite (elems_run _ l vs) by (rewrite lookup_insert_ne; [done|congruence]).
  rewrite store_run by by rewrite lookup_insert_eq. rewrite insert_insert_eq.
  exists l', (<[l' := OArr vs]> h). split_and!; [done|by apply insert_subseteq| |].
  - exists vs. rewrite lookup_insert_eq. split; [done|].
    eapply Forall2_impl; [exact Hr|]. intros v x Hv. eapply reads_mono; [exact Hv|].
    by apply insert_subseteq.
  - intros l2 Hl2. inversion Hl2 as [| | | |? ? vs2 v2 ? Hv2 Hin Hl3|]; subst; [done|].
    by apply flat_reaches in Hl3.
Qed.

Lemma range_store_run kvs l' m h :
  h !! l' = Some (OMap m) ->
  range_store kvs l' h =
    Some (tt, <[l' := OMap (foldl (fun m kv => <[kv.1 := kv.2]> m) m kvs)]> h).
Proof.
  revert m h. induction kvs as [|[k v] kvs IH]; intros m h Hl; cbn [range_store foldl].
  - unfold hret. by rewrite insert_id.
  - unfold hbind. rewrite (entries_run _ _ _ Hl), store_run by by rewrite Hl.
    rewrite (IH (<[k := v]> m)) by apply lookup_insert_eq. by rewrite insert_insert_eq.
Qed.

(** The order of the entries does not matter. *)
Lemma foldl_insert (kvs : list (string * string)) (m : gmap string string) :
  NoDup kvs.*1 ->
  foldl (fun m kv => <[kv.1 := kv.2]> m) m kvs = list_to_map kvs ∪ m.
Proof.
  revert m. induction kvs as [|[k v] kvs IH]; intros m Hnd; cbn [foldl]; [symmetry; apply (left_id_L ∅ _)|].
  apply NoDup_cons in Hnd as [Hk Hnd]. rewrite IH by done. cbn.
  rewrite <- insert_union_r; [|by apply not_elem_of_list_to_map_1]. by rewrite insert_union_l.
Qed.
Lemma range_store_perm kvs (m : gmap string string) :
  kvs ≡ₚ map_to_list m -> foldl (fun m kv => <[kv.1 := kv.2]> m) ∅ kvs = m.
Proof.
  intros Hp. assert (Hnd : NoDup kvs.*1) by (rewrite Hp; apply NoDup_fst_map_to_list).
  rewrite foldl_insert, map_union_empty by done.
  rewrite (list_to_map_proper kvs (map_to_list m)) by done. apply list_to_map_to_list.
Qed.

Lemma make_map_copies : copies_ref TMap make_map.
Proof.
  intros h l x Hr. destruct x as [| | | | |m]; try done. cbn in Hr.
  unfold make_map, hbind. rewrite (entries_run _ _ _ Hr).
  destruct (alloc_run (OMap ∅) h) as (l' & -> & Hl').
  rewrite (range_store_run _ _ ∅) by apply lookup_insert_eq.
  rewrite (range_store_perm _ m), insert_insert_eq by done.
  exists l', (<[l' := OMap m]> h). split_and!; [done|by apply insert_subseteq| |].
  - apply lookup_insert_eq.
  - intros l2 Hl2. by inversion Hl2; subst.
Qed.

(** ** The loop over a slice of structures *)

(** After [i] iterations: the first [i] cells of the new slice stand for the
    first [i] data and reach new cells only, and not the slice itself. *)
Record looping (t : ty) (h0 : heap) (l' : loc) (xs : list tree) (i : nat) (h : heap) : Prop := {
  loop_sub : h0 ⊆ h;
  loop_new : h0 !! l' = None;
  loop_cells : exists ws, h !! l' = Some (OArr ws) /\ length ws = length xs /\
    forall j w x, (j < i)%nat -> ws !! j = Some w -> xs !! j = Some x ->
      reads h t w x /\ forall l, reaches h t w l -> l <> l' /\ h0 !! l = None;
}.

Lemma loop_step t into h0 l l' vs xs i h :
  copies t into -> h0 !! l = Some (OArr vs) -> Forall2 (reads h0 t) vs xs ->
  looping t h0 l' xs i h -> (i < length xs)%nat ->
  exists v w h1 h2, elem l i h = Some (v, h) /\ into v h = Some (w, h1) /\
    set_elem l' i w h1 = Some (tt, h2) /\ looping t h0 l' xs (S i) h2.
Proof.
  intros Hc Hl Hr [Hsub Hnew (ws & Hws & Hlen & Hdone)] Hi.
  destruct (lookup_lt_is_Some_2 xs i Hi) as [x Hx].
  destruct (Forall2_lookup_r _ _ _ _ _ Hr Hx) as (v & Hv & Hrv).
  destruct (Hc h v x (reads_mono _ _ _ _ _ Hrv Hsub)) as (w & h1 & Hw & Hs1 & Hrw & Hnw).
  assert (Hws1 : h1 !! l' = Some (OArr ws)) by by eapply lookup_weaken.
  exists v, w, h1, (<[l' := OArr (<[i := w]> ws)]> h1).
  split; [eapply elem_run; [by eapply lookup_weaken|done]|]. split; [done|].
  split; [by apply set_elem_run; [|lia]|].
  assert (Hwl : forall l2, reaches h1 t w l2 -> l2 <> l' /\ h0 !! l2 = None).
  { intros l2 Hl2%Hnw. split; [congruence|]. by eapply lookup_weaken_None. }
  assert (Hfr : forall u y, reads h1 t u y -> (forall l2, reaches h1 t u l2 -> l2 <> l' /\ h0 !! l2 = None) ->
    let h2 := <[l' := OArr (<[i := w]> ws)]> h1 in
    reads h2 t u y /\ forall l2, reaches h2 t u l2 -> l2 <> l' /\ h0 !! l2 = None).
  { intros u y Hu Hul h2.
    assert (Hag : forall l2, reaches h1 t u l2 -> h2 !! l2 = h1 !! l2).
    { intros l2 [Hne _]%Hul. subst h2. by rewrite lookup_insert_ne. }
    split; [by eapply reads_frame|]. intros l2 Hl2. apply Hul. by eapply reaches_frame. }
  split; [apply update_sub; [done|by etrans]|done|].
  exists (<[i := w]> ws). rewrite lookup_insert_eq, length_insert. do 2 (split; [done|]).
  intros j u y Hj Hu Hy. apply Hfr.
  - destruct (decide (j = i)) as [->|Hne].
    + rewrite list_lookup_insert_eq in Hu by lia. simplify_eq. done.
    + rewrite list_lookup_insert_ne in Hu by done. destruct (Hdone j u y) as [Hru _]; [lia|done..|].
      by eapply reads_mono.
  - destruct (decide (j = i)) as [->|Hne].
    + rewrite list_lookup_insert_eq in Hu by lia. by simplify_eq.
    + rewrite list_lookup_insert_ne in Hu by done. destruct (Hdone j u y) as [Hru Hul]; [lia|done..|].
      intros l2 Hl2. apply Hul. by eapply reaches_mono.
Qed.

Lemma range_into_run t into h0 l l' vs xs i n h :
  copies t into -> h0 !! l = Some (OArr vs) -> Forall2 (reads h0 t) vs xs ->
  looping t h0 l' xs i h -> (i + n = length xs)%nat ->
  exists h', range_into into l l' i n h = Some (tt, h') /\ looping t h0 l' xs (length xs) h'.
Proof.
  intros Hc Hl Hr. revert i h. induction n as [|n IH]; intros i h Hi Hn.
  - exists h. split; [done|]. by replace (length xs) with i by lia.
  - destruct (loop_step t into h0 l l' vs xs i h) as (v & w & h1 & h2 & H1 & H2 & H3 & H4); try done; [lia|].
    cbn [range_into]. unfold hbind. rewrite H1, H2, H3. apply IH; [done|lia].
Qed.

Lemma make_into_copies t into : copies t into -> copies_ref (TSlice t) (make_into t into).
Proof.
  intros Hc h l x Hr. destruct x as [| | | |xs|]; try done. destruct Hr as (vs & Hl & Hr).
  pose proof (Forall2_length _ _ _ Hr) as Hlen.
  unfold make_into, hbind. rewrite (elems_run _ _ _ Hl).
  destruct (alloc_run (OArr (replicate (length vs) (zero t))) h) as (l' & -> & Hl').
  destruct (range_into_run t into h l l' vs xs 0 (length vs)
              (<[l' := OArr (replicate (length vs) (zero t))]> h))
    as (h' & -> & [Hsub _ (ws & Hws & Hlw & Hdone)]); try done.
  { split; [by apply insert_subseteq|done|]. eexists. rewrite lookup_insert_eq, length_replicate.
    split_and!; [done|done|lia]. }
  exists l', h'. split_and!; [done|done| |].
  - exists ws. split; [done|]. apply Forall2_same_length_lookup. split; [done|].
    intros j w x Hw Hx. apply (Hdone j); [by eapply lookup_lt_Some|done..].
  - intros l2 Hl2. inversion Hl2 as [| | | |? ? ws2 w ? Hws2 Hin Hl3|]; subst; [done|]. simplify_eq.
    apply list_elem_of_lookup in Hin as [j Hw].
    assert (Hj : (j < length xs)%nat) by (rewrite <- Hlw; by eapply lookup_lt_Some).
    destruct (lookup_lt_is_Some_2 xs j Hj) as [x Hx]. by apply (Hdone j w x).
Qed.

(** ** Structures: the bodies of the methods *)

(** A body treats the fields in their order and leaves out flat fields only. *)
Inductive covers : list (string * ty) -> list stmt -> Prop :=
| covers_nil : covers [] []
| covers_skip f t fs body : flat t = true -> covers fs body -> covers ((f, t) :: fs) body
| covers_take f t act fs body :
    copies t act -> covers fs body -> covers ((f, t) :: fs) ((f, act) :: body).

Lemma assoc_app f v (pre vs : list (string * val)) :
  f ∉ pre.*1 -> assoc f (pre ++ (f, v) :: vs) = Some v.
Proof.
  induction pre as [|[g u] pre IH]; cbn; [by rewrite strEqb_refl|].
  intros [Hne Hf]%not_elem_of_cons. rewrite (proj2 (strEqb_neq g f)) by done. by apply IH.
Qed.

Lemma set_skip f w (vs : list (string * val)) :
  f ∉ vs.*1 -> map (fun '(g, u) => if g =s? f then (g, w) else (g, u)) vs = vs.
Proof.
  induction vs as [|[g u] vs IH]; cbn; [done|]. intros [Hne Hf]%not_elem_of_cons.
  rewrite (proj2 (strEqb_neq g f)) by done. by rewrite IH.
Qed.

Lemma set_field_app f w v (pre vs : list (string * val)) :
  f ∉ pre.*1 -> f ∉ vs.*1 ->
  set_field f w (VStruct (pre ++ (f, v) :: vs)) = VStruct (pre ++ (f, w) :: vs).
Proof.
  intros Hp Hv. cbn [set_field]. f_equal. rewrite map_app. cbn [map].
  by rewrite strEqb_refl, !set_skip.
Qed.

Lemma reads_names h fs vs xs : Forall3 (reads_field h) fs vs xs -> vs.*1 = fs.*1.
Proof. induction 1 as [|[f t] [g v] x fs vs xs [Hg _] _ IH]; cbn in *; congruence. Qed.

Lemma fields_mono h h' fs vs xs :
  h ⊆ h' -> Forall3 (reads_field h) fs vs xs -> Forall3 (reads_field h') fs vs xs.
Proof.
  intros Hs. induction 1 as [|f v x fs vs xs [Hg Hr] _ IH]; constructor; [|done].
  split; [done|]. by eapply reads_mono.
Qed.

(** The rest of a body, when the fields before were treated: [pre0] in the
    original, [pre] in the copy. *)
Lemma stmts_copies fs body h pre0 pre vs xs :
  covers fs body -> NoDup fs.*1 -> pre.*1 = pre0.*1 -> (forall f, f ∈ fs.*1 -> f ∉ pre0.*1) ->
  Forall3 (reads_field h) fs vs xs ->
  exists vs' h', stmts body (VStruct (pre0 ++ vs)) (VStruct (pre ++ vs)) h =
      Some (VStruct (pre ++ vs'), h') /\
    h ⊆ h' /\ Forall3 (reads_field h') fs vs' xs /\
    forall l, reaches h' (TStruct fs) (VStruct vs') l -> h !! l = None.
Proof.
  intros Hc. revert h pre0 pre vs xs.
  induction Hc as [|f t fs body Ht Hc IH|f t act fs body Ha Hc IH];
    intros h pre0 pre vs xs Hnd Hpre Hdisj Hr.
  - inversion Hr; subst. exists [], h. split_and!; try done. intros l Hl. by inversion Hl.
  - inversion Hr as [|? [g v] x ? vs1 xs1 [Hg Hv] Hr1]; subst. cbn in Hg, Hv. subst g.
    cbn [fmap list_fmap fst] in Hnd, Hdisj. apply NoDup_cons in Hnd as [Hf Hnd].
    destruct (IH h (pre0 ++ [(f, v)]) (pre ++ [(f, v)]) vs1 xs1) as (vs' & h' & Hrun & Hs & Hr' & Hn).
    { done. } { by rewrite !fmap_app, Hpre. }
    { intros f' Hf'. rewrite fmap_app. intros [Hin|Hin]%elem_of_app; [set_solver|].
      apply list_elem_of_singleton in Hin as ->. done. }
    { done. }
    rewrite <- !app_assoc in Hrun. exists ((f, v) :: vs'), h'. split; [exact Hrun|].
    split; [done|]. split; [constructor; [|done]; split; [done|]; by eapply reads_mono|].
    apply reaches_cons. split; [|done]. intros l Hl. by apply flat_reaches in Hl.
  - inversion Hr as [|? [g v] x ? vs1 xs1 [Hg Hv] Hr1]; subst. cbn in Hg, Hv. subst g.
    cbn [fmap list_fmap fst] in Hnd, Hdisj. apply NoDup_cons in Hnd as [Hf Hnd].
    destruct (Ha h v x Hv) as (w & h1 & Hw & Hs1 & Hrw & Hnw).
    destruct (IH h1 (pre0 ++ [(f, v)]) (pre ++ [(f, w)]) vs1 xs1) as (vs' & h' & Hrun & Hs & Hr' & Hn).
    { done. } { by rewrite !fmap_app, Hpre. }
    { intros f' Hf'. rewrite fmap_app. intros [Hin|Hin]%elem_of_app; [set_solver|].
      apply list_elem_of_singleton in Hin as ->. done. }
    { by eapply fields_mono. }
    assert (Hfp : f ∉ pre0.*1) by (apply Hdisj; left).
    cbn [stmts]. unfold hbind. cbn [field]. rewrite assoc_app by done. cbn [hret]. rewrite Hw.
    rewrite set_field_app; [|by rewrite Hpre|by rewrite (reads_names _ _ _ _ Hr1)].
    rewrite <- !app_assoc in Hrun. cbn [app] in Hrun. rewrite Hrun.
    exists ((f, w) :: vs'), h'. split; [done|]. split; [by etrans|].
    split; [constructor; [|done]; split; [done|]; by eapply reads_mono|].
    apply reaches_cons. split.
    + intros l Hl. apply Hnw. by eapply reaches_mono.
    + intros l Hl. by eapply lookup_weaken_None; [apply Hn|].
Qed.

Lemma DeepCopyInto_copies fs body :
  NoDup fs.*1 -> covers fs body -> copies (TStruct fs) (DeepCopyInto body).
Proof.
  intros Hnd Hc h v x (vs & xs & -> & -> & Hr)%reads_struct.
  destruct (stmts_copies fs body h [] [] vs xs) as (vs' & h' & Hrun & Hs & Hr' & Hn);
    [done|done|done|by intros ? ? ?%elem_of_nil|done|].
  exists (VStruct vs'), h'. split_and!; [done|done| |done].
  apply reads_struct. by exists vs', xs.
Qed.

(** ** The exported methods *)

Lemma DeepCopy_copies t into : copies t into -> copies (TPtr t) (DeepCopy t into).
Proof. intros Hc. by apply if_set_copies, new_into_copies. Qed.

(** DeepCopyObject answers a nil interface for nil and for nothing else, and
    otherwise its type and an isolated copy. *)
Lemma DeepCopyObject_run t into type h p x :
  copies t into -> reads h (TPtr t) p x ->
  match p with
  | VRef None => DeepCopyObject type (DeepCopy t into) p h = Some (NilInterface, h)
  | _ => exists l h', DeepCopyObject type (DeepCopy t into) p h = Some (Dynamic type l, h') /\
           DeepCopy t into p h = Some (VRef (Some l), h')
  end.
Proof.
  intros Hc Hr. pose proof (DeepCopy_copies t into Hc h p x Hr) as (p' & h' & Hp & _).
  destruct p as [s|fs|[l|]]; try done. unfold DeepCopyObject, hbind.
  rewrite Hp. unfold DeepCopy, if_set, hbind in Hp. destruct (new_into t into l h) as [[l' h2]|]; [|done].
  injection Hp as <- <-. by exists l', h2.
Qed.
