(* ===== verification/K8sCopies.v ===== *)
(** * K8sCopies: the third-party types inside the API types

    The API types embed types of apimachinery and of Cluster API.  Their
    declarations and deep copies are not part of the program: the class states
    what its generated code relies on, that some of them have no references and
    that DeepCopyInto of the others meets the contract. *)
From S2P Require Import Prelude.
From S2P Require Import GoMemory.

Class K8sCopies := {
  (** metav1.TypeMeta, clusterv1.APIEndpoint, clusterv1.MachineAddress *)
  TypeMeta_ty : ty;
  APIEndpoint_ty : ty;
  MachineAddress_ty : ty;
  TypeMeta_flat : flat TypeMeta_ty = true;
  APIEndpoint_flat : flat APIEndpoint_ty = true;
  MachineAddress_flat : flat MachineAddress_ty = true;
  (** metav1.ObjectMeta, metav1.ListMeta, clusterv1.ObjectMeta, metav1.Condition,
      clusterv1.FailureDomain *)
  ObjectMeta_ty : ty;
  ListMeta_ty : ty;
  TemplateMeta_ty : ty;
  Condition_ty : ty;
  FailureDomain_ty : ty;
  ObjectMeta_DeepCopyInto : val -> H val;
  ListMeta_DeepCopyInto : val -> H val;
  TemplateMeta_DeepCopyInto : val -> H val;
  Condition_DeepCopyInto : val -> H val;
  FailureDomain_DeepCopyInto : val -> H val;
  ObjectMeta_copies : copies ObjectMeta_ty ObjectMeta_DeepCopyInto;
  ListMeta_copies : copies ListMeta_ty ListMeta_DeepCopyInto;
  TemplateMeta_copies : copies TemplateMeta_ty TemplateMeta_DeepCopyInto;
  Condition_copies : copies Condition_ty Condition_DeepCopyInto;
  FailureDomain_copies : copies FailureDomain_ty FailureDomain_DeepCopyInto;
}.
