(* ===== verification/DeepCopyV1alpha1.v ===== *)
(** * DeepCopyV1alpha1: the types and the generated deep copies of api/v1alpha1

    For each type of the package: its declaration as a [ty], with the fields in
    their order, and its methods of zz_generated.deepcopy.go. *)
From S2P Require Import Prelude.
From S2P Require Import GoMemory.
From S2P Require Import K8sCopies.
#[local] Open Scope Z_scope.

Section deepcopy.
Context `{K8sCopies}.

(** ** SecretKey *)

Definition SecretKey_ty : ty := TStruct [
  ("Namespace", TString); ("Name", TString)].
Definition SecretKey_DeepCopyInto : val -> H val := DeepCopyInto [].
Definition SecretKey_DeepCopy : val -> H val := DeepCopy SecretKey_ty SecretKey_DeepCopyInto.

(** ** OVHListener *)

Definition OVHListener_ty : ty := TStruct [
  ("Name", TString); ("Port", TInt); ("Protocol", TString); ("BackendPort", TInt)].
Definition OVHListener_DeepCopyInto : val -> H val := DeepCopyInto [].
Definition OVHListener_DeepCopy : val -> H val := DeepCopy OVHListener_ty OVHListener_DeepCopyInto.

(** ** OVHLoadBalancerConfig *)

Definition OVHLoadBalancerConfig_ty : ty := TStruct [
  ("SubnetID", TString); ("FlavorName", TString); ("FloatingNetworkID", TString);
  ("Listeners", TSlice OVHListener_ty)].
Definition OVHLoadBalancerConfig_DeepCopyInto : val -> H val := DeepCopyInto [
  ("Listeners", if_set (make_copy OVHListener_ty))].
Definition OVHLoadBalancerConfig_DeepCopy : val -> H val :=
  DeepCopy OVHLoadBalancerConfig_ty OVHLoadBalancerConfig_DeepCopyInto.

(** ** OVHNetworkConfig *)

Definition OVHNetworkConfig_ty : ty := TStruct [
  ("PrivateNetworkID", TString); ("SubnetCIDR", TString); ("VlanID", TInt); ("Gateway", TString);
  ("DNSServers", TSlice TString)].
Definition OVHNetworkConfig_DeepCopyInto : val -> H val := DeepCopyInto [
  ("DNSServers", if_set (make_copy TString))].
Definition OVHNetworkConfig_DeepCopy : val -> H val :=
  DeepCopy OVHNetworkConfig_ty OVHNetworkConfig_DeepCopyInto.

(** ** OVHClusterSpec *)

Definition OVHClusterSpec_ty : ty := TStruct [
  ("ServiceName", TString); ("Region", TString); ("IdentitySecret", SecretKey_ty);
  ("ControlPlaneEndpoint", APIEndpoint_ty); ("LoadBalancerConfig", OVHLoadBalancerConfig_ty);
  ("NetworkConfig", TPtr OVHNetworkConfig_ty); ("SSHKeyName", TString)].
Definition OVHClusterSpec_DeepCopyInto : val -> H val := DeepCopyInto [
  ("IdentitySecret", assign); ("ControlPlaneEndpoint", assign);
  ("LoadBalancerConfig", OVHLoadBalancerConfig_DeepCopyInto);
  ("NetworkConfig", if_set (new_into OVHNetworkConfig_ty OVHNetworkConfig_DeepCopyInto))].
Definition OVHClusterSpec_DeepCopy : val -> H val :=
  DeepCopy OVHClusterSpec_ty OVHClusterSpec_DeepCopyInto.

(** ** OVHClusterStatus *)

Definition OVHClusterStatus_ty : ty := TStruct [
  ("Ready", TBool); ("FailureReason", TString); ("FailureMessage", TString);
  ("Conditions", TSlice Condition_ty); ("NetworkID", TString); ("SubnetID", TString);
  ("LoadBalancerID", TString); ("ListenerID", TString); ("PoolID", TString);
  ("FloatingIPID", TString); ("GatewayID", TString); ("GatewayExposed", TBool);
  ("RegisterListenerID", TString); ("RegisterPoolID", TString)].
Definition OVHClusterStatus_DeepCopyInto : val -> H val := DeepCopyInto [
  ("Conditions", if_set (make_into Condition_ty Condition_DeepCopyInto))].
Definition OVHClusterStatus_DeepCopy : val -> H val :=
  DeepCopy OVHClusterStatus_ty OVHClusterStatus_DeepCopyInto.

(** ** OVHCluster *)

Definition OVHCluster_ty : ty := TStruct [
  ("TypeMeta", TypeMeta_ty); ("ObjectMeta", ObjectMeta_ty); ("Spec", OVHClusterSpec_ty);
  ("Status", OVHClusterStatus_ty)].
Definition OVHCluster_DeepCopyInto : val -> H val := DeepCopyInto [
  ("TypeMeta", assign); ("ObjectMeta", ObjectMeta_DeepCopyInto);
  ("Spec", OVHClusterSpec_DeepCopyInto); ("Status", OVHClusterStatus_DeepCopyInto)].
Definition OVHCluster_DeepCopy : val -> H val := DeepCopy OVHCluster_ty OVHCluster_DeepCopyInto.
Definition OVHCluster_DeepCopyObject : val -> H iface :=
  DeepCopyObject "OVHCluster" OVHCluster_DeepCopy.

(** ** OVHClusterList *)

Definition OVHClusterList_ty : ty := TStruct [
  ("TypeMeta", TypeMeta_ty); ("ListMeta", ListMeta_ty); ("Items", TSlice OVHCluster_ty)].
Definition OVHClusterList_DeepCopyInto : val -> H val := DeepCopyInto [
  ("TypeMeta", assign); ("ListMeta", ListMeta_DeepCopyInto);
  ("Items", if_set (make_into OVHCluster_ty OVHCluster_DeepCopyInto))].
Definition OVHClusterList_DeepCopy : val -> H val :=
  DeepCopy OVHClusterList_ty OVHClusterList_DeepCopyInto.
Definition OVHClusterList_DeepCopyObject : val -> H iface :=
  DeepCopyObject "OVHClusterList" OVHClusterList_DeepCopy.

(** ** OVHClusterValidator *)

Definition OVHClusterValidator_ty : ty := TStruct [].
Definition OVHClusterValidator_DeepCopyInto : val -> H val := DeepCopyInto [].
Definition OVHClusterValidator_DeepCopy : val -> H val :=
  DeepCopy OVHClusterValidator_ty OVHClusterValidator_DeepCopyInto.

(** ** OVHClusterTemplateResource *)

Definition OVHClusterTemplateResource_ty : ty := TStruct [
  ("ObjectMeta", TemplateMeta_ty); ("Spec", OVHClusterSpec_ty)].
Definition OVHClusterTemplateResource_DeepCopyInto : val -> H val := DeepCopyInto [
  ("ObjectMeta", TemplateMeta_DeepCopyInto); ("Spec", OVHClusterSpec_DeepCopyInto)].
Definition OVHClusterTemplateResource_DeepCopy : val -> H val :=
  DeepCopy OVHClusterTemplateResource_ty OVHClusterTemplateResource_DeepCopyInto.

(** ** OVHClusterTemplateSpec *)

Definition OVHClusterTemplateSpec_ty : ty := TStruct [
  ("Template", OVHClusterTemplateResource_ty)].
Definition OVHClusterTemplateSpec_DeepCopyInto : val -> H val := DeepCopyInto [
  ("Template", OVHClusterTemplateResource_DeepCopyInto)].
Definition OVHClusterTemplateSpec_DeepCopy : val -> H val :=
  DeepCopy OVHClusterTemplateSpec_ty OVHClusterTemplateSpec_DeepCopyInto.

(** ** OVHClusterTemplate *)

Definition OVHClusterTemplate_ty : ty := TStruct [
  ("TypeMeta", TypeMeta_ty); ("ObjectMeta", ObjectMeta_ty); ("Spec", OVHClusterTemplateSpec_ty)].
Definition OVHClusterTemplate_DeepCopyInto : val -> H val := DeepCopyInto [
  ("TypeMeta", assign); ("ObjectMeta", ObjectMeta_DeepCopyInto);
  ("Spec", OVHClusterTemplateSpec_DeepCopyInto)].
Definition OVHClusterTemplate_DeepCopy : val -> H val :=
  DeepCopy OVHClusterTemplate_ty OVHClusterTemplate_DeepCopyInto.
Definition OVHClusterTemplate_DeepCopyObject : val -> H iface :=
  DeepCopyObject "OVHClusterTemplate" OVHClusterTemplate_DeepCopy.

(** ** OVHClusterTemplateList *)

Definition OVHClusterTemplateList_ty : ty := TStruct [
  ("TypeMeta", TypeMeta_ty); ("ListMeta", ListMeta_ty); ("Items", TSlice OVHClusterTemplate_ty)].
Definition OVHClusterTemplateList_DeepCopyInto : val -> H val := DeepCopyInto [
  ("TypeMeta", assign); ("ListMeta", ListMeta_DeepCopyInto);
  ("Items", if_set (make_into OVHClusterTemplate_ty OVHClusterTemplate_DeepCopyInto))].
Definition OVHClusterTemplateList_DeepCopy : val -> H val :=
  DeepCopy OVHClusterTemplateList_ty OVHClusterTemplateList_DeepCopyInto.
Definition OVHClusterTemplateList_DeepCopyObject : val -> H iface :=
  DeepCopyObject "OVHClusterTemplateList" OVHClusterTemplateList_DeepCopy.

(** ** OVHVolume *)

Definition OVHVolume_ty : ty := TStruct [
  ("Name", TString); ("SizeGB", TInt); ("Type", TString)].
Definition OVHVolume_DeepCopyInto : val -> H val := DeepCopyInto [].
Definition OVHVolume_DeepCopy : val -> H val := DeepCopy OVHVolume_ty OVHVolume_DeepCopyInto.

(** ** Initialization *)

Definition Initialization_ty : ty := TStruct [
  ("Provisioned", TBool)].
Definition Initialization_DeepCopyInto : val -> H val := DeepCopyInto [].
Definition Initialization_DeepCopy : val -> H val :=
  DeepCopy Initialization_ty Initialization_DeepCopyInto.

(** ** OVHMachineSpec *)

Definition OVHMachineSpec_ty : ty := TStruct [
  ("ProviderID", TString); ("FlavorName", TString); ("ImageName", TString);
  ("SSHKeyName", TString); ("RootDiskSize", TInt); ("AdditionalVolumes", TSlice OVHVolume_ty);
  ("FailureDomain", TString)].
Definition OVHMachineSpec_DeepCopyInto : val -> H val := DeepCopyInto [
  ("AdditionalVolumes", if_set (make_copy OVHVolume_ty))].
Definition OVHMachineSpec_DeepCopy : val -> H val :=
  DeepCopy OVHMachineSpec_ty OVHMachineSpec_DeepCopyInto.

(** ** OVHMachineStatus *)

Definition OVHMachineStatus_ty : ty := TStruct [
  ("Ready", TBool); ("Conditions", TSlice Condition_ty); ("FailureReason", TString);
  ("FailureMessage", TString); ("Addresses", TSlice MachineAddress_ty);
  ("Initialization", Initialization_ty); ("InstanceID", TString); ("VolumeIDs", TSlice TString);
  ("LBPoolMemberID", TString); ("RegisterPoolMemberID", TString)].
Definition OVHMachineStatus_DeepCopyInto : val -> H val := DeepCopyInto [
  ("Conditions", if_set (make_into Condition_ty Condition_DeepCopyInto));
  ("Addresses", if_set (make_copy MachineAddress_ty)); ("Initialization", assign);
  ("VolumeIDs", if_set (make_copy TString))].
Definition OVHMachineStatus_DeepCopy : val -> H val :=
  DeepCopy OVHMachineStatus_ty OVHMachineStatus_DeepCopyInto.

(** ** OVHMachine *)

Definition OVHMachine_ty : ty := TStruct [
  ("TypeMeta", TypeMeta_ty); ("ObjectMeta", ObjectMeta_ty); ("Spec", OVHMachineSpec_ty);
  ("Status", OVHMachineStatus_ty)].
Definition OVHMachine_DeepCopyInto : val -> H val := DeepCopyInto [
  ("TypeMeta", assign); ("ObjectMeta", ObjectMeta_DeepCopyInto);
  ("Spec", OVHMachineSpec_DeepCopyInto); ("Status", OVHMachineStatus_DeepCopyInto)].
Definition OVHMachine_DeepCopy : val -> H val := DeepCopy OVHMachine_ty OVHMachine_DeepCopyInto.
Definition OVHMachine_DeepCopyObject : val -> H iface :=
  DeepCopyObject "OVHMachine" OVHMachine_DeepCopy.

(** ** OVHMachineList *)

Definition OVHMachineList_ty : ty := TStruct [
  ("TypeMeta", TypeMeta_ty); ("ListMeta", ListMeta_ty); ("Items", TSlice OVHMachine_ty)].
Definition OVHMachineList_DeepCopyInto : val -> H val := DeepCopyInto [
  ("TypeMeta", assign); ("ListMeta", ListMeta_DeepCopyInto);
  ("Items", if_set (make_into OVHMachine_ty OVHMachine_DeepCopyInto))].
Definition OVHMachineList_DeepCopy : val -> H val :=
  DeepCopy OVHMachineList_ty OVHMachineList_DeepCopyInto.
Definition OVHMachineList_DeepCopyObject : val -> H iface :=
  DeepCopyObject "OVHMachineList" OVHMachineList_DeepCopy.

(** ** OVHMachineValidator *)

Definition OVHMachineValidator_ty : ty := TStruct [].
Definition OVHMachineValidator_DeepCopyInto : val -> H val := DeepCopyInto [].
Definition OVHMachineValidator_DeepCopy : val -> H val :=
  DeepCopy OVHMachineValidator_ty OVHMachineValidator_DeepCopyInto.

(** ** OVHMachineTemplateResource *)

Definition OVHMachineTemplateResource_ty : ty := TStruct [
  ("ObjectMeta", TemplateMeta_ty); ("Spec", OVHMachineSpec_ty)].
Definition OVHMachineTemplateResource_DeepCopyInto : val -> H val := DeepCopyInto [
  ("ObjectMeta", TemplateMeta_DeepCopyInto); ("Spec", OVHMachineSpec_DeepCopyInto)].
Definition OVHMachineTemplateResource_DeepCopy : val -> H val :=
  DeepCopy OVHMachineTemplateResource_ty OVHMachineTemplateResource_DeepCopyInto.

(** ** OVHMachineTemplateSpec *)

Definition OVHMachineTemplateSpec_ty : ty := TStruct [
  ("Template", OVHMachineTemplateResource_ty)].
Definition OVHMachineTemplateSpec_DeepCopyInto : val -> H val := DeepCopyInto [
  ("Template", OVHMachineTemplateResource_DeepCopyInto)].
Definition OVHMachineTemplateSpec_DeepCopy : val -> H val :=
  DeepCopy OVHMachineTemplateSpec_ty OVHMachineTemplateSpec_DeepCopyInto.

(** ** OVHMachineTemplate *)

Definition OVHMachineTemplate_ty : ty := TStruct [
  ("TypeMeta", TypeMeta_ty); ("ObjectMeta", ObjectMeta_ty); ("Spec", OVHMachineTemplateSpec_ty)].
Definition OVHMachineTemplate_DeepCopyInto : val -> H val := DeepCopyInto [
  ("TypeMeta", assign); ("ObjectMeta", ObjectMeta_DeepCopyInto);
  ("Spec", OVHMachineTemplateSpec_DeepCopyInto)].
Definition OVHMachineTemplate_DeepCopy : val -> H val :=
  DeepCopy OVHMachineTemplate_ty OVHMachineTemplate_DeepCopyInto.
Definition OVHMachineTemplate_DeepCopyObject : val -> H iface :=
  DeepCopyObject "OVHMachineTemplate" OVHMachineTemplate_DeepCopy.

(** ** OVHMachineTemplateList *)

Definition OVHMachineTemplateList_ty : ty := TStruct [
  ("TypeMeta", TypeMeta_ty); ("ListMeta", ListMeta_ty); ("Items", TSlice OVHMachineTemplate_ty)].
Definition OVHMachineTemplateList_DeepCopyInto : val -> H val := DeepCopyInto [
  ("TypeMeta", assign); ("ListMeta", ListMeta_DeepCopyInto);
  ("Items", if_set (make_into OVHMachineTemplate_ty OVHMachineTemplate_DeepCopyInto))].
Definition OVHMachineTemplateList_DeepCopy : val -> H val :=
  DeepCopy OVHMachineTemplateList_ty OVHMachineTemplateList_DeepCopyInto.
Definition OVHMachineTemplateList_DeepCopyObject : val -> H iface :=
  DeepCopyObject "OVHMachineTemplateList" OVHMachineTemplateList_DeepCopy.

(** The methods of the package: the type, DeepCopyInto and DeepCopy. *)
Definition methods : list (ty * (val -> H val) * (val -> H val)) := [
  (SecretKey_ty, SecretKey_DeepCopyInto, SecretKey_DeepCopy);
  (OVHListener_ty, OVHListener_DeepCopyInto, OVHListener_DeepCopy);
  (OVHLoadBalancerConfig_ty, OVHLoadBalancerConfig_DeepCopyInto, OVHLoadBalancerConfig_DeepCopy);
  (OVHNetworkConfig_ty, OVHNetworkConfig_DeepCopyInto, OVHNetworkConfig_DeepCopy);
  (OVHClusterSpec_ty, OVHClusterSpec_DeepCopyInto, OVHClusterSpec_DeepCopy);
  (OVHClusterStatus_ty, OVHClusterStatus_DeepCopyInto, OVHClusterStatus_DeepCopy);
  (OVHCluster_ty, OVHCluster_DeepCopyInto, OVHCluster_DeepCopy);
  (OVHClusterList_ty, OVHClusterList_DeepCopyInto, OVHClusterList_DeepCopy);
  (OVHClusterValidator_ty, OVHClusterValidator_DeepCopyInto, OVHClusterValidator_DeepCopy);
  (OVHClusterTemplateResource_ty, OVHClusterTemplateResource_DeepCopyInto, OVHClusterTemplateResource_DeepCopy);
  (OVHClusterTemplateSpec_ty, OVHClusterTemplateSpec_DeepCopyInto, OVHClusterTemplateSpec_DeepCopy);
  (OVHClusterTemplate_ty, OVHClusterTemplate_DeepCopyInto, OVHClusterTemplate_DeepCopy);
  (OVHClusterTemplateList_ty, OVHClusterTemplateList_DeepCopyInto, OVHClusterTemplateList_DeepCopy);
  (OVHVolume_ty, OVHVolume_DeepCopyInto, OVHVolume_DeepCopy);
  (Initialization_ty, Initialization_DeepCopyInto, Initialization_DeepCopy);
  (OVHMachineSpec_ty, OVHMachineSpec_DeepCopyInto, OVHMachineSpec_DeepCopy);
  (OVHMachineStatus_ty, OVHMachineStatus_DeepCopyInto, OVHMachineStatus_DeepCopy);
  (OVHMachine_ty, OVHMachine_DeepCopyInto, OVHMachine_DeepCopy);
  (OVHMachineList_ty, OVHMachineList_DeepCopyInto, OVHMachineList_DeepCopy);
  (OVHMachineValidator_ty, OVHMachineValidator_DeepCopyInto, OVHMachineValidator_DeepCopy);
  (OVHMachineTemplateResource_ty, OVHMachineTemplateResource_DeepCopyInto, OVHMachineTemplateResource_DeepCopy);
  (OVHMachineTemplateSpec_ty, OVHMachineTemplateSpec_DeepCopyInto, OVHMachineTemplateSpec_DeepCopy);
  (OVHMachineTemplate_ty, OVHMachineTemplate_DeepCopyInto, OVHMachineTemplate_DeepCopy);
  (OVHMachineTemplateList_ty, OVHMachineTemplateList_DeepCopyInto, OVHMachineTemplateList_DeepCopy)].

(** Its API objects: their name, type, DeepCopy and DeepCopyObject. *)
Definition objects : list (string * ty * (val -> H val) * (val -> H iface)) := [
  ("OVHCluster", OVHCluster_ty, OVHCluster_DeepCopy, OVHCluster_DeepCopyObject);
  ("OVHClusterList", OVHClusterList_ty, OVHClusterList_DeepCopy, OVHClusterList_DeepCopyObject);
  ("OVHClusterTemplate", OVHClusterTemplate_ty, OVHClusterTemplate_DeepCopy, OVHClusterTemplate_DeepCopyObject);
  ("OVHClusterTemplateList", OVHClusterTemplateList_ty, OVHClusterTemplateList_DeepCopy, OVHClusterTemplateList_DeepCopyObject);
  ("OVHMachine", OVHMachine_ty, OVHMachine_DeepCopy, OVHMachine_DeepCopyObject);
  ("OVHMachineList", OVHMachineList_ty, OVHMachineList_DeepCopy, OVHMachineList_DeepCopyObject);
  ("OVHMachineTemplate", OVHMachineTemplate_ty, OVHMachineTemplate_DeepCopy, OVHMachineTemplate_DeepCopyObject);
  ("OVHMachineTemplateList", OVHMachineTemplateList_ty, OVHMachineTemplateList_DeepCopy, OVHMachineTemplateList_DeepCopyObject)].
End deepcopy.
