(* ===== verification/DeepCopySpec.v ===== *)
(** * DeepCopySpec: the generated deep copies meet the contract

    Every DeepCopyInto of both API versions is a deep copy of the type as it is
    declared, so the cached objects the controllers are handed cannot change
    through the copies they work on; in particular the generated files are in
    step with the declarations. *)
From S2P Require Import Prelude.
From S2P Require Import GoMemory.
From S2P Require Import GoMemorySpec.
From S2P Require Import K8sCopies.
From S2P Require DeepCopyV1alpha1.
From S2P Require DeepCopyV1alpha2.
#[local] Open Scope Z_scope.

(** ** The automation *)

Create HintDb copies discriminated.
#[export] Hint Resolve ObjectMeta_copies ListMeta_copies TemplateMeta_copies Condition_copies
  FailureDomain_copies TypeMeta_flat APIEndpoint_flat MachineAddress_flat : copies.

Ltac is_flat := first [reflexivity | solve [eauto with copies nocore]].

(** One step on a goal of the contract; a body is opened on its declaration. *)
Ltac copies_step :=
  lazymatch goal with
  | |- copies _ assign => apply flat_copies; is_flat
  | |- copies _ (if_set _) => apply if_set_copies; [exact I|]
  | |- copies_ref _ (new_assign _) => apply new_assign_copies; is_flat
  | |- copies_ref _ (new_into _ _) => apply new_into_copies
  | |- copies_ref _ (make_copy _) => apply make_copy_copies; is_flat
  | |- copies_ref _ (make_into _ _) => apply make_into_copies
  | |- copies_ref _ make_map => apply make_map_copies
  | |- covers [] [] => apply covers_nil
  | |- covers _ _ => first [apply covers_take | apply covers_skip; [reflexivity|]]
  | |- NoDup _ => apply (bool_decide_unpack _); vm_compute; exact I
  | |- copies _ _ => first [solve [eauto with copies nocore] | apply DeepCopyInto_copies]
  end.
Ltac deep_copies := repeat copies_step.

Section spec.
Context `{K8sCopies}.

Lemma methods_v1alpha1 : Forall (fun '(t, into, copy) => copies t into /\ copy = DeepCopy t into)
  DeepCopyV1alpha1.methods.
Proof. repeat (constructor; [split; [deep_copies|reflexivity]|]). constructor. Qed.

Lemma methods_v1alpha2 : Forall (fun '(t, into, copy) => copies t into /\ copy = DeepCopy t into)
  DeepCopyV1alpha2.methods.
Proof. repeat (constructor; [split; [deep_copies|reflexivity]|]). constructor. Qed.

Definition all_methods := DeepCopyV1alpha1.methods ++ DeepCopyV1alpha2.methods.

Lemma method_copies t into copy :
  (t, into, copy) ∈ all_methods -> copies t into /\ copy = DeepCopy t into.
Proof.
  intros [Hin|Hin]%elem_of_app.
  - exact (proj1 (Forall_forall _ _) methods_v1alpha1 _ Hin).
  - exact (proj1 (Forall_forall _ _) methods_v1alpha2 _ Hin).
Qed.

(** C18.  Every DeepCopy of both API versions isolates: called on a pointer that
    stands for the data [x] it does not panic and returns a pointer that stands
    for [x]; whatever is then written to cells the copy reaches, the original
    still stands for [x]; and whatever is written to cells that existed before
    the call, the copy does. *)
Theorem deepcopy_isolates t into copy h p x :
  (t, into, copy) ∈ all_methods -> reads h (TPtr t) p x ->
  exists p' h', copy p h = Some (p', h') /\ reads h' (TPtr t) p' x /\
    (forall h2, (forall l, ~ reaches h' (TPtr t) p' l -> h2 !! l = h' !! l) ->
       reads h2 (TPtr t) p x) /\
    (forall h2, (forall l, h !! l = None -> h2 !! l = h' !! l) -> reads h2 (TPtr t) p' x).
Proof.
  intros [Hc ->]%method_copies Hr. apply DeepCopy_copies in Hc.
  destruct (Hc h p x Hr) as (p' & h' & Hrun & _ & Hr' & _). exists p', h'.
  destruct (copies_isolated _ _ _ _ _ _ _ Hc Hr Hrun) as (_ & _ & ? & ?). by split_and!.
Qed.

(** DeepCopyObject of an API object wraps that copy in an interface, and answers
    a nil interface exactly for nil: never a typed nil, which callers that
    compare with nil would take for an object. *)
Theorem deepcopy_object_nil name t copy obj h p x :
  (name, t, copy, obj) ∈ DeepCopyV1alpha1.objects ++ DeepCopyV1alpha2.objects ->
  reads h (TPtr t) p x ->
  exists i h', obj p h = Some (i, h') /\ (i = NilInterface <-> p = VRef None) /\
    forall name' l, i = Dynamic name' l -> name' = name /\ copy p h = Some (VRef (Some l), h').
Proof.
  intros Hin Hr.
  assert (exists into, copies t into /\ copy = DeepCopy t into /\ obj = DeepCopyObject name copy)
    as (into & Hc & -> & ->).
  { cbn [app] in Hin. unfold DeepCopyV1alpha1.objects, DeepCopyV1alpha2.objects in Hin.
    repeat (apply elem_of_cons in Hin as [Hin|Hin];
      [injection Hin as -> -> -> ->; eexists; split; [|split; reflexivity]; deep_copies|]).
    by apply elem_of_nil in Hin. }
  pose proof (DeepCopyObject_run t into name h p x Hc Hr) as Hrun.
  destruct p as [sc|fs|[l|]]; try done.
  - destruct Hrun as (l' & h' & Hobj & Hcopy). exists (Dynamic name l'), h'. split; [done|].
    split; [done|]. intros name' l2 [= <- <-]. done.
  - exists NilInterface, h. split; [done|]. split; [done|]. by intros name' l2 [=].
Qed.
End spec.

(** ** Witness *)

(** Third-party types with the fields of [K8sTypes]. *)
#[export] Instance DemoCopies : K8sCopies.
Proof.
  refine {|
    TypeMeta_ty := TStruct [("Kind", TString); ("APIVersion", TString)];
    APIEndpoint_ty := TStruct [("Host", TString); ("Port", TInt)];
    MachineAddress_ty := TStruct [("Type", TString); ("Address", TString)];
    ObjectMeta_ty := TStruct [("Name", TString); ("Namespace", TString); ("Labels", TMap);
                              ("Annotations", TMap); ("Finalizers", TSlice TString)];
    ListMeta_ty := TStruct [("ResourceVersion", TString); ("Continue", TString)];
    TemplateMeta_ty := TStruct [("Labels", TMap); ("Annotations", TMap)];
    Condition_ty := TStruct [("Type", TString); ("Status", TString); ("Reason", TString);
                             ("Message", TString)];
    FailureDomain_ty := TStruct [("Name", TString); ("ControlPlane", TPtr TBool)];
    ObjectMeta_DeepCopyInto := DeepCopyInto [("Labels", if_set make_map);
      ("Annotations", if_set make_map); ("Finalizers", if_set (make_copy TString))];
    ListMeta_DeepCopyInto := DeepCopyInto [];
    TemplateMeta_DeepCopyInto := DeepCopyInto [("Labels", if_set make_map);
      ("Annotations", if_set make_map)];
    Condition_DeepCopyInto := DeepCopyInto [];
    FailureDomain_DeepCopyInto := DeepCopyInto [("ControlPlane", if_set (new_assign TBool))] |};
    first [reflexivity | deep_copies].
Defined.

(** A security group with one rule, from port 6443 on. *)
Definition demo_rule : val := VStruct [("Direction", VScalar (SStr "ingress"));
  ("Protocol", VScalar (SStr "tcp")); ("PortRangeMin", VRef (Some 3%positive));
  ("PortRangeMax", VRef None); ("RemoteIPPrefix", VScalar (SStr ""));
  ("EtherType", VScalar (SStr "IPv4"))].
Definition demo_heap : heap := {[
  1%positive := OVal (VStruct [("Name", VScalar (SStr "nodes")); ("Rules", VRef (Some 2%positive))]);
  2%positive := OArr [demo_rule];
  3%positive := OVal (VScalar (SInt 6443)) ]}.
Definition demo_tree : tree := To (Node [Leaf (SStr "nodes"); Seq [Node [Leaf (SStr "ingress");
  Leaf (SStr "tcp"); To (Leaf (SInt 6443)); Nil; Leaf (SStr ""); Leaf (SStr "IPv4")]]]).

Lemma deepcopy_isolates_witness :
  let t := DeepCopyV1alpha2.OVHSecurityGroup_ty in
  let p := VRef (Some 1%positive) in
  exists p' h', DeepCopyV1alpha2.OVHSecurityGroup_DeepCopy p demo_heap = Some (p', h') /\
    reads h' (TPtr t) p' demo_tree /\
    (forall h2, (forall l, ~ reaches h' (TPtr t) p' l -> h2 !! l = h' !! l) ->
       reads h2 (TPtr t) p demo_tree) /\
    (forall h2, (forall l, demo_heap !! l = None -> h2 !! l = h' !! l) ->
       reads h2 (TPtr t) p' demo_tree).
Proof.
  cbv zeta. eapply (deepcopy_isolates _ DeepCopyV1alpha2.OVHSecurityGroup_DeepCopyInto).
  - apply elem_of_app. right. unfold DeepCopyV1alpha2.methods. set_solver.
  - eexists. split; [reflexivity|]. cbn. split_and!; try done. eexists. split; [reflexivity|].
    constructor; [|constructor]. cbn. split_and!; try done. eexists. by split.
Defined.
