(* ===== verification/OvhTypes.v ===== *)
(** * OvhTypes: the OVH API data of pkg/ovh/types.go

    One record per Go struct, in the order of the file; a field [F] of the
    struct [S] is the projection [S_F].  [int], [int32] and [int64] fields are
    [Z], pointers are [option], slices are lists, and [float64] is the inductive
    IEEE type of the Standard Library.  JSON encoding of these records is done
    by go-ovh and is not modelled. *)
From S2P Require Import Prelude.
From Stdlib Require Import SpecFloat.

(** ** Instances *)

Record IPAddress := {
  IPAddress_IP : string;
  IPAddress_Type : string; (* "public" or "private" *)
  IPAddress_Version : Z; (* 4 or 6 *)
}.

Record AttachedVolume := { AttachedVolume_ID : string }.

Record Instance_ := {
  Instance_ID : string;
  Instance_Name : string;
  Instance_Status : string;
  Instance_FlavorID : string;
  Instance_ImageID : string;
  Instance_Region : string;
  Instance_Created : string;
  Instance_IPAddresses : list IPAddress;
  Instance_AttachedVolumes : list AttachedVolume;
  Instance_SSHKeyID : string;
  Instance_MonthlyBilling : bool;
}.

Definition InstanceStatusActive := "ACTIVE".
Definition InstanceStatusBuild := "BUILD".
Definition InstanceStatusReboot := "REBOOT".
Definition InstanceStatusError := "ERROR".
Definition InstanceStatusDeleted := "DELETED".
Definition InstanceStatusStopped := "STOPPED".

Record InstanceNetwork := { InstanceNetwork_NetworkID : string }.

Record CreateInstanceOpts := {
  CreateInstanceOpts_Name : string;
  CreateInstanceOpts_FlavorID : string;
  CreateInstanceOpts_ImageID : string;
  CreateInstanceOpts_Region : string;
  CreateInstanceOpts_SSHKeyID : string;
  CreateInstanceOpts_UserData : string;
  CreateInstanceOpts_Networks : list InstanceNetwork;
  CreateInstanceOpts_MonthlyBilling : bool;
  CreateInstanceOpts_GroupID : string;
}.

(** ** Flavours, images and keys *)

Record Flavor := {
  Flavor_ID : string;
  Flavor_Name : string;
  Flavor_VCPUs : Z;
  Flavor_RAM : Z;
  Flavor_Disk : Z;
  Flavor_Type : string;
  Flavor_Region : string;
  Flavor_Bandwidth : Z;
  Flavor_PlanCode : string;
}.

Record Image := {
  Image_ID : string;
  Image_Name : string;
  Image_Status : string;
  Image_Region : string;
  Image_CreationDate : string;
  Image_MinRAM : Z;
  Image_MinDisk : Z;
  Image_Size : spec_float;
  Image_Type : string;
  Image_User : string;
  Image_Visibility : string;
  Image_PlanCode : string;
}.

Record SSHKey := {
  SSHKey_ID : string;
  SSHKey_Name : string;
  SSHKey_PublicKey : string;
  SSHKey_Fingerprint : string;
  SSHKey_Regions : list string;
}.

(** Declared in pkg/ovh/client.go. *)
Record CreateSSHKeyOpts := {
  CreateSSHKeyOpts_Name : string;
  CreateSSHKeyOpts_PublicKey : string;
  CreateSSHKeyOpts_Region : string;
}.

(** ** Private networks and subnets *)

Record NetworkRegion := {
  NetworkRegion_Region : string;
  NetworkRegion_Status : string;
  NetworkRegion_OpenStackID : string;
}.

Record PrivateNetwork := {
  PrivateNetwork_ID : string;
  PrivateNetwork_Name : string;
  PrivateNetwork_VlanID : Z;
  PrivateNetwork_Regions : list NetworkRegion;
  PrivateNetwork_Status : string;
  PrivateNetwork_Type : string;
}.

(** The OpenStack UUID of the first region entry of that name, or "". *)
Definition OpenStackIDForRegion (n : PrivateNetwork) (region : string) : string :=
  match find_first (fun r => strEqb (NetworkRegion_Region r) region)
                   (PrivateNetwork_Regions n) with
  | Some r => NetworkRegion_OpenStackID r
  | None => ""
  end.

Record CreateNetworkOpts := {
  CreateNetworkOpts_Name : string;
  CreateNetworkOpts_VlanID : Z;
  CreateNetworkOpts_Regions : list string;
}.

Record IPPool := {
  IPPool_Start : string;
  IPPool_End : string;
  IPPool_Network : string;
  IPPool_Region : string;
  IPPool_DHCP : bool;
}.

Record Subnet := {
  Subnet_ID : string;
  Subnet_CIDR : string;
  Subnet_GatewayIP : string;
  Subnet_IPPools : list IPPool;
  Subnet_Region : string;
  Subnet_DHCP : bool;
  Subnet_NoGateway : bool;
}.

Record CreateSubnetOpts := {
  CreateSubnetOpts_Network : string;
  CreateSubnetOpts_Start : string;
  CreateSubnetOpts_End : string;
  CreateSubnetOpts_Region : string;
  CreateSubnetOpts_DHCP : bool;
  CreateSubnetOpts_NoGateway : bool;
}.

(** ** Load balancers *)

Record LBFlavor := {
  LBFlavor_ID : string;
  LBFlavor_Name : string;
  LBFlavor_Region : string;
}.

Record FloatingIPRef := { FloatingIPRef_ID : string; FloatingIPRef_IP : string }.
Record ListenerRef := { ListenerRef_ID : string }.

Record LoadBalancer := {
  LoadBalancer_ID : string;
  LoadBalancer_Name : string;
  LoadBalancer_CreatedAt : string;
  LoadBalancer_UpdatedAt : string;
  LoadBalancer_Region : string;
  LoadBalancer_FlavorID : string;
  LoadBalancer_OperatingStatus : string;
  LoadBalancer_ProvisioningStatus : string;
  LoadBalancer_VIPAddress : string;
  LoadBalancer_VIPNetworkID : string;
  LoadBalancer_VIPSubnetID : string;
  LoadBalancer_FloatingIP : option FloatingIPRef;
  LoadBalancer_Listeners : list ListenerRef;
}.

Definition LBProvisioningStatusActive := "active".
Definition LBProvisioningStatusCreating := "creating".
Definition LBProvisioningStatusError := "error".
Definition LBOperatingStatusOnline := "online".
Definition LBOperatingStatusOffline := "offline".
Definition LBOperatingStatusError := "error".

Record LBNetworkRef := { LBNetworkRef_ID : string; LBNetworkRef_SubnetID : string }.
Record LBPrivateNetwork := { LBPrivateNetwork_Network : LBNetworkRef }.
Record LBNetworkConfig := { LBNetworkConfig_Private : LBPrivateNetwork }.

Record CreateLoadBalancerOpts := {
  CreateLoadBalancerOpts_Name : string;
  CreateLoadBalancerOpts_FlavorID : string;
  CreateLoadBalancerOpts_Network : LBNetworkConfig;
}.

Record Listener := {
  Listener_ID : string;
  Listener_Name : string;
  Listener_Protocol : string;
  Listener_ProtocolPort : Z;
  Listener_Port : Z;
  Listener_DefaultPoolID : string;
  Listener_LoadBalancerID : string;
  Listener_LoadBalancerIDs : list string;
  Listener_ProvisioningStatus : string;
  Listener_OperatingStatus : string;
}.

Record CreateListenerOpts := {
  CreateListenerOpts_Name : string;
  CreateListenerOpts_Protocol : string;
  CreateListenerOpts_Port : Z;
  CreateListenerOpts_LoadBalancerID : string;
  CreateListenerOpts_DefaultPoolID : string;
}.

Record Pool := {
  Pool_ID : string;
  Pool_Name : string;
  Pool_Protocol : string;
  Pool_LBAlgorithm : string;
  Pool_ListenerID : string;
  Pool_LoadBalancerID : string;
  Pool_ProvisioningStatus : string;
  Pool_OperatingStatus : string;
}.

Record CreatePoolOpts := {
  CreatePoolOpts_Name : string;
  CreatePoolOpts_Protocol : string;
  CreatePoolOpts_Algorithm : string;
  CreatePoolOpts_ListenerID : string;
  CreatePoolOpts_LoadBalancerID : string;
}.

Record Member := {
  Member_ID : string;
  Member_Name : string;
  Member_Address : string;
  Member_ProtocolPort : Z;
  Member_SubnetID : string;
  Member_OperatingStatus : string;
  Member_ProvisioningStatus : string;
  Member_Weight : Z;
}.

Record CreateMemberOpts := {
  CreateMemberOpts_Name : string;
  CreateMemberOpts_Address : string;
  CreateMemberOpts_ProtocolPort : Z;
  CreateMemberOpts_SubnetID : string;
  CreateMemberOpts_Weight : Z;
}.

Record addPoolMembersRequest := {
  addPoolMembersRequest_Members : list CreateMemberOpts;
}.

Record HealthMonitor := {
  HealthMonitor_ID : string;
  HealthMonitor_Name : string;
  HealthMonitor_MonitorType : string;
  HealthMonitor_Delay : Z;
  HealthMonitor_Timeout : Z;
  HealthMonitor_MaxRetries : Z;
  HealthMonitor_PoolID : string;
  HealthMonitor_URLPath : string;
  HealthMonitor_HTTPMethod : string;
  HealthMonitor_ExpectedCodes : string;
  HealthMonitor_ProvisioningStatus : string;
  HealthMonitor_OperatingStatus : string;
}.

Record CreateHealthMonitorOpts := {
  CreateHealthMonitorOpts_Name : string;
  CreateHealthMonitorOpts_MonitorType : string;
  CreateHealthMonitorOpts_Delay : Z;
  CreateHealthMonitorOpts_Timeout : Z;
  CreateHealthMonitorOpts_MaxRetries : Z;
  CreateHealthMonitorOpts_PoolID : string;
}.

(** ** Floating IPs and gateways *)

Record FloatingIPAssociation := {
  FloatingIPAssociation_ID : string;
  FloatingIPAssociation_Type : string;
  FloatingIPAssociation_IP : string;
  FloatingIPAssociation_GatewayID : string;
}.

Record FloatingIP := {
  FloatingIP_ID : string;
  FloatingIP_IP : string;
  FloatingIP_Status : string;
  FloatingIP_AssociatedEntity : option FloatingIPAssociation;
  FloatingIP_Region : string;
  FloatingIP_NetworkID : string;
}.

Record GatewayInterface := {
  GatewayInterface_ID : string;
  GatewayInterface_IP : string;
  GatewayInterface_NetworkID : string;
  GatewayInterface_SubnetID : string;
}.

Record Gateway := {
  Gateway_ID : string;
  Gateway_Name : string;
  Gateway_Status : string;
  Gateway_Model : string;
  Gateway_Region : string;
  Gateway_Interfaces : list GatewayInterface;
}.

Record CreateFloatingIPOpts := {
  CreateFloatingIPOpts_IP : string;
  CreateFloatingIPOpts_Description : string;
}.

(** ** Volumes *)

Record Volume := {
  Volume_ID : string;
  Volume_Name : string;
  Volume_Description : string;
  Volume_Size : Z;
  Volume_Type : string;
  Volume_Region : string;
  Volume_Status : string;
  Volume_AttachedTo : list string;
}.

Record CreateVolumeOpts := {
  CreateVolumeOpts_Name : string;
  CreateVolumeOpts_Description : string;
  CreateVolumeOpts_Size : Z;
  CreateVolumeOpts_Type : string;
  CreateVolumeOpts_Region : string;
}.

Record AttachVolumeOpts := { AttachVolumeOpts_InstanceID : string }.

(** ** Account, regions, security groups and DNS *)

Record Me := {
  Me_Nichandle : string;
  Me_FirstName : string;
  Me_Name : string;
  Me_Email : string;
}.

Record RegionService := { RegionService_Name : string; RegionService_Status : string }.
Record RegionInfo := { RegionInfo_Name : string; RegionInfo_Services : list RegionService }.

Record SecurityGroup := { SecurityGroup_ID : string; SecurityGroup_Name : string }.

Record SecurityGroupRule := {
  SecurityGroupRule_ID : string;
  SecurityGroupRule_Direction : string;
  SecurityGroupRule_Protocol : string;
  SecurityGroupRule_PortRangeMin : option Z;
  SecurityGroupRule_PortRangeMax : option Z;
  SecurityGroupRule_RemoteIPPrefix : string;
  SecurityGroupRule_EtherType : string;
}.

Record CreateSecurityGroupOpts := {
  CreateSecurityGroupOpts_Name : string;
  CreateSecurityGroupOpts_Description : string;
}.

Record CreateSecurityGroupRuleOpts := {
  CreateSecurityGroupRuleOpts_Direction : string;
  CreateSecurityGroupRuleOpts_Protocol : string;
  CreateSecurityGroupRuleOpts_PortRangeMin : option Z;
  CreateSecurityGroupRuleOpts_PortRangeMax : option Z;
  CreateSecurityGroupRuleOpts_RemoteIPPrefix : string;
  CreateSecurityGroupRuleOpts_EtherType : string;
}.

Record DNSRecord := {
  DNSRecord_ID : Z;
  DNSRecord_FieldType : string;
  DNSRecord_SubDomain : string;
  DNSRecord_Target : string;
  DNSRecord_TTL : Z;
  DNSRecord_Zone : string;
}.

Record CreateDNSRecordOpts := {
  CreateDNSRecordOpts_FieldType : string;
  CreateDNSRecordOpts_SubDomain : string;
  CreateDNSRecordOpts_Target : string;
  CreateDNSRecordOpts_TTL : Z;
}.

(** A pointer-free zero value is needed where the code builds an [Image] with
    only some fields set. *)
Definition zero_Image : Image := {|
  Image_ID := ""; Image_Name := ""; Image_Status := ""; Image_Region := "";
  Image_CreationDate := ""; Image_MinRAM := 0; Image_MinDisk := 0;
  Image_Size := S754_zero false; Image_Type := ""; Image_User := "";
  Image_Visibility := ""; Image_PlanCode := "";
|}.
