(* ===== verification/GoErrors.v ===== *)
(** * GoErrors: error values and pkg/ovh/errors.go

    Errors are a tagged union: what go-ovh returns for an HTTP error status
    ([APIError], with the code and the text its [Error] method produces), what
    the Kubernetes clients return ([K8sError], with the answer
    [apierrors.IsNotFound] gives on it and its text), the provider's sentinel,
    other errors of which only the text is known, and [fmt.Errorf] with a [%w]
    verb, which keeps the wrapped error and the text around it. *)
From S2P Require Import Prelude.
From S2P Require Import GoStrings.
#[local] Open Scope Z_scope.

Inductive goerror : Type :=
| APIError (Code : Z) (text : string)
| K8sError (notFound : bool) (text : string)
| errNetworkNotReady
| NewError (text : string)
| WrapError (pre : string) (e : goerror) (post : string).

#[export] Instance goerror_eq_dec : EqDecision goerror.
Proof. solve_decision. Defined.

Abbreviation gores := (result goerror).

(** The [Error] method. *)
Fixpoint Error (e : goerror) : string :=
  match e with
  | APIError _ text => text
  | K8sError _ text => text
  | errNetworkNotReady => "network not yet ACTIVE in region"
  | NewError text => text
  | WrapError pre e post => pre +:+ Error e +:+ post
  end.

(** [fmt.Errorf("<pre>%w", e)]. *)
Definition Errorf (pre : string) (e : goerror) : goerror := WrapError pre e "".

(** [errors.As(err, &apiErr)]: the code of the first [*goovh.APIError] of the
    chain. *)
Fixpoint AsAPIError (e : goerror) : option Z :=
  match e with
  | APIError code _ => Some code
  | WrapError _ e _ => AsAPIError e
  | _ => None
  end.

(** [errors.Is(err, errNetworkNotReady)]. *)
Fixpoint IsNetworkNotReady (e : goerror) : bool :=
  match e with
  | errNetworkNotReady => true
  | WrapError _ e _ => IsNetworkNotReady e
  | _ => false
  end.

(** [apierrors.IsNotFound]. *)
Fixpoint apierrors_IsNotFound (e : goerror) : bool :=
  match e with
  | K8sError notFound _ => notFound
  | WrapError _ e _ => apierrors_IsNotFound e
  | _ => false
  end.

(** ** Status codes *)
Definition StatusUnauthorized : Z := 401.
Definition StatusForbidden : Z := 403.
Definition StatusNotFound : Z := 404.
Definition StatusConflict : Z := 409.
Definition StatusTooManyRequests : Z := 429.
Definition StatusInternalServerError : Z := 500.
Definition StatusBadGateway : Z := 502.
Definition StatusServiceUnavailable : Z := 503.
Definition StatusGatewayTimeout : Z := 504.

(** ** Classification

    Each function takes a possibly nil error. *)

Definition IsNotFound (err : option goerror) : bool :=
  match err with
  | None => false
  | Some e =>
      match AsAPIError e with
      | Some code => code =? StatusNotFound
      | None => Contains (Error e) "404" || Contains (Error e) "not found"
      end
  end.

Definition IsConflict (err : option goerror) : bool :=
  match err with
  | None => false
  | Some e =>
      match AsAPIError e with
      | Some code => code =? StatusConflict
      | None => false
      end
  end.

Definition IsAlreadyDeleting (err : option goerror) : bool :=
  if negb (IsConflict err) then false
  else match err with
       | None => false
       | Some e => Contains (Error e) "PENDING_DELETE" || Contains (Error e) "PENDING_UPDATE"
       end.

Definition IsRetryable (err : option goerror) : bool :=
  match err with
  | None => false
  | Some e =>
      match AsAPIError e with
      | Some code =>
          (code =? StatusTooManyRequests) || (code =? StatusInternalServerError)
          || (code =? StatusBadGateway) || (code =? StatusServiceUnavailable)
          || (code =? StatusGatewayTimeout)
      | None =>
          let msg := Error e in
          Contains msg "connection refused" || Contains msg "connection reset"
          || Contains msg "timeout" || Contains msg "temporary failure"
      end
  end.

Definition IsForbidden (err : option goerror) : bool :=
  match err with
  | None => false
  | Some e =>
      match AsAPIError e with
      | Some code => code =? StatusForbidden
      | None => false
      end
  end.

Definition IsUnauthorized (err : option goerror) : bool :=
  match err with
  | None => false
  | Some e =>
      match AsAPIError e with
      | Some code => code =? StatusUnauthorized
      | None => false
      end
  end.

#[global] Arguments IsNotFound : simpl never.
#[global] Arguments IsConflict : simpl never.
#[global] Arguments IsAlreadyDeleting : simpl never.
#[global] Arguments IsRetryable : simpl never.

(** ** Lemmas *)

Lemma AsAPIError_wrap pre e post : AsAPIError (WrapError pre e post) = AsAPIError e.
Proof. done. Qed.

Lemma IsNotFound_api code text : IsNotFound (Some (APIError code text)) = (code =? StatusNotFound).
Proof. done. Qed.

Lemma IsNotFound_text text a b :
  text = a +:+ "404" +:+ b -> IsNotFound (Some (NewError text)) = true.
Proof. intros ->. unfold IsNotFound. cbn [AsAPIError Error]. by rewrite Contains_mid. Qed.

Lemma IsRetryable_text text a b :
  text = a +:+ "connection refused" +:+ b -> IsRetryable (Some (NewError text)) = true.
Proof. intros ->. unfold IsRetryable. cbn [AsAPIError Error]. by rewrite Contains_mid. Qed.

(** An error that carries an HTTP status is never both "not found" and worth a
    retry. *)
Lemma notfound_not_retryable e code :
  AsAPIError e = Some code -> IsNotFound (Some e) = true -> IsRetryable (Some e) = false.
Proof.
  intros He. unfold IsNotFound, IsRetryable. rewrite He.
  intros ->%Z.eqb_eq. done.
Qed.

Lemma IsAlreadyDeleting_wrap pre e post :
  IsAlreadyDeleting (Some e) = true -> IsAlreadyDeleting (Some (WrapError pre e post)) = true.
Proof.
  unfold IsAlreadyDeleting, IsConflict. rewrite AsAPIError_wrap.
  destruct (AsAPIError e) as [code|]; [|done]. destruct (code =? StatusConflict); [|done]. cbn.
  rewrite !orb_true_iff. intros [H|H]; [left|right]; by apply Contains_embed.
Qed.


