(* ===== verification/K8sTypes.v ===== *)
(** * K8sTypes: the Kubernetes and Cluster API data the provider handles

    These types belong to third-party packages.  Each record keeps the fields
    the provider reads or writes; behaviour of those packages is never defined
    here, it is either an effect ([Effects]) or an operation of the class
    [CapiLib] ([CapiLib]). *)
From S2P Require Import Prelude.

(** metav1.ObjectMeta. *)
Record ObjectMeta := {
  Namespace : string;
  Name : string;
  Annotations : gmap string string;
  Labels : gmap string string;
  Finalizers : list string;
  DeletionTimestamp : option Z; (* nil while the object is not being deleted *)
}.

(** clusterv1.ObjectMeta: the metadata of templates; metav1.ListMeta. *)
Record TemplateMeta := {
  TemplateMeta_Labels : gmap string string;
  TemplateMeta_Annotations : gmap string string;
}.
Record ListMeta := {
  ListMeta_ResourceVersion : string;
  ListMeta_Continue : string;
}.

(** metav1.Condition: the fields the provider sets. *)
Record Condition := {
  Condition_Type : string;
  Condition_Status : string;
  Condition_Reason : string;
  Condition_Message : string;
}.

Definition ConditionTrue := "True".
Definition ConditionFalse := "False".

(** clusterv1.APIEndpoint, clusterv1.FailureDomain, clusterv1.MachineAddress. *)
Record APIEndpoint := { Host : string; Port : Z }.
Record FailureDomain := { FailureDomain_Name : string; FailureDomain_ControlPlane : option bool }.
Record MachineAddress := { MachineAddress_Type : string; MachineAddress_Address : string }.
Definition MachineInternalIP := "InternalIP".
Definition MachineExternalIP := "ExternalIP".

(** clusterv1.Cluster and clusterv1.Machine. *)
Record InfrastructureRef := { InfraRef_Kind : string; InfraRef_Name : string }.

Record Cluster := {
  Cluster_ObjectMeta : ObjectMeta;
  Cluster_Paused : option bool;
  Cluster_InfrastructureRef : option InfrastructureRef; (* [None]: not defined *)
  Cluster_InfrastructureProvisioned : option bool;
}.

Record Machine := {
  Machine_ObjectMeta : ObjectMeta;
  Machine_BootstrapDataSecretName : option string;
}.

(** corev1.Secret. *)
Record Secret := {
  Secret_ObjectMeta : ObjectMeta;
  Secret_Data : gmap string string;
}.

(** corev1.Node, corev1.Taint, corev1.Pod. *)
Record Taint := { Taint_Key : string; Taint_Value : string; Taint_Effect : string }.

Record Node := {
  Node_Name : string;
  Node_ProviderID : string;
  Node_Taints : list Taint;
}.

Record PodCondition := { PodCondition_Type : string; PodCondition_Status : string }.
Definition PodRunning := "Running".
Definition PodReady := "Ready".

Record Pod := {
  Pod_Name' : string;
  Pod_Namespace : string;
  Pod_NodeName : string;
  Pod_Phase : string;
  Pod_Conditions : list PodCondition;
}.

#[export] Instance ObjectMeta_eq_dec : EqDecision ObjectMeta.
Proof. solve_decision. Defined.
#[export] Instance Condition_eq_dec : EqDecision Condition.
Proof. solve_decision. Defined.
#[export] Instance Taint_eq_dec : EqDecision Taint.
Proof. solve_decision. Defined.
