(* ===== verification/ApiV1alpha2.v ===== *)
(** * ApiV1alpha2: the custom resources of api/v1alpha2

    The hub version of the API: [OVHCluster], [OVHMachine] and their templates,
    with the condition types and reasons of ovhcluster_types.go and
    ovhmachine_types.go.  Go's nil and empty slices and maps are not
    distinguished. *)
From S2P Require Import Prelude.
From S2P Require Import K8sTypes.

(** ** OVHCluster: names of ovhcluster_types.go *)

Definition ClusterFinalizer := "ovhcluster.infrastructure.cluster.x-k8s.io/finalizer".

Definition OVHConnectionReadyCondition := "OVHConnectionReady".
Definition OVHConnectionFailedReason := "OVHConnectionFailed".
Definition OVHAuthenticationFailedReason := "OVHAuthenticationFailed".
Definition OVHConnectionReadyReason := "OVHConnectionReady".
Definition NetworkReadyCondition := "NetworkReady".
Definition NetworkCreationFailedReason := "NetworkCreationFailed".
Definition NetworkReadyReason := "NetworkReady".
Definition NetworkCreatedByControllerCondition := "NetworkCreatedByController".
Definition NetworkCreatedByControllerReason := "NetworkCreatedByController".
Definition LoadBalancerReadyCondition := "LoadBalancerReady".
Definition LoadBalancerNotReadyReason := "LoadBalancerNotReady".
Definition LoadBalancerCreationFailedReason := "LoadBalancerCreationFailed".
Definition LoadBalancerReadyReason := "LoadBalancerReady".
Definition InfrastructureReadyCondition := "InfrastructureReady".
Definition InfrastructureProvisioningInProgressReason := "InfrastructureProvisioningInProgress".
Definition InfrastructureProvisioningFailedReason := "InfrastructureProvisioningFailed".
Definition InfrastructureReadyReason := "InfrastructureReady".
Definition InitMachineCreatedCondition := "InitMachineCreated".
Definition InitMachineNotYetCreatedReason := "InitMachineNotYetCreated".

(** ** OVHCluster: specification *)

Record SecretKey := { SecretKey_Namespace : string; SecretKey_Name : string }.

Record OVHListener := {
  OVHListener_Name : string;
  OVHListener_Port : Z;
  OVHListener_Protocol : string;
  OVHListener_BackendPort : Z;
}.

Record OVHLoadBalancerConfig := {
  LBConfig_SubnetID : string;
  LBConfig_FlavorName : string;
  LBConfig_FloatingNetworkID : string;
  LBConfig_Listeners : list OVHListener;
  LBConfig_ExistingLoadBalancerID : string;
  LBConfig_ExistingFloatingIPID : string;
}.

Record OVHNetworkConfig := {
  NetConfig_PrivateNetworkID : string;
  NetConfig_SubnetCIDR : string;
  NetConfig_VlanID : Z;
  NetConfig_Gateway : string;
  NetConfig_DNSServers : list string;
}.

Record OVHSecurityRule := {
  SecurityRule_Direction : string;
  SecurityRule_Protocol : string;
  SecurityRule_PortRangeMin : option Z;
  SecurityRule_PortRangeMax : option Z;
  SecurityRule_RemoteIPPrefix : string;
  SecurityRule_EtherType : string;
}.

Record OVHSecurityGroup := {
  SecurityGroupSpec_Name : string;
  SecurityGroupSpec_Rules : list OVHSecurityRule;
}.

Record OVHDNSConfig := {
  DNSConfig_ZoneName : string;
  DNSConfig_RecordName : string;
  DNSConfig_TTL : Z;
}.

Record OVHClusterSpec := {
  CSpec_ServiceName : string;
  CSpec_Region : string;
  CSpec_IdentitySecret : SecretKey;
  CSpec_ControlPlaneEndpoint : APIEndpoint;
  CSpec_LoadBalancerConfig : OVHLoadBalancerConfig;
  CSpec_NetworkConfig : option OVHNetworkConfig;
  CSpec_SSHKeyName : string;
  CSpec_FailureDomains : list string;
  CSpec_SecurityGroups : list OVHSecurityGroup;
  CSpec_DefaultTags : gmap string string;
  CSpec_DNSConfig : option OVHDNSConfig;
}.

(** ** OVHCluster: status and object *)

(** [Provisioned *bool]: [None] is an unset value. *)
Record Initialization := { Provisioned : option bool }.

Record OVHClusterStatus := {
  CStatus_Ready : bool;
  CStatus_Initialization : Initialization;
  CStatus_Conditions : list Condition;
  CStatus_NetworkID : string;
  CStatus_SubnetID : string;
  CStatus_LoadBalancerID : string;
  CStatus_ListenerID : string;
  CStatus_PoolID : string;
  CStatus_FloatingIPID : string;
  CStatus_GatewayID : string;
  CStatus_GatewayExposed : bool;
  CStatus_RegisterListenerID : string;
  CStatus_RegisterPoolID : string;
  CStatus_FailureDomains : list FailureDomain;
  CStatus_SecurityGroupIDs : gmap string string;
  CStatus_DNSRecordID : Z;
}.

Record OVHCluster := {
  OVHCluster_ObjectMeta : ObjectMeta;
  OVHCluster_Spec : OVHClusterSpec;
  OVHCluster_Status : OVHClusterStatus;
}.

(** ** OVHMachine: ovhmachine_types.go *)

Definition MachineFinalizer := "ovhmachine.infrastructure.cluster.x-k8s.io/finalizer".

Definition InstanceCreatedCondition := "InstanceCreated".
Definition InstanceNotFoundReason := "InstanceNotFound".
Definition InstanceProvisioningReadyCondition := "InstanceProvisioningReady".
Definition InstanceProvisioningInProgressReason := "InstanceProvisioningInProgress".
Definition InstanceProvisioningFailedReason := "InstanceProvisioningFailed".
Definition InstanceProvisioningReadyReason := "InstanceProvisioningReady".
Definition InstanceRunningCondition := "InstanceRunning".
Definition InstanceRunningReason := "InstanceRunning".
Definition InstanceNotRunningReason := "InstanceNotRunning".

Record OVHVolume := {
  OVHVolume_Name : string;
  OVHVolume_SizeGB : Z;
  OVHVolume_Type : string;
}.

Record OVHMachineSpec := {
  MSpec_ProviderID : string;
  MSpec_FlavorName : string;
  MSpec_ImageName : string;
  MSpec_SSHKeyName : string;
  MSpec_RootDiskSize : Z;
  MSpec_AdditionalVolumes : list OVHVolume;
  MSpec_FailureDomain : string;
  MSpec_SecurityGroupNames : list string;
  MSpec_Tags : gmap string string;
  MSpec_BootstrapFormat : string;
  MSpec_ExistingInstanceID : string;
}.

Record OVHMachineStatus := {
  MStatus_Ready : bool;
  MStatus_Conditions : list Condition;
  MStatus_Addresses : list MachineAddress;
  MStatus_Initialization : Initialization;
  MStatus_InstanceID : string;
  MStatus_VolumeIDs : list string;
  MStatus_LBPoolMemberID : string;
  MStatus_RegisterPoolMemberID : string;
}.

Record OVHMachine := {
  OVHMachine_ObjectMeta : ObjectMeta;
  OVHMachine_Spec : OVHMachineSpec;
  OVHMachine_Status : OVHMachineStatus;
}.

(** ** Templates: ovhclustertemplate_types.go, ovhmachinetemplate_types.go *)

Record OVHClusterTemplateResource := {
  ClusterTemplateResource_ObjectMeta : TemplateMeta;
  ClusterTemplateResource_Spec : OVHClusterSpec;
}.
Record OVHClusterTemplateSpec := { ClusterTemplateSpec_Template : OVHClusterTemplateResource }.
Record OVHClusterTemplate := {
  OVHClusterTemplate_ObjectMeta : ObjectMeta;
  OVHClusterTemplate_Spec : OVHClusterTemplateSpec;
}.

Record OVHMachineTemplateResource := {
  MachineTemplateResource_ObjectMeta : TemplateMeta;
  MachineTemplateResource_Spec : OVHMachineSpec;
}.
Record OVHMachineTemplateSpec := { MachineTemplateSpec_Template : OVHMachineTemplateResource }.
Record OVHMachineTemplate := {
  OVHMachineTemplate_ObjectMeta : ObjectMeta;
  OVHMachineTemplate_Spec : OVHMachineTemplateSpec;
}.

(** ** OVHMachinePool: ovhmachinepool_types.go, which no controller handles *)

Record OVHMachinePoolSpec := {
  PoolSpec_FlavorName : string;
  PoolSpec_ImageName : string;
  PoolSpec_SSHKeyName : string;
  PoolSpec_RootDiskSize : Z;
  PoolSpec_ProviderIDList : list string;
}.
Record OVHMachinePoolStatus := {
  PoolStatus_Ready : bool;
  PoolStatus_Replicas : Z;
  PoolStatus_ReadyReplicas : Z;
  PoolStatus_Conditions : list Condition;
  PoolStatus_FailureReason : string;
  PoolStatus_FailureMessage : string;
  PoolStatus_InfrastructureReady : bool;
  PoolStatus_InstanceIDs : list string;
}.
Record OVHMachinePool := {
  OVHMachinePool_ObjectMeta : ObjectMeta;
  OVHMachinePool_Spec : OVHMachinePoolSpec;
  OVHMachinePool_Status : OVHMachinePoolStatus;
}.

(** ** Lists *)

Record OVHClusterList := {
  OVHClusterList_ListMeta : ListMeta;
  OVHClusterList_Items : list OVHCluster;
}.
Record OVHMachineList := {
  OVHMachineList_ListMeta : ListMeta;
  OVHMachineList_Items : list OVHMachine;
}.
Record OVHClusterTemplateList := {
  OVHClusterTemplateList_ListMeta : ListMeta;
  OVHClusterTemplateList_Items : list OVHClusterTemplate;
}.
Record OVHMachineTemplateList := {
  OVHMachineTemplateList_ListMeta : ListMeta;
  OVHMachineTemplateList_Items : list OVHMachineTemplate;
}.
Record OVHMachinePoolList := {
  OVHMachinePoolList_ListMeta : ListMeta;
  OVHMachinePoolList_Items : list OVHMachinePool;
}.
