(* ===== verification/ApiV1alpha1.v ===== *)
(** * ApiV1alpha1: the custom resources of api/v1alpha1

    The deprecated version of the API, with the names of the source; the names
    it shares with [ApiV1alpha2] are told apart by the name of the file. *)
From S2P Require Import Prelude.
From S2P Require Import K8sTypes.

(** ** ovhcluster_types.go: finalizer, conditions and reasons *)

Definition ClusterFinalizer := "ovhcluster.infrastructure.cluster.x-k8s.io/finalizer".
Definition OVHConnectionReadyCondition := "OVHConnectionReady".
Definition OVHConnectionFailedReason := "OVHConnectionFailed".
Definition OVHAuthenticationFailedReason := "OVHAuthenticationFailed".
Definition OVHConnectionReadyReason := "OVHConnectionReady".
Definition NetworkReadyCondition := "NetworkReady".
Definition NetworkCreationFailedReason := "NetworkCreationFailed".
Definition NetworkReadyReason := "NetworkReady".
Definition NetworkCreatedByControllerCondition := "NetworkCreatedByController".
Definition NetworkCreatedByControllerReason := "NetworkCreatedByController".
Definition LoadBalancerReadyCondition := "LoadBalancerReady".
Definition LoadBalancerNotReadyReason := "LoadBalancerNotReady".
Definition LoadBalancerCreationFailedReason := "LoadBalancerCreationFailed".
Definition LoadBalancerReadyReason := "LoadBalancerReady".
Definition InfrastructureReadyCondition := "InfrastructureReady".
Definition InfrastructureProvisioningInProgressReason := "InfrastructureProvisioningInProgress".
Definition InfrastructureProvisioningFailedReason := "InfrastructureProvisioningFailed".
Definition InfrastructureReadyReason := "InfrastructureReady".
Definition InitMachineCreatedCondition := "InitMachineCreated".
Definition InitMachineNotYetCreatedReason := "InitMachineNotYetCreated".

(** ** ovhmachine_types.go: finalizer, conditions and reasons *)

Definition MachineFinalizer := "ovhmachine.infrastructure.cluster.x-k8s.io/finalizer".
Definition InstanceCreatedCondition := "InstanceCreated".
Definition InstanceNotFoundReason := "InstanceNotFound".
Definition InstanceProvisioningReadyCondition := "InstanceProvisioningReady".
Definition InstanceProvisioningInProgressReason := "InstanceProvisioningInProgress".
Definition InstanceProvisioningFailedReason := "InstanceProvisioningFailed".
Definition InstanceProvisioningReadyReason := "InstanceProvisioningReady".
Definition InstanceRunningCondition := "InstanceRunning".
Definition InstanceRunningReason := "InstanceRunning".
Definition InstanceNotRunningReason := "InstanceNotRunning".

(** ** ovhcluster_types.go: data *)

Record SecretKey := { C1_SecretKey_Namespace : string; C1_SecretKey_Name : string }.

Record OVHListener := {
  C1_Listener_Name : string;
  C1_Listener_Port : Z;
  C1_Listener_Protocol : string;
  C1_Listener_BackendPort : Z;
}.

Record OVHLoadBalancerConfig := {
  C1_LB_SubnetID : string;
  C1_LB_FlavorName : string;
  C1_LB_FloatingNetworkID : string;
  C1_LB_Listeners : list OVHListener;
}.

Record OVHNetworkConfig := {
  C1_Net_PrivateNetworkID : string;
  C1_Net_SubnetCIDR : string;
  C1_Net_VlanID : Z;
  C1_Net_Gateway : string;
  C1_Net_DNSServers : list string;
}.

Record OVHClusterSpec := {
  C1Spec_ServiceName : string;
  C1Spec_Region : string;
  C1Spec_IdentitySecret : SecretKey;
  C1Spec_ControlPlaneEndpoint : APIEndpoint;
  C1Spec_LoadBalancerConfig : OVHLoadBalancerConfig;
  C1Spec_NetworkConfig : option OVHNetworkConfig;
  C1Spec_SSHKeyName : string;
}.

Record OVHClusterStatus := {
  C1Status_Ready : bool;
  C1Status_FailureReason : string;
  C1Status_FailureMessage : string;
  C1Status_Conditions : list Condition;
  C1Status_NetworkID : string;
  C1Status_SubnetID : string;
  C1Status_LoadBalancerID : string;
  C1Status_ListenerID : string;
  C1Status_PoolID : string;
  C1Status_FloatingIPID : string;
  C1Status_GatewayID : string;
  C1Status_GatewayExposed : bool;
  C1Status_RegisterListenerID : string;
  C1Status_RegisterPoolID : string;
}.

Record OVHCluster := {
  C1_ObjectMeta : ObjectMeta;
  C1_Spec : OVHClusterSpec;
  C1_Status : OVHClusterStatus;
}.

Record OVHClusterList := { C1_List_ListMeta : ListMeta; C1_List_Items : list OVHCluster }.

(** ** ovhmachine_types.go *)

Record OVHVolume := { M1_Volume_Name : string; M1_Volume_SizeGB : Z; M1_Volume_Type : string }.

(** Provisioned is a plain bool in this version. *)
Record Initialization := { M1_Provisioned : bool }.

Record OVHMachineSpec := {
  M1Spec_ProviderID : string;
  M1Spec_FlavorName : string;
  M1Spec_ImageName : string;
  M1Spec_SSHKeyName : string;
  M1Spec_RootDiskSize : Z;
  M1Spec_AdditionalVolumes : list OVHVolume;
  M1Spec_FailureDomain : string;
}.

Record OVHMachineStatus := {
  M1Status_Ready : bool;
  M1Status_Conditions : list Condition;
  M1Status_FailureReason : string;
  M1Status_FailureMessage : string;
  M1Status_Addresses : list MachineAddress;
  M1Status_Initialization : Initialization;
  M1Status_InstanceID : string;
  M1Status_VolumeIDs : list string;
  M1Status_LBPoolMemberID : string;
  M1Status_RegisterPoolMemberID : string;
}.

Record OVHMachine := {
  M1_ObjectMeta : ObjectMeta;
  M1_Spec : OVHMachineSpec;
  M1_Status : OVHMachineStatus;
}.

Record OVHMachineList := { M1_List_ListMeta : ListMeta; M1_List_Items : list OVHMachine }.

(** ** ovhclustertemplate_types.go, ovhmachinetemplate_types.go *)

Record OVHClusterTemplateResource := {
  CT1_Resource_ObjectMeta : TemplateMeta;
  CT1_Resource_Spec : OVHClusterSpec;
}.
Record OVHClusterTemplateSpec := { CT1_Template : OVHClusterTemplateResource }.
Record OVHClusterTemplate := { CT1_ObjectMeta : ObjectMeta; CT1_Spec : OVHClusterTemplateSpec }.
Record OVHClusterTemplateList := {
  CT1_List_ListMeta : ListMeta;
  CT1_List_Items : list OVHClusterTemplate;
}.

Record OVHMachineTemplateResource := {
  MT1_Resource_ObjectMeta : TemplateMeta;
  MT1_Resource_Spec : OVHMachineSpec;
}.
Record OVHMachineTemplateSpec := { MT1_Template : OVHMachineTemplateResource }.
Record OVHMachineTemplate := { MT1_ObjectMeta : ObjectMeta; MT1_Spec : OVHMachineTemplateSpec }.
Record OVHMachineTemplateList := {
  MT1_List_ListMeta : ListMeta;
  MT1_List_Items : list OVHMachineTemplate;
}.
