(* ===== verification/Effects.v ===== *)
(** * Effects: the environment, effectful programs, traces and postconditions

    Everything the provider calls outside src/ and that is not a pure function
    is a request: the go-ovh client, the clock, the metrics registry, the
    Kubernetes API servers.  A piece of Go code that returns a [T] is a value of
    [prog T], a tree of requests and continuations; nothing is assumed about
    the answers, so a theorem about all runs of a [prog] covers every behaviour
    of the environment.  [runs p t a] says that [p] can return [a] after
    exchanging exactly the events of [t]; [exec] runs a program against a
    concrete environment. *)
From S2P Require Import Prelude.
From S2P Require Import GoStrings.
From S2P Require Import GoErrors.
From S2P Require Import OvhTypes.
From S2P Require Import K8sTypes.
From S2P Require Import ApiV1alpha2.
#[local] Open Scope Z_scope.

(** ** Requests *)

(** The go-ovh client: the credentials given to [goovh.NewClient]. *)
Record GoOvhClient := {
  GoOvh_endpoint : string;
  GoOvh_appKey : string;
  GoOvh_appSecret : string;
  GoOvh_consumerKey : string;
}.

(** The Go type a response body is decoded into. *)
Inductive target : Type -> Type :=
| TNil : target unit
| TTask : target unit
| TStrings : target (list string)
| TInstance : target Instance_
| TInstances : target (list Instance_)
| TFlavors : target (list Flavor)
| TImages : target (list Image)
| TSSHKey : target SSHKey
| TSSHKeys : target (list SSHKey)
| TPrivateNetwork : target PrivateNetwork
| TPrivateNetworks : target (list PrivateNetwork)
| TSubnet : target Subnet
| TSubnets : target (list Subnet)
| TLBFlavors : target (list LBFlavor)
| TLoadBalancer : target LoadBalancer
| TLoadBalancers : target (list LoadBalancer)
| TGateways : target (list Gateway)
| TFloatingIP : target FloatingIP
| TFloatingIPs : target (list FloatingIP)
| TListener : target Listener
| TListeners : target (list Listener)
| TPool : target Pool
| TPools : target (list Pool)
| TMembers : target (list Member)
| THealthMonitor : target HealthMonitor
| THealthMonitors : target (list HealthMonitor)
| TVolume : target Volume
| TRegionInfo : target RegionInfo
| TSecurityGroup : target SecurityGroup
| TSecurityGroups : target (list SecurityGroup)
| TSecurityGroupRule : target SecurityGroupRule
| TSecurityGroupRules : target (list SecurityGroupRule)
| TDNSRecord : target DNSRecord.

(** The Go value a request body is encoded from. *)
Inductive body : Type :=
| BNil
| BCreateInstance (o : CreateInstanceOpts)
| BCreateSSHKey (o : CreateSSHKeyOpts)
| BCreateNetwork (o : CreateNetworkOpts)
| BCreateSubnet (o : CreateSubnetOpts)
| BCreateLoadBalancer (o : CreateLoadBalancerOpts)
| BFloatingIPId (floatingIpId : string)
| BLBFloatingIP (ip gatewayModel gatewayName : string)
| BCreateListener (o : CreateListenerOpts)
| BCreatePool (o : CreatePoolOpts)
| BAddMembers (o : addPoolMembersRequest)
| BCreateHealthMonitor (o : CreateHealthMonitorOpts)
| BCreateVolume (o : CreateVolumeOpts)
| BAttachVolume (o : AttachVolumeOpts)
| BCreateFloatingIP (o : CreateFloatingIPOpts)
| BCreateSecurityGroup (o : CreateSecurityGroupOpts)
| BCreateSecurityGroupRule (o : CreateSecurityGroupRuleOpts)
| BCreateDNSRecord (o : CreateDNSRecordOpts).

(** The workload cluster's [rest.Config]. *)
Record RestConfig := { RestConfig_content : string }.

(** util/etcd.go: a member of the etcd cluster, as etcdctl prints it. *)
Record EtcdMember := {
  EtcdMember_ID : N;
  EtcdMember_Name : string;
  EtcdMember_PeerURLs : list string;
  EtcdMember_ClientURLs : list string;
}.

(** The command of an exec request, and what running it produced: stdout,
    stderr and the error. *)
Record PodExec := {
  PodExec_Namespace : string;
  PodExec_Pod : string;
  PodExec_Container : string;
  PodExec_Command : list string;
}.
Record ExecOutput := {
  Exec_stdout : string;
  Exec_stderr : string;
  Exec_err : option goerror;
}.

(** What the entry point asks of controller-runtime: the options of a manager,
    the description of a controller, and the calls in their order. *)
Record ManagerOptions := {
  MetricsBindAddress : string;
  HealthProbeBindAddress : string;
  LeaderElection : bool;
  LeaderElectionID : string;
  WebhookServerPort : option Z;
}.
Record Watch := {
  Watch_Kind : string;
  Watch_Mapper : string;
  Watch_Predicates : list string;
}.
Record ControllerBuilder := { For_Kind : string; Builder_Watches : list Watch }.

Inductive manager_call : Type :=
| AddToScheme (group : string)
| GetConfigOrDie
| NewManager (opts : ManagerOptions)
| ClusterToTypedObjectsMapper (list_kind : string)
| IndexField (kind field : string)
| CompleteController (b : ControllerBuilder)
| CompleteWebhook (kind version : string)
| AddHealthzCheck (name : string)
| AddReadyzCheck (name : string)
| StartManager.

(** Requests, indexed by the type of their answer. *)
Inductive req : Type -> Type :=
(* go-ovh *)
| GoOvhNewClient (c : GoOvhClient) : req (option goerror)
| ApiGet {T} (c : GoOvhClient) (path : string) (tg : target T) : req (gores T)
| ApiPost {T} (c : GoOvhClient) (path : string) (b : body) (tg : target T) : req (gores T)
| ApiDelete (c : GoOvhClient) (path : string) : req (gores unit)
(* Go runtime *)
| Sleep (d : Z) : req unit
| Now : req Z
| ParseRFC3339 (s : string) : req (option Z)
| MapRange : req (list nat)
(* Prometheus *)
| MetricInc (name : string) : req unit
| MetricObserve (name : string) (labels : list string) (nanoseconds : Z) : req unit
| MetricSet (name : string) (labels : list string) (v : Z) : req unit
(* management cluster *)
| GetOVHCluster (ns name : string) : req (gores OVHCluster)
| GetOVHMachine (ns name : string) : req (gores OVHMachine)
| GetSecret (ns name : string) : req (gores Secret)
| ListOVHClustersBySecret (secretName : string) : req (gores (list OVHCluster))
| NewPatchHelper (m : ObjectMeta) : req (option goerror)
| PatchOVHCluster (c : OVHCluster) : req (option goerror)
| PatchOVHMachine (m : OVHMachine) : req (option goerror)
| GetOwnerCluster (m : ObjectMeta) : req (gores (option Cluster))
| GetOwnerMachine (m : ObjectMeta) : req (gores (option Machine))
| GetClusterFromMetadata (m : ObjectMeta) : req (gores (option Cluster))
| KubeconfigFromSecret (ns name : string) : req (gores string)
| RESTConfigFromKubeConfig (data : string) : req (gores RestConfig)
(* controller-runtime *)
| Manager (m : manager_call) : req (option goerror)
(* workload cluster *)
| NewForConfig (cfg : RestConfig) : req (option goerror)
| NodesGet (name : string) : req (gores Node)
| NodesPatch (name patch : string) : req (option goerror)
| MarshalTaints (taints : list Taint) : req (gores string)
| PodsList (ns labelSelector : string) : req (gores (list Pod))
| NewSPDYExecutor (cfg : RestConfig) (x : PodExec) : req (option goerror)
| ExecStream (cfg : RestConfig) (x : PodExec) : req ExecOutput
| UnmarshalMembers (data : string) : req (gores (list EtcdMember)).

(** ** Programs *)

Inductive prog (A : Type) : Type :=
| Ret (a : A)
| Vis {X : Type} (r : req X) (k : X -> prog A).
Arguments Ret {A} a.
Arguments Vis {A X} r k.

Fixpoint pbind {A B} (p : prog A) (f : A -> prog B) : prog B :=
  match p with
  | Ret a => f a
  | Vis r k => Vis r (fun x => pbind (k x) f)
  end.

Definition call {X} (r : req X) : prog X := Vis r Ret.

Notation "'let*' x ':=' p 'in' k" := (pbind p (fun x => k))
  (at level 10, x pattern, p at level 100, k at level 200,
   format "'[v' 'let*'  x  ':='  p  'in' '/' k ']'") : go_scope.

(** ** Code that mutates a shared object

    The reconcilers mutate the custom resource their scope points to: such a
    method is a state passer over that object. *)
Definition M (S A : Type) : Type := S -> prog (A * S).

Section monad.
Context {S : Type}.

Definition mret {A} (a : A) : M S A := fun s => Ret (a, s).
Definition mbind {A B} (m : M S A) (f : A -> M S B) : M S B :=
  fun s => pbind (m s) (fun '(a, s') => f a s').
Definition lift {A} (p : prog A) : M S A := fun s => pbind p (fun a => Ret (a, s)).
Definition get : M S S := fun s => Ret (s, s).
Definition modify (f : S -> S) : M S unit := fun s => Ret (tt, f s).
Definition mcall {X} (r : req X) : M S X := fun s => Vis r (fun x => Ret (x, s)).

(** [for _, x := range l { body }] without early exit. *)
Fixpoint for_each {X} (l : list X) (body : X -> M S unit) : M S unit :=
  match l with
  | [] => mret tt
  | x :: l => mbind (body x) (fun _ => for_each l body)
  end.

(** A loop whose body may [return err]. *)
Fixpoint for_each_err {X} (l : list X) (body : X -> M S (option goerror))
  : M S (option goerror) :=
  match l with
  | [] => mret None
  | x :: l => mbind (body x) (fun r => match r with
                                       | Some e => mret (Some e)
                                       | None => for_each_err l body
                                       end)
  end.
End monad.

(** A loop over [l] that carries a local variable. *)
Fixpoint for_fold {A X} (l : list X) (body : X -> A -> prog A) (a : A) : prog A :=
  match l with
  | [] => Ret a
  | x :: l => pbind (body x a) (for_fold l body)
  end.

(** Go iterates over a map in an unspecified order.  The order is an answer of
    the runtime: a list of numbers that selects, at each step, one of the
    entries not visited yet. *)
Fixpoint range_order {A} (n : nat) (code : list nat) (l : list A) : list A :=
  match n, l with
  | S n', _ :: _ =>
      let i := (default 0 (head code) mod length l)%nat in
      match l !! i with
      | Some x => x :: range_order n' (tail code) (delete i l)
      | None => l
      end
  | _, _ => l
  end.

Definition range_map {S} (m : gmap string string) : M S (list (string * string)) :=
  fun s => Vis MapRange (fun code =>
    Ret (range_order (size m) code (map_to_list m), s)).

Notation "'let!' x ':=' m 'in' k" := (mbind m (fun x => k))
  (at level 10, x pattern, m at level 100, k at level 200,
   format "'[v' 'let!'  x  ':='  m  'in' '/' k ']'") : go_scope.
Notation "'do!' m 'in' k" := (mbind m (fun _ => k))
  (at level 10, m at level 100, k at level 200,
   format "'[v' 'do!'  m  'in' '/' k ']'") : go_scope.
(** [x, err := m; if err != nil { h }; k]. *)
Notation "'try!' x ':=' m 'catch' e '=>' h 'in' k" :=
  (mbind m (fun r => match r with Ok x => k | Err e => h end))
  (at level 10, x name, m at level 100, e name, h at level 100, k at level 200,
   format "'[v' 'try!'  x  ':='  m  'catch'  e  '=>'  '/  ' h  'in' '/' k ']'") : go_scope.
(** [if err := m; err != nil { h }; k]. *)
Notation "'check!' m 'catch' e '=>' h 'in' k" :=
  (mbind m (fun r => match r with Some e => h | None => k end))
  (at level 10, m at level 100, e name, h at level 100, k at level 200,
   format "'[v' 'check!'  m  'catch'  e  '=>'  '/  ' h  'in' '/' k ']'") : go_scope.

(** ** Traces and runs *)

Inductive event : Type :=
| Ev {X : Type} (r : req X) (x : X).

Definition trace := list event.

Fixpoint runs {A} (p : prog A) (t : trace) (a : A) : Prop :=
  match p with
  | Ret a' => t = [] /\ a = a'
  | Vis r k => exists x t', t = Ev r x :: t' /\ runs (k x) t' a
  end.

(** A concrete environment over a state [W]. *)
Definition handler (W : Type) : Type := forall X : Type, W -> req X -> X * W.

Fixpoint exec {W A} (h : handler W) (p : prog A) (w : W) : trace * A :=
  match p with
  | Ret a => ([], a)
  | Vis r k =>
      let '(x, w') := h _ w r in
      let '(t, a) := exec h (k x) w' in
      (Ev r x :: t, a)
  end.

(** ** Postconditions *)

(** Every run of [p] exchanges only events of [E] and returns an [a] with [Q a]. *)
Definition triple {A} (E : event -> Prop) (p : prog A) (Q : A -> Prop) : Prop :=
  forall t a, runs p t a -> Forall E t /\ Q a.

(** Every run of [p] satisfies [Q] of its trace and result. *)
Definition sat {A} (p : prog A) (Q : trace -> A -> Prop) : Prop :=
  forall t a, runs p t a -> Q t a.

Abbreviation emits E p := (triple E p (fun _ => True)).

(** An environment in which every call fails at once. *)
Definition failing_env : handler unit := fun X w r =>
  match r in req X return X * unit with
  | ApiGet _ _ _ | ApiPost _ _ _ _ | ApiDelete _ _
  | GetOVHCluster _ _ | GetOVHMachine _ _ | GetSecret _ _ | ListOVHClustersBySecret _
  | GetOwnerCluster _ | GetOwnerMachine _ | GetClusterFromMetadata _
  | KubeconfigFromSecret _ _ | RESTConfigFromKubeConfig _ | NodesGet _
  | MarshalTaints _ | PodsList _ _ | UnmarshalMembers _ => (Err (NewError "unavailable"), w)
  | GoOvhNewClient _ | NewPatchHelper _ | PatchOVHCluster _ | PatchOVHMachine _
  | Manager _ | NewForConfig _ | NodesPatch _ _ | NewSPDYExecutor _ _ => (Some (NewError "unavailable"), w)
  | ExecStream _ _ => ({| Exec_stdout := ""; Exec_stderr := "";
                          Exec_err := Some (NewError "unavailable") |}, w)
  | Sleep _ | MetricInc _ | MetricObserve _ _ _ | MetricSet _ _ _ => (tt, w)
  | Now => (0, w)
  | ParseRFC3339 _ => (None, w)
  | MapRange => ([], w)
  end.

(** ** Laws of runs *)

Lemma runs_bind {A B} (p : prog A) (f : A -> prog B) t b :
  runs (pbind p f) t b <->
  exists t1 t2 a, t = t1 ++ t2 /\ runs p t1 a /\ runs (f a) t2 b.
Proof.
  revert t. induction p as [a|X r k IH]; intros t; cbn.
  - split; [intros H; by exists [], t, a|].
    by intros (t1 & t2 & a' & -> & [-> ->] & H).
  - split.
    + intros (x & t' & -> & (t1 & t2 & a & -> & H1 & H2)%IH).
      exists (Ev r x :: t1), t2, a. repeat split; [|done]. by exists x, t1.
    + intros (t1 & t2 & a & -> & (x & t' & -> & H1) & H2).
      exists x, (t' ++ t2). split; [done|]. apply IH. by exists t', t2, a.
Qed.

Lemma exec_runs {W A} (h : handler W) (p : prog A) w :
  runs p (exec h p w).1 (exec h p w).2.
Proof.
  revert w. induction p as [a|X r k IH]; intros w; [done|]. cbn.
  destruct (h X w r) as [x w'] eqn:E. specialize (IH x w').
  destruct (exec h (k x) w') as [t a]. cbn in *. by exists x, t.
Qed.

(** Running against a concrete environment exhibits a run. *)
Lemma exec_runs_eq {W A} (h : handler W) (p : prog A) w t a :
  exec h p w = (t, a) -> runs p t a.
Proof. intros H. pose proof (exec_runs h p w) as Hr. by rewrite H in Hr. Qed.

(** No program diverges or gets stuck: whatever the environment answers, a
    result is returned. *)
Lemma runs_total {A} (p : prog A) : exists t a, runs p t a.
Proof. eexists _, _. apply (exec_runs failing_env p tt). Qed.

(** Every iteration order is a permutation of the entries, and every permutation
    is the order of some answer. *)
Lemma range_order_perm {A} n code (l : list A) : range_order n code l ≡ₚ l.
Proof.
  revert code l. induction n as [|n IH]; intros code l; [done|].
  destruct l as [|x l]; [done|]. cbn [range_order].
  destruct ((x :: l) !! _) as [y|] eqn:E; [|done].
  rewrite (IH _ (delete _ (x :: l))). symmetry. by apply delete_Permutation.
Qed.

Lemma range_order_surj {A} (l l' : list A) :
  l ≡ₚ l' -> exists code, range_order (length l) code l = l'.
Proof.
  remember (length l) as n eqn:Hn. revert l l' Hn.
  induction n as [|n IH]; intros l l' Hn Hp.
  { destruct l; [|done]. exists []. by apply Permutation_nil_l. }
  destruct l' as [|y l']; [by apply Permutation_length in Hp; rewrite <- Hn in Hp|].
  assert (Hin : y ∈ l) by (rewrite Hp; set_solver).
  apply list_elem_of_lookup in Hin as [i Hi].
  assert (Hlt : (i < length l)%nat) by (by eapply lookup_lt_Some).
  assert (Hp' : delete i l ≡ₚ l').
  { apply (Permutation_cons_inv (a := y)). rewrite <- Hp. symmetry.
    by apply delete_Permutation. }
  destruct (IH (delete i l) l') as [code Hc]; [|done|].
  { rewrite length_delete by (by eexists). lia. }
  exists (i :: code). destruct l as [|x l]; [done|].
  cbn [range_order head tail default]. cbn [from_option id].
  rewrite Nat.mod_small by lia. by rewrite Hi, Hc.
Qed.

(** ** Rules for [triple] *)

Section rules.
Context {A B : Type} (E : event -> Prop).

Lemma triple_ret (a : A) Q : Q a -> triple E (Ret a) Q.
Proof. by intros HQ t a' [-> ->]. Qed.

Lemma triple_vis {X} (r : req X) (k : X -> prog A) Q :
  (forall x, E (Ev r x)) -> (forall x, triple E (k x) Q) -> triple E (Vis r k) Q.
Proof.
  intros HE Hk t a (x & t' & -> & H). destruct (Hk x _ _ H). split; [|done].
  by constructor.
Qed.

Lemma triple_bind (p : prog A) (f : A -> prog B) R Q :
  triple E p R -> (forall a, R a -> triple E (f a) Q) -> triple E (pbind p f) Q.
Proof.
  intros Hp Hf t b (t1 & t2 & a & -> & H1 & H2)%runs_bind.
  destruct (Hp _ _ H1) as [? HR]. destruct (Hf _ HR _ _ H2).
  split; [by apply Forall_app|done].
Qed.

Lemma triple_conseq (p : prog A) (Q Q' : A -> Prop) :
  triple E p Q -> (forall a, Q a -> Q' a) -> triple E p Q'.
Proof. intros Hp HQ t a H. destruct (Hp _ _ H). auto. Qed.

Lemma emits_bind (p : prog A) (f : A -> prog B) :
  emits E p -> (forall a, emits E (f a)) -> emits E (pbind p f).
Proof. intros Hp Hf. eapply triple_bind; [exact Hp|auto]. Qed.
End rules.

Lemma for_fold_emits {A X} (E : event -> Prop) (l : list X) (body : X -> A -> prog A) a :
  (forall x a, x ∈ l -> emits E (body x a)) -> emits E (for_fold l body a).
Proof.
  revert a. induction l as [|x l IH]; intros a Hb; [by apply triple_ret|].
  apply emits_bind; [apply Hb; set_solver|]. intros a'. apply IH. intros. apply Hb. set_solver.
Qed.

Lemma triple_weaken {A} (E E' : event -> Prop) (p : prog A) Q :
  triple E p Q -> (forall e, E e -> E' e) -> triple E' p Q.
Proof.
  intros Hp HE t a H. destruct (Hp _ _ H). split; [|done].
  eapply Forall_impl; eauto.
Qed.

Lemma triple_and {A} (E1 E2 : event -> Prop) (p : prog A) Q1 Q2 :
  triple E1 p Q1 -> triple E2 p Q2 ->
  triple (fun e => E1 e /\ E2 e) p (fun a => Q1 a /\ Q2 a).
Proof.
  intros H1 H2 t a H. destruct (H1 _ _ H), (H2 _ _ H).
  split; [by apply Forall_and|done].
Qed.

(** The result only. *)
Lemma triple_result {A} (p : prog A) Q :
  triple (fun _ => True) p Q <-> sat p (fun _ a => Q a).
Proof.
  split; intros H t a Hr.
  - by destruct (H _ _ Hr).
  - split; [by apply Forall_true|by eapply H].
Qed.

(** ** Rules for [sat] *)

Lemma sat_ret {A} (a : A) (Q : trace -> A -> Prop) : Q [] a -> sat (Ret a) Q.
Proof. by intros HQ t a' [-> ->]. Qed.

Lemma sat_vis {A X} (r : req X) (k : X -> prog A) (Q : trace -> A -> Prop) :
  (forall x, sat (k x) (fun t a => Q (Ev r x :: t) a)) -> sat (Vis r k) Q.
Proof. intros Hk t a (x & t' & -> & H). by apply (Hk x). Qed.

Lemma sat_bind {A B} (p : prog A) (f : A -> prog B) (Q : trace -> B -> Prop) :
  sat p (fun t a => sat (f a) (fun t' b => Q (t ++ t') b)) -> sat (pbind p f) Q.
Proof. intros Hp t b (t1 & t2 & a & -> & H1 & H2)%runs_bind. by apply (Hp _ _ H1). Qed.

Lemma sat_conseq {A} (p : prog A) (Q Q' : trace -> A -> Prop) :
  sat p Q -> (forall t a, Q t a -> Q' t a) -> sat p Q'.
Proof. intros Hp HQ t a H. auto. Qed.

Lemma sat_triple {A} (E : event -> Prop) (p : prog A) Q :
  triple E p Q <-> sat p (fun t a => Forall E t /\ Q a).
Proof. done. Qed.

(** ** Classification of events *)

(** A POST or DELETE on the OVH API: the calls that change OVH resources. *)
Definition is_post (e : event) : bool :=
  match e with Ev (ApiPost _ _ _ _) _ => true | _ => false end.
Definition is_delete (e : event) : bool :=
  match e with Ev (ApiDelete _ _) _ => true | _ => false end.
Definition is_ovh (e : event) : bool :=
  match e with
  | Ev (ApiGet _ _ _) _ | Ev (ApiPost _ _ _ _) _ | Ev (ApiDelete _ _) _ => true
  | _ => false
  end.

(** The event is not a POST to [path]; not a DELETE of [path]. *)
Definition no_post_on (path : string) (e : event) : Prop :=
  match e with Ev (ApiPost _ p _ _) _ => p <> path | _ => True end.
Definition no_delete_on (path : string) (e : event) : Prop :=
  match e with Ev (ApiDelete _ p) _ => p <> path | _ => True end.
Definition no_post (e : event) : Prop := is_post e = false.
Definition no_delete (e : event) : Prop := is_delete e = false.
Definition no_ovh (e : event) : Prop := is_ovh e = false.
Definition read_only (e : event) : Prop := no_post e /\ no_delete e.
