(* ===== verification/OvhClient.v ===== *)
(** * OvhClient: pkg/ovh/client.go

    One definition per method of [Client], in the order of the file.  A method
    returning [( *T, error)] is a [prog (gores T)], one returning [error] a
    [prog (option goerror)] and a finder returning a nilable pointer a
    [prog (gores (option T))].  Logging is not modelled. *)
From S2P Require Import Prelude.
From S2P Require Import GoStrings.
From S2P Require Import GoErrors.
From S2P Require Import OvhTypes.
From S2P Require Import K8sTypes.
From S2P Require Import Effects.
#[local] Open Scope Z_scope.
#[local] Open Scope go_scope.

(** Durations, in nanoseconds. *)
Definition Second : Z := 1000000000.
Definition Minute : Z := 60 * Second.

Definition maxRetries : nat := 5.
Definition initialBackoff : Z := 2 * Second.
Definition maxBackoff : Z := 60 * Second.

Record Client := {
  api : GoOvhClient;
  serviceName : string;
  region : string;
}.

(** [NewClient]. *)
Definition NewClient (endpoint appKey appSecret consumerKey serviceName region : string)
  : prog (gores Client) :=
  let a := {| GoOvh_endpoint := endpoint; GoOvh_appKey := appKey;
              GoOvh_appSecret := appSecret; GoOvh_consumerKey := consumerKey |} in
  let* err := call (GoOvhNewClient a) in
  match err with
  | Some e => Ret (Err (Errorf "creating OVH client: " e))
  | None => Ret (Ok {| api := a; serviceName := serviceName; region := region |})
  end.

(** [string(secret.Data[key])]: a missing key reads as "". *)
Definition secret_value (s : Secret) (key : string) : string :=
  default "" (Secret_Data s !! key).

Definition NewClientFromSecret (secret : Secret) (serviceName region : string)
  : prog (gores Client) :=
  let endpoint := secret_value secret "endpoint" in
  let appKey := secret_value secret "applicationKey" in
  let appSecret := secret_value secret "applicationSecret" in
  let consumerKey := secret_value secret "consumerKey" in
  if (endpoint =s? "") || (appKey =s? "") || (appSecret =s? "") || (consumerKey =s? "") then
    Ret (Err (NewError ("secret " +:+ Namespace (Secret_ObjectMeta secret) +:+ "/" +:+
      Name (Secret_ObjectMeta secret) +:+
      " missing required keys (endpoint, applicationKey, applicationSecret, consumerKey)")))
  else NewClient endpoint appKey appSecret consumerKey serviceName region.

(** ** Paths: the [%s] verbs of the formats are already substituted. *)

Definition projectPath (c : Client) (suffix : string) : string :=
  "/cloud/project/" +:+ serviceName c +:+ suffix.

Definition regionPath (c : Client) (suffix : string) : string :=
  "/cloud/project/" +:+ serviceName c +:+ "/region/" +:+ region c +:+ suffix.

(** [path += "?region=" + c.region] when the client has a region. *)
Definition withRegion (c : Client) (path : string) : string :=
  if region c =s? "" then path else path +:+ "?region=" +:+ region c.

(** ** Retries *)

(** The float computation [min(2s * 2^attempt, 60s)]; every intermediate value
    is an integer below 2^53, so the float64 arithmetic is exact. *)
Definition backoff (attempt : nat) : Z :=
  Z.min (initialBackoff * 2 ^ Z.of_nat attempt) maxBackoff.

(** The iterations of the loop from the one with [left] retries left. *)
Fixpoint retry_from {T} (operation : string) (fn : prog (gores T)) (left : nat)
  : prog (gores T) :=
  let* r := fn in
  match r with
  | Ok x => Ret (Ok x)
  | Err lastErr =>
      if negb (IsRetryable (Some lastErr)) then Ret (Err lastErr)
      else match left with
           | O => Ret (Err (Errorf (operation +:+ " failed after " +:+
                     fmt_d (Z.of_nat maxRetries) +:+ " retries: ") lastErr))
           | S left' =>
               let* _ := call (Sleep (backoff (maxRetries - left))) in
               retry_from operation fn left'
           end
  end.

Definition retryWithBackoff {T} (operation : string) (fn : prog (gores T)) : prog (gores T) :=
  retry_from operation fn maxRetries.

(** [if err != nil { return nil, fmt.Errorf("<pre>%w", err) }; return &v, nil]. *)
Definition wrapErr {T} (pre : string) (r : gores T) : gores T :=
  match r with Ok x => Ok x | Err e => Err (Errorf pre e) end.

(** [if err != nil { if IsNotFound(err) { return nil }; return fmt.Errorf(...) }]. *)
Definition nilOnNotFound (pre : string) (r : gores unit) : option goerror :=
  match r with
  | Ok _ => None
  | Err e => if IsNotFound (Some e) then None else Some (Errorf pre e)
  end.

Definition errOnly (pre : string) (r : gores unit) : option goerror :=
  match r with Ok _ => None | Err e => Some (Errorf pre e) end.

Section methods.
Context (c : Client).

Definition apiGet {T} (op path : string) (tg : target T) : prog (gores T) :=
  retryWithBackoff op (call (ApiGet (api c) path tg)).
Definition apiPost {T} (op path : string) (b : body) (tg : target T) : prog (gores T) :=
  retryWithBackoff op (call (ApiPost (api c) path b tg)).
Definition apiDelete (op path : string) : prog (gores unit) :=
  retryWithBackoff op (call (ApiDelete (api c) path)).

(** *** Credentials *)

Definition ValidateCredentials : prog (option goerror) :=
  if serviceName c =s? "" then Ret (Some (NewError "serviceName is empty"))
  else
    let* r := apiGet "ValidateCredentials" (projectPath c "/region") TStrings in
    match r with
    | Err e => Ret (Some (Errorf "validating OVH credentials: " e))
    | Ok [] => Ret (Some (NewError
                 "validating OVH credentials: no regions returned by project"))
    | Ok _ => Ret None
    end.

(** *** Instances *)

Definition CreateInstance (opts : CreateInstanceOpts) : prog (gores Instance_) :=
  let* r := apiPost "CreateInstance" (projectPath c "/instance")
              (BCreateInstance opts) TInstance in
  Ret (wrapErr ("creating instance " +:+ fmt_q (CreateInstanceOpts_Name opts) +:+ ": ") r).

Definition GetInstance (instanceID : string) : prog (gores Instance_) :=
  let* r := apiGet "GetInstance" (projectPath c ("/instance/" +:+ instanceID)) TInstance in
  Ret (wrapErr ("getting instance " +:+ instanceID +:+ ": ") r).

Definition DeleteInstance (instanceID : string) : prog (option goerror) :=
  let* r := apiDelete "DeleteInstance" (projectPath c ("/instance/" +:+ instanceID)) in
  Ret (nilOnNotFound ("deleting instance " +:+ instanceID +:+ ": ") r).

Definition ListInstances : prog (gores (list Instance_)) :=
  let* r := apiGet "ListInstances" (withRegion c (projectPath c "/instance")) TInstances in
  Ret (wrapErr "listing instances: " r).

Definition FindInstanceByName (name : string) : prog (gores (option Instance_)) :=
  let* r := ListInstances in
  match r with
  | Err e => Ret (Err e)
  | Ok instances => Ret (Ok (find_first (fun i => Instance_Name i =s? name) instances))
  end.

(** *** Flavours *)

Definition ListFlavors : prog (gores (list Flavor)) :=
  let* r := apiGet "ListFlavors" (withRegion c (projectPath c "/flavor")) TFlavors in
  Ret (wrapErr "listing flavors: " r).

Definition GetFlavorByName (name : string) : prog (gores Flavor) :=
  let* r := ListFlavors in
  match r with
  | Err e => Ret (Err e)
  | Ok flavors =>
      match find_first (fun f => EqualFold (Flavor_Name f) name) flavors with
      | Some f => Ret (Ok f)
      | None => Ret (Err (NewError ("flavor " +:+ fmt_q name +:+
                  " not found in region " +:+ region c)))
      end
  end.

(** *** Images *)

Definition ListImages : prog (gores (list Image)) :=
  let* r := apiGet "ListImages" (withRegion c (projectPath c "/image")) TImages in
  Ret (wrapErr "listing images: " r).

Definition ListSnapshots : prog (gores (list Image)) :=
  let* r := apiGet "ListSnapshots" (withRegion c (projectPath c "/snapshot")) TImages in
  Ret (wrapErr "listing snapshots: " r).
End methods.

Definition is_hex (c : Ascii.ascii) : bool :=
  byte_in 48 57 c || byte_in 97 102 c || byte_in 65 70 c.

(** The loop of [isUUID] from position [i].  Go ranges over runes; a byte of a
    multi-byte rune is rejected by both tests, so ranging over bytes gives the
    same answer. *)
Fixpoint isUUID_from (i : nat) (s : string) : bool :=
  match s with
  | EmptyString => true
  | String c s' =>
      (match i with
       | 8 | 13 | 18 | 23 => is_hyphen c
       | _ => is_hex c
       end)%nat && isUUID_from (S i) s'
  end.

Definition isUUID (s : string) : bool :=
  if negb (String.length s =? 36)%nat then false else isUUID_from 0 s.

(** First a case-insensitive exact match, then the first image whose name
    contains [name], ignoring case. *)
Definition findImageByName (images : list Image) (name : string) : option Image :=
  match find_first (fun i => EqualFold (Image_Name i) name) images with
  | Some i => Some i
  | None => find_first (fun i => Contains (ToLower (Image_Name i)) (ToLower name)) images
  end.

Section methods2.
Context (c : Client).

Definition GetImageByName (name : string) : prog (gores Image) :=
  if name =s? "" then Ret (Err (NewError "image name is empty"))
  else if isUUID name then
    Ret (Ok (zero_Image {{ Image_ID := name; Image_Name := name; Image_Region := region c }}))
  else
    let* r := ListImages c in
    match r with
    | Err e => Ret (Err e)
    | Ok images =>
        match findImageByName images name with
        | Some img => Ret (Ok img)
        | None =>
            let* r := ListSnapshots c in
            match r with
            | Err e => Ret (Err (Errorf ("image " +:+ fmt_q name +:+
                " not found in public images and snapshot lookup failed: ") e))
            | Ok snapshots =>
                match findImageByName snapshots name with
                | Some img => Ret (Ok img)
                | None => Ret (Err (NewError ("image " +:+ fmt_q name +:+
                    " not found in region " +:+ region c +:+
                    " (searched public images and BYOI snapshots)")))
                end
            end
        end
    end.

(** *** SSH keys *)

Definition ListSSHKeys : prog (gores (list SSHKey)) :=
  let* r := apiGet c "ListSSHKeys" (withRegion c (projectPath c "/sshkey")) TSSHKeys in
  Ret (wrapErr "listing SSH keys: " r).

Definition GetSSHKeyByName (name : string) : prog (gores SSHKey) :=
  let* r := ListSSHKeys in
  match r with
  | Err e => Ret (Err e)
  | Ok keys =>
      match find_first (fun k => SSHKey_Name k =s? name) keys with
      | Some k => Ret (Ok k)
      | None => Ret (Err (NewError ("SSH key " +:+ fmt_q name +:+ " not found")))
      end
  end.

Definition CreateSSHKey (opts : CreateSSHKeyOpts) : prog (gores SSHKey) :=
  let* r := apiPost c "CreateSSHKey" (projectPath c "/sshkey") (BCreateSSHKey opts) TSSHKey in
  Ret (wrapErr ("creating SSH key " +:+ fmt_q (CreateSSHKeyOpts_Name opts) +:+ ": ") r).

Definition DeleteSSHKey (keyID : string) : prog (option goerror) :=
  let* r := apiDelete c "DeleteSSHKey" (projectPath c ("/sshkey/" +:+ keyID)) in
  Ret (nilOnNotFound ("deleting SSH key " +:+ keyID +:+ ": ") r).

(** *** Networks *)

Definition ListPrivateNetworks : prog (gores (list PrivateNetwork)) :=
  let* r := apiGet c "ListPrivateNetworks" (projectPath c "/network/private")
              TPrivateNetworks in
  Ret (wrapErr "listing private networks: " r).

Definition GetPrivateNetwork (networkID : string) : prog (gores PrivateNetwork) :=
  let* r := apiGet c "GetPrivateNetwork" (projectPath c ("/network/private/" +:+ networkID))
              TPrivateNetwork in
  Ret (wrapErr ("getting private network " +:+ networkID +:+ ": ") r).

Definition CreatePrivateNetwork (opts : CreateNetworkOpts) : prog (gores PrivateNetwork) :=
  let* r := apiPost c "CreatePrivateNetwork" (projectPath c "/network/private")
              (BCreateNetwork opts) TPrivateNetwork in
  Ret (wrapErr ("creating private network " +:+ fmt_q (CreateNetworkOpts_Name opts) +:+ ": ") r).

Definition DeletePrivateNetwork (networkID : string) : prog (option goerror) :=
  let* r := apiDelete c "DeletePrivateNetwork"
              (projectPath c ("/network/private/" +:+ networkID)) in
  Ret (nilOnNotFound ("deleting private network " +:+ networkID +:+ ": ") r).

Definition ListSubnets (networkID : string) : prog (gores (list Subnet)) :=
  let* r := apiGet c "ListSubnets"
              (projectPath c ("/network/private/" +:+ networkID +:+ "/subnet")) TSubnets in
  Ret (wrapErr ("listing subnets for network " +:+ networkID +:+ ": ") r).

Definition CreateSubnet (networkID : string) (opts : CreateSubnetOpts) : prog (gores Subnet) :=
  let* r := apiPost c "CreateSubnet"
              (projectPath c ("/network/private/" +:+ networkID +:+ "/subnet"))
              (BCreateSubnet opts) TSubnet in
  Ret (wrapErr ("creating subnet in network " +:+ networkID +:+ ": ") r).

(** *** Load balancers *)

Definition ListLBFlavors : prog (gores (list LBFlavor)) :=
  let* r := apiGet c "ListLBFlavors" (regionPath c "/loadbalancing/flavor") TLBFlavors in
  Ret (wrapErr "listing LB flavors: " r).

Definition GetLBFlavorByName (name : string) : prog (gores LBFlavor) :=
  let* r := ListLBFlavors in
  match r with
  | Err e => Ret (Err e)
  | Ok flavors =>
      match find_first (fun f => EqualFold (LBFlavor_Name f) name) flavors with
      | Some f => Ret (Ok f)
      | None => Ret (Err (NewError ("LB flavor " +:+ fmt_q name +:+
                  " not found in region " +:+ region c)))
      end
  end.

Definition lbCollection : string := regionPath c "/loadbalancing/loadbalancer".

Definition findLoadBalancerByName (name : string) : prog (gores (option LoadBalancer)) :=
  let* r := apiGet c "ListLoadBalancers" lbCollection TLoadBalancers in
  match r with
  | Err e => Ret (Err e)
  | Ok lbs => Ret (Ok (find_first (fun l => LoadBalancer_Name l =s? name) lbs))
  end.

Definition maxLookupAttempts : nat := 10.

(** The polling loop of [CreateLoadBalancer] with [left] attempts left. *)
Fixpoint pollLoadBalancer (name : string) (left : nat) : prog (gores LoadBalancer) :=
  match left with
  | O => Ret (Err (NewError ("LB " +:+ fmt_q name +:+
           " was created but did not appear in list within " +:+
           fmt_d (Z.of_nat maxLookupAttempts) +:+ " attempts")))
  | S left' =>
      let* r := findLoadBalancerByName name in
      match r with
      | Err e => Ret (Err (Errorf ("LB " +:+ fmt_q name +:+
                   " created but lookup failed: ") e))
      | Ok (Some lb) => Ret (Ok lb)
      | Ok None =>
          let* _ := call (Sleep (2 * (Z.of_nat (maxLookupAttempts - left) + 1) * Second)) in
          pollLoadBalancer name left'
      end
  end.

Definition CreateLoadBalancer (opts : CreateLoadBalancerOpts) : prog (gores LoadBalancer) :=
  let name := CreateLoadBalancerOpts_Name opts in
  let* existing := findLoadBalancerByName name in
  match existing with
  | Ok (Some lb) => Ret (Ok lb)
  | _ =>
      let* r := apiPost c "CreateLoadBalancer" lbCollection (BCreateLoadBalancer opts) TTask in
      match r with
      | Err e => Ret (Err (Errorf ("creating load balancer " +:+ fmt_q name +:+ ": ") e))
      | Ok _ => pollLoadBalancer name maxLookupAttempts
      end
  end.

Definition ListLoadBalancersByPrefix (prefix : string) : prog (gores (list LoadBalancer)) :=
  let* r := apiGet c "ListLoadBalancers" lbCollection TLoadBalancers in
  match r with
  | Err e => Ret (Err e)
  | Ok lbs => Ret (Ok (List.filter (fun l => HasPrefix (LoadBalancer_Name l) prefix) lbs))
  end.

Definition AssociateFloatingIPToLB (lbID floatingIPID : string) : prog (option goerror) :=
  let* r := apiPost c "AssociateFloatingIPToLB"
              (regionPath c ("/loadbalancing/loadbalancer/" +:+ lbID +:+ "/associateFloatingIp"))
              (BFloatingIPId floatingIPID) TNil in
  Ret (errOnly ("associating floating IP " +:+ floatingIPID +:+ " to LB " +:+ lbID +:+ ": ") r).
End methods2.

Section methods3.
Context (c : Client).

(** *** Gateways *)

Definition ListGateways : prog (gores (list Gateway)) :=
  let* r := apiGet c "ListGateways" (regionPath c "/gateway") TGateways in
  Ret (wrapErr "listing gateways: " r).

Definition DeleteGateway (gatewayID : string) : prog (option goerror) :=
  let* r := apiDelete c "DeleteGateway" (regionPath c ("/gateway/" +:+ gatewayID)) in
  Ret (nilOnNotFound ("deleting gateway " +:+ gatewayID +:+ ": ") r).

Definition ExposeGateway (gatewayID : string) : prog (option goerror) :=
  let* r := apiPost c "ExposeGateway"
              (regionPath c ("/gateway/" +:+ gatewayID +:+ "/expose")) BNil TNil in
  Ret (match r with
       | Ok _ => None
       | Err e => if IsConflict (Some e) then None
                  else Some (Errorf ("exposing gateway " +:+ gatewayID +:+ ": ") e)
       end).

(** *** Load balancers by identifier *)

Definition lbPath (lbID : string) : string :=
  regionPath c ("/loadbalancing/loadbalancer/" +:+ lbID).

Definition CreateLoadBalancerFloatingIP (lbID privateIP gatewayName : string)
  : prog (gores FloatingIP) :=
  let* r := apiPost c "CreateLoadBalancerFloatingIP"
              (regionPath c ("/loadbalancing/loadbalancer/" +:+ lbID +:+ "/floatingIp"))
              (BLBFloatingIP privateIP "s" gatewayName) TFloatingIP in
  Ret (wrapErr ("creating floating IP for LB " +:+ lbID +:+ ": ") r).

Definition GetLoadBalancer (lbID : string) : prog (gores LoadBalancer) :=
  let* r := apiGet c "GetLoadBalancer" (lbPath lbID) TLoadBalancer in
  Ret (wrapErr ("getting load balancer " +:+ lbID +:+ ": ") r).

Definition DeleteLoadBalancer (lbID : string) : prog (option goerror) :=
  let* r := apiDelete c "DeleteLoadBalancer" (lbPath lbID) in
  Ret (match r with
       | Ok _ => None
       | Err e => if IsNotFound (Some e) || IsAlreadyDeleting (Some e) then None
                  else Some (Errorf ("deleting load balancer " +:+ lbID +:+ ": ") e)
       end).

(** *** Listeners *)

Definition ListListeners : prog (gores (list Listener)) :=
  let* r := apiGet c "ListListeners" (regionPath c "/loadbalancing/listener") TListeners in
  Ret (wrapErr "listing listeners: " r).

Definition FindListenerByName (lbID name : string) : prog (gores (option Listener)) :=
  let* r := ListListeners in
  match r with
  | Err e => Ret (Err e)
  | Ok listeners =>
      Ret (Ok (find_first (fun l => (Listener_Name l =s? name) &&
                 bool_decide (lbID ∈ Listener_LoadBalancerIDs l)) listeners))
  end.

Definition FindPoolByName (lbID name : string) : prog (gores (option Pool)) :=
  let* r := apiGet c "ListPools" (regionPath c "/loadbalancing/pool") TPools in
  match r with
  | Err e => Ret (Err (Errorf "listing pools: " e))
  | Ok pools =>
      Ret (Ok (find_first (fun p => (Pool_Name p =s? name) &&
                 (Pool_LoadBalancerID p =s? lbID)) pools))
  end.

Definition CreateListener (opts : CreateListenerOpts) : prog (gores Listener) :=
  let* r := apiPost c "CreateListener" (regionPath c "/loadbalancing/listener")
              (BCreateListener opts) TListener in
  Ret (wrapErr ("creating listener " +:+ fmt_q (CreateListenerOpts_Name opts) +:+ ": ") r).

Definition DeleteListener (listenerID : string) : prog (option goerror) :=
  let* r := apiDelete c "DeleteListener"
              (regionPath c ("/loadbalancing/listener/" +:+ listenerID)) in
  Ret (nilOnNotFound ("deleting listener " +:+ listenerID +:+ ": ") r).

(** *** Pools and members *)

Definition CreatePool (opts : CreatePoolOpts) : prog (gores Pool) :=
  let* r := apiPost c "CreatePool" (regionPath c "/loadbalancing/pool")
              (BCreatePool opts) TPool in
  Ret (wrapErr ("creating pool " +:+ fmt_q (CreatePoolOpts_Name opts) +:+ ": ") r).

Definition DeletePool (poolID : string) : prog (option goerror) :=
  let* r := apiDelete c "DeletePool" (regionPath c ("/loadbalancing/pool/" +:+ poolID)) in
  Ret (nilOnNotFound ("deleting pool " +:+ poolID +:+ ": ") r).

Definition memberCollection (poolID : string) : string :=
  regionPath c ("/loadbalancing/pool/" +:+ poolID +:+ "/member").

Definition AddPoolMembers (poolID : string) (opts : list CreateMemberOpts)
  : prog (gores (list Member)) :=
  let* r := apiPost c "AddPoolMembers" (memberCollection poolID)
              (BAddMembers {| addPoolMembersRequest_Members := opts |}) TMembers in
  Ret (wrapErr ("adding members to pool " +:+ poolID +:+ ": ") r).

Definition AddPoolMember (poolID : string) (opts : CreateMemberOpts) : prog (gores Member) :=
  let* r := AddPoolMembers poolID [opts] in
  match r with
  | Err e => Ret (Err e)
  | Ok [] => Ret (Err (NewError ("OVH returned no members after add to pool " +:+ poolID)))
  | Ok (m :: _) => Ret (Ok m)
  end.

Definition RemovePoolMember (poolID memberID : string) : prog (option goerror) :=
  let* r := apiDelete c "RemovePoolMember"
              (regionPath c ("/loadbalancing/pool/" +:+ poolID +:+ "/member/" +:+ memberID)) in
  Ret (nilOnNotFound ("removing member " +:+ memberID +:+ " from pool " +:+ poolID +:+ ": ") r).

Definition ListPoolMembers (poolID : string) : prog (gores (list Member)) :=
  let* r := apiGet c "ListPoolMembers" (memberCollection poolID) TMembers in
  Ret (wrapErr ("listing members for pool " +:+ poolID +:+ ": ") r).

(** *** Health monitors *)

Definition hmCollection : string := regionPath c "/loadbalancing/healthMonitor".
Definition hmPath (hmID : string) : string :=
  regionPath c ("/loadbalancing/healthMonitor/" +:+ hmID).

Definition CreateHealthMonitor (opts : CreateHealthMonitorOpts) : prog (gores HealthMonitor) :=
  let* r := apiPost c "CreateHealthMonitor" hmCollection
              (BCreateHealthMonitor opts) THealthMonitor in
  Ret (wrapErr ("creating health monitor " +:+
         fmt_q (CreateHealthMonitorOpts_Name opts) +:+ ": ") r).

Definition GetHealthMonitor (hmID : string) : prog (gores HealthMonitor) :=
  let* r := apiGet c "GetHealthMonitor" (hmPath hmID) THealthMonitor in
  Ret (wrapErr ("getting health monitor " +:+ hmID +:+ ": ") r).

Definition ListHealthMonitors : prog (gores (list HealthMonitor)) :=
  let* r := apiGet c "ListHealthMonitors" hmCollection THealthMonitors in
  Ret (wrapErr "listing health monitors: " r).

Definition FindHealthMonitorByName (name : string) : prog (gores (option HealthMonitor)) :=
  let* r := ListHealthMonitors in
  match r with
  | Err e => Ret (Err e)
  | Ok hms => Ret (Ok (find_first (fun h => HealthMonitor_Name h =s? name) hms))
  end.

Definition DeleteHealthMonitor (hmID : string) : prog (option goerror) :=
  let* r := apiDelete c "DeleteHealthMonitor" (hmPath hmID) in
  Ret (match r with
       | Ok _ => None
       | Err e => if IsNotFound (Some e) || IsAlreadyDeleting (Some e) then None
                  else Some (Errorf ("deleting health monitor " +:+ hmID +:+ ": ") e)
       end).

(** *** Volumes *)

Definition CreateVolume (opts : CreateVolumeOpts) : prog (gores Volume) :=
  let* r := apiPost c "CreateVolume" (projectPath c "/volume") (BCreateVolume opts) TVolume in
  Ret (wrapErr ("creating volume " +:+ fmt_q (CreateVolumeOpts_Name opts) +:+ ": ") r).

Definition GetVolume (volumeID : string) : prog (gores Volume) :=
  let* r := apiGet c "GetVolume" (projectPath c ("/volume/" +:+ volumeID)) TVolume in
  Ret (wrapErr ("getting volume " +:+ volumeID +:+ ": ") r).

Definition AttachVolume (volumeID instanceID : string) : prog (option goerror) :=
  let* r := apiPost c "AttachVolume" (projectPath c ("/volume/" +:+ volumeID +:+ "/attach"))
              (BAttachVolume {| AttachVolumeOpts_InstanceID := instanceID |}) TNil in
  Ret (errOnly ("attaching volume " +:+ volumeID +:+ " to instance " +:+ instanceID +:+ ": ") r).

Definition DetachVolume (volumeID instanceID : string) : prog (option goerror) :=
  let* r := apiPost c "DetachVolume" (projectPath c ("/volume/" +:+ volumeID +:+ "/detach"))
              (BAttachVolume {| AttachVolumeOpts_InstanceID := instanceID |}) TNil in
  Ret (nilOnNotFound
         ("detaching volume " +:+ volumeID +:+ " from instance " +:+ instanceID +:+ ": ") r).

Definition DeleteVolume (volumeID : string) : prog (option goerror) :=
  let* r := apiDelete c "DeleteVolume" (projectPath c ("/volume/" +:+ volumeID)) in
  Ret (nilOnNotFound ("deleting volume " +:+ volumeID +:+ ": ") r).

(** *** Floating IPs.  Listing and reading use "/floatingip", creating and
    deleting "/floatingIp", as the source does. *)

Definition ListFloatingIPs : prog (gores (list FloatingIP)) :=
  let* r := apiGet c "ListFloatingIPs" (regionPath c "/floatingip") TFloatingIPs in
  Ret (wrapErr "listing floating IPs: " r).

Definition GetFloatingIP (fipID : string) : prog (gores FloatingIP) :=
  let* r := apiGet c "GetFloatingIP" (regionPath c ("/floatingip/" +:+ fipID)) TFloatingIP in
  Ret (wrapErr ("getting floating IP " +:+ fipID +:+ ": ") r).

Definition CreateFloatingIP (opts : CreateFloatingIPOpts) : prog (gores FloatingIP) :=
  let* r := apiPost c "CreateFloatingIP" (regionPath c "/floatingIp")
              (BCreateFloatingIP opts) TFloatingIP in
  Ret (wrapErr "creating floating IP: " r).

Definition DeleteFloatingIP (fipID : string) : prog (option goerror) :=
  let* r := apiDelete c "DeleteFloatingIP" (regionPath c ("/floatingIp/" +:+ fipID)) in
  Ret (nilOnNotFound ("deleting floating IP " +:+ fipID +:+ ": ") r).

(** *** Regions *)

Definition GetRegionInfo : prog (gores RegionInfo) :=
  let* r := apiGet c "GetRegionInfo" (projectPath c ("/region/" +:+ region c)) TRegionInfo in
  Ret (wrapErr ("getting region info for " +:+ region c +:+ ": ") r).

(** *** Security groups *)

Definition sgCollection : string := regionPath c "/network/security/group".

Definition ListSecurityGroups : prog (gores (list SecurityGroup)) :=
  let* r := apiGet c "ListSecurityGroups" sgCollection TSecurityGroups in
  Ret (wrapErr "listing security groups: " r).

Definition CreateSecurityGroup (opts : CreateSecurityGroupOpts) : prog (gores SecurityGroup) :=
  let* r := apiPost c "CreateSecurityGroup" sgCollection
              (BCreateSecurityGroup opts) TSecurityGroup in
  Ret (wrapErr ("creating security group " +:+
         fmt_q (CreateSecurityGroupOpts_Name opts) +:+ ": ") r).

Definition DeleteSecurityGroup (sgID : string) : prog (option goerror) :=
  let* r := apiDelete c "DeleteSecurityGroup"
              (regionPath c ("/network/security/group/" +:+ sgID)) in
  Ret (nilOnNotFound ("deleting security group " +:+ sgID +:+ ": ") r).

Definition CreateSecurityGroupRule (sgID : string) (opts : CreateSecurityGroupRuleOpts)
  : prog (gores SecurityGroupRule) :=
  let* r := apiPost c "CreateSecurityGroupRule"
              (regionPath c ("/network/security/group/" +:+ sgID +:+ "/rule"))
              (BCreateSecurityGroupRule opts) TSecurityGroupRule in
  Ret (wrapErr ("creating security group rule in " +:+ sgID +:+ ": ") r).

Definition ListSecurityGroupRules (sgID : string) : prog (gores (list SecurityGroupRule)) :=
  let* r := apiGet c "ListSecurityGroupRules"
              (regionPath c ("/network/security/group/" +:+ sgID +:+ "/rule"))
              TSecurityGroupRules in
  Ret (wrapErr ("listing security group rules for " +:+ sgID +:+ ": ") r).

(** *** DNS *)

Definition CreateDNSRecord (zone : string) (opts : CreateDNSRecordOpts)
  : prog (gores DNSRecord) :=
  let* r := apiPost c "CreateDNSRecord" ("/domain/zone/" +:+ zone +:+ "/record")
              (BCreateDNSRecord opts) TDNSRecord in
  Ret (wrapErr ("creating DNS record " +:+ CreateDNSRecordOpts_SubDomain opts +:+ "." +:+
         zone +:+ ": ") r).

Definition DeleteDNSRecord (zone : string) (recordID : Z) : prog (option goerror) :=
  let* r := apiDelete c "DeleteDNSRecord"
              ("/domain/zone/" +:+ zone +:+ "/record/" +:+ fmt_d recordID) in
  Ret (nilOnNotFound ("deleting DNS record " +:+ fmt_d recordID +:+ " in zone " +:+
         zone +:+ ": ") r).

Definition RefreshDNSZone (zone : string) : prog (option goerror) :=
  let* r := apiPost c "RefreshDNSZone" ("/domain/zone/" +:+ zone +:+ "/refresh") BNil TNil in
  Ret (errOnly ("refreshing DNS zone " +:+ zone +:+ ": ") r).
End methods3.
