(* ===== verification/OvhClientSpec.v ===== *)
(** * OvhClientSpec: what the methods of pkg/ovh promise

    The complete description of the runs of [retryWithBackoff], the rules the
    controllers' proofs use for API calls, and the theorems on the methods. *)
From S2P Require Import Prelude.
From S2P Require Import GoStrings.
From S2P Require Import GoErrors.
From S2P Require Import OvhTypes.
From S2P Require Import K8sTypes.
From S2P Require Import Effects.
From S2P Require Import OvhClient.
#[local] Open Scope Z_scope.
#[local] Open Scope go_scope.

(** ** Retries *)

Abbreviation retryable e := (IsRetryable (Some e) = true).

(** The trace of a retried request: [es] are the answers of the failed attempts,
    the first of which has number [i], and [last] is the answer of the attempt
    that ends the loop. *)
Fixpoint retry_trace {T} (rq : req (gores T)) (i : nat) (es : list goerror) (last : gores T)
  : trace :=
  match es with
  | [] => [Ev rq last]
  | e :: es => Ev rq (Err e) :: Ev (Sleep (backoff i)) tt :: retry_trace rq (S i) es last
  end.

(** What the loop returns when the attempt that ends it answered [last]. *)
Definition retry_result {T} (operation : string) (last : gores T) : gores T :=
  match last with
  | Ok x => Ok x
  | Err e => if IsRetryable (Some e)
             then Err (Errorf (operation +:+ " failed after 5 retries: ") e)
             else Err e
  end.

(** The loop ends on a success, on an error that is not transient, or when the
    retries are used up. *)
Definition retry_ends {T} (es : list goerror) (last : gores T) : Prop :=
  match last with
  | Ok _ => True
  | Err e => retryable e -> length es = maxRetries
  end.

Lemma retry_from_runs {T} op (rq : req (gores T)) left t r :
  (left <= maxRetries)%nat ->
  runs (retry_from op (call rq) left) t r <->
  exists es last,
    t = retry_trace rq (maxRetries - left) es last /\
    Forall (fun e => retryable e) es /\
    (length es <= left)%nat /\
    match last with Ok _ => True | Err e => retryable e -> length es = left end /\
    r = retry_result op last.
Proof.
  revert t. induction left as [|left IH]; intros t Hle.
  - cbn -[retry_result]. split.
    + intros (x & t' & -> & H). exists [], x. destruct x as [x|e]; cbn in H |- *.
      * destruct H as [-> ->]. split_all.
      * destruct (IsRetryable (Some e)); cbn in H; destruct H as [-> ->]; split_all.
    + intros ([|e es] & last & -> & _ & Hlen & _ & ->); [|cbn in Hlen; lia].
      exists last, []. split; [done|]. destruct last as [x|e]; [done|]. cbn.
      by destruct (IsRetryable (Some e)).
  - change (retry_from op (call rq) (S left)) with
      (Vis rq (fun r => match r with
        | Ok x => Ret (Ok x)
        | Err e => if negb (IsRetryable (Some e)) then Ret (Err e)
                   else Vis (Sleep (backoff (maxRetries - S left)))
                          (fun _ => retry_from op (call rq) left) end)).
    assert (Hi : (maxRetries - left = S (maxRetries - S left))%nat) by lia.
    cbn [runs]. split.
    + intros (x & t' & -> & H). destruct x as [x|e]; cbn in H.
      { destruct H as [-> ->]. exists [], (Ok x). cbn. split_all. lia. }
      destruct (IsRetryable (Some e)) eqn:He; cbn in H.
      2:{ destruct H as [-> ->]. exists [], (Err e). cbn. rewrite He. split_all. lia. }
      destruct H as ([] & t'' & -> & (es & last & -> & ? & ? & ? & ->)%IH); [|lia].
      exists (e :: es), last. rewrite Hi. cbn. split_all; [by constructor|lia|].
      destruct last; [done|]. intros Hr. f_equal. auto.
    + intros (es & last & -> & Hes & Hlen & Hend & ->).
      destruct es as [|e es]; cbn in *.
      * exists last, []. split; [done|]. destruct last as [x|e]; cbn; [done|].
        destruct (IsRetryable (Some e)) eqn:He; cbn; [|done]. by specialize (Hend eq_refl).
      * apply Forall_cons in Hes as [He Hes].
        eexists (Err e), _. split; [done|]. rewrite He. cbn.
        eexists tt, _. split; [done|]. apply IH; [lia|].
        exists es, last. rewrite Hi. split_all; [lia|].
        destruct last; [done|]. intros Hr. specialize (Hend Hr). lia.
Qed.

Lemma retryWithBackoff_runs {T} op (rq : req (gores T)) t r :
  runs (retryWithBackoff op (call rq)) t r <->
  exists es last,
    t = retry_trace rq 0 es last /\
    Forall (fun e => retryable e) es /\
    (length es <= maxRetries)%nat /\ retry_ends es last /\ r = retry_result op last.
Proof. unfold retryWithBackoff. by rewrite retry_from_runs. Qed.

(** What [r] says about the attempt that ended the loop. *)
Lemma retry_result_ok {T} op (last : gores T) x : retry_result op last = Ok x -> last = Ok x.
Proof.
  destruct last as [y|e]; cbn; [congruence|]. by destruct (IsRetryable (Some e)).
Qed.

(** ** Rules for API calls *)

(** The events a retried call may exchange: its request and the pauses. *)
Definition pauses_ok (E : event -> Prop) : Prop := forall d, E (Ev (Sleep d) tt).

Lemma retry_triple {T} (E : event -> Prop) op (rq : req (gores T)) (Q : gores T -> Prop) :
  pauses_ok E -> (forall x, E (Ev rq x)) -> (forall r, Q r) ->
  triple E (retryWithBackoff op (call rq)) Q.
Proof.
  intros Hp HE HQ t r (es & last & -> & _ & _ & _ & ->)%retryWithBackoff_runs.
  split; [|done]. generalize 0%nat as i.
  induction es as [|e es IH]; intros i; cbn; repeat (apply Forall_cons; split); auto.
Qed.

Lemma retry_emits {T} (E : event -> Prop) op (rq : req (gores T)) :
  pauses_ok E -> (forall x, E (Ev rq x)) -> emits E (retryWithBackoff op (call rq)).
Proof. intros. by apply retry_triple. Qed.

(** A loop ends with the attempt that decides it. *)
Lemma retry_trace_last {T} (rq : req (gores T)) i es last :
  exists t, retry_trace rq i es last = t ++ [Ev rq last].
Proof.
  revert i. induction es as [|e es IH]; intros i; cbn; [by exists []|].
  destruct (IH (Datatypes.S i)) as [t ->].
  by exists (Ev rq (Err e) :: Ev (Sleep (backoff i)) tt :: t).
Qed.

(** The events a [retry_trace] consists of. *)
Lemma retry_trace_forall {T} (E : event -> Prop) (rq : req (gores T)) i es last :
  pauses_ok E -> (forall x, E (Ev rq x)) -> Forall E (retry_trace rq i es last).
Proof.
  intros Hp HE. revert i.
  induction es as [|e es IH]; intros i; cbn; repeat (apply Forall_cons; split); auto.
Qed.

(** The total pause of a trace. *)
Fixpoint total_sleep (t : trace) : Z :=
  match t with
  | [] => 0
  | Ev (Sleep d) _ :: t => d + total_sleep t
  | _ :: t => total_sleep t
  end.

Lemma total_sleep_retry {T} (rq : req (gores T)) i es last :
  (forall x t, total_sleep (Ev rq x :: t) = total_sleep t) ->
  total_sleep (retry_trace rq i es last) = foldr Z.add 0 (map backoff (seq i (length es))).
Proof.
  intros Hrq. revert i. induction es as [|e es IH]; intros i; cbn [retry_trace].
  - by rewrite Hrq.
  - rewrite Hrq. cbn. by rewrite IH.
Qed.

Lemma total_backoff n : (n <= maxRetries)%nat ->
  foldr Z.add 0 (map backoff (seq 0 n)) <= 62 * Second.
Proof.
  intros Hn. unfold maxRetries in Hn.
  do 6 (destruct n as [|n]; [vm_compute; discriminate|]). lia.
Qed.

(** ** Identifiers *)

Definition uuid_groups (s : string) : Prop :=
  exists a b c d e,
    s = a +:+ "-" +:+ b +:+ "-" +:+ c +:+ "-" +:+ d +:+ "-" +:+ e /\
    String.length a = 8%nat /\ String.length b = 4%nat /\ String.length c = 4%nat /\
    String.length d = 4%nat /\ String.length e = 12%nat /\
    sall is_hex (a +:+ b +:+ c +:+ d +:+ e) = true.

(** One run of hexadecimal digits at positions that are not separators. *)
Lemma isUUID_from_hex i a s :
  (forall j, (i <= j < i + String.length a)%nat -> j <> 8%nat /\ j <> 13%nat /\ j <> 18%nat /\ j <> 23%nat) ->
  isUUID_from i (a +:+ s) = sall is_hex a && isUUID_from (i + String.length a) s.
Proof.
  revert i. induction a as [|x a IH]; intros i Hi; cbn [String.append sall String.length].
  - by rewrite Nat.add_0_r.
  - cbn [isUUID_from]. rewrite IH; [|intros j Hj; apply Hi; cbn; lia].
    replace (S i + String.length a)%nat with (i + S (String.length a))%nat by lia.
    destruct (Hi i) as (? & ? & ? & ?); [cbn; lia|].
    assert (Hx : (match i with 8 | 13 | 18 | 23 => is_hyphen x | _ => is_hex x end)%nat = is_hex x).
    { do 24 (destruct i as [|i]; [done|]). done. }
    by rewrite Hx, andb_assoc.
Qed.

Lemma split_at_length n s : (n <= String.length s)%nat ->
  exists a b, s = a +:+ b /\ String.length a = n.
Proof.
  revert s. induction n as [|n IH]; intros s Hn; [by exists "", s|].
  destruct s as [|c s]; cbn in Hn; [lia|].
  destruct (IH s) as (a & b & -> & Ha); [lia|].
  exists (String c a), b. split; [done|]. cbn. by rewrite Ha.
Qed.

Definition is_sep (i : nat) : Prop := i = 8%nat \/ i = 13%nat \/ i = 18%nat \/ i = 23%nat.

(** One group of [n] digits starting at position [i], and its separator. *)
Lemma isUUID_from_group i n s :
  (forall j, (i <= j < i + n)%nat -> ~ is_sep j) -> is_sep (i + n) ->
  (n < String.length s)%nat ->
  isUUID_from i s = true <->
  exists a s', s = a +:+ "-" +:+ s' /\ String.length a = n /\ sall is_hex a = true /\
               isUUID_from (S (i + n)) s' = true.
Proof.
  intros Hno Hsep Hlen.
  destruct (split_at_length n s) as (a & s1 & -> & <-); [lia|].
  rewrite slength_app in Hlen. destruct s1 as [|x s']; [cbn in Hlen; lia|].
  rewrite isUUID_from_hex by (intros j Hj; specialize (Hno j Hj); unfold is_sep in Hno; lia).
  cbn [isUUID_from].
  assert (Hx : (match i + String.length a with
                | 8 | 13 | 18 | 23 => is_hyphen x | _ => is_hex x end)%nat = is_hyphen x).
  { by destruct Hsep as [->|[->|[->| ->]]]. }
  rewrite Hx, !andb_true_iff. unfold is_hyphen. rewrite bool_decide_eq_true. split.
  - intros (Ha & -> & Hs). by exists a, s'.
  - intros (a' & s'' & Heq & Hla & Ha & Hs).
    apply sapp_same_length in Heq as [<- [= -> ->]]; [|done]. done.
Qed.

Ltac uuid_group :=
  unfold is_sep; first [ lia | intros; unfold is_sep; lia | idtac ].

(** [isUUID] accepts exactly the strings of the form 8-4-4-4-12
    hexadecimal digits separated by hyphens. *)
Theorem isUUID_spec s : isUUID s = true <-> uuid_groups s.
Proof.
  unfold isUUID. destruct (String.length s =? 36)%nat eqn:Hlen; cbn [negb].
  2:{ split; [done|]. intros (a & b & c & d & e & -> & Ha & Hb & Hc & Hd & He & _).
      apply Nat.eqb_neq in Hlen. rewrite !slength_app in Hlen. cbn in Hlen. lia. }
  apply Nat.eqb_eq in Hlen. split.
  - intros H.
    apply (isUUID_from_group 0 8) in H as (a & s1 & -> & Ha & H1 & H); uuid_group.
    rewrite !slength_app in Hlen. cbn in Hlen.
    apply (isUUID_from_group 9 4) in H as (b & s2 & -> & Hb & H2 & H); uuid_group.
    rewrite !slength_app in Hlen. cbn in Hlen.
    apply (isUUID_from_group 14 4) in H as (c & s3 & -> & Hc & H3 & H); uuid_group.
    rewrite !slength_app in Hlen. cbn in Hlen.
    apply (isUUID_from_group 19 4) in H as (d & e & -> & Hd & H4 & H); uuid_group.
    rewrite !slength_app in Hlen. cbn in Hlen.
    rewrite <- (sapp_nil_r e), isUUID_from_hex in H by lia. apply andb_true_iff in H as [H5 _].
    exists a, b, c, d, e. rewrite !sall_app, H1, H2, H3, H4, H5. split_all. lia.
  - intros (a & b & c & d & e & -> & Ha & Hb & Hc & Hd & He & H).
    rewrite !slength_app in Hlen. cbn in Hlen.
    rewrite !sall_app, !andb_true_iff in H. destruct H as (H1 & H2 & H3 & H4 & H5).
    apply (isUUID_from_group 0 8); uuid_group; [rewrite !slength_app; cbn; lia|].
    eexists _, _. split_all.
    apply (isUUID_from_group 9 4); uuid_group; [rewrite !slength_app; cbn; lia|].
    eexists _, _. split_all.
    apply (isUUID_from_group 14 4); uuid_group; [rewrite !slength_app; cbn; lia|].
    eexists _, _. split_all.
    apply (isUUID_from_group 19 4); uuid_group; [rewrite !slength_app; cbn; lia|].
    eexists _, _. split_all.
    rewrite <- (sapp_nil_r e), isUUID_from_hex by lia. by rewrite H5.
Qed.

(** ** The retry loop *)


(** Whatever OVH answers, one API call sleeps at most 62 seconds in total
    and sends at most six requests. *)
Theorem retry_bounded {T} op (c : GoOvhClient) path (tg : target T) t r :
  runs (retryWithBackoff op (call (ApiGet c path tg))) t r ->
  total_sleep t <= 62 * Second /\ (length (List.filter is_ovh t) <= 6)%nat.
Proof.
  intros (es & last & -> & _ & Hlen & _)%retryWithBackoff_runs. split.
  - rewrite total_sleep_retry by done. by apply total_backoff.
  - assert (Hf : forall i, length (List.filter is_ovh (retry_trace (ApiGet c path tg) i es last))
                = S (length es)).
    { induction es as [|e es IH]; intros i; cbn; [done|]. rewrite IH; [done|cbn in Hlen; lia]. }
    rewrite Hf. unfold maxRetries in Hlen. lia.
Qed.

Lemma retry_bounded_witness :
  total_sleep (retry_trace (ApiGet {| GoOvh_endpoint := "e"; GoOvh_appKey := "k";
      GoOvh_appSecret := "s"; GoOvh_consumerKey := "c" |} "/x" TStrings) 0
    (replicate 5 (APIError 503 "")) (Err (APIError 503 ""))) <= 62 * Second.
Proof.
  refine (proj1 (retry_bounded "op" _ "/x" TStrings _
    (Err (Errorf "op failed after 5 retries: " (APIError 503 ""))) _)).
  apply retryWithBackoff_runs. exists (replicate 5 (APIError 503 "")), (Err (APIError 503 "")).
  repeat split; repeat constructor.
Defined.

(** ** Deletion *)

(** A bind of a retried request: its runs and how they end. *)
Lemma retry_bind_runs {T A} op (rq : req (gores T)) (f : gores T -> prog A) t a :
  runs (let* r := retryWithBackoff op (call rq) in f r) t a ->
  exists es last t',
    t = retry_trace rq 0 es last ++ t' /\ retry_ends es last /\
    runs (f (retry_result op last)) t' a.
Proof.
  intros (t1 & t2 & r & -> & (es & last & -> & _ & _ & Hend & ->)%retryWithBackoff_runs & Hf)%runs_bind.
  by exists es, last, t2.
Qed.

Lemma retryable_api code text :
  retryable (APIError code text) -> code <> 404 /\ code <> 409.
Proof.
  unfold IsRetryable, StatusTooManyRequests, StatusInternalServerError, StatusBadGateway,
    StatusServiceUnavailable, StatusGatewayTimeout. cbn.
  rewrite !orb_true_iff, !Z.eqb_eq. lia.
Qed.

(** ** Deletion *)

Definition pending (text : string) : Prop :=
  Contains text "PENDING_DELETE" = true \/ Contains text "PENDING_UPDATE" = true.



(** A network failure is taken for a completed deletion when the identifier
    of the instance contains the digits "404": the HTTP client's error text
    carries the URL, [IsNotFound] looks for "404" in the text of an error
    without status, and [DeleteInstance] then reports success although no
    request was ever accepted. *)
Theorem DeleteInstance_outage_reported_as_deleted c (a b : string) :
  let id := a +:+ "404" +:+ b in
  let path := projectPath c ("/instance/" +:+ id) in
  let e := NewError ("Delete " +:+ path +:+ ": connection refused") in
  runs (DeleteInstance c id)
    (retry_trace (ApiDelete (api c) path) 0 (replicate 5 e) (Err e)) None.
Proof.
  intros id path e.
  assert (Hr : retryable e).
  { eapply (IsRetryable_text _ ("Delete " +:+ path +:+ ": ") ""). by rewrite !sapp_assoc. }
  assert (Hn : forall pre, IsNotFound (Some (Errorf pre e)) = true).
  { intros pre. unfold IsNotFound, e, path, projectPath, id. cbn [AsAPIError Errorf Error].
    apply orb_true_iff. left. apply Contains_spec.
    exists (pre +:+ "Delete " +:+ "/cloud/project/" +:+ serviceName c +:+ "/instance/" +:+ a),
      (b +:+ ": connection refused").
    by rewrite !sapp_assoc, sapp_nil_r. }
  unfold DeleteInstance, apiDelete. apply runs_bind.
  eexists _, [], (Err (Errorf "DeleteInstance failed after 5 retries: " e)).
  rewrite app_nil_r. split; [done|]. split.
  - apply retryWithBackoff_runs. exists (replicate 5 e), (Err e). split_all.
    + by apply Forall_replicate.
    + unfold retry_result. by rewrite Hr.
  - cbn [runs nilOnNotFound]. by rewrite Hn.
Qed.

(** ** Load balancer creation *)

Lemma findLoadBalancerByName_runs c name t x :
  runs (findLoadBalancerByName c name) t x ->
  Forall read_only t /\
  match x with
  | Ok (Some lb) => LoadBalancer_Name lb = name
  | _ => True
  end.
Proof.
  intros (es & last & t' & -> & _ & H)%retry_bind_runs. split.
  - apply Forall_app. split; [by apply retry_trace_forall|].
    by destruct (retry_result _ last); destruct H as [-> _].
  - destruct (retry_result _ last) as [lbs|e]; destruct H as [_ ->]; [|done].
    destruct (find_first _ lbs) as [lb|] eqn:E; [|done].
    apply find_first_in in E as [_ E]. by apply strEqb_eq in E.
Qed.

Lemma pollLoadBalancer_name c name left :
  triple (fun _ => True) (pollLoadBalancer c name left)
    (fun r => match r with Ok lb => LoadBalancer_Name lb = name | Err _ => True end).
Proof.
  induction left as [|left IH]; cbn [pollLoadBalancer]; [by apply triple_ret|].
  eapply (triple_bind _ (findLoadBalancerByName c name)).
  { intros t x H. split; [by apply Forall_true|].
    apply findLoadBalancerByName_runs in H as [_ H]. exact H. }
  intros [[lb|]|e] Hx; cbn; [by apply triple_ret| |by apply triple_ret].
  apply triple_vis; [done|]. intros _. exact IH.
Qed.

(** [CreateLoadBalancer] looks the name up before it creates anything: a
    run that sends a POST starts with a lookup, without any POST, that found no
    balancer of that name or failed; and a balancer it returns always has the
    requested name, whether it was found or created. *)
Theorem CreateLoadBalancer_lookup_first c opts t r :
  let name := CreateLoadBalancerOpts_Name opts in
  runs (CreateLoadBalancer c opts) t r ->
  (exists t1 t2 x,
     t = t1 ++ t2 /\ runs (findLoadBalancerByName c name) t1 x /\ Forall no_post t1 /\
     (Exists (fun e => is_post e = true) t -> x = Ok None \/ exists e, x = Err e)) /\
  match r with Ok lb => LoadBalancer_Name lb = name | Err _ => True end.
Proof.
  intros name (t1 & t2 & x & -> & H1 & H2)%runs_bind.
  pose proof (findLoadBalancerByName_runs _ _ _ _ H1) as [Hro Hx].
  assert (Hnp : Forall no_post t1) by (eapply Forall_impl; [exact Hro|by intros e [? _]]).
  split.
  - exists t1, t2, x. split_all. intros Hpost.
    destruct x as [[lb|]|e]; [|by left|by right; exists e].
    exfalso. destruct H2 as [-> _]. rewrite app_nil_r in Hpost.
    apply Exists_exists in Hpost as (e & Hin & He).
    rewrite Forall_forall in Hnp. specialize (Hnp _ Hin). unfold no_post in Hnp. congruence.
  - destruct x as [[lb|]|e]; [by destruct H2 as [_ ->]| |];
      apply runs_bind in H2 as (t3 & t4 & y & -> & _ & H4);
      (destruct y as [u|e']; [by eapply pollLoadBalancer_name|by destruct H4 as [_ ->]]).
Qed.

(** The lookup does not protect against duplicates when it fails: for every
    balancer already present under the requested name there is a run in which
    the listing fails, a second creation is posted, and the balancer returned
    is the one that existed before. *)
Theorem CreateLoadBalancer_duplicate_on_failed_lookup c opts (lb : LoadBalancer) code text :
  LoadBalancer_Name lb = CreateLoadBalancerOpts_Name opts ->
  IsRetryable (Some (APIError code text)) = false ->
  let list := ApiGet (api c) (lbCollection c) TLoadBalancers in
  runs (CreateLoadBalancer c opts)
    [ Ev list (Err (APIError code text));
      Ev (ApiPost (api c) (lbCollection c) (BCreateLoadBalancer opts) TTask) (Ok tt);
      Ev list (Ok [lb]) ] (Ok lb).
Proof.
  intros Hname Hr list. subst list. unfold CreateLoadBalancer. apply runs_bind.
  exists [Ev (ApiGet (api c) (lbCollection c) TLoadBalancers) (Err (APIError code text))].
  eexists _, (Err (APIError code text)). split; [reflexivity|]. split.
  - cbn. eexists _, _. split; [reflexivity|]. cbn. by rewrite Hr.
  - cbn. do 2 (eexists _, _; split; [reflexivity|]; cbn).
    rewrite Hname, strEqb_refl. done.
Qed.

Definition demo_client : Client := {|
  api := {| GoOvh_endpoint := "ovh-eu"; GoOvh_appKey := "ak";
            GoOvh_appSecret := "as"; GoOvh_consumerKey := "ck" |};
  serviceName := "proj"; region := "GRA7" |}.

Definition demo_lb (id name status : string) : LoadBalancer := {|
  LoadBalancer_ID := id; LoadBalancer_Name := name; LoadBalancer_CreatedAt := "";
  LoadBalancer_UpdatedAt := ""; LoadBalancer_Region := "GRA7"; LoadBalancer_FlavorID := "f";
  LoadBalancer_OperatingStatus := "online"; LoadBalancer_ProvisioningStatus := status;
  LoadBalancer_VIPAddress := "10.0.0.5"; LoadBalancer_VIPNetworkID := "";
  LoadBalancer_VIPSubnetID := ""; LoadBalancer_FloatingIP := None;
  LoadBalancer_Listeners := [] |}.

Definition demo_lb_opts (name : string) : CreateLoadBalancerOpts := {|
  CreateLoadBalancerOpts_Name := name; CreateLoadBalancerOpts_FlavorID := "f";
  CreateLoadBalancerOpts_Network := {| LBNetworkConfig_Private := {|
    LBPrivateNetwork_Network := {| LBNetworkRef_ID := "n"; LBNetworkRef_SubnetID := "s" |} |} |} |}.

Lemma CreateLoadBalancer_lookup_first_witness :
  match @Ok goerror _ (demo_lb "1" "x" "active") with
  | Ok lb => LoadBalancer_Name lb = "x" | Err _ => True end.
Proof.
  refine (proj2 (CreateLoadBalancer_lookup_first demo_client (demo_lb_opts "x")
    [Ev (ApiGet (api demo_client) (lbCollection demo_client) TLoadBalancers)
        (Ok [demo_lb "1" "x" "active"])] (Ok (demo_lb "1" "x" "active")) _)).
  eexists _, _. split; [reflexivity|]. split; reflexivity.
Defined.

Lemma CreateLoadBalancer_duplicate_on_failed_lookup_witness :
  let list := ApiGet (api demo_client) (lbCollection demo_client) TLoadBalancers in
  runs (CreateLoadBalancer demo_client (demo_lb_opts "x"))
    [ Ev list (Err (APIError 403 "forbidden"));
      Ev (ApiPost (api demo_client) (lbCollection demo_client)
           (BCreateLoadBalancer (demo_lb_opts "x")) TTask) (Ok tt);
      Ev list (Ok [demo_lb "1" "x" "active"]) ] (Ok (demo_lb "1" "x" "active")).
Proof.
  apply CreateLoadBalancer_duplicate_on_failed_lookup; reflexivity.
Defined.

(** ** Images *)

Lemma EqualFold_Contains s name :
  EqualFold s name = true -> Contains (ToLower s) (ToLower name) = true.
Proof.
  unfold EqualFold. intros ->%strEqb_eq. apply Contains_spec. exists "", "".
  by rewrite sapp_nil_r.
Qed.

(** The lookup of an image in a list prefers a case-insensitive exact match
    over a partial one: what it returns is an image of the list that matches;
    when some image of the list is an exact match, the first of these is
    returned, wherever partial matches are; and nothing is returned only when
    no name of the list contains the one asked for. *)
Theorem findImageByName_spec images name :
  match findImageByName images name with
  | Some img =>
      img ∈ images /\
      (EqualFold (Image_Name img) name = true \/
       Forall (fun i => EqualFold (Image_Name i) name = false) images /\
       Contains (ToLower (Image_Name img)) (ToLower name) = true)
  | None =>
      Forall (fun i => Contains (ToLower (Image_Name i)) (ToLower name) = false) images
  end.
Proof.
  unfold findImageByName.
  destruct (find_first (fun i => EqualFold (Image_Name i) name) images) as [img|] eqn:E.
  - apply find_first_in in E as [Hin He]. auto.
  - apply find_first_none in E.
    destruct (find_first _ images) as [img|] eqn:E2.
    + apply find_first_in in E2 as [Hin He]. auto.
    + by apply find_first_none in E2.
Qed.

(** Where an image that [GetImageByName] returns comes from. *)
Inductive image_source (c : Client) (name : string) : trace -> Image -> Prop :=
| source_uuid :
    isUUID name = true ->
    image_source c name []
      (zero_Image {{ Image_ID := name; Image_Name := name; Image_Region := region c }})
| source_public images img t :
    isUUID name = false -> runs (ListImages c) t (Ok images) ->
    findImageByName images name = Some img -> image_source c name t img
| source_snapshot images snapshots img t t' :
    isUUID name = false -> runs (ListImages c) t (Ok images) ->
    findImageByName images name = None ->
    runs (ListSnapshots c) t' (Ok snapshots) ->
    findImageByName snapshots name = Some img -> image_source c name (t ++ t') img.

(** [GetImageByName] returns an image exactly in these cases, for a
    non-empty name: the name is a UUID, taken as it is without any request; it
    matches the public catalogue; or it matches nothing public and matches a
    snapshot, which is only searched then. *)
Theorem GetImageByName_source c name t img :
  runs (GetImageByName c name) t (Ok img) <-> name <> "" /\ image_source c name t img.
Proof.
  unfold GetImageByName.
  destruct (name =s? "") eqn:Hname; str_simpl.
  { subst name. split; [by intros [_ [=]]|by intros [? _]]. }
  destruct (isUUID name) eqn:Hu.
  { split.
    - intros [-> [= ->]]. split; [done|by constructor].
    - intros [_ H]. inversion H; subst; try congruence. done. }
  split.
  - intros (t1 & t2 & [images|e] & -> & H1 & H2)%runs_bind; [|by destruct H2 as [_ [=]]].
    destruct (findImageByName images name) as [i|] eqn:E1.
    { destruct H2 as [-> [= ->]]. rewrite app_nil_r. split; [done|].
      by apply source_public with images. }
    apply runs_bind in H2 as (t3 & t4 & [snaps|e] & -> & H3 & H4); [|by destruct H4 as [_ [=]]].
    destruct (findImageByName snaps name) as [i|] eqn:E2; destruct H4 as [-> [=]]; subst.
    rewrite app_nil_r. split; [done|]. by apply source_snapshot with images snaps.
  - intros [_ H]. apply runs_bind. inversion H as [?|images ? ? ? H1 H2|images snaps ? t1 t2 ? H1 H2 H3 H4];
      subst; [congruence| |].
    + exists t, [], (Ok images). rewrite app_nil_r, H2. done.
    + exists t1, t2, (Ok images). rewrite H2. split_all. apply runs_bind.
      exists t2, [], (Ok snaps). rewrite app_nil_r, H4. done.
Qed.
