(* ===== verification/Hoare.v ===== *)
(** * Hoare: rules and automation for the controllers' proofs

    [triple] rules for the state passers of [Effects], the judgement [keeps]
    ("every run of [m] from a state of [I] exchanges only events of [E] and ends
    in a state of [I]"), its rules, and the tactics that apply them. *)
From S2P Require Import Prelude.
From S2P Require Import GoStrings.
From S2P Require Import GoErrors.
From S2P Require Import OvhTypes.
From S2P Require Import K8sTypes.
From S2P Require Import ApiV1alpha2.
From S2P Require Import Effects.
From S2P Require Import OvhClient.
From S2P Require Import OvhClientSpec.
#[local] Open Scope Z_scope.
#[local] Open Scope go_scope.

(** ** Triples of state passers *)

Section mrules.
Context {S : Type} (E : event -> Prop).

Lemma m_bind {A B} (m : M S A) (f : A -> M S B) s R Q :
  triple E (m s) R -> (forall a s', R (a, s') -> triple E (f a s') Q) ->
  triple E (mbind m f s) Q.
Proof. intros Hm Hf. eapply triple_bind; [exact Hm|]. intros [a s']. apply Hf. Qed.

Lemma m_bind_lift {A B} (p : prog A) (f : A -> M S B) s R Q :
  triple E p R -> (forall a, R a -> triple E (f a s) Q) ->
  triple E (mbind (lift p) f s) Q.
Proof.
  intros Hp Hf. eapply (m_bind _ _ _ (fun '(a, s') => R a /\ s' = s)).
  - eapply triple_bind; [exact Hp|]. intros a Ha. by apply triple_ret.
  - intros a s' [Ha ->]. by apply Hf.
Qed.

(** A call whose answer is unconstrained. *)
Lemma m_bind_any {A B} (p : prog A) (f : A -> M S B) s Q :
  emits E p -> (forall a, triple E (f a s) Q) -> triple E (mbind (lift p) f s) Q.
Proof. intros Hp Hf. eapply m_bind_lift; [exact Hp|auto]. Qed.

Lemma m_bind_mcall {X B} (r : req X) (f : X -> M S B) s Q :
  (forall x, E (Ev r x)) -> (forall x, triple E (f x s) Q) ->
  triple E (mbind (mcall r) f s) Q.
Proof. intros HE Hf. by apply (triple_vis E r (fun x => f x s)). Qed.

Lemma m_bind_assoc {A B C} (m : M S A) (f : A -> M S B) (g : B -> M S C) s Q :
  triple E (mbind m (fun a => mbind (f a) g) s) Q -> triple E (mbind (mbind m f) g s) Q.
Proof.
  intros Hm t r (t1 & t2 & [b s2] & -> & (t3 & t4 & [a s1] & -> & H1 & H2)%runs_bind & H3)%runs_bind.
  rewrite <- app_assoc. apply Hm. apply runs_bind. exists t3, (t4 ++ t2), (a, s1).
  split_all. apply runs_bind. by exists t4, t2, (b, s2).
Qed.

(** A call whose answer is unconstrained, at the end. *)
Lemma m_lift {A} (p : prog A) s (Q : A * S -> Prop) :
  triple E p (fun a => Q (a, s)) -> triple E (lift p s) Q.
Proof.
  intros Hp. eapply triple_bind; [exact Hp|]. intros a Ha. by apply triple_ret.
Qed.

Lemma for_each_inv {X} (l : list X) (body : X -> M S unit) (I : S -> Prop) s :
  I s ->
  (forall x s, x ∈ l -> I s -> triple E (body x s) (fun '(_, s') => I s')) ->
  triple E (for_each l body s) (fun '(_, s') => I s').
Proof.
  revert s. induction l as [|x l IH]; intros s Hs Hb; cbn.
  - by apply triple_ret.
  - eapply m_bind; [apply Hb; [set_solver|exact Hs]|].
    intros [] s' Hs'. apply IH; [exact Hs'|]. intros y s'' Hy. apply Hb. set_solver.
Qed.

(** A loop that may stop on an error, with an invariant on the elements done. *)
Lemma for_each_err_inv {X} (l : list X) (body : X -> M S (option goerror))
    (I : list X -> S -> Prop) s done_ :
  I done_ s ->
  (forall x d s, I d s ->
     triple E (body x s) (fun '(r, s') => r = None -> I (d ++ [x]) s')) ->
  triple E (for_each_err l body s) (fun '(r, s') => r = None -> I (done_ ++ l) s').
Proof.
  revert s done_. induction l as [|x l IH]; intros s d Hs Hb; cbn.
  - apply triple_ret. by rewrite app_nil_r.
  - eapply m_bind; [apply Hb; exact Hs|].
    intros [e|] s' Hs'; [by apply triple_ret|].
    replace (d ++ x :: l) with ((d ++ [x]) ++ l) by by rewrite <- app_assoc.
    apply IH; [by apply Hs'|exact Hb].
Qed.
End mrules.

(** ** Invariants that every run keeps *)

Definition keeps {S A} (E : event -> Prop) (I : S -> Prop) (m : M S A) : Prop :=
  forall s, I s -> triple E (m s) (fun '(_, s') => I s').

Section keeps.
Context {S : Type} (E : event -> Prop) (I : S -> Prop).

Lemma keeps_ret {A} (a : A) : keeps E I (mret a).
Proof. intros s Hs. by apply triple_ret. Qed.

Lemma keeps_bind {A B} (m : M S A) (f : A -> M S B) :
  keeps E I m -> (forall a, keeps E I (f a)) -> keeps E I (mbind m f).
Proof. intros Hm Hf s Hs. eapply m_bind; [by apply Hm|]. intros a s' Hs'. by apply Hf. Qed.

Lemma keeps_get : keeps E I get.
Proof. intros s Hs. by apply triple_ret. Qed.

(** Reading the state: the continuation may use that it satisfies [I]. *)
Lemma keeps_read {X A} (f : S -> X) (k : X -> M S A) :
  (forall s, I s -> keeps E I (k (f s))) -> keeps E I (mbind (fun s => Ret (f s, s)) k).
Proof. intros Hk s Hs. by apply (Hk s). Qed.

Lemma keeps_modify (f : S -> S) : (forall s, I s -> I (f s)) -> keeps E I (modify f).
Proof. intros Hf s Hs. apply triple_ret. auto. Qed.

Lemma keeps_lift {A} (p : prog A) : emits E p -> keeps E I (lift p).
Proof. intros Hp s Hs. apply m_lift. by eapply triple_conseq. Qed.

Lemma keeps_mcall {X} (r : req X) : (forall x, E (Ev r x)) -> keeps E I (mcall r).
Proof. intros Hr s Hs. apply triple_vis; [done|]. intros x. by apply triple_ret. Qed.

Lemma keeps_for_each {X} (l : list X) (body : X -> M S unit) :
  (forall x, x ∈ l -> keeps E I (body x)) -> keeps E I (for_each l body).
Proof. intros Hb s Hs. apply for_each_inv; [done|]. intros x s' Hx Hs'. by apply Hb. Qed.

Lemma keeps_for_each_err {X} (l : list X) (body : X -> M S (option goerror)) :
  (forall x, keeps E I (body x)) -> keeps E I (for_each_err l body).
Proof.
  intros Hb. induction l as [|x l IH]; cbn [for_each_err]; [apply keeps_ret|].
  apply keeps_bind; [apply Hb|]. intros [e|]; [apply keeps_ret|exact IH].
Qed.
End keeps.

(** An invariant that holds of all states. *)
Definition any {S} : S -> Prop := fun _ => True.

Lemma keeps_emits {S A} E (I : S -> Prop) (m : M S A) s :
  keeps E I m -> I s -> emits E (m s).
Proof. intros Hm Hs. eapply triple_conseq; [by apply Hm|done]. Qed.

Lemma keeps_and {S A} E E' (I J : S -> Prop) (m : M S A) :
  keeps E I m -> keeps E' J m -> keeps (fun e => E e /\ E' e) (fun s => I s /\ J s) m.
Proof.
  intros H1 H2 s [Hs Hs']. eapply triple_conseq; [by apply triple_and; [apply H1|apply H2]|].
  by intros [a s'].
Qed.

(** ** API calls *)

Section api.
Context (E : event -> Prop) (c : Client).
Hypothesis pauses : pauses_ok E.

Lemma apiGet_emits {T} op path (tg : target T) :
  (forall x, E (Ev (ApiGet (api c) path tg) x)) -> emits E (apiGet c op path tg).
Proof. by apply retry_emits. Qed.
Lemma apiPost_emits {T} op path b (tg : target T) :
  (forall x, E (Ev (ApiPost (api c) path b tg) x)) -> emits E (apiPost c op path b tg).
Proof. by apply retry_emits. Qed.
Lemma apiDelete_emits op path :
  (forall x, E (Ev (ApiDelete (api c) path) x)) -> emits E (apiDelete c op path).
Proof. by apply retry_emits. Qed.

(** [CreateLoadBalancer] reads and writes the balancer collection only. *)
Lemma CreateLoadBalancer_emits opts :
  (forall x, E (Ev (ApiGet (api c) (lbCollection c) TLoadBalancers) x)) ->
  (forall x, E (Ev (ApiPost (api c) (lbCollection c) (BCreateLoadBalancer opts) TTask) x)) ->
  emits E (CreateLoadBalancer c opts).
Proof.
  intros Hget Hpost.
  assert (Hfind : forall name, emits E (findLoadBalancerByName c name)).
  { intros name. apply emits_bind; [by apply apiGet_emits|].
    intros [lbs|e]; by apply triple_ret. }
  assert (Hpoll : forall name n, emits E (pollLoadBalancer c name n)).
  { intros name n. induction n as [|n IH]; [by apply triple_ret|].
    apply emits_bind; [apply Hfind|]. intros [[lb|]|e]; try by apply triple_ret.
    apply triple_vis; [by intros []|]. intros []. apply IH. }
  apply emits_bind; [apply Hfind|].
  assert (Hnew : emits E (let* r := apiPost c "CreateLoadBalancer" (lbCollection c)
                            (BCreateLoadBalancer opts) TTask in
      match r with
      | Err e => Ret (Err (Errorf ("creating load balancer " +:+
                   fmt_q (CreateLoadBalancerOpts_Name opts) +:+ ": ") e))
      | Ok _ => pollLoadBalancer c (CreateLoadBalancerOpts_Name opts) maxLookupAttempts
      end)).
  { apply emits_bind; [by apply apiPost_emits|]. intros [u|e]; [apply Hpoll|by apply triple_ret]. }
  intros [[lb|]|e]; [by apply triple_ret|exact Hnew|exact Hnew].
Qed.
End api.

(** ** Automation *)

Ltac head_of t := lazymatch t with ?f _ => head_of f | _ => t end.

(** One step on a goal [emits E p]. *)
Ltac emits_step :=
  lazymatch goal with
  | |- triple _ (Ret _) _ => by apply triple_ret
  | |- triple _ (pbind _ _) _ => apply emits_bind; [|intros ?]
  | |- triple _ (for_fold _ _ _) _ => apply for_fold_emits; intros ? ? ?
  | |- triple _ (call _) _ => apply triple_vis; [intros ?|intros ?; by apply triple_ret]
  | |- triple _ (apiGet _ _ _ _) _ => apply apiGet_emits; [|intros ?]
  | |- triple _ (apiPost _ _ _ _ _) _ => apply apiPost_emits; [|intros ?]
  | |- triple _ (apiDelete _ _ _) _ => apply apiDelete_emits; [|intros ?]
  | |- triple _ (CreateLoadBalancer _ _) _ => apply CreateLoadBalancer_emits; [|intros ?|intros ?]
  | |- triple _ (match ?x with _ => _ end) _ => destruct x
  | |- triple _ ?p _ => let h := head_of p in unfold h
  end.

(** One step on a goal [keeps E I m]. *)
Ltac keeps_step :=
  lazymatch goal with
  | |- keeps _ _ (mret _) => apply keeps_ret
  | |- keeps _ _ get => apply keeps_get
  | |- keeps _ _ (modify _) => apply keeps_modify; intros ? ?
  | |- keeps _ _ (lift _) => apply keeps_lift
  | |- keeps _ _ (mcall _) => apply keeps_mcall; intros ?
  | |- keeps _ _ (mbind _ _) => apply keeps_bind; [|intros ?]
  | |- keeps _ _ (for_each _ _) => apply keeps_for_each; intros ? ?
  | |- keeps _ _ (for_each_err _ _) => apply keeps_for_each_err; intros ?
  | |- keeps _ _ (match ?x with _ => _ end) => destruct x
  | |- keeps _ _ (fun s => Ret (_, s)) => intros ? ?; by apply triple_ret
  | |- keeps _ _ (range_map _) =>
      intros ? ?; apply triple_vis; [intros ?|intros ?; by apply triple_ret]
  | |- keeps _ _ ?m => let h := head_of m in unfold h
  end.

(** Apply the lemmas of [keeps] and the rules, [tac] closes the side conditions
    on events and states. *)
Ltac keeps_with tac :=
  repeat first
    [ solve [eauto with keeps nocore]
    | progress (lazymatch goal with
                | |- keeps _ _ _ => keeps_step
                | |- triple _ _ (fun _ => True) => emits_step
                end)
    | solve [tac] ].

Create HintDb keeps discriminated.

(** The side conditions on paths: two paths of one client that differ.  The
    definitions of paths are in the unfold database [paths]. *)
Create HintDb paths discriminated.
#[export] Hint Unfold regionPath projectPath lbCollection lbPath memberCollection hmCollection
  hmPath sgCollection : paths.

Ltac path_neq :=
  cbv beta iota delta [no_post no_delete is_post is_delete no_post_on no_delete_on]; try done;
  let H := fresh in
  try (intros H; autounfold with paths in H; str_cancel H; discriminate H).

(** ** Inversion of runs *)

Section inversion.
Context {S : Type}.

Lemma runs_mbind {A B} (m : M S A) (f : A -> M S B) s t r :
  runs (mbind m f s) t r <->
  exists t1 t2 a s1, t = t1 ++ t2 /\ runs (m s) t1 (a, s1) /\ runs (f a s1) t2 r.
Proof.
  unfold mbind. rewrite runs_bind. split.
  - intros (t1 & t2 & [a s1] & H). by exists t1, t2, a, s1.
  - intros (t1 & t2 & a & s1 & H). by exists t1, t2, (a, s1).
Qed.

Lemma runs_lift {A} (p : prog A) (s s' : S) t a :
  runs (lift p s) t (a, s') <-> runs p t a /\ s' = s.
Proof.
  unfold lift. rewrite runs_bind. split.
  - intros (t1 & t2 & a' & -> & H & -> & [= -> ->]). by rewrite app_nil_r.
  - intros [H ->]. exists t, [], a. by rewrite app_nil_r.
Qed.
End inversion.

(** Invert the runs of the context whose programs are built from the monad's
    operations, and split their results. *)
Ltac rinv1 :=
  match goal with
  | H : runs (mret _ _) _ _ |- _ => destruct H as [? H]; simplify_eq
  | H : runs (Ret _) _ _ |- _ => destruct H as [? ?]; simplify_eq
  | H : runs (get _) _ _ |- _ => destruct H as [? H]; simplify_eq
  | H : runs (modify _ _) _ _ |- _ => destruct H as [? H]; simplify_eq
  | H : runs (lift _ _) _ (_, _) |- _ => apply runs_lift in H as [H ?]; subst
  | H : runs (mbind _ _ _) _ _ |- _ =>
      let H' := fresh "Hr" in apply runs_mbind in H as (? & ? & ? & ? & ? & H' & H); subst
  | H : runs (pbind _ _) _ _ |- _ =>
      let H' := fresh "Hr" in apply runs_bind in H as (? & ? & ? & ? & H' & H); subst
  | H : runs (mcall _ _) _ _ |- _ => destruct H as (? & ? & ? & ? & H); simplify_eq
  end.
Ltac rinv := repeat rinv1.

(** Case analysis on the value the program of [H] branches on. *)
Ltac case_run H :=
  lazymatch type of H with
  | runs ((match ?x with _ => _ end) _) _ _ => destruct x eqn:?; rinv; rewrite ?app_nil_r in *
  end.
(** What holds of a trace holds of its parts. *)
Ltac split_traces :=
  repeat match goal with Hf : Forall _ (_ ++ _) |- _ => apply Forall_app in Hf as [? Hf] end.

(** [within t p a]: some part of the trace [t] is a run of [p] that returned [a]. *)
Definition within {A} (t : trace) (p : prog A) (a : A) : Prop :=
  exists t1 t2 t3, t = t1 ++ t2 ++ t3 /\ runs p t2 a.

Lemma within_all {A} t (p : prog A) a : runs p t a -> within t p a.
Proof. intros H. exists [], t, []. by rewrite app_nil_r. Qed.
Lemma within_l {A} t t' (p : prog A) a : within t p a -> within (t ++ t') p a.
Proof. intros (t1 & t2 & t3 & -> & H). exists t1, t2, (t3 ++ t'). by rewrite <- !app_assoc. Qed.
Lemma within_r {A} t t' (p : prog A) a : within t' p a -> within (t ++ t') p a.
Proof. intros (t1 & t2 & t3 & -> & H). exists (t ++ t1), t2, t3. by rewrite <- !app_assoc. Qed.
Lemma within_cons {A} e t (p : prog A) a : within t p a -> within (e :: t) p a.
Proof. apply (within_r [e]). Qed.

Create HintDb within discriminated.
Ltac in_run := solve [eauto 20 with within nocore].
#[export] Hint Resolve within_all within_l within_r within_cons : within.

(** A postcondition, applied to a run. *)
Lemma triple_run {A} E (p : prog A) Q t a : triple E p Q -> runs p t a -> Q a.
Proof. intros Hp Hr. by destruct (Hp _ _ Hr). Qed.
Lemma emits_run {A} E (p : prog A) t a : emits E p -> runs p t a -> Forall E t.
Proof. intros Hp Hr. by destruct (Hp _ _ Hr). Qed.
Lemma keeps_run {S A} E (I : S -> Prop) (m : M S A) s t a s' :
  keeps E I m -> I s -> runs (m s) t (a, s') -> Forall E t /\ I s'.
Proof. intros Hm Hs Hr. by destruct (Hm s Hs _ _ Hr). Qed.
