(* ===== verification/Naming.v ===== *)
(** * Naming: util/util.go and util/cloudinit.go

    Resource names, provider identifiers, the SSH key default, user data, and
    the construction of the OVH client from a cluster's identity secret. *)
From S2P Require Import Prelude.
From S2P Require Import GoStrings.
From S2P Require Import GoErrors.
From S2P Require Import OvhTypes.
From S2P Require Import K8sTypes.
From S2P Require Import ApiV1alpha2.
From S2P Require Import Effects.
From S2P Require Import OvhClient.
From Stdlib Require Import Ascii.
#[local] Open Scope go_scope.

(** The bytes kept by [rfc1035Regex = [^a-z0-9-]]. *)
Definition rfc1035_char (c : ascii) : bool := is_lower c || is_digit c || is_hyphen c.

(** [rfc1035Regex.ReplaceAllString(name, "-")]. *)
Definition rfc1035_replace (s : string) : string :=
  smap (fun c => if rfc1035_char c then c else "-"%char) s.

Definition GenerateRFC1035Name (parts : list string) : string :=
  let name := ToLower (Join parts "-") in
  let name := rfc1035_replace name in
  let name := Trim "-" name in
  if (63 <? String.length name)%nat then TrimRight "-" (stake 63 name) else name.

Definition providerScheme : string := "ovhcloud://".

Definition ProviderIDFromInstance (region instanceID : string) : string :=
  providerScheme +:+ region +:+ "/" +:+ instanceID.

Definition ParseProviderID (providerID : string) : gores (string * string) :=
  if negb (HasPrefix providerID providerScheme) then
    Err (NewError ("invalid providerID format: " +:+ fmt_q providerID +:+
           " (expected ovhcloud://<region>/<instanceID>)"))
  else
    match SplitN2 (TrimPrefix providerID providerScheme) "/" with
    | [region; instanceID] =>
        if (region =s? "") || (instanceID =s? "") then
          Err (NewError ("invalid providerID format: " +:+ fmt_q providerID))
        else Ok (region, instanceID)
    | _ => Err (NewError ("invalid providerID format: " +:+ fmt_q providerID))
    end.

Definition GetSSHKeyName (machineSSHKey clusterSSHKey : string) : string :=
  if negb (machineSSHKey =s? "") then machineSSHKey else clusterSSHKey.

(** util/cloudinit.go. *)
Definition PrepareUserData (bootstrapData : string) : gores string :=
  if (String.length bootstrapData =? 0)%nat then Err (NewError "bootstrap data is empty")
  else Ok bootstrapData.

Definition GetOVHClientFromCluster (ovhCluster : OVHCluster) : prog (gores Client) :=
  let secretRef := CSpec_IdentitySecret (OVHCluster_Spec ovhCluster) in
  let* r := call (GetSecret (SecretKey_Namespace secretRef) (SecretKey_Name secretRef)) in
  match r with
  | Err e => Ret (Err (Errorf ("getting OVH identity secret " +:+
               SecretKey_Namespace secretRef +:+ "/" +:+ SecretKey_Name secretRef +:+ ": ") e))
  | Ok secret =>
      NewClientFromSecret secret (CSpec_ServiceName (OVHCluster_Spec ovhCluster))
        (CSpec_Region (OVHCluster_Spec ovhCluster))
  end.

(** ** Names *)

(** The cases of util_test.go. *)
Example name_simple : GenerateRFC1035Name ["capi"; "test"; "vm"] = "capi-test-vm".
Proof. reflexivity. Qed.
Example name_special : GenerateRFC1035Name ["my_cluster"; "node.1"] = "my-cluster-node-1".
Proof. reflexivity. Qed.
Example name_trimmed : GenerateRFC1035Name ["-test-"; "name-"] = "test--name".
Proof. reflexivity. Qed.
Example name_empty_parts : GenerateRFC1035Name [""; "test"; ""] = "test".
Proof. reflexivity. Qed.
Example name_long :
  GenerateRFC1035Name
    ["this-is-a-very-long-cluster-name-that-exceeds-sixty-three-characters-total"] =
  "this-is-a-very-long-cluster-name-that-exceeds-sixty-three-chara".
Proof. reflexivity. Qed.

(** What the generated names satisfy: at most 63 bytes of [a-z0-9-], with no
    hyphen at either end. *)
Record rfc1035_like (s : string) : Prop := {
  rl_length : (String.length s <= 63)%nat;
  rl_chars : sall rfc1035_char s = true;
  rl_first : first_not "-" s = true;
  rl_last : last_not "-" s = true;
}.

Lemma rfc1035_replace_char c :
  rfc1035_char (if rfc1035_char c then c else "-"%char) = true.
Proof. by destruct (rfc1035_char c) eqn:E. Qed.

Lemma rfc1035_replace_id s : sall rfc1035_char s = true -> rfc1035_replace s = s.
Proof. apply smap_id. by intros c ->. Qed.

Lemma rfc1035_char_lower c : rfc1035_char c = true -> lower_ascii c = c.
Proof.
  unfold rfc1035_char, lower_ascii, is_upper, is_lower, is_digit, is_hyphen, byte_in.
  destruct c as [[] [] [] [] [] [] [] []]; vm_compute; congruence.
Qed.

Lemma ToLower_id s : sall rfc1035_char s = true -> ToLower s = s.
Proof. apply smap_id, rfc1035_char_lower. Qed.

Lemma stake_short n s : (String.length s <= n)%nat -> stake n s = s.
Proof.
  revert s. induction n as [|n IH]; intros [|c s]; cbn; try done; [lia|].
  intros H. rewrite IH; [done|lia].
Qed.

Lemma GenerateRFC1035Name_like parts : rfc1035_like (GenerateRFC1035Name parts).
Proof.
  unfold GenerateRFC1035Name.
  set (u := rfc1035_replace (ToLower (Join parts "-"))).
  assert (Hu : sall rfc1035_char (Trim "-" u) = true).
  { unfold Trim. apply TrimRight_all, TrimLeft_all. by apply sall_smap, rfc1035_replace_char. }
  assert (Hf : first_not "-" (Trim "-" u) = true) by apply TrimRight_first, TrimLeft_first.
  destruct (63 <? _)%nat eqn:E.
  - constructor; [|by apply TrimRight_all, stake_all|by apply TrimRight_first, stake_first|
      apply TrimRight_last].
    pose proof (TrimRight_length "-" (stake 63 (Trim "-" u))).
    pose proof (stake_length 63 (Trim "-" u)). lia.
  - constructor; [|done|done|apply TrimRight_last]. by apply Nat.ltb_ge in E.
Qed.

Lemma GenerateRFC1035Name_id s : rfc1035_like s -> GenerateRFC1035Name [s] = s.
Proof.
  intros [Hl Hc Hf Hla]. unfold GenerateRFC1035Name. cbn [Join].
  rewrite ToLower_id, rfc1035_replace_id by done. unfold Trim.
  rewrite TrimLeft_id, TrimRight_id by done.
  by rewrite (proj2 (Nat.ltb_ge _ _) Hl).
Qed.

(** C36.  Every name the provider gives to an OVH resource is at most 63 bytes
    long, uses only lower-case letters, digits and hyphens, and neither starts
    nor ends with a hyphen, whatever the parts; and a name of that form is left
    unchanged, so that generating twice is generating once. *)
Theorem GenerateRFC1035Name_spec parts :
  rfc1035_like (GenerateRFC1035Name parts) /\
  (forall s, rfc1035_like s -> GenerateRFC1035Name [s] = s) /\
  GenerateRFC1035Name [GenerateRFC1035Name parts] = GenerateRFC1035Name parts.
Proof.
  split; [apply GenerateRFC1035Name_like|]. split; [exact GenerateRFC1035Name_id|].
  apply GenerateRFC1035Name_id, GenerateRFC1035Name_like.
Qed.

(** The names are not always RFC 1035 labels, which must start with a
    letter: a part that starts with a digit gives a name that does, and parts
    without any letter or digit give the empty name. *)
Theorem GenerateRFC1035Name_not_a_label :
  GenerateRFC1035Name ["1st"; "node"] = "1st-node" /\ GenerateRFC1035Name ["_"; "."] = "".
Proof. split; reflexivity. Qed.

(** The name of the load balancer of a cluster, when it is short enough. *)
Lemma lb_name cluster :
  sall rfc1035_char cluster = true -> (String.length cluster <= 55)%nat ->
  GenerateRFC1035Name ["capi"; cluster; "lb"] = "capi-" +:+ cluster +:+ "-lb".
Proof.
  intros Hc Hlen.
  change (GenerateRFC1035Name ["capi"; cluster; "lb"]) with
    (GenerateRFC1035Name ["capi-" +:+ cluster +:+ "-lb"]).
  apply GenerateRFC1035Name_id. constructor.
  - rewrite !slength_app. cbn. lia.
  - rewrite !sall_app, Hc. reflexivity.
  - reflexivity.
  - change ("capi-" +:+ cluster +:+ "-lb") with (("capi-" +:+ cluster) +:+ String "-" "lb").
    rewrite last_not_app. reflexivity.
Qed.

(** The orphan prefix of one cluster covers the load balancer of another:
    for every cluster name [c], a cluster named [c ++ "-lb" ++ x] owns a balancer
    whose name starts with the prefix [GenerateRFC1035Name("capi", c, "lb")] that
    [ReconcileDelete] of [c] uses to find orphans. *)
Theorem orphan_prefix_covers_other_cluster c x :
  sall rfc1035_char (c +:+ x) = true -> (String.length (c +:+ x) <= 52)%nat ->
  HasPrefix (GenerateRFC1035Name ["capi"; c +:+ "-lb" +:+ x; "lb"])
            (GenerateRFC1035Name ["capi"; c; "lb"]) = true.
Proof.
  rewrite sall_app, slength_app. intros [Hc Hx]%andb_true_iff Hlen.
  rewrite !lb_name; [|done|lia|by rewrite !sall_app, Hc, Hx|rewrite !slength_app; cbn; lia].
  apply HasPrefix_spec. exists (x +:+ "-lb"). by rewrite !sapp_assoc.
Qed.

Lemma orphan_prefix_covers_other_cluster_witness :
  HasPrefix (GenerateRFC1035Name ["capi"; "prod-lb-eu"; "lb"])
            (GenerateRFC1035Name ["capi"; "prod"; "lb"]) = true.
Proof. apply (orphan_prefix_covers_other_cluster "prod" "-eu"); vm_compute; [reflexivity|lia]. Defined.

(** ** Provider identifiers *)

Definition no_slash (s : string) : bool := sall (fun d => negb (bool_decide (d = "/"%char))) s.

(** What [ProviderIDFromInstance] builds is parsed back. *)
Lemma parse_providerID region instanceID :
  region <> "" -> no_slash region = true -> instanceID <> "" ->
  ParseProviderID (ProviderIDFromInstance region instanceID) = Ok (region, instanceID).
Proof.
  intros Hr Hs Hi. unfold ParseProviderID, ProviderIDFromInstance, SplitN2.
  rewrite HasPrefix_app, TrimPrefix_app. cbn [negb].
    change (region +:+ "/" +:+ instanceID) with (region +:+ String "/" instanceID).
    rewrite cut_app by done.
    by rewrite (proj2 (strEqb_neq region "") Hr), (proj2 (strEqb_neq instanceID "") Hi).
Qed.

(** [ParseProviderID] and [ProviderIDFromInstance] are inverse of each
    other: parsing succeeds with a region and an instance exactly when the text
    is the provider identifier of that region and instance, the region is not
    empty and holds no slash, and the instance is not empty. *)
Theorem ParseProviderID_spec providerID region instanceID :
  ParseProviderID providerID = Ok (region, instanceID) <->
  providerID = ProviderIDFromInstance region instanceID /\
  region <> "" /\ instanceID <> "" /\ no_slash region = true.
Proof.
  unfold ParseProviderID, ProviderIDFromInstance, SplitN2. split.
  - destruct (HasPrefix providerID providerScheme) eqn:Hp; cbn [negb]; [|done].
    apply HasPrefix_spec in Hp as [r ->]. rewrite TrimPrefix_app.
    destruct (cut "/" r) as [[a b]|] eqn:E; [|done].
    destruct (a =s? "") eqn:Ha; [done|]. destruct (b =s? "") eqn:Hb; [done|].
    intros [= <- <-]. str_simpl.
    split_all; [by rewrite (cut_some _ _ _ _ E)|by apply cut_some_free in E].
  - intros (-> & Hr & Hi & Hs). by apply parse_providerID.
Qed.
