(* ===== verification/Manager.v ===== *)
(** * Manager: the entry point, cmd/main.go

    The program as a process: the scheme is filled before [main]; [main] builds
    the manager, sets both controllers up, and the webhooks if they are enabled,
    and runs until the manager stops.  controller-runtime is the request
    [Manager] of [Effects]; flag.Parse is the argument [Flags].  The result is the
    exit status: 1 of os.Exit(1), 2 of a panic. *)
From S2P Require Import Prelude.
From S2P Require Import GoErrors.
From S2P Require Import Effects.
#[local] Open Scope Z_scope.
#[local] Open Scope go_scope.

(** ** Flags *)

Record Flags := {
  metricsAddr : string;
  probeAddr : string;
  enableWebhooks : bool;
  enableLeaderElection : bool;
}.
Definition defaultFlags : Flags := {|
  metricsAddr := ":8080"; probeAddr := ":9440";
  enableWebhooks := false; enableLeaderElection := false |}.

(** ** Setting up *)

Definition manage (m : manager_call) : prog (option goerror) := call (Manager m).

(** [if err := p; err != nil { exit with status code }], then [k]. *)
Definition orExit (code : Z) (p : prog (option goerror)) (k : prog Z) : prog Z :=
  let* err := p in match err with Some _ => Ret code | None => k end.

(** [init]: utilruntime.Must panics. *)
Definition init (main : prog Z) : prog Z :=
  orExit 2 (manage (AddToScheme "clientgoscheme"))
  (orExit 2 (manage (AddToScheme "infrastructure.cluster.x-k8s.io/v1alpha1"))
  (orExit 2 (manage (AddToScheme "infrastructure.cluster.x-k8s.io/v1alpha2"))
  (orExit 2 (manage (AddToScheme "cluster.x-k8s.io/v1beta2"))
  main))).

Definition managerOptions (f : Flags) : ManagerOptions := {|
  MetricsBindAddress := metricsAddr f;
  HealthProbeBindAddress := probeAddr f;
  LeaderElection := enableLeaderElection f;
  LeaderElectionID := "capiovh.cluster.x-k8s.io";
  WebhookServerPort := if enableWebhooks f then Some 9443 else None |}.

(** [OVHMachineReconciler.SetupWithManager]. *)
Definition machineBuilder : ControllerBuilder := {|
  For_Kind := "OVHMachine";
  Builder_Watches := [
    {| Watch_Kind := "Machine"; Watch_Mapper := "MachineToInfrastructureMapFunc";
       Watch_Predicates := ["ResourceNotPaused"] |};
    {| Watch_Kind := "Cluster"; Watch_Mapper := "clusterToOVHMachine";
       Watch_Predicates := ["ClusterUnpaused"] |}] |}.
Definition OVHMachine_SetupWithManager : prog (option goerror) :=
  let* err := manage (ClusterToTypedObjectsMapper "OVHMachineList") in
  match err with
  | Some err => Ret (Some err)
  | None => manage (CompleteController machineBuilder)
  end.

(** [OVHClusterReconciler.SetupWithManager]; the indexed function is
    [ClusterController.identitySecretIndex], the mappers are
    [secretToOVHCluster] and [clusterToOVHCluster] there. *)
Definition clusterBuilder : ControllerBuilder := {|
  For_Kind := "OVHCluster";
  Builder_Watches := [
    {| Watch_Kind := "Secret"; Watch_Mapper := "secretToOVHCluster"; Watch_Predicates := [] |};
    {| Watch_Kind := "Cluster"; Watch_Mapper := "clusterToOVHCluster"; Watch_Predicates := [] |}] |}.
Definition OVHCluster_SetupWithManager : prog (option goerror) :=
  let* err := manage (IndexField "OVHCluster" ".spec.identitySecret.name") in
  match err with
  | Some err => Ret (Some err)
  | None => manage (CompleteController clusterBuilder)
  end.

(** The four functions SetupOVH...WebhookWithManager. *)
Definition v1alpha1_SetupOVHMachineWebhook := manage (CompleteWebhook "OVHMachine" "v1alpha1").
Definition v1alpha1_SetupOVHClusterWebhook := manage (CompleteWebhook "OVHCluster" "v1alpha1").
Definition v1alpha2_SetupOVHMachineWebhook := manage (CompleteWebhook "OVHMachine" "v1alpha2").
Definition v1alpha2_SetupOVHClusterWebhook := manage (CompleteWebhook "OVHCluster" "v1alpha2").

Definition setupWebhooks (k : prog Z) : prog Z :=
  orExit 1 v1alpha1_SetupOVHMachineWebhook
  (orExit 1 v1alpha1_SetupOVHClusterWebhook
  (orExit 1 v1alpha2_SetupOVHMachineWebhook
  (orExit 1 v1alpha2_SetupOVHClusterWebhook k))).

Definition main (f : Flags) : prog Z :=
  orExit 1 (manage GetConfigOrDie)
  (orExit 1 (manage (NewManager (managerOptions f)))
  (orExit 1 OVHMachine_SetupWithManager
  (orExit 1 OVHCluster_SetupWithManager
  (let serve :=
     orExit 1 (manage (AddHealthzCheck "healthz"))
     (orExit 1 (manage (AddReadyzCheck "readyz"))
     (orExit 1 (manage StartManager)
     (Ret 0))) in
   if enableWebhooks f then setupWebhooks serve else serve)))).

Definition process (f : Flags) : prog Z := init (main f).

(** ** The start sequence *)

(** The calls of a start, with the exit status that follows their failure. *)
Definition startSequence (f : Flags) : list (manager_call * Z) :=
  map (fun g => (AddToScheme g, 2)) ["clientgoscheme"; "infrastructure.cluster.x-k8s.io/v1alpha1";
    "infrastructure.cluster.x-k8s.io/v1alpha2"; "cluster.x-k8s.io/v1beta2"] ++
  map (fun c => (c, 1))
    ([GetConfigOrDie; NewManager (managerOptions f); ClusterToTypedObjectsMapper "OVHMachineList";
      CompleteController machineBuilder; IndexField "OVHCluster" ".spec.identitySecret.name";
      CompleteController clusterBuilder] ++
     (if enableWebhooks f
      then [CompleteWebhook "OVHMachine" "v1alpha1"; CompleteWebhook "OVHCluster" "v1alpha1";
            CompleteWebhook "OVHMachine" "v1alpha2"; CompleteWebhook "OVHCluster" "v1alpha2"]
      else []) ++
     [AddHealthzCheck "healthz"; AddReadyzCheck "readyz"; StartManager]).

(** Going through a sequence up to its first failure. *)
Fixpoint inSequence (calls : list (manager_call * Z)) : prog Z :=
  match calls with
  | [] => Ret 0
  | (c, code) :: calls => orExit code (manage c) (inSequence calls)
  end.

Definition event_ok (c : manager_call * Z) : event := Ev (Manager c.1) None.

Lemma inSequence_runs calls t code :
  runs (inSequence calls) t code <->
  (t = map event_ok calls /\ code = 0) \/
  (exists before c after e, calls = before ++ (c, code) :: after /\
     t = map event_ok before ++ [Ev (Manager c) (Some e)]).
Proof.
  revert t. induction calls as [|[c fcode] calls IH]; intros t; cbn [inSequence].
  - split; [intros [-> ->]; by left|]. intros [[-> ->]|(before & c & after & e & Heq & _)]; [done|].
    by destruct before.
  - unfold orExit, manage. cbn [call pbind runs]. split.
    + intros ([e|] & t' & -> & Hr); cbn [pbind] in Hr.
      * destruct Hr as [-> ->]. right. by exists [], c, calls, e.
      * apply IH in Hr as [[-> ->]|(before & c' & after & e & -> & ->)]; [by left|].
        right. by exists ((c, fcode) :: before), c', after, e.
    + intros [[-> ->]|(before & c' & after & e & Heq & ->)].
      * exists None, (map event_ok calls). split; [done|]. apply IH. by left.
      * destruct before as [|b before]; cbn in Heq.
        -- injection Heq as Hc Hcode Ha. subst. by exists (Some e), [].
        -- injection Heq as Hb Hc. subst b calls. eexists None, _. split; [reflexivity|]. apply IH. right. by eexists _, _, _, _.
Qed.

(** Programs with the same runs. *)
Definition peq {A} (p q : prog A) : Prop := forall t a, runs p t a <-> runs q t a.
#[export] Instance peq_equiv A : Equivalence (@peq A).
Proof.
  split; [by intros p t a|by intros p q Hpq t a|].
  intros p q r Hpq Hqr t a. by rewrite (Hpq t a).
Qed.
#[export] Instance orExit_proper code : Proper (peq ==> peq ==> peq) (orExit code).
Proof.
  intros p p' Hp k k' Hk t a. unfold orExit. rewrite !runs_bind.
  split; intros (t1 & t2 & e & -> & H1 & H2); exists t1, t2, e; (split; [done|]);
    (split; [by apply Hp|]); destruct e; first [done | by apply Hk].
Qed.

(** A function of two calls that returns the first error. *)
Lemma orExit_seq code c1 c2 k :
  peq (orExit code (let* err := manage c1 in
                    match err with Some err => Ret (Some err) | None => manage c2 end) k)
      (orExit code (manage c1) (orExit code (manage c2) k)).
Proof.
  intros t a. unfold orExit, manage. cbn [call pbind runs].
  split; intros (e & t' & -> & Hr); exists e, t'; (split; [done|]); by destruct e.
Qed.

Lemma process_sequence f : peq (process f) (inSequence (startSequence f)).
Proof.
  unfold process, init, main, OVHMachine_SetupWithManager, OVHCluster_SetupWithManager.
  rewrite !orExit_seq. by destruct f as [? ? [] ?].
Qed.

