(* ===== verification/Metrics.v ===== *)
(** * Metrics: internal/metrics/metrics.go

    A metric is identified by the full name Prometheus exposes it under,
    namespace included; updating one is a request of [Effects].  Buckets and
    help texts are configuration of Prometheus and left out. *)
From S2P Require Import Prelude.

Definition namespace : string := "capiovh".
Definition metric (name : string) : string := namespace +:+ "_" +:+ name.

Definition MachineCreateTotal := metric "machine_create_total".
Definition MachineCreateErrorsTotal := metric "machine_create_errors_total".
Definition MachineCreationDuration := metric "machine_creation_duration_seconds".
Definition MachineDeleteTotal := metric "machine_delete_total".
Definition MachineDeleteErrorsTotal := metric "machine_delete_errors_total".
Definition MachineStatus := metric "machine_status".
Definition MachineReconcileDuration := metric "machine_reconcile_duration_seconds".
Definition ClusterReconcileDuration := metric "cluster_reconcile_duration_seconds".
Definition ClusterReady := metric "cluster_ready".
Definition NodeInitDuration := metric "node_init_duration_seconds".
Definition EtcdMemberRemovalDuration := metric "etcd_member_removal_duration_seconds".
Definition BootstrapWaitDuration := metric "bootstrap_wait_duration_seconds".
Definition LBPollDuration := metric "lb_poll_duration_seconds".
Definition OVHAPIRequestsTotal := metric "ovh_api_requests_total".
Definition OVHAPIRequestDuration := metric "ovh_api_request_duration_seconds".

(** ** The registry *)

Inductive metric_kind := Counter | Gauge | Histogram.

(** A metric as registered: its kind and the names of its labels. *)
Record Desc := { Desc_Name : string; Desc_Kind : metric_kind; Desc_Labels : list string }.
Definition desc (name : string) (kind : metric_kind) (labels : list string) : Desc :=
  {| Desc_Name := name; Desc_Kind := kind; Desc_Labels := labels |}.

(** What [init] registers, in its order. *)
Definition registry : list Desc := [
  desc MachineCreateTotal Counter [];
  desc MachineCreateErrorsTotal Counter [];
  desc MachineCreationDuration Histogram [];
  desc MachineDeleteTotal Counter [];
  desc MachineDeleteErrorsTotal Counter [];
  desc MachineStatus Gauge ["cluster"; "machine"];
  desc MachineReconcileDuration Histogram ["operation"];
  desc ClusterReconcileDuration Histogram ["operation"];
  desc ClusterReady Gauge ["cluster"];
  desc NodeInitDuration Histogram [];
  desc EtcdMemberRemovalDuration Histogram [];
  desc BootstrapWaitDuration Histogram [];
  desc LBPollDuration Histogram [];
  desc OVHAPIRequestsTotal Counter ["endpoint"; "outcome"];
  desc OVHAPIRequestDuration Histogram ["endpoint"]].

(** MustRegister panics on a second metric of one name. *)
Lemma registry_unique : NoDup (map Desc_Name registry).
Proof. apply (bool_decide_unpack _). vm_compute. exact I. Qed.
