(* ===== verification/CapiLib.v ===== *)
(** * CapiLib: what the controllers rely on from cluster-api and controller-runtime

    The pure helpers of third-party packages the controllers call
    (util/conditions, controllerutil, util/annotations, util) are operations of
    the class [CapiLib], together with their documented behaviour.  The
    controllers and their theorems are stated for any instance;
    [ReferenceCapi] is one, on which the witnesses compute. *)
From S2P Require Import Prelude.
From S2P Require Import K8sTypes.

Class CapiLib := {
  (** util/conditions *)
  conditions_Set : list Condition -> Condition -> list Condition;
  conditions_Get : list Condition -> string -> option Condition;
  conditions_IsTrue : list Condition -> string -> bool;
  (** controllerutil *)
  ContainsFinalizer : ObjectMeta -> string -> bool;
  AddFinalizer : ObjectMeta -> string -> ObjectMeta;
  RemoveFinalizer : ObjectMeta -> string -> ObjectMeta;
  (** util/annotations and util *)
  IsPaused : Cluster -> ObjectMeta -> bool;
  IsControlPlaneMachine : Machine -> bool;

  (** Setting a condition replaces the one of its type and no other. *)
  conditions_Get_Set cs c ty :
    conditions_Get (conditions_Set cs c) ty =
    if decide (ty = Condition_Type c) then Some c else conditions_Get cs ty;
  conditions_IsTrue_Get cs ty :
    conditions_IsTrue cs ty =
    match conditions_Get cs ty with
    | Some c => strEqb (Condition_Status c) ConditionTrue
    | None => false
    end;
  (** Finalizers: adding and removing touch that field only. *)
  ContainsFinalizer_Add m f : ContainsFinalizer (AddFinalizer m f) f = true;
  ContainsFinalizer_Remove m f : ContainsFinalizer (RemoveFinalizer m f) f = false;
  AddFinalizer_only m f :
    AddFinalizer m f = m {{ Finalizers := Finalizers (AddFinalizer m f) }};
  RemoveFinalizer_only m f :
    RemoveFinalizer m f = m {{ Finalizers := Finalizers (RemoveFinalizer m f) }};
}.

Section derived.
Context `{CapiLib}.

Lemma IsTrue_Set cs c ty :
  conditions_IsTrue (conditions_Set cs c) ty =
  if decide (ty = Condition_Type c)
  then strEqb (Condition_Status c) ConditionTrue else conditions_IsTrue cs ty.
Proof. rewrite !conditions_IsTrue_Get, conditions_Get_Set. by case_decide. Qed.

Lemma IsTrue_Set_ne cs c ty :
  ty <> Condition_Type c -> conditions_IsTrue (conditions_Set cs c) ty = conditions_IsTrue cs ty.
Proof. intros Hne. rewrite IsTrue_Set. by case_decide. Qed.

Lemma IsTrue_Set_true cs c :
  Condition_Status c = ConditionTrue ->
  conditions_IsTrue (conditions_Set cs c) (Condition_Type c) = true.
Proof. intros Hs. rewrite IsTrue_Set, decide_True by done. by apply strEqb_eq. Qed.

Lemma DeletionTimestamp_Add m f : DeletionTimestamp (AddFinalizer m f) = DeletionTimestamp m.
Proof. by rewrite AddFinalizer_only. Qed.
Lemma DeletionTimestamp_Remove m f :
  DeletionTimestamp (RemoveFinalizer m f) = DeletionTimestamp m.
Proof. by rewrite RemoveFinalizer_only. Qed.
End derived.

(** ** A reference instance *)

Fixpoint ref_set (cs : list Condition) (c : Condition) : list Condition :=
  match cs with
  | [] => [c]
  | d :: cs => if strEqb (Condition_Type d) (Condition_Type c) then c :: cs else d :: ref_set cs c
  end.

Definition ref_get (cs : list Condition) (ty : string) : option Condition :=
  find_first (fun d => strEqb (Condition_Type d) ty) cs.

Lemma ref_get_set cs c ty :
  ref_get (ref_set cs c) ty =
  if decide (ty = Condition_Type c) then Some c else ref_get cs ty.
Proof.
  unfold ref_get. induction cs as [|d cs IH]; cbn.
  - case_decide as Hty; [subst; by rewrite strEqb_refl|].
    by rewrite (proj2 (strEqb_neq _ ty)) by congruence.
  - destruct (strEqb (Condition_Type d) (Condition_Type c)) eqn:E; cbn.
    + apply strEqb_eq in E. case_decide as Hty; [subst; by rewrite strEqb_refl|].
      rewrite (proj2 (strEqb_neq (Condition_Type c) ty)) by congruence.
      by rewrite (proj2 (strEqb_neq (Condition_Type d) ty)) by congruence.
    + destruct (strEqb (Condition_Type d) ty) eqn:E2; [|exact IH].
      apply strEqb_eq in E2. apply strEqb_neq in E. case_decide; congruence.
Qed.

#[export] Instance ReferenceCapi : CapiLib.
Proof.
  refine {|
    conditions_Set := ref_set;
    conditions_Get := ref_get;
    conditions_IsTrue cs ty :=
      match ref_get cs ty with Some c => strEqb (Condition_Status c) ConditionTrue | None => false end;
    ContainsFinalizer m f := bool_decide (f ∈ Finalizers m);
    AddFinalizer m f := m {{ Finalizers ::= fun l => if decide (f ∈ l) then l else l ++ [f] }};
    RemoveFinalizer m f := m {{ Finalizers ::= List.filter (fun g => negb (strEqb g f)) }};
    IsPaused c m := default false (Cluster_Paused c) ||
                    bool_decide (is_Some (Annotations m !! "cluster.x-k8s.io/paused"));
    IsControlPlaneMachine m :=
      bool_decide (is_Some (Labels (Machine_ObjectMeta m) !! "cluster.x-k8s.io/control-plane"));
  |}.
  - apply ref_get_set.
  - done.
  - intros m f. apply bool_decide_eq_true. cbn. case_decide; set_solver.
  - intros m f. apply bool_decide_eq_false. cbn. intros Hin.
    apply list_elem_of_In, List.filter_In in Hin as [_ Hf].
    by rewrite strEqb_refl in Hf.
  - done.
  - done.
Defined.
