(* ===== verification/ClusterController.v ===== *)
(** * ClusterController: internal/controller/ovhcluster_controller.go

    The reconciler of [OVHCluster].  A method taking the scope is a state passer
    over the [OVHCluster] the scope points to; the other fields of the scope are
    [ClusterScope].  [ctrl.Result] is its [RequeueAfter]; a method returning
    [(reconcile.Result, error)] returns the pair.  Long methods are cut at their
    comments into one definition per step, in the order of the source. *)
From S2P Require Import Prelude.
From S2P Require Import GoStrings.
From S2P Require Import GoErrors.
From S2P Require Import OvhTypes.
From S2P Require Import K8sTypes.
From S2P Require Import ApiV1alpha2.
From S2P Require Import Effects.
From S2P Require Import OvhClient.
From S2P Require Import Naming.
From S2P Require Import Metrics.
From S2P Require Import CapiLib.
From Stdlib Require Import Ascii.
#[local] Open Scope Z_scope.
#[local] Open Scope go_scope.

(** ** Constants *)

Definition requeueTimeShort : Z := 30 * Second.
Definition requeueTimeMedium : Z := 1 * Minute.
Definition requeueTimeLong : Z := 3 * Minute.

Definition apiServerListenerName : string := "api-server".
Definition apiServerLBPort : Z := 6443.
Definition apiServerBackendPort : Z := 6443.
Definition apiServerProtocol : string := "tcp".
Definition lbAlgorithm : string := "roundRobin".

Definition rke2RegisterListenerName : string := "rke2-register".
Definition rke2RegisterLBPort : Z := 9345.
Definition rke2RegisterBackendPort : Z := 9345.

Definition hmType : string := "tcp".
Definition hmDelay : Z := 5.
Definition hmTimeout : Z := 3.
Definition hmMaxRetries : Z := 2.

(** ** Scope and results *)

Record ClusterScope := {
  CScope_Cluster : Cluster;
  CScope_OVHClient : Client;
}.

Record Result := { RequeueAfter : Z }.
Definition noRequeue : Result := {| RequeueAfter := 0 |}.
Definition requeue (d : Z) : Result := {| RequeueAfter := d |}.

Abbreviation outcome := (Result * option goerror)%type.
Abbreviation CM := (M OVHCluster).

Definition cond (ty status reason message : string) : Condition := {|
  Condition_Type := ty; Condition_Status := status;
  Condition_Reason := reason; Condition_Message := message |}.

(** ** subnetRange *)

(** The prefix of [s] up to and including its last ['.']. *)
Fixpoint upto_last_dot (s : string) : option string :=
  match s with
  | EmptyString => None
  | String c s' =>
      match upto_last_dot s' with
      | Some b => Some (String c b)
      | None => if bool_decide (c = "."%char) then Some (String c EmptyString) else None
      end
  end.

Definition subnetRange (cidr : string) : string * string :=
  match cut "/" cidr with
  | None => ("", "")
  | Some (prefix, mask) =>
      if negb (mask =s? "24") then ("", "")
      else match upto_last_dot prefix with
           | None => ("", "")
           | Some base => (base +:+ "2", base +:+ "254")
           end
  end.

(** ** Watches *)

(** The index function of [SetupWithManager]. *)
Definition identitySecretIndex (cluster : OVHCluster) : list string :=
  let name := SecretKey_Name (CSpec_IdentitySecret (OVHCluster_Spec cluster)) in
  if name =s? "" then [] else [name].

Record Request := { Request_Namespace : string; Request_Name : string }.

(** [None] is an object that is not a Secret. *)
Definition secretToOVHCluster (obj : option Secret) : prog (list Request) :=
  match obj with
  | None => Ret []
  | Some secret =>
      let* r := call (ListOVHClustersBySecret (Name (Secret_ObjectMeta secret))) in
      match r with
      | Err _ => Ret []
      | Ok items =>
          Ret (map (fun cl => {| Request_Namespace := Namespace (OVHCluster_ObjectMeta cl);
                                 Request_Name := Name (OVHCluster_ObjectMeta cl) |})
                 (List.filter (fun cl =>
                    SecretKey_Namespace (CSpec_IdentitySecret (OVHCluster_Spec cl)) =s?
                    Namespace (Secret_ObjectMeta secret)) items))
      end
  end.

Definition clusterToOVHCluster (obj : Cluster) : list Request :=
  match Cluster_InfrastructureRef obj with
  | None => []
  | Some ref =>
      if negb (InfraRef_Kind ref =s? "OVHCluster") then []
      else [ {| Request_Namespace := Namespace (Cluster_ObjectMeta obj);
                Request_Name := InfraRef_Name ref |} ]
  end.

Section controller.
Context `{CapiLib}.

(** ** Accessors of the scope *)

Definition clusterName (scope : ClusterScope) : string :=
  Name (Cluster_ObjectMeta (CScope_Cluster scope)).

Definition getSpec : CM OVHClusterSpec := fun o => Ret (OVHCluster_Spec o, o).
Definition getStatus : CM OVHClusterStatus := fun o => Ret (OVHCluster_Status o, o).
Definition setStatus (f : OVHClusterStatus -> OVHClusterStatus) : CM unit :=
  modify (fun o => o {{ OVHCluster_Status ::= f }}).

(** [conditions.Set(scope.OVHCluster, metav1.Condition{...})]. *)
Definition setCondition (ty status reason message : string) : CM unit :=
  setStatus (fun s => s {{ CStatus_Conditions ::=
    fun cs => conditions_Set cs (cond ty status reason message) }}).

(** ** Failure domains *)

Definition discoverFailureDomains (spec : OVHClusterSpec) (info : RegionInfo)
  : list FailureDomain :=
  match CSpec_FailureDomains spec with
  | _ :: _ =>
      map (fun fd => {| FailureDomain_Name := fd; FailureDomain_ControlPlane := Some true |})
        (CSpec_FailureDomains spec)
  | [] =>
      map (fun _ => {| FailureDomain_Name := CSpec_Region spec;
                       FailureDomain_ControlPlane := Some true |})
        (List.filter (fun svc => (RegionService_Name svc =s? "instance") &&
                            (RegionService_Status svc =s? "UP"))
                (RegionInfo_Services info))
  end.

Definition reconcileFailureDomains (scope : ClusterScope) : CM unit :=
  let! status := getStatus in
  match CStatus_FailureDomains status with
  | _ :: _ => mret tt
  | [] =>
      try! info := lift (GetRegionInfo (CScope_OVHClient scope)) catch err => mret tt in
      let! spec := getSpec in
      match discoverFailureDomains spec info with
      | [] => mret tt
      | fds => setStatus (fun s => s {{ CStatus_FailureDomains := fds }})
      end
  end.

(** ** Security groups *)

Definition existingByName (existing : list SecurityGroup) : gmap string string :=
  foldl (fun m sg => <[SecurityGroup_Name sg := SecurityGroup_ID sg]> m) ∅ existing.

Definition ruleOpts (rule : OVHSecurityRule) : CreateSecurityGroupRuleOpts := {|
  CreateSecurityGroupRuleOpts_Direction := SecurityRule_Direction rule;
  CreateSecurityGroupRuleOpts_Protocol := SecurityRule_Protocol rule;
  CreateSecurityGroupRuleOpts_PortRangeMin := SecurityRule_PortRangeMin rule;
  CreateSecurityGroupRuleOpts_PortRangeMax := SecurityRule_PortRangeMax rule;
  CreateSecurityGroupRuleOpts_RemoteIPPrefix := SecurityRule_RemoteIPPrefix rule;
  CreateSecurityGroupRuleOpts_EtherType := SecurityRule_EtherType rule |}.

Definition sgResourceName (scope : ClusterScope) (sgSpec : OVHSecurityGroup) : string :=
  "capi-" +:+ clusterName scope +:+ "-" +:+ SecurityGroupSpec_Name sgSpec.

Definition setSecurityGroupID (name id : string) : CM unit :=
  setStatus (fun s => s {{ CStatus_SecurityGroupIDs ::= fun m => <[name := id]> m }}).

(** One iteration of the loop over [spec.SecurityGroups]. *)
Definition reconcileSecurityGroup (scope : ClusterScope) (byName : gmap string string)
  (sgSpec : OVHSecurityGroup) : CM (option goerror) :=
  let c := CScope_OVHClient scope in
  let sgName := sgResourceName scope sgSpec in
  let! status := getStatus in
  if negb (default "" (CStatus_SecurityGroupIDs status !! SecurityGroupSpec_Name sgSpec) =s? "")
  then mret None
  else match byName !! sgName with
  | Some id =>
      do! setSecurityGroupID (SecurityGroupSpec_Name sgSpec) id in
      mret None
  | None =>
      try! sg := lift (CreateSecurityGroup c {|
          CreateSecurityGroupOpts_Name := sgName;
          CreateSecurityGroupOpts_Description :=
            "CAPIOVH managed for cluster " +:+ clusterName scope |})
      catch cerr =>
        mret (Some (Errorf ("creating security group " +:+ fmt_q sgName +:+ ": ") cerr)) in
      do! setSecurityGroupID (SecurityGroupSpec_Name sgSpec) (SecurityGroup_ID sg) in
      do! for_each (SecurityGroupSpec_Rules sgSpec) (fun rule =>
            try! _r := lift (CreateSecurityGroupRule c (SecurityGroup_ID sg) (ruleOpts rule))
            catch rerr => mret tt in mret tt) in
      mret None
  end.

Definition reconcileSecurityGroups (scope : ClusterScope) : CM (option goerror) :=
  let! spec := getSpec in
  match CSpec_SecurityGroups spec with
  | [] => mret None
  | groups =>
      try! existing := lift (ListSecurityGroups (CScope_OVHClient scope))
      catch err => mret (Some (Errorf "listing security groups: " err)) in
      for_each_err groups (reconcileSecurityGroup scope (existingByName existing))
  end.

(** ** DNS *)

Definition reconcileDNS (scope : ClusterScope) : CM (option goerror) :=
  let c := CScope_OVHClient scope in
  let! spec := getSpec in
  match CSpec_DNSConfig spec with
  | None => mret None
  | Some dns =>
      let! status := getStatus in
      if negb (CStatus_DNSRecordID status =? 0) then mret None
      else
        let host := Host (CSpec_ControlPlaneEndpoint spec) in
        if host =s? "" then mret None
        else
          let recordName := if DNSConfig_RecordName dns =s? "" then clusterName scope
                            else DNSConfig_RecordName dns in
          let ttl := if DNSConfig_TTL dns =? 0 then 300 else DNSConfig_TTL dns in
          try! record := lift (CreateDNSRecord c (DNSConfig_ZoneName dns) {|
              CreateDNSRecordOpts_FieldType := "A";
              CreateDNSRecordOpts_SubDomain := recordName;
              CreateDNSRecordOpts_Target := host;
              CreateDNSRecordOpts_TTL := ttl |})
          catch err => mret (Some (Errorf "creating DNS record: " err)) in
          do! setStatus (fun s => s {{ CStatus_DNSRecordID := DNSRecord_ID record }}) in
          do! lift (RefreshDNSZone c (DNSConfig_ZoneName dns)) in
          mret None
  end.

(** ** Credentials *)

Definition reconcileCredentials (scope : ClusterScope) : CM (option goerror) :=
  check! lift (ValidateCredentials (CScope_OVHClient scope))
  catch err =>
    do! setCondition OVHConnectionReadyCondition ConditionFalse OVHAuthenticationFailedReason
          ("Failed to validate OVH credentials: " +:+ Error err) in
    mret (Some (Errorf "validating OVH credentials: " err)) in
  do! setCondition OVHConnectionReadyCondition ConditionTrue OVHConnectionReadyCondition "" in
  mret None.

(** ** Network *)

Definition networkReady : CM unit :=
  setCondition NetworkReadyCondition ConditionTrue NetworkReadyCondition "".

(** Step 1: use the given network or create one. *)
Definition ensureNetwork (scope : ClusterScope) (netConfig : OVHNetworkConfig) (region : string)
  : CM (option goerror) :=
  let! status := getStatus in
  if negb (CStatus_NetworkID status =s? "") then mret None
  else if negb (NetConfig_PrivateNetworkID netConfig =s? "") then
    do! setStatus (fun s => s {{ CStatus_NetworkID := NetConfig_PrivateNetworkID netConfig }}) in
    mret None
  else
    let networkName := GenerateRFC1035Name ["capi"; clusterName scope; "net"] in
    try! network := lift (CreatePrivateNetwork (CScope_OVHClient scope) {|
        CreateNetworkOpts_Name := networkName;
        CreateNetworkOpts_VlanID := NetConfig_VlanID netConfig;
        CreateNetworkOpts_Regions := [region] |})
    catch err =>
      do! setCondition NetworkReadyCondition ConditionFalse NetworkCreationFailedReason
            ("Failed to create network: " +:+ Error err) in
      mret (Some (Errorf "creating private network: " err)) in
    do! setStatus (fun s => s {{ CStatus_NetworkID := PrivateNetwork_ID network }}) in
    do! setCondition NetworkCreatedByControllerCondition ConditionTrue
          NetworkCreatedByControllerCondition "" in
    mret None.

(** The status of the first entry of [region] in [net.Regions], or "". *)
Definition regionStatus (net : PrivateNetwork) (region : string) : string :=
  match find_first (fun r => NetworkRegion_Region r =s? region) (PrivateNetwork_Regions net) with
  | Some r => NetworkRegion_Status r
  | None => ""
  end.

(** Step 3: adopt the first subnet or create one. *)
Definition ensureSubnet (scope : ClusterScope) (netConfig : OVHNetworkConfig) (region : string)
  : CM (option goerror) :=
  let c := CScope_OVHClient scope in
  let! status := getStatus in
  if negb (CStatus_SubnetID status =s? "") then mret None
  else
    try! subnets := lift (ListSubnets c (CStatus_NetworkID status))
    catch err => mret (Some (Errorf "listing subnets: " err)) in
    match subnets with
    | subnet :: _ =>
        do! setStatus (fun s => s {{ CStatus_SubnetID := Subnet_ID subnet }}) in
        mret None
    | [] =>
        if NetConfig_SubnetCIDR netConfig =s? "" then mret None
        else
          let '(start, end_) := subnetRange (NetConfig_SubnetCIDR netConfig) in
          try! subnet := lift (CreateSubnet c (CStatus_NetworkID status) {|
              CreateSubnetOpts_Network := NetConfig_SubnetCIDR netConfig;
              CreateSubnetOpts_Start := start;
              CreateSubnetOpts_End := end_;
              CreateSubnetOpts_Region := region;
              CreateSubnetOpts_DHCP := true;
              CreateSubnetOpts_NoGateway := false |})
          catch err => mret (Some (Errorf "creating subnet: " err)) in
          do! setStatus (fun s => s {{ CStatus_SubnetID := Subnet_ID subnet }}) in
          mret None
    end.

Definition reconcileNetwork (scope : ClusterScope) : CM (option goerror) :=
  let c := CScope_OVHClient scope in
  let! spec := getSpec in
  match CSpec_NetworkConfig spec with
  | None => do! networkReady in mret None
  | Some netConfig =>
      let region := CSpec_Region spec in
      check! ensureNetwork scope netConfig region catch err => mret (Some err) in
      (* 2. Verify that the network is ACTIVE in the region. *)
      let! status := getStatus in
      try! net := lift (GetPrivateNetwork c (CStatus_NetworkID status))
      catch err =>
        (if IsNotFound (Some err) then
          do! setStatus (fun s => s {{ CStatus_NetworkID := ""; CStatus_SubnetID := "" }}) in
          let! status := getStatus in
          mret (Some (NewError ("network " +:+ CStatus_NetworkID status +:+
                                " vanished, will recreate")))
        else mret (Some (Errorf ("getting network " +:+ CStatus_NetworkID status +:+ ": ") err)))
      in
      let rs := regionStatus net region in
      if negb (rs =s? "ACTIVE") then
        do! setCondition NetworkReadyCondition ConditionFalse NetworkCreationFailedReason
              ("Network " +:+ PrivateNetwork_ID net +:+ " status in " +:+ region +:+ " is " +:+
               fmt_q rs +:+ ", waiting for ACTIVE") in
        mret (Some errNetworkNotReady)
      else
        check! ensureSubnet scope netConfig region catch err => mret (Some err) in
        do! networkReady in
        mret None
  end.
End controller.
