(* ===== verification/ClusterLB.v ===== *)
(** * ClusterLB: the load balancer part of ovhcluster_controller.go

    From [reconcileLoadBalancer] to [ensurePoolHealthMonitor].  A long method is
    cut into the steps its comments announce; a step that may [return] from the
    method answers [Some] of the returned value. *)
From S2P Require Import Prelude.
From S2P Require Import GoStrings.
From S2P Require Import GoErrors.
From S2P Require Import OvhTypes.
From S2P Require Import K8sTypes.
From S2P Require Import ApiV1alpha2.
From S2P Require Import Effects.
From S2P Require Import OvhClient.
From S2P Require Import Naming.
From S2P Require Import Metrics.
From S2P Require Import CapiLib.
From S2P Require Import ClusterController.
#[local] Open Scope Z_scope.
#[local] Open Scope go_scope.

(** A step that may return early, then the rest. *)
Definition orElse {S A} (step : M S (option A)) (rest : M S A) : M S A :=
  let! r := step in
  match r with
  | Some a => mret a
  | None => rest
  end.

(** A [*string] to a field of the status. *)
Record StatusPtr := {
  load : OVHClusterStatus -> string;
  store : string -> OVHClusterStatus -> OVHClusterStatus;
}.

Definition ListenerIDPtr : StatusPtr :=
  {| load := CStatus_ListenerID; store v s := s {{ CStatus_ListenerID := v }} |}.
Definition PoolIDPtr : StatusPtr :=
  {| load := CStatus_PoolID; store v s := s {{ CStatus_PoolID := v }} |}.
Definition RegisterListenerIDPtr : StatusPtr :=
  {| load := CStatus_RegisterListenerID; store v s := s {{ CStatus_RegisterListenerID := v }} |}.
Definition RegisterPoolIDPtr : StatusPtr :=
  {| load := CStatus_RegisterPoolID; store v s := s {{ CStatus_RegisterPoolID := v }} |}.

(** [fips[i].AssociatedEntity != nil && fips[i].AssociatedEntity.ID == lbID]. *)
Definition associatedTo (lbID : string) (fip : FloatingIP) : bool :=
  match FloatingIP_AssociatedEntity fip with
  | Some a => FloatingIPAssociation_ID a =s? lbID
  | None => false
  end.

Definition gatewayName (scope : ClusterScope) : string := "capi-" +:+ clusterName scope +:+ "-gw".
Definition loadBalancerName (scope : ClusterScope) : string :=
  GenerateRFC1035Name ["capi"; clusterName scope; "lb"].

(** ** Listeners, pools and health monitors *)

Definition ensurePoolHealthMonitor (scope : ClusterScope) (poolID poolName : string)
  : prog (option goerror) :=
  let c := CScope_OVHClient scope in
  let hmName := poolName +:+ "-hm" in
  let* r := FindHealthMonitorByName c hmName in
  match r with
  | Err err => Ret (Some (Errorf ("looking up health monitor " +:+ fmt_q hmName +:+ ": ") err))
  | Ok (Some _) => Ret None
  | Ok None =>
      let* r := CreateHealthMonitor c {|
          CreateHealthMonitorOpts_Name := hmName;
          CreateHealthMonitorOpts_MonitorType := hmType;
          CreateHealthMonitorOpts_Delay := hmDelay;
          CreateHealthMonitorOpts_Timeout := hmTimeout;
          CreateHealthMonitorOpts_MaxRetries := hmMaxRetries;
          CreateHealthMonitorOpts_PoolID := poolID |} in
      Ret (match r with
           | Ok _ => None
           | Err err => Some (Errorf ("creating health monitor " +:+ fmt_q hmName +:+ ": ") err)
           end)
  end.

(** The listener half of [reconcileLBPort]. *)
Definition ensureListener (scope : ClusterScope) (lbID listenerName : string) (port : Z)
  (listenerIDPtr : StatusPtr) : CM (option goerror) :=
  let c := CScope_OVHClient scope in
  let! status := getStatus in
  if negb (load listenerIDPtr status =s? "") then mret None
  else
    try! existing := lift (FindListenerByName c lbID listenerName)
    catch err => mret (Some (Errorf ("looking up " +:+ listenerName +:+ " listener: ") err)) in
    match existing with
    | Some l =>
        do! setStatus (store listenerIDPtr (Listener_ID l)) in
        mret None
    | None =>
        try! listener := lift (CreateListener c {|
            CreateListenerOpts_Name := listenerName;
            CreateListenerOpts_Protocol := apiServerProtocol;
            CreateListenerOpts_Port := port;
            CreateListenerOpts_LoadBalancerID := lbID;
            CreateListenerOpts_DefaultPoolID := "" |})
        catch err => mret (Some (Errorf ("creating " +:+ listenerName +:+ " listener: ") err)) in
        do! setStatus (store listenerIDPtr (Listener_ID listener)) in
        mret None
    end.

(** The pool half of [reconcileLBPort]. *)
Definition ensurePool (scope : ClusterScope) (lbID poolName : string)
  (listenerIDPtr poolIDPtr : StatusPtr) : CM (option goerror) :=
  let c := CScope_OVHClient scope in
  let! status := getStatus in
  if negb (load poolIDPtr status =s? "") then mret None
  else
    try! existing := lift (FindPoolByName c lbID poolName)
    catch err => mret (Some (Errorf ("looking up " +:+ poolName +:+ " pool: ") err)) in
    match existing with
    | Some p =>
        do! setStatus (store poolIDPtr (Pool_ID p)) in
        mret None
    | None =>
        try! pool := lift (CreatePool c {|
            CreatePoolOpts_Name := poolName;
            CreatePoolOpts_Protocol := apiServerProtocol;
            CreatePoolOpts_Algorithm := lbAlgorithm;
            CreatePoolOpts_ListenerID := load listenerIDPtr status;
            CreatePoolOpts_LoadBalancerID := lbID |})
        catch err => mret (Some (Errorf ("creating " +:+ poolName +:+ " pool: ") err)) in
        do! setStatus (store poolIDPtr (Pool_ID pool)) in
        mret None
    end.

Definition reconcileLBPort (scope : ClusterScope) (listenerName : string) (port : Z)
  (listenerIDPtr poolIDPtr : StatusPtr) : CM (option goerror) :=
  let! status := getStatus in
  let lbID := CStatus_LoadBalancerID status in
  check! ensureListener scope lbID listenerName port listenerIDPtr catch err => mret (Some err) in
  let poolName := listenerName +:+ "-pool" in
  check! ensurePool scope lbID poolName listenerIDPtr poolIDPtr catch err => mret (Some err) in
  let! status := getStatus in
  do! lift (ensurePoolHealthMonitor scope (load poolIDPtr status) poolName) in
  mret None.

(** ** Gateway and floating IP *)

(** Record the gateway of the cluster's name; [Some] is the returned error. *)
Definition discoverGateway (scope : ClusterScope) : CM (option goerror) :=
  let! status := getStatus in
  if negb (CStatus_GatewayID status =s? "") then mret None
  else
    try! gws := lift (ListGateways (CScope_OVHClient scope))
    catch err => mret (Some (Errorf "listing gateways: " err)) in
    do! match find_first (fun g => Gateway_Name g =s? gatewayName scope) gws with
        | Some g => setStatus (fun s => s {{ CStatus_GatewayID := Gateway_ID g }})
        | None => mret tt
        end in
    let! status := getStatus in
    if CStatus_GatewayID status =s? "" then
      mret (Some (NewError ("no gateway named " +:+ gatewayName scope +:+ " found in region")))
    else mret None.

Definition ensureGatewayExposed (scope : ClusterScope) : CM (option goerror) :=
  let! status := getStatus in
  if CStatus_GatewayExposed status then mret None
  else
    check! discoverGateway scope catch err => mret (Some err) in
    let! status := getStatus in
    check! lift (ExposeGateway (CScope_OVHClient scope) (CStatus_GatewayID status))
    catch err => mret (Some (Errorf "exposing gateway: " err)) in
    do! setStatus (fun s => s {{ CStatus_GatewayExposed := true }}) in
    mret None.

Definition setFloatingIPID (id : string) : CM unit :=
  setStatus (fun s => s {{ CStatus_FloatingIPID := id }}).

(** The load balancer already has a floating IP. *)
Definition fipOfLB (scope : ClusterScope) (lb : LoadBalancer) : CM (option (gores string)) :=
  match LoadBalancer_FloatingIP lb with
  | Some ref =>
      if FloatingIPRef_IP ref =s? "" then mret None
      else
        do! setFloatingIPID (FloatingIPRef_ID ref) in
        do! ensureGatewayExposed scope in
        mret (Some (Ok (FloatingIPRef_IP ref)))
  | None => mret None
  end.

(** A floating IP is recorded in the status. *)
Definition fipOfStatus (scope : ClusterScope) : CM (option (gores string)) :=
  let! status := getStatus in
  if CStatus_FloatingIPID status =s? "" then mret None
  else
    do! ensureGatewayExposed scope in
    let! status := getStatus in
    let! r := lift (GetFloatingIP (CScope_OVHClient scope) (CStatus_FloatingIPID status)) in
    match r with
    | Ok fip =>
        if FloatingIP_IP fip =s? "" then mret (Some (Ok ""))
        else mret (Some (Ok (FloatingIP_IP fip)))
    | Err gerr =>
        if IsNotFound (Some gerr) then
          do! setFloatingIPID "" in
          mret None
        else mret (Some (Ok ""))
    end.

(** Discover a floating IP associated with the load balancer. *)
Definition fipOfList (scope : ClusterScope) (lb : LoadBalancer) : CM (option (gores string)) :=
  let! r := lift (ListFloatingIPs (CScope_OVHClient scope)) in
  match r with
  | Err _ => mret None
  | Ok fips =>
      match find_first (associatedTo (LoadBalancer_ID lb)) fips with
      | None => mret None
      | Some fip =>
          do! setFloatingIPID (FloatingIP_ID fip) in
          if FloatingIP_IP fip =s? "" then mret (Some (Ok ""))
          else
            do! ensureGatewayExposed scope in
            mret (Some (Ok (FloatingIP_IP fip)))
      end
  end.

(** After the allocation: the real floating IP, from the load balancer or,
    failing that, from the list. *)
Definition refreshedFip (scope : ClusterScope) (lb : LoadBalancer) : CM (gores string) :=
  let c := CScope_OVHClient scope in
  let! r := lift (GetLoadBalancer c (LoadBalancer_ID lb)) in
  let ref := match r with
             | Ok refreshedLB =>
                 match LoadBalancer_FloatingIP refreshedLB with
                 | Some ref => if FloatingIPRef_ID ref =s? "" then None else Some ref
                 | None => None
                 end
             | Err _ => None
             end in
  match ref with
  | Some ref =>
      do! setFloatingIPID (FloatingIPRef_ID ref) in
      mret (Ok (FloatingIPRef_IP ref))
  | None =>
      let! r := lift (ListFloatingIPs c) in
      match r with
      | Err _ => mret (Ok "")
      | Ok fips =>
          match find_first (associatedTo (LoadBalancer_ID lb)) fips with
          | None => mret (Ok "")
          | Some fip =>
              do! setFloatingIPID (FloatingIP_ID fip) in
              mret (Ok (FloatingIP_IP fip))
          end
      end
  end.

(** Allocate and attach one. *)
Definition allocateFip (scope : ClusterScope) (lb : LoadBalancer) : CM (gores string) :=
  if LoadBalancer_VIPAddress lb =s? "" then mret (Ok "")
  else
    try! _fip := lift (CreateLoadBalancerFloatingIP (CScope_OVHClient scope)
                        (LoadBalancer_ID lb) (LoadBalancer_VIPAddress lb) (gatewayName scope))
    catch err => mret (Err (Errorf "allocating floating IP for LB: " err)) in
    do! ensureGatewayExposed scope in
    refreshedFip scope lb.

Definition reconcileFloatingIP (scope : ClusterScope) (lb : LoadBalancer) : CM (gores string) :=
  orElse (fipOfLB scope lb) (orElse (fipOfStatus scope) (orElse (fipOfList scope lb)
    (allocateFip scope lb))).

Section controller.
Context `{CapiLib}.

(** ** The load balancer *)

(** Set the control plane endpoint unless one is set. *)
Definition setEndpoint (endpointHost : string) : CM unit :=
  modify (fun o =>
    if negb (endpointHost =s? "") && (Host (CSpec_ControlPlaneEndpoint (OVHCluster_Spec o)) =s? "")
    then o {{ OVHCluster_Spec ::= fun sp => sp {{ CSpec_ControlPlaneEndpoint :=
           {| Host := endpointHost; Port := apiServerLBPort |} }} }}
    else o).

(** The end of [handleExistingLB], once the endpoint is known. *)
Definition lbReady (endpointHost : string) : CM outcome :=
  do! setEndpoint endpointHost in
  do! setCondition LoadBalancerReadyCondition ConditionTrue LoadBalancerReadyCondition "" in
  mret (noRequeue, None).

Definition handleExistingLB (scope : ClusterScope) (lb : LoadBalancer) : CM outcome :=
  if negb (LoadBalancer_ProvisioningStatus lb =s? LBProvisioningStatusActive) then
    do! setCondition LoadBalancerReadyCondition ConditionFalse LoadBalancerNotReadyReason
          ("Load balancer provisioning: " +:+ LoadBalancer_ProvisioningStatus lb) in
    mret (requeue requeueTimeShort, None)
  else
    check! reconcileLBPort scope apiServerListenerName apiServerLBPort ListenerIDPtr PoolIDPtr
    catch err => mret (noRequeue, Some err) in
    check! reconcileLBPort scope rke2RegisterListenerName rke2RegisterLBPort
             RegisterListenerIDPtr RegisterPoolIDPtr
    catch err => mret (noRequeue, Some err) in
    let! spec := getSpec in
    if LBConfig_FloatingNetworkID (CSpec_LoadBalancerConfig spec) =s? "" then
      lbReady (LoadBalancer_VIPAddress lb)
    else
      try! fipIP := reconcileFloatingIP scope lb
      catch err => mret (requeue requeueTimeShort, Some err) in
      if fipIP =s? "" then mret (requeue requeueTimeShort, None)
      else lbReady fipIP.

(** The two adoptions at the beginning of [reconcileLoadBalancer]. *)
Definition adoptExisting : CM unit :=
  modify (fun o =>
    let cfg := CSpec_LoadBalancerConfig (OVHCluster_Spec o) in
    let o := if negb (LBConfig_ExistingLoadBalancerID cfg =s? "") &&
                (CStatus_LoadBalancerID (OVHCluster_Status o) =s? "")
             then o {{ OVHCluster_Status ::= fun s =>
                    s {{ CStatus_LoadBalancerID := LBConfig_ExistingLoadBalancerID cfg }} }}
             else o in
    if negb (LBConfig_ExistingFloatingIPID cfg =s? "") &&
       (CStatus_FloatingIPID (OVHCluster_Status o) =s? "")
    then o {{ OVHCluster_Status ::= fun s =>
           s {{ CStatus_FloatingIPID := LBConfig_ExistingFloatingIPID cfg }} }}
    else o).

Definition lbFlavorName (spec : OVHClusterSpec) : string :=
  let name := LBConfig_FlavorName (CSpec_LoadBalancerConfig spec) in
  if name =s? "" then "small" else name.

(** The subnet of the load balancer: the configured one, else the cluster's. *)
Definition lbSubnetID (spec : OVHClusterSpec) (status : OVHClusterStatus) : string :=
  let id := LBConfig_SubnetID (CSpec_LoadBalancerConfig spec) in
  if id =s? "" then CStatus_SubnetID status else id.

(** Create the load balancer on the OpenStack network [osNetID]. *)
Definition createLB (scope : ClusterScope) (flavorID osNetID subnetID : string) : CM outcome :=
  let opts := {|
    CreateLoadBalancerOpts_Name := loadBalancerName scope;
    CreateLoadBalancerOpts_FlavorID := flavorID;
    CreateLoadBalancerOpts_Network := {| LBNetworkConfig_Private := {|
      LBPrivateNetwork_Network := {| LBNetworkRef_ID := osNetID;
                                     LBNetworkRef_SubnetID := subnetID |} |} |} |} in
  let! lbStart := mcall Now in
  let! r := lift (CreateLoadBalancer (CScope_OVHClient scope) opts) in
  let! now := mcall Now in
  do! mcall (MetricObserve LBPollDuration [] (now - lbStart)) in
  match r with
  | Err err =>
      do! setCondition LoadBalancerReadyCondition ConditionFalse LoadBalancerCreationFailedReason
            ("Failed to create load balancer: " +:+ Error err) in
      mret (noRequeue, Some (Errorf "creating load balancer: " err))
  | Ok lb =>
      do! setStatus (fun s => s {{ CStatus_LoadBalancerID := LoadBalancer_ID lb }}) in
      mret (requeue requeueTimeShort, None)
  end.

(** The part of [reconcileLoadBalancer] that creates a load balancer. *)
Definition createNewLB (scope : ClusterScope) : CM outcome :=
  let c := CScope_OVHClient scope in
  let! spec := getSpec in
  let! status := getStatus in
  let flavorName := lbFlavorName spec in
  try! lbFlavor := lift (GetLBFlavorByName c flavorName)
  catch err =>
    do! setCondition LoadBalancerReadyCondition ConditionFalse LoadBalancerCreationFailedReason
          ("LB flavor " +:+ fmt_q flavorName +:+ " not found: " +:+ Error err) in
    mret (noRequeue, Some (Errorf ("resolving LB flavor " +:+ fmt_q flavorName +:+ ": ") err)) in
  let subnetID := lbSubnetID spec status in
  let networkID := CStatus_NetworkID status in
  if (subnetID =s? "") || (networkID =s? "") then
    mret (requeue requeueTimeShort,
          Some (NewError ("LB requires both networkID and subnetID, got network=" +:+
                          fmt_q networkID +:+ " subnet=" +:+ fmt_q subnetID)))
  else
    try! net := lift (GetPrivateNetwork c networkID)
    catch err => mret (noRequeue, Some (Errorf "resolving network for LB: " err)) in
    let osNetID := OpenStackIDForRegion net (CSpec_Region spec) in
    if osNetID =s? "" then
      mret (noRequeue,
            Some (NewError ("no OpenStack ID for network " +:+ networkID +:+ " in region " +:+
                            CSpec_Region spec)))
    else createLB scope (LBFlavor_ID lbFlavor) osNetID subnetID.

(** A recorded load balancer that OVH does not know any more. *)
Definition forgetLB : CM unit :=
  setStatus (fun s => s {{ CStatus_LoadBalancerID := ""; CStatus_ListenerID := "";
                           CStatus_PoolID := "" }}).

Definition reconcileLoadBalancer (scope : ClusterScope) : CM outcome :=
  do! adoptExisting in
  let! status := getStatus in
  let lbID := CStatus_LoadBalancerID status in
  if lbID =s? "" then createNewLB scope
  else
    try! lb := lift (GetLoadBalancer (CScope_OVHClient scope) lbID)
    catch err =>
      (if IsNotFound (Some err) then
        do! forgetLB in
        createNewLB scope
       else mret (noRequeue, Some (Errorf ("getting LB " +:+ lbID +:+ ": ") err))) in
    handleExistingLB scope lb.
End controller.
