(* ===== verification/ClusterReconcile.v ===== *)
(** * ClusterReconcile: Reconcile, ReconcileNormal and ReconcileDelete of
    ovhcluster_controller.go

    The deferred closures of the source are the continuation of the body they
    are deferred from. *)
From S2P Require Import Prelude.
From S2P Require Import GoStrings.
From S2P Require Import GoErrors.
From S2P Require Import OvhTypes.
From S2P Require Import K8sTypes.
From S2P Require Import ApiV1alpha2.
From S2P Require Import Effects.
From S2P Require Import OvhClient.
From S2P Require Import Naming.
From S2P Require Import Metrics.
From S2P Require Import CapiLib.
From S2P Require Import ClusterController.
From S2P Require Import ClusterLB.
#[local] Open Scope Z_scope.
#[local] Open Scope go_scope.

Definition adoptionPolicyAnnotation : string := "capiovh.cluster.x-k8s.io/adoption-policy".

(** ** Deletion: the steps of ReconcileDelete *)

Definition deleteDNS (scope : ClusterScope) : CM unit :=
  let c := CScope_OVHClient scope in
  let! spec := getSpec in
  let! status := getStatus in
  match CSpec_DNSConfig spec with
  | None => mret tt
  | Some dns =>
      if CStatus_DNSRecordID status =? 0 then mret tt
      else
        check! lift (DeleteDNSRecord c (DNSConfig_ZoneName dns) (CStatus_DNSRecordID status))
        catch err => mret tt in
        do! lift (RefreshDNSZone c (DNSConfig_ZoneName dns)) in
        setStatus (fun s => s {{ CStatus_DNSRecordID := 0 }})
  end.

Definition deleteSecurityGroups (scope : ClusterScope) : CM unit :=
  let! status := getStatus in
  let! entries := range_map (CStatus_SecurityGroupIDs status) in
  for_each entries (fun '(name, id) =>
    check! lift (DeleteSecurityGroup (CScope_OVHClient scope) id) catch err => mret tt in
    setStatus (fun s => s {{ CStatus_SecurityGroupIDs ::= fun m => delete name m }})).

(** [if !slices.Contains(l, id) { l = append(l, id) }] for each identifier. *)
Fixpoint appendNew (l ids : list string) : list string :=
  match ids with
  | [] => l
  | id :: ids => appendNew (if bool_decide (id ∈ l) then l else l ++ [id]) ids
  end.

(** The list holding the recorded floating IP, if there is one. *)
Definition recordedFip (status : OVHClusterStatus) : list string :=
  if CStatus_FloatingIPID status =s? "" then [] else [CStatus_FloatingIPID status].

(** The floating IPs of the load balancer, captured before it is deleted. *)
Definition captureFips (scope : ClusterScope) : CM (list string) :=
  let! status := getStatus in
  let recorded := recordedFip status in
  let lbID := CStatus_LoadBalancerID status in
  if lbID =s? "" then mret recorded
  else
    try! fips := lift (ListFloatingIPs (CScope_OVHClient scope)) catch err => mret recorded in
    mret (appendNew recorded (map FloatingIP_ID (List.filter (associatedTo lbID) fips))).

(** Delete the pool, the listener and the load balancer; [Some] is the error
    the method returns. *)
Definition deleteLB (scope : ClusterScope) : CM (option goerror) :=
  let c := CScope_OVHClient scope in
  let! status := getStatus in
  if CStatus_LoadBalancerID status =s? "" then mret None
  else
    do! (if CStatus_PoolID status =s? "" then mret None
         else lift (DeletePool c (CStatus_PoolID status))) in
    do! (if CStatus_ListenerID status =s? "" then mret None
         else lift (DeleteListener c (CStatus_ListenerID status))) in
    check! lift (DeleteLoadBalancer c (CStatus_LoadBalancerID status))
    catch err => mret (Some (Errorf "deleting LB: " err)) in
    mret None.

Definition deleteOrphanLBs (scope : ClusterScope) : CM unit :=
  let c := CScope_OVHClient scope in
  try! orphans := lift (ListLoadBalancersByPrefix c (loadBalancerName scope))
  catch err => mret tt in
  for_each orphans (fun orphan =>
    do! lift (DeleteLoadBalancer c (LoadBalancer_ID orphan)) in mret tt).

(** The floating IP is detached and down: OVH removes it later. *)
Definition fipReaped (fip : FloatingIP) : bool :=
  match FloatingIP_AssociatedEntity fip with
  | None => FloatingIP_Status fip =s? "down"
  | Some _ => false
  end.

(** One iteration of [cleanupFloatingIPs]: whether the floating IP remains. *)
Definition cleanupFloatingIP (c : Client) (fipID : string) : prog bool :=
  let* _ := DeleteFloatingIP c fipID in
  let* r := GetFloatingIP c fipID in
  Ret (match r with
       | Err _ => false
       | Ok fip => negb (fipReaped fip)
       end).

Definition cleanupFloatingIPs (scope : ClusterScope) (fipsToDelete : list string) : prog bool :=
  for_fold fipsToDelete (fun fipID requeue =>
    let* present := cleanupFloatingIP (CScope_OVHClient scope) fipID in
    Ret (if present then true else requeue)) false.

Definition deleteGateway (scope : ClusterScope) : CM unit :=
  let c := CScope_OVHClient scope in
  try! gws := lift (ListGateways c) catch err => mret tt in
  match find_first (fun g => Gateway_Name g =s? gatewayName scope) gws with
  | None => mret tt
  | Some g => do! lift (DeleteGateway c (Gateway_ID g)) in mret tt
  end.

Section controller.
Context `{CapiLib}.

Definition removeClusterFinalizer : CM unit :=
  modify (fun o => o {{ OVHCluster_ObjectMeta ::= fun m => RemoveFinalizer m ClusterFinalizer }}).

(** The network, only if created by the controller: [Some] is what the method
    returns. *)
Definition deleteNetwork (scope : ClusterScope) : CM (option outcome) :=
  let! status := getStatus in
  if conditions_IsTrue (CStatus_Conditions status) NetworkCreatedByControllerCondition &&
     negb (CStatus_NetworkID status =s? "")
  then
    check! lift (DeletePrivateNetwork (CScope_OVHClient scope) (CStatus_NetworkID status))
    catch err => mret (Some (requeue requeueTimeShort, None)) in
    mret None
  else mret None.

(** The body of [ReconcileDelete] after the adoption policy. *)
Definition deleteResources (scope : ClusterScope) : CM outcome :=
  do! deleteDNS scope in
  do! deleteSecurityGroups scope in
  let! fipsToDelete := captureFips scope in
  check! deleteLB scope catch err => mret (noRequeue, Some err) in
  do! deleteOrphanLBs scope in
  let! present := lift (cleanupFloatingIPs scope fipsToDelete) in
  if present : bool then mret (requeue requeueTimeShort, None)
  else
    do! deleteGateway scope in
    orElse (deleteNetwork scope)
      (do! removeClusterFinalizer in
       mret (noRequeue, None)).

Definition keepPolicy (o : OVHCluster) : bool :=
  default "" (Annotations (OVHCluster_ObjectMeta o) !! adoptionPolicyAnnotation) =s? "keep".

(** [defer] the observation of the duration since [start]. *)
Definition observeDuration (name label : string) (start : Z) : CM unit :=
  let! now := mcall Now in
  mcall (MetricObserve name [label] (now - start)).

Definition ReconcileDelete (scope : ClusterScope) : CM outcome :=
  let! start := mcall Now in
  let! o := get in
  let! r := (if keepPolicy o
             then do! removeClusterFinalizer in mret (noRequeue, None)
             else deleteResources scope) in
  do! observeDuration ClusterReconcileDuration "delete" start in
  mret r.

(** ** Normal reconciliation *)

Definition markReady : CM unit :=
  do! setStatus (fun s => s {{ CStatus_Ready := true;
                               CStatus_Initialization := {| Provisioned := Some true |} }}) in
  setCondition InfrastructureReadyCondition ConditionTrue InfrastructureReadyCondition "".

(** Steps 1 to 6. *)
Definition reconcileInfrastructure (scope : ClusterScope) : CM outcome :=
  check! reconcileCredentials scope catch err => mret (requeue requeueTimeShort, Some err) in
  check! reconcileNetwork scope
  catch err =>
    (if IsNetworkNotReady err then mret (requeue requeueTimeShort, None)
     else mret (requeue requeueTimeShort, Some err)) in
  do! reconcileFailureDomains scope in
  do! reconcileSecurityGroups scope in
  let! r := reconcileLoadBalancer scope in
  let '(result, err) := r : outcome in
  match err with
  | Some _ => mret (result, err)
  | None =>
      if 0 <? RequeueAfter result then mret (result, err)
      else
        do! reconcileDNS scope in
        do! markReady in
        mret (requeue requeueTimeLong, None)
  end.

Definition normalBody (scope : ClusterScope) : CM outcome :=
  let! o := get in
  let meta := OVHCluster_ObjectMeta o in
  if negb (ContainsFinalizer meta ClusterFinalizer) &&
     bool_decide (DeletionTimestamp meta = None) then
    do! modify (fun o =>
          o {{ OVHCluster_ObjectMeta ::= fun m => AddFinalizer m ClusterFinalizer }}) in
    mret (noRequeue, None)
  else reconcileInfrastructure scope.

Definition observeReady : CM unit :=
  let! o := get in
  let meta := OVHCluster_ObjectMeta o in
  mcall (MetricSet ClusterReady [Namespace meta +:+ "/" +:+ Name meta]
           (if CStatus_Ready (OVHCluster_Status o) then 1 else 0)).

Definition ReconcileNormal (scope : ClusterScope) : CM outcome :=
  let! start := mcall Now in
  let! r := normalBody scope in
  do! observeDuration ClusterReconcileDuration "normal" start in
  do! observeReady in
  mret r.

(** ** Reconcile *)

(** The body of [Reconcile] between the patch helper and the deferred patch. *)
Definition reconcileOwned : CM outcome :=
  let! o := get in
  let! owner := mcall (GetOwnerCluster (OVHCluster_ObjectMeta o)) in
  match owner with
  | Err err => mret (noRequeue, Some err)
  | Ok None => mret (requeue requeueTimeShort, None)
  | Ok (Some ownerCluster) =>
      try! c := lift (GetOVHClientFromCluster o)
      catch err =>
        do! setCondition OVHConnectionReadyCondition ConditionFalse OVHConnectionFailedReason
              ("Failed to create OVH client: " +:+ Error err) in
        mret (requeue requeueTimeShort, None) in
      let scope := {| CScope_Cluster := ownerCluster; CScope_OVHClient := c |} in
      if bool_decide (DeletionTimestamp (OVHCluster_ObjectMeta o) = None)
      then ReconcileNormal scope
      else ReconcileDelete scope
  end.

Definition Reconcile (ns name : string) : prog outcome :=
  let* r := call (GetOVHCluster ns name) in
  match r with
  | Err err =>
      if apierrors_IsNotFound err then Ret (noRequeue, None) else Ret (noRequeue, Some err)
  | Ok ovhCluster =>
      let* err := call (NewPatchHelper (OVHCluster_ObjectMeta ovhCluster)) in
      match err with
      | Some err => Ret (noRequeue, Some err)
      | None =>
          let* (res, rerr, o') := reconcileOwned ovhCluster in
          let* patchErr := call (PatchOVHCluster o') in
          Ret (match patchErr, rerr with
               | Some e, None => (res, Some e)
               | _, _ => (res, rerr)
               end)
      end
  end.
End controller.
