(* ===== verification/WorkloadNode.v ===== *)
(** * WorkloadNode: util/node_init.go and util/etcd.go

    The best-effort operations on the workload cluster: initialising the node
    of an instance, and removing the etcd member of a deleted node.  A [return]
    of the source ends the program; the deferred metric is the continuation. *)
From S2P Require Import Prelude.
From S2P Require Import GoStrings.
From S2P Require Import GoErrors.
From S2P Require Import K8sTypes.
From S2P Require Import Effects.
From S2P Require Import Metrics.
#[local] Open Scope Z_scope.
#[local] Open Scope go_scope.

(** ** util/node_init.go *)

Definition uninitializedTaintKey : string := "node.cloudprovider.kubernetes.io/uninitialized".

Definition hasUninitializedTaint (node : Node) : bool :=
  existsb (fun taint => Taint_Key taint =s? uninitializedTaintKey) (Node_Taints node).

Definition removeTaint (taints : list Taint) : list Taint :=
  List.filter (fun t => negb (Taint_Key t =s? uninitializedTaintKey)) taints.

(** A JSON object with one key. *)
Definition json_field (key value : string) : string :=
  "{" +:+ dquote +:+ key +:+ dquote +:+ ":" +:+ value +:+ "}".

Definition providerIDPatch (providerID : string) : string :=
  json_field "spec" (json_field "providerID" (fmt_q providerID)).
Definition taintsPatch (taintsJSON : string) : string :=
  json_field "spec" (json_field "taints" taintsJSON).

(** The second half of [InitializeWorkloadNode]: the taint. *)
Definition removeUninitializedTaint (nodeName : string) : prog unit :=
  let* r := call (NodesGet nodeName) in
  match r with
  | Err _ => Ret tt
  | Ok node =>
      let newTaints := removeTaint (Node_Taints node) in
      if (length newTaints =? length (Node_Taints node))%nat then Ret tt
      else
        let* r := call (MarshalTaints newTaints) in
        match r with
        | Err _ => Ret tt
        | Ok taintsJSON =>
            let* _ := call (NodesPatch nodeName (taintsPatch taintsJSON)) in
            Ret tt
        end
  end.

Definition initializeNode (workloadConfig : RestConfig) (nodeName providerID : string)
  : prog unit :=
  let* err := call (NewForConfig workloadConfig) in
  match err with
  | Some _ => Ret tt
  | None =>
      let* r := call (NodesGet nodeName) in
      match r with
      | Err _ => Ret tt
      | Ok node =>
          let needsTaintRemoval := hasUninitializedTaint node in
          if Node_ProviderID node =s? "" then
            let* err := call (NodesPatch nodeName (providerIDPatch providerID)) in
            match err with
            | Some _ => Ret tt
            | None => if needsTaintRemoval then removeUninitializedTaint nodeName else Ret tt
            end
          else if needsTaintRemoval then removeUninitializedTaint nodeName
          else Ret tt
      end
  end.

Definition InitializeWorkloadNode (workloadConfig : RestConfig) (nodeName providerID : string)
  : prog unit :=
  if providerID =s? "" then Ret tt
  else
    let* start := call Now in
    let* _ := initializeNode workloadConfig nodeName providerID in
    let* now := call Now in
    call (MetricObserve NodeInitDuration [] (now - start)).

(** ** util/etcd.go *)

Definition etcdNamespace : string := "kube-system".
Definition etcdCACert : string := "/var/lib/rancher/rke2/server/tls/etcd/server-ca.crt".
Definition etcdClientCert : string := "/var/lib/rancher/rke2/server/tls/etcd/server-client.crt".
Definition etcdClientKey : string := "/var/lib/rancher/rke2/server/tls/etcd/server-client.key".
Definition etcdctlPath : string := "/usr/local/bin/etcdctl".
Definition etcdEndpoint : string := "https://127.0.0.1:2379".
Definition etcdContainerName : string := "etcd".

Definition isPodReady (pod : Pod) : bool :=
  if negb (Pod_Phase pod =s? PodRunning) then false
  else existsb (fun c => (PodCondition_Type c =s? PodReady) &&
                         (PodCondition_Status c =s? ConditionTrue)) (Pod_Conditions pod).

(** The loop over the candidate pods. *)
Definition pickEtcdPod (deletedNodeName : string) (pods : list Pod) : option Pod :=
  find_first (fun pod => negb (Pod_NodeName pod =s? deletedNodeName) && isPodReady pod) pods.

Definition healthyPod (deletedNodeName : string) (pods : list Pod) : gores Pod :=
  match pickEtcdPod deletedNodeName pods with
  | Some pod => Ok pod
  | None => Err (NewError ("no healthy etcd pod found (excluding node " +:+ deletedNodeName +:+ ")"))
  end.

Definition findHealthyEtcdPod (deletedNodeName : string) : prog (gores Pod) :=
  let* r := call (PodsList etcdNamespace "component=etcd,tier=control-plane") in
  match r with
  | Ok (pod :: pods) => Ret (healthyPod deletedNodeName (pod :: pods))
  | _ =>
      let* r := call (PodsList etcdNamespace "") in
      match r with
      | Err err2 => Ret (Err (Errorf ("failed to list pods in " +:+ etcdNamespace +:+ ": ") err2))
      | Ok allPods => Ret (healthyPod deletedNodeName
                             (List.filter (fun p => HasPrefix (Pod_Name' p) "etcd-") allPods))
      end
  end.

Definition execInPod (config : RestConfig) (ns podName containerName : string)
  (cmd : list string) : prog ExecOutput :=
  let x := {| PodExec_Namespace := ns; PodExec_Pod := podName;
              PodExec_Container := containerName; PodExec_Command := cmd |} in
  let* err := call (NewSPDYExecutor config x) in
  match err with
  | Some e => Ret {| Exec_stdout := ""; Exec_stderr := "";
                     Exec_err := Some (Errorf "failed to create SPDY executor: " e) |}
  | None => call (ExecStream config x)
  end.

Definition etcdctl (args : list string) : list string :=
  [etcdctlPath; "--cacert"; etcdCACert; "--cert"; etcdClientCert; "--key"; etcdClientKey;
   "--endpoints"; etcdEndpoint] ++ args.

Definition listEtcdMembers (config : RestConfig) (pod : Pod) : prog (gores (list EtcdMember)) :=
  let* out := execInPod config (Pod_Namespace pod) (Pod_Name' pod) etcdContainerName
                (etcdctl ["member"; "list"; "-w"; "json"]) in
  match Exec_err out with
  | Some e => Ret (Err (WrapError "etcdctl member list failed: " e
                          (" (stderr: " +:+ Exec_stderr out +:+ ")")))
  | None =>
      let* r := call (UnmarshalMembers (Exec_stdout out)) in
      Ret (match r with
           | Ok members => Ok members
           | Err e => Err (WrapError "failed to parse etcdctl member list output: " e
                             (" (raw: " +:+ Exec_stdout out +:+ ")"))
           end)
  end.

(** [strconv.FormatUint(memberID, 16)]. *)
Definition removeEtcdMemberByID (config : RestConfig) (pod : Pod) (memberID : N)
  : prog (option goerror) :=
  let hexID := FormatUint16 memberID in
  let* out := execInPod config (Pod_Namespace pod) (Pod_Name' pod) etcdContainerName
                (etcdctl ["member"; "remove"; hexID]) in
  Ret (match Exec_err out with
       | Some e => Some (WrapError ("etcdctl member remove " +:+ hexID +:+ " failed: ") e
                           (" (stderr: " +:+ Exec_stderr out +:+ ")"))
       | None => None
       end).

(** Whether a member is taken for the one of the deleted node. *)
Definition memberOfNode (deletedNodeName : string) (m : EtcdMember) : bool :=
  HasPrefix (EtcdMember_Name m) (deletedNodeName +:+ "-") ||
  (EtcdMember_Name m =s? deletedNodeName).

Definition removeMember (workloadConfig : RestConfig) (deletedNodeName : string) : prog unit :=
  let* err := call (NewForConfig workloadConfig) in
  match err with
  | Some _ => Ret tt
  | None =>
      let* r := findHealthyEtcdPod deletedNodeName in
      match r with
      | Err _ => Ret tt
      | Ok pod =>
          let* r := listEtcdMembers workloadConfig pod in
          match r with
          | Err _ => Ret tt
          | Ok members =>
              match find_first (memberOfNode deletedNodeName) members with
              | None => Ret tt
              | Some m =>
                  let* _ := removeEtcdMemberByID workloadConfig pod (EtcdMember_ID m) in
                  Ret tt
              end
          end
      end
  end.

Definition RemoveEtcdMember (workloadConfig : RestConfig) (deletedNodeName : string)
  : prog unit :=
  let* start := call Now in
  let* _ := removeMember workloadConfig deletedNodeName in
  let* now := call Now in
  call (MetricObserve EtcdMemberRemovalDuration [] (now - start)).
