(* ===== verification/MachineController.v ===== *)
(** * MachineController: internal/controller/ovhmachine_controller.go

    The reconciler of [OVHMachine].  A method taking the scope is a state passer
    over the [OVHMachine] the scope points to; the [Cluster], [Machine],
    [OVHCluster] and client of the scope, which the methods only read and which
    [Reconcile] always sets, are [MachineScope]. *)
From S2P Require Import Prelude.
From S2P Require Import GoStrings.
From S2P Require Import GoErrors.
From S2P Require Import OvhTypes.
From S2P Require Import K8sTypes.
From S2P Require Import ApiV1alpha2.
From S2P Require Import Effects.
From S2P Require Import OvhClient.
From S2P Require Import Naming.
From S2P Require Import Metrics.
From S2P Require Import CapiLib.
From S2P Require Import ClusterController.
From S2P Require Import ClusterLB.
From S2P Require Import ClusterReconcile.
From S2P Require Import WorkloadNode.
#[local] Open Scope Z_scope.
#[local] Open Scope go_scope.

Definition requeueDelay : Z := 10 * Second.
Definition requeueDelayLong : Z := 30 * Second.

Definition machineInitializationProvisioned : Initialization := {| Provisioned := Some true |}.
Definition machineInitializationNotProvisioned : Initialization := {| Provisioned := Some false |}.

Record MachineScope := {
  MScope_Cluster : Cluster;
  MScope_Machine : Machine;
  MScope_OVHCluster : OVHCluster;
  MScope_OVHClient : Client;
}.

Abbreviation MM := (M OVHMachine).

Definition getMSpec : MM OVHMachineSpec := fun o => Ret (OVHMachine_Spec o, o).
Definition getMStatus : MM OVHMachineStatus := fun o => Ret (OVHMachine_Status o, o).
Definition setMStatus (f : OVHMachineStatus -> OVHMachineStatus) : MM unit :=
  modify (fun o => o {{ OVHMachine_Status ::= f }}).

Definition region_of (scope : MachineScope) : string :=
  CSpec_Region (OVHCluster_Spec (MScope_OVHCluster scope)).

(** The name of the machine's OVH instance. *)
Definition instanceName (scope : MachineScope) (machine : OVHMachine) : string :=
  GenerateRFC1035Name [Name (Cluster_ObjectMeta (MScope_Cluster scope));
                       Name (OVHMachine_ObjectMeta machine)].

(** ** Load balancer pool members *)

(** The first private IPv4 address, or "". *)
Definition primaryPrivateIP (instance : Instance_) : string :=
  match find_first (fun ip => (IPAddress_Version ip =? 4) && (IPAddress_Type ip =s? "private"))
          (Instance_IPAddresses instance) with
  | Some ip => IPAddress_IP ip
  | None => ""
  end.

(** The member at [address:port]; a failed listing reads as no member. *)
Definition memberAt (r : gores (list Member)) (address : string) (port : Z) : option Member :=
  match r with
  | Ok members => find_first (fun m => (Member_Address m =s? address) &&
                                       (Member_ProtocolPort m =? port)) members
  | Err _ => None
  end.

Definition memberOpts (scope : MachineScope) (address : string) (port : Z) : CreateMemberOpts := {|
  CreateMemberOpts_Name := Name (Machine_ObjectMeta (MScope_Machine scope));
  CreateMemberOpts_Address := address;
  CreateMemberOpts_ProtocolPort := port;
  CreateMemberOpts_SubnetID := "";
  CreateMemberOpts_Weight := 1 |}.

Definition setRegisterPoolMemberID (id : string) : MM unit :=
  setMStatus (fun s => s {{ MStatus_RegisterPoolMemberID := id }}).
Definition setLBPoolMemberID (id : string) : MM unit :=
  setMStatus (fun s => s {{ MStatus_LBPoolMemberID := id }}).

Definition ensureRKE2RegisterPoolMember (scope : MachineScope) (privateIP : string) : MM unit :=
  let c := MScope_OVHClient scope in
  let lbID := CStatus_LoadBalancerID (OVHCluster_Status (MScope_OVHCluster scope)) in
  if lbID =s? "" then mret tt
  else
    try! pool := lift (FindPoolByName c lbID "rke2-register-pool") catch err => mret tt in
    match pool with
    | None => mret tt
    | Some pool =>
        let! members := lift (ListPoolMembers c (Pool_ID pool)) in
        match memberAt members privateIP 9345 with
        | Some m => setRegisterPoolMemberID (Member_ID m)
        | None =>
            try! regMember := lift (AddPoolMember c (Pool_ID pool) (memberOpts scope privateIP 9345))
            catch err => mret tt in
            setRegisterPoolMemberID (Member_ID regMember)
        end
    end.

(** Find or add the member of the API server pool; [Some] is the error. *)
Definition ensureApiMember (scope : MachineScope) (poolID privateIP : string)
  : MM (option goerror) :=
  let c := MScope_OVHClient scope in
  let! members := lift (ListPoolMembers c poolID) in
  match memberAt members privateIP 6443 with
  | Some m => do! setLBPoolMemberID (Member_ID m) in mret None
  | None =>
      try! member := lift (AddPoolMember c poolID (memberOpts scope privateIP 6443))
      catch err => mret (Some (Errorf "adding pool member: " err)) in
      do! setLBPoolMemberID (Member_ID member) in
      mret None
  end.

Definition removeLBPoolMember (scope : MachineScope) : MM unit :=
  let! status := getMStatus in
  let memberID := MStatus_LBPoolMemberID status in
  let poolID := CStatus_PoolID (OVHCluster_Status (MScope_OVHCluster scope)) in
  if memberID =s? "" then mret tt
  else if poolID =s? "" then mret tt
  else
    check! lift (RemovePoolMember (MScope_OVHClient scope) poolID memberID)
    catch err => mret tt in
    setLBPoolMemberID "".

(** ** Bootstrap data and workload kubeconfig *)

Definition getBootstrapData (scope : MachineScope) : prog (gores string) :=
  match Machine_BootstrapDataSecretName (MScope_Machine scope) with
  | None => Ret (Err (NewError "bootstrap data secret name is nil"))
  | Some secretName =>
      let ns := Namespace (Machine_ObjectMeta (MScope_Machine scope)) in
      let key := ns +:+ "/" +:+ secretName in
      let* r := call (GetSecret ns secretName) in
      Ret (match r with
           | Err e => Err (Errorf ("getting bootstrap secret " +:+ key +:+ ": ") e)
           | Ok secret =>
               match Secret_Data secret !! "value" with
               | None => Err (NewError ("bootstrap secret " +:+ key +:+ " missing 'value' key"))
               | Some data => Ok data
               end
           end)
  end.

Definition getWorkloadRESTConfig (scope : MachineScope) : prog (gores (option RestConfig)) :=
  let meta := Cluster_ObjectMeta (MScope_Cluster scope) in
  let* r := call (KubeconfigFromSecret (Namespace meta) (Name meta)) in
  match r with
  | Err e => Ret (if apierrors_IsNotFound e then Ok None
                  else Err (Errorf "reading kubeconfig secret: " e))
  | Ok data =>
      let* r := call (RESTConfigFromKubeConfig data) in
      Ret (match r with
           | Err e => Err (Errorf "parsing kubeconfig: " e)
           | Ok cfg => Ok (Some cfg)
           end)
  end.

Section controller.
Context `{CapiLib}.

Definition ensureLBPoolMember (scope : MachineScope) (instance : Instance_)
  : MM (option goerror) :=
  if negb (IsControlPlaneMachine (MScope_Machine scope)) then mret None
  else
    let poolID := CStatus_PoolID (OVHCluster_Status (MScope_OVHCluster scope)) in
    if poolID =s? "" then mret (Some (NewError "OVHCluster.Status.PoolID not set yet"))
    else
      let privateIP := primaryPrivateIP instance in
      if privateIP =s? "" then
        mret (Some (NewError ("no IPv4 private address on instance " +:+ Instance_ID instance)))
      else
        check! ensureApiMember scope poolID privateIP catch err => mret (Some err) in
        do! ensureRKE2RegisterPoolMember scope privateIP in
        mret None.

(** [conditions.Set(scope.OVHMachine, metav1.Condition{...})]. *)
Definition setMCondition (ty status reason message : string) : MM unit :=
  setMStatus (fun s => s {{ MStatus_Conditions ::=
    fun cs => conditions_Set cs (cond ty status reason message) }}).

Definition setMReady (b : bool) : MM unit :=
  setMStatus (fun s => s {{ MStatus_Ready := b }}).

Definition notProvisioned : MM unit :=
  setMStatus (fun s => s {{ MStatus_Ready := false;
                            MStatus_Initialization := machineInitializationNotProvisioned }}).

(** ** An existing instance *)

(** The addresses of an instance: the IPv4 ones. *)
Definition machineAddresses (ips : list IPAddress) : list MachineAddress :=
  map (fun ip => {| MachineAddress_Type := if IPAddress_Type ip =s? "public"
                                           then MachineExternalIP else MachineInternalIP;
                    MachineAddress_Address := IPAddress_IP ip |})
    (List.filter (fun ip => IPAddress_Version ip =? 4) ips).

(** The BUILD to ACTIVE duration, on the first ACTIVE reconcile. *)
Definition observeBootstrap (instance : Instance_) : MM unit :=
  let! status := getMStatus in
  if negb (MStatus_Ready status) && negb (Instance_Created instance =s? "") then
    let! parsed := mcall (ParseRFC3339 (Instance_Created instance)) in
    match parsed with
    | None => mret tt
    | Some createdAt =>
        let! now := mcall Now in
        mcall (MetricObserve BootstrapWaitDuration [] (now - createdAt))
    end
  else mret tt.

(** Addresses, provider identifier, readiness and conditions. *)
Definition recordActive (scope : MachineScope) (instance : Instance_) : MM unit :=
  do! setMStatus (fun s => s {{ MStatus_Addresses :=
        machineAddresses (Instance_IPAddresses instance) }}) in
  do! modify (fun o => o {{ OVHMachine_Spec ::= fun sp => sp {{ MSpec_ProviderID :=
        ProviderIDFromInstance (region_of scope) (Instance_ID instance) }} }}) in
  do! setMStatus (fun s => s {{ MStatus_Ready := true;
        MStatus_Initialization := machineInitializationProvisioned }}) in
  do! setMCondition InstanceProvisioningReadyCondition ConditionTrue
        InstanceProvisioningReadyCondition "" in
  setMCondition InstanceRunningCondition ConditionTrue InstanceRunningCondition "".

Definition initNode (scope : MachineScope) (instance : Instance_) : MM unit :=
  let! spec := getMSpec in
  lift (let* r := getWorkloadRESTConfig scope in
        match r with
        | Ok (Some cfg) =>
            InitializeWorkloadNode cfg (Instance_Name instance) (MSpec_ProviderID spec)
        | _ => Ret tt
        end).

Definition instanceActive (scope : MachineScope) (instance : Instance_) : MM outcome :=
  do! observeBootstrap instance in
  do! recordActive scope instance in
  do! ensureLBPoolMember scope instance in
  do! initNode scope instance in
  mret (noRequeue, None).

Definition instanceBuild : MM outcome :=
  do! setMCondition InstanceProvisioningReadyCondition ConditionFalse
        InstanceProvisioningInProgressReason "Instance is being provisioned (BUILD state)" in
  do! setMCondition InstanceRunningCondition ConditionFalse
        InstanceNotRunningReason "Instance is not yet running" in
  do! setMReady false in
  mret (requeue requeueDelayLong, None).

Definition instanceError (instance : Instance_) : MM outcome :=
  do! setMCondition InstanceProvisioningReadyCondition ConditionFalse
        InstanceProvisioningFailedReason
        ("Instance provisioning failed: OVH instance " +:+ Instance_ID instance +:+
         " is in ERROR state") in
  do! setMReady false in
  do! mcall (MetricInc MachineCreateErrorsTotal) in
  mret (noRequeue, None).

Definition handleExistingInstance (scope : MachineScope) (instance : Instance_) : MM outcome :=
  do! setMStatus (fun s => s {{ MStatus_InstanceID := Instance_ID instance }}) in
  do! setMCondition InstanceCreatedCondition ConditionTrue InstanceCreatedCondition "" in
  let status := Instance_Status instance in
  if status =s? InstanceStatusActive then instanceActive scope instance
  else if status =s? InstanceStatusBuild then instanceBuild
  else if status =s? InstanceStatusError then instanceError instance
  else
    do! setMReady false in
    mret (requeue requeueDelayLong, None).

(** ** Creation *)

(** The optional SSH key: its identifier, or "". *)
Definition resolveSSHKey (scope : MachineScope) (spec : OVHMachineSpec) : prog (gores string) :=
  let sshKeyName := GetSSHKeyName (MSpec_SSHKeyName spec)
                      (CSpec_SSHKeyName (OVHCluster_Spec (MScope_OVHCluster scope))) in
  if sshKeyName =s? "" then Ret (Ok "")
  else
    let* r := GetSSHKeyByName (MScope_OVHClient scope) sshKeyName in
    Ret (match r with
         | Err e => Err (Errorf ("resolving SSH key " +:+ fmt_q sshKeyName +:+ ": ") e)
         | Ok key => Ok (SSHKey_ID key)
         end).

Definition instanceNetworks (scope : MachineScope) : list InstanceNetwork :=
  let networkID := CStatus_NetworkID (OVHCluster_Status (MScope_OVHCluster scope)) in
  if networkID =s? "" then [] else [{| InstanceNetwork_NetworkID := networkID |}].

Definition instanceOpts (scope : MachineScope) (machine : OVHMachine)
  (flavorID imageID sshKeyID userData : string) : CreateInstanceOpts := {|
  CreateInstanceOpts_Name := instanceName scope machine;
  CreateInstanceOpts_FlavorID := flavorID;
  CreateInstanceOpts_ImageID := imageID;
  CreateInstanceOpts_Region := region_of scope;
  CreateInstanceOpts_SSHKeyID := sshKeyID;
  CreateInstanceOpts_UserData := userData;
  CreateInstanceOpts_Networks := instanceNetworks scope;
  CreateInstanceOpts_MonthlyBilling := false;
  CreateInstanceOpts_GroupID := "" |}.

(** The end of [createInstance], from the metric on. *)
Definition requestInstance (scope : MachineScope) (opts : CreateInstanceOpts) : MM outcome :=
  do! mcall (MetricInc MachineCreateTotal) in
  try! instance := lift (CreateInstance (MScope_OVHClient scope) opts)
  catch err =>
    do! mcall (MetricInc MachineCreateErrorsTotal) in
    do! setMCondition InstanceCreatedCondition ConditionFalse InstanceProvisioningFailedReason
          ("Failed to create instance: " +:+ Error err) in
    mret (noRequeue, Some (Errorf "creating OVH instance: " err)) in
  do! setMStatus (fun s => s {{ MStatus_InstanceID := Instance_ID instance }}) in
  do! setMCondition InstanceCreatedCondition ConditionTrue InstanceCreatedCondition "" in
  do! setMCondition InstanceProvisioningReadyCondition ConditionFalse
        InstanceProvisioningInProgressReason "Instance created, waiting for ACTIVE state" in
  mret (requeue requeueDelayLong, None).

Definition createInstance (scope : MachineScope) : MM outcome :=
  let c := MScope_OVHClient scope in
  let! machine := get in
  let spec := OVHMachine_Spec machine in
  try! flavor := lift (GetFlavorByName c (MSpec_FlavorName spec))
  catch err =>
    mret (noRequeue, Some (Errorf ("resolving flavor " +:+ fmt_q (MSpec_FlavorName spec) +:+ ": ") err)) in
  try! image := lift (GetImageByName c (MSpec_ImageName spec))
  catch err =>
    mret (noRequeue, Some (Errorf ("resolving image " +:+ fmt_q (MSpec_ImageName spec) +:+ ": ") err)) in
  try! bootstrapData := lift (getBootstrapData scope)
  catch err => mret (noRequeue, Some (Errorf "getting bootstrap data: " err)) in
  match PrepareUserData bootstrapData with
  | Err err => mret (noRequeue, Some (Errorf "preparing user data: " err))
  | Ok userData =>
      try! sshKeyID := lift (resolveSSHKey scope spec) catch err => mret (noRequeue, Some err) in
      requestInstance scope
        (instanceOpts scope machine (Flavor_ID flavor) (Image_ID image) sshKeyID userData)
  end.

(** ** ReconcileNormal *)

(** A lookup of [ReconcileNormal]: an instance, none, or the returned error. *)
Abbreviation lookup := (gores (option Instance_)).

(** By the identifier of the status. *)
Definition findByStatus (scope : MachineScope) : MM lookup :=
  let! status := getMStatus in
  let id := MStatus_InstanceID status in
  if id =s? "" then mret (Ok None)
  else
    let! r := lift (GetInstance (MScope_OVHClient scope) id) in
    match r with
    | Ok inst => mret (Ok (Some inst))
    | Err err =>
        if IsNotFound (Some err) then
          do! setMStatus (fun s => s {{ MStatus_InstanceID := "" }}) in
          mret (Ok None)
        else mret (Err (Errorf ("getting instance " +:+ id +:+ ": ") err))
    end.

(** By the identifier to adopt. *)
Definition findByAdoption (scope : MachineScope) : MM lookup :=
  let! spec := getMSpec in
  let id := MSpec_ExistingInstanceID spec in
  if id =s? "" then mret (Ok None)
  else
    let! r := lift (GetInstance (MScope_OVHClient scope) id) in
    mret (match r with
          | Ok inst => Ok (Some inst)
          | Err err => Err (Errorf ("adopting instance " +:+ id +:+ ": ") err)
          end).

(** By name. *)
Definition findByName (scope : MachineScope) : MM lookup :=
  let! machine := get in
  let name := instanceName scope machine in
  let! r := lift (FindInstanceByName (MScope_OVHClient scope) name) in
  mret (match r with
        | Ok inst => Ok inst
        | Err err => Err (Errorf ("finding instance by name " +:+ name +:+ ": ") err)
        end).

(** [if instance == nil { next }]. *)
Definition orLookup (first next : MM lookup) : MM lookup :=
  let! r := first in
  match r with
  | Ok None => next
  | _ => mret r
  end.

Definition findInstance (scope : MachineScope) : MM lookup :=
  orLookup (findByStatus scope) (orLookup (findByAdoption scope) (findByName scope)).

Definition machineNormalBody (scope : MachineScope) : MM outcome :=
  let! machine := get in
  let meta := OVHMachine_ObjectMeta machine in
  if IsPaused (MScope_Cluster scope) meta then
    do! notProvisioned in
    mret (noRequeue, None)
  else if negb (ContainsFinalizer meta MachineFinalizer) &&
          bool_decide (DeletionTimestamp meta = None) then
    do! modify (fun o =>
          o {{ OVHMachine_ObjectMeta ::= fun m => AddFinalizer m MachineFinalizer }}) in
    do! notProvisioned in
    mret (noRequeue, None)
  else if negb (default false (Cluster_InfrastructureProvisioned (MScope_Cluster scope))) then
    do! setMCondition InstanceProvisioningReadyCondition ConditionFalse
          InfrastructureProvisioningInProgressReason "Waiting for cluster infrastructure" in
    mret (requeue requeueDelay, None)
  else
    match Machine_BootstrapDataSecretName (MScope_Machine scope) with
    | None => mret (requeue requeueDelay, None)
    | Some _ =>
        try! instance := findInstance scope catch err => mret (noRequeue, Some err) in
        match instance with
        | Some instance => handleExistingInstance scope instance
        | None => createInstance scope
        end
    end.

Definition observeMDuration (label : string) (start : Z) : MM unit :=
  let! now := mcall Now in
  mcall (MetricObserve MachineReconcileDuration [label] (now - start)).

Definition observeMachineStatus (scope : MachineScope) : MM unit :=
  let! machine := get in
  let cmeta := Cluster_ObjectMeta (MScope_Cluster scope) in
  let meta := OVHMachine_ObjectMeta machine in
  mcall (MetricSet MachineStatus
           [Namespace cmeta +:+ "/" +:+ Name cmeta; Namespace meta +:+ "/" +:+ Name meta]
           (if MStatus_Ready (OVHMachine_Status machine) then 1 else 0)).

Definition MachineReconcileNormal (scope : MachineScope) : MM outcome :=
  let! start := mcall Now in
  let! r := machineNormalBody scope in
  do! observeMDuration "normal" start in
  do! observeMachineStatus scope in
  mret r.

(** ** ReconcileDelete *)

Definition removeMachineFinalizer : MM unit :=
  modify (fun o => o {{ OVHMachine_ObjectMeta ::= fun m => RemoveFinalizer m MachineFinalizer }}).

(** Detach and delete one volume, best effort. *)
Definition deleteVolume (scope : MachineScope) (instanceID volID : string) : prog unit :=
  let c := MScope_OVHClient scope in
  let* _ := (if instanceID =s? "" then Ret None else DetachVolume c volID instanceID) in
  let* _ := DeleteVolume c volID in
  Ret tt.

(** Delete the instance: [Some] is what the method returns. *)
Definition deleteInstance (scope : MachineScope) : MM (option outcome) :=
  let c := MScope_OVHClient scope in
  let! status := getMStatus in
  let id := MStatus_InstanceID status in
  if id =s? "" then mret None
  else
    check! lift (DeleteInstance c id)
    catch err =>
      do! mcall (MetricInc MachineDeleteErrorsTotal) in
      mret (Some (noRequeue, Some (Errorf ("deleting instance " +:+ id +:+ ": ") err))) in
    let! r := lift (GetInstance c id) in
    match r with
    | Ok inst => if negb (Instance_Status inst =s? InstanceStatusDeleted)
                 then mret (Some (requeue requeueDelay, None)) else mret None
    | Err _ => mret None
    end.

Definition machineKeepPolicy (o : OVHMachine) : bool :=
  default "" (Annotations (OVHMachine_ObjectMeta o) !! adoptionPolicyAnnotation) =s? "keep".

Definition machineDeleteBody (scope : MachineScope) : MM outcome :=
  let! machine := get in
  if machineKeepPolicy machine then
    do! removeMachineFinalizer in
    mret (noRequeue, None)
  else
    do! mcall (MetricInc MachineDeleteTotal) in
    let! status := getMStatus in
    do! for_each (MStatus_VolumeIDs status) (fun volID =>
          lift (deleteVolume scope (MStatus_InstanceID status) volID)) in
    do! removeLBPoolMember scope in
    orElse (deleteInstance scope)
      (do! removeMachineFinalizer in
       mret (noRequeue, None)).

Definition MachineReconcileDelete (scope : MachineScope) : MM outcome :=
  let! start := mcall Now in
  let! r := machineDeleteBody scope in
  do! observeMDuration "delete" start in
  mret r.

(** ** Reconcile *)

(** The body of [Reconcile] between the patch helper and the deferred patch. *)
Definition machineReconcileOwned : MM outcome :=
  let! machine := get in
  let meta := OVHMachine_ObjectMeta machine in
  try! owner := mcall (GetOwnerMachine meta) catch err => mret (noRequeue, Some err) in
  match owner with
  | None => mret (requeue requeueDelay, None)
  | Some ownerMachine =>
      try! oc := mcall (GetClusterFromMetadata (Machine_ObjectMeta ownerMachine))
      catch err => mret (noRequeue, Some err) in
      match oc with
      | None => mret (noRequeue, None)
      | Some ownerCluster =>
          let infraName := match Cluster_InfrastructureRef ownerCluster with
                           | Some ref => InfraRef_Name ref
                           | None => ""
                           end in
          try! ovhCluster := mcall (GetOVHCluster (Namespace (Cluster_ObjectMeta ownerCluster)) infraName)
          catch err => mret (noRequeue, Some err) in
          try! c := lift (GetOVHClientFromCluster ovhCluster)
          catch err => mret (requeue requeueDelay, None) in
          let scope := {| MScope_Cluster := ownerCluster; MScope_Machine := ownerMachine;
                          MScope_OVHCluster := ovhCluster; MScope_OVHClient := c |} in
          if bool_decide (DeletionTimestamp meta = None)
          then MachineReconcileNormal scope
          else MachineReconcileDelete scope
      end
  end.

Definition MachineReconcile (ns name : string) : prog outcome :=
  let* r := call (GetOVHMachine ns name) in
  match r with
  | Err err =>
      if apierrors_IsNotFound err then Ret (noRequeue, None) else Ret (noRequeue, Some err)
  | Ok ovhMachine =>
      let* err := call (NewPatchHelper (OVHMachine_ObjectMeta ovhMachine)) in
      match err with
      | Some err => Ret (noRequeue, Some err)
      | None =>
          let* (res, rerr, o') := machineReconcileOwned ovhMachine in
          let* patchErr := call (PatchOVHMachine o') in
          Ret (match patchErr, rerr with
               | Some e, None => (res, Some e)
               | _, _ => (res, rerr)
               end)
      end
  end.
End controller.
