(* ===== verification/Conditions.v ===== *)
(** * Conditions: the objects that have conditions

    conditions.Getter and conditions.Setter of Cluster API as a class: the
    accessors GetConditions and SetConditions of the five kinds.  conditions.Set
    goes through them, and is what [setCondition] and [setMCondition] do. *)
From S2P Require Import Prelude.
From S2P Require Import GoErrors.
From S2P Require Import K8sTypes.
From S2P Require ApiV1alpha1.
From S2P Require Import ApiV1alpha2.
From S2P Require Import Effects.
From S2P Require Import CapiLib.
From S2P Require Import ClusterController.
From S2P Require Import MachineController.
#[local] Open Scope Z_scope.

(** ** The accessors *)

Definition OVHCluster_GetConditions (c : OVHCluster) : list Condition :=
  CStatus_Conditions (OVHCluster_Status c).
Definition OVHCluster_SetConditions (c : OVHCluster) (conditions : list Condition) : OVHCluster :=
  c {{ OVHCluster_Status ::= fun s => s {{ CStatus_Conditions := conditions }} }}.
Definition OVHMachine_GetConditions (m : OVHMachine) : list Condition :=
  MStatus_Conditions (OVHMachine_Status m).
Definition OVHMachine_SetConditions (m : OVHMachine) (conditions : list Condition) : OVHMachine :=
  m {{ OVHMachine_Status ::= fun s => s {{ MStatus_Conditions := conditions }} }}.
Definition OVHMachinePool_GetConditions (m : OVHMachinePool) : list Condition :=
  PoolStatus_Conditions (OVHMachinePool_Status m).
Definition OVHMachinePool_SetConditions (m : OVHMachinePool) (conditions : list Condition)
  : OVHMachinePool :=
  m {{ OVHMachinePool_Status ::= fun s => s {{ PoolStatus_Conditions := conditions }} }}.
Definition OVHCluster1_GetConditions (c : ApiV1alpha1.OVHCluster) : list Condition :=
  ApiV1alpha1.C1Status_Conditions (ApiV1alpha1.C1_Status c).
Definition OVHCluster1_SetConditions (c : ApiV1alpha1.OVHCluster) (conditions : list Condition)
  : ApiV1alpha1.OVHCluster :=
  c {{ ApiV1alpha1.C1_Status ::= fun s => s {{ ApiV1alpha1.C1Status_Conditions := conditions }} }}.
Definition OVHMachine1_GetConditions (m : ApiV1alpha1.OVHMachine) : list Condition :=
  ApiV1alpha1.M1Status_Conditions (ApiV1alpha1.M1_Status m).
Definition OVHMachine1_SetConditions (m : ApiV1alpha1.OVHMachine) (conditions : list Condition)
  : ApiV1alpha1.OVHMachine :=
  m {{ ApiV1alpha1.M1_Status ::= fun s => s {{ ApiV1alpha1.M1Status_Conditions := conditions }} }}.

(** ** The interface *)

Class ConditionsSetter (T : Type) := {
  GetConditions : T -> list Condition;
  SetConditions : T -> list Condition -> T;
  Get_Set o cs : GetConditions (SetConditions o cs) = cs;
  Set_Get o : SetConditions o (GetConditions o) = o;
  Set_Set o cs cs' : SetConditions (SetConditions o cs) cs' = SetConditions o cs';
}.

#[export] Instance OVHCluster_setter : ConditionsSetter OVHCluster.
Proof. by refine {| GetConditions := OVHCluster_GetConditions; SetConditions := OVHCluster_SetConditions |}. Defined.
#[export] Instance OVHMachine_setter : ConditionsSetter OVHMachine.
Proof. by refine {| GetConditions := OVHMachine_GetConditions; SetConditions := OVHMachine_SetConditions |}. Defined.
#[export] Instance OVHMachinePool_setter : ConditionsSetter OVHMachinePool.
Proof. by refine {| GetConditions := OVHMachinePool_GetConditions; SetConditions := OVHMachinePool_SetConditions |}. Defined.
#[export] Instance OVHCluster1_setter : ConditionsSetter ApiV1alpha1.OVHCluster.
Proof. by refine {| GetConditions := OVHCluster1_GetConditions; SetConditions := OVHCluster1_SetConditions |}. Defined.
#[export] Instance OVHMachine1_setter : ConditionsSetter ApiV1alpha1.OVHMachine.
Proof. by refine {| GetConditions := OVHMachine1_GetConditions; SetConditions := OVHMachine1_SetConditions |}. Defined.

Section set.
Context `{CapiLib}.

(** conditions.Set on any object: what its accessors and the library do. *)
Definition Set_ {T} `{ConditionsSetter T} (o : T) (c : Condition) : T :=
  SetConditions o (conditions_Set (GetConditions o) c).

(** A set condition is found, and the others are as they were. *)
Lemma Set_Get_condition {T} `{ConditionsSetter T} (o : T) c ty :
  conditions_Get (GetConditions (Set_ o c)) ty =
  if decide (ty = Condition_Type c) then Some c else conditions_Get (GetConditions o) ty.
Proof. unfold Set_. by rewrite Get_Set, conditions_Get_Set. Qed.

(** The reconcilers set conditions through the interface. *)
Lemma setCondition_interface ty status reason message (o : OVHCluster) :
  setCondition ty status reason message o = Ret (tt, Set_ o (cond ty status reason message)).
Proof. reflexivity. Qed.
Lemma setMCondition_interface ty status reason message (o : OVHMachine) :
  setMCondition ty status reason message o = Ret (tt, Set_ o (cond ty status reason message)).
Proof. reflexivity. Qed.
End set.
