(* ===== verification/Demo.v ===== *)
(** * Demo: a concrete environment and concrete objects

    A healthy OVH project on which the theorems' hypotheses are exhibited to
    hold: [demo_env] answers every request from a table of [Answers], so the
    programs of the development run on it by computation. *)
From S2P Require Import Prelude.
From S2P Require Import GoStrings.
From S2P Require Import GoErrors.
From S2P Require Import OvhTypes.
From S2P Require Import K8sTypes.
From S2P Require Import ApiV1alpha2.
From S2P Require Import Effects.
From S2P Require Import OvhClient.
From S2P Require Import OvhClientSpec.
From S2P Require Import CapiLib.
From S2P Require Import ClusterController.
From S2P Require Import MachineController.
#[local] Open Scope Z_scope.

(** ** Objects *)

Definition demo_meta (name : string) (deleted : bool) (finalizers : list string) : ObjectMeta := {|
  Namespace := "default"; Name := name; Annotations := ∅; Labels := ∅;
  Finalizers := finalizers; DeletionTimestamp := if deleted then Some 1 else None |}.

Definition demo_cluster : Cluster := {|
  Cluster_ObjectMeta := demo_meta "test" false []; Cluster_Paused := None;
  Cluster_InfrastructureRef := Some {| InfraRef_Kind := "OVHCluster"; InfraRef_Name := "test" |};
  Cluster_InfrastructureProvisioned := Some true |}.

Definition demo_scope : ClusterScope := {|
  CScope_Cluster := demo_cluster; CScope_OVHClient := demo_client |}.

Definition demo_netconfig (id : string) : OVHNetworkConfig := {|
  NetConfig_PrivateNetworkID := id; NetConfig_SubnetCIDR := "10.0.0.0/24";
  NetConfig_VlanID := 0; NetConfig_Gateway := ""; NetConfig_DNSServers := [] |}.

Definition demo_spec (networkID : string) : OVHClusterSpec := {|
  CSpec_ServiceName := "proj"; CSpec_Region := "GRA7";
  CSpec_IdentitySecret := {| SecretKey_Namespace := "default"; SecretKey_Name := "creds" |};
  CSpec_ControlPlaneEndpoint := {| Host := ""; Port := 0 |};
  CSpec_LoadBalancerConfig := {| LBConfig_SubnetID := ""; LBConfig_FlavorName := "";
    LBConfig_FloatingNetworkID := ""; LBConfig_Listeners := [];
    LBConfig_ExistingLoadBalancerID := ""; LBConfig_ExistingFloatingIPID := "" |};
  CSpec_NetworkConfig := Some (demo_netconfig networkID);
  CSpec_SSHKeyName := ""; CSpec_FailureDomains := []; CSpec_SecurityGroups := [];
  CSpec_DefaultTags := ∅; CSpec_DNSConfig := None |}.

Definition demo_status : OVHClusterStatus := {|
  CStatus_Ready := false; CStatus_Initialization := {| Provisioned := None |};
  CStatus_Conditions := []; CStatus_NetworkID := ""; CStatus_SubnetID := "";
  CStatus_LoadBalancerID := ""; CStatus_ListenerID := ""; CStatus_PoolID := "";
  CStatus_FloatingIPID := ""; CStatus_GatewayID := ""; CStatus_GatewayExposed := false;
  CStatus_RegisterListenerID := ""; CStatus_RegisterPoolID := "";
  CStatus_FailureDomains := []; CStatus_SecurityGroupIDs := ∅; CStatus_DNSRecordID := 0 |}.

(** A cluster that has its finalizer, on the network [networkID]. *)
Definition demo_object (networkID : string) (deleted : bool) : OVHCluster := {|
  OVHCluster_ObjectMeta := demo_meta "test" deleted [ClusterFinalizer];
  OVHCluster_Spec := demo_spec networkID;
  OVHCluster_Status := demo_status |}.

Definition demo_machine_scope (controlPlane : bool) : MachineScope := {|
  MScope_Cluster := demo_cluster;
  MScope_Machine := {|
    Machine_ObjectMeta := (demo_meta "m0" false []) {{ Labels :=
      if controlPlane then {[ "cluster.x-k8s.io/control-plane" := "" ]} else ∅ }};
    Machine_BootstrapDataSecretName := Some "boot" |};
  MScope_OVHCluster := demo_object "net" false;
  MScope_OVHClient := demo_client |}.

Definition demo_machine (deleted : bool) (instanceID : string) : OVHMachine := {|
  OVHMachine_ObjectMeta := demo_meta "m0" deleted [MachineFinalizer];
  OVHMachine_Spec := {| MSpec_ProviderID := ""; MSpec_FlavorName := "b3-8";
    MSpec_ImageName := "Ubuntu 24.04"; MSpec_SSHKeyName := ""; MSpec_RootDiskSize := 0;
    MSpec_AdditionalVolumes := []; MSpec_FailureDomain := ""; MSpec_SecurityGroupNames := [];
    MSpec_Tags := ∅; MSpec_BootstrapFormat := ""; MSpec_ExistingInstanceID := "" |};
  OVHMachine_Status := {| MStatus_Ready := false; MStatus_Conditions := [];
    MStatus_Addresses := []; MStatus_Initialization := {| Provisioned := None |};
    MStatus_InstanceID := instanceID; MStatus_VolumeIDs := []; MStatus_LBPoolMemberID := "";
    MStatus_RegisterPoolMemberID := "" |} |}.

Definition demo_instance (status : string) : Instance_ := {|
  Instance_ID := "i-1"; Instance_Name := "test-m0"; Instance_Status := status;
  Instance_FlavorID := "f"; Instance_ImageID := "im"; Instance_Region := "GRA7";
  Instance_Created := ""; Instance_IPAddresses := [
    {| IPAddress_IP := "10.0.0.9"; IPAddress_Type := "private"; IPAddress_Version := 4 |};
    {| IPAddress_IP := "2001:db8::1"; IPAddress_Type := "public"; IPAddress_Version := 6 |}];
  Instance_AttachedVolumes := []; Instance_SSHKeyID := ""; Instance_MonthlyBilling := false |}.

Definition demo_network (id status : string) : PrivateNetwork := {|
  PrivateNetwork_ID := id; PrivateNetwork_Name := id; PrivateNetwork_VlanID := 0;
  PrivateNetwork_Regions := [ {| NetworkRegion_Region := "GRA7"; NetworkRegion_Status := status;
                                 NetworkRegion_OpenStackID := "os-" +:+ id |} ];
  PrivateNetwork_Status := status; PrivateNetwork_Type := "private" |}.

Definition demo_subnet : Subnet := {|
  Subnet_ID := "sub-1"; Subnet_CIDR := "10.0.0.0/24"; Subnet_GatewayIP := ""; Subnet_IPPools := [];
  Subnet_Region := "GRA7"; Subnet_DHCP := true; Subnet_NoGateway := false |}.

Definition demo_listener (id : string) : Listener := {|
  Listener_ID := id; Listener_Name := ""; Listener_Protocol := "tcp"; Listener_ProtocolPort := 0;
  Listener_Port := 0; Listener_DefaultPoolID := ""; Listener_LoadBalancerID := "";
  Listener_LoadBalancerIDs := []; Listener_ProvisioningStatus := ""; Listener_OperatingStatus := "" |}.

Definition demo_pool (id : string) : Pool := {|
  Pool_ID := id; Pool_Name := ""; Pool_Protocol := "tcp"; Pool_LBAlgorithm := "";
  Pool_ListenerID := ""; Pool_LoadBalancerID := ""; Pool_ProvisioningStatus := "";
  Pool_OperatingStatus := "" |}.

Definition demo_monitor : HealthMonitor := {|
  HealthMonitor_ID := "hm-1"; HealthMonitor_Name := ""; HealthMonitor_MonitorType := "tcp";
  HealthMonitor_Delay := 5; HealthMonitor_Timeout := 3; HealthMonitor_MaxRetries := 2;
  HealthMonitor_PoolID := ""; HealthMonitor_URLPath := ""; HealthMonitor_HTTPMethod := "";
  HealthMonitor_ExpectedCodes := ""; HealthMonitor_ProvisioningStatus := "";
  HealthMonitor_OperatingStatus := "" |}.

(** ** Answers *)

Record Answers := {
  on_get : forall T, string -> target T -> gores T;
  on_post : forall T, string -> target T -> gores T;
  on_delete : string -> gores unit;
}.

Definition refused {T} : gores T := Err (APIError 404 "not found").

(** A healthy project: one active network and subnet, one active balancer. *)
Definition healthy_get : forall T, string -> target T -> gores T := fun T path tg =>
  match tg in target T return gores T with
  | TStrings => Ok ["GRA7"]
  | TPrivateNetwork => Ok (demo_network "net" "ACTIVE")
  | TSubnets => Ok [demo_subnet]
  | TLBFlavors => Ok [ {| LBFlavor_ID := "f"; LBFlavor_Name := "small"; LBFlavor_Region := "GRA7" |} ]
  | TLoadBalancer => Ok (demo_lb "lb-1" "capi-test-lb" "active")
  | TLoadBalancers => Ok [demo_lb "lb-1" "capi-test-lb" "active"]
  | TListeners => Ok []
  | TPools => Ok []
  | THealthMonitors => Ok []
  | TFloatingIPs => Ok []
  | TGateways => Ok []
  | TMembers => Ok []
  | TInstance => Ok (demo_instance "ACTIVE")
  | TInstances => Ok [demo_instance "ACTIVE"]
  | TSecurityGroups => Ok []
  | _ => refused
  end.

Definition healthy_post : forall T, string -> target T -> gores T := fun T path tg =>
  match tg in target T return gores T with
  | TNil => Ok tt
  | TTask => Ok tt
  | TListener => Ok (demo_listener "listener-1")
  | TPool => Ok (demo_pool "pool-1")
  | THealthMonitor => Ok demo_monitor
  | TInstance => Ok (demo_instance "BUILD")
  | TPrivateNetwork => Ok (demo_network "net-created" "BUILDING")
  | _ => refused
  end.

Definition healthy : Answers := {|
  on_get := healthy_get; on_post := healthy_post; on_delete := fun _ => Ok tt |}.

Definition demo_env (a : Answers) : handler unit := fun X w r =>
  match r in req X return X * unit with
  | ApiGet _ path tg => (on_get a _ path tg, w)
  | ApiPost _ path _ tg => (on_post a _ path tg, w)
  | ApiDelete _ path => (on_delete a path, w)
  | PatchOVHCluster _ | PatchOVHMachine _ | NewPatchHelper _ => (None, w)
  | GetOVHCluster _ _ => (Ok (demo_object "net" false), w)
  | GetOVHMachine _ _ => (Ok (demo_machine false "i-1"), w)
  | GetOwnerCluster _ => (Ok (Some demo_cluster), w)
  | r => failing_env _ w r
  end.

(** The run of a program on these answers. *)
Definition demo_run {A} (a : Answers) (p : prog A) : trace * A := exec (demo_env a) p tt.

Lemma demo_runs {A} a (p : prog A) : runs p (demo_run a p).1 (demo_run a p).2.
Proof. apply exec_runs. Qed.
