(* ===== verification/WatchSpec.v ===== *)
(** * WatchSpec: which clusters an event wakes

    The watches of OVHClusterReconciler.SetupWithManager map a Secret and a
    Cluster to requests.  The lookup of the clusters of a Secret goes through an
    index that the API cache keeps with [identitySecretIndex]; the two agree. *)
From S2P Require Import Prelude.
From S2P Require Import GoStrings.
From S2P Require Import GoErrors.
From S2P Require Import K8sTypes.
From S2P Require Import ApiV1alpha2.
From S2P Require Import Effects.
From S2P Require Import ClusterController.
From S2P Require Import Demo.
#[local] Open Scope Z_scope.
#[local] Open Scope go_scope.

(** The cluster takes its credentials from the secret. *)
Definition uses_secret (secret : Secret) (cl : OVHCluster) : Prop :=
  CSpec_IdentitySecret (OVHCluster_Spec cl) =
    {| SecretKey_Namespace := Namespace (Secret_ObjectMeta secret);
       SecretKey_Name := Name (Secret_ObjectMeta secret) |}.

Definition request_of (cl : OVHCluster) : Request := {|
  Request_Namespace := Namespace (OVHCluster_ObjectMeta cl);
  Request_Name := Name (OVHCluster_ObjectMeta cl) |}.

(** The cache holds the clusters [stored] and answers lookups by its index. *)
Definition serves_index (stored : list OVHCluster) (e : event) : Prop :=
  match e with
  | Ev r x =>
      match r in req X return X -> Prop with
      | ListOVHClustersBySecret name => fun a =>
          exists items, a = Ok items /\
            forall cl, cl ∈ items <-> cl ∈ stored /\ name ∈ identitySecretIndex cl
      | _ => fun _ => True
      end x
  end.

(** An event of a Secret wakes exactly the clusters whose credentials it
    holds: the requests are those of the stored clusters that name the secret and
    its namespace, so a rotation of the credentials reaches all of them, and no
    cluster that uses a secret of the same name in another namespace. *)
Theorem secret_wakes_its_clusters stored secret t reqs :
  Name (Secret_ObjectMeta secret) <> "" ->
  runs (secretToOVHCluster (Some secret)) t reqs -> Forall (serves_index stored) t ->
  forall r, r ∈ reqs <-> exists cl, cl ∈ stored /\ uses_secret secret cl /\ r = request_of cl.
Proof.
  intros Hname (a & t' & -> & Hr) Ht r. apply Forall_cons in Ht as [(items & -> & Hitems) _].
  destruct Hr as [_ ->]. rewrite list_elem_of_fmap. apply exist_proper. intros cl.
  rewrite list_elem_of_In, filter_In, <- list_elem_of_In, Hitems, strEqb_eq.
  unfold identitySecretIndex, uses_secret.
  destruct (CSpec_IdentitySecret (OVHCluster_Spec cl)) as [ns n]; cbn.
  destruct (n =s? "") eqn:Hn; str_simpl.
  - split; [intros (_ & [_ Hin] & _); by apply elem_of_nil in Hin|].
    intros (_ & [= -> Heq] & _). congruence.
  - rewrite list_elem_of_singleton. split.
    + intros (-> & [Hin ->] & ->). done.
    + intros (Hin & [= -> ->] & ->). done.
Qed.

(** A Cluster wakes its own OVHCluster and nothing else. *)
Theorem cluster_wakes_its_infrastructure cl r :
  r ∈ clusterToOVHCluster cl <->
  exists ref, Cluster_InfrastructureRef cl = Some ref /\ InfraRef_Kind ref = "OVHCluster" /\
    r = {| Request_Namespace := Namespace (Cluster_ObjectMeta cl); Request_Name := InfraRef_Name ref |}.
Proof.
  unfold clusterToOVHCluster. destruct (Cluster_InfrastructureRef cl) as [ref|].
  - destruct (InfraRef_Kind ref =s? "OVHCluster") eqn:Hk; cbn [negb]; str_simpl.
    + rewrite list_elem_of_singleton. split; [by exists ref|]. by intros (? & [= <-] & _ & ->).
    + split; [by intros ?%elem_of_nil|]. by intros (? & [= <-] & ? & _).
  - split; [by intros ?%elem_of_nil|]. by intros (? & ? & _).
Qed.

(** ** Witness *)

Definition demo_credentials : Secret := {|
  Secret_ObjectMeta := demo_meta "creds" false []; Secret_Data := ∅ |}.

Lemma secret_wakes_its_clusters_witness :
  let found := demo_object "net" false in
  let t := [Ev (ListOVHClustersBySecret "creds") (Ok [found])] in
  runs (secretToOVHCluster (Some demo_credentials)) t [request_of found] /\
  forall r, r ∈ [request_of found] <->
    exists cl, cl ∈ [found] /\ uses_secret demo_credentials cl /\ r = request_of cl.
Proof.
  cbv zeta. set (found := demo_object "net" false).
  assert (Hr : runs (secretToOVHCluster (Some demo_credentials))
                 [Ev (ListOVHClustersBySecret "creds") (Ok [found])] [request_of found]).
  { exists (Ok [found]), []. by split. }
  split; [exact Hr|].
  refine (secret_wakes_its_clusters [found] demo_credentials _ _ _ Hr _); [discriminate|].
  constructor; [|constructor]. exists [found]. split; [reflexivity|]. intros cl.
  rewrite !list_elem_of_singleton. split; [intros ->|by intros [-> _]].
  split; [reflexivity|]. by left.
Defined.
