(* ===== verification/Work.v ===== *)
(** * Work: how much work a reconciliation can do

    No program of the model diverges ([Effects.runs_total]); this file bounds
    how long one can take.  [work calls waits p] says that every run of [p]
    sends at most six requests per API call and sleeps at most 62 seconds per
    API call and [waits] seconds besides, whatever OVH answers.  A tactic
    executes a program symbolically and spends the budget call by call, with
    one lemma per method of the source that makes calls. *)
From S2P Require Import Prelude.
From S2P Require Import GoStrings.
From S2P Require Import GoErrors.
From S2P Require Import OvhTypes.
From S2P Require Import K8sTypes.
From S2P Require Import ApiV1alpha2.
From S2P Require Import Effects.
From S2P Require Import OvhClient.
From S2P Require Import OvhClientSpec.
From S2P Require Import Hoare.
From S2P Require Import Naming.
From S2P Require Import CapiLib.
From S2P Require Import ClusterController.
From S2P Require Import ClusterLB.
From S2P Require Import ClusterReconcile.
From S2P Require Import WorkloadNode.
From S2P Require Import MachineController.
From S2P Require Import Demo.
#[local] Open Scope Z_scope.
#[local] Open Scope go_scope.

(** The number of requests sent to the OVH API. *)
Definition requests (t : trace) : Z := Z.of_nat (length (List.filter is_ovh t)).

Definition work {A} (calls waits : Z) (p : prog A) : Prop :=
  forall t a, runs p t a ->
    requests t <= 6 * calls /\ total_sleep t <= Second * (62 * calls + waits).

Lemma requests_app t t' : requests (t ++ t') = requests t + requests t'.
Proof. unfold requests. rewrite List.filter_app, length_app. lia. Qed.
Lemma total_sleep_app t t' : total_sleep (t ++ t') = total_sleep t + total_sleep t'.
Proof.
  induction t as [|[X r x] t IH]; [done|]. cbn [app total_sleep]. destruct r; rewrite IH; lia.
Qed.

(** ** Rules *)

Section rules.
Context {A B : Type}.

Lemma work_weaken c w c' w' (p : prog A) : work c w p -> c <= c' -> w <= w' -> work c' w' p.
Proof. intros Hp Hc Hw t a Hr. destruct (Hp _ _ Hr). unfold Second in *. lia. Qed.

Lemma work_ret c w (a : A) : 0 <= c -> 0 <= w -> work c w (Ret a).
Proof. intros Hc Hw t a' [-> _]. unfold requests, Second. cbn [List.filter length total_sleep]. lia. Qed.

Lemma work_bind c1 w1 c w (p : prog A) (f : A -> prog B) :
  work c1 w1 p -> (forall a, work (c - c1) (w - w1) (f a)) -> work c w (pbind p f).
Proof.
  intros Hp Hf t b (t1 & t2 & a & -> & H1 & H2)%runs_bind.
  destruct (Hp _ _ H1), (Hf _ _ _ H2). rewrite requests_app, total_sleep_app.
  unfold Second in *. lia.
Qed.

(** A request that is neither a pause nor one to OVH is free. *)
Definition free {X} (r : req X) : Prop :=
  forall x t, requests (Ev r x :: t) = requests t /\ total_sleep (Ev r x :: t) = total_sleep t.

Lemma work_vis {X} c w (r : req X) (k : X -> prog A) :
  free r -> (forall x, work c w (k x)) -> work c w (Vis r k).
Proof. intros Hr Hk t a (x & t' & -> & H). destruct (Hr x t') as [-> ->]. by eapply Hk. Qed.

Lemma work_sleep c w d (k : unit -> prog A) :
  d <= Second * w -> work c 0 (k tt) -> work c w (Vis (Sleep d) k).
Proof.
  intros Hd Hk t a ([] & t' & -> & H). destruct (Hk _ _ H).
  cbn [total_sleep]. change (requests (Ev (Sleep d) tt :: t')) with (requests t').
  unfold Second in *. lia.
Qed.
End rules.

Lemma work_free {X} (r : req X) : free r -> work 0 0 (call r).
Proof. intros Hr. apply work_vis; [done|]. intros x. by apply work_ret. Qed.

(** One API call: at most six requests and 62 seconds. *)
Lemma work_retry {T} op (r : req (gores T)) :
  (forall x t, requests (Ev r x :: t) = 1 + requests t) ->
  (forall x t, total_sleep (Ev r x :: t) = total_sleep t) ->
  work 1 0 (retryWithBackoff op (call r)).
Proof.
  intros Hreq Hsl t a (es & last & -> & _ & Hlen & _)%retryWithBackoff_runs. split.
  - assert (Hf : forall i, requests (retry_trace r i es last) = 1 + Z.of_nat (length es)).
    { induction es as [|e es IH]; intros i; cbn [retry_trace]; rewrite Hreq; [done|].
      cbn in Hlen. change (requests (Ev (Sleep (backoff i)) tt :: ?u)) with (requests u).
      rewrite IH by lia. cbn [length]. lia. }
    rewrite Hf. unfold maxRetries in Hlen. lia.
  - rewrite total_sleep_retry by done. pose proof (total_backoff _ Hlen). lia.
Qed.

Section api.
Context (c : Client).
Ltac one_request := intros; unfold requests; cbn [List.filter is_ovh length]; lia.

Lemma work_apiGet {T} op path (tg : target T) : work 1 0 (apiGet c op path tg).
Proof. apply work_retry; [one_request|done]. Qed.
Lemma work_apiPost {T} op path b (tg : target T) : work 1 0 (apiPost c op path b tg).
Proof. apply work_retry; [one_request|done]. Qed.
Lemma work_apiDelete op path : work 1 0 (apiDelete c op path).
Proof. apply work_retry; [one_request|done]. Qed.
End api.

Lemma work_for_fold {A X} c (l : list X) (body : X -> A -> prog A) a :
  (forall x a, work c 0 (body x a)) -> work (c * Z.of_nat (length l)) 0 (for_fold l body a).
Proof.
  intros Hb. revert a. induction l as [|x l IH]; intros a; [by apply work_ret; cbn [length]; lia|].
  eapply work_bind; [apply Hb|]. intros a'.
  eapply work_weaken; [apply IH| |]; cbn [length]; rewrite ?Nat2Z.inj_succ; lia.
Qed.

Lemma work_bind_assoc {A B C} c w (p : prog A) (f : A -> prog B) (g : B -> prog C) :
  work c w (pbind p (fun a => pbind (f a) g)) -> work c w (pbind (pbind p f) g).
Proof.
  intros Hp t r (t1 & t2 & b & -> & (t3 & t4 & a & -> & H1 & H2)%runs_bind & H3)%runs_bind.
  rewrite <- app_assoc. apply (Hp _ r). apply runs_bind. exists t3, (t4 ++ t2), a.
  split_all. apply runs_bind. by exists t4, t2, b.
Qed.

(** State passers. *)
Section mrules.
Context {S : Type}.

Lemma work_mbind {A B} c1 w1 c w (m : M S A) (f : A -> M S B) s :
  work c1 w1 (m s) -> (forall a s', work (c - c1) (w - w1) (f a s')) -> work c w (mbind m f s).
Proof. intros Hm Hf. eapply work_bind; [exact Hm|]. intros [a s']. apply Hf. Qed.

Lemma work_mbind_inv {A B} (I : S -> Prop) c1 w1 c w (m : M S A) (f : A -> M S B) s :
  I s -> keeps (fun _ => True) I m -> work c1 w1 (m s) ->
  (forall a s', I s' -> work (c - c1) (w - w1) (f a s')) -> work c w (mbind m f s).
Proof.
  intros Hs Hk Hm Hf t r (t1 & t2 & a & s1 & -> & H1 & H2)%runs_mbind.
  destruct (keeps_run _ _ _ _ _ _ _ Hk Hs H1) as [_ Hs1].
  destruct (Hm _ _ H1), (Hf _ _ Hs1 _ _ H2). rewrite requests_app, total_sleep_app.
  unfold Second in *. lia.
Qed.

Lemma work_lift {A} c w (p : prog A) (s : S) : work c w p -> work c w (lift p s).
Proof.
  intros Hp t [a s'] [Hr _]%runs_lift. by eapply Hp.
Qed.

Lemma work_mbind_lift {A B} c w (p : prog A) (f : A -> M S B) s :
  work c w (pbind p (fun a => f a s)) -> work c w (mbind (lift p) f s).
Proof.
  intros Hp t r (t1 & t2 & a & s1 & -> & [H1 ->]%runs_lift & H2)%runs_mbind.
  apply (Hp _ r). apply runs_bind. by exists t1, t2, a.
Qed.

Lemma work_mbind_mcall {X B} c w (r : req X) (f : X -> M S B) s :
  free r -> (forall x, work c w (f x s)) -> work c w (mbind (mcall r) f s).
Proof. intros Hr Hf. by apply (work_vis c w r (fun x => f x s)). Qed.

Lemma work_mbind_read {A B} c w (a : S -> A) (g : S -> S) (f : A -> M S B) s :
  work c w (f (a s) (g s)) -> work c w (mbind (fun s => Ret (a s, g s)) f s).
Proof. done. Qed.

Lemma work_mcall {X} (r : req X) (s : S) : free r -> work 0 0 (mcall r s).
Proof. intros Hr. apply work_vis; [done|]. intros x. by apply work_ret. Qed.

Lemma work_mbind_assoc {A B C} c w (m : M S A) (f : A -> M S B) (g : B -> M S C) s :
  work c w (mbind m (fun a => mbind (f a) g) s) -> work c w (mbind (mbind m f) g s).
Proof.
  intros Hm t r (t1 & t2 & b & s2 & -> & (t3 & t4 & a & s1 & -> & H1 & H2)%runs_mbind & H3)%runs_mbind.
  rewrite <- app_assoc. apply (Hm _ r). apply runs_mbind. exists t3, (t4 ++ t2), a, s1.
  split_all. apply runs_mbind. by exists t4, t2, b, s2.
Qed.

(** A loop whose iterations cost [cost x]. *)
Lemma work_for_each {X} (cost : X -> Z) (l : list X) (body : X -> M S unit) s :
  (forall x s, work (cost x) 0 (body x s)) ->
  work (foldr (fun x n => cost x + n) 0 l) 0 (for_each l body s).
Proof.
  intros Hb. revert s. induction l as [|x l IH]; intros s; [by apply work_ret|].
  cbn [for_each foldr]. eapply work_mbind; [apply Hb|]. intros _ s'.
  eapply work_weaken; [apply IH|lia..].
Qed.

Lemma work_for_each_err {X} (cost : X -> Z) (l : list X) (body : X -> M S (option goerror)) s :
  (forall x, 0 <= cost x) -> (forall x s, work (cost x) 0 (body x s)) ->
  work (foldr (fun x n => cost x + n) 0 l) 0 (for_each_err l body s).
Proof.
  intros H0 Hb. revert s. induction l as [|x l IH]; intros s; [by apply work_ret|].
  cbn [for_each_err foldr]. eapply work_mbind; [apply Hb|]. intros [e|] s'.
  - apply work_ret; [|lia]. enough (0 <= foldr (fun x n => cost x + n) 0 l) by lia.
    clear -H0. induction l as [|y l IH]; cbn; [lia|]. specialize (H0 y). lia.
  - eapply work_weaken; [apply IH|lia..].
Qed.
End mrules.

Lemma cost_const {X} (k : Z) (l : list X) :
  foldr (fun _ n => k + n) 0 l = k * Z.of_nat (length l).
Proof. induction l as [|x l IH]; cbn [foldr length]; lia. Qed.

(** ** Automation: symbolic execution with a budget *)

Create HintDb work discriminated.
#[export] Hint Resolve work_apiGet work_apiPost work_apiDelete : work.

Ltac is_free := by (intros ? ?; split; reflexivity).

(** One step on a goal [work c w p]: the first program of a bind is known to the
    database, makes no call, or is opened. *)
Ltac work_open p := let h := head_of p in unfold h.
Ltac work_step :=
  lazymatch goal with
  | |- work _ _ (Ret _) => apply work_ret; lia
  | |- work _ _ (mret _ _) => apply work_ret; lia
  | |- work _ _ (match ?x with _ => _ end) => destruct x
  | |- work _ _ ((match ?x with _ => _ end) _) => destruct x
  | |- work _ _ (lift _ _) => apply work_lift
  | |- work _ _ (Vis (Sleep _) _) => apply work_sleep
  | |- work _ _ (Vis _ _) => apply work_vis; [is_free|intros ?]
  | |- work _ _ (pbind (Ret _) _) => cbn [pbind]
  | |- work _ _ (pbind (Vis _ _) _) => cbn [pbind]
  | |- work _ _ (pbind (match ?x with _ => _ end) _) => destruct x
  | |- work _ _ (pbind (pbind _ _) _) => apply work_bind_assoc
  | |- work _ _ (pbind ?p _) =>
      first [ eapply work_bind; [solve [eauto with work nocore]|intros ?] | work_open p ]
  | |- work _ _ (mbind (match ?x with _ => _ end) _ _) => destruct x
  | |- work _ _ (mbind (mbind _ _) _ _) => apply work_mbind_assoc
  | |- work _ _ (mbind (lift _) _ _) => apply work_mbind_lift
  | |- work _ _ (mbind (mcall _) _ _) => apply work_mbind_mcall; [is_free|intros ?]
  | |- work _ _ (mbind (fun s => Ret _) _ _) => apply work_mbind_read; cbv beta
  | |- work _ _ (mbind ?m _ _) =>
      first [ eapply work_mbind; [solve [eauto with work nocore]|intros ? ?] | work_open m ]
  | |- work _ _ ?p => work_open p
  end.
Ltac spend := repeat first
  [ solve [eapply work_weaken; [solve [eauto with work nocore]|lia|lia]]
  | progress work_step ].

(** ** The client *)

Section client.
Context (c : Client).

Lemma work_GetImageByName name : work 2 0 (GetImageByName c name).
Proof. spend. Qed.
Lemma work_findLoadBalancerByName name : work 1 0 (findLoadBalancerByName c name).
Proof. spend. Qed.
#[local] Hint Resolve work_findLoadBalancerByName : work.

(** The polling of a created balancer: the [k]-th pause lasts 2k seconds. *)
Lemma work_pollLoadBalancer name n : (n <= maxLookupAttempts)%nat ->
  work (Z.of_nat n) (Z.of_nat n * (21 - Z.of_nat n)) (pollLoadBalancer c name n).
Proof.
  intros Hn. induction n as [|n IH]; [by apply work_ret|].
  unfold maxLookupAttempts in Hn. specialize (IH ltac:(unfold maxLookupAttempts; lia)).
  cbn [pollLoadBalancer]. eapply work_bind; [apply work_findLoadBalancerByName|].
  intros [[lb|]|e]; [apply work_ret; nia| |apply work_ret; nia].
  cbn [pbind call]. apply (work_bind 0 (20 - 2 * Z.of_nat n) _ _ (call (Sleep _))).
  - apply work_sleep; [|by apply work_ret]. unfold maxLookupAttempts, Second. lia.
  - intros _. eapply work_weaken; [exact IH|lia|nia].
Qed.

Lemma work_CreateLoadBalancer opts : work 12 110 (CreateLoadBalancer c opts).
Proof.
  assert (Hpoll : forall name, work 10 110 (pollLoadBalancer c name maxLookupAttempts)).
  { intros name. exact (work_pollLoadBalancer name maxLookupAttempts (le_n _)). }
  unfold CreateLoadBalancer. spend.
Qed.
End client.
#[export] Hint Resolve work_GetImageByName work_findLoadBalancerByName
  work_CreateLoadBalancer : work.

(** ** The machine controller *)

Section machine.
Context `{CapiLib}.

Lemma work_InitializeWorkloadNode cfg name id : work 0 0 (InitializeWorkloadNode cfg name id).
Proof. spend. Qed.
#[local] Hint Resolve work_InitializeWorkloadNode : work.
Lemma work_initNode scope inst o : work 0 0 (initNode scope inst o).
Proof. spend. Qed.
Lemma work_findInstance scope o : work 3 0 (findInstance scope o).
Proof. spend. Qed.
Lemma work_createInstance scope o : work 5 0 (createInstance scope o).
Proof. spend. Qed.
Lemma work_ensureLBPoolMember scope inst o : work 5 0 (ensureLBPoolMember scope inst o).
Proof. spend. Qed.
#[local] Hint Resolve work_initNode work_findInstance work_createInstance
  work_ensureLBPoolMember : work.
Lemma work_handleExistingInstance scope inst o :
  work 5 0 (handleExistingInstance scope inst o).
Proof. spend. Qed.
#[local] Hint Resolve work_handleExistingInstance : work.
Lemma work_machineNormalBody scope o : work 8 0 (machineNormalBody scope o).
Proof. spend. Qed.
#[local] Hint Resolve work_machineNormalBody : work.
Lemma work_MachineReconcileNormal scope o : work 8 0 (MachineReconcileNormal scope o).
Proof. spend. Qed.

Definition volumeCount (o : OVHMachine) : Z :=
  Z.of_nat (length (MStatus_VolumeIDs (OVHMachine_Status o))).

Lemma work_deleteVolumes scope id vols o :
  work (2 * Z.of_nat (length vols)) 0
    (for_each vols (fun v => lift (deleteVolume scope id v) : MM unit) o).
Proof.
  rewrite <- cost_const. apply (work_for_each (fun _ => 2)). intros v s. spend.
Qed.
Lemma work_deleteRest scope o :
  work 3 0 (mbind (removeLBPoolMember scope) (fun _ => orElse (deleteInstance scope)
    (do! removeMachineFinalizer in mret (noRequeue, None))) o).
Proof. spend. Qed.
Lemma work_MachineReconcileDelete scope o :
  work (3 + 2 * volumeCount o) 0 (MachineReconcileDelete scope o).
Proof.
  assert (Hb : work (3 + 2 * volumeCount o) 0 (machineDeleteBody scope o)).
  { unfold machineDeleteBody. apply work_mbind_read. cbv beta.
    destruct (machineKeepPolicy o); [by unfold volumeCount; spend|].
    apply work_mbind_mcall; [is_free|]. intros _. apply work_mbind_read. cbv beta.
    eapply work_mbind; [apply work_deleteVolumes|]. intros _ s'.
    eapply work_weaken; [apply work_deleteRest|unfold volumeCount; lia|lia]. }
  unfold MachineReconcileDelete, observeMDuration. apply work_mbind_mcall; [is_free|]. intros start.
  eapply work_mbind; [exact Hb|]. intros r s'. spend.
Qed.
End machine.

(** ** The cluster controller *)

Section cluster.
Context `{CapiLib}.

Lemma work_reconcileCredentials scope o : work 1 0 (reconcileCredentials scope o).
Proof. spend. Qed.
Lemma work_ensureNetwork scope cfg region o : work 1 0 (ensureNetwork scope cfg region o).
Proof. spend. Qed.
Lemma work_ensureSubnet scope cfg region o : work 2 0 (ensureSubnet scope cfg region o).
Proof. spend. Qed.
#[local] Hint Resolve work_ensureNetwork work_ensureSubnet : work.
Lemma work_reconcileNetwork scope o : work 4 0 (reconcileNetwork scope o).
Proof. spend. Qed.
Lemma work_reconcileFailureDomains scope o : work 1 0 (reconcileFailureDomains scope o).
Proof. spend. Qed.
Lemma work_reconcileDNS scope o : work 2 0 (reconcileDNS scope o).
Proof. spend. Qed.

Lemma work_ensureListener scope lb name port p o :
  work 2 0 (ensureListener scope lb name port p o).
Proof. spend. Qed.
Lemma work_ensurePool scope lb name p q o : work 2 0 (ensurePool scope lb name p q o).
Proof. spend. Qed.
Lemma work_ensurePoolHealthMonitor scope id name :
  work 2 0 (ensurePoolHealthMonitor scope id name).
Proof. spend. Qed.
#[local] Hint Resolve work_ensureListener work_ensurePool work_ensurePoolHealthMonitor : work.
Lemma work_reconcileLBPort scope name port p q o :
  work 6 0 (reconcileLBPort scope name port p q o).
Proof. spend. Qed.
Lemma work_ensureGatewayExposed scope o : work 2 0 (ensureGatewayExposed scope o).
Proof. spend. Qed.
#[local] Hint Resolve work_reconcileLBPort work_ensureGatewayExposed : work.
Lemma work_fipOfLB scope lb o : work 2 0 (fipOfLB scope lb o).
Proof. spend. Qed.
Lemma work_fipOfStatus scope o : work 3 0 (fipOfStatus scope o).
Proof. spend. Qed.
Lemma work_fipOfList scope lb o : work 3 0 (fipOfList scope lb o).
Proof. spend. Qed.
Lemma work_allocateFip scope lb o : work 5 0 (allocateFip scope lb o).
Proof. spend. Qed.
#[local] Hint Resolve work_fipOfLB work_fipOfStatus work_fipOfList work_allocateFip : work.
Lemma work_reconcileFloatingIP scope lb o : work 13 0 (reconcileFloatingIP scope lb o).
Proof. spend. Qed.
#[local] Hint Resolve work_reconcileFloatingIP : work.
Lemma work_handleExistingLB scope lb o : work 25 0 (handleExistingLB scope lb o).
Proof. spend. Qed.
Lemma work_createNewLB scope o : work 14 110 (createNewLB scope o).
Proof. spend. Qed.
#[local] Hint Resolve work_handleExistingLB work_createNewLB : work.
Lemma work_reconcileLoadBalancer scope o : work 26 110 (reconcileLoadBalancer scope o).
Proof. spend. Qed.

(** Creating a security group: one call for it and one for each rule. *)
Definition groupCalls (g : OVHSecurityGroup) : Z :=
  1 + Z.of_nat (length (SecurityGroupSpec_Rules g)).
Definition groupsCalls (gs : list OVHSecurityGroup) : Z :=
  foldr (fun g n => groupCalls g + n) 0 gs.

Lemma groupsCalls_pos gs : 0 <= groupsCalls gs.
Proof.
  induction gs as [|g gs IH]; [done|]. unfold groupsCalls in *. cbn [foldr].
  unfold groupCalls at 1. lia.
Qed.

Lemma work_groupRules scope id rules o :
  work (Z.of_nat (length rules)) 0 (for_each rules (fun rule =>
    try! _r := lift (CreateSecurityGroupRule (CScope_OVHClient scope) id (ruleOpts rule))
    catch rerr => mret tt in mret tt : CM unit) o).
Proof.
  replace (Z.of_nat (length rules)) with (1 * Z.of_nat (length rules)) by lia.
  rewrite <- cost_const. apply (work_for_each (fun _ => 1)). intros rule s. spend.
Qed.
Lemma work_reconcileSecurityGroup scope byName g o :
  work (groupCalls g) 0 (reconcileSecurityGroup scope byName g o).
Proof.
  unfold reconcileSecurityGroup, groupCalls. apply work_mbind_read. cbv beta.
  destruct (negb _); [spend|]. destruct (byName !! _); [spend|].
  apply work_mbind_lift. unfold CreateSecurityGroup. apply work_bind_assoc.
  eapply work_bind; [apply work_apiPost|]. intros r. cbn [pbind].
  destruct (wrapErr _ r) as [sg|e]; [|spend]. unfold setSecurityGroupID, setStatus, modify.
  apply work_mbind_read. cbv beta. eapply work_mbind; [apply work_groupRules|]. intros _ s'. spend.
Qed.
Lemma work_reconcileSecurityGroups scope o :
  work (1 + groupsCalls (CSpec_SecurityGroups (OVHCluster_Spec o))) 0
    (reconcileSecurityGroups scope o).
Proof.
  unfold reconcileSecurityGroups. apply work_mbind_read. cbv beta.
  pose proof (groupsCalls_pos (CSpec_SecurityGroups (OVHCluster_Spec o))) as Hpos.
  destruct (CSpec_SecurityGroups (OVHCluster_Spec o)) as [|g gs]; [spend|].
  apply work_mbind_lift. unfold ListSecurityGroups. apply work_bind_assoc.
  eapply work_bind; [apply work_apiGet|]. intros r. cbn [pbind].
  destruct (wrapErr _ r) as [existing|e]; [|spend].
  eapply work_weaken; [apply (work_for_each_err groupCalls)| |].
  - intros x. unfold groupCalls. lia.
  - intros x s. apply work_reconcileSecurityGroup.
  - unfold groupsCalls. lia.
  - lia.
Qed.

(** The API calls of one normal reconciliation of a cluster, at most. *)
Definition clusterCalls (o : OVHCluster) : Z :=
  35 + groupsCalls (CSpec_SecurityGroups (OVHCluster_Spec o)).

Definition groupsAre (gs : list OVHSecurityGroup) (o : OVHCluster) : Prop :=
  CSpec_SecurityGroups (OVHCluster_Spec o) = gs.

Ltac groups_kept := first [done | unfold groupsAre in *; cbn in *; by repeat case_match].
Lemma reconcileCredentials_groups scope gs :
  keeps (fun _ => True) (groupsAre gs) (reconcileCredentials scope).
Proof. keeps_with groups_kept. Qed.
Lemma reconcileNetwork_groups scope gs :
  keeps (fun _ => True) (groupsAre gs) (reconcileNetwork scope).
Proof. keeps_with groups_kept. Qed.
Lemma reconcileFailureDomains_groups scope gs :
  keeps (fun _ => True) (groupsAre gs) (reconcileFailureDomains scope).
Proof. keeps_with groups_kept. Qed.

#[local] Hint Resolve work_reconcileLoadBalancer work_reconcileDNS : work.
Lemma work_reconcileInfrastructure scope o :
  work (clusterCalls o) 110 (reconcileInfrastructure scope o).
Proof.
  unfold reconcileInfrastructure, clusterCalls.
  set (gs := CSpec_SecurityGroups (OVHCluster_Spec o)). pose proof (groupsCalls_pos gs) as Hpos.
  assert (Ho : groupsAre gs o) by done.
  eapply (work_mbind_inv (groupsAre gs) 1 0);
    [exact Ho|apply reconcileCredentials_groups|apply work_reconcileCredentials|].
  intros [e|] s1 Hs1; [spend|].
  eapply (work_mbind_inv (groupsAre gs) 4 0);
    [exact Hs1|apply reconcileNetwork_groups|apply work_reconcileNetwork|].
  intros [e|] s2 Hs2; [spend|].
  eapply (work_mbind_inv (groupsAre gs) 1 0);
    [exact Hs2|apply reconcileFailureDomains_groups|apply work_reconcileFailureDomains|].
  intros _ s3 Hs3. eapply work_mbind; [apply work_reconcileSecurityGroups|]. intros r s4.
  rewrite Hs3. spend.
Qed.
#[local] Hint Resolve work_reconcileInfrastructure : work.
Lemma work_ReconcileNormal scope o : work (clusterCalls o) 110 (ReconcileNormal scope o).
Proof.
  unfold ReconcileNormal, normalBody. apply work_mbind_mcall; [is_free|]. intros start.
  pose proof (groupsCalls_pos (CSpec_SecurityGroups (OVHCluster_Spec o))) as Hpos.
  eapply (work_mbind (clusterCalls o) 110).
  - apply work_mbind_read. cbv beta. unfold clusterCalls. case_match; [spend|].
    apply work_reconcileInfrastructure.
  - intros r s. spend.
Qed.
End cluster.

(** ** Termination *)

(** C22.  The reconciliation of a machine terminates, within a bound that does not
    depend on what OVH answers: from every object there is a run, and every run
    of a normal reconciliation makes at most 8 API calls, so at most 48 requests
    and 496 seconds of pauses; every run of a deletion makes at most three API
    calls and two for each recorded volume. *)
Theorem machine_reconcile_terminates `{CapiLib} scope o :
  ((exists t r, runs (MachineReconcileNormal scope o) t r) /\
   forall t r, runs (MachineReconcileNormal scope o) t r ->
     requests t <= 48 /\ total_sleep t <= 496 * Second) /\
  ((exists t r, runs (MachineReconcileDelete scope o) t r) /\
   forall t r, runs (MachineReconcileDelete scope o) t r ->
     requests t <= 6 * (3 + 2 * volumeCount o) /\
     total_sleep t <= 62 * (3 + 2 * volumeCount o) * Second).
Proof.
  split; split; [apply runs_total| |apply runs_total|].
  - intros t r Hr. apply work_MachineReconcileNormal in Hr as []. lia.
  - intros t r Hr. apply work_MachineReconcileDelete in Hr as []. lia.
Qed.

(** C23.  The normal reconciliation of a cluster terminates as well: whatever OVH
    answers, it makes at most 35 API calls, one for each security group of the
    specification and one for each of their rules, and besides the retries it
    pauses 110 seconds at most, for a created balancer to be listed. *)
Theorem cluster_reconcile_terminates `{CapiLib} scope o :
  (exists t r, runs (ReconcileNormal scope o) t r) /\
  forall t r, runs (ReconcileNormal scope o) t r ->
    requests t <= 6 * (35 + groupsCalls (CSpec_SecurityGroups (OVHCluster_Spec o))) /\
    total_sleep t <=
      (62 * (35 + groupsCalls (CSpec_SecurityGroups (OVHCluster_Spec o))) + 110) * Second.
Proof.
  split; [apply runs_total|]. intros t r Hr. apply work_ReconcileNormal in Hr as [].
  unfold clusterCalls in *. lia.
Qed.

(** ** Witnesses *)

(** A project that answers 503 to every request. *)
Definition overloaded : Answers := {|
  on_get T path tg := Err (APIError 503 "busy");
  on_post T path tg := Err (APIError 503 "busy");
  on_delete path := Err (APIError 503 "busy") |}.

(** On it a deletion spends the whole budget of the calls it makes. *)
Definition overloaded_delete :=
  demo_run overloaded (MachineReconcileDelete (demo_machine_scope false)
    ((demo_machine true "i-1") {{ OVHMachine_Status ::= fun s => s {{ MStatus_VolumeIDs := ["v"] }} }})).

Lemma machine_reconcile_terminates_witness :
  requests overloaded_delete.1 = 18 /\ requests overloaded_delete.1 <= 30.
Proof.
  split; [reflexivity|].
  refine (proj1 (proj2 (proj2 (machine_reconcile_terminates (demo_machine_scope false)
    ((demo_machine true "i-1") {{ OVHMachine_Status ::= fun s => s {{ MStatus_VolumeIDs := ["v"] }} }})))
    _ overloaded_delete.2 _)). apply demo_runs.
Defined.

Lemma cluster_reconcile_terminates_witness :
  requests (demo_run overloaded (ReconcileNormal demo_scope (demo_object "net" false))).1 = 6 /\
  requests (demo_run overloaded (ReconcileNormal demo_scope (demo_object "net" false))).1 <= 6 * 35.
Proof.
  split; [reflexivity|].
  refine (proj1 (proj2 (cluster_reconcile_terminates demo_scope (demo_object "net" false))
    _ (demo_run overloaded (ReconcileNormal demo_scope (demo_object "net" false))).2 _)).
  apply demo_runs.
Defined.
