(* ===== verification/ClusterSafety.v ===== *)
(** * ClusterSafety: what no reconciliation of an OVHCluster ever does

    Event and frame properties of the reconciler, and their consequences over a
    whole life of the object: a sequence of reconciliations interleaved with
    edits of its specification. *)
From S2P Require Import Prelude.
From S2P Require Import GoStrings.
From S2P Require Import GoErrors.
From S2P Require Import OvhTypes.
From S2P Require Import K8sTypes.
From S2P Require Import ApiV1alpha2.
From S2P Require Import Effects.
From S2P Require Import OvhClient.
From S2P Require Import OvhClientSpec.
From S2P Require Import Hoare.
From S2P Require Import Naming.
From S2P Require Import Metrics.
From S2P Require Import CapiLib.
From S2P Require Import ClusterController.
From S2P Require Import ClusterLB.
From S2P Require Import ClusterReconcile.
From S2P Require Import Demo.
#[local] Open Scope Z_scope.
#[local] Open Scope go_scope.

Definition networkCollection (c : Client) : string := projectPath c "/network/private".
Definition networkPath (c : Client) (id : string) : string :=
  projectPath c ("/network/private/" +:+ id).

(** The event neither creates nor deletes a private network. *)
Definition network_untouched (c : Client) (e : event) : Prop :=
  no_post_on (networkCollection c) e /\ forall id, no_delete_on (networkPath c id) e.
#[export] Hint Unfold networkCollection networkPath network_untouched : paths.

Ltac untouched := autounfold with paths; split; [|intros ?]; path_neq.

(** ** Lives of an object *)

Section life.
Context `{CapiLib}.

(** One step: a reconciliation, whatever the environment answers, or an edit
    of the specification and metadata, which satisfies [ok]. *)
Inductive step (scope : ClusterScope) (ok : OVHClusterSpec -> Prop)
  : OVHCluster -> trace -> OVHCluster -> Prop :=
| step_normal o t r o' :
    runs (ReconcileNormal scope o) t (r, o') -> step scope ok o t o'
| step_delete o t r o' :
    runs (ReconcileDelete scope o) t (r, o') -> step scope ok o t o'
| step_edit o o' :
    OVHCluster_Status o' = OVHCluster_Status o -> ok (OVHCluster_Spec o') ->
    step scope ok o [] o'.

Inductive life (scope : ClusterScope) (ok : OVHClusterSpec -> Prop)
  : OVHCluster -> trace -> OVHCluster -> Prop :=
| life_nil o : life scope ok o [] o
| life_step o t o' t' o'' :
    step scope ok o t o' -> life scope ok o' t' o'' -> life scope ok o (t ++ t') o''.

(** Rule induction: an invariant of the reconciler that edits preserve. *)
Lemma life_invariant scope ok (E : event -> Prop) (I : OVHCluster -> Prop) o t o' :
  keeps E I (ReconcileNormal scope) -> keeps E I (ReconcileDelete scope) ->
  (forall o o', I o -> OVHCluster_Status o' = OVHCluster_Status o ->
     ok (OVHCluster_Spec o') -> I o') ->
  life scope ok o t o' -> I o -> Forall E t /\ I o'.
Proof.
  intros Hn Hd He. induction 1 as [o|o t o1 t' o2 Hs _ IH]; intros Ho; [done|].
  assert (Hstep : Forall E t /\ I o1).
  { destruct Hs as [o t r o1 Hr|o t r o1 Hr|o o1 Hst Hok].
    - by destruct (Hn o Ho _ _ Hr).
    - by destruct (Hd o Ho _ _ Hr).
    - split; [constructor|]. by eapply He. }
  destruct Hstep as [Ht Ho1]. destruct (IH Ho1). split; [by apply Forall_app|done].
Qed.

(** ** Ownership of the private network *)

Definition createdByController (o : OVHCluster) : bool :=
  conditions_IsTrue (CStatus_Conditions (OVHCluster_Status o)) NetworkCreatedByControllerCondition.

(** The specification gives the private network, or none is configured. *)
Definition givenNetwork (sp : OVHClusterSpec) : Prop :=
  match CSpec_NetworkConfig sp with
  | Some cfg => NetConfig_PrivateNetworkID cfg <> ""
  | None => True
  end.

Definition user_network (o : OVHCluster) : Prop :=
  createdByController o = false /\ givenNetwork (OVHCluster_Spec o).

(** An update that leaves the condition and the network configuration. *)
Ltac user_net :=
  lazymatch goal with
  | Hu : user_network _ |- user_network _ =>
      destruct Hu; split; unfold createdByController in *;
      cbn -[conditions_IsTrue conditions_Set] in *;
      repeat (case_match; cbn -[conditions_IsTrue conditions_Set]);
      rewrite ?IsTrue_Set_ne by done; by auto
  end.
Ltac close := first [user_net | untouched].

Lemma ensureNetwork_user scope cfg region :
  NetConfig_PrivateNetworkID cfg <> "" ->
  keeps (network_untouched (CScope_OVHClient scope)) user_network (ensureNetwork scope cfg region).
Proof.
  intros Hcfg. unfold ensureNetwork. apply strEqb_neq in Hcfg. rewrite Hcfg. cbn [negb].
  keeps_with close.
Qed.

Lemma reconcileNetwork_user scope :
  keeps (network_untouched (CScope_OVHClient scope)) user_network (reconcileNetwork scope).
Proof.
  unfold reconcileNetwork. apply keeps_read. intros o [Hc Hg]. unfold givenNetwork in Hg.
  destruct (CSpec_NetworkConfig (OVHCluster_Spec o)) as [cfg|]; [|by keeps_with close].
  apply keeps_bind; [by apply ensureNetwork_user|]. intros ?. keeps_with close.
Qed.
#[local] Hint Resolve reconcileNetwork_user : keeps.

Lemma ReconcileNormal_user scope :
  keeps (network_untouched (CScope_OVHClient scope)) user_network (ReconcileNormal scope).
Proof. keeps_with close. Qed.

Lemma deleteNetwork_user scope :
  keeps (network_untouched (CScope_OVHClient scope)) user_network (deleteNetwork scope).
Proof.
  unfold deleteNetwork. apply keeps_read. intros o [Hc _]. unfold createdByController in Hc.
  rewrite Hc. cbn [andb]. keeps_with close.
Qed.
#[local] Hint Resolve deleteNetwork_user : keeps.

Lemma ReconcileDelete_user scope :
  keeps (network_untouched (CScope_OVHClient scope)) user_network (ReconcileDelete scope).
Proof. keeps_with close. Qed.

(** C17.  A private network given by the user is neither created nor deleted,
    over the whole life of the cluster: starting from an object that no
    reconciliation has marked NetworkCreatedByController, and as long as its
    specification names a private network or configures none, every sequence of
    reconciliations (normal and deletion, whatever OVH answers) and of edits
    sends no POST to the network collection and no DELETE on any network. *)
Theorem user_network_never_touched scope o t o' :
  createdByController o = false -> givenNetwork (OVHCluster_Spec o) ->
  life scope givenNetwork o t o' ->
  Forall (network_untouched (CScope_OVHClient scope)) t /\ createdByController o' = false.
Proof.
  intros Hc Hg Hl.
  destruct (life_invariant scope givenNetwork (network_untouched (CScope_OVHClient scope))
              user_network o t o') as [Ht [Hc' _]]; [| | |exact Hl|by split|done].
  - apply ReconcileNormal_user.
  - apply ReconcileDelete_user.
  - intros o1 o2 [Hc1 _] Hst Hok. split; [|done]. unfold createdByController. by rewrite Hst.
Qed.
(** ** The ownership mark is never revoked *)

Definition owned (o : OVHCluster) : Prop := createdByController o = true.

Ltac owned_kept :=
  unfold owned, createdByController in *; cbn -[conditions_IsTrue conditions_Set] in *;
  repeat (case_match; cbn -[conditions_IsTrue conditions_Set]);
  first [ by rewrite ?IsTrue_Set_ne by done
        | by (rewrite IsTrue_Set; case_decide) ].

Lemma ReconcileNormal_owned scope :
  keeps (fun _ => True) owned (ReconcileNormal scope).
Proof. keeps_with ltac:(first [done | owned_kept]). Qed.

Lemma ReconcileDelete_owned scope :
  keeps (fun _ => True) owned (ReconcileDelete scope).
Proof. keeps_with ltac:(first [done | owned_kept]). Qed.

(** The mark NetworkCreatedByController is never cleared: once set, it
    holds after every sequence of reconciliations and edits, also when the
    network it was set for has vanished and another one is recorded. *)
Theorem ownership_never_revoked scope ok o t o' :
  createdByController o = true -> life scope ok o t o' -> createdByController o' = true.
Proof.
  intros Hc Hl.
  destruct (life_invariant scope ok (fun _ => True) owned o t o') as [_ Ho]; [| | |done..].
  - apply ReconcileNormal_owned.
  - apply ReconcileDelete_owned.
  - intros o1 o2 Ho1 Hst _. unfold owned, createdByController. by rewrite Hst.
Qed.
End life.

(** ** Witnesses *)

Lemma life_two `{CapiLib} scope ok o t1 o1 t2 o2 :
  step scope ok o t1 o1 -> step scope ok o1 t2 o2 -> life scope ok o (t1 ++ t2) o2.
Proof.
  intros H1 H2. rewrite <- (app_nil_r t2). econstructor; [exact H1|].
  econstructor; [exact H2|constructor].
Qed.

(** A reconciliation and a deletion of [o] on the healthy project. *)
Definition after_normal (o : OVHCluster) := demo_run healthy (ReconcileNormal demo_scope o).
Definition after_delete (o : OVHCluster) := demo_run healthy (ReconcileDelete demo_scope o).

Lemma demo_normal ok o :
  step demo_scope ok o (after_normal o).1 (after_normal o).2.2.
Proof.
  apply (step_normal _ _ _ _ (after_normal o).2.1). rewrite <- surjective_pairing. apply demo_runs.
Qed.
Lemma demo_delete ok o :
  step demo_scope ok o (after_delete o).1 (after_delete o).2.2.
Proof.
  apply (step_delete _ _ _ _ (after_delete o).2.1). rewrite <- surjective_pairing. apply demo_runs.
Qed.

Lemma user_network_never_touched_witness :
  createdByController (after_delete (after_normal (demo_object "net" false)).2.2).2.2 = false.
Proof.
  refine (proj2 (user_network_never_touched demo_scope (demo_object "net" false) _ _ _ _
                   (life_two _ _ _ _ _ _ _ (demo_normal _ _) (demo_delete _ _)))).
  - reflexivity.
  - vm_compute. discriminate.
Defined.

(** A cluster on the network "net-created" its controller created. *)
Definition owned_object : OVHCluster := (demo_object "" false) {{ OVHCluster_Status ::= fun s =>
  s {{ CStatus_NetworkID := "net-created";
       CStatus_Conditions := [cond NetworkCreatedByControllerCondition ConditionTrue
                                   NetworkCreatedByControllerCondition ""] }} }}.

Lemma ownership_never_revoked_witness :
  createdByController (after_delete (after_normal owned_object).2.2).2.2 = true.
Proof.
  refine (ownership_never_revoked demo_scope (fun _ => True) owned_object _ _ _
            (life_two _ _ _ _ _ _ _ (demo_normal _ _) (demo_delete _ _))).
  reflexivity.
Defined.

(** The project after its private network was removed by hand. *)
Definition no_network : Answers := {|
  on_get T path tg := match tg in target T return gores T with
                      | TPrivateNetwork => refused
                      | tg => healthy_get _ path tg
                      end;
  on_post := healthy_post; on_delete := fun _ => Ok tt |}.

Definition give_network (id : string) (o : OVHCluster) : OVHCluster :=
  o {{ OVHCluster_Spec := demo_spec id }}.

(** The mark outlives the network it was set for: there is a life of a
    cluster in which the created network vanishes, the user then names a network
    of their own in the specification, and the deletion of the cluster deletes
    that network. *)
Theorem given_network_deleted_after_replacement :
  exists t o1 o2,
    life demo_scope (fun _ => True) owned_object t o1 /\
    CSpec_NetworkConfig (OVHCluster_Spec o1) = Some (demo_netconfig "user-net") /\
    step demo_scope (fun _ => True) o1 (after_delete o1).1 o2 /\
    (Ev (ApiDelete (api demo_client) (networkPath demo_client "user-net")) (Ok tt)
      ∈ (after_delete o1).1).
Proof.
  set (r1 := demo_run no_network (ReconcileNormal demo_scope owned_object)).
  set (o1 := (after_normal (give_network "user-net" r1.2.2)).2.2).
  exists (r1.1 ++ [] ++ (after_normal (give_network "user-net" r1.2.2)).1 ++ []), o1,
    (after_delete o1).2.2.
  split; [|split; [|split]].
  - eapply life_step; [apply (step_normal _ _ _ _ r1.2.1); rewrite <- surjective_pairing;
      apply demo_runs|].
    apply (life_step _ _ _ [] (give_network "user-net" r1.2.2)); [by apply step_edit|].
    eapply life_step; [apply demo_normal|constructor].
  - by vm_compute.
  - apply demo_delete.
  - apply list_elem_of_In. vm_compute. repeat (first [left; reflexivity | right]).
Qed.
