(* ===== verification/ClusterDelete.v ===== *)
(** * ClusterDelete: the deletion of an OVHCluster

    What a run of [ReconcileDelete] guarantees when it removes the finalizer,
    and the cleanup of floating IPs. *)
From S2P Require Import Prelude.
From S2P Require Import GoStrings.
From S2P Require Import GoErrors.
From S2P Require Import OvhTypes.
From S2P Require Import K8sTypes.
From S2P Require Import ApiV1alpha2.
From S2P Require Import Effects.
From S2P Require Import OvhClient.
From S2P Require Import OvhClientSpec.
From S2P Require Import Hoare.
From S2P Require Import Naming.
From S2P Require Import Metrics.
From S2P Require Import CapiLib.
From S2P Require Import ClusterController.
From S2P Require Import ClusterLB.
From S2P Require Import ClusterReconcile.
From S2P Require Import Demo.
From S2P Require Import ClusterSafety.
#[local] Open Scope Z_scope.
#[local] Open Scope go_scope.

(** ** Floating IPs *)

Lemma for_fold_flag_runs {X} (l : list X) (body : X -> prog bool) b0 t b :
  runs (for_fold l (fun x requeue =>
          let* present := body x in Ret (if present then true else requeue)) b0) t b <->
  exists ts bs, t = concat ts /\ Forall3 (fun x t b => runs (body x) t b) l ts bs /\
                b = (b0 || existsb id bs)%bool.
Proof.
  revert b0 t. induction l as [|x l IH]; intros b0 t; cbn [for_fold].
  - split.
    + intros [-> ->]. exists [], []. cbn. rewrite orb_false_r. split_all. constructor.
    + intros (ts & bs & -> & Hf & ->). inversion Hf; subst. cbn. by rewrite orb_false_r.
  - split.
    + intros H. rinv. apply IH in H as (ts & bs & -> & Hf & ->).
      rewrite app_nil_r. eexists (_ :: ts), (_ :: bs). split_all.
      * constructor; eassumption.
      * cbn. destruct b0; by destruct_or?; case_match.
    + intros (ts & bs & -> & Hf & ->).
      apply Forall3_cons_inv_l in Hf as (t1 & ts' & b1 & bs' & -> & -> & Hb & Hf').
      apply runs_bind. exists t1, (concat ts'), (if b1 then true else b0). split_all.
      * apply runs_bind. exists t1, [], b1. by rewrite app_nil_r.
      * apply IH. exists ts', bs'. split_all. cbn. destruct b0, b1; done.
Qed.

(** [cleanupFloatingIPs] handles every captured floating IP once, in order,
    whatever happened to the previous ones, and asks for a retry exactly when at
    least one of them is still there. *)
Theorem cleanupFloatingIPs_spec scope fips t b :
  runs (cleanupFloatingIPs scope fips) t b <->
  exists ts bs,
    t = concat ts /\
    Forall3 (fun fip t b => runs (cleanupFloatingIP (CScope_OVHClient scope) fip) t b) fips ts bs /\
    b = existsb id bs.
Proof. unfold cleanupFloatingIPs. by rewrite for_fold_flag_runs. Qed.

(** A floating IP counts as gone when it cannot be read any more, or when it is
    detached and down. *)
Lemma cleanupFloatingIP_false c fip t :
  runs (cleanupFloatingIP c fip) t false ->
  exists r, within t (GetFloatingIP c fip) r /\
    match r with
    | Ok f => FloatingIP_AssociatedEntity f = None /\ FloatingIP_Status f = "down"
    | Err _ => True
    end.
Proof.
  intros H. unfold cleanupFloatingIP in H. rinv.
  eexists. split; [in_run|]. case_match; [|done].
  match goal with Hn : false = negb _ |- _ =>
    symmetry in Hn; apply negb_false_iff in Hn; unfold fipReaped in Hn end.
  case_match; [done|]. by str_simpl.
Qed.

(** ** The captured floating IPs *)

Lemma appendNew_elem l ids x : x ∈ appendNew l ids <-> x ∈ l \/ x ∈ ids.
Proof.
  revert l. induction ids as [|id ids IH]; intros l; cbn; [set_solver|].
  rewrite IH. case_bool_decide; set_solver.
Qed.

Lemma appendNew_nodup l ids : NoDup l -> NoDup (appendNew l ids).
Proof.
  revert l. induction ids as [|id ids IH]; intros l Hl; cbn; [done|].
  apply IH. case_bool_decide; [done|]. apply NoDup_app. split_all; [set_solver|].
  apply NoDup_singleton.
Qed.

Lemma recordedFip_spec status :
  NoDup (recordedFip status) /\
  (CStatus_FloatingIPID status <> "" -> CStatus_FloatingIPID status ∈ recordedFip status).
Proof.
  unfold recordedFip. case_match; str_simpl; [by split; [constructor|]|].
  split; [apply NoDup_singleton|by left].
Qed.

(** Before the load balancer is deleted, the controller captures, without
    duplicates, the recorded floating IP and every floating IP that the listing
    shows associated with the balancer. *)
Theorem captureFips_complete scope o t fips o' :
  runs (captureFips scope o) t (fips, o') ->
  o' = o /\ NoDup fips /\
  (CStatus_FloatingIPID (OVHCluster_Status o) <> "" ->
     CStatus_FloatingIPID (OVHCluster_Status o) ∈ fips) /\
  (CStatus_LoadBalancerID (OVHCluster_Status o) <> "" ->
     exists listing, within t (ListFloatingIPs (CScope_OVHClient scope)) listing /\
       forall l f, listing = Ok l -> f ∈ l ->
         associatedTo (CStatus_LoadBalancerID (OVHCluster_Status o)) f = true ->
         FloatingIP_ID f ∈ fips).
Proof.
  unfold captureFips, getStatus. intros H. rinv.
  destruct (recordedFip_spec (OVHCluster_Status o)) as [Hnd Hin].
  destruct (_ =s? "") eqn:Hlb in H; str_simpl; rinv.
  { split_all; by auto. }
  case_match; rinv.
  - split_all; [by apply appendNew_nodup| |].
    + intros Hid. apply appendNew_elem. auto.
    + intros _. eexists. split; [in_run|]. intros l f [= <-] Hf Ha.
      apply appendNew_elem. right. apply list_elem_of_fmap. exists f. split; [done|].
      apply list_elem_of_In, filter_In. by rewrite <- list_elem_of_In.
  - do 3 (split; [by auto|]). intros _. eexists. by split; [in_run|].
Qed.

(** The three-way outcome of a deletion. *)
Definition retries (r : outcome) : Prop := 0 < RequeueAfter r.1 \/ r.2 <> None.

Section deletion.
Context `{CapiLib}.

(** ** Steps that do not matter for the finalizer *)

Definition hasFinalizer (o : OVHCluster) : bool :=
  ContainsFinalizer (OVHCluster_ObjectMeta o) ClusterFinalizer.

(** [o'] is [o] up to the DNS record and the security groups. *)
Definition cleaned (o o' : OVHCluster) : Prop :=
  exists d m, o' = o {{ OVHCluster_Status ::= fun s =>
    s {{ CStatus_DNSRecordID := d; CStatus_SecurityGroupIDs := m }} }}.

Lemma cleaned_refl o : cleaned o o.
Proof.
  exists (CStatus_DNSRecordID (OVHCluster_Status o)), (CStatus_SecurityGroupIDs (OVHCluster_Status o)).
  done.
Qed.

Ltac cleaned_kept :=
  lazymatch goal with
  | Hc : cleaned _ ?s |- cleaned _ _ => destruct Hc as (? & ? & ->); eexists _, _; cbn; reflexivity
  end.

Lemma deleteDNS_cleaned scope o : keeps (fun _ => True) (cleaned o) (deleteDNS scope).
Proof. keeps_with ltac:(first [done | cleaned_kept]). Qed.

Lemma deleteSecurityGroups_cleaned scope o :
  keeps (fun _ => True) (cleaned o) (deleteSecurityGroups scope).
Proof. keeps_with ltac:(first [done | cleaned_kept]). Qed.

Lemma reads_only {A} (m : CM A) o t a o' :
  keeps (fun _ => True) (eq o) m -> runs (m o) t (a, o') -> o' = o.
Proof. intros Hk Hr. by destruct (keeps_run _ _ _ _ _ _ _ Hk eq_refl Hr). Qed.

Lemma deleteLB_run scope o t r o' :
  runs (deleteLB scope o) t (r, o') ->
  o' = o /\
  (r = None -> CStatus_LoadBalancerID (OVHCluster_Status o) <> "" ->
     within t (DeleteLoadBalancer (CScope_OVHClient scope)
                 (CStatus_LoadBalancerID (OVHCluster_Status o))) None).
Proof.
  intros Hr. split.
  { eapply reads_only; [|exact Hr]. keeps_with done. }
  intros -> Hlb. unfold deleteLB, getStatus in Hr. rinv.
  apply strEqb_neq in Hlb. rewrite Hlb in Hr. rinv.
  case_match; rinv. in_run.
Qed.

Lemma deleteNetwork_run scope o t r o' :
  runs (deleteNetwork scope o) t (r, o') ->
  o' = o /\
  match r with
  | Some out => retries out
  | None => createdByController o = true -> CStatus_NetworkID (OVHCluster_Status o) <> "" ->
      within t (DeletePrivateNetwork (CScope_OVHClient scope)
                  (CStatus_NetworkID (OVHCluster_Status o))) None
  end.
Proof.
  intros Hr. split.
  { eapply reads_only; [|exact Hr]. keeps_with done. }
  unfold deleteNetwork, getStatus in Hr. rinv. unfold createdByController.
  destruct (conditions_IsTrue _ _) eqn:Hc in Hr; rewrite Hc.
  2:{ cbn [andb] in Hr. rinv. by intros ?. }
  cbn [andb] in Hr. destruct (_ =s? "") eqn:Hn in Hr; cbn [negb] in Hr; str_simpl.
  { rinv. intros _ ?. congruence. }
  rinv. case_match; rinv; [left; by cbn|]. intros _ _. in_run.
Qed.

(** ** The finalizer *)

(** What a run that removes the finalizer has done for the object [o]. *)
Record released (scope : ClusterScope) (o : OVHCluster) (t : trace) : Prop := {
  released_lb :
    CStatus_LoadBalancerID (OVHCluster_Status o) <> "" ->
    within t (DeleteLoadBalancer (CScope_OVHClient scope)
                (CStatus_LoadBalancerID (OVHCluster_Status o))) None;
  released_fips :
    exists fips o1 o2, within t (captureFips scope o1) (fips, o2) /\ cleaned o o1 /\
      within t (cleanupFloatingIPs scope fips) false;
  released_network :
    createdByController o = true -> CStatus_NetworkID (OVHCluster_Status o) <> "" ->
    within t (DeletePrivateNetwork (CScope_OVHClient scope)
                (CStatus_NetworkID (OVHCluster_Status o))) None;
}.

Lemma deleteResources_run scope o t r o' :
  runs (deleteResources scope o) t (r, o') ->
  (retries r /\ cleaned o o') \/
  (r = (noRequeue, None) /\ hasFinalizer o' = false /\ released scope o t).
Proof.
  intros Hr. unfold deleteResources in Hr. rinv.
  match goal with H1 : runs (deleteDNS _ _) _ _ |- _ =>
    apply (keeps_run _ _ _ _ _ _ _ (deleteDNS_cleaned scope o) (cleaned_refl o)) in H1 as [_ H1] end.
  match goal with H2 : runs (deleteSecurityGroups _ _) _ _, H1 : cleaned _ _ |- _ =>
    apply (keeps_run _ _ _ _ _ _ _ (deleteSecurityGroups_cleaned scope o) H1) in H2 as [_ H2];
    clear H1 end.
  match goal with H3 : runs (captureFips _ _) _ _ |- _ =>
    pose proof H3 as Hfips; apply (reads_only (captureFips scope)) in Hfips as ->;
    [|keeps_with done] end.
  match goal with H4 : runs (deleteLB _ _) _ _ |- _ =>
    apply deleteLB_run in H4 as [-> Hlb] end.
  case_match; rinv; [left; split; [by right|done]|].
  match goal with H5 : runs (deleteOrphanLBs _ _) _ _ |- _ =>
    apply (reads_only (deleteOrphanLBs scope)) in H5 as ->; [|keeps_with done] end.
  case_match; rinv; [left; split; [left; by cbn|done]|].
  match goal with H6 : runs (deleteGateway _ _) _ _ |- _ =>
    apply (reads_only (deleteGateway scope)) in H6 as ->; [|keeps_with done] end.
  unfold orElse in Hr. rinv.
  match goal with H7 : runs (deleteNetwork _ _) _ _ |- _ =>
    apply deleteNetwork_run in H7 as [-> Hnet] end.
  match goal with Hc : cleaned o ?s |- _ => pose proof Hc as Hc'; destruct Hc' as (d & m & ->) end.
  case_match; [rinv; by left|]. unfold removeClusterFinalizer in Hr. rinv.
  right. split_all.
  - unfold hasFinalizer. cbn -[ContainsFinalizer RemoveFinalizer]. apply ContainsFinalizer_Remove.
  - intros Hid. specialize (Hlb eq_refl Hid).
    change (within x4 (DeleteLoadBalancer (CScope_OVHClient scope)
              (CStatus_LoadBalancerID (OVHCluster_Status o))) None) in Hlb. in_run.
  - do 3 eexists. split; [|split; [eassumption|]]; [|in_run].
    do 2 apply within_r. apply within_l, within_all. eassumption.
  - intros Hc Hid. specialize (Hnet Hc Hid).
    change (within x11 (DeletePrivateNetwork (CScope_OVHClient scope)
              (CStatus_NetworkID (OVHCluster_Status o))) None) in Hnet. in_run.
Qed.


(** Under the adoption policy "keep" nothing is deleted: no run of
    [ReconcileDelete] calls the OVH API, and the only change to the object is
    the removal of the finalizer. *)
Theorem keep_policy_calls_nothing scope o t r o' :
  keepPolicy o = true ->
  runs (ReconcileDelete scope o) t (r, o') ->
  Forall no_ovh t /\ r = (noRequeue, None) /\
  o' = o {{ OVHCluster_ObjectMeta ::= fun m => RemoveFinalizer m ClusterFinalizer }}.
Proof.
  intros Hk Hr. unfold ReconcileDelete, observeDuration in Hr. rinv. rewrite Hk in Hr1.
  unfold removeClusterFinalizer in Hr1. rinv. split; [|done].
  cbn. repeat constructor.
Qed.
End deletion.

(** ** Witnesses *)

Definition deleting_object : OVHCluster := (demo_object "net" true) {{ OVHCluster_Status ::= fun s =>
  s {{ CStatus_NetworkID := "net"; CStatus_LoadBalancerID := "lb-1"; CStatus_FloatingIPID := "fip-1" }} }}.

Lemma captureFips_complete_witness :
  NoDup ["fip-1"].
Proof.
  refine (proj1 (proj2 (captureFips_complete demo_scope deleting_object
    (demo_run healthy (captureFips demo_scope deleting_object)).1 ["fip-1"] deleting_object _))).
  apply exec_runs_eq with (h := demo_env healthy) (w := tt). reflexivity.
Defined.


Definition kept_object : OVHCluster := deleting_object {{ OVHCluster_ObjectMeta ::= fun m =>
  m {{ Annotations := {[ adoptionPolicyAnnotation := "keep" ]} }} }}.

Lemma keep_policy_calls_nothing_witness :
  Forall no_ovh (after_delete kept_object).1.
Proof.
  refine (proj1 (keep_policy_calls_nothing demo_scope kept_object _ (after_delete kept_object).2.1
                   (after_delete kept_object).2.2 _ _)).
  - reflexivity.
  - rewrite <- surjective_pairing. apply demo_runs.
Defined.
