(* ===== verification/ClusterNormal.v ===== *)
(** * ClusterNormal: the normal reconciliation of an OVHCluster

    When nothing is created, when the cluster is declared ready, what happens to
    the control plane endpoint, and the network and security group steps. *)
From S2P Require Import Prelude.
From S2P Require Import GoStrings.
From S2P Require Import GoErrors.
From S2P Require Import OvhTypes.
From S2P Require Import K8sTypes.
From S2P Require Import ApiV1alpha2.
From S2P Require Import Effects.
From S2P Require Import OvhClient.
From S2P Require Import OvhClientSpec.
From S2P Require Import Hoare.
From S2P Require Import Naming.
From S2P Require Import Metrics.
From S2P Require Import CapiLib.
From S2P Require Import ClusterController.
From S2P Require Import ClusterLB.
From S2P Require Import ClusterReconcile.
From S2P Require Import Demo.
From S2P Require Import ClusterSafety.
From S2P Require Import ClusterDelete.
From Stdlib Require Import Ascii.
#[local] Open Scope Z_scope.
#[local] Open Scope go_scope.

Section normal.
Context `{CapiLib}.

(** Nothing is created before the finalizer is on the object: the first
    reconciliation of a cluster without finalizer calls no OVH API, adds the
    finalizer, changes nothing else and asks for nothing more. *)
Theorem no_call_before_finalizer scope o t r o' :
  ContainsFinalizer (OVHCluster_ObjectMeta o) ClusterFinalizer = false ->
  DeletionTimestamp (OVHCluster_ObjectMeta o) = None ->
  runs (ReconcileNormal scope o) t (r, o') ->
  Forall no_ovh t /\ r = (noRequeue, None) /\
  o' = o {{ OVHCluster_ObjectMeta ::= fun m => AddFinalizer m ClusterFinalizer }}.
Proof.
  intros Hf Hd Hr. unfold ReconcileNormal, normalBody, observeDuration, observeReady in Hr.
  rinv. rewrite Hf, Hd in Hr1. cbn in Hr1. destruct Hr1 as [-> [= -> ->]].
  split; [|done].
  cbn. repeat constructor.
Qed.

(** ** Readiness *)

Definition condTrue (ty : string) (o : OVHCluster) : Prop :=
  conditions_IsTrue (CStatus_Conditions (OVHCluster_Status o)) ty = true.

(** The step [m] keeps the condition [ty] true. *)
Ltac cond_kept :=
  unfold condTrue in *; cbn -[conditions_IsTrue conditions_Set] in *;
  repeat (case_match; cbn -[conditions_IsTrue conditions_Set]);
  first [ by rewrite ?IsTrue_Set_ne by done
        | by (rewrite IsTrue_Set; case_decide) ].
Ltac cond_steps := keeps_with ltac:(first [done | cond_kept]).

Lemma setCondition_true ty reason msg s t a s' :
  runs (setCondition ty ConditionTrue reason msg s) t (a, s') -> condTrue ty s'.
Proof.
  intros [_ [= _ ->]]. unfold condTrue. cbn -[conditions_IsTrue conditions_Set].
  by rewrite IsTrue_Set, decide_True.
Qed.
#[local] Hint Resolve setCondition_true : go.

(** Each step, when it succeeds, leaves its condition true. *)
Lemma reconcileCredentials_true scope s t s' :
  runs (reconcileCredentials scope s) t (None, s') -> condTrue OVHConnectionReadyCondition s'.
Proof.
  intros Hr. unfold reconcileCredentials in Hr. rinv. case_match; rinv.
  eauto with go.
Qed.

Lemma reconcileNetwork_true scope s t s' :
  runs (reconcileNetwork scope s) t (None, s') -> condTrue NetworkReadyCondition s'.
Proof.
  intros Hr. unfold reconcileNetwork, getSpec, getStatus in Hr. rinv.
  destruct (CSpec_NetworkConfig _) as [cfg|]; rinv.
  2:{ unfold networkReady in *. eauto with go. }
  case_match; rinv. case_match; rinv; [|case_match; rinv].
  destruct (negb _) in Hr; rinv. case_match; rinv. unfold networkReady in *. eauto with go.
Qed.

(** The load balancer step succeeds without delay only through [lbReady]. *)
Definition lbDone (o : OVHCluster) : Prop :=
  condTrue LoadBalancerReadyCondition o /\
  CStatus_LoadBalancerID (OVHCluster_Status o) <> "".

Lemma createNewLB_retries scope s t r s' :
  runs (createNewLB scope s) t (r, s') -> retries r.
Proof.
  intros Hr. unfold createNewLB, createLB, getSpec, getStatus in Hr. rinv.
  case_match; rinv; [|by right].
  destruct (_ || _) in Hr; rinv; [by right|].
  case_match; rinv; [|by right].
  destruct (_ =s? "") in Hr; rinv; [by right|].
  case_match; rinv; [by left|by right].
Qed.

(** The steps on the ports and the floating IP keep the load balancer. *)
Definition onLB (id : string) (o : OVHCluster) : Prop :=
  CStatus_LoadBalancerID (OVHCluster_Status o) = id.

Ltac onLB_kept :=
  unfold onLB in *; cbn in *; repeat (case_match; cbn in * ); done.

Lemma handleExistingLB_onLB scope lb id :
  keeps (fun _ => True) (onLB id) (handleExistingLB scope lb).
Proof. keeps_with ltac:(first [done | onLB_kept]). Qed.

Lemma handleExistingLB_done scope lb s t r s' :
  runs (handleExistingLB scope lb s) t (r, s') ->
  retries r \/ condTrue LoadBalancerReadyCondition s'.
Proof.
  intros Hr. unfold handleExistingLB, getSpec, lbReady in Hr.
  destruct (negb _) in Hr; rinv; [left; by left|].
  case_match; rinv; [left; by right|]. case_match; rinv; [left; by right|].
  destruct (_ =s? "") in Hr; rinv; [eauto with go|].
  case_match; rinv; [|left; by right].
  destruct (_ =s? "") in Hr; rinv; [left; by left|eauto with go].
Qed.

Lemma reconcileLoadBalancer_done scope s t r s' :
  runs (reconcileLoadBalancer scope s) t (r, s') -> retries r \/ lbDone s'.
Proof.
  intros Hr. unfold reconcileLoadBalancer, getStatus in Hr. rinv.
  destruct (_ =s? "") eqn:Hid in Hr; [left; by eapply createNewLB_retries|]. rinv.
  case_match; rinv.
  - pose proof Hr as Hlb. apply (keeps_run _ _ _ _ _ _ _ (handleExistingLB_onLB _ _ _) eq_refl) in Hlb as [_ Hlb].
    apply handleExistingLB_done in Hr as [Hret|Hc]; [by left|].
    right. split; [done|]. rewrite Hlb. by str_simpl.
  - case_match; rinv; [left; by eapply createNewLB_retries|left; by right].
Qed.

Definition ready (o : OVHCluster) : bool := CStatus_Ready (OVHCluster_Status o).

(** Everything a ready cluster promises. *)
Record provisioned (o : OVHCluster) : Prop := {
  prov_ready : ready o = true;
  prov_init : CStatus_Initialization (OVHCluster_Status o) = {| Provisioned := Some true |};
  prov_conn : condTrue OVHConnectionReadyCondition o;
  prov_net : condTrue NetworkReadyCondition o;
  prov_lb : condTrue LoadBalancerReadyCondition o;
  prov_infra : condTrue InfrastructureReadyCondition o;
  prov_lbid : CStatus_LoadBalancerID (OVHCluster_Status o) <> "";
}.

(** A stage of the reconciliation: the ready flag is [b] and the conditions of
    the steps behind are true. *)
Definition stage (b : bool) (tys : list string) (o : OVHCluster) : Prop :=
  ready o = b /\ Forall (fun ty => condTrue ty o) tys.

Ltac stage_kept :=
  lazymatch goal with
  | Hs : stage _ _ ?s |- stage _ _ _ =>
      destruct Hs as [? Hs]; split;
      [ unfold ready in *; cbn in *; repeat (case_match; cbn in * ); done
      | rewrite ?Forall_cons, ?Forall_nil in *; destruct_and?; split_and?; try done; cond_kept ]
  end.
Ltac stage_steps := keeps_with ltac:(first [done | stage_kept]).

Lemma credentials_stage scope b : keeps (fun _ => True) (stage b []) (reconcileCredentials scope).
Proof. stage_steps. Qed.
Lemma network_stage scope b :
  keeps (fun _ => True) (stage b [OVHConnectionReadyCondition]) (reconcileNetwork scope).
Proof. stage_steps. Qed.

Abbreviation connNet := [NetworkReadyCondition; OVHConnectionReadyCondition].
Lemma fds_stage scope b : keeps (fun _ => True) (stage b connNet) (reconcileFailureDomains scope).
Proof. stage_steps. Qed.
Lemma sgs_stage scope b : keeps (fun _ => True) (stage b connNet) (reconcileSecurityGroups scope).
Proof. stage_steps. Qed.
Lemma lb_stage scope b : keeps (fun _ => True) (stage b connNet) (reconcileLoadBalancer scope).
Proof. stage_steps. Qed.

Definition allDone (o : OVHCluster) : Prop :=
  condTrue OVHConnectionReadyCondition o /\ condTrue NetworkReadyCondition o /\ lbDone o.
Lemma dns_keep scope : keeps (fun _ => True) allDone (reconcileDNS scope).
Proof.
  keeps_with ltac:(first [done | match goal with Hc : allDone _ |- allDone _ =>
    destruct Hc as (? & ? & ? & ?); repeat split; solve [done | cond_kept] end]).
Qed.

Lemma markReady_run s t a s' :
  runs (markReady s) t (a, s') -> allDone s -> provisioned s'.
Proof.
  intros Hr (Hc & Hn & Hl & Hid). unfold markReady, setCondition, setStatus in Hr. rinv.
  split; try done; try cond_kept.
Qed.

(** Push a stage through the run of a step, and extend it. *)
Ltac through lem Hs Hr := apply (keeps_run _ _ _ _ _ _ _ lem Hs) in Hr as [_ Hr].

(** Steps 3 to 6 from a state in which the network is ready. *)
Lemma lastSteps_run scope b s t r s' :
  stage b connNet s ->
  runs ((do! reconcileFailureDomains scope in
         do! reconcileSecurityGroups scope in
         let! r := reconcileLoadBalancer scope in
         let '(result, err) := r : outcome in
         match err with
         | Some _ => mret (result, err)
         | None => if 0 <? RequeueAfter result then mret (result, err)
                   else do! reconcileDNS scope in
                        do! markReady in
                        mret (requeue requeueTimeLong, None)
         end) s) t (r, s') ->
  (r = (requeue requeueTimeLong, None) /\ provisioned s') \/ (retries r /\ ready s' = b).
Proof.
  intros Hs Hr. rinv. through (fds_stage scope b) Hs Hr0. through (sgs_stage scope b) Hr0 Hr1.
  pose proof Hr2 as Hlb. through (lb_stage scope b) Hr1 Hlb. destruct Hlb as [Hb Hcn].
  apply reconcileLoadBalancer_done in Hr2. destruct x8 as [res [err|]].
  { rinv. right. by split; [right|]. }
  destruct (0 <? RequeueAfter res) eqn:Hz; [rinv; right; split; [left; cbn; lia|done]|].
  destruct Hr2 as [[?|?]|Hl]; [cbn in *; lia|done|]. rinv. left. split; [done|].
  rewrite !Forall_cons in Hcn. destruct Hcn as (? & ? & _).
  eapply markReady_run; [exact Hr3|].
  refine (proj2 (keeps_run _ allDone _ _ _ _ _ (dns_keep scope) _ Hr2)). by split.
Qed.

Lemma reconcileInfrastructure_run scope o t r o' :
  runs (reconcileInfrastructure scope o) t (r, o') ->
  (r = (requeue requeueTimeLong, None) /\ provisioned o') \/ (retries r /\ ready o' = ready o).
Proof.
  intros Hr. unfold reconcileInfrastructure in Hr.
  apply runs_mbind in Hr as (t1 & t2 & [err|] & s1 & -> & H1 & Hr).
  { pose proof (conj eq_refl (Forall_nil_2 _) : stage (ready o) [] o) as Hs.
    through (credentials_stage scope (ready o)) Hs H1. rinv. right.
    split; [by right|apply H1]. }
  pose proof (conj eq_refl (Forall_nil_2 _) : stage (ready o) [] o) as Hs.
  pose proof H1 as Hs1. through (credentials_stage scope (ready o)) Hs Hs1.
  apply reconcileCredentials_true in H1. destruct Hs1 as [Hb1 _].
  assert (Hs1 : stage (ready o) [OVHConnectionReadyCondition] s1) by (split; [done|by repeat constructor]).
  apply runs_mbind in Hr as (t3 & t4 & err & s2 & -> & H2 & Hr).
  pose proof H2 as Hs2. through (network_stage scope (ready o)) Hs1 Hs2.
  destruct err as [err|].
  { destruct Hs2 as [Hb2 _]. case_match; rinv; right; split; try done; [by left|by right]. }
  apply reconcileNetwork_true in H2. destruct Hs2 as [Hb2 Hc2].
  eapply lastSteps_run; [|exact Hr]. split; [done|]. by constructor.
Qed.

End normal.

(** ** subnetRange *)

(** [s] has no byte [c]. *)
Definition free (c : ascii) (s : string) : Prop :=
  sall (fun d => negb (bool_decide (d = c))) s = true.

Lemma free_cons c d s : free c (String d s) <-> d <> c /\ free c s.
Proof. unfold free. cbn. by rewrite andb_true_iff, negb_true_iff, bool_decide_eq_false. Qed.

Lemma free_app c a b : free c (a +:+ b) <-> free c a /\ free c b.
Proof. unfold free. by rewrite sall_app, andb_true_iff. Qed.

Lemma upto_last_dot_none s : free "." s -> upto_last_dot s = None.
Proof.
  induction s as [|d s IH]; [done|]. intros [Hd Hs]%free_cons. cbn.
  by rewrite IH, bool_decide_false.
Qed.

Lemma upto_last_dot_app base host :
  free "." host -> upto_last_dot (base +:+ "." +:+ host) = Some (base +:+ ".").
Proof.
  intros Hh. induction base as [|d base IH]; cbn.
  - by rewrite upto_last_dot_none.
  - cbn in IH. by rewrite IH.
Qed.

Lemma upto_last_dot_some s p :
  upto_last_dot s = Some p ->
  exists base host, s = base +:+ "." +:+ host /\ free "." host /\ p = base +:+ ".".
Proof.
  revert p. induction s as [|d s IH]; intros p; [done|]. cbn.
  destruct (upto_last_dot s) as [q|] eqn:E.
  - intros [= <-]. destruct (IH q eq_refl) as (base & host & -> & Hh & ->).
    by exists (String d base), host.
  - case_bool_decide as Hd; [|done]. intros [= <-]. subst d. exists "", s. split_all.
    clear IH. induction s as [|d s IH]; [done|]. cbn in E.
    destruct (upto_last_dot s); [done|]. case_bool_decide; [done|].
    apply free_cons. split; [done|]. by apply IH.
Qed.

(** [cidr] is an address [base.host] with a 24-bit mask. *)
Definition is_24 (cidr base host : string) : Prop :=
  cidr = base +:+ "." +:+ host +:+ "/24" /\ free "/" base /\ free "/" host /\ free "." host.

Lemma subnetRange_24 cidr base host :
  is_24 cidr base host -> subnetRange cidr = (base +:+ ".2", base +:+ ".254").
Proof.
  intros (-> & Hb & Hs & Hd). unfold subnetRange.
  replace (base +:+ "." +:+ host +:+ "/24")
    with ((base +:+ "." +:+ host) +:+ String "/" "24") by by rewrite !sapp_assoc.
  rewrite cut_app; [|by apply free_app; split; [|apply free_app]].
  change (negb ("24" =s? "24")) with false. cbn iota.
  pose proof (upto_last_dot_app base host Hd) as Hu. cbn [String.append] in Hu |- *.
  rewrite Hu. by rewrite !sapp_assoc.
Qed.

Lemma subnetRange_cases cidr :
  subnetRange cidr = ("", "") \/ exists base host, is_24 cidr base host.
Proof.
  unfold subnetRange. destruct (cut "/" cidr) as [[prefix mask]|] eqn:Hc; [|by left].
  destruct (mask =s? "24") eqn:Hm; [|by left]. cbn [negb]. str_simpl. subst mask.
  destruct (upto_last_dot prefix) as [p|] eqn:Hp; [|by left]. right.
  apply upto_last_dot_some in Hp as (base & host & -> & Hh & ->).
  pose proof (cut_some_free _ _ _ _ Hc) as Hf. apply cut_some in Hc.
  apply free_app in Hf as [Hf1 Hf2]. apply free_app in Hf2 as [_ Hf2].
  exists base, host. split_all. by rewrite Hc, !sapp_assoc.
Qed.

(** The DHCP range of an address [base.host/24] is [base.2] to [base.254],
    and anything else has no range. *)
Theorem subnetRange_spec cidr a b :
  subnetRange cidr = (a, b) <->
  (exists base host, is_24 cidr base host /\ a = base +:+ ".2" /\ b = base +:+ ".254") \/
  ((forall base host, ~ is_24 cidr base host) /\ a = "" /\ b = "").
Proof.
  split.
  - intros Hr. destruct (subnetRange_cases cidr) as [He|(base & host & Hb)].
    + right. rewrite He in Hr. simplify_eq. split_all.
      intros base host Hb%subnetRange_24. rewrite Hb in He. by destruct base.
    + left. exists base, host. apply subnetRange_24 in Hb as Hb'. rewrite Hb' in Hr.
      by simplify_eq.
  - intros [(base & host & Hb & -> & ->)|(Hn & -> & ->)]; [by eapply subnetRange_24|].
    destruct (subnetRange_cases cidr) as [He|(base & host & Hb)]; [done|by destruct (Hn base host)].
Qed.

(** ** The control plane endpoint *)

Section endpoint.
Context `{CapiLib}.

(** The specification is [sp], or [sp] with the endpoint it lacked. *)
Definition specFrom (sp : OVHClusterSpec) (o : OVHCluster) : Prop :=
  OVHCluster_Spec o = sp \/
  (Host (CSpec_ControlPlaneEndpoint sp) = "" /\
   exists h, h <> "" /\
     OVHCluster_Spec o = sp {{ CSpec_ControlPlaneEndpoint :=
                                 {| Host := h; Port := apiServerLBPort |} }}).

Lemma setEndpoint_from E sp h : keeps E (specFrom sp) (setEndpoint h).
Proof.
  apply keeps_modify. intros o Ho. destruct (_ && _) eqn:Hb; [|done]. str_simpl.
  destruct Ho as [Ho|(He & h' & Hh & Ho)].
  - right. rewrite Ho in *. split; [done|]. exists h. by rewrite <- Ho.
  - exfalso. rewrite Ho in *. cbn in *. congruence.
Qed.
#[local] Hint Resolve setEndpoint_from : keeps.

Lemma specFrom_eq sp o o' : OVHCluster_Spec o' = OVHCluster_Spec o -> specFrom sp o -> specFrom sp o'.
Proof. unfold specFrom. by intros ->. Qed.

Ltac spec_kept :=
  match goal with Hs : specFrom _ ?s |- specFrom _ _ =>
    apply (specFrom_eq _ s); [cbn; repeat (case_match; cbn); done|exact Hs] end.

(** The control plane endpoint is written once: a normal reconciliation
    leaves the specification of the cluster as it is, except that it fills an
    endpoint without host with a non-empty host and port 6443. *)
Theorem endpoint_set_once scope o t r o' :
  runs (ReconcileNormal scope o) t (r, o') -> specFrom (OVHCluster_Spec o) o'.
Proof.
  intros Hr. refine (proj2 (keeps_run (fun _ => True) _ _ _ _ _ _ _ _ Hr)); [|by left].
  keeps_with ltac:(first [done | spec_kept]).
Qed.

Lemma lbReady_host h s t r s' :
  runs (lbReady h s) t (r, s') ->
  Host (CSpec_ControlPlaneEndpoint (OVHCluster_Spec s)) = "" ->
  Host (CSpec_ControlPlaneEndpoint (OVHCluster_Spec s')) = h.
Proof.
  intros Hr He. unfold lbReady, setCondition, setStatus, setEndpoint in Hr. rinv. cbn.
  destruct (h =s? "") eqn:Hh; cbn.
  - str_simpl. congruence.
  - by rewrite He.
Qed.

Lemma specSame_port scope n p l q sp :
  keeps (fun _ => True) (fun s => OVHCluster_Spec s = sp) (reconcileLBPort scope n p l q).
Proof. keeps_with ltac:(first [done | cbn in *; done]). Qed.
Lemma specSame_fip scope lb sp :
  keeps (fun _ => True) (fun s => OVHCluster_Spec s = sp) (reconcileFloatingIP scope lb).
Proof. keeps_with ltac:(first [done | cbn in *; done]). Qed.

(** With a floating IP network configured, the private address of the load
    balancer is never published: when the endpoint is set, its host is the
    address [reconcileFloatingIP] answered in the same run. *)
Theorem endpoint_is_public scope lb o t r o' :
  LBConfig_FloatingNetworkID (CSpec_LoadBalancerConfig (OVHCluster_Spec o)) <> "" ->
  Host (CSpec_ControlPlaneEndpoint (OVHCluster_Spec o)) = "" ->
  runs (handleExistingLB scope lb o) t (r, o') ->
  Host (CSpec_ControlPlaneEndpoint (OVHCluster_Spec o')) <> "" ->
  exists o1 o2,
    within t (reconcileFloatingIP scope lb o1)
      (Ok (Host (CSpec_ControlPlaneEndpoint (OVHCluster_Spec o'))), o2).
Proof.
  intros Hf He Hr Hn. apply strEqb_neq in Hf.
  unfold handleExistingLB, getSpec in Hr. destruct (negb _) in Hr.
  { unfold setCondition, setStatus in Hr. rinv; cbn in Hn; congruence. }
  apply runs_mbind in Hr as (t1 & t2 & e1 & s1 & -> & H1 & Hr).
  apply (keeps_run _ _ _ _ _ _ _ (specSame_port _ _ _ _ _ _) eq_refl) in H1 as [_ H1].
  destruct e1; [rinv; congruence|].
  apply runs_mbind in Hr as (t3 & t4 & e2 & s2 & -> & H2 & Hr).
  apply (keeps_run _ _ _ _ _ _ _ (specSame_port _ _ _ _ _ _) H1) in H2 as [_ H2].
  destruct e2; [rinv; congruence|]. rinv. rewrite H2, Hf in Hr. rinv.
  match goal with Hp : runs (reconcileFloatingIP _ _ _) _ _ |- _ => rename Hp into H3 end.
  pose proof (keeps_run _ _ _ _ _ _ _ (specSame_fip scope lb _) H2 H3) as [_ Hs3].
  case_match; [|rinv; congruence]. destruct (_ =s? "") in Hr; [rinv; congruence|].
  apply lbReady_host in Hr; [|congruence]. rewrite Hr. do 2 eexists.
  apply within_r, within_r, within_r, within_l, within_all. eassumption.
Qed.
End endpoint.

(** ** Network and security groups *)

Section steps.
Context `{CapiLib}.

Definition networkID (o : OVHCluster) : string := CStatus_NetworkID (OVHCluster_Status o).

Lemma networkID_conditions o f :
  networkID (o {{ OVHCluster_Status ::= fun s => s {{ CStatus_Conditions ::= f }} }}) = networkID o.
Proof. done. Qed.

(** The network the first step settles on. *)
Lemma ensureNetwork_run scope cfg rg o t o' :
  runs (ensureNetwork scope cfg rg o) t (None, o') ->
  OVHCluster_Spec o' = OVHCluster_Spec o /\
  (networkID o <> "" -> networkID o' = networkID o) /\
  (networkID o = "" -> NetConfig_PrivateNetworkID cfg <> "" ->
     networkID o' = NetConfig_PrivateNetworkID cfg).
Proof.
  intros Hr. unfold ensureNetwork, getStatus in Hr. rinv. unfold networkID.
  destruct (_ =s? "") eqn:Hn in Hr; cbn [negb] in Hr; str_simpl.
  2:{ rinv. by split_all. }
  destruct (_ =s? "") eqn:Hg in Hr; cbn [negb] in Hr; str_simpl.
  2:{ unfold setStatus in Hr. rinv. by split_all. }
  rinv. case_match; rinv. unfold setCondition, setStatus in *. rinv. by split_all.
Qed.

Lemma ensureNetwork_not_waiting scope cfg rg o t o' :
  ~ runs (ensureNetwork scope cfg rg o) t (Some errNetworkNotReady, o').
Proof.
  intros Hr. unfold ensureNetwork, getStatus in Hr. rinv.
  destruct (negb _) in Hr; rinv. destruct (negb _) in Hr; rinv. case_match; rinv.
Qed.

Lemma ensureSubnet_not_waiting scope cfg rg o t o' :
  ~ runs (ensureSubnet scope cfg rg o) t (Some errNetworkNotReady, o').
Proof.
  intros Hr. unfold ensureSubnet, getStatus in Hr. rinv.
  destruct (negb _) in Hr; rinv. case_match; rinv. case_match; rinv.
  destruct (_ =s? "") in Hr; rinv. case_match; rinv. case_match; rinv.
Qed.

Lemma ensureSubnet_network scope cfg rg id :
  keeps (fun _ => True) (fun o => networkID o = id) (ensureSubnet scope cfg rg).
Proof. keeps_with ltac:(first [done | unfold networkID in *; cbn in *; done]). Qed.

(** The network step succeeds only on a network that OVH reports ACTIVE in
    the region of the cluster: the recorded one, else the one the user gave, else
    a new one; and it asks to wait (without an error) only when OVH has answered
    that the network is not ACTIVE in the region. *)
Theorem reconcileNetwork_outcome scope cfg o t e o' :
  CSpec_NetworkConfig (OVHCluster_Spec o) = Some cfg ->
  runs (reconcileNetwork scope o) t (e, o') ->
  let answered id net := within t (GetPrivateNetwork (CScope_OVHClient scope) id) (Ok net) in
  let rg := CSpec_Region (OVHCluster_Spec o) in
  match e with
  | None =>
      (networkID o <> "" -> networkID o' = networkID o) /\
      (networkID o = "" -> NetConfig_PrivateNetworkID cfg <> "" ->
         networkID o' = NetConfig_PrivateNetworkID cfg) /\
      condTrue NetworkReadyCondition o' /\
      exists net, answered (networkID o') net /\ regionStatus net rg = "ACTIVE"
  | Some err =>
      err = errNetworkNotReady ->
      exists id net, answered id net /\ regionStatus net rg <> "ACTIVE"
  end.
Proof.
  intros Hcfg Hr answered rg. unfold rg. destruct e as [err|].
  - intros ->. unfold reconcileNetwork, getSpec, getStatus in Hr. rinv. rewrite Hcfg in Hr. rinv.
    case_match; rinv; [exfalso; by eapply ensureNetwork_not_waiting|].
    case_match; rinv; [|case_match; rinv].
    destruct (regionStatus _ _ =s? "ACTIVE") eqn:Hs in Hr; cbn [negb] in Hr; str_simpl; rinv.
    + case_match; rinv. exfalso. by eapply ensureSubnet_not_waiting.
    + match goal with Hg : runs (GetPrivateNetwork _ ?id) _ (Ok ?n) |- _ => exists id, n end.
      unfold answered. split; [in_run|done].
  - pose proof (reconcileNetwork_true _ _ _ _ Hr) as Hc.
    unfold reconcileNetwork, getSpec, getStatus, networkReady in Hr. rinv. rewrite Hcfg in Hr. rinv.
    case_match; rinv. case_match; rinv; [|case_match; rinv].
    destruct (regionStatus _ _ =s? "ACTIVE") eqn:Hs in Hr; cbn [negb] in Hr; str_simpl; rinv.
    case_match; rinv.
    match goal with He : runs (ensureNetwork _ _ _ _) _ _ |- _ =>
      apply ensureNetwork_run in He as (Hsp & Hk & Hg) end.
    match goal with He : runs (ensureSubnet _ _ _ _) _ _ |- _ =>
      apply (keeps_run _ _ _ _ _ _ _ (ensureSubnet_network _ _ _ _) eq_refl) in He as [_ He] end.
    unfold setCondition, setStatus in *. rinv. rewrite !networkID_conditions, Hr2.
    do 3 (split; [done|]). eexists. split; [|exact Hs]. unfold answered, networkID. in_run.
Qed.

(** ** Security groups *)

Definition groupIDs (o : OVHCluster) : gmap string string :=
  CStatus_SecurityGroupIDs (OVHCluster_Status o).
Definition recordedGroups (groups : list OVHSecurityGroup) (o : OVHCluster) : Prop :=
  Forall (fun g => is_Some (groupIDs o !! SecurityGroupSpec_Name g)) groups.

Lemma recordedGroups_set groups o g id :
  recordedGroups groups o ->
  recordedGroups (groups ++ [g])
    (o {{ OVHCluster_Status ::= fun s => s {{ CStatus_SecurityGroupIDs ::= fun m =>
            <[SecurityGroupSpec_Name g := id]> m }} }}).
Proof.
  unfold recordedGroups, groupIDs. cbn. intros Hg. apply Forall_app. split.
  - eapply Forall_impl; [exact Hg|]. intros g'. cbn. rewrite lookup_insert_is_Some'. auto.
  - repeat constructor. rewrite lookup_insert_eq. by eexists.
Qed.

Lemma reconcileSecurityGroup_records scope byName g d o :
  recordedGroups d o ->
  triple (fun _ => True) (reconcileSecurityGroup scope byName g o)
    (fun '(r, o') => r = None -> recordedGroups (d ++ [g]) o').
Proof.
  intros Hd. apply triple_result. intros t [r o'] Hr ->.
  unfold reconcileSecurityGroup, getStatus in Hr. rinv.
  destruct (_ =s? "") eqn:Hn in Hr; cbn [negb] in Hr; str_simpl.
  - case_match; rinv.
    + unfold setSecurityGroupID, setStatus in *. rinv. by apply recordedGroups_set.
    + rinv. case_match; rinv. unfold setSecurityGroupID, setStatus in *. rinv.
      match goal with Hf : runs (for_each _ _ ?s) _ _ |- _ =>
        apply (reads_only (for_each _ _)) in Hf as ->; [|keeps_with done] end.
      by apply recordedGroups_set.
  - rinv. unfold recordedGroups, groupIDs in *. apply Forall_app. split; [done|].
    repeat constructor. destruct (_ !! _) eqn:Hl in Hn; [|done]. by rewrite Hl.
Qed.

(** When the security group step succeeds, every security group of the
    specification has an identifier recorded in the status. *)
Theorem reconcileSecurityGroups_complete scope o t o' :
  runs (reconcileSecurityGroups scope o) t (None, o') ->
  recordedGroups (CSpec_SecurityGroups (OVHCluster_Spec o)) o'.
Proof.
  intros Hr. unfold reconcileSecurityGroups, getSpec in Hr. rinv.
  destruct (CSpec_SecurityGroups _) as [|g gs] eqn:Hg; rinv; [constructor|].
  case_match; rinv. rewrite <- (app_nil_l (g :: gs)).
  refine (triple_run _ _ _ _ _ (for_each_err_inv (fun _ => True) (g :: gs) _
            (fun d s => recordedGroups d s) _ [] _ _) Hr eq_refl).
  - constructor.
  - intros g' d s Hd. by apply reconcileSecurityGroup_records.
Qed.
End steps.

(** ** Witnesses *)

Definition fresh_object : OVHCluster := (demo_object "net" false) {{ OVHCluster_ObjectMeta ::= fun m =>
  m {{ Finalizers := [] }} }}.

Ltac demo_run_of := rewrite <- surjective_pairing; apply demo_runs.

Lemma no_call_before_finalizer_witness :
  Forall no_ovh (after_normal fresh_object).1.
Proof.
  refine (proj1 (no_call_before_finalizer demo_scope fresh_object _ (after_normal fresh_object).2.1
                   (after_normal fresh_object).2.2 _ _ _)); [reflexivity..|demo_run_of].
Defined.

(** A cluster whose load balancer is recorded. *)
Definition running_object : OVHCluster := (demo_object "net" false) {{ OVHCluster_Status ::= fun s =>
  s {{ CStatus_NetworkID := "net"; CStatus_LoadBalancerID := "lb-1" }} }}.

Lemma running_object_ready :
  (after_normal running_object).2.1 = (requeue requeueTimeLong, None) /\
  Host (CSpec_ControlPlaneEndpoint (OVHCluster_Spec (after_normal running_object).2.2)) = "10.0.0.5".
Proof. split; vm_compute; reflexivity. Qed.


Lemma endpoint_set_once_witness :
  specFrom (OVHCluster_Spec running_object) (after_normal running_object).2.2.
Proof.
  refine (endpoint_set_once demo_scope running_object (after_normal running_object).1
            (after_normal running_object).2.1 _ _); demo_run_of.
Defined.

(** The same cluster with a floating IP network, and a balancer that has its
    floating IP. *)
Definition public_object : OVHCluster := running_object {{ OVHCluster_Spec ::= fun sp =>
  sp {{ CSpec_LoadBalancerConfig ::= fun l => l {{ LBConfig_FloatingNetworkID := "ext" }} }} }}.
Definition public_lb : LoadBalancer := (demo_lb "lb-1" "capi-test-lb" "active") {{
  LoadBalancer_FloatingIP := Some {| FloatingIPRef_ID := "fip-1"; FloatingIPRef_IP := "51.0.0.1" |} }}.
Definition public_run := demo_run healthy (handleExistingLB demo_scope public_lb public_object).

Lemma endpoint_is_public_witness :
  exists o1 o2, within public_run.1 (reconcileFloatingIP demo_scope public_lb o1) (Ok "51.0.0.1", o2).
Proof.
  refine (endpoint_is_public demo_scope public_lb public_object public_run.1 public_run.2.1
            public_run.2.2 _ _ _ _).
  - discriminate.
  - reflexivity.
  - demo_run_of.
  - vm_compute. discriminate.
Defined.

Definition network_run := demo_run healthy (reconcileNetwork demo_scope running_object).
Lemma reconcileNetwork_outcome_witness :
  exists net, within network_run.1 (GetPrivateNetwork demo_client "net") (Ok net) /\
              regionStatus net "GRA7" = "ACTIVE".
Proof.
  refine (proj2 (proj2 (proj2 (reconcileNetwork_outcome demo_scope (demo_netconfig "net")
    running_object network_run.1 None network_run.2.2 eq_refl _)))).
  change (None, network_run.2.2) with network_run.2. apply demo_runs.
Defined.

Definition grouped_object : OVHCluster := running_object {{ OVHCluster_Spec ::= fun sp =>
  sp {{ CSpec_SecurityGroups := [ {| SecurityGroupSpec_Name := "web"; SecurityGroupSpec_Rules := [] |} ] }} }}
  {{ OVHCluster_Status ::= fun s => s {{ CStatus_SecurityGroupIDs := {[ "web" := "sg-1" ]} }} }}.
Definition groups_run := demo_run healthy (reconcileSecurityGroups demo_scope grouped_object).
Lemma reconcileSecurityGroups_complete_witness :
  recordedGroups (CSpec_SecurityGroups (OVHCluster_Spec grouped_object)) groups_run.2.2.
Proof.
  refine (reconcileSecurityGroups_complete demo_scope grouped_object groups_run.1 _ _).
  change (None, groups_run.2.2) with groups_run.2. apply demo_runs.
Defined.
