(* ===== verification/ClusterLBSpec.v ===== *)
(** * ClusterLBSpec: what the load balancer steps create, and when

    Listeners, pools and floating IPs are created only after a lookup found
    none; the listener of port 9345 is never recreated. *)
From S2P Require Import Prelude.
From S2P Require Import GoStrings.
From S2P Require Import GoErrors.
From S2P Require Import OvhTypes.
From S2P Require Import K8sTypes.
From S2P Require Import ApiV1alpha2.
From S2P Require Import Effects.
From S2P Require Import OvhClient.
From S2P Require Import OvhClientSpec.
From S2P Require Import Hoare.
From S2P Require Import Naming.
From S2P Require Import Metrics.
From S2P Require Import CapiLib.
From S2P Require Import ClusterController.
From S2P Require Import ClusterLB.
From S2P Require Import ClusterReconcile.
From S2P Require Import Demo.
From S2P Require Import ClusterSafety.
#[local] Open Scope Z_scope.
#[local] Open Scope go_scope.

Definition listenerCollection (c : Client) : string := regionPath c "/loadbalancing/listener".
Definition poolCollection (c : Client) : string := regionPath c "/loadbalancing/pool".
Definition lbFipPath (c : Client) (lbID : string) : string :=
  regionPath c ("/loadbalancing/loadbalancer/" +:+ lbID +:+ "/floatingIp").
#[export] Hint Unfold listenerCollection poolCollection lbFipPath : paths.

Ltac posts := autounfold with paths; path_neq.
(** [Forall (no_post_on p)] of the trace of a run in the context. *)
Ltac no_posts :=
  repeat (apply Forall_app; split);
  try match goal with
  | |- Forall _ [] => constructor
  | H : runs (?p ?s) ?t _ |- Forall ?E ?t =>
      refine (emits_run E (p s) t _ (keeps_emits E any p s _ I) H); keeps_with posts
  | H : runs ?p ?t _ |- Forall ?E ?t =>
      refine (emits_run E p t _ _ H); keeps_with posts
  end; try done.

(** ** Ports *)

(** The two ports of the cluster: where their listener and pool are recorded. *)
Definition ports : list (StatusPtr * StatusPtr) :=
  [(ListenerIDPtr, PoolIDPtr); (RegisterListenerIDPtr, RegisterPoolIDPtr)].

Lemma ports_independent lp pp : (lp, pp) ∈ ports ->
  forall v s, load pp (store lp v s) = load pp s.
Proof. intros Hin. unfold ports in Hin. set_unfold in Hin. destruct Hin as [?|[?|[]]]; by simplify_eq. Qed.

Definition loaded (p : StatusPtr) (o : OVHCluster) : string := load p (OVHCluster_Status o).

Lemma ensureListener_run scope lbID name port lp o t r o' :
  runs (ensureListener scope lbID name port lp o) t (r, o') ->
  Forall (no_post_on (listenerCollection (CScope_OVHClient scope))) t \/
  (loaded lp o = "" /\ within t (FindListenerByName (CScope_OVHClient scope) lbID name) (Ok None)).
Proof.
  intros Hr. unfold ensureListener, getStatus in Hr. rinv. unfold loaded.
  destruct (_ =s? "") eqn:Hn in Hr; cbn [negb] in Hr; str_simpl; rinv; [|by left; constructor].
  case_match; rinv; [|left; no_posts]. case_match; unfold setStatus in Hr; rinv; [left; no_posts|].
  right. split; [done|]. in_run.
Qed.

Lemma ensurePool_run scope lbID name lp pp o t r o' :
  runs (ensurePool scope lbID name lp pp o) t (r, o') ->
  Forall (no_post_on (poolCollection (CScope_OVHClient scope))) t \/
  (loaded pp o = "" /\ within t (FindPoolByName (CScope_OVHClient scope) lbID name) (Ok None)).
Proof.
  intros Hr. unfold ensurePool, getStatus in Hr. rinv. unfold loaded.
  destruct (_ =s? "") eqn:Hn in Hr; cbn [negb] in Hr; str_simpl; rinv; [|by left; constructor].
  case_match; rinv; [|left; no_posts]. case_match; unfold setStatus in Hr; rinv; [left; no_posts|].
  right. split; [done|]. in_run.
Qed.

(** [ensureListener] writes the listener field only. *)
Lemma ensureListener_other scope lbID name port lp pp id :
  (forall v s, load pp (store lp v s) = load pp s) ->
  keeps (fun _ => True) (fun o => loaded pp o = id) (ensureListener scope lbID name port lp).
Proof.
  intros Hind.
  keeps_with ltac:(first [done | unfold loaded in *; cbn -[load store] in *; rewrite ?Hind; done]).
Qed.

Lemma within_appl {A} t1 t2 (p : prog A) a (E : event -> Prop) (P : Prop) :
  Forall E t1 -> Forall E t2 \/ (P /\ within t2 p a) ->
  Forall E (t1 ++ t2) \/ (P /\ within (t1 ++ t2) p a).
Proof.
  intros H1 [H2|[HP H2]]; [left; by apply Forall_app|right; split; [done|by apply within_r]].
Qed.
Lemma within_appr {A} t1 t2 (p : prog A) a (E : event -> Prop) (P : Prop) :
  Forall E t2 -> Forall E t1 \/ (P /\ within t1 p a) ->
  Forall E (t1 ++ t2) \/ (P /\ within (t1 ++ t2) p a).
Proof.
  intros H1 [H2|[HP H2]]; [left; by apply Forall_app|right; split; [done|by apply within_l]].
Qed.

(** A listener or a pool is created only if it is missing: the
    reconciliation of a port posts to the listener collection only if no listener
    is recorded and the lookup by name on the load balancer has found none, and
    likewise for the pool. *)
Theorem port_created_only_if_missing scope name port lp pp o t r o' :
  (lp, pp) ∈ ports ->
  runs (reconcileLBPort scope name port lp pp o) t (r, o') ->
  let c := CScope_OVHClient scope in
  let lbID := CStatus_LoadBalancerID (OVHCluster_Status o) in
  (Forall (no_post_on (listenerCollection c)) t \/
     (loaded lp o = "" /\ within t (FindListenerByName c lbID name) (Ok None))) /\
  (Forall (no_post_on (poolCollection c)) t \/
     (loaded pp o = "" /\ within t (FindPoolByName c lbID (name +:+ "-pool")) (Ok None))).
Proof.
  intros Hp Hr c lbID. unfold reconcileLBPort, getStatus in Hr. rinv.
  match goal with He : runs (ensureListener _ _ _ _ _ _) _ _ |- _ => rename He into H1 end.
  pose proof (ensureListener_run _ _ _ _ _ _ _ _ _ H1) as HL.
  pose proof (keeps_run _ _ _ _ _ _ _ (ensureListener_other scope lbID name port lp pp _
                (ports_independent _ _ Hp)) eq_refl H1) as [_ Hpp].
  assert (HLp : Forall (no_post_on (poolCollection c)) x) by (subst c; no_posts).
  case_match; rinv.
  { rewrite app_nil_l, app_nil_r. split; [exact HL|by left]. }
  match goal with He : runs (ensurePool _ _ _ _ _ _) _ _ |- _ => rename He into H2 end.
  pose proof (ensurePool_run _ _ _ _ _ _ _ _ _ H2) as HP. rewrite Hpp in HP.
  assert (HPl : Forall (no_post_on (listenerCollection c)) x0) by (subst c; no_posts).
  case_match; rinv; (split; (apply (within_appl []); [constructor|])).
  - apply within_appr; [subst c; no_posts|exact HL].
  - apply within_appl; [exact HLp|]. apply within_appr; [constructor|exact HP].
  - apply within_appr; [subst c; no_posts|exact HL].
  - apply within_appl; [exact HLp|]. apply within_appr; [subst c; no_posts|exact HP].
Qed.

(** ** Floating IPs *)

(** None of the listed floating IPs is associated with the balancer. *)
Definition none_associated (lbID : string) (r : gores (list FloatingIP)) : Prop :=
  match r with
  | Ok fips => Forall (fun f => associatedTo lbID f = false) fips
  | Err _ => True
  end.

Lemma fipOfLB_none scope lb o t o' :
  runs (fipOfLB scope lb o) t (None, o') ->
  t = [] /\ o' = o /\
  match LoadBalancer_FloatingIP lb with Some ref => FloatingIPRef_IP ref = "" | None => True end.
Proof.
  intros Hr. unfold fipOfLB in Hr. destruct (LoadBalancer_FloatingIP lb) as [ref|]; rinv; [|done].
  destruct (_ =s? "") eqn:Hip in Hr; rinv. by str_simpl.
Qed.

Definition recordedFIP (o : OVHCluster) : string := CStatus_FloatingIPID (OVHCluster_Status o).

Lemma ensureGatewayExposed_fip scope id :
  keeps (fun _ => True) (fun o => recordedFIP o = id) (ensureGatewayExposed scope).
Proof. keeps_with ltac:(first [done | unfold recordedFIP in *; cbn in *; done]). Qed.

Lemma fipOfStatus_none scope o t o' :
  runs (fipOfStatus scope o) t (None, o') ->
  recordedFIP o = "" \/
  exists e, within t (GetFloatingIP (CScope_OVHClient scope) (recordedFIP o)) (Err e) /\
            IsNotFound (Some e) = true.
Proof.
  intros Hr. unfold fipOfStatus, getStatus in Hr. rinv. unfold recordedFIP.
  destruct (_ =s? "") eqn:Hid in Hr; str_simpl; rinv; [by left|]. right.
  match goal with Hg : runs (ensureGatewayExposed _ _) _ _ |- _ =>
    apply (keeps_run _ _ _ _ _ _ _ (ensureGatewayExposed_fip scope _) eq_refl) in Hg as [_ Hg];
    unfold recordedFIP in Hg; rewrite Hg in * end.
  case_match; [case_match; rinv|]. case_match; rinv. eexists. split; [in_run|done].
Qed.

Lemma fipOfList_none scope lb o t o' :
  runs (fipOfList scope lb o) t (None, o') ->
  exists r, within t (ListFloatingIPs (CScope_OVHClient scope)) r /\
            none_associated (LoadBalancer_ID lb) r.
Proof.
  intros Hr. unfold fipOfList in Hr. rinv. eexists. split; [in_run|].
  case_match; rinv; [|done]. destruct (find_first _ _) eqn:Hf in Hr.
  { rinv. case_match; rinv. }
  by apply find_first_none in Hf.
Qed.

Lemma orElse_cases {S A} (step : M S (option A)) (rest : M S A) s t r s' :
  runs (orElse step rest s) t (r, s') ->
  runs (step s) t (Some r, s') \/
  exists t1 t2 s1, t = t1 ++ t2 /\ runs (step s) t1 (None, s1) /\ runs (rest s1) t2 (r, s').
Proof.
  intros Hr. unfold orElse in Hr. rinv. case_match; rinv.
  - left. by rewrite app_nil_r.
  - right. by do 3 eexists.
Qed.


(** ** The port of the RKE2 supervisor *)

(** The event creates neither the listener nor the pool of port 9345. *)
Definition no_register_created (e : event) : Prop :=
  match e with
  | Ev (ApiPost _ _ (BCreateListener o) _) _ => CreateListenerOpts_Name o <> rke2RegisterListenerName
  | Ev (ApiPost _ _ (BCreatePool o) _) _ => CreatePoolOpts_Name o <> rke2RegisterListenerName +:+ "-pool"
  | _ => True
  end.

Definition registerRecorded (lid pid : string) (o : OVHCluster) : Prop :=
  loaded RegisterListenerIDPtr o = lid /\ loaded RegisterPoolIDPtr o = pid.

Section register.
Context `{CapiLib}.
Context (lid pid : string).
Hypothesis lid_set : lid <> "".
Hypothesis pid_set : pid <> "".

Ltac reg :=
  first [ done
        | match goal with Hs : registerRecorded _ _ _ |- registerRecorded _ _ _ =>
            destruct Hs; split; unfold loaded in *; cbn in *;
            repeat (case_match; cbn in * ); by auto end ].

Lemma register_listener_kept scope lbID :
  keeps no_register_created (registerRecorded lid pid)
    (ensureListener scope lbID rke2RegisterListenerName rke2RegisterLBPort RegisterListenerIDPtr).
Proof using lid_set.
  unfold ensureListener. apply keeps_read. intros o [Hl _]. unfold loaded in Hl. rewrite Hl.
  rewrite (proj2 (strEqb_neq _ _) lid_set). cbn [negb]. apply keeps_ret.
Qed.

Lemma register_pool_kept scope lbID :
  keeps no_register_created (registerRecorded lid pid)
    (ensurePool scope lbID (rke2RegisterListenerName +:+ "-pool")
       RegisterListenerIDPtr RegisterPoolIDPtr).
Proof using pid_set.
  unfold ensurePool. apply keeps_read. intros o [_ Hl]. unfold loaded in Hl. rewrite Hl.
  rewrite (proj2 (strEqb_neq _ _) pid_set). cbn [negb]. apply keeps_ret.
Qed.
#[local] Hint Resolve register_listener_kept register_pool_kept : keeps.

Lemma ReconcileNormal_register scope :
  keeps no_register_created (registerRecorded lid pid) (ReconcileNormal scope).
Proof using lid_set pid_set. keeps_with reg. Qed.

Lemma ReconcileDelete_register scope :
  keeps no_register_created (registerRecorded lid pid) (ReconcileDelete scope).
Proof using lid_set pid_set. keeps_with reg. Qed.
End register.

(** Once the listener and pool of port 9345 are recorded, they are never
    created again, over the whole life of the cluster and in particular after its
    load balancer has vanished and another one was created: the recorded
    identifiers never change and no run posts that listener or that pool. *)
Theorem register_port_never_recreated `{CapiLib} scope ok o t o' :
  loaded RegisterListenerIDPtr o <> "" -> loaded RegisterPoolIDPtr o <> "" ->
  life scope ok o t o' ->
  Forall no_register_created t /\
  loaded RegisterListenerIDPtr o' = loaded RegisterListenerIDPtr o /\
  loaded RegisterPoolIDPtr o' = loaded RegisterPoolIDPtr o.
Proof.
  intros Hl Hp Hlife.
  refine (life_invariant scope ok no_register_created (registerRecorded _ _) o t o' _ _ _ Hlife _).
  - by apply ReconcileNormal_register.
  - by apply ReconcileDelete_register.
  - intros o1 o2 [H1 H2] Hst _. unfold registerRecorded, loaded in *. by rewrite Hst.
  - done.
Qed.

(** ** Witnesses *)

(** A cluster whose balancer, listeners and pools are all recorded. *)
Definition complete_object (lbID : string) : OVHCluster :=
  (demo_object "net" false) {{ OVHCluster_Status ::= fun s => s {{
    CStatus_NetworkID := "net"; CStatus_SubnetID := "sub-1"; CStatus_LoadBalancerID := lbID;
    CStatus_ListenerID := "listener-old"; CStatus_PoolID := "pool-old";
    CStatus_RegisterListenerID := "reg-old"; CStatus_RegisterPoolID := "regpool-old" }} }}.

Definition port_run := demo_run healthy
  (reconcileLBPort demo_scope apiServerListenerName apiServerLBPort ListenerIDPtr PoolIDPtr
     (complete_object "lb-1")).

Lemma port_created_only_if_missing_witness :
  Forall (no_post_on (listenerCollection demo_client)) port_run.1 \/
  ("listener-old" = "" /\ within port_run.1 (FindListenerByName demo_client "lb-1" "api-server") (Ok None)).
Proof.
  refine (proj1 (port_created_only_if_missing demo_scope apiServerListenerName apiServerLBPort
            ListenerIDPtr PoolIDPtr (complete_object "lb-1") port_run.1 port_run.2.1 port_run.2.2 _ _)).
  - by left.
  - rewrite <- surjective_pairing. apply demo_runs.
Defined.

Definition fip_lb : LoadBalancer := demo_lb "lb-1" "capi-test-lb" "active".
Definition fip_run := demo_run healthy (reconcileFloatingIP demo_scope fip_lb (complete_object "lb-1")).


(** The project after the balancer "lb-old" was removed by hand; a balancer of
    the expected name exists. *)
Definition no_balancer : Answers := {|
  on_get T path tg := match tg in target T return gores T with
                      | TLoadBalancer => refused
                      | tg => healthy_get _ path tg
                      end;
  on_post := healthy_post; on_delete := fun _ => Ok tt |}.

Definition after_loss := demo_run no_balancer (ReconcileNormal demo_scope (complete_object "lb-old")).
Definition after_recovery := after_normal after_loss.2.2.

Lemma recovery_life :
  life demo_scope (fun _ => True) (complete_object "lb-old") (after_loss.1 ++ after_recovery.1)
    after_recovery.2.2.
Proof.
  eapply life_two; [apply (step_normal _ _ _ _ after_loss.2.1)|apply demo_normal].
  rewrite <- surjective_pairing. apply demo_runs.
Qed.

Lemma register_port_never_recreated_witness :
  loaded RegisterListenerIDPtr after_recovery.2.2 = "reg-old".
Proof.
  refine (proj1 (proj2 (register_port_never_recreated demo_scope (fun _ => True)
            (complete_object "lb-old") _ _ _ _ recovery_life))); vm_compute; discriminate.
Defined.

(** A cluster whose load balancer was lost and replaced is declared ready
    without the RKE2 supervisor port: there is a life in which the new balancer
    gets the API server listener, no listener of port 9345, and the cluster is
    ready. *)
Theorem replaced_balancer_lacks_register_port :
  exists t o',
    life demo_scope (fun _ => True) (complete_object "lb-old") t o' /\
    CStatus_LoadBalancerID (OVHCluster_Status o') = "lb-1" /\
    CStatus_Ready (OVHCluster_Status o') = true /\
    CStatus_ListenerID (OVHCluster_Status o') = "listener-1" /\
    CStatus_RegisterListenerID (OVHCluster_Status o') = "reg-old" /\
    Forall no_register_created t.
Proof.
  exists (after_loss.1 ++ after_recovery.1), after_recovery.2.2.
  split; [apply recovery_life|]. do 4 (split; [vm_compute; reflexivity|]).
  vm_compute. repeat constructor; discriminate.
Qed.
