(* ===== verification/WorkloadSpec.v ===== *)
(** * WorkloadSpec: what the best-effort operations do to the workload cluster *)
From S2P Require Import Prelude.
From S2P Require Import GoStrings.
From S2P Require Import GoErrors.
From S2P Require Import K8sTypes.
From S2P Require Import Effects.
From S2P Require Import OvhClient.
From S2P Require Import OvhClientSpec.
From S2P Require Import Hoare.
From S2P Require Import Metrics.
From S2P Require Import WorkloadNode.
#[local] Open Scope Z_scope.
#[local] Open Scope go_scope.

(** ** Taints *)

Lemma removeTaint_length taints :
  (length (removeTaint taints) =? length taints)%nat = negb (existsb (fun t =>
     Taint_Key t =s? uninitializedTaintKey) taints).
Proof.
  unfold removeTaint. induction taints as [|t taints IH]; [done|]. cbn.
  destruct (Taint_Key t =s? uninitializedTaintKey); cbn; [|exact IH].
  apply Nat.eqb_neq. pose proof (List.filter_length_le
    (fun t => negb (Taint_Key t =s? uninitializedTaintKey)) taints). lia.
Qed.

(** Event membership in the trace of a run, once the run is inverted. *)
Ltac in_trace :=
  repeat match goal with
  | H : _ ∈ [] |- _ => by apply not_elem_of_nil in H
  | H : _ ∈ _ :: _ |- _ => apply elem_of_cons in H as [H|H]
  | H : _ ∈ _ ++ _ |- _ => apply elem_of_app in H as [H|H]
  end.

(** The node and content of a patch. *)
Definition patch_of (e : event) : option (string * string) :=
  match e with Ev (NodesPatch n p) _ => Some (n, p) | _ => None end.

(** A node read in [t]. *)
Definition was_read (t : trace) (name : string) (node : Node) : Prop :=
  Ev (NodesGet name) (Ok node) ∈ t.

(** [patch] is one the run [t] had a reason to send. *)
Definition justified (t : trace) (name providerID patch : string) : Prop :=
  (patch = providerIDPatch providerID /\ exists node, was_read t name node /\ Node_ProviderID node = "") \/
  (exists node j, was_read t name node /\ hasUninitializedTaint node = true /\
     Ev (MarshalTaints (removeTaint (Node_Taints node))) (Ok j) ∈ t /\ patch = taintsPatch j).

Definition patches_justified (name providerID : string) (t t' : trace) : Prop :=
  forall e n p, e ∈ t' -> patch_of e = Some (n, p) -> n = name /\ justified t name providerID p.

Lemma justified_mono t1 t2 name pid p : t1 ⊆ t2 -> justified t1 name pid p -> justified t2 name pid p.
Proof.
  intros Ht [(-> & node & ? & ?)|(node & j & ? & ? & ? & ->)].
  - left. split; [done|]. exists node. split; [by apply Ht|done].
  - right. exists node, j. split_and!; [by apply Ht|done|by apply Ht|done].
Qed.

Ltac no_patch :=
  match goal with |- patches_justified _ _ _ _ =>
    intros ? ? ? Hin Hp; in_trace; subst; cbn in Hp; congruence end.

Lemma removeUninitializedTaint_justified name pid t :
  runs (removeUninitializedTaint name) t tt -> patches_justified name pid t t.
Proof.
  intros Hr. unfold removeUninitializedTaint in Hr. cbn [call pbind runs] in Hr.
  destruct Hr as (r & t1 & -> & Hr). destruct r as [node|e].
  2:{ destruct Hr as [-> _]. no_patch. }
  rewrite removeTaint_length in Hr.
  destruct (existsb _ _) eqn:Hex in Hr; cbn [negb] in Hr.
  2:{ destruct Hr as [-> _]. no_patch. }
  cbn [pbind runs] in Hr. destruct Hr as (j & t2 & -> & Hr). destruct j as [j|e].
  2:{ destruct Hr as [-> _]. no_patch. }
  cbn [pbind runs] in Hr. destruct Hr as (x & t3 & -> & -> & _).
  intros e n p Hin Hp. in_trace; subst; cbn in Hp; simplify_eq.
  split; [done|]. right. exists node, j. split_and!; [by left|exact Hex|by right; left|done].
Qed.

Lemma patches_app name pid t t1 t2 :
  patches_justified name pid t t1 -> patches_justified name pid t t2 ->
  patches_justified name pid t (t1 ++ t2).
Proof. intros H1 H2 e n p [Hin|Hin]%elem_of_app; eauto. Qed.

Lemma patches_mono name pid t t' t1 :
  t ⊆ t' -> patches_justified name pid t t1 -> patches_justified name pid t' t1.
Proof.
  intros Ht H1 e n p Hin Hp. destruct (H1 e n p Hin Hp). split; [done|].
  by eapply justified_mono.
Qed.

Lemma taint_part_justified name pid t0 t (needs : bool) :
  runs (if needs then removeUninitializedTaint name else Ret tt) t tt ->
  patches_justified name pid (t0 ++ t) t.
Proof.
  destruct needs; [|intros [-> _]; no_patch].
  intros Hr. eapply patches_mono; [|by apply removeUninitializedTaint_justified].
  intros e He. apply elem_of_app. by right.
Qed.

Lemma initializeNode_justified cfg name pid t :
  runs (initializeNode cfg name pid) t tt -> patches_justified name pid t t.
Proof.
  intros Hr. unfold initializeNode in Hr. cbn [call pbind runs] in Hr.
  destruct Hr as ([e|] & t1 & -> & Hr); cbn [pbind runs] in Hr.
  { destruct Hr as [-> _]. no_patch. }
  destruct Hr as ([node|e] & t2 & -> & Hr); cbn [pbind runs] in Hr.
  2:{ destruct Hr as [-> _]. no_patch. }
  destruct (Node_ProviderID node =s? "") eqn:Hpid.
  - cbn [call pbind runs] in Hr. destruct Hr as (err & t3 & -> & Hr). str_simpl.
    match goal with |- patches_justified _ _ ?T _ =>
      assert (Htail : patches_justified name pid T t3) end.
    { destruct err as [err|]; [destruct Hr as [-> _]; no_patch|].
      exact (taint_part_justified name pid [_; _; _] t3 _ Hr). }
    match goal with |- patches_justified _ _ _ (?a :: ?b :: ?c :: ?t') =>
      apply (patches_app _ _ _ [a; b; c] t'); [|exact Htail] end.
    intros e n p Hin Hp. in_trace; subst; cbn in Hp; simplify_eq. split; [done|]. left.
    split; [done|]. exists node. split; [by right; left|done].
  - match goal with |- patches_justified _ _ _ (?a :: ?b :: ?t') =>
      apply (patches_app _ _ _ [a; b] t');
        [no_patch|by apply (taint_part_justified _ _ [a; b] t' _ Hr)] end.
Qed.

(** C34.  [InitializeWorkloadNode] patches a node only when needed: every patch of
    a run is on the given node, and either sets the given provider identifier
    after the node was read without one, or removes the uninitialized taint after
    the node was read with it, leaving all its other taints. *)
Theorem InitializeWorkloadNode_justified cfg name providerID t :
  runs (InitializeWorkloadNode cfg name providerID) t tt ->
  patches_justified name providerID t t.
Proof.
  intros Hr. unfold InitializeWorkloadNode in Hr.
  destruct (_ =s? "") in Hr; [destruct Hr as [-> _]; no_patch|].
  apply runs_bind in Hr as (t1 & t2 & start & -> & (x & ? & -> & -> & ->) & Hr).
  apply runs_bind in Hr as (t3 & t4 & [] & -> & H1 & Hr).
  apply initializeNode_justified in H1. cbn in Hr. destruct Hr as (? & ? & -> & ? & ? & -> & -> & _).
  apply patches_app; [no_patch|]. apply patches_app; [|no_patch].
  eapply patches_mono; [|exact H1]. intros e He. apply elem_of_app. right. apply elem_of_app. by left.
Qed.

(** ** etcd *)

(** A pod through which the etcd members may be managed. *)
Definition usable_pod (deletedNodeName : string) (pod : Pod) : Prop :=
  Pod_NodeName pod <> deletedNodeName /\ Pod_Phase pod = PodRunning /\
  exists c, c ∈ Pod_Conditions pod /\ PodCondition_Type c = PodReady /\
            PodCondition_Status c = ConditionTrue.

Lemma isPodReady_spec pod :
  isPodReady pod = true <->
  Pod_Phase pod = PodRunning /\
  exists c, c ∈ Pod_Conditions pod /\ PodCondition_Type c = PodReady /\
            PodCondition_Status c = ConditionTrue.
Proof.
  unfold isPodReady. destruct (_ =s? PodRunning) eqn:Hp; cbn [negb]; str_simpl.
  2:{ split; [done|]. by intros [? _]. }
  rewrite existsb_exists. split.
  - intros (c & Hin & [H1 H2]%andb_true_iff). str_simpl. split; [done|]. exists c.
    by rewrite list_elem_of_In.
  - intros [_ (c & Hin & H1 & H2)]. exists c. rewrite <- list_elem_of_In. split; [done|].
    by rewrite H1, H2, !strEqb_refl.
Qed.

Lemma healthyPod_spec node pods pod :
  healthyPod node pods = Ok pod -> pod ∈ pods /\ usable_pod node pod.
Proof.
  unfold healthyPod. destruct (pickEtcdPod node pods) eqn:Hp; [|done]. intros [= ->].
  apply find_first_in in Hp as [Hin [Hn Hr]%andb_true_iff]. str_simpl.
  apply isPodReady_spec in Hr as [? ?]. done.
Qed.

(** The pod chosen to manage the etcd members is Running and Ready, is not
    on the deleted node, and is one that the cluster listed in kube-system, by
    the etcd labels or, failing that, with a name starting with "etcd-". *)
Theorem findHealthyEtcdPod_usable node t pod :
  runs (findHealthyEtcdPod node) t (Ok pod) ->
  usable_pod node pod /\
  exists selector pods, Ev (PodsList etcdNamespace selector) (Ok pods) ∈ t /\ pod ∈ pods /\
    (selector = "component=etcd,tier=control-plane" \/ HasPrefix (Pod_Name' pod) "etcd-" = true).
Proof.
  intros Hr. unfold findHealthyEtcdPod in Hr. cbn [call pbind runs] in Hr.
  destruct Hr as (first & t1 & -> & Hr).
  assert (Hcase : (exists p ps, first = Ok (p :: ps) /\ Ok pod = healthyPod node (p :: ps)) \/
            exists all, Ev (PodsList etcdNamespace "") (Ok all) ∈ t1 /\
              Ok pod = healthyPod node (List.filter (fun p => HasPrefix (Pod_Name' p) "etcd-") all)).
  { destruct first as [[|p ps]|e].
    2:{ left. destruct Hr as [-> Hr]. by exists p, ps. }
    all: right; cbn [pbind runs] in Hr; destruct Hr as ([all|e'] & t2 & -> & -> & Hr); [|done];
      exists all; split; [by left|done]. }
  destruct Hcase as [(p & ps & -> & Hp)|(all & Hall & Hp)]; symmetry in Hp;
    apply healthyPod_spec in Hp as [Hin Hu]; (split; [exact Hu|]).
  - do 2 eexists. split; [by left|]. split; [done|by left].
  - exists "", all. split; [by right|].
    apply list_elem_of_In, filter_In in Hin as [Hin Hpre]. rewrite <- list_elem_of_In in Hin.
    split; [done|by right].
Qed.

(** The command of an exec event. *)
Definition exec_of (e : event) : option (list string) :=
  match e with Ev (ExecStream _ x) _ => Some (PodExec_Command x) | _ => None end.

(** The commands [RemoveEtcdMember] may run: listing, and removing the first
    member of the printed list taken for the deleted node. *)
Definition allowed_exec (node : string) (t : trace) (cmd : list string) : Prop :=
  cmd = etcdctl ["member"; "list"; "-w"; "json"] \/
  exists data members m,
    Ev (UnmarshalMembers data) (Ok members) ∈ t /\
    find_first (memberOfNode node) members = Some m /\
    cmd = etcdctl ["member"; "remove"; FormatUint16 (EtcdMember_ID m)].

Definition execs_allowed (node : string) (t t' : trace) : Prop :=
  forall e cmd, e ∈ t' -> exec_of e = Some cmd -> allowed_exec node t cmd.

Lemma execs_app node t t1 t2 :
  execs_allowed node t t1 -> execs_allowed node t t2 -> execs_allowed node t (t1 ++ t2).
Proof. intros H1 H2 e cmd [?|?]%elem_of_app; eauto. Qed.

Lemma execs_none node t t' : Forall (fun e => exec_of e = None) t' -> execs_allowed node t t'.
Proof. intros Hf e cmd Hin He. rewrite Forall_forall in Hf. rewrite Hf in He; done. Qed.

(** One command in a pod. *)
Lemma execInPod_execs cfg ns pod ctr cmd :
  emits (fun e => exec_of e = None \/ exec_of e = Some cmd) (execInPod cfg ns pod ctr cmd).
Proof. unfold execInPod. repeat emits_step; by auto. Qed.

Lemma execs_one node t t' cmd :
  allowed_exec node t cmd ->
  Forall (fun e => exec_of e = None \/ exec_of e = Some cmd) t' -> execs_allowed node t t'.
Proof.
  intros Ha Hf e c Hin He. rewrite Forall_forall in Hf.
  destruct (Hf e Hin) as [Hn|Hs]; congruence.
Qed.

Lemma listEtcdMembers_run cfg pod node t r :
  runs (listEtcdMembers cfg pod) t r ->
  execs_allowed node t t /\
  forall members, r = Ok members -> exists data, Ev (UnmarshalMembers data) (Ok members) ∈ t.
Proof.
  intros Hr. unfold listEtcdMembers in Hr.
  apply runs_bind in Hr as (t1 & t2 & out & -> & H1 & Hr).
  apply (emits_run _ _ _ _ (execInPod_execs _ _ _ _ _)) in H1.
  assert (Hl : forall t, execs_allowed node t t1).
  { intros t. eapply execs_one; [by left|exact H1]. }
  destruct (Exec_err out).
  { destruct Hr as [-> ->]. split; [|done]. apply execs_app; [done|by apply execs_none]. }
  cbn [call pbind runs] in Hr. destruct Hr as (ms & t3 & -> & -> & ->). split.
  - apply execs_app; [done|]. apply execs_none. by repeat constructor.
  - intros members Hm. exists (Exec_stdout out). destruct ms; [|done]. simplify_eq.
    apply elem_of_app. right. by left.
Qed.

Lemma execs_mono node t t' t1 : t ⊆ t' -> execs_allowed node t t1 -> execs_allowed node t' t1.
Proof.
  intros Ht H1 e cmd Hin He. destruct (H1 e cmd Hin He) as [->|(d & ms & m & Hd & Hf & ->)].
  - by left.
  - right. exists d, ms, m. split_and!; [by apply Ht|done|done].
Qed.

Lemma findHealthyEtcdPod_execs node :
  emits (fun e => exec_of e = None) (findHealthyEtcdPod node).
Proof. unfold findHealthyEtcdPod. repeat emits_step; done. Qed.

Lemma removeMember_execs cfg node t :
  runs (removeMember cfg node) t tt -> execs_allowed node t t.
Proof.
  intros Hr. unfold removeMember in Hr.
  apply runs_bind in Hr as (t1 & t2 & err & -> & (x & ? & -> & -> & ->) & Hr).
  apply execs_app; [by apply execs_none; repeat constructor|].
  destruct x; [destruct Hr as [-> _]; by apply execs_none|].
  apply runs_bind in Hr as (t3 & t4 & found & -> & H1 & Hr).
  apply (emits_run _ _ _ _ (findHealthyEtcdPod_execs _)) in H1.
  apply execs_app; [by apply execs_none|].
  destruct found as [pod|e]; [|destruct Hr as [-> _]; by apply execs_none].
  apply runs_bind in Hr as (t5 & t6 & ms & -> & H2 & Hr).
  apply (listEtcdMembers_run _ _ node) in H2 as [H2 Hms].
  apply execs_app.
  { eapply execs_mono; [|exact H2]. intros e He. set_unfold. tauto. }
  destruct ms as [members|e]; [|destruct Hr as [-> _]; by apply execs_none].
  destruct (find_first _ members) as [m|] eqn:Hf; [|destruct Hr as [-> _]; by apply execs_none].
  destruct (Hms members eq_refl) as [data Hd].
  apply runs_bind in Hr as (t7 & t8 & ? & -> & H3 & [-> _]). unfold removeEtcdMemberByID in H3.
  apply runs_bind in H3 as (t9 & t10 & ? & -> & H3 & [-> _]).
  apply (emits_run _ _ _ _ (execInPod_execs _ _ _ _ _)) in H3. rewrite !app_nil_r.
  eapply execs_one; [|exact H3]. right. exists data, members, m. split_and!; [|done|done].
  set_unfold. tauto.
Qed.


(** The member of another node is taken for the one of the deleted node when
    that node's name extends the deleted one with a hyphen: deleting "cp-1" can
    remove the member of "cp-1-b". *)
Theorem etcd_member_of_other_node node suffix hash id peers clients :
  memberOfNode node {|
    EtcdMember_ID := id;
    EtcdMember_Name := (node +:+ "-" +:+ suffix) +:+ "-" +:+ hash;
    EtcdMember_PeerURLs := peers; EtcdMember_ClientURLs := clients |} = true.
Proof.
  unfold memberOfNode. apply orb_true_iff. left. cbn [EtcdMember_Name].
  replace ((node +:+ "-" +:+ suffix) +:+ "-" +:+ hash)
    with ((node +:+ "-") +:+ (suffix +:+ "-" +:+ hash)) by by rewrite !sapp_assoc.
  apply HasPrefix_app.
Qed.

(** ** Witnesses *)

Definition demo_cfg : RestConfig := {| RestConfig_content := "kubeconfig" |}.
Definition demo_pod (node : string) : Pod := {|
  Pod_Name' := "etcd-" +:+ node; Pod_Namespace := etcdNamespace; Pod_NodeName := node;
  Pod_Phase := PodRunning;
  Pod_Conditions := [ {| PodCondition_Type := PodReady; PodCondition_Status := ConditionTrue |} ] |}.
Definition demo_node : Node := {|
  Node_Name := "test-m0"; Node_ProviderID := "";
  Node_Taints := [ {| Taint_Key := uninitializedTaintKey; Taint_Value := ""; Taint_Effect := "NoSchedule" |} ] |}.

(** A workload cluster with one other etcd node. *)
Definition workload_env : handler unit := fun X w r =>
  match r in req X return X * unit with
  | NewForConfig _ => (None, w)
  | NodesGet _ => (Ok demo_node, w)
  | NodesPatch _ _ => (None, w)
  | MarshalTaints _ => (Ok "[]", w)
  | PodsList _ _ => (Ok [demo_pod "cp-1"; demo_pod "cp-2"], w)
  | NewSPDYExecutor _ _ => (None, w)
  | ExecStream _ _ => ({| Exec_stdout := "members"; Exec_stderr := ""; Exec_err := None |}, w)
  | UnmarshalMembers _ => (Ok [ {| EtcdMember_ID := 255; EtcdMember_Name := "cp-1-abc";
                                   EtcdMember_PeerURLs := []; EtcdMember_ClientURLs := [] |} ], w)
  | r => failing_env _ w r
  end.

Lemma InitializeWorkloadNode_justified_witness :
  patches_justified "test-m0" "ovhcloud://GRA7/i-1"
    (exec workload_env (InitializeWorkloadNode demo_cfg "test-m0" "ovhcloud://GRA7/i-1") tt).1
    (exec workload_env (InitializeWorkloadNode demo_cfg "test-m0" "ovhcloud://GRA7/i-1") tt).1.
Proof.
  apply (InitializeWorkloadNode_justified demo_cfg).
  apply (exec_runs_eq workload_env _ tt). reflexivity.
Defined.

Lemma findHealthyEtcdPod_usable_witness : usable_pod "cp-1" (demo_pod "cp-2").
Proof.
  refine (proj1 (findHealthyEtcdPod_usable "cp-1"
    (exec workload_env (findHealthyEtcdPod "cp-1") tt).1 (demo_pod "cp-2") _)).
  apply (exec_runs_eq workload_env _ tt). reflexivity.
Defined.

