(* ===== verification/MachineSpec.v ===== *)
(** * MachineSpec: what the OVHMachine reconciler guarantees

    Creation of an instance only after every lookup failed to find one, what is
    recorded about an existing instance, pool members, and deletion. *)
From S2P Require Import Prelude.
From S2P Require Import GoStrings.
From S2P Require Import GoErrors.
From S2P Require Import OvhTypes.
From S2P Require Import K8sTypes.
From S2P Require Import ApiV1alpha2.
From S2P Require Import Effects.
From S2P Require Import OvhClient.
From S2P Require Import OvhClientSpec.
From S2P Require Import Hoare.
From S2P Require Import Naming.
From S2P Require Import Metrics.
From S2P Require Import CapiLib.
From S2P Require Import ClusterController.
From S2P Require Import ClusterLB.
From S2P Require Import ClusterReconcile.
From S2P Require Import WorkloadNode.
From S2P Require Import MachineController.
From S2P Require Import Demo.
From S2P Require Import ClusterSafety.
From S2P Require Import ClusterDelete.
From S2P Require Import ClusterLBSpec.
#[local] Open Scope Z_scope.
#[local] Open Scope go_scope.

Definition instanceCollection (c : Client) : string := projectPath c "/instance".
Definition instancePath (c : Client) (id : string) : string := projectPath c ("/instance/" +:+ id).
#[export] Hint Unfold instanceCollection instancePath : paths.

Definition instanceID (o : OVHMachine) : string := MStatus_InstanceID (OVHMachine_Status o).
Definition hasMFinalizer `{CapiLib} (o : OVHMachine) : bool :=
  ContainsFinalizer (OVHMachine_ObjectMeta o) MachineFinalizer.

Section creation.
Context `{CapiLib}.

(** ** Creation *)

Lemma orLookup_none first next s t s' :
  runs (orLookup first next s) t (Ok None, s') ->
  exists t1 t2 s1, t = t1 ++ t2 /\ runs (first s) t1 (Ok None, s1) /\ runs (next s1) t2 (Ok None, s').
Proof.
  intros Hr. unfold orLookup in Hr. rinv. case_match; rinv. case_match; rinv. by do 3 eexists.
Qed.

(** The lookups change the recorded identifier only. *)
Definition upToID (o o' : OVHMachine) : Prop :=
  exists id, o' = o {{ OVHMachine_Status ::= fun s => s {{ MStatus_InstanceID := id }} }}.
Lemma findInstance_upToID scope o : keeps (fun _ => True) (upToID o) (findInstance scope).
Proof.
  keeps_with ltac:(first [done | match goal with Hs : upToID _ _ |- upToID _ _ =>
    destruct Hs as [? ->]; eexists; cbn; reflexivity end]).
Qed.

Lemma findByStatus_none scope o t o' :
  runs (findByStatus scope o) t (Ok None, o') ->
  upToID o o' /\
  (instanceID o = "" \/
   exists e, within t (GetInstance (MScope_OVHClient scope) (instanceID o)) (Err e) /\
             IsNotFound (Some e) = true).
Proof.
  intros Hr. unfold findByStatus, getMStatus in Hr. rinv. unfold instanceID.
  destruct (_ =s? "") eqn:Hid in Hr; str_simpl; rinv.
  { split; [by eexists (MStatus_InstanceID _)|by left]. }
  case_match; rinv. case_match; unfold setMStatus in Hr; rinv.
  split; [by eexists|]. right. eexists. split; [in_run|done].
Qed.

Lemma findByAdoption_none scope o t o' :
  runs (findByAdoption scope o) t (Ok None, o') ->
  o' = o /\ MSpec_ExistingInstanceID (OVHMachine_Spec o) = "".
Proof.
  intros Hr. unfold findByAdoption, getMSpec in Hr. rinv.
  destruct (_ =s? "") eqn:Hid in Hr; str_simpl; rinv; [done|]. by case_match.
Qed.

Lemma findByName_none scope o t o' :
  runs (findByName scope o) t (Ok None, o') ->
  o' = o /\ within t (FindInstanceByName (MScope_OVHClient scope) (instanceName scope o)) (Ok None).
Proof.
  intros Hr. unfold findByName in Hr. rinv. case_match; simplify_eq. split; [done|in_run].
Qed.

(** The lookups found nothing. *)
Definition none_found (scope : MachineScope) (o : OVHMachine) (t : trace) : Prop :=
  let c := MScope_OVHClient scope in
  (instanceID o = "" \/
   exists e, within t (GetInstance c (instanceID o)) (Err e) /\ IsNotFound (Some e) = true) /\
  MSpec_ExistingInstanceID (OVHMachine_Spec o) = "" /\
  within t (FindInstanceByName c (instanceName scope o)) (Ok None).

Lemma findInstance_none scope o t o' :
  runs (findInstance scope o) t (Ok None, o') -> none_found scope o t.
Proof.
  intros Hr. unfold findInstance in Hr.
  apply orLookup_none in Hr as (t1 & t2 & s1 & -> & H1 & Hr).
  apply orLookup_none in Hr as (t3 & t4 & s2 & -> & H2 & H3).
  apply findByStatus_none in H1 as [[id ->] Hid]. apply findByAdoption_none in H2 as [-> Ha].
  apply findByName_none in H3 as [-> Hn]. split_all; [|by do 2 apply within_r].
  destruct Hid as [?|(e & ? & ?)]; [by left|right]. exists e. split; [in_run|done].
Qed.

Lemma none_found_mono scope o t1 t2 t3 :
  none_found scope o t2 -> none_found scope o (t1 ++ t2 ++ t3).
Proof.
  intros ([?|(e & ? & ?)] & ? & ?); (split; [|split; [done|in_run]]); [by left|right].
  exists e. split; [in_run|done].
Qed.

Abbreviation no_creation scope := (no_post_on (instanceCollection (MScope_OVHClient scope))).

Lemma machineNormalBody_creation scope o t r o' :
  runs (machineNormalBody scope o) t (r, o') ->
  Forall (no_creation scope) t \/ none_found scope o t.
Proof.
  intros Hr. unfold machineNormalBody in Hr. rinv.
  destruct (IsPaused _ _) in Hr; [left; rinv; no_posts|].
  destruct (_ && _) in Hr; [left; rinv; no_posts|].
  destruct (negb _) in Hr; [left; rinv; no_posts|].
  case_match; [|left; rinv; no_posts].
  apply runs_mbind in Hr as (t1 & t2 & [[inst|]|e] & s1 & -> & H1 & Hr).
  - left. no_posts.
  - right. apply (none_found_mono _ _ [] t1 t2). by eapply findInstance_none.
  - left. rinv. no_posts.
Qed.

(** An instance is requested only when none exists: a run of the machine's
    normal reconciliation posts to the instance collection only if the recorded
    instance is empty or OVH answered that it does not exist, no instance is to
    be adopted, and the listing of the project shows no instance of the machine's
    name. *)
Theorem instance_created_only_if_none scope o t r o' :
  runs (MachineReconcileNormal scope o) t (r, o') ->
  let c := MScope_OVHClient scope in
  Forall (no_post_on (instanceCollection c)) t \/
  ((instanceID o = "" \/
    exists e, within t (GetInstance c (instanceID o)) (Err e) /\ IsNotFound (Some e) = true) /\
   MSpec_ExistingInstanceID (OVHMachine_Spec o) = "" /\
   within t (FindInstanceByName c (instanceName scope o)) (Ok None)).
Proof.
  intros Hr c. unfold MachineReconcileNormal in Hr.
  apply runs_mbind in Hr as (t1 & t2 & start & s0 & -> & (? & ? & -> & -> & [= -> ->]) & Hr).
  apply runs_mbind in Hr as (t3 & t4 & out & s1 & -> & H1 & Hr).
  apply machineNormalBody_creation in H1 as [H1|H1].
  - left. subst c. repeat (apply Forall_app; split); [by repeat constructor|done|].
    unfold observeMDuration, observeMachineStatus in Hr. rinv. by repeat constructor.
  - right. by apply (none_found_mono _ _ _ t3 t4).
Qed.
End creation.

(** ** An existing instance *)

Section existing.
Context `{CapiLib}.

(** What a reconciliation of the instance [inst] records, besides conditions
    and pool members. *)
Definition observed (scope : MachineScope) (inst : Instance_) (o o' : OVHMachine) : Prop :=
  let active := Instance_Status inst =s? InstanceStatusActive in
  instanceID o' = Instance_ID inst /\
  MStatus_Ready (OVHMachine_Status o') = active /\
  (if active
   then MSpec_ProviderID (OVHMachine_Spec o') =
          ProviderIDFromInstance (region_of scope) (Instance_ID inst) /\
        MStatus_Initialization (OVHMachine_Status o') = machineInitializationProvisioned /\
        MStatus_Addresses (OVHMachine_Status o') = machineAddresses (Instance_IPAddresses inst)
   else MSpec_ProviderID (OVHMachine_Spec o') = MSpec_ProviderID (OVHMachine_Spec o)).

(** The fields written by [recordActive]. *)
Definition recorded (scope : MachineScope) (inst : Instance_) (o : OVHMachine) : Prop :=
  instanceID o = Instance_ID inst /\ MStatus_Ready (OVHMachine_Status o) = true /\
  MSpec_ProviderID (OVHMachine_Spec o) =
    ProviderIDFromInstance (region_of scope) (Instance_ID inst) /\
  MStatus_Initialization (OVHMachine_Status o) = machineInitializationProvisioned /\
  MStatus_Addresses (OVHMachine_Status o) = machineAddresses (Instance_IPAddresses inst).

Ltac recorded_kept :=
  match goal with Hs : recorded _ _ _ |- recorded _ _ _ =>
    unfold recorded, instanceID in *; cbn in *; done end.

Lemma ensureLBPoolMember_recorded scope inst :
  keeps (fun _ => True) (recorded scope inst) (ensureLBPoolMember scope inst).
Proof. keeps_with ltac:(first [done | recorded_kept]). Qed.
Lemma initNode_recorded scope inst :
  keeps (fun _ => True) (recorded scope inst) (initNode scope inst).
Proof.
  unfold initNode. apply keeps_read. intros s Hs. keeps_with done.
Qed.

Lemma instanceActive_run scope inst o t r o' :
  runs (instanceActive scope inst o) t (r, o') -> instanceID o = Instance_ID inst ->
  recorded scope inst o'.
Proof.
  intros Hr Hid. unfold instanceActive in Hr.
  apply runs_mbind in Hr as (t1 & t2 & [] & s1 & -> & H1 & Hr).
  assert (Hid1 : instanceID s1 = Instance_ID inst).
  { refine (proj2 (keeps_run (fun _ => True) (fun s => instanceID s = _) _ _ _ _ _ _ Hid H1)).
    keeps_with done. }
  apply runs_mbind in Hr as (t3 & t4 & [] & s2 & -> & H2 & Hr).
  assert (Hrec : recorded scope inst s2).
  { unfold recordActive, setMCondition, setMStatus in H2. rinv. by unfold recorded, instanceID in *. }
  apply runs_mbind in Hr as (t5 & t6 & e & s3 & -> & H3 & Hr).
  apply (keeps_run _ _ _ _ _ _ _ (ensureLBPoolMember_recorded scope inst) Hrec) in H3 as [_ H3].
  apply runs_mbind in Hr as (t7 & t8 & [] & s4 & -> & H4 & Hr).
  apply (keeps_run _ _ _ _ _ _ _ (initNode_recorded scope inst) H3) in H4 as [_ H4]. by rinv.
Qed.

Lemma handleExistingInstance_run scope inst o t r o' :
  runs (handleExistingInstance scope inst o) t (r, o') -> observed scope inst o o'.
Proof.
  intros Hr. unfold handleExistingInstance, setMCondition, setMStatus in Hr.
  apply runs_mbind in Hr as (t1 & t2 & [] & s1 & -> & H1 & Hr).
  apply runs_mbind in Hr as (t3 & t4 & [] & s2 & -> & H2 & Hr). rinv. unfold observed.
  destruct (Instance_Status inst =s? InstanceStatusActive).
  - by eapply instanceActive_run in Hr as (? & ? & ? & ? & ?).
  - destruct (_ =s? InstanceStatusBuild) in Hr.
    { unfold instanceBuild, setMCondition, setMReady, setMStatus in Hr. by rinv. }
    destruct (_ =s? InstanceStatusError) in Hr.
    { unfold instanceError, setMCondition, setMReady, setMStatus in Hr. by rinv. }
    unfold setMReady, setMStatus in Hr. by rinv.
Qed.


(** The provider identifier given to an ACTIVE machine is one that the
    provider itself parses back to the region of the cluster and the identifier
    of the instance, for a region without slash and a non-empty identifier. *)
Theorem active_providerID_parses scope inst o t r o' :
  region_of scope <> "" -> no_slash (region_of scope) = true -> Instance_ID inst <> "" ->
  Instance_Status inst = InstanceStatusActive ->
  runs (handleExistingInstance scope inst o) t (r, o') ->
  ParseProviderID (MSpec_ProviderID (OVHMachine_Spec o')) = Ok (region_of scope, Instance_ID inst).
Proof.
  intros Hreg Hs Hi Ha Hr. unfold handleExistingInstance, setMCondition, setMStatus in Hr.
  apply runs_mbind in Hr as (t1 & t2 & [] & s1 & -> & H1 & Hr).
  apply runs_mbind in Hr as (t3 & t4 & [] & s2 & -> & H2 & Hr). rinv.
  rewrite Ha, strEqb_refl in Hr. eapply instanceActive_run in Hr as (_ & _ & Hp & _); [|done].
  rewrite Hp. by apply parse_providerID.
Qed.

(** ** Pool members *)

(** A control plane machine is not added twice to the API server pool: when
    the listing of the pool shows a member at its private address and port 6443,
    the run records that member and posts none to the pool; it posts one only
    when the listing failed or shows no such member. *)
Theorem pool_member_not_duplicated scope poolID ip o t r o' :
  runs (ensureApiMember scope poolID ip o) t (r, o') ->
  let c := MScope_OVHClient scope in
  (Forall (no_post_on (memberCollection c poolID)) t /\
   exists members m, within t (ListPoolMembers c poolID) (Ok members) /\ m ∈ members /\
     Member_Address m = ip /\ Member_ProtocolPort m = 6443 /\ r = None /\
     MStatus_LBPoolMemberID (OVHMachine_Status o') = Member_ID m) \/
  (exists l, within t (ListPoolMembers c poolID) l /\
     forall members, l = Ok members ->
       Forall (fun m => Member_Address m <> ip \/ Member_ProtocolPort m <> 6443) members).
Proof.
  intros Hr c. unfold ensureApiMember in Hr. subst c.
  apply runs_mbind in Hr as (t1 & t2 & l & s1 & -> & H1 & Hr). apply runs_lift in H1 as [H1 ->].
  destruct (memberAt l ip 6443) as [m|] eqn:Hm.
  - left. unfold setLBPoolMemberID, setMStatus in Hr. rinv. split; [no_posts|].
    destruct l as [members|]; [|done]. apply find_first_in in Hm as [Hin Hp].
    apply andb_true_iff in Hp as [Hp1 Hp2]. str_simpl. apply Z.eqb_eq in Hp2.
    exists members, m. split_all. in_run.
  - right. exists l. split; [in_run|]. intros members ->. apply find_first_none in Hm.
    eapply Forall_impl; [exact Hm|]. cbn. intros m [Ha|Hp]%andb_false_iff.
    + left. by apply strEqb_neq.
    + right. by apply Z.eqb_neq.
Qed.
End existing.

(** ** Deletion *)

Section deletion.
Context `{CapiLib}.

Ltac no_instance_deleted := intros ?; autounfold with paths; path_neq.

(** [o'] is [o] up to the pool member and the finalizers. *)
Lemma removeLBPoolMember_same scope id f :
  keeps (fun _ => True) (fun o => instanceID o = id /\ hasMFinalizer o = f)
    (removeLBPoolMember scope).
Proof.
  keeps_with ltac:(first [done | unfold instanceID, hasMFinalizer in *; cbn in *; done]).
Qed.
Lemma deleteVolumes_same scope id vols (I : OVHMachine -> Prop) :
  keeps (fun _ => True) I (for_each vols (fun v => lift (deleteVolume scope id v))).
Proof. keeps_with done. Qed.

(** The read that verifies the deletion: the instance is DELETED or cannot be read. *)
Definition gone (r : gores Instance_) : Prop :=
  match r with
  | Ok inst => Instance_Status inst = InstanceStatusDeleted
  | Err _ => True
  end.

Lemma deleteInstance_run scope o t r o' :
  runs (deleteInstance scope o) t (r, o') ->
  o' = o /\
  match r with
  | Some out => retries out
  | None => instanceID o <> "" ->
      within t (DeleteInstance (MScope_OVHClient scope) (instanceID o)) None /\
      exists g, within t (GetInstance (MScope_OVHClient scope) (instanceID o)) g /\ gone g
  end.
Proof.
  intros Hr. split.
  { eapply (keeps_run (fun _ => True) (fun s => s = o)) in Hr; [by destruct Hr| |done].
    keeps_with done. }
  unfold deleteInstance, getMStatus in Hr. rinv. unfold instanceID.
  destruct (_ =s? "") eqn:Hid in Hr; str_simpl; rinv; [congruence|].
  case_match; rinv; [by right|]. case_match.
  - destruct (_ =s? InstanceStatusDeleted) eqn:Hd in Hr; cbn [negb] in Hr; rinv; [|by left].
    intros _. split; [in_run|]. eexists. split; [in_run|]. cbn. by str_simpl.
  - rinv. intros _. split; [in_run|]. eexists. by split; [in_run|].
Qed.


Definition noID (o : OVHMachine) : Prop := instanceID o = "".
Definition no_instance_delete (c : Client) (e : event) : Prop :=
  forall id, no_delete_on (instancePath c id) e.

Lemma deleteInstance_noID E scope : keeps E noID (deleteInstance scope).
Proof.
  unfold deleteInstance. apply keeps_read. intros s Hs. unfold noID, instanceID in Hs.
  rewrite Hs. cbn. apply keeps_ret.
Qed.
#[local] Hint Resolve deleteInstance_noID : keeps.

Lemma machineDeleteBody_noID scope o t r o' :
  noID o -> runs (machineDeleteBody scope o) t (r, o') ->
  hasMFinalizer o' = false /\ r = (noRequeue, None).
Proof.
  intros Hid Hr. unfold machineDeleteBody, getMStatus, removeMachineFinalizer in Hr. rinv.
  destruct (machineKeepPolicy o) in Hr; rinv.
  { split; [|done]. unfold hasMFinalizer. cbn -[ContainsFinalizer RemoveFinalizer].
    apply ContainsFinalizer_Remove. }
  match goal with Hv : runs (for_each _ _ _) _ _ |- _ =>
    apply (keeps_run _ noID _ _ _ _ _ (deleteVolumes_same _ _ _ _) Hid) in Hv as [_ Hv] end.
  match goal with Hv : noID ?s, Hrm : runs (removeLBPoolMember _ ?s) _ _ |- _ =>
    apply (keeps_run _ _ _ _ _ _ _ (removeLBPoolMember_same scope "" (hasMFinalizer s))
             (conj Hv eq_refl)) in Hrm as [_ [Hm _]] end.
  match goal with Hor : runs (orElse _ _ _) _ _ |- _ =>
    apply orElse_cases in Hor as [Ho|(? & ? & ? & -> & Ho & Hrest)];
    unfold deleteInstance, getMStatus in Ho; rinv; unfold instanceID in Hm; rewrite Hm in Ho end.
  - cbn in Ho. by destruct Ho.
  - cbn in Ho. destruct Ho as [_ [= ->]]. rinv. split; [|done].
    unfold hasMFinalizer. cbn -[ContainsFinalizer RemoveFinalizer]. apply ContainsFinalizer_Remove.
Qed.

(** A machine that recorded no instance identifier leaves its instance
    behind: its deletion removes the finalizer at once, without looking the
    instance up by name and without deleting any instance, whatever exists in
    the project. *)
Theorem machine_without_id_deletes_no_instance scope o t r o' :
  instanceID o = "" ->
  runs (MachineReconcileDelete scope o) t (r, o') ->
  hasMFinalizer o' = false /\ r = (noRequeue, None) /\
  Forall (no_instance_delete (MScope_OVHClient scope)) t.
Proof.
  intros Hid Hr.
  assert (Hf : Forall (no_instance_delete (MScope_OVHClient scope)) t).
  { refine (proj1 (keeps_run _ noID _ _ _ _ _ _ Hid Hr)).
    keeps_with ltac:(first [no_instance_deleted | unfold noID, instanceID in *; cbn in *; done]). }
  enough (hasMFinalizer o' = false /\ r = (noRequeue, None)) as [? ?] by done.
  unfold MachineReconcileDelete, observeMDuration in Hr.
  apply runs_mbind in Hr as (t1 & t2 & ? & ? & -> & (? & ? & -> & -> & [= -> ->]) & Hr).
  apply runs_mbind in Hr as (t3 & t4 & out & s1 & -> & H1 & Hr). rinv.
  by eapply machineDeleteBody_noID.
Qed.

(** A paused machine, or one of a paused cluster, is left alone: no run of
    its normal reconciliation calls the OVH API, and it is marked not ready and
    not provisioned. *)
Theorem paused_machine_calls_nothing scope o t r o' :
  IsPaused (MScope_Cluster scope) (OVHMachine_ObjectMeta o) = true ->
  runs (MachineReconcileNormal scope o) t (r, o') ->
  Forall no_ovh t /\ r = (noRequeue, None) /\
  o' = o {{ OVHMachine_Status ::= fun s => s {{ MStatus_Ready := false;
         MStatus_Initialization := machineInitializationNotProvisioned }} }}.
Proof.
  intros Hp Hr.
  unfold MachineReconcileNormal, machineNormalBody, observeMDuration, observeMachineStatus,
    notProvisioned, setMStatus in Hr.
  rinv. rewrite Hp in *. rinv. split; [|done]. cbn. repeat constructor.
Qed.

(** What the status says of the instance. *)
Definition reported (o : OVHMachine) :=
  (MStatus_Ready (OVHMachine_Status o), MStatus_Addresses (OVHMachine_Status o),
   MStatus_Initialization (OVHMachine_Status o), MSpec_ProviderID (OVHMachine_Spec o)).

(** The instance a machine had is gone and a new one is created: the machine
    still reports what it observed of the old one, ready if it was. *)
Theorem recreated_machine_stays_ready scope o t r o' :
  runs ((let! _ := findByStatus scope in createInstance scope)%go o) t (r, o') ->
  reported o' = reported o.
Proof.
  intros Hr. refine (proj2 (keeps_run (fun _ => True) (fun s => reported s = reported o) _ _ _ _ _
                              _ eq_refl Hr)).
  keeps_with ltac:(first [done | unfold reported in *; cbn in *; done]).
Qed.

End deletion.

(** ** Witnesses *)

Definition normal_run (scope : MachineScope) (o : OVHMachine) :=
  demo_run healthy (MachineReconcileNormal scope o).
Definition delete_run (scope : MachineScope) (o : OVHMachine) :=
  demo_run healthy (MachineReconcileDelete scope o).
Definition worker := demo_machine_scope false.

Lemma instance_created_only_if_none_witness :
  Forall (no_post_on (instanceCollection demo_client))
    (normal_run worker (demo_machine false "i-1")).1 \/
  (("i-1" = "" \/
    exists e, within (normal_run worker (demo_machine false "i-1")).1 (GetInstance demo_client "i-1") (Err e) /\
              IsNotFound (Some e) = true) /\
   "" = "" /\
   within (normal_run worker (demo_machine false "i-1")).1 (FindInstanceByName demo_client "test-m0") (Ok None)).
Proof.
  refine (instance_created_only_if_none worker (demo_machine false "i-1") _
            (normal_run worker (demo_machine false "i-1")).2.1
            (normal_run worker (demo_machine false "i-1")).2.2 _).
  rewrite <- surjective_pairing. apply demo_runs.
Defined.

Definition observe_run := demo_run healthy
  (handleExistingInstance worker (demo_instance "ACTIVE") (demo_machine false "")).


Lemma active_providerID_parses_witness :
  ParseProviderID (MSpec_ProviderID (OVHMachine_Spec observe_run.2.2)) = Ok ("GRA7", "i-1").
Proof.
  refine (active_providerID_parses worker (demo_instance "ACTIVE") (demo_machine false "")
            observe_run.1 observe_run.2.1 _ _ _ _ _ _); [discriminate|reflexivity|discriminate|reflexivity|].
  rewrite <- surjective_pairing. apply demo_runs.
Defined.

Definition member_run := demo_run healthy
  (ensureApiMember (demo_machine_scope true) "pool-1" "10.0.0.9" (demo_machine false "i-1")).

Lemma pool_member_not_duplicated_witness :
  (Forall (no_post_on (memberCollection demo_client "pool-1")) member_run.1 /\
   exists members m, within member_run.1 (ListPoolMembers demo_client "pool-1") (Ok members) /\
     m ∈ members /\ Member_Address m = "10.0.0.9" /\ Member_ProtocolPort m = 6443 /\
     member_run.2.1 = None /\
     MStatus_LBPoolMemberID (OVHMachine_Status member_run.2.2) = Member_ID m) \/
  (exists l, within member_run.1 (ListPoolMembers demo_client "pool-1") l /\
     forall members, l = Ok members ->
       Forall (fun m => Member_Address m <> "10.0.0.9" \/ Member_ProtocolPort m <> 6443) members).
Proof.
  refine (pool_member_not_duplicated (demo_machine_scope true) "pool-1" "10.0.0.9"
            (demo_machine false "i-1") member_run.1 member_run.2.1 member_run.2.2 _).
  rewrite <- surjective_pairing. apply demo_runs.
Defined.


Lemma machine_without_id_deletes_no_instance_witness :
  hasMFinalizer (delete_run worker (demo_machine true "")).2.2 = false.
Proof.
  refine (proj1 (machine_without_id_deletes_no_instance worker (demo_machine true "")
            (delete_run worker (demo_machine true "")).1
            (delete_run worker (demo_machine true "")).2.1 _ _ _)); [reflexivity|].
  rewrite <- surjective_pairing. apply demo_runs.
Defined.

Definition paused_machine : OVHMachine := (demo_machine false "i-1") {{ OVHMachine_ObjectMeta ::= fun m =>
  m {{ Annotations := {[ "cluster.x-k8s.io/paused" := "" ]} }} }}.

Lemma paused_machine_calls_nothing_witness :
  Forall no_ovh (normal_run worker paused_machine).1.
Proof.
  refine (proj1 (paused_machine_calls_nothing worker paused_machine _
            (normal_run worker paused_machine).2.1 (normal_run worker paused_machine).2.2 _ _)).
  - reflexivity.
  - rewrite <- surjective_pairing. apply demo_runs.
Defined.
