(* ===== verification/Conversion.v ===== *)
(** * Conversion: api/v1alpha1/conversion.go

    The conversions between v1alpha1 and the hub version v1alpha2.  The source
    writes into the destination it is given and leaves the fields it does not
    mention; a conversion is therefore a function of the source and of the
    destination's previous value.  The destination's type, which the source
    asserts, is the type of the argument. *)
From S2P Require Import Prelude.
From S2P Require Import GoStrings.
From S2P Require Import GoErrors.
From S2P Require Import K8sTypes.
From S2P Require Import ApiV1alpha1.
From S2P Require Import ApiV1alpha2.
#[local] Open Scope Z_scope.
#[local] Open Scope go_scope.

Abbreviation Cluster1 := ApiV1alpha1.OVHCluster.
Abbreviation Machine1 := ApiV1alpha1.OVHMachine.

Definition ProtocolTCP : string := "TCP".
Definition ProtocolUDP : string := "UDP".
Definition ProtocolSCTP : string := "SCTP".

Definition convertProtocolToV1Alpha2 (p : string) : gores string :=
  if p =s? "TCP" then Ok ProtocolTCP
  else if p =s? "UDP" then Ok ProtocolUDP
  else if p =s? "SCTP" then Ok ProtocolSCTP
  else if p =s? "HTTP" then
    Err (NewError "protocol HTTP is deprecated in v1alpha2; use TCP with an HTTP health check instead")
  else Err (NewError ("unknown protocol " +:+ fmt_q p)).

(** A loop converting every element, stopping at the first error. *)
Fixpoint convertAll {A B} (f : A -> gores B) (l : list A) : gores (list B) :=
  match l with
  | [] => Ok []
  | x :: l =>
      match f x with
      | Err e => Err e
      | Ok y => match convertAll f l with
                | Err e => Err e
                | Ok ys => Ok (y :: ys)
                end
      end
  end.

(** ** OVHCluster *)

Definition listenerTo (l : ApiV1alpha1.OVHListener) : gores OVHListener :=
  match convertProtocolToV1Alpha2 (C1_Listener_Protocol l) with
  | Err err => Err (Errorf ("listener " +:+ fmt_q (C1_Listener_Name l) +:+ ": ") err)
  | Ok proto => Ok {| OVHListener_Name := C1_Listener_Name l; OVHListener_Port := C1_Listener_Port l;
                      OVHListener_Protocol := proto; OVHListener_BackendPort := C1_Listener_BackendPort l |}
  end.

Definition listenerFrom (l : OVHListener) : ApiV1alpha1.OVHListener := {|
  C1_Listener_Name := OVHListener_Name l; C1_Listener_Port := OVHListener_Port l;
  C1_Listener_Protocol := OVHListener_Protocol l;
  C1_Listener_BackendPort := OVHListener_BackendPort l |}.

Definition networkConfigTo (nc : ApiV1alpha1.OVHNetworkConfig) : OVHNetworkConfig := {|
  NetConfig_PrivateNetworkID := C1_Net_PrivateNetworkID nc;
  NetConfig_SubnetCIDR := C1_Net_SubnetCIDR nc; NetConfig_VlanID := C1_Net_VlanID nc;
  NetConfig_Gateway := C1_Net_Gateway nc; NetConfig_DNSServers := C1_Net_DNSServers nc |}.

Definition networkConfigFrom (nc : OVHNetworkConfig) : ApiV1alpha1.OVHNetworkConfig := {|
  C1_Net_PrivateNetworkID := NetConfig_PrivateNetworkID nc;
  C1_Net_SubnetCIDR := NetConfig_SubnetCIDR nc; C1_Net_VlanID := NetConfig_VlanID nc;
  C1_Net_Gateway := NetConfig_Gateway nc; C1_Net_DNSServers := NetConfig_DNSServers nc |}.

(** The specification part of [ConvertTo]. *)
Definition clusterSpecTo (src : ApiV1alpha1.OVHClusterSpec) (dst : OVHClusterSpec)
  : gores OVHClusterSpec :=
  let lb := C1Spec_LoadBalancerConfig src in
  let dst := dst {{
    CSpec_ServiceName := C1Spec_ServiceName src;
    CSpec_Region := C1Spec_Region src;
    CSpec_IdentitySecret := {| SecretKey_Namespace := C1_SecretKey_Namespace (C1Spec_IdentitySecret src);
                               SecretKey_Name := C1_SecretKey_Name (C1Spec_IdentitySecret src) |};
    CSpec_ControlPlaneEndpoint := C1Spec_ControlPlaneEndpoint src;
    CSpec_SSHKeyName := C1Spec_SSHKeyName src;
    CSpec_LoadBalancerConfig ::= fun c => c {{
      LBConfig_SubnetID := C1_LB_SubnetID lb;
      LBConfig_FlavorName := C1_LB_FlavorName lb;
      LBConfig_FloatingNetworkID := C1_LB_FloatingNetworkID lb }} }} in
  let network (dst : OVHClusterSpec) : OVHClusterSpec :=
    match C1Spec_NetworkConfig src with
    | Some nc => dst {{ CSpec_NetworkConfig := Some (networkConfigTo nc) }}
    | None => dst
    end in
  match C1_LB_Listeners lb with
  | [] => Ok (network dst)
  | ls =>
      match convertAll listenerTo ls with
      | Err err => Err err
      | Ok ls' => Ok (network (dst {{ CSpec_LoadBalancerConfig ::= fun c =>
                                        c {{ LBConfig_Listeners := ls' }} }}))
      end
  end.

Definition clusterStatusTo (src : ApiV1alpha1.OVHClusterStatus) (dst : OVHClusterStatus)
  : OVHClusterStatus := dst {{
  CStatus_Ready := C1Status_Ready src;
  CStatus_Conditions := C1Status_Conditions src;
  CStatus_NetworkID := C1Status_NetworkID src;
  CStatus_SubnetID := C1Status_SubnetID src;
  CStatus_LoadBalancerID := C1Status_LoadBalancerID src;
  CStatus_ListenerID := C1Status_ListenerID src;
  CStatus_PoolID := C1Status_PoolID src;
  CStatus_FloatingIPID := C1Status_FloatingIPID src;
  CStatus_GatewayID := C1Status_GatewayID src;
  CStatus_GatewayExposed := C1Status_GatewayExposed src;
  CStatus_RegisterListenerID := C1Status_RegisterListenerID src;
  CStatus_RegisterPoolID := C1Status_RegisterPoolID src }}.

Definition OVHCluster_ConvertTo (src : Cluster1) (dst : OVHCluster) : gores OVHCluster :=
  match clusterSpecTo (C1_Spec src) (OVHCluster_Spec dst) with
  | Err err => Err err
  | Ok spec => Ok {| OVHCluster_ObjectMeta := C1_ObjectMeta src;
                     OVHCluster_Spec := spec;
                     OVHCluster_Status := clusterStatusTo (C1_Status src) (OVHCluster_Status dst) |}
  end.

Definition clusterSpecFrom (src : OVHClusterSpec) (dst : ApiV1alpha1.OVHClusterSpec)
  : ApiV1alpha1.OVHClusterSpec :=
  let lb := CSpec_LoadBalancerConfig src in
  let dst := dst {{
    C1Spec_ServiceName := CSpec_ServiceName src;
    C1Spec_Region := CSpec_Region src;
    C1Spec_IdentitySecret := {| C1_SecretKey_Namespace := SecretKey_Namespace (CSpec_IdentitySecret src);
                                C1_SecretKey_Name := SecretKey_Name (CSpec_IdentitySecret src) |};
    C1Spec_ControlPlaneEndpoint := CSpec_ControlPlaneEndpoint src;
    C1Spec_SSHKeyName := CSpec_SSHKeyName src;
    C1Spec_LoadBalancerConfig ::= fun c => c {{
      C1_LB_SubnetID := LBConfig_SubnetID lb;
      C1_LB_FlavorName := LBConfig_FlavorName lb;
      C1_LB_FloatingNetworkID := LBConfig_FloatingNetworkID lb;
      C1_LB_Listeners ::= fun old => match LBConfig_Listeners lb with
                                     | [] => old
                                     | ls => map listenerFrom ls
                                     end }} }} in
  match CSpec_NetworkConfig src with
  | Some nc => dst {{ C1Spec_NetworkConfig := Some (networkConfigFrom nc) }}
  | None => dst
  end.

Definition clusterStatusFrom (src : OVHClusterStatus) (dst : ApiV1alpha1.OVHClusterStatus)
  : ApiV1alpha1.OVHClusterStatus := dst {{
  C1Status_Ready := CStatus_Ready src;
  C1Status_Conditions := CStatus_Conditions src;
  C1Status_NetworkID := CStatus_NetworkID src;
  C1Status_SubnetID := CStatus_SubnetID src;
  C1Status_LoadBalancerID := CStatus_LoadBalancerID src;
  C1Status_ListenerID := CStatus_ListenerID src;
  C1Status_PoolID := CStatus_PoolID src;
  C1Status_FloatingIPID := CStatus_FloatingIPID src;
  C1Status_GatewayID := CStatus_GatewayID src;
  C1Status_GatewayExposed := CStatus_GatewayExposed src;
  C1Status_RegisterListenerID := CStatus_RegisterListenerID src;
  C1Status_RegisterPoolID := CStatus_RegisterPoolID src }}.

Definition OVHCluster_ConvertFrom (src : OVHCluster) (dst : Cluster1) : Cluster1 := {|
  C1_ObjectMeta := OVHCluster_ObjectMeta src;
  C1_Spec := clusterSpecFrom (OVHCluster_Spec src) (C1_Spec dst);
  C1_Status := clusterStatusFrom (OVHCluster_Status src) (C1_Status dst) |}.

(** ** OVHMachine *)

Definition volumeTo (v : ApiV1alpha1.OVHVolume) : OVHVolume := {|
  OVHVolume_Name := M1_Volume_Name v; OVHVolume_SizeGB := M1_Volume_SizeGB v;
  OVHVolume_Type := M1_Volume_Type v |}.
Definition volumeFrom (v : OVHVolume) : ApiV1alpha1.OVHVolume := {|
  M1_Volume_Name := OVHVolume_Name v; M1_Volume_SizeGB := OVHVolume_SizeGB v;
  M1_Volume_Type := OVHVolume_Type v |}.

Definition convertMachineSpecTo (src : ApiV1alpha1.OVHMachineSpec) (dst : OVHMachineSpec)
  : OVHMachineSpec := dst {{
  MSpec_ProviderID := M1Spec_ProviderID src;
  MSpec_FlavorName := M1Spec_FlavorName src;
  MSpec_ImageName := M1Spec_ImageName src;
  MSpec_SSHKeyName := M1Spec_SSHKeyName src;
  MSpec_RootDiskSize := M1Spec_RootDiskSize src;
  MSpec_FailureDomain := M1Spec_FailureDomain src;
  MSpec_AdditionalVolumes ::= fun old => match M1Spec_AdditionalVolumes src with
                                         | [] => old
                                         | vs => map volumeTo vs
                                         end }}.

Definition convertMachineSpecFrom (src : OVHMachineSpec) (dst : ApiV1alpha1.OVHMachineSpec)
  : ApiV1alpha1.OVHMachineSpec := dst {{
  M1Spec_ProviderID := MSpec_ProviderID src;
  M1Spec_FlavorName := MSpec_FlavorName src;
  M1Spec_ImageName := MSpec_ImageName src;
  M1Spec_SSHKeyName := MSpec_SSHKeyName src;
  M1Spec_RootDiskSize := MSpec_RootDiskSize src;
  M1Spec_FailureDomain := MSpec_FailureDomain src;
  M1Spec_AdditionalVolumes ::= fun old => match MSpec_AdditionalVolumes src with
                                          | [] => old
                                          | vs => map volumeFrom vs
                                          end }}.

Definition convertMachineStatusTo (src : ApiV1alpha1.OVHMachineStatus) (dst : OVHMachineStatus)
  : OVHMachineStatus := dst {{
  MStatus_Ready := M1Status_Ready src;
  MStatus_Conditions := M1Status_Conditions src;
  MStatus_Addresses := M1Status_Addresses src;
  MStatus_Initialization := {| Provisioned := Some (M1_Provisioned (M1Status_Initialization src)) |};
  MStatus_InstanceID := M1Status_InstanceID src;
  MStatus_VolumeIDs := M1Status_VolumeIDs src;
  MStatus_LBPoolMemberID := M1Status_LBPoolMemberID src;
  MStatus_RegisterPoolMemberID := M1Status_RegisterPoolMemberID src }}.

Definition convertMachineStatusFrom (src : OVHMachineStatus) (dst : ApiV1alpha1.OVHMachineStatus)
  : ApiV1alpha1.OVHMachineStatus := dst {{
  M1Status_Ready := MStatus_Ready src;
  M1Status_Conditions := MStatus_Conditions src;
  M1Status_Addresses := MStatus_Addresses src;
  M1Status_Initialization := {| M1_Provisioned := default false (Provisioned (MStatus_Initialization src)) |};
  M1Status_InstanceID := MStatus_InstanceID src;
  M1Status_VolumeIDs := MStatus_VolumeIDs src;
  M1Status_LBPoolMemberID := MStatus_LBPoolMemberID src;
  M1Status_RegisterPoolMemberID := MStatus_RegisterPoolMemberID src }}.

Definition OVHMachine_ConvertTo (src : Machine1) (dst : OVHMachine) : OVHMachine := {|
  OVHMachine_ObjectMeta := M1_ObjectMeta src;
  OVHMachine_Spec := convertMachineSpecTo (M1_Spec src) (OVHMachine_Spec dst);
  OVHMachine_Status := convertMachineStatusTo (M1_Status src) (OVHMachine_Status dst) |}.

Definition OVHMachine_ConvertFrom (src : OVHMachine) (dst : Machine1) : Machine1 := {|
  M1_ObjectMeta := OVHMachine_ObjectMeta src;
  M1_Spec := convertMachineSpecFrom (OVHMachine_Spec src) (M1_Spec dst);
  M1_Status := convertMachineStatusFrom (OVHMachine_Status src) (M1_Status dst) |}.

(** ** Zero values *)

Definition zero_ObjectMeta : ObjectMeta := {|
  Namespace := ""; Name := ""; Annotations := ∅; Labels := ∅; Finalizers := [];
  DeletionTimestamp := None |}.

Definition zero_ClusterSpec : OVHClusterSpec := {|
  CSpec_ServiceName := ""; CSpec_Region := "";
  CSpec_IdentitySecret := {| SecretKey_Namespace := ""; SecretKey_Name := "" |};
  CSpec_ControlPlaneEndpoint := {| Host := ""; Port := 0 |};
  CSpec_LoadBalancerConfig := {| LBConfig_SubnetID := ""; LBConfig_FlavorName := "";
    LBConfig_FloatingNetworkID := ""; LBConfig_Listeners := [];
    LBConfig_ExistingLoadBalancerID := ""; LBConfig_ExistingFloatingIPID := "" |};
  CSpec_NetworkConfig := None; CSpec_SSHKeyName := ""; CSpec_FailureDomains := [];
  CSpec_SecurityGroups := []; CSpec_DefaultTags := ∅; CSpec_DNSConfig := None |}.

Definition zero_ClusterStatus : OVHClusterStatus := {|
  CStatus_Ready := false; CStatus_Initialization := {| Provisioned := None |};
  CStatus_Conditions := []; CStatus_NetworkID := ""; CStatus_SubnetID := "";
  CStatus_LoadBalancerID := ""; CStatus_ListenerID := ""; CStatus_PoolID := "";
  CStatus_FloatingIPID := ""; CStatus_GatewayID := ""; CStatus_GatewayExposed := false;
  CStatus_RegisterListenerID := ""; CStatus_RegisterPoolID := "";
  CStatus_FailureDomains := []; CStatus_SecurityGroupIDs := ∅; CStatus_DNSRecordID := 0 |}.

Definition zero_OVHCluster : OVHCluster := {|
  OVHCluster_ObjectMeta := zero_ObjectMeta; OVHCluster_Spec := zero_ClusterSpec;
  OVHCluster_Status := zero_ClusterStatus |}.

Definition zero_MachineSpec : OVHMachineSpec := {|
  MSpec_ProviderID := ""; MSpec_FlavorName := ""; MSpec_ImageName := ""; MSpec_SSHKeyName := "";
  MSpec_RootDiskSize := 0; MSpec_AdditionalVolumes := []; MSpec_FailureDomain := "";
  MSpec_SecurityGroupNames := []; MSpec_Tags := ∅; MSpec_BootstrapFormat := "";
  MSpec_ExistingInstanceID := "" |}.

Definition zero_OVHMachine : OVHMachine := {|
  OVHMachine_ObjectMeta := zero_ObjectMeta;
  OVHMachine_Spec := zero_MachineSpec;
  OVHMachine_Status := {| MStatus_Ready := false; MStatus_Conditions := []; MStatus_Addresses := [];
    MStatus_Initialization := {| Provisioned := None |}; MStatus_InstanceID := "";
    MStatus_VolumeIDs := []; MStatus_LBPoolMemberID := ""; MStatus_RegisterPoolMemberID := "" |} |}.

Definition zero_ClusterSpec1 : ApiV1alpha1.OVHClusterSpec := {|
  C1Spec_ServiceName := ""; C1Spec_Region := "";
  C1Spec_IdentitySecret := {| C1_SecretKey_Namespace := ""; C1_SecretKey_Name := "" |};
  C1Spec_ControlPlaneEndpoint := {| Host := ""; Port := 0 |};
  C1Spec_LoadBalancerConfig := {| C1_LB_SubnetID := ""; C1_LB_FlavorName := "";
    C1_LB_FloatingNetworkID := ""; C1_LB_Listeners := [] |};
  C1Spec_NetworkConfig := None; C1Spec_SSHKeyName := "" |}.

Definition zero_OVHCluster1 : Cluster1 := {|
  C1_ObjectMeta := zero_ObjectMeta;
  C1_Spec := zero_ClusterSpec1;
  C1_Status := {| C1Status_Ready := false; C1Status_FailureReason := "";
    C1Status_FailureMessage := ""; C1Status_Conditions := []; C1Status_NetworkID := "";
    C1Status_SubnetID := ""; C1Status_LoadBalancerID := ""; C1Status_ListenerID := "";
    C1Status_PoolID := ""; C1Status_FloatingIPID := ""; C1Status_GatewayID := "";
    C1Status_GatewayExposed := false; C1Status_RegisterListenerID := "";
    C1Status_RegisterPoolID := "" |} |}.

Definition zero_MachineSpec1 : ApiV1alpha1.OVHMachineSpec := {|
  M1Spec_ProviderID := ""; M1Spec_FlavorName := ""; M1Spec_ImageName := ""; M1Spec_SSHKeyName := "";
  M1Spec_RootDiskSize := 0; M1Spec_AdditionalVolumes := []; M1Spec_FailureDomain := "" |}.

Definition zero_OVHMachine1 : Machine1 := {|
  M1_ObjectMeta := zero_ObjectMeta;
  M1_Spec := zero_MachineSpec1;
  M1_Status := {| M1Status_Ready := false; M1Status_Conditions := []; M1Status_FailureReason := "";
    M1Status_FailureMessage := ""; M1Status_Addresses := [];
    M1Status_Initialization := {| M1_Provisioned := false |}; M1Status_InstanceID := "";
    M1Status_VolumeIDs := []; M1Status_LBPoolMemberID := ""; M1Status_RegisterPoolMemberID := "" |} |}.

(** ** Templates *)

Definition OVHClusterTemplate_ConvertTo (src : ApiV1alpha1.OVHClusterTemplate)
  : gores OVHClusterTemplate :=
  let template := CT1_Template (CT1_Spec src) in
  let tmpSrc := zero_OVHCluster1 {{ C1_Spec := CT1_Resource_Spec template }} in
  match OVHCluster_ConvertTo tmpSrc zero_OVHCluster with
  | Err err => Err err
  | Ok tmpDst => Ok {|
      OVHClusterTemplate_ObjectMeta := CT1_ObjectMeta src;
      OVHClusterTemplate_Spec := {| ClusterTemplateSpec_Template := {|
        ClusterTemplateResource_ObjectMeta := CT1_Resource_ObjectMeta template;
        ClusterTemplateResource_Spec := OVHCluster_Spec tmpDst |} |} |}
  end.

Definition OVHClusterTemplate_ConvertFrom (src : OVHClusterTemplate)
  : ApiV1alpha1.OVHClusterTemplate :=
  let template := ClusterTemplateSpec_Template (OVHClusterTemplate_Spec src) in
  let tmpSrc := zero_OVHCluster {{ OVHCluster_Spec := ClusterTemplateResource_Spec template }} in
  let tmpDst := OVHCluster_ConvertFrom tmpSrc zero_OVHCluster1 in
  {| CT1_ObjectMeta := OVHClusterTemplate_ObjectMeta src;
     CT1_Spec := {| CT1_Template := {|
       CT1_Resource_ObjectMeta := ClusterTemplateResource_ObjectMeta template;
       CT1_Resource_Spec := C1_Spec tmpDst |} |} |}.

Definition OVHMachineTemplate_ConvertTo (src : ApiV1alpha1.OVHMachineTemplate)
  (dst : OVHMachineTemplate) : OVHMachineTemplate :=
  let template := MT1_Template (MT1_Spec src) in
  {| OVHMachineTemplate_ObjectMeta := MT1_ObjectMeta src;
     OVHMachineTemplate_Spec := {| MachineTemplateSpec_Template := {|
       MachineTemplateResource_ObjectMeta := MT1_Resource_ObjectMeta template;
       MachineTemplateResource_Spec := convertMachineSpecTo (MT1_Resource_Spec template)
         (MachineTemplateResource_Spec (MachineTemplateSpec_Template (OVHMachineTemplate_Spec dst))) |} |} |}.

Definition OVHMachineTemplate_ConvertFrom (src : OVHMachineTemplate)
  (dst : ApiV1alpha1.OVHMachineTemplate) : ApiV1alpha1.OVHMachineTemplate :=
  let template := MachineTemplateSpec_Template (OVHMachineTemplate_Spec src) in
  {| MT1_ObjectMeta := OVHMachineTemplate_ObjectMeta src;
     MT1_Spec := {| MT1_Template := {|
       MT1_Resource_ObjectMeta := MachineTemplateResource_ObjectMeta template;
       MT1_Resource_Spec := convertMachineSpecFrom (MachineTemplateResource_Spec template)
         (MT1_Resource_Spec (MT1_Template (MT1_Spec dst))) |} |} |}.

(** ** Lists: every item is converted into a zero destination. *)

Definition OVHClusterList_ConvertTo (src : ApiV1alpha1.OVHClusterList) : gores OVHClusterList :=
  match convertAll (fun c => OVHCluster_ConvertTo c zero_OVHCluster) (C1_List_Items src) with
  | Err err => Err err
  | Ok items => Ok {| OVHClusterList_ListMeta := C1_List_ListMeta src;
                      OVHClusterList_Items := items |}
  end.

Definition OVHClusterList_ConvertFrom (src : OVHClusterList) : ApiV1alpha1.OVHClusterList := {|
  C1_List_ListMeta := OVHClusterList_ListMeta src;
  C1_List_Items := map (fun c => OVHCluster_ConvertFrom c zero_OVHCluster1) (OVHClusterList_Items src) |}.

Definition OVHMachineList_ConvertTo (src : ApiV1alpha1.OVHMachineList) : OVHMachineList := {|
  OVHMachineList_ListMeta := M1_List_ListMeta src;
  OVHMachineList_Items := map (fun m => OVHMachine_ConvertTo m zero_OVHMachine) (M1_List_Items src) |}.

Definition OVHMachineList_ConvertFrom (src : OVHMachineList) : ApiV1alpha1.OVHMachineList := {|
  M1_List_ListMeta := OVHMachineList_ListMeta src;
  M1_List_Items := map (fun m => OVHMachine_ConvertFrom m zero_OVHMachine1) (OVHMachineList_Items src) |}.

Definition OVHClusterTemplateList_ConvertTo (src : ApiV1alpha1.OVHClusterTemplateList)
  : gores OVHClusterTemplateList :=
  match convertAll OVHClusterTemplate_ConvertTo (CT1_List_Items src) with
  | Err err => Err err
  | Ok items => Ok {| OVHClusterTemplateList_ListMeta := CT1_List_ListMeta src;
                      OVHClusterTemplateList_Items := items |}
  end.

Definition OVHClusterTemplateList_ConvertFrom (src : OVHClusterTemplateList)
  : ApiV1alpha1.OVHClusterTemplateList := {|
  CT1_List_ListMeta := OVHClusterTemplateList_ListMeta src;
  CT1_List_Items := map OVHClusterTemplate_ConvertFrom (OVHClusterTemplateList_Items src) |}.

Definition zero_OVHMachineTemplate : OVHMachineTemplate := {|
  OVHMachineTemplate_ObjectMeta := zero_ObjectMeta;
  OVHMachineTemplate_Spec := {| MachineTemplateSpec_Template := {|
    MachineTemplateResource_ObjectMeta := {| TemplateMeta_Labels := ∅; TemplateMeta_Annotations := ∅ |};
    MachineTemplateResource_Spec := zero_MachineSpec |} |} |}.
Definition zero_OVHMachineTemplate1 : ApiV1alpha1.OVHMachineTemplate := {|
  MT1_ObjectMeta := zero_ObjectMeta;
  MT1_Spec := {| MT1_Template := {|
    MT1_Resource_ObjectMeta := {| TemplateMeta_Labels := ∅; TemplateMeta_Annotations := ∅ |};
    MT1_Resource_Spec := zero_MachineSpec1 |} |} |}.

Definition OVHMachineTemplateList_ConvertTo (src : ApiV1alpha1.OVHMachineTemplateList)
  : OVHMachineTemplateList := {|
  OVHMachineTemplateList_ListMeta := MT1_List_ListMeta src;
  OVHMachineTemplateList_Items :=
    map (fun m => OVHMachineTemplate_ConvertTo m zero_OVHMachineTemplate) (MT1_List_Items src) |}.

Definition OVHMachineTemplateList_ConvertFrom (src : OVHMachineTemplateList)
  : ApiV1alpha1.OVHMachineTemplateList := {|
  MT1_List_ListMeta := OVHMachineTemplateList_ListMeta src;
  MT1_List_Items :=
    map (fun m => OVHMachineTemplate_ConvertFrom m zero_OVHMachineTemplate1)
      (OVHMachineTemplateList_Items src) |}.

(** ** Round trips *)

Definition convertible_protocol (p : string) : Prop := p = "TCP" \/ p = "UDP" \/ p = "SCTP".

Lemma convertProtocol_spec p q :
  convertProtocolToV1Alpha2 p = Ok q <-> q = p /\ convertible_protocol p.
Proof.
  unfold convertProtocolToV1Alpha2, convertible_protocol, ProtocolTCP, ProtocolUDP, ProtocolSCTP.
  destruct (p =s? "TCP") eqn:H1; [str_simpl; subst; naive_solver|].
  destruct (p =s? "UDP") eqn:H2; [str_simpl; subst; naive_solver|].
  destruct (p =s? "SCTP") eqn:H3; [str_simpl; subst; naive_solver|]. str_simpl.
  destruct (p =s? "HTTP"); naive_solver.
Qed.

Lemma convertAll_ok {A B} (f : A -> gores B) l ys :
  convertAll f l = Ok ys <-> Forall2 (fun x y => f x = Ok y) l ys.
Proof.
  revert ys. induction l as [|x l IH]; intros ys; cbn.
  - split; [intros [= <-]; constructor|]. by inversion 1.
  - destruct (f x) as [y|e] eqn:Hx; [|split; [done|inversion 1; congruence]].
    destruct (convertAll f l) as [ys'|e].
    + split; [intros [= <-]; constructor; [done|by apply IH]|].
      inversion 1 as [|? y' ? ys'' Hy Hys]; subst. apply IH in Hys. congruence.
    + split; [done|]. inversion 1 as [|? y' ? ys'' Hy Hys]; subst. by apply IH in Hys.
Qed.

Lemma convertAll_err {A B} (f : A -> gores B) l e :
  convertAll f l = Err e -> exists x, x ∈ l /\ f x = Err e.
Proof.
  induction l as [|x l IH]; cbn; [done|].
  destruct (f x) as [y|e'] eqn:Hx; [|intros [= <-]; exists x; by split; [left|]].
  destruct (convertAll f l) as [ys|e']; [done|]. intros He.
  destruct (IH He) as (z & ? & ?). exists z. by split; [right|].
Qed.

Lemma listener_roundtrip l l' : listenerTo l = Ok l' -> listenerFrom l' = l.
Proof.
  unfold listenerTo. destruct (convertProtocolToV1Alpha2 _) eqn:Hp; [|done].
  apply convertProtocol_spec in Hp as [-> _]. by intros [= <-].
Qed.

Lemma listenerTo_from l :
  convertible_protocol (OVHListener_Protocol l) -> listenerTo (listenerFrom l) = Ok l.
Proof.
  intros Hp. unfold listenerTo. cbn.
  by rewrite (proj2 (convertProtocol_spec _ _) (conj eq_refl Hp)).
Qed.

Lemma listeners_roundtrip ls ls' : convertAll listenerTo ls = Ok ls' -> map listenerFrom ls' = ls.
Proof.
  intros Hf%convertAll_ok. induction Hf as [|l l' ls ls' Hl _ IH]; [done|].
  cbn. by rewrite (listener_roundtrip _ _ Hl), IH.
Qed.

Lemma volumes_roundtrip vs : map volumeFrom (map volumeTo vs) = vs.
Proof. rewrite map_map. apply map_id. Qed.
Lemma volumes_roundtrip' vs : map volumeTo (map volumeFrom vs) = vs.
Proof. rewrite map_map. apply map_id. Qed.

Definition all_convertible (src : Cluster1) : Prop :=
  Forall (fun l => convertible_protocol (C1_Listener_Protocol l))
    (C1_LB_Listeners (C1Spec_LoadBalancerConfig (C1_Spec src))).

(** [src] without what the hub version has no field for. *)
Definition without_failure (src : Cluster1) : Cluster1 :=
  src {{ C1_Status ::= fun s => s {{ C1Status_FailureReason := ""; C1Status_FailureMessage := "" }} }}.

Lemma network_roundtrip nc : networkConfigFrom (networkConfigTo nc) = nc.
Proof. done. Qed.

Lemma clusterSpec_roundtrip src h :
  clusterSpecTo src zero_ClusterSpec = Ok h -> clusterSpecFrom h zero_ClusterSpec1 = src.
Proof.
  unfold clusterSpecTo. destruct (C1_LB_Listeners _) as [|l ls] eqn:Hl.
  - intros [= <-]. unfold clusterSpecFrom.
    destruct src as [? ? ? ? [? ? ? ls] nc ?]; cbn in *; subst. by destruct nc.
  - destruct (convertAll _ _) as [ls'|e] eqn:Hc; [|done]. intros [= <-].
    apply listeners_roundtrip in Hc. unfold clusterSpecFrom.
    destruct src as [? ? ? ? [? ? ? ls0] nc ?]; cbn in *; subst.
    destruct ls' as [|l' ls']; [done|]. cbn in Hc. by destruct nc; cbn; rewrite Hc.
Qed.

Lemma clusterSpecTo_error src dst e :
  clusterSpecTo src dst = Err e ->
  exists l, l ∈ C1_LB_Listeners (C1Spec_LoadBalancerConfig src) /\
            ~ convertible_protocol (C1_Listener_Protocol l).
Proof.
  unfold clusterSpecTo. destruct (C1_LB_Listeners _) as [|l ls]; [done|].
  destruct (convertAll _ _) as [ls'|e'] eqn:Hc; [done|]. intros [= <-].
  apply convertAll_err in Hc as (x & Hin & Hx). exists x. split; [done|]. intros Hp.
  unfold listenerTo in Hx. by rewrite (proj2 (convertProtocol_spec _ _) (conj eq_refl Hp)) in Hx.
Qed.

Lemma cluster_roundtrip_ok src hub :
  OVHCluster_ConvertTo src zero_OVHCluster = Ok hub ->
  OVHCluster_ConvertFrom hub zero_OVHCluster1 = without_failure src.
Proof.
  unfold OVHCluster_ConvertTo. cbn [OVHCluster_Spec zero_OVHCluster].
  destruct (clusterSpecTo _ _) as [sp|e] eqn:Hs; [|done]. intros [= <-].
  unfold OVHCluster_ConvertFrom. cbn [OVHCluster_Spec OVHCluster_Status C1_Spec zero_OVHCluster1].
  rewrite (clusterSpec_roundtrip _ _ Hs). by destruct src as [? ? []].
Qed.

(** C38.  Converting a v1alpha1 cluster to the hub version and back gives the same
    cluster without its failure reason and message, and the conversion is refused
    only for a cluster with a listener whose protocol is not TCP, UDP or SCTP. *)
Theorem cluster_roundtrip src :
  match OVHCluster_ConvertTo src zero_OVHCluster with
  | Ok hub => OVHCluster_ConvertFrom hub zero_OVHCluster1 = without_failure src
  | Err _ => ~ all_convertible src
  end.
Proof.
  destruct (OVHCluster_ConvertTo src zero_OVHCluster) as [hub|e] eqn:Hc; [by apply cluster_roundtrip_ok|].
  unfold OVHCluster_ConvertTo in Hc. destruct (clusterSpecTo _ _) as [sp|e'] eqn:Hs; [done|].
  apply clusterSpecTo_error in Hs as (l & Hin & Hl). intros Hall.
  apply Hl. unfold all_convertible in Hall. rewrite Forall_forall in Hall. by apply Hall.
Qed.

Lemma machine_roundtrip_eq src :
  OVHMachine_ConvertFrom (OVHMachine_ConvertTo src zero_OVHMachine) zero_OVHMachine1 =
  src {{ M1_Status ::= fun s => s {{ M1Status_FailureReason := ""; M1Status_FailureMessage := "" }} }}.
Proof.
  destruct src as [m [? ? ? ? ? vs ?] [? ? ? ? ? [] ? ? ? ?]].
  unfold OVHMachine_ConvertFrom, OVHMachine_ConvertTo, convertMachineSpecFrom, convertMachineSpecTo,
    convertMachineStatusFrom, convertMachineStatusTo. cbn.
  f_equal. f_equal. destruct vs as [|v vs]; [done|]. exact (volumes_roundtrip (v :: vs)).
Qed.

(** Converting a v1alpha1 machine to the hub version and back gives the same
    machine without its failure reason and message. *)
Theorem machine_roundtrip src :
  OVHMachine_ConvertFrom (OVHMachine_ConvertTo src zero_OVHMachine) zero_OVHMachine1 =
  src {{ M1_Status ::= fun s => s {{ M1Status_FailureReason := ""; M1Status_FailureMessage := "" }} }}.
Proof. apply machine_roundtrip_eq. Qed.

(** What a v1alpha2 cluster loses when it is written through v1alpha1. *)
Definition forgetful (h : OVHCluster) : OVHCluster := h {{
  OVHCluster_Spec ::= fun sp => sp {{
    CSpec_FailureDomains := []; CSpec_SecurityGroups := []; CSpec_DefaultTags := ∅;
    CSpec_DNSConfig := None;
    CSpec_LoadBalancerConfig ::= fun lb => lb {{
      LBConfig_ExistingLoadBalancerID := ""; LBConfig_ExistingFloatingIPID := "" }} }};
  OVHCluster_Status ::= fun s => s {{
    CStatus_Initialization := {| Provisioned := None |}; CStatus_FailureDomains := [];
    CStatus_SecurityGroupIDs := ∅; CStatus_DNSRecordID := 0 }} }}.

Lemma clusterSpecTo_from sp :
  Forall (fun l => convertible_protocol (OVHListener_Protocol l))
    (LBConfig_Listeners (CSpec_LoadBalancerConfig sp)) ->
  clusterSpecTo (clusterSpecFrom sp zero_ClusterSpec1) zero_ClusterSpec =
  Ok (OVHCluster_Spec (forgetful {| OVHCluster_ObjectMeta := zero_ObjectMeta; OVHCluster_Spec := sp;
                                    OVHCluster_Status := zero_ClusterStatus |})).
Proof.
  intros Hp. destruct sp as [? ? [] ? [? ? ? ls ? ?] nc ? ? ? ? ?].
  cbn in Hp. assert (Hls : convertAll listenerTo (map listenerFrom ls) = Ok ls).
  { apply convertAll_ok. induction Hp; constructor; [by apply listenerTo_from|done]. }
  unfold clusterSpecTo, clusterSpecFrom.
  destruct nc as [[]|]; (destruct ls as [|l ls]; cbn; [done|]; cbn in Hls; by rewrite Hls).
Qed.

(** A v1alpha2 cluster read and written through v1alpha1 keeps everything
    that version knows and loses the rest: the existing balancer and floating IP
    to adopt, failure domains, security groups, tags and DNS configuration of its
    specification, and the provisioned flag, failure domains, security group and
    DNS record identifiers of its status. *)
Theorem hub_roundtrip_forgets h :
  Forall (fun l => convertible_protocol (OVHListener_Protocol l))
    (LBConfig_Listeners (CSpec_LoadBalancerConfig (OVHCluster_Spec h))) ->
  OVHCluster_ConvertTo (OVHCluster_ConvertFrom h zero_OVHCluster1) zero_OVHCluster = Ok (forgetful h).
Proof.
  intros Hp. unfold OVHCluster_ConvertTo, OVHCluster_ConvertFrom.
  cbn [C1_Spec C1_Status C1_ObjectMeta OVHCluster_Spec OVHCluster_Status zero_OVHCluster zero_OVHCluster1].
  rewrite clusterSpecTo_from by done. by destruct h as [? [] []].
Qed.

Definition demo_hub : OVHCluster := zero_OVHCluster {{ OVHCluster_Spec ::= fun sp => sp {{
  CSpec_FailureDomains := ["nova"];
  CSpec_LoadBalancerConfig ::= fun lb => lb {{ LBConfig_Listeners :=
    [ {| OVHListener_Name := "api"; OVHListener_Port := 6443; OVHListener_Protocol := "TCP";
         OVHListener_BackendPort := 6443 |} ] }} }} }}.

Lemma hub_roundtrip_forgets_witness :
  OVHCluster_ConvertTo (OVHCluster_ConvertFrom demo_hub zero_OVHCluster1) zero_OVHCluster =
  Ok (forgetful demo_hub).
Proof. apply hub_roundtrip_forgets. constructor; [by left|constructor]. Defined.
