(* ===== verification/ConversionSpec.v ===== *)
(** * ConversionSpec: hubs and spokes

    conversion.Hub and conversion.Convertible of controller-runtime as classes:
    the hub types of api/v1alpha2/conversion.go, and for every v1alpha1 kind an
    instance of [Spoke], whose laws its conversions satisfy.  Objects are stored
    in the hub version, so what matters is that writing back what was read
    changes nothing that is stored. *)
From S2P Require Import Prelude.
From S2P Require Import GoStrings.
From S2P Require Import GoErrors.
From S2P Require Import K8sTypes.
From S2P Require Import ApiV1alpha1.
From S2P Require Import ApiV1alpha2.
From S2P Require Import Conversion.
#[local] Open Scope Z_scope.

(** ** The interfaces *)

(** A type with the marker method [Hub()]. *)
Class Hub (T : Type) := {}.
#[export] Instance OVHCluster_Hub : Hub OVHCluster := {}.
#[export] Instance OVHClusterList_Hub : Hub OVHClusterList := {}.
#[export] Instance OVHMachine_Hub : Hub OVHMachine := {}.
#[export] Instance OVHMachineList_Hub : Hub OVHMachineList := {}.
#[export] Instance OVHClusterTemplate_Hub : Hub OVHClusterTemplate := {}.
#[export] Instance OVHClusterTemplateList_Hub : Hub OVHClusterTemplateList := {}.
#[export] Instance OVHMachineTemplate_Hub : Hub OVHMachineTemplate := {}.
#[export] Instance OVHMachineTemplateList_Hub : Hub OVHMachineTemplateList := {}.

(** A type that converts to a hub and back, into fresh objects; [kept] is what
    of an object a round trip keeps. *)
Class Spoke (S T : Type) `{Hub T} := {
  ConvertTo : S -> gores T;
  ConvertFrom : T -> S;
  kept : S -> S;
  roundtrip s t : ConvertTo s = Ok t -> ConvertFrom t = kept s;
  kept_to s : ConvertTo (kept s) = ConvertTo s;
}.

Lemma Ok_inj {T} (x y : T) : @Ok goerror T x = Ok y -> x = y.
Proof. by intros [= ->]. Qed.

(** What is stored does not drift. *)
Lemma spoke_stable {S T} `{Spoke S T} s t : ConvertTo s = Ok t -> ConvertTo (ConvertFrom t) = Ok t.
Proof. intros Ht. by rewrite (roundtrip _ _ Ht), kept_to. Qed.

(** ** Objects *)

#[export] Instance OVHCluster_Spoke : Spoke Cluster1 OVHCluster.
Proof.
  refine {|
    ConvertTo s := OVHCluster_ConvertTo s zero_OVHCluster;
    ConvertFrom t := OVHCluster_ConvertFrom t zero_OVHCluster1;
    kept := without_failure |}; [apply cluster_roundtrip_ok|done].
Defined.

#[export] Instance OVHMachine_Spoke : Spoke Machine1 OVHMachine.
Proof.
  refine {|
    ConvertTo s := Ok (OVHMachine_ConvertTo s zero_OVHMachine);
    ConvertFrom t := OVHMachine_ConvertFrom t zero_OVHMachine1;
    kept s := s {{ M1_Status ::= fun st =>
      st {{ M1Status_FailureReason := ""; M1Status_FailureMessage := "" }} }} |}; [|done].
  intros s t [= <-]. apply machine_roundtrip_eq.
Defined.

#[export] Instance OVHClusterTemplate_Spoke :
  Spoke ApiV1alpha1.OVHClusterTemplate OVHClusterTemplate.
Proof.
  refine {|
    ConvertTo := OVHClusterTemplate_ConvertTo;
    ConvertFrom := OVHClusterTemplate_ConvertFrom;
    kept s := s |}; [|done].
  intros s t. unfold OVHClusterTemplate_ConvertTo.
  destruct (OVHCluster_ConvertTo _ _) as [hub|e] eqn:Hc; [|done]. intros [= <-].
  unfold OVHClusterTemplate_ConvertFrom. cbn.
  unfold OVHCluster_ConvertTo in Hc. cbn in Hc.
  destruct (clusterSpecTo _ _) as [sp|e] eqn:Hs; [|done]. injection Hc as <-. cbn.
  apply clusterSpec_roundtrip in Hs. cbn in Hs. rewrite Hs. by destruct s as [? [[? ?]]].
Defined.

#[export] Instance OVHMachineTemplate_Spoke :
  Spoke ApiV1alpha1.OVHMachineTemplate OVHMachineTemplate.
Proof.
  refine {|
    ConvertTo s := Ok (OVHMachineTemplate_ConvertTo s zero_OVHMachineTemplate);
    ConvertFrom t := OVHMachineTemplate_ConvertFrom t zero_OVHMachineTemplate1;
    kept s := s |}; [|done].
  intros s t [= <-]. destruct s as [m [[tm [? ? ? ? ? vs ?]]]].
  unfold OVHMachineTemplate_ConvertFrom, OVHMachineTemplate_ConvertTo, convertMachineSpecFrom,
    convertMachineSpecTo. cbn. do 4 f_equal.
  destruct vs as [|v vs]; [done|]. exact (volumes_roundtrip (v :: vs)).
Defined.

(** ** Lists *)

Section items.
Context {S T} `{HT : Hub T} `{HS : !Spoke S T}.

Lemma items_roundtrip ss ts : convertAll ConvertTo ss = Ok ts -> map ConvertFrom ts = map kept ss.
Proof.
  intros Hf%convertAll_ok. induction Hf as [|s t ss ts Ht _ IH]; [done|]. cbn.
  by rewrite (roundtrip _ _ Ht), IH.
Qed.
Lemma items_kept ss : convertAll ConvertTo (map kept ss) = convertAll (ConvertTo (S := S)) ss.
Proof. induction ss as [|s ss IH]; [done|]. cbn. by rewrite kept_to, IH. Qed.
Lemma items_total (f : S -> T) ss :
  (forall s, ConvertTo s = Ok (f s)) -> convertAll ConvertTo ss = Ok (map f ss).
Proof. intros Hf. induction ss as [|s ss IH]; [done|]. cbn. by rewrite Hf, IH. Qed.
End items.

#[export] Instance OVHClusterList_Spoke : Spoke ApiV1alpha1.OVHClusterList OVHClusterList.
Proof.
  refine {|
    ConvertTo := OVHClusterList_ConvertTo;
    ConvertFrom := OVHClusterList_ConvertFrom;
    kept s := s {{ C1_List_Items ::= map kept }} |}.
  - intros [m ss] t. unfold OVHClusterList_ConvertTo. cbn.
    destruct (convertAll _ ss) as [ts|e] eqn:Hc; [|done]. intros [= <-].
    apply (items_roundtrip (HS := OVHCluster_Spoke)) in Hc.
    unfold OVHClusterList_ConvertFrom. cbn in *. by rewrite Hc.
  - intros [m ss]. unfold OVHClusterList_ConvertTo. cbn.
    pose proof (items_kept (HS := OVHCluster_Spoke) ss) as Hk. cbn in Hk. by rewrite Hk.
Defined.

#[export] Instance OVHClusterTemplateList_Spoke :
  Spoke ApiV1alpha1.OVHClusterTemplateList OVHClusterTemplateList.
Proof.
  refine {|
    ConvertTo := OVHClusterTemplateList_ConvertTo;
    ConvertFrom := OVHClusterTemplateList_ConvertFrom;
    kept s := s |}; [|done].
  intros [m ss] t. unfold OVHClusterTemplateList_ConvertTo. cbn.
  destruct (convertAll _ ss) as [ts|e] eqn:Hc; [|done]. intros [= <-].
  apply (items_roundtrip (HS := OVHClusterTemplate_Spoke)) in Hc.
  unfold OVHClusterTemplateList_ConvertFrom. cbn in *. by rewrite Hc, map_id.
Defined.

#[export] Instance OVHMachineList_Spoke : Spoke ApiV1alpha1.OVHMachineList OVHMachineList.
Proof.
  refine {|
    ConvertTo s := Ok (OVHMachineList_ConvertTo s);
    ConvertFrom := OVHMachineList_ConvertFrom;
    kept s := s {{ M1_List_Items ::= map kept }} |}.
  - intros [m ss] t [= <-]. unfold OVHMachineList_ConvertTo, OVHMachineList_ConvertFrom. cbn.
    pose proof (items_roundtrip (HS := OVHMachine_Spoke) ss _
                (items_total (HS := OVHMachine_Spoke) _ _ (fun _ => eq_refl))) as Hr.
    cbn in Hr. by rewrite Hr.
  - intros [m ss]. unfold OVHMachineList_ConvertTo. cbn. by rewrite map_map.
Defined.

#[export] Instance OVHMachineTemplateList_Spoke :
  Spoke ApiV1alpha1.OVHMachineTemplateList OVHMachineTemplateList.
Proof.
  refine {|
    ConvertTo s := Ok (OVHMachineTemplateList_ConvertTo s);
    ConvertFrom := OVHMachineTemplateList_ConvertFrom;
    kept s := s |}; [|done].
  intros [m ss] t [= <-].
  unfold OVHMachineTemplateList_ConvertTo, OVHMachineTemplateList_ConvertFrom. cbn.
  pose proof (items_roundtrip (HS := OVHMachineTemplate_Spoke) ss _
                (items_total (HS := OVHMachineTemplate_Spoke) _ _ (fun _ => eq_refl))) as Hr.
  cbn in Hr. by rewrite Hr, map_id.
Defined.

(** Stored objects do not drift: for lists of every kind, reading stored hub
    objects through v1alpha1 and writing what was read stores the same objects
    again, whatever v1alpha1 objects they came from; the conversions of single
    objects are the lists of one item. *)
Theorem stored_objects_do_not_drift :
  (forall s t, OVHClusterList_ConvertTo s = Ok t ->
     OVHClusterList_ConvertTo (OVHClusterList_ConvertFrom t) = Ok t) /\
  (forall s t, OVHClusterTemplateList_ConvertTo s = Ok t ->
     OVHClusterTemplateList_ConvertTo (OVHClusterTemplateList_ConvertFrom t) = Ok t) /\
  (forall s, let t := OVHMachineList_ConvertTo s in
     OVHMachineList_ConvertTo (OVHMachineList_ConvertFrom t) = t) /\
  (forall s, let t := OVHMachineTemplateList_ConvertTo s in
     OVHMachineTemplateList_ConvertTo (OVHMachineTemplateList_ConvertFrom t) = t).
Proof.
  split_and!.
  - exact (spoke_stable (S := ApiV1alpha1.OVHClusterList)).
  - exact (spoke_stable (S := ApiV1alpha1.OVHClusterTemplateList)).
  - intros s. exact (Ok_inj _ _ (spoke_stable (S := ApiV1alpha1.OVHMachineList) s _ eq_refl)).
  - intros s. exact (Ok_inj _ _ (spoke_stable (S := ApiV1alpha1.OVHMachineTemplateList) s _ eq_refl)).
Qed.

(** ** Witness *)

(** A cluster with one listener and a failure message, which is lost once. *)
Definition drifting_list : ApiV1alpha1.OVHClusterList := {|
  C1_List_ListMeta := {| ListMeta_ResourceVersion := "1"; ListMeta_Continue := "" |};
  C1_List_Items := [ zero_OVHCluster1 {{ C1_Status ::= fun st => st {{ C1Status_FailureMessage := "x" }} }} ] |}.

Lemma stored_objects_do_not_drift_witness :
  match OVHClusterList_ConvertTo drifting_list with
  | Ok t => OVHClusterList_ConvertTo (OVHClusterList_ConvertFrom t) = Ok t
  | Err _ => False
  end.
Proof.
  exact (proj1 stored_objects_do_not_drift drifting_list _ eq_refl).
Defined.
