(* ===== verification/Webhook.v ===== *)
(** * Webhook: the validating webhooks of OVHCluster and OVHMachine

    [validateOVHCluster] and [validateOVHMachine] of
    api/v1alpha2/ovhcluster_webhook.go and ovhmachine_webhook.go.  [None] is
    a nil error; there are never warnings.  [ParseIP] is net.ParseIP of the Go
    standard library, of which the webhook only uses whether it succeeds. *)
From S2P Require Import Prelude.
From S2P Require Import GoStrings.
From S2P Require Import GoErrors.
From S2P Require Import K8sTypes.
From S2P Require Import ApiV1alpha2.
From Stdlib Require Import Ascii.
#[local] Open Scope Z_scope.
#[local] Open Scope go_scope.

(** ** net.ParseIP *)

Definition dot (c : ascii) : bool := bool_decide (c = "."%char).
Definition colon (c : ascii) : bool := bool_decide (c = ":"%char).
Definition percent (c : ascii) : bool := bool_decide (c = "%"%char).
Definition digit_val (c : ascii) : Z := Z.of_nat (nat_of_ascii c) - 48.

(** netip.parseIPv4Fields: [val], [digLen] and [pos] are the loop's variables. *)
Fixpoint parseIPv4Fields (s : string) (val : Z) (digLen pos : nat) : bool :=
  match s with
  | EmptyString => (pos =? 3)%nat
  | String c s' =>
      if is_digit c then
        if (digLen =? 1)%nat && (val =? 0) then false
        else
          let val := val * 10 + digit_val c in
          if 255 <? val then false else parseIPv4Fields s' val (S digLen) pos
      else if dot c then
        if (digLen =? 0)%nat || (s' =s? "") then false
        else if (pos =? 3)%nat then false
        else parseIPv4Fields s' 0 0 (S pos)
      else false
  end.

Definition parseIPv4 (s : string) : bool := parseIPv4Fields s 0 0 0.

(** The value of a hexadecimal digit. *)
Definition hex_val (c : ascii) : option Z :=
  if is_digit c then Some (digit_val c)
  else if byte_in 97 102 c then Some (Z.of_nat (nat_of_ascii c) - 87)
  else if byte_in 65 70 c then Some (Z.of_nat (nat_of_ascii c) - 55)
  else None.

(** The hexadecimal digits at the head of [s], of which [off] were read before:
    their number and what follows them, or [None] for more than four.  Four
    digits never exceed 65535. *)
Fixpoint hexGroup (s : string) (off : nat) : option (nat * string) :=
  match s with
  | EmptyString => Some (off, s)
  | String c s' =>
      match hex_val c with
      | None => Some (off, s)
      | Some _ => if (3 <? off)%nat then None else hexGroup s' (S off)
      end
  end.

(** The loop of netip.parseIPv6 with [i] bytes written ([n] bounds the number of
    iterations; every iteration writes two bytes of sixteen). *)
Fixpoint parseIPv6_loop (n : nat) (s : string) (i : nat) (ellipsis : bool) : bool :=
  let finish (s : string) (i : nat) (ellipsis : bool) : bool :=
    (s =s? "") && (if (i <? 16)%nat then ellipsis else negb ellipsis) in
  match n with
  | O => finish s i ellipsis
  | S n' =>
      match hexGroup s 0 with
      | None => false
      | Some (off, rest) =>
          if (off =? 0)%nat then false
          else
            match rest with
            | EmptyString => finish "" (i + 2)%nat ellipsis
            | String c rest' =>
                if dot c then
                  if negb ellipsis && negb (i =? 12)%nat then false
                  else if (16 <? i + 4)%nat then false
                  else parseIPv4Fields s 0 0 0 && finish "" (i + 4)%nat ellipsis
                else if negb (colon c) then false
                else
                  match rest' with
                  | EmptyString => false
                  | String c2 rest2 =>
                      if colon c2 then
                        if ellipsis then false
                        else if rest2 =s? "" then finish "" (i + 2)%nat true
                        else parseIPv6_loop n' rest2 (i + 2)%nat true
                      else parseIPv6_loop n' rest' (i + 2)%nat ellipsis
                  end
            end
      end
  end.

Definition parseIPv6 (s : string) : bool :=
  match s with
  | String c1 (String c2 rest) =>
      if colon c1 && colon c2 then
        if rest =s? "" then true else parseIPv6_loop 8 rest 0 true
      else parseIPv6_loop 8 s 0 false
  | _ => parseIPv6_loop 8 s 0 false
  end.

(** netip.ParseAddr looks for the first of ['.'], [':'] and ['%']. *)
Fixpoint addrKind (s : string) : option ascii :=
  match s with
  | EmptyString => None
  | String c s' => if dot c || colon c || percent c then Some c else addrKind s'
  end.

(** Whether net.ParseIP answers an address; one with a zone is refused. *)
Definition ParseIP (s : string) : bool :=
  match addrKind s with
  | Some c =>
      if dot c then parseIPv4 s
      else if colon c then sall (fun d => negb (percent d)) s && parseIPv6 s
      else false
  | None => false
  end.

(** ** OVHCluster *)

(** [if b { errs = append(errs, msg) }]. *)
Definition err_if (b : bool) (msg : string) : list string := if b then [msg] else [].

Definition clusterErrors (c : OVHCluster) : list string :=
  let sp := OVHCluster_Spec c in
  err_if (CSpec_ServiceName sp =s? "") "spec.serviceName is required" ++
  err_if (CSpec_Region sp =s? "") "spec.region is required" ++
  err_if (SecretKey_Name (CSpec_IdentitySecret sp) =s? "") "spec.identitySecret.name is required" ++
  err_if (SecretKey_Namespace (CSpec_IdentitySecret sp) =s? "")
    "spec.identitySecret.namespace is required" ++
  err_if ((LBConfig_SubnetID (CSpec_LoadBalancerConfig sp) =s? "") &&
          bool_decide (CSpec_NetworkConfig sp = None))
    "either spec.loadBalancerConfig.subnetID or spec.networkConfig must be provided" ++
  match CSpec_NetworkConfig sp with
  | None => []
  | Some nc =>
      err_if ((NetConfig_PrivateNetworkID nc =s? "") && (NetConfig_SubnetCIDR nc =s? ""))
        "spec.networkConfig requires either privateNetworkID or subnetCIDR" ++
      err_if (negb (NetConfig_Gateway nc =s? "") && negb (ParseIP (NetConfig_Gateway nc)))
        ("spec.networkConfig.gateway " +:+ fmt_q (NetConfig_Gateway nc) +:+ " is not a valid IP address")
  end.

Definition validationError (kind : string) (meta : ObjectMeta) (errs : list string)
  : option goerror :=
  match errs with
  | [] => None
  | _ => Some (NewError ("validation failed for " +:+ kind +:+ " " +:+ Namespace meta +:+ "/" +:+
                         Name meta +:+ ": " +:+ Join errs "; "))
  end.

Definition validateOVHCluster (c : OVHCluster) : option goerror :=
  validationError "OVHCluster" (OVHCluster_ObjectMeta c) (clusterErrors c).

(** ** OVHMachine *)

(** The loop over the volumes, from the index [i]. *)
Fixpoint volumeErrors (i : Z) (vols : list OVHVolume) : list string :=
  match vols with
  | [] => []
  | vol :: vols =>
      err_if (OVHVolume_Name vol =s? "")
        ("spec.additionalVolumes[" +:+ fmt_d i +:+ "].name is required") ++
      err_if (OVHVolume_SizeGB vol <? 1)
        ("spec.additionalVolumes[" +:+ fmt_d i +:+ "].sizeGB must be >= 1") ++
      volumeErrors (i + 1) vols
  end.

Definition machineErrors (m : OVHMachine) : list string :=
  let sp := OVHMachine_Spec m in
  err_if (MSpec_FlavorName sp =s? "") "spec.flavorName is required" ++
  err_if (MSpec_ImageName sp =s? "") "spec.imageName is required" ++
  err_if (MSpec_RootDiskSize sp <? 0) "spec.rootDiskSize must be >= 0" ++
  volumeErrors 0 (MSpec_AdditionalVolumes sp).

Definition validateOVHMachine (m : OVHMachine) : option goerror :=
  validationError "OVHMachine" (OVHMachine_ObjectMeta m) (machineErrors m).

(** The handlers: an update validates the new object only; a deletion is
    accepted. *)
Definition OVHCluster_ValidateCreate (obj : OVHCluster) : option goerror := validateOVHCluster obj.
Definition OVHCluster_ValidateUpdate (oldObj newObj : OVHCluster) : option goerror :=
  validateOVHCluster newObj.
Definition OVHCluster_ValidateDelete (obj : OVHCluster) : option goerror := None.
Definition OVHMachine_ValidateCreate (obj : OVHMachine) : option goerror := validateOVHMachine obj.
Definition OVHMachine_ValidateUpdate (oldObj newObj : OVHMachine) : option goerror :=
  validateOVHMachine newObj.
Definition OVHMachine_ValidateDelete (obj : OVHMachine) : option goerror := None.

(** ** Addresses *)

Example ip_v4 : map ParseIP ["10.0.0.1"; "255.255.255.255"; "0.0.0.0"; "1.2.3"; "1.2.3.4.5";
    "256.1.1.1"; "01.2.3.4"; "1..2.3"; ".1.2.3"; "1.2.3."; "a.b.c.d"; ""; "10.0.0.1/24"] =
  [true; true; true; false; false; false; false; false; false; false; false; false; false].
Proof. reflexivity. Qed.
Example ip_v6 : map ParseIP ["::"; "::1"; "2001:db8::1"; "1:2:3:4:5:6:7:8"; "1:2:3:4:5:6:7";
    "1:2:3:4:5:6:7:8:9"; "::ffff:10.0.0.1"; "1::2::3"; "12345::"; "fe80::1%eth0"; "1:2:3:4:5:6:7::";
    "1:2:3:4:5:6:7:8::"; "1:"; ":1"; "1:2:3:4:5:6:1.2.3.4"; "1:2:3:4:5:1.2.3.4"] =
  [true; true; true; true; false; false; true; false; false; false; true; false; false; false;
   true; false].
Proof. reflexivity. Qed.

(** ** What the webhooks accept *)

Lemma err_if_nil b msg : err_if b msg = [] <-> b = false.
Proof. by destruct b. Qed.

Lemma validationError_none kind meta errs : validationError kind meta errs = None <-> errs = [].
Proof. by destruct errs. Qed.

Lemma app_nil_iff {A} (l l' : list A) : l ++ l' = [] <-> l = [] /\ l' = [].
Proof. split; [apply app_eq_nil|]. by intros [-> ->]. Qed.

(** The webhook accepts a cluster exactly when it names a service, a region
    and an identity secret with its namespace, gives a subnet for the load
    balancer or a network configuration, and the network configuration, if any,
    names a private network or a CIDR and has no gateway or a well-formed one. *)
Theorem validateOVHCluster_accepts c :
  validateOVHCluster c = None <->
  let sp := OVHCluster_Spec c in
  CSpec_ServiceName sp <> "" /\ CSpec_Region sp <> "" /\
  SecretKey_Name (CSpec_IdentitySecret sp) <> "" /\
  SecretKey_Namespace (CSpec_IdentitySecret sp) <> "" /\
  match CSpec_NetworkConfig sp with
  | None => LBConfig_SubnetID (CSpec_LoadBalancerConfig sp) <> ""
  | Some nc =>
      (NetConfig_PrivateNetworkID nc <> "" \/ NetConfig_SubnetCIDR nc <> "") /\
      (NetConfig_Gateway nc = "" \/ ParseIP (NetConfig_Gateway nc) = true)
  end.
Proof.
  unfold validateOVHCluster, clusterErrors. rewrite validationError_none. cbn zeta.
  rewrite !app_nil_iff, !err_if_nil, !strEqb_neq, andb_false_iff, strEqb_neq.
  destruct (CSpec_NetworkConfig (OVHCluster_Spec c)) as [nc|].
  - rewrite bool_decide_false by done. rewrite app_nil_iff, !err_if_nil, !andb_false_iff.
    rewrite negb_false_iff, (negb_false_iff (ParseIP _)), strEqb_eq, !strEqb_neq. tauto.
  - rewrite bool_decide_true by done. naive_solver.
Qed.

Lemma volumeErrors_nil i vols :
  volumeErrors i vols = [] <->
  Forall (fun v => OVHVolume_Name v <> "" /\ 1 <= OVHVolume_SizeGB v) vols.
Proof.
  revert i. induction vols as [|v vols IH]; intros i; cbn; [by split|].
  rewrite !app_nil_iff, !err_if_nil, strEqb_neq, Z.ltb_ge, IH, Forall_cons. tauto.
Qed.

(** The webhook accepts a machine exactly when it names a flavor and an image,
    its root disk size is not negative, and every additional volume has a name and
    a size of at least one gigabyte. *)
Theorem validateOVHMachine_accepts m :
  validateOVHMachine m = None <->
  let sp := OVHMachine_Spec m in
  MSpec_FlavorName sp <> "" /\ MSpec_ImageName sp <> "" /\ 0 <= MSpec_RootDiskSize sp /\
  Forall (fun v => OVHVolume_Name v <> "" /\ 1 <= OVHVolume_SizeGB v) (MSpec_AdditionalVolumes sp).
Proof.
  unfold validateOVHMachine, machineErrors. rewrite validationError_none. cbn zeta.
  rewrite !app_nil_iff, !err_if_nil, !strEqb_neq, Z.ltb_ge, volumeErrors_nil. tauto.
Qed.
