(* ===== verification/WebhookV1alpha1.v ===== *)
(** * WebhookV1alpha1: the validating webhooks of the deprecated API version

    [validateOVHCluster] and [validateOVHMachine] of
    api/v1alpha1/ovhcluster_webhook.go and ovhmachine_webhook.go, and their
    agreement with the v1alpha2 webhooks through the conversions. *)
From S2P Require Import Prelude.
From S2P Require Import GoStrings.
From S2P Require Import GoErrors.
From S2P Require Import K8sTypes.
From S2P Require Import ApiV1alpha1.
From S2P Require Import ApiV1alpha2.
From S2P Require Import Conversion.
From S2P Require Import Webhook.
#[local] Open Scope Z_scope.
#[local] Open Scope go_scope.

(** ** OVHCluster *)

Definition cluster1Errors (c : Cluster1) : list string :=
  let sp := C1_Spec c in
  err_if (C1Spec_ServiceName sp =s? "") "spec.serviceName is required" ++
  err_if (C1Spec_Region sp =s? "") "spec.region is required" ++
  err_if (C1_SecretKey_Name (C1Spec_IdentitySecret sp) =s? "")
    "spec.identitySecret.name is required" ++
  err_if (C1_SecretKey_Namespace (C1Spec_IdentitySecret sp) =s? "")
    "spec.identitySecret.namespace is required" ++
  err_if ((C1_LB_SubnetID (C1Spec_LoadBalancerConfig sp) =s? "") &&
          bool_decide (C1Spec_NetworkConfig sp = None))
    "either spec.loadBalancerConfig.subnetID or spec.networkConfig must be provided" ++
  match C1Spec_NetworkConfig sp with
  | None => []
  | Some nc =>
      err_if ((C1_Net_PrivateNetworkID nc =s? "") && (C1_Net_SubnetCIDR nc =s? ""))
        "spec.networkConfig requires either privateNetworkID or subnetCIDR" ++
      err_if (negb (C1_Net_Gateway nc =s? "") && negb (ParseIP (C1_Net_Gateway nc)))
        ("spec.networkConfig.gateway " +:+ fmt_q (C1_Net_Gateway nc) +:+ " is not a valid IP address")
  end.

Definition validateOVHCluster1 (c : Cluster1) : option goerror :=
  validationError "OVHCluster" (C1_ObjectMeta c) (cluster1Errors c).

Definition OVHCluster1_ValidateCreate (obj : Cluster1) : option goerror := validateOVHCluster1 obj.
Definition OVHCluster1_ValidateUpdate (oldObj newObj : Cluster1) : option goerror :=
  validateOVHCluster1 newObj.
Definition OVHCluster1_ValidateDelete (obj : Cluster1) : option goerror := None.

(** ** OVHMachine *)

Fixpoint volume1Errors (i : Z) (vols : list ApiV1alpha1.OVHVolume) : list string :=
  match vols with
  | [] => []
  | vol :: vols =>
      err_if (M1_Volume_Name vol =s? "")
        ("spec.additionalVolumes[" +:+ fmt_d i +:+ "].name is required") ++
      err_if (M1_Volume_SizeGB vol <? 1)
        ("spec.additionalVolumes[" +:+ fmt_d i +:+ "].sizeGB must be >= 1") ++
      volume1Errors (i + 1) vols
  end.

Definition machine1Errors (m : Machine1) : list string :=
  let sp := M1_Spec m in
  err_if (M1Spec_FlavorName sp =s? "") "spec.flavorName is required" ++
  err_if (M1Spec_ImageName sp =s? "") "spec.imageName is required" ++
  err_if (M1Spec_RootDiskSize sp <? 0) "spec.rootDiskSize must be >= 0" ++
  volume1Errors 0 (M1Spec_AdditionalVolumes sp).

Definition validateOVHMachine1 (m : Machine1) : option goerror :=
  validationError "OVHMachine" (M1_ObjectMeta m) (machine1Errors m).

Definition OVHMachine1_ValidateCreate (obj : Machine1) : option goerror := validateOVHMachine1 obj.
Definition OVHMachine1_ValidateUpdate (oldObj newObj : Machine1) : option goerror :=
  validateOVHMachine1 newObj.
Definition OVHMachine1_ValidateDelete (obj : Machine1) : option goerror := None.

(** ** Agreement with the hub version *)

(** The fields the webhook reads, after a conversion to the hub version. *)
Lemma clusterSpecTo_validated src h :
  clusterSpecTo src zero_ClusterSpec = Ok h ->
  CSpec_ServiceName h = C1Spec_ServiceName src /\ CSpec_Region h = C1Spec_Region src /\
  CSpec_IdentitySecret h =
    {| SecretKey_Namespace := C1_SecretKey_Namespace (C1Spec_IdentitySecret src);
       SecretKey_Name := C1_SecretKey_Name (C1Spec_IdentitySecret src) |} /\
  LBConfig_SubnetID (CSpec_LoadBalancerConfig h) = C1_LB_SubnetID (C1Spec_LoadBalancerConfig src) /\
  CSpec_NetworkConfig h = networkConfigTo <$> C1Spec_NetworkConfig src.
Proof.
  unfold clusterSpecTo. destruct src as [? ? ? ? [? ? ? ls] nc ?]; cbn -[convertAll].
  destruct ls as [|l ls]; [|destruct (convertAll _ _); [|done]];
    intros [= <-]; destruct nc; cbn; split_all.
Qed.

Lemma volume1Errors_to i vols : volumeErrors i (map volumeTo vols) = volume1Errors i vols.
Proof. revert i. induction vols as [|v vols IH]; intros i; [done|]. cbn. by rewrite IH. Qed.

(** C39.  The two cluster webhooks agree through the conversion: a v1alpha1
    cluster that converts to the hub version is accepted by its webhook exactly
    when its conversion is accepted by the hub's, and a refusal carries the same
    message. *)
Theorem cluster_validation_commutes src hub :
  OVHCluster_ConvertTo src zero_OVHCluster = Ok hub ->
  validateOVHCluster hub = validateOVHCluster1 src.
Proof.
  unfold OVHCluster_ConvertTo. cbn [OVHCluster_Spec zero_OVHCluster].
  destruct (clusterSpecTo _ _) as [sp|e] eqn:Hs; [|done]. intros [= <-].
  destruct (clusterSpecTo_validated _ _ Hs) as (H1 & H2 & H3 & H4 & H5).
  unfold validateOVHCluster, validateOVHCluster1, clusterErrors, cluster1Errors.
  cbn [OVHCluster_Spec OVHCluster_ObjectMeta].
  rewrite H1, H2, H3, H4, H5. by destruct (C1Spec_NetworkConfig (C1_Spec src)).
Qed.

(** The two machine webhooks agree through the conversion, messages
    included. *)
Theorem machine_validation_commutes src :
  validateOVHMachine (OVHMachine_ConvertTo src zero_OVHMachine) = validateOVHMachine1 src.
Proof.
  unfold validateOVHMachine, validateOVHMachine1, machineErrors, machine1Errors,
    OVHMachine_ConvertTo, convertMachineSpecTo.
  destruct src as [m [? ? ? ? ? vs ?] s]; cbn -[volumeErrors volume1Errors].
  rewrite <- volume1Errors_to. by destruct vs.
Qed.

(** ** Witness *)

Definition demo_cluster1 : Cluster1 := zero_OVHCluster1 {{ C1_Spec ::= fun sp => sp {{
  C1Spec_ServiceName := "proj"; C1Spec_Region := "GRA7";
  C1Spec_LoadBalancerConfig ::= fun c => c {{ C1_LB_Listeners :=
    [ {| C1_Listener_Name := "api"; C1_Listener_Port := 6443; C1_Listener_Protocol := "TCP";
         C1_Listener_BackendPort := 6443 |} ] }};
  C1Spec_NetworkConfig := Some {| C1_Net_PrivateNetworkID := ""; C1_Net_SubnetCIDR := "10.0.0.0/24";
    C1_Net_VlanID := 0; C1_Net_Gateway := "10.0.0.300"; C1_Net_DNSServers := [] |} }} }}.

Lemma cluster_validation_commutes_witness :
  match OVHCluster_ConvertTo demo_cluster1 zero_OVHCluster with
  | Ok hub => validateOVHCluster hub = validateOVHCluster1 demo_cluster1 /\
              validateOVHCluster1 demo_cluster1 <> None
  | Err _ => False
  end.
Proof.
  split; [|vm_compute; discriminate].
  apply cluster_validation_commutes. reflexivity.
Defined.
