(* ===== verification/MetricsSpec.v ===== *)
(** * MetricsSpec: how the controllers use the metrics

    Prometheus panics when a metric is used with another number of label values
    than it was declared with; the controllers never do.  Three registered
    metrics are never updated. *)
From S2P Require Import Prelude.
From S2P Require Import GoStrings.
From S2P Require Import GoErrors.
From S2P Require Import OvhTypes.
From S2P Require Import K8sTypes.
From S2P Require Import ApiV1alpha2.
From S2P Require Import Effects.
From S2P Require Import OvhClient.
From S2P Require Import Hoare.
From S2P Require Import Metrics.
From S2P Require Import CapiLib.
From S2P Require Import ClusterController.
From S2P Require Import ClusterLB.
From S2P Require Import ClusterReconcile.
From S2P Require Import WorkloadNode.
From S2P Require Import MachineController.
From S2P Require Import Demo.
#[local] Open Scope Z_scope.

#[export] Instance metric_kind_eq_dec : EqDecision metric_kind.
Proof. solve_decision. Defined.

(** The metric is registered with the kind and the number of labels of its use. *)
Definition declared (name : string) (kind : metric_kind) (values : nat) : bool :=
  match find_first (fun d => strEqb (Desc_Name d) name) registry with
  | Some d => bool_decide (Desc_Kind d = kind) && (length (Desc_Labels d) =? values)%nat
  | None => false
  end.

(** The metrics that nothing updates. *)
Definition unused : list string :=
  [MachineCreationDuration; OVHAPIRequestsTotal; OVHAPIRequestDuration].

Definition well_used (e : event) : bool :=
  match e with
  | Ev (MetricInc n) _ => declared n Counter 0 && bool_decide (n ∉ unused)
  | Ev (MetricObserve n labels _) _ =>
      declared n Histogram (length labels) && bool_decide (n ∉ unused)
  | Ev (MetricSet n labels _) _ => declared n Gauge (length labels) && bool_decide (n ∉ unused)
  | _ => true
  end.

Section metrics.
Context `{CapiLib}.

Lemma reconcileOwned_metrics : keeps (fun e => well_used e = true) (fun _ => True) reconcileOwned.
Proof. keeps_with ltac:(first [done | reflexivity]). Qed.
Lemma machineReconcileOwned_metrics :
  keeps (fun e => well_used e = true) (fun _ => True) machineReconcileOwned.
Proof. keeps_with ltac:(first [done | reflexivity]). Qed.

Ltac shell Hbody := repeat first
  [ apply (keeps_emits _ _ _ _ Hbody I) | emits_step | intros ?; reflexivity | reflexivity ].

(** C40.  The controllers use the metrics as they are declared: every update in a
    reconciliation, and in the removal of an etcd member, is of a registered
    metric, of its kind, with as many label values as it has labels, so no update
    panics; and none is of the three metrics in [unused]. *)
Theorem metrics_well_used ns name cfg node t :
  (exists r, runs (Reconcile ns name) t r) \/ (exists r, runs (MachineReconcile ns name) t r) \/
  (exists r, runs (RemoveEtcdMember cfg node) t r) ->
  Forall (fun e => well_used e = true) t.
Proof.
  intros [[r Hr]|[[r Hr]|[r Hr]]]; refine (emits_run _ _ _ _ _ Hr).
  - unfold Reconcile. shell reconcileOwned_metrics.
  - unfold MachineReconcile. shell machineReconcileOwned_metrics.
  - unfold RemoveEtcdMember. shell reconcileOwned_metrics.
Qed.
End metrics.

(** ** Witness *)

(** The healthy project with the credentials in place. *)
Definition credentialed_env : handler unit := fun X w r =>
  match r in req X return X * unit with
  | GetSecret _ _ => (Ok {| Secret_ObjectMeta := demo_meta "creds" false [];
      Secret_Data := {[ "endpoint" := "ovh-eu"; "applicationKey" := "k"; "applicationSecret" := "s";
                        "consumerKey" := "c" ]} |}, w)
  | GoOvhNewClient _ => (None, w)
  | r => demo_env healthy _ w r
  end.

Definition updates_metric (e : event) : bool :=
  match e with
  | Ev (MetricInc _) _ | Ev (MetricObserve _ _ _) _ | Ev (MetricSet _ _ _) _ => true
  | _ => false
  end.

(** A healthy reconciliation of a cluster updates three metrics. *)
Lemma metrics_well_used_witness :
  let t := (exec credentialed_env (Reconcile "default" "test") tt).1 in
  length (List.filter updates_metric t) = 3%nat /\ Forall (fun e => well_used e = true) t.
Proof.
  cbv zeta. split; [vm_compute; reflexivity|].
  apply (metrics_well_used "default" "test" {| RestConfig_content := "" |} ""). left. eexists.
  apply exec_runs.
Defined.
