(* ===== verification/Admission.v ===== *)
(** * Admission: what the controllers write passes the webhooks

    The reconcilers patch the objects they were given.  A patch the validating
    webhook refused would block the object, its finalizer included, so the
    controllers must keep what the webhooks check: validity in the sense of
    [Webhook] is an invariant of both reconcilers. *)
From S2P Require Import Prelude.
From S2P Require Import GoStrings.
From S2P Require Import GoErrors.
From S2P Require Import OvhTypes.
From S2P Require Import K8sTypes.
From S2P Require Import ApiV1alpha2.
From S2P Require Import Effects.
From S2P Require Import OvhClient.
From S2P Require Import Hoare.
From S2P Require Import CapiLib.
From S2P Require Import ClusterController.
From S2P Require Import ClusterLB.
From S2P Require Import ClusterReconcile.
From S2P Require Import MachineController.
From S2P Require Import Demo.
From S2P Require Import Webhook.
#[local] Open Scope Z_scope.

(** ** Validity *)

Definition valid_cluster (o : OVHCluster) : Prop := validateOVHCluster o = None.
Definition valid_machine (o : OVHMachine) : Prop := validateOVHMachine o = None.

Lemma valid_cluster_errors o : valid_cluster o <-> clusterErrors o = [].
Proof. apply validationError_none. Qed.
Lemma valid_machine_errors o : valid_machine o <-> machineErrors o = [].
Proof. apply validationError_none. Qed.

(** The objects read from the API server are valid; those written to it are. *)
Definition reads_valid (e : event) : Prop :=
  match e with
  | Ev r x =>
      match r in req X return X -> Prop with
      | GetOVHCluster _ _ => fun a => match a with Ok o => valid_cluster o | Err _ => True end
      | GetOVHMachine _ _ => fun a => match a with Ok o => valid_machine o | Err _ => True end
      | _ => fun _ => True
      end x
  end.
Definition writes_valid (e : event) : Prop :=
  match e with
  | Ev (PatchOVHCluster o) _ => valid_cluster o
  | Ev (PatchOVHMachine o) _ => valid_machine o
  | _ => True
  end.

#[export] Instance reads_valid_dec e : Decision (reads_valid e).
Proof.
  destruct e as [X r x]. destruct r; cbn; try (by left); destruct x; try (by left);
    unfold valid_cluster, valid_machine; apply _.
Defined.

Section admission.
Context `{CapiLib}.

(** What the webhook checks does not depend on the rest of the object. *)
Definition cluster_part (o : OVHCluster) :=
  let sp := OVHCluster_Spec o in
  (CSpec_ServiceName sp, CSpec_Region sp, CSpec_IdentitySecret sp, CSpec_LoadBalancerConfig sp,
   CSpec_NetworkConfig sp).
Definition machine_part (o : OVHMachine) :=
  let sp := OVHMachine_Spec o in
  (MSpec_FlavorName sp, MSpec_ImageName sp, MSpec_RootDiskSize sp, MSpec_AdditionalVolumes sp).

Lemma cluster_part_valid o o' : cluster_part o' = cluster_part o -> valid_cluster o -> valid_cluster o'.
Proof.
  rewrite !valid_cluster_errors. unfold cluster_part, clusterErrors. intros [= -> -> -> -> ->]. done.
Qed.
Lemma machine_part_valid o o' : machine_part o' = machine_part o -> valid_machine o -> valid_machine o'.
Proof.
  rewrite !valid_machine_errors. unfold machine_part, machineErrors. intros [= -> -> -> ->]. done.
Qed.

Ltac part := first
  [ done
  | match goal with |- ?part _ = _ => unfold part in *; cbn in *; repeat (case_match; cbn in * ); done end ].

Lemma reconcileOwned_part p :
  keeps writes_valid (fun o => cluster_part o = p) reconcileOwned.
Proof. keeps_with part. Qed.
Lemma machineReconcileOwned_part p :
  keeps writes_valid (fun o => machine_part o = p) machineReconcileOwned.
Proof. keeps_with part. Qed.

(** C19.  Validity is an invariant of the program: both reconcilers, when the
    objects they read are valid, write valid objects only, so the validating
    webhooks, which see every write, never refuse one of their patches. *)
Theorem writes_pass_admission ns name t r :
  runs (Reconcile ns name) t r \/ runs (MachineReconcile ns name) t r ->
  Forall reads_valid t -> Forall writes_valid t.
Proof.
  intros [Hr|Hr] Hv; [unfold Reconcile in Hr|unfold MachineReconcile in Hr];
    cbn [call pbind runs] in Hr; destruct Hr as (a & t1 & -> & Hr);
    apply Forall_cons in Hv as [Hv _]; (constructor; [done|]);
    (destruct a as [o|e]; [|by case_match; destruct Hr as [-> _]]);
    cbn [pbind runs] in Hr; destruct Hr as ([e|] & t2 & -> & Hr); (constructor; [done|]);
    try (by destruct Hr as [-> _]);
    apply runs_bind in Hr as (t3 & t4 & [[res err] o'] & -> & H1 & Hr);
    cbn [call pbind runs] in Hr; destruct Hr as (p & t5 & -> & -> & _).
  - destruct (keeps_run _ _ _ _ _ _ _ (reconcileOwned_part _) eq_refl H1) as [Ht Ho].
    apply Forall_app; split; [done|]. constructor; [by eapply cluster_part_valid|done].
  - destruct (keeps_run _ _ _ _ _ _ _ (machineReconcileOwned_part _) eq_refl H1) as [Ht Ho].
    apply Forall_app; split; [done|]. constructor; [by eapply machine_part_valid|done].
Qed.
End admission.

(** ** Witness *)

Definition is_cluster_patch (e : event) : bool :=
  match e with Ev (PatchOVHCluster _) _ => true | _ => false end.

(** On a healthy project the cluster is patched, and the patch is valid. *)
Lemma writes_pass_admission_witness :
  existsb is_cluster_patch (demo_run healthy (Reconcile "default" "test")).1 = true /\
  Forall writes_valid (demo_run healthy (Reconcile "default" "test")).1.
Proof.
  split; [vm_compute; reflexivity|].
  refine (writes_pass_admission "default" "test" _ _ (or_introl (demo_runs healthy _)) _).
  apply (bool_decide_unpack _). vm_compute. exact I.
Defined.
