(* ===== verification/DeleteProgress.v ===== *)
(** * DeleteProgress: only an answer of OVH holds a deletion up

    The theorems of [ClusterDelete] and [MachineSpec] say what a deletion that
    removes the finalizer has done.  These say the converse: a run that keeps
    the finalizer has an answer of OVH to show for it, so on a project that
    accepts the deletions one reconciliation is enough. *)
From S2P Require Import Prelude.
From S2P Require Import GoStrings.
From S2P Require Import GoErrors.
From S2P Require Import OvhTypes.
From S2P Require Import K8sTypes.
From S2P Require Import ApiV1alpha2.
From S2P Require Import Effects.
From S2P Require Import OvhClient.
From S2P Require Import OvhClientSpec.
From S2P Require Import Hoare.
From S2P Require Import CapiLib.
From S2P Require Import ClusterController.
From S2P Require Import ClusterLB.
From S2P Require Import ClusterReconcile.
From S2P Require Import MachineController.
From S2P Require Import Demo.
From S2P Require Import ClusterSafety.
From S2P Require Import ClusterDelete.
From S2P Require Import ClusterLBSpec.
From S2P Require Import MachineSpec.
#[local] Open Scope Z_scope.
#[local] Open Scope go_scope.

Section progress.
Context `{CapiLib}.

(** ** Clusters *)

Section cluster.
Context (scope : ClusterScope).
#[local] Abbreviation c := (CScope_OVHClient scope).

(** The answers that hold up the deletion of [o]. *)
Inductive cluster_held (o : OVHCluster) (t : trace) : Prop :=
| held_by_lb e :
    within t (DeleteLoadBalancer c (CStatus_LoadBalancerID (OVHCluster_Status o))) (Some e) ->
    cluster_held o t
| held_by_fip id fip :
    within t (GetFloatingIP c id) (Ok fip) -> fipReaped fip = false -> cluster_held o t
| held_by_network e :
    createdByController o = true ->
    within t (DeletePrivateNetwork c (CStatus_NetworkID (OVHCluster_Status o))) (Some e) ->
    cluster_held o t.

Lemma cluster_held_within o t1 t2 t3 : cluster_held o t2 -> cluster_held o (t1 ++ t2 ++ t3).
Proof.
  intros [e He|id fip Hf Hr|e Hc He]; [eapply held_by_lb|eapply held_by_fip|eapply held_by_network];
    try done; in_run.
Qed.

Lemma deleteLB_held o t e o' :
  runs (deleteLB scope o) t (Some e, o') ->
  exists e', within t (DeleteLoadBalancer c (CStatus_LoadBalancerID (OVHCluster_Status o))) (Some e').
Proof.
  unfold deleteLB, getStatus. intros Hr. rinv. destruct (_ =s? "") in Hr; rinv; try done.
  case_match; rinv. eexists. in_run.
Qed.

Lemma cleanup_held fips t :
  runs (cleanupFloatingIPs scope fips) t true ->
  exists id fip, within t (GetFloatingIP c id) (Ok fip) /\ fipReaped fip = false.
Proof.
  intros (ts & bs & -> & Hf & Hb)%cleanupFloatingIPs_spec. symmetry in Hb.
  apply existsb_exists in Hb as (b & Hin & Hb). cbn in Hb. subst b.
  induction Hf as [|id t b fips ts bs Hc Hf IH]; [done|]. destruct Hin as [->|Hin].
  - unfold cleanupFloatingIP in Hc. rinv. case_match; [|done].
    match goal with Hn : true = negb _ |- _ => symmetry in Hn; apply negb_true_iff in Hn end.
    do 2 eexists. split; [|done]. cbn [concat]. in_run.
  - destruct (IH Hin) as (id' & fip & Hw & Hr). exists id', fip. split; [|done]. cbn [concat]. in_run.
Qed.

Lemma deleteNetwork_held o t out o' :
  runs (deleteNetwork scope o) t (Some out, o') ->
  createdByController o = true /\
  exists e, within t (DeletePrivateNetwork c (CStatus_NetworkID (OVHCluster_Status o))) (Some e).
Proof.
  unfold deleteNetwork, getStatus, createdByController. intros Hr. rinv.
  destruct (conditions_IsTrue _ _); cbn [andb] in Hr; rinv; try done. split; [done|].
  destruct (_ =s? "") in Hr; cbn [negb] in Hr; rinv; try done. case_match; rinv. eexists. in_run.
Qed.

Lemma deleteResources_held o t r o' :
  runs (deleteResources scope o) t (r, o') -> hasFinalizer o' = false \/ cluster_held o t.
Proof.
  intros Hr. unfold deleteResources in Hr. rinv.
  repeat match goal with
  | H1 : runs (deleteDNS _ o) _ _ |- _ =>
      apply (keeps_run _ _ _ _ _ _ _ (deleteDNS_cleaned scope o) (cleaned_refl o)) in H1 as [_ ?]
  | H2 : runs (deleteSecurityGroups _ _) _ _, Hc : cleaned _ _ |- _ =>
      apply (keeps_run _ _ _ _ _ _ _ (deleteSecurityGroups_cleaned scope o) Hc) in H2 as [_ ?]; clear Hc
  | H3 : runs (captureFips _ _) _ _ |- _ => apply reads_only in H3 as ->; [|keeps_with done]
  end.
  match goal with Hc : cleaned o ?s, H4 : runs (deleteLB _ ?s) ?tl (?e, ?s') |- _ =>
    assert (s' = s) as -> by (eapply reads_only; [|exact H4]; keeps_with done);
    destruct Hc as (d & m & ->); destruct e as [e|] end.
  { right. match goal with H4 : runs (deleteLB _ _) _ _ |- _ => apply deleteLB_held in H4 as [e' He] end.
    eapply held_by_lb. in_run. }
  rinv. match goal with H5 : runs (deleteOrphanLBs _ _) _ _ |- _ =>
    apply reads_only in H5 as ->; [|keeps_with done] end.
  case_match.
  { right. match goal with H6 : runs (cleanupFloatingIPs _ _) _ true |- _ =>
      apply cleanup_held in H6 as (id & fip & Hw & Hf) end.
    eapply held_by_fip; [|exact Hf]. in_run. }
  rinv. match goal with H7 : runs (deleteGateway _ _) _ _ |- _ =>
    apply reads_only in H7 as ->; [|keeps_with done] end.
  unfold orElse in Hr. rinv. case_match.
  { right. match goal with H8 : runs (deleteNetwork _ _) _ _ |- _ =>
      apply deleteNetwork_held in H8 as [Hcr [e He]] end.
    eapply held_by_network; [exact Hcr|]. in_run. }
  left. unfold removeClusterFinalizer in Hr. rinv. unfold hasFinalizer.
  cbn -[ContainsFinalizer RemoveFinalizer]. apply ContainsFinalizer_Remove.
Qed.

(** C21.  Only OVH holds the deletion of a cluster up: a run of [ReconcileDelete]
    that keeps the finalizer was refused the deletion of the recorded load
    balancer, or saw a captured floating IP still attached or up, or was refused
    the deletion of the network the controller created. *)
Theorem cluster_deletion_progresses o t r o' :
  runs (ReconcileDelete scope o) t (r, o') -> hasFinalizer o' = false \/ cluster_held o t.
Proof.
  intros Hr. unfold ReconcileDelete, observeDuration in Hr. rinv.
  destruct (keepPolicy o).
  - left. unfold removeClusterFinalizer in *. rinv. unfold hasFinalizer.
    cbn -[ContainsFinalizer RemoveFinalizer]. apply ContainsFinalizer_Remove.
  - match goal with Hd : runs (deleteResources _ _) ?tb _ |- _ =>
      apply deleteResources_held in Hd as [|Hh]; [by left|right] end.
    exact (cluster_held_within o [_] _ _ Hh).
Qed.
End cluster.

(** ** Machines *)

Section machine.
Context (scope : MachineScope).
#[local] Abbreviation c := (MScope_OVHClient scope).

(** The answers that hold up the deletion of [o]. *)
Inductive machine_held (o : OVHMachine) (t : trace) : Prop :=
| held_by_delete e : within t (DeleteInstance c (instanceID o)) (Some e) -> machine_held o t
| held_by_instance i :
    within t (GetInstance c (instanceID o)) (Ok i) -> Instance_Status i <> InstanceStatusDeleted ->
    machine_held o t.

Lemma removeLBPoolMember_id id :
  keeps (fun _ => True) (fun o => instanceID o = id) (removeLBPoolMember scope).
Proof. keeps_with ltac:(first [done | unfold instanceID in *; cbn in *; done]). Qed.

Lemma deleteInstance_held o t out o' :
  runs (deleteInstance scope o) t (Some out, o') -> machine_held o t.
Proof.
  unfold deleteInstance, getMStatus. intros Hr. rinv.
  destruct (_ =s? "") in Hr; rinv; try done. case_match; rinv.
  - eapply held_by_delete. in_run.
  - case_match; rinv. destruct (_ =s? InstanceStatusDeleted) eqn:Hd in Hr; cbn [negb] in Hr; rinv; try done.
    eapply held_by_instance; [in_run|by apply strEqb_neq].
Qed.

(** Only OVH holds the deletion of a machine up: a run of [ReconcileDelete]
    that keeps the finalizer was refused the deletion of the recorded instance,
    or read it in another status than DELETED; volumes and the members of the
    load balancer hold nothing up. *)
Theorem machine_deletion_progresses o t r o' :
  runs (MachineReconcileDelete scope o) t (r, o') -> hasMFinalizer o' = false \/ machine_held o t.
Proof.
  intros Hr. unfold MachineReconcileDelete, observeMDuration, machineDeleteBody, getMStatus in Hr.
  rinv. assert (Hrm : forall m, ContainsFinalizer (RemoveFinalizer m MachineFinalizer) MachineFinalizer = false)
    by (intros m; apply ContainsFinalizer_Remove).
  destruct (machineKeepPolicy o); unfold removeMachineFinalizer in *; rinv.
  { left. apply Hrm. }
  match goal with Hv : runs (for_each _ _ _) _ _ |- _ =>
    apply (keeps_run _ (fun s => instanceID s = instanceID o) _ _ _ _ _
             (deleteVolumes_same _ _ _ _) eq_refl) in Hv as [_ Hsame] end.
    match goal with Hd : runs (removeLBPoolMember _ _) _ _ |- _ =>
    apply (keeps_run _ _ _ _ _ _ _ (removeLBPoolMember_id (instanceID o)) Hsame) in Hd as [_ Hid] end.
  match goal with Hor : runs (orElse _ _ _) _ _ |- _ =>
    apply orElse_cases in Hor as [Ho|(? & ? & ? & -> & Ho & Hrest)] end.
  - right. apply deleteInstance_held in Ho as [e He|i Hi Hs]; rewrite Hid in *;
      [eapply held_by_delete|eapply held_by_instance; [|exact Hs]]; in_run.
  - left. rinv. apply Hrm.
Qed.
End machine.
End progress.

(** ** Witnesses *)

(** A project that refuses to delete its load balancer. *)
Definition refusing : Answers := {|
  on_get := healthy_get; on_post := healthy_post;
  on_delete := fun path => if strEqb path (lbPath demo_client "lb-1") then Err (APIError 403 "forbidden")
                           else Ok tt |}.

Definition refused_run :=
  demo_run refusing (ReconcileDelete demo_scope deleting_object).

Lemma cluster_deletion_progresses_witness :
  hasFinalizer refused_run.2.2 = true /\
  (hasFinalizer refused_run.2.2 = false \/ cluster_held demo_scope deleting_object refused_run.1).
Proof.
  split; [reflexivity|]. apply (cluster_deletion_progresses demo_scope deleting_object _ refused_run.2.1).
  rewrite <- surjective_pairing. apply demo_runs.
Defined.

(** The instance is still ACTIVE when it is read back. *)
Definition lingering_run :=
  demo_run healthy (MachineReconcileDelete (demo_machine_scope false) (demo_machine true "i-1")).

Lemma machine_deletion_progresses_witness :
  hasMFinalizer lingering_run.2.2 = true /\
  (hasMFinalizer lingering_run.2.2 = false \/
   machine_held (demo_machine_scope false) (demo_machine true "i-1") lingering_run.1).
Proof.
  split; [reflexivity|].
  apply (machine_deletion_progresses (demo_machine_scope false) (demo_machine true "i-1") _ lingering_run.2.1).
  rewrite <- surjective_pairing. apply demo_runs.
Defined.
