(* ===== verification/ReconcileSpec.v ===== *)
(** * ReconcileSpec: the reconcilers as a whole

    The deferred patch of both [Reconcile] functions, and a cluster the webhook
    accepts but that is never provisioned. *)
From S2P Require Import Prelude.
From S2P Require Import GoStrings.
From S2P Require Import GoErrors.
From S2P Require Import OvhTypes.
From S2P Require Import K8sTypes.
From S2P Require Import ApiV1alpha2.
From S2P Require Import Effects.
From S2P Require Import OvhClient.
From S2P Require Import OvhClientSpec.
From S2P Require Import Hoare.
From S2P Require Import Naming.
From S2P Require Import Metrics.
From S2P Require Import CapiLib.
From S2P Require Import ClusterController.
From S2P Require Import ClusterLB.
From S2P Require Import ClusterReconcile.
From S2P Require Import WorkloadNode.
From S2P Require Import MachineController.
From S2P Require Import Demo.
From S2P Require Import ClusterSafety.
From S2P Require Import ClusterDelete.
From S2P Require Import ClusterNormal.
From S2P Require Import MachineSpec.
From S2P Require Import Webhook.
#[local] Open Scope Z_scope.
#[local] Open Scope go_scope.

(** ** The deferred patch *)

Definition no_patch (e : event) : Prop :=
  match e with
  | Ev (PatchOVHCluster _) _ | Ev (PatchOVHMachine _) _ => False
  | _ => True
  end.

Section patch.
Context `{CapiLib}.

Lemma reconcileOwned_no_patch : keeps no_patch any reconcileOwned.
Proof. keeps_with done. Qed.
Lemma machineReconcileOwned_no_patch : keeps no_patch any machineReconcileOwned.
Proof. keeps_with done. Qed.

(** The reconciliation of an object: it is read, its patch helper is made, and
    it is reconciled and patched; or it ends before. *)
Lemma Reconcile_cases ns name t r :
  runs (Reconcile ns name) t r ->
  (Forall no_patch t /\ Forall no_ovh t) \/
  exists o h t2 o' res err p,
    t = Ev (GetOVHCluster ns name) (Ok o) :: Ev (NewPatchHelper h) None ::
        t2 ++ [Ev (PatchOVHCluster o') p] /\
    runs (reconcileOwned o) t2 (res, err, o') /\
    r = (res, match err with Some e => Some e | None => p end).
Proof.
  intros Hr. unfold Reconcile in Hr. cbn [call pbind runs] in Hr.
  destruct Hr as ([o|e] & t1 & -> & Hr).
  2:{ left. destruct (apierrors_IsNotFound e) in Hr; destruct Hr as [-> _];
      split; by repeat constructor. }
  cbn [pbind runs] in Hr. destruct Hr as ([e|] & t2 & -> & Hr).
  { left. destruct Hr as [-> _]. split; by repeat constructor. }
  right. apply runs_bind in Hr as (t3 & t4 & [[res err] o'] & -> & H1 & Hr).
  cbn [call pbind runs] in Hr. destruct Hr as (p & t5 & -> & -> & ->).
  eexists o, _, t3, o', res, err, p. split_and!; [reflexivity|done|]. by destruct p, err.
Qed.

Lemma MachineReconcile_cases ns name t r :
  runs (MachineReconcile ns name) t r ->
  (Forall no_patch t /\ Forall no_ovh t) \/
  exists o h t2 o' res err p,
    t = Ev (GetOVHMachine ns name) (Ok o) :: Ev (NewPatchHelper h) None ::
        t2 ++ [Ev (PatchOVHMachine o') p] /\
    runs (machineReconcileOwned o) t2 (res, err, o') /\
    r = (res, match err with Some e => Some e | None => p end).
Proof.
  intros Hr. unfold MachineReconcile in Hr. cbn [call pbind runs] in Hr.
  destruct Hr as ([o|e] & t1 & -> & Hr).
  2:{ left. destruct (apierrors_IsNotFound e) in Hr; destruct Hr as [-> _];
      split; by repeat constructor. }
  cbn [pbind runs] in Hr. destruct Hr as ([e|] & t2 & -> & Hr).
  { left. destruct Hr as [-> _]. split; by repeat constructor. }
  right. apply runs_bind in Hr as (t3 & t4 & [[res err] o'] & -> & H1 & Hr).
  cbn [call pbind runs] in Hr. destruct Hr as (p & t5 & -> & -> & ->).
  eexists o, _, t3, o', res, err, p. split_and!; [reflexivity|done|]. by destruct p, err.
Qed.


(** The same for an OVHMachine. *)
Theorem machine_patched_once ns name t r :
  runs (MachineReconcile ns name) t r ->
  (Forall no_patch t /\ Forall no_ovh t) \/
  exists t1 t2 o o' res err p,
    t = t1 ++ t2 ++ [Ev (PatchOVHMachine o') p] /\
    runs (machineReconcileOwned o) t2 (res, err, o') /\
    Forall no_patch (t1 ++ t2) /\ Forall no_ovh t1 /\
    r = (res, match err with Some e => Some e | None => p end).
Proof.
  intros [?|(o & h & t2 & o' & res & err & p & -> & H1 & ->)]%MachineReconcile_cases; [by left|right].
  pose proof (keeps_run _ any _ _ _ _ _ machineReconcileOwned_no_patch I H1) as [Hnp _].
  eexists [_; _], t2, o, o', res, err, p. split_and!; [reflexivity|done| |by repeat constructor|done].
  by do 2 (constructor; [done|]).
Qed.
End patch.

(** ** A cluster with a subnet and no network *)

Section subnet_only.
Context `{CapiLib}.

(** No network configuration, no network, no load balancer to adopt. *)
Definition subnetOnly (o : OVHCluster) : Prop :=
  CSpec_NetworkConfig (OVHCluster_Spec o) = None /\
  LBConfig_ExistingLoadBalancerID (CSpec_LoadBalancerConfig (OVHCluster_Spec o)) = "" /\
  CStatus_NetworkID (OVHCluster_Status o) = "" /\
  CStatus_LoadBalancerID (OVHCluster_Status o) = "".

Ltac subnet_only :=
  match goal with Hs : subnetOnly _ |- subnetOnly _ =>
    destruct Hs as (? & ? & ? & ?); repeat split; cbn in *;
    repeat (case_match; cbn in * ); done end.
Ltac close := first [subnet_only | autounfold with paths; path_neq].

Lemma reconcileNetwork_subnetOnly E scope : keeps E subnetOnly (reconcileNetwork scope).
Proof.
  unfold reconcileNetwork. apply keeps_read. intros s Hs.
  destruct Hs as (Hn & ?). rewrite Hn. keeps_with close.
Qed.

Lemma createNewLB_subnetOnly scope :
  keeps (no_post_on (lbCollection (CScope_OVHClient scope))) subnetOnly (createNewLB scope).
Proof.
  unfold createNewLB. apply keeps_bind; [keeps_with close|]. intros sp.
  apply keeps_read. intros s (_ & _ & Hn & _). apply keeps_bind; [keeps_with close|].
  intros [f|e]; [|keeps_with close]. rewrite Hn. change ("" =s? "") with true.
  rewrite orb_true_r. apply keeps_ret.
Qed.

Lemma adoptExisting_subnetOnly E : keeps E subnetOnly adoptExisting.
Proof.
  apply keeps_modify. intros s Hs. destruct Hs as (? & He & ? & ?). cbv zeta.
  rewrite He. change (negb ("" =s? "")) with false. cbn [andb]. case_match; by repeat split.
Qed.

Lemma reconcileLoadBalancer_subnetOnly scope :
  keeps (no_post_on (lbCollection (CScope_OVHClient scope))) subnetOnly (reconcileLoadBalancer scope).
Proof.
  unfold reconcileLoadBalancer. apply keeps_bind; [apply adoptExisting_subnetOnly|]. intros _.
  apply keeps_read. intros s (_ & _ & _ & Hl). rewrite Hl. apply createNewLB_subnetOnly.
Qed.
#[local] Hint Resolve reconcileNetwork_subnetOnly reconcileLoadBalancer_subnetOnly : keeps.

(** A cluster that gives a subnet for its load balancer and no network
    configuration (which the webhook accepts) is never provisioned: every normal
    reconciliation fails or asks to be called again, leaves the ready flag as it
    is, records no network and no load balancer, and posts no load balancer. *)
Theorem subnet_only_never_provisioned scope o t r o' :
  subnetOnly o -> hasFinalizer o = true ->
  runs (ReconcileNormal scope o) t (r, o') ->
  retries r /\ ready o' = ready o /\ subnetOnly o' /\
  Forall (no_post_on (lbCollection (CScope_OVHClient scope))) t.
Proof.
  intros Hs Hf Hr.
  assert (Hk : keeps (no_post_on (lbCollection (CScope_OVHClient scope))) subnetOnly
                 (ReconcileNormal scope)) by keeps_with close.
  destruct (keeps_run _ _ _ _ _ _ _ Hk Hs Hr) as [Ht Hs'].
  enough (retries r /\ ready o' = ready o) as [? ?] by done.
  unfold ReconcileNormal, normalBody, observeDuration, observeReady in Hr. rinv.
  unfold hasFinalizer in Hf. rewrite Hf in *. cbn [negb andb] in *.
  match goal with Hi : runs (reconcileInfrastructure _ _) _ _ |- _ =>
    apply reconcileInfrastructure_run in Hi as [[_ Hp]|Hi]; [|exact Hi] end.
  destruct Hs' as (_ & _ & _ & Hl), Hp as [_ _ _ _ _ _ Hid]. done.
Qed.
End subnet_only.

(** ** Witnesses *)

Definition reconcile_run := demo_run healthy (Reconcile "default" "test").


Definition machine_reconcile_run := demo_run healthy (MachineReconcile "default" "m0").

Lemma machine_patched_once_witness :
  (Forall no_patch machine_reconcile_run.1 /\ Forall no_ovh machine_reconcile_run.1) \/
  exists t1 t2 o o' res err p,
    machine_reconcile_run.1 = t1 ++ t2 ++ [Ev (PatchOVHMachine o') p] /\
    runs (machineReconcileOwned o) t2 (res, err, o') /\
    Forall no_patch (t1 ++ t2) /\ Forall no_ovh t1 /\
    machine_reconcile_run.2 = (res, match err with Some e => Some e | None => p end).
Proof. apply (machine_patched_once "default" "m0"). apply demo_runs. Defined.

(** A cluster that only gives the subnet of its load balancer. *)
Definition subnet_object : OVHCluster := (demo_object "net" false) {{ OVHCluster_Spec ::= fun sp =>
  sp {{ CSpec_NetworkConfig := None;
        CSpec_LoadBalancerConfig ::= fun lb => lb {{ LBConfig_SubnetID := "sub-1" }} }} }}.

Example subnet_object_accepted : validateOVHCluster subnet_object = None.
Proof. reflexivity. Qed.

Lemma subnet_only_never_provisioned_witness :
  retries (after_normal subnet_object).2.1 /\
  ready (after_normal subnet_object).2.2 = false /\
  subnetOnly (after_normal subnet_object).2.2 /\
  Forall (no_post_on (lbCollection demo_client)) (after_normal subnet_object).1.
Proof.
  refine (subnet_only_never_provisioned demo_scope subnet_object _ _ _ _ _ _).
  - by repeat split.
  - reflexivity.
  - rewrite <- surjective_pairing. apply demo_runs.
Defined.
