(* ===== verification/Idempotence.v ===== *)
(** * Idempotence: repeated reconciliations and what they create

    The status patch of a reconciliation may be lost (a conflict, a restart of
    the controller between the POST and the patch), and the next one then starts
    from an older object.  What protects an instance from being created twice is
    the lookup by name; a private network has no such lookup. *)
From S2P Require Import Prelude.
From S2P Require Import GoStrings.
From S2P Require Import GoErrors.
From S2P Require Import OvhTypes.
From S2P Require Import K8sTypes.
From S2P Require Import ApiV1alpha2.
From S2P Require Import Effects.
From S2P Require Import OvhClient.
From S2P Require Import OvhClientSpec.
From S2P Require Import Hoare.
From S2P Require Import Naming.
From S2P Require Import Metrics.
From S2P Require Import CapiLib.
From S2P Require Import ClusterController.
From S2P Require Import ClusterLB.
From S2P Require Import ClusterReconcile.
From S2P Require Import WorkloadNode.
From S2P Require Import MachineController.
From S2P Require Import Demo.
From S2P Require Import ClusterSafety.
From S2P Require Import ClusterDelete.
From S2P Require Import ClusterLBSpec.
From S2P Require Import MachineSpec.
#[local] Open Scope Z_scope.
#[local] Open Scope go_scope.

(** ** Accepted creations and complete listings *)

(** OVH accepted the creation of an instance called [name]. *)
Definition created (c : Client) (name : string) (e : event) : bool :=
  match e with
  | Ev r x =>
      match r in req X return X -> bool with
      | ApiPost _ path (BCreateInstance opts) _ => fun answer =>
          (path =s? instanceCollection c) && (CreateInstanceOpts_Name opts =s? name) && is_ok answer
      | _ => fun _ => false
      end x
  end.

Definition creations (c : Client) (name : string) (t : trace) : nat :=
  length (List.filter (created c name) t).

Definition listPath (c : Client) : string := withRegion c (instanceCollection c).
Definition named (name : string) (i : Instance_) : bool := Instance_Name i =s? name.

(** The event, if it is a listing of the instances, shows one called [name]. *)
Definition shows (c : Client) (name : string) (e : event) : bool :=
  match e with
  | Ev r x =>
      match r in req X return X -> bool with
      | ApiGet _ path tg =>
          match tg in target T return gores T -> bool with
          | TInstances => fun answer =>
              match answer with
              | Ok l => negb (path =s? listPath c) || existsb (named name) l
              | Err _ => true
              end
          | _ => fun _ => true
          end
      | _ => fun _ => true
      end x
  end.

(** Once a creation was accepted ([seen]), every listing shows the instance. *)
Fixpoint listings_complete (c : Client) (name : string) (seen : bool) (t : trace) : Prop :=
  match t with
  | [] => True
  | e :: t => (seen = true -> shows c name e = true) /\
              listings_complete c name (seen || created c name e) t
  end.

Section counting.
Context (c : Client) (name : string).

Lemma creations_app t t' : creations c name (t ++ t') = (creations c name t + creations c name t')%nat.
Proof. unfold creations. by rewrite List.filter_app, length_app. Qed.

Lemma creations_none t : Forall (no_post_on (instanceCollection c)) t -> creations c name t = 0%nat.
Proof.
  induction 1 as [|e t He _ IH]; [done|]. unfold creations in *. cbn [List.filter].
  replace (created c name e) with false; [done|]. destruct e as [X [] x]; try done.
  cbn in He |- *. destruct b; try done. by apply strEqb_neq in He as ->.
Qed.

(** [listings_complete] carries the fact that a creation was seen. *)
Lemma listings_complete_app seen t t' :
  listings_complete c name seen (t ++ t') ->
  listings_complete c name (seen || negb (creations c name t =? 0)%nat) t'.
Proof.
  revert seen. induction t as [|e t IH]; intros seen; cbn [app listings_complete].
  - by rewrite orb_false_r.
  - intros [_ Ht]. apply IH in Ht. unfold creations in *. cbn [List.filter].
    destruct (created c name e); [|by rewrite orb_false_r in Ht].
    cbn [length Nat.eqb negb]. by rewrite orb_true_r in *.
Qed.

(** A retried creation is accepted at most once: a success ends the loop. *)
Lemma retried_creations path opts i es last :
  (creations c name (retry_trace (ApiPost (api c) path (BCreateInstance opts) TInstance) i es last)
   <= 1)%nat.
Proof.
  revert i. induction es as [|e es IH]; intros i; unfold creations in *; cbn [retry_trace List.filter].
  - destruct (created _ _ _); cbn; lia.
  - cbn [created is_ok]. rewrite andb_false_r. apply IH.
Qed.

Lemma CreateInstance_creations opts t r :
  runs (CreateInstance c opts) t r -> (creations c name t <= 1)%nat.
Proof.
  intros Hr. unfold CreateInstance, apiPost in Hr. rinv. rewrite app_nil_r.
  apply retryWithBackoff_runs in Hr0 as (es & last & -> & _). apply retried_creations.
Qed.
End counting.

Section machine.
Context `{CapiLib}.

(** Conclude that a trace of pieces has no creation but in one of them. *)
Ltac count_pieces :=
  rewrite ?creations_app;
  repeat match goal with
  | |- context [creations ?c ?n ?t] => rewrite (creations_none c n t) by no_posts
  end; try lia.

Lemma requestInstance_creations scope opts o t r o' name :
  runs (requestInstance scope opts o) t (r, o') ->
  (creations (MScope_OVHClient scope) name t <= 1)%nat.
Proof.
  intros Hr. unfold requestInstance in Hr.
  apply runs_mbind in Hr as (t1 & t2 & ? & s1 & -> & H1 & Hr).
  apply runs_mbind in Hr as (t3 & t4 & inst & s2 & -> & H2 & Hr).
  apply runs_lift in H2 as [H2 ->]. apply CreateInstance_creations with (name := name) in H2.
  destruct inst as [inst|e]; count_pieces.
Qed.

Lemma createInstance_creations scope o t r o' name :
  runs (createInstance scope o) t (r, o') ->
  (creations (MScope_OVHClient scope) name t <= 1)%nat.
Proof.
  intros Hr. unfold createInstance in Hr. rinv.
  repeat (case_match; rinv; [|count_pieces]).
  apply requestInstance_creations with (name := name) in Hr. count_pieces.
Qed.

Lemma find_first_existsb {A} (p : A -> bool) l : find_first p l = None -> existsb p l = false.
Proof.
  rewrite find_first_none. induction 1 as [|x l Hx _ IH]; [done|]. cbn. by rewrite Hx.
Qed.

(** The lookup by name that found nothing ends with a listing that does not
    show the name. *)
Lemma FindInstanceByName_none c t name :
  runs (FindInstanceByName c name) t (Ok None) ->
  exists t' l, t = t' ++ [Ev (ApiGet (api c) (listPath c) TInstances) (Ok l)] /\
               existsb (named name) l = false.
Proof.
  intros Hr. unfold FindInstanceByName, ListInstances, apiGet in Hr. rinv. case_match; rinv.
  match goal with Hf : None = find_first _ _ |- _ =>
    symmetry in Hf; apply find_first_existsb in Hf; rename Hf into Hnone end.
  match goal with Hw : wrapErr _ ?r = Ok _ |- _ => destruct r; [injection Hw as ->|done] end.
  apply retryWithBackoff_runs in Hr1 as (es & last & -> & _ & _ & _ & Hl).
  symmetry in Hl. apply retry_result_ok in Hl as ->. rewrite !app_nil_r.
  match type of Hnone with existsb _ ?l = _ =>
    destruct (retry_trace_last (ApiGet (api c) (listPath c) TInstances) 0 es (Ok l)) as [t' Ht];
    exists t', l end.
  by split; [exact Ht|].
Qed.

(** One reconciliation creates at most one instance, and only after a listing
    that does not show its name. *)
Definition lists_then_creates (c : Client) (name : string) (t : trace) : Prop :=
  exists t1 l t2, t = t1 ++ Ev (ApiGet (api c) (listPath c) TInstances) (Ok l) :: t2 /\
    existsb (named name) l = false /\
    creations c name t1 = 0%nat /\ (creations c name t2 <= 1)%nat.

Lemma lists_then_creates_frame c name t0 t t' :
  creations c name t0 = 0%nat -> creations c name t' = 0%nat ->
  lists_then_creates c name t -> lists_then_creates c name (t0 ++ t ++ t').
Proof.
  intros H0 H' (t1 & l & t2 & -> & Hl & H1 & H2). exists (t0 ++ t1), l, (t2 ++ t').
  rewrite !creations_app. split_all; [by rewrite <- !app_assoc|lia|lia].
Qed.

Lemma machineNormalBody_creations scope o t r o' :
  let c := MScope_OVHClient scope in
  let name := instanceName scope o in
  runs (machineNormalBody scope o) t (r, o') ->
  creations c name t = 0%nat \/ lists_then_creates c name t.
Proof.
  intros c name Hr. subst c. unfold machineNormalBody in Hr. rinv.
  destruct (IsPaused _ _) in Hr; [left; rinv; count_pieces|].
  destruct (_ && _) in Hr; [left; rinv; count_pieces|].
  destruct (negb _) in Hr; [left; rinv; count_pieces|].
  case_match; [|left; rinv; count_pieces].
  apply runs_mbind in Hr as (t1 & t2 & [[inst|]|e] & s1 & -> & H1 & Hr).
  - left. count_pieces.
  - right. assert (Hc : creations (MScope_OVHClient scope) name t1 = 0%nat) by count_pieces.
    apply findInstance_none in H1 as (_ & _ & (u1 & u2 & u3 & -> & Hu)).
    apply FindInstanceByName_none in Hu as (u & l & -> & Hl).
    apply createInstance_creations with (name := name) in Hr.
    rewrite !creations_app in Hc. exists (u1 ++ u), l, (u3 ++ t2).
    rewrite !creations_app. split_all; [by rewrite <- !app_assoc|lia|lia].
  - left. rinv. count_pieces.
Qed.

Lemma MachineReconcileNormal_creations scope o t r o' :
  let c := MScope_OVHClient scope in
  let name := instanceName scope o in
  runs (MachineReconcileNormal scope o) t (r, o') ->
  creations c name t = 0%nat \/ lists_then_creates c name t.
Proof.
  intros c name Hr. unfold MachineReconcileNormal in Hr.
  apply runs_mbind in Hr as (t1 & t2 & start & s0 & -> & H0 & Hr).
  pose proof H0 as (? & ? & _ & _ & [= _ ->]).
  apply runs_mbind in Hr as (t3 & t4 & out & s1 & -> & H1 & Hr).
  assert (Ht1 : creations c name t1 = 0%nat) by (subst c; count_pieces).
  assert (Ht4 : creations c name t4 = 0%nat) by (subst c; count_pieces).
  apply machineNormalBody_creations in H1 as [H1|H1].
  - left. rewrite !creations_app. subst c name. lia.
  - right. by apply lists_then_creates_frame.
Qed.
End machine.

(** ** Instances *)

Section single.
Context `{CapiLib}.

(** [t] is a normal reconciliation of some object of the machine, with any scope
    on the client [c]: nothing is assumed about the object's status. *)
Definition reconciles (c : Client) (name : string) (t : trace) : Prop :=
  exists scope o r o', MScope_OVHClient scope = c /\ instanceName scope o = name /\
    runs (MachineReconcileNormal scope o) t (r, o').

Lemma creations_get {T} c name c' path (tg : target T) x t :
  creations c name (Ev (ApiGet c' path tg) x :: t) = creations c name t.
Proof. done. Qed.

Lemma single_instance_from c name ts seen :
  Forall (reconciles c name) ts -> listings_complete c name seen (concat ts) ->
  (creations c name (concat ts) <= if seen then 0 else 1)%nat.
Proof.
  intros Hts. revert seen. induction Hts as [|t ts Ht _ IH]; intros seen Hl.
  { cbn. destruct seen; lia. }
  cbn [concat] in *. rewrite creations_app.
  destruct Ht as (scope & o & r & o' & <- & <- & Hr).
  pose proof (IH _ (listings_complete_app _ _ _ _ _ Hl)) as Hrest.
  apply MachineReconcileNormal_creations in Hr as [H0|(t1 & l & t2 & -> & Hno & H1 & H2)].
  { rewrite H0 in *. cbn [Nat.eqb negb] in Hrest. by rewrite orb_false_r in Hrest. }
  destruct seen.
  - rewrite <- app_assoc in Hl. apply listings_complete_app in Hl. rewrite H1 in Hl.
    destruct Hl as [Hl _]. specialize (Hl eq_refl). cbn [shows] in Hl.
    by rewrite Hno, strEqb_refl in Hl.
  - rewrite creations_app, H1, creations_get in *.
    destruct (creations _ _ t2) as [|[|n]]; cbn in Hrest |- *; lia.
Qed.

(** C2.  A machine never gets two instances, however often its reconciliation is
    repeated and whatever was lost in between: over any sequence of normal
    reconciliations of the machine, each starting from an arbitrary status, OVH
    accepts at most one creation of an instance of its name, provided that a
    listing shows the instance once its creation was accepted. *)
Theorem single_instance c name ts :
  Forall (reconciles c name) ts ->
  listings_complete c name false (concat ts) ->
  (creations c name (concat ts) <= 1)%nat.
Proof. intros Hts Hl. exact (single_instance_from c name ts false Hts Hl). Qed.
End single.

(** ** Networks *)

(** A private network has no such protection: whenever the controller has
    to create one, the first thing a run of [reconcileNetwork] does is the POST,
    without looking for a network of the cluster's name; a reconciliation whose
    status patch was lost is followed by one that creates a second network. *)
Theorem network_created_without_lookup `{CapiLib} scope cfg o t r :
  CSpec_NetworkConfig (OVHCluster_Spec o) = Some cfg ->
  NetConfig_PrivateNetworkID cfg = "" -> CStatus_NetworkID (OVHCluster_Status o) = "" ->
  runs (reconcileNetwork scope o) t r ->
  let c := CScope_OVHClient scope in
  exists answer t',
    t = Ev (ApiPost (api c) (networkCollection c) (BCreateNetwork {|
              CreateNetworkOpts_Name := GenerateRFC1035Name ["capi"; clusterName scope; "net"];
              CreateNetworkOpts_VlanID := NetConfig_VlanID cfg;
              CreateNetworkOpts_Regions := [CSpec_Region (OVHCluster_Spec o)] |})
            TPrivateNetwork) answer :: t'.
Proof.
  intros Hcfg Hgiven Hid Hr c. destruct r as [r o'].
  unfold reconcileNetwork, getSpec in Hr. rinv. rewrite Hcfg in Hr.
  apply runs_mbind in Hr as (t1 & t2 & a & s1 & -> & H1 & _).
  unfold ensureNetwork, getStatus in H1. rinv. rewrite Hid, Hgiven in H1. cbn [strEqb] in H1.
  apply runs_mbind in H1 as (t3 & t4 & a' & s2 & -> & H1 & _). rinv.
  unfold CreatePrivateNetwork in H1. rinv. cbn [app].
  match goal with Hp : runs (apiPost _ _ _ _ _) _ _ |- _ =>
    apply retryWithBackoff_runs in Hp as ([|e es] & last & -> & _) end;
    by do 2 eexists.
Qed.

(** ** Witnesses *)

(** A project with a flavor, an image and a bootstrap secret; [instances] are the
    instances it lists. *)
Definition stocked (instances : list Instance_) : Answers := {|
  on_get T path tg := match tg in target T return gores T with
    | TInstances => Ok instances
    | TFlavors => Ok [ {| Flavor_ID := "f"; Flavor_Name := "b3-8"; Flavor_VCPUs := 2; Flavor_RAM := 8;
                          Flavor_Disk := 50; Flavor_Type := ""; Flavor_Region := "GRA7";
                          Flavor_Bandwidth := 0; Flavor_PlanCode := "" |} ]
    | TImages => Ok [ zero_Image {{ Image_ID := "im"; Image_Name := "Ubuntu 24.04" }} ]
    | TInstance => refused
    | tg => healthy_get _ path tg
    end;
  on_post := healthy_post; on_delete := fun _ => Ok tt |}.

Definition creating_env (a : Answers) : handler unit := fun X w r =>
  match r in req X return X * unit with
  | GetSecret _ _ => (Ok {| Secret_ObjectMeta := demo_meta "boot" false [];
                            Secret_Data := {[ "value" := "#cloud-config" ]} |}, w)
  | r => demo_env a _ w r
  end.

Definition creating_run (instances : list Instance_) : trace :=
  (exec (creating_env (stocked instances))
     (MachineReconcileNormal (demo_machine_scope false) (demo_machine false "")) tt).1.

(** The second reconciliation starts from the same, unpatched machine. *)
Lemma single_instance_witness :
  creations demo_client "test-m0" (creating_run []) = 1%nat /\
  (creations demo_client "test-m0"
     (concat [creating_run []; creating_run [demo_instance "BUILD"]]) <= 1)%nat.
Proof.
  split; [reflexivity|]. apply single_instance.
  - apply Forall_forall. intros t Ht. exists (demo_machine_scope false), (demo_machine false "").
    set_unfold in Ht. destruct Ht as [->|[->|[]]]; do 2 eexists;
      (split; [reflexivity|]; split; [reflexivity|]; rewrite <- surjective_pairing; apply exec_runs).
  - vm_compute. repeat split; done.
Defined.

Lemma network_created_without_lookup_witness :
  exists answer t', (demo_run healthy (reconcileNetwork demo_scope (demo_object "" false))).1 =
    Ev (ApiPost (api demo_client) (networkCollection demo_client) (BCreateNetwork {|
          CreateNetworkOpts_Name := "capi-test-net"; CreateNetworkOpts_VlanID := 0;
          CreateNetworkOpts_Regions := ["GRA7"] |}) TPrivateNetwork) answer :: t'.
Proof.
  refine (network_created_without_lookup demo_scope (demo_netconfig "") (demo_object "" false) _
            (demo_run healthy (reconcileNetwork demo_scope (demo_object "" false))).2 _ _ _ _).
  - reflexivity.
  - reflexivity.
  - reflexivity.
  - apply demo_runs.
Defined.
