(* ===== verification/MachineContract.v ===== *)
(** * MachineContract: the machine reconciler refines an abstract contract

    Cluster API asks an infrastructure provider to follow a contract: take the
    finalizer before creating anything, publish a provider identifier, release
    the machine only once its infrastructure is gone.  [cstep] states that
    contract as a labelled transition system on what is visible of a machine;
    its labels are the effects visible in the OVH project.  Every reconciliation
    is a sequence of contract steps with exactly the effects of its trace as
    labels; what the contract guarantees therefore holds over whole lives of a
    machine. *)
From S2P Require Import Prelude.
From S2P Require Import GoStrings.
From S2P Require Import GoErrors.
From S2P Require Import OvhTypes.
From S2P Require Import K8sTypes.
From S2P Require Import ApiV1alpha2.
From S2P Require Import Effects.
From S2P Require Import OvhClient.
From S2P Require Import OvhClientSpec.
From S2P Require Import Hoare.
From S2P Require Import Naming.
From S2P Require Import CapiLib.
From S2P Require Import ClusterController.
From S2P Require Import ClusterLB.
From S2P Require Import WorkloadNode.
From S2P Require Import MachineController.
From S2P Require Import Demo.
From S2P Require Import ClusterSafety.
From S2P Require Import ClusterDelete.
From S2P Require Import ClusterLBSpec.
From S2P Require Import MachineSpec.
From S2P Require Import Idempotence.
#[local] Open Scope Z_scope.
#[local] Open Scope go_scope.

(** ** The contract *)

(** The effects of a trace: OVH created an instance; OVH accepted the deletion of
    one, or answered what the client takes for "it does not exist"; a read was
    answered what the client takes for that. *)
Inductive action :=
| Created (id : string)
| Deleted (id : string)
| Unknown (id : string).

(** A machine as its owner sees it, and the identifiers known to be gone. *)
Record contract := {
  managed : bool;        (* the finalizer is set *)
  recorded : string;     (* status.instanceID *)
  ready : bool;
  providerID : string;
  gone : gset string;
}.

Inductive cstep (reg : string) (keep : bool) : contract -> list action -> contract -> Prop :=
| c_manage a :
    managed a = false -> cstep reg keep a [] (a {{ managed := true; ready := false }})
| c_withdraw a :
    cstep reg keep a [] (a {{ ready := false }})
| c_unknown a id :
    cstep reg keep a [Unknown id] (a {{ gone ::= union {[ id ]} }})
| c_forget a :
    recorded a ∈ gone a -> cstep reg keep a [] (a {{ recorded := "" }})
| c_create a id :
    managed a = true -> recorded a = "" -> id <> "" ->
    cstep reg keep a [Created id]
      (a {{ recorded := id; gone ::= fun g => g ∖ {[ id ]} }})
| c_observe a id (active : bool) :
    managed a = true -> recorded a = "" \/ recorded a = id ->
    cstep reg keep a [] (a {{ recorded := id; ready := active; providerID :=
      if active then ProviderIDFromInstance reg id else providerID a }})
| c_delete a :
    recorded a <> "" ->
    cstep reg keep a [Deleted (recorded a)] (a {{ gone ::= union {[ recorded a ]} }})
| c_release a :
    keep = true \/ recorded a = "" \/ recorded a ∈ gone a ->
    cstep reg keep a [] (a {{ managed := false }}).

Inductive csteps (reg : string) (keep : bool) : contract -> list action -> contract -> Prop :=
| csteps_nil a : csteps reg keep a [] a
| csteps_cons a l a' l' a'' :
    cstep reg keep a l a' -> csteps reg keep a' l' a'' -> csteps reg keep a (l ++ l') a''.

Lemma csteps_one reg keep a l a' : cstep reg keep a l a' -> csteps reg keep a l a'.
Proof. intros H. rewrite <- (app_nil_r l). econstructor; [exact H|constructor]. Qed.

Lemma csteps_app reg keep a l a' l' a'' :
  csteps reg keep a l a' -> csteps reg keep a' l' a'' -> csteps reg keep a (l ++ l') a''.
Proof.
  induction 1 as [a|a l a' m b Hs _ IH]; intros H'; [done|].
  rewrite <- app_assoc. econstructor; [exact Hs|auto].
Qed.

(** An invariant of every contract step holds after every sequence of them. *)
Lemma csteps_invariant reg keep (I : list action -> contract -> Prop) h a l a' :
  (forall h a l a', I h a -> cstep reg keep a l a' -> I (h ++ l) a') ->
  I h a -> csteps reg keep a l a' -> I (h ++ l) a'.
Proof.
  intros Hs Ha Hst. revert h Ha. induction Hst as [a|a l a' m b H1 _ IH]; intros h Ha.
  - by rewrite app_nil_r.
  - rewrite app_assoc. apply IH. by eapply Hs.
Qed.

(** *** What the contract guarantees *)

(** Every creation in the history is of the recorded instance, or of one whose
    disappearance comes later in the history. *)
Definition accounted (h : list action) (id : string) : Prop :=
  forall h1 h2, h = h1 ++ Created id :: h2 -> Deleted id ∈ h2 \/ Unknown id ∈ h2.

Lemma app_split {A} (h l h1 h2 : list A) x :
  h ++ l = h1 ++ x :: h2 -> x ∉ l -> exists k, h = h1 ++ x :: k /\ h2 = k ++ l.
Proof.
  revert h. induction h1 as [|y h1 IH]; intros h Heq Hx.
  - destruct h as [|z h]; cbn in Heq; [subst l; set_solver|].
    injection Heq as -> <-. by exists h.
  - destruct h as [|z h]; cbn in Heq; [subst l; set_solver|].
    injection Heq as -> Heq. destruct (IH h Heq Hx) as (k & -> & ->). by exists k.
Qed.

Lemma accounted_app h l id :
  accounted h id -> Created id ∉ l -> accounted (h ++ l) id.
Proof.
  intros Ha Hl h1 h2 Heq. destruct (app_split _ _ _ _ _ Heq Hl) as (k & -> & ->).
  destruct (Ha h1 k eq_refl); set_solver.
Qed.

Lemma accounted_gone h x id : x = Deleted id \/ x = Unknown id -> accounted (h ++ [x]) id.
Proof.
  intros Hx h1 h2 Heq. apply app_split in Heq as (k & _ & ->).
  - set_solver.
  - set_solver.
Qed.

Record contract_inv (h : list action) (a : contract) : Prop := {
  inv_accounted : forall id, id = recorded a \/ accounted h id;
  inv_gone : forall id, id ∈ gone a -> accounted h id;
  inv_empty : accounted h "";
  inv_released : managed a = false -> forall id, accounted h id;
  inv_ready : ready a = true -> providerID a <> "";
}.

(** Steps without creation only add to the history. *)
Lemma contract_inv_quiet h a l :
  contract_inv h a -> (forall id, Created id ∉ l) -> contract_inv (h ++ l) a.
Proof.
  intros [Ha Hg He Hr Hp] Hl. split.
  - intros id. destruct (Ha id); [by left|right; by apply accounted_app].
  - intros id Hid. by apply accounted_app; [apply Hg|].
  - by apply accounted_app.
  - intros Hm id. by apply accounted_app; [apply Hr|].
  - done.
Qed.

Lemma contract_inv_gone h a x id :
  contract_inv h a -> x = Deleted id \/ x = Unknown id ->
  contract_inv (h ++ [x]) (a {{ gone ::= union {[ id ]} }}).
Proof.
  intros Hi Hx. pose proof (accounted_gone h x id Hx) as Hacc.
  apply (contract_inv_quiet h a [x]) in Hi as [Ha Hg He Hr Hp]; [|set_solver].
  split; [exact Ha| |exact He|exact Hr|exact Hp].
  cbn. intros id'. rewrite elem_of_union, elem_of_singleton. intros [->|?]; auto.
Qed.

Lemma contract_inv_create h a id :
  contract_inv h a -> managed a = true -> recorded a = "" -> id <> "" ->
  contract_inv (h ++ [Created id]) (a {{ recorded := id; gone ::= fun g => g ∖ {[ id ]} }}).
Proof.
  intros [Ha Hg He Hr Hp] Hm Hrec Hid. split; cbn.
  - intros id'. destruct (decide (id' = id)) as [->|Hne]; [by left|right].
    apply accounted_app; [|set_solver]. destruct (Ha id') as [->|?]; [by rewrite Hrec|done].
  - intros id' Hin. apply accounted_app; [apply Hg; set_solver|set_solver].
  - apply accounted_app; [done|set_solver].
  - intros Hf. congruence.
  - done.
Qed.

Lemma cstep_inv reg h a l a' :
  contract_inv h a -> cstep reg false a l a' -> contract_inv (h ++ l) a'.
Proof.
  intros Hi Hs. destruct Hs as [a Hm|a|a id|a Hf|a id Hm Hrec Hid|a id active Hm Hrec|a Hrec|a Hrel];
    rewrite ?app_nil_r.
  - by destruct Hi as [? ? ? ? ?].
  - by destruct Hi as [? ? ? ? ?].
  - apply contract_inv_gone; auto.
  - destruct Hi as [Ha Hg He Hr Hp]. split; cbn; auto.
    intros id. destruct (Ha id) as [->|?]; auto.
  - by apply contract_inv_create.
  - destruct Hi as [Ha Hg He Hr Hp]. split; cbn; auto.
    + intros id'. destruct (Ha id') as [->|?]; [|by right].
      destruct Hrec as [->| ->]; [right; exact He|by left].
    + intros Hact. rewrite Hact. done.
  - apply contract_inv_gone; auto.
  - destruct Hi as [Ha Hg He Hr Hp]. split; cbn; auto.
    intros _ id. destruct Hrel as [?|[Hrec|Hrec]]; [done| |]; destruct (Ha id) as [->|?]; auto.
    by rewrite Hrec.
Qed.

Lemma csteps_inv reg h a l a' :
  contract_inv h a -> csteps reg false a l a' -> contract_inv (h ++ l) a'.
Proof. intros Ha. by apply (csteps_invariant reg false contract_inv), Ha; apply cstep_inv. Qed.

(** ** The effects of a trace *)

(** The identifier of the instance a path names. *)
Definition instanceOf (c : Client) (path : string) : option string :=
  if HasPrefix path (projectPath c "/instance/")
  then Some (TrimPrefix path (projectPath c "/instance/")) else None.

(** What the client makes of the last answer of a retried call. *)
Definition deletion_done (answer : gores unit) : bool :=
  match nilOnNotFound "" (retry_result "DeleteInstance" answer) with None => true | Some _ => false end.
Definition read_unknown (id : string) (answer : gores Instance_) : bool :=
  match wrapErr ("getting instance " +:+ id +:+ ": ") (retry_result "GetInstance" answer) with
  | Ok _ => false
  | Err e => IsNotFound (Some e)
  end.

Definition acts (c : Client) (e : event) : list action :=
  match e with
  | Ev r x =>
      match r in req X return X -> list action with
      | ApiPost _ path (BCreateInstance _) tg =>
          match tg in target T return gores T -> list action with
          | TInstance => fun answer =>
              match answer with
              | Ok inst => if path =s? instanceCollection c then [Created (Instance_ID inst)] else []
              | Err _ => []
              end
          | _ => fun _ => []
          end
      | ApiDelete _ path => fun answer =>
          match instanceOf c path with
          | Some id => if deletion_done answer then [Deleted id] else []
          | None => []
          end
      | ApiGet _ path tg =>
          match tg in target T return gores T -> list action with
          | TInstance => fun answer =>
              match instanceOf c path with
              | Some id => if read_unknown id answer then [Unknown id] else []
              | None => []
              end
          | _ => fun _ => []
          end
      | _ => fun _ => []
      end x
  end.

Definition actions (c : Client) (t : trace) : list action := concat (map (acts c) t).

(** OVH is honest about identifiers: reading the instance [id] answers [id], and
    a created instance has an identifier. *)
Definition honest (c : Client) (e : event) : Prop :=
  match e with
  | Ev r x =>
      match r in req X return X -> Prop with
      | ApiPost _ path (BCreateInstance _) tg =>
          match tg in target T return gores T -> Prop with
          | TInstance => fun answer =>
              match answer with Ok inst => Instance_ID inst <> "" | Err _ => True end
          | _ => fun _ => True
          end
      | ApiGet _ path tg =>
          match tg in target T return gores T -> Prop with
          | TInstance => fun answer =>
              match answer, instanceOf c path with
              | Ok inst, Some id => Instance_ID inst = id
              | _, _ => True
              end
          | _ => fun _ => True
          end
      | _ => fun _ => True
      end x
  end.

Section effects.
Context (c : Client).

Lemma actions_app t t' : actions c (t ++ t') = actions c t ++ actions c t'.
Proof. unfold actions. by rewrite List.map_app, List.concat_app. Qed.

Lemma instanceOf_path id : instanceOf c (instancePath c id) = Some id.
Proof.
  unfold instanceOf, instancePath, projectPath. rewrite <- !sapp_assoc.
  by rewrite HasPrefix_app, TrimPrefix_app.
Qed.

Lemma HasPrefix_cancel p a b : HasPrefix (p +:+ a) (p +:+ b) = HasPrefix a b.
Proof. induction p as [|x p IH]; [done|]. cbn. rewrite bool_decide_eq_true_2 by done. exact IH. Qed.

Lemma instanceOf_other s :
  HasPrefix s "/instance/" = false -> instanceOf c (projectPath c s) = None.
Proof.
  intros Hs. unfold instanceOf, projectPath. by rewrite !HasPrefix_cancel, Hs.
Qed.

(** Events with no other effect than showing that an instance is unknown. *)
Definition quiet (e : event) : Prop := forall a, a ∈ acts c e -> exists id, a = Unknown id.

Lemma quiet_nil e : acts c e = [] -> quiet e.
Proof. intros He a. rewrite He. set_solver. Qed.
Lemma quiet_get {T} c' path (tg : target T) x : quiet (Ev (ApiGet c' path tg) x).
Proof. intros a. destruct tg; cbn; repeat case_match; set_solver. Qed.
Lemma quiet_delete c' path x : instanceOf c path = None -> quiet (Ev (ApiDelete c' path) x).
Proof. intros Hp a. cbn. rewrite Hp. set_solver. Qed.

(** A quiet trace is a sequence of [c_unknown] steps. *)
Lemma quiet_csteps reg keep t a :
  Forall quiet t ->
  exists g, csteps reg keep a (actions c t) (a {{ gone := g }}) /\ gone a ⊆ g /\
            forall id, Unknown id ∈ actions c t -> id ∈ g.
Proof.
  intros Ht. assert (Hq : forall x, x ∈ actions c t -> exists id, x = Unknown id).
  { intros x Hx. unfold actions in Hx. apply list_elem_of_In, in_concat in Hx as (l & Hl & Hx).
    apply in_map_iff in Hl as (e & <- & He). rewrite Forall_forall in Ht.
    apply (Ht e); by apply list_elem_of_In. }
  clear Ht. revert a Hq. generalize (actions c t) as l.
  induction l as [|x l IH]; intros a Hq.
  - exists (gone a). split; [constructor|]. set_solver.
  - destruct (Hq x) as [id ->]; [set_solver|].
    destruct (IH (a {{ gone ::= union {[ id ]} }})) as (g & Hs & Hg & Hin).
    { intros y Hy. apply Hq. set_solver. }
    cbn in Hs, Hg. exists g. split; [|set_solver].
    eapply (csteps_cons reg keep a [Unknown id]); [apply c_unknown|exact Hs].
Qed.
End effects.

Ltac quiet_event :=
  lazymatch goal with
  | |- quiet _ (Ev (ApiGet _ _ _) _) => apply quiet_get
  | |- quiet ?c (Ev (ApiDelete _ _) _) =>
      apply quiet_delete; autounfold with paths;
      first [ by apply instanceOf_other
            | by apply (instanceOf_other c ("/region/" +:+ _)) ]
  | |- quiet _ _ => by apply quiet_nil
  end.

(** ** Refinement *)

Section refinement.
Context `{CapiLib}.

Definition abs_of (o : OVHMachine) (g : gset string) : contract := {|
  managed := hasMFinalizer o; recorded := instanceID o;
  ready := MStatus_Ready (OVHMachine_Status o);
  providerID := MSpec_ProviderID (OVHMachine_Spec o); gone := g |}.

(** The trace [t] takes [o] to [o'] by contract steps. *)
Definition evolves (scope : MachineScope) (keep : bool) (o : OVHMachine) (g : gset string)
  (t : trace) (o' : OVHMachine) (g' : gset string) : Prop :=
  csteps (region_of scope) keep (abs_of o g) (actions (MScope_OVHClient scope) t) (abs_of o' g').

Lemma evolves_app scope keep o g t o1 g1 t' o2 g2 :
  evolves scope keep o g t o1 g1 -> evolves scope keep o1 g1 t' o2 g2 ->
  evolves scope keep o g (t ++ t') o2 g2.
Proof. unfold evolves. rewrite actions_app. apply csteps_app. Qed.

(** The state [o] has the view [v]; every run of a program that makes quiet
    calls and keeps it evolves. *)
Definition has_view (v : contract) (o : OVHMachine) : Prop := abs_of o ∅ = v.

Lemma abs_of_same o o' g : abs_of o ∅ = abs_of o' ∅ -> abs_of o g = abs_of o' g.
Proof. unfold abs_of. by intros [= -> -> -> ->]. Qed.

Lemma quiet_evolves scope keep o g t o' :
  Forall (quiet (MScope_OVHClient scope)) t -> has_view (abs_of o ∅) o' ->
  exists g', evolves scope keep o g t o' g' /\ g ⊆ g' /\
    forall id, Unknown id ∈ actions (MScope_OVHClient scope) t -> id ∈ g'.
Proof.
  intros Ht Hv. destruct (quiet_csteps (MScope_OVHClient scope) (region_of scope) keep t
    (abs_of o g) Ht) as (g' & Hs & Hg & Hin).
  exists g'. split; [|done]. unfold evolves. by rewrite (abs_of_same o' o g').
Qed.

Ltac view_kept :=
  match goal with Hs : has_view _ _ |- has_view _ _ =>
    unfold has_view, abs_of, hasMFinalizer, instanceID in *; cbn in *; exact Hs end.
Ltac stays := first [quiet_event | view_kept | intros ?; by apply quiet_nil].

(** One abstract step after a quiet run that changes the object. *)
Lemma quiet_then_step scope keep o g t o' (f : contract -> contract) :
  Forall (quiet (MScope_OVHClient scope)) t ->
  (forall g', abs_of o' g' = f (abs_of o g')) ->
  (forall g', g ⊆ g' ->
     (forall id, Unknown id ∈ actions (MScope_OVHClient scope) t -> id ∈ g') ->
     cstep (region_of scope) keep (abs_of o g') [] (f (abs_of o g'))) ->
  exists g', evolves scope keep o g t o' g' /\ g ⊆ g'.
Proof.
  intros Ht Hf Hs. destruct (quiet_evolves scope keep o g t o Ht eq_refl) as (g' & He & Hg & Hin).
  exists g'. split; [|done]. rewrite <- (app_nil_r t). eapply evolves_app; [exact He|].
  unfold evolves. cbn. rewrite Hf. apply csteps_one. by apply Hs.
Qed.

(** *** Lookups *)

(** A read of the recorded instance. *)
Lemma GetInstance_actions c id t r :
  runs (GetInstance c id) t r -> Forall (honest c) t ->
  Forall (quiet c) t /\
  match r with
  | Ok inst => Instance_ID inst = id
  | Err e => IsNotFound (Some e) = true -> Unknown id ∈ actions c t
  end.
Proof.
  intros Hr Hh. unfold GetInstance, apiGet in Hr. rinv. rewrite app_nil_r in *.
  change (projectPath c ("/instance/" +:+ id)) with (instancePath c id) in Hr0.
  apply retryWithBackoff_runs in Hr0 as (es & last & -> & _ & _ & _ & ->).
  split; [apply retry_trace_forall; intros ?; [by apply quiet_nil|apply quiet_get]|].
  destruct (retry_trace_last (ApiGet (api c) (instancePath c id) TInstance) 0 es last) as [t' Ht].
 rewrite Ht in *. rewrite actions_app. clear Ht.
  apply Forall_app in Hh as [_ Hh]. apply Forall_cons in Hh as [Hh _].
  cbn [honest] in Hh. rewrite instanceOf_path in Hh.
  destruct (wrapErr _ _) as [inst|e] eqn:Hw.
  - destruct (retry_result _ _) as [i|] eqn:Hl in Hw; [|done]. injection Hw as ->.
    by apply retry_result_ok in Hl as ->.
  - intros He. apply elem_of_app. right. unfold actions. cbn [map concat acts].
    rewrite instanceOf_path, app_nil_r. unfold read_unknown. rewrite Hw, He. set_solver.
Qed.

Lemma findByStatus_evolves scope keep o g t r o' :
  runs (findByStatus scope o) t (r, o') -> Forall (honest (MScope_OVHClient scope)) t ->
  exists g', evolves scope keep o g t o' g' /\
    hasMFinalizer o' = hasMFinalizer o /\
    match r with
    | Ok (Some inst) => instanceID o' = Instance_ID inst
    | Ok None => instanceID o' = ""
    | Err _ => True
    end.
Proof.
  intros Hr Hh. unfold findByStatus, getMStatus, setMStatus in Hr. rinv.
  destruct (_ =s? "") eqn:Hid in Hr; str_simpl; rinv.
  { exists g. split_all. constructor. }
  cbn [app] in *. apply Forall_app in Hh as [Hh _].
  match goal with Hg : runs (GetInstance _ _) _ _ |- _ =>
    apply GetInstance_actions in Hg as [Hq Hread]; [|done] end.
  case_match; rinv; rewrite ?app_nil_r.
  { destruct (quiet_evolves scope keep o g _ o Hq eq_refl) as (g' & He & _).
    exists g'. split_all. }
  case_match; rinv; rewrite ?app_nil_r.
  - destruct (quiet_then_step scope keep o g _
      (o {{ OVHMachine_Status ::= fun s => s {{ MStatus_InstanceID := "" }} }})
      (fun a => a {{ recorded := "" }}) Hq) as (g' & He & _); [done| |by exists g'].
    intros g' _ Hin. apply c_forget. cbn. by apply Hin, Hread.
  - destruct (quiet_evolves scope keep o g _ o Hq eq_refl) as (g' & He & _).
    exists g'. split_all.
Qed.

(** The other lookups change nothing. *)
Lemma lookups_view scope v :
  keeps (quiet (MScope_OVHClient scope)) (has_view v) (findByAdoption scope) /\
  keeps (quiet (MScope_OVHClient scope)) (has_view v) (findByName scope).
Proof. split; keeps_with stays. Qed.

Lemma findInstance_evolves scope keep o g t r o' :
  runs (findInstance scope o) t (r, o') -> Forall (honest (MScope_OVHClient scope)) t ->
  exists g', evolves scope keep o g t o' g' /\
    hasMFinalizer o' = hasMFinalizer o /\
    match r with
    | Ok (Some inst) => instanceID o' = "" \/ instanceID o' = Instance_ID inst
    | Ok None => instanceID o' = ""
    | Err _ => True
    end.
Proof.
  intros Hr Hh. unfold findInstance in Hr. unfold orLookup at 1 in Hr.
  apply runs_mbind in Hr as (t1 & t2 & r1 & s1 & -> & H1 & Hr).
  apply Forall_app in Hh as [Hh1 Hh2].
  destruct (findByStatus_evolves scope keep o g t1 r1 s1 H1 Hh1) as (g1 & He1 & Hf1 & Hr1).
  destruct r1 as [[inst|]|e].
  1,3: rinv; exists g1; rewrite app_nil_r; split_all; by right.
  assert (Hk : keeps (quiet (MScope_OVHClient scope)) (has_view (abs_of s1 ∅))
                 (orLookup (findByAdoption scope) (findByName scope))).
  { destruct (lookups_view scope (abs_of s1 ∅)). unfold orLookup. apply keeps_bind; [done|].
    intros [[inst|]|e]; [apply keeps_ret|done|apply keeps_ret]. }
  destruct (keeps_run _ _ _ _ _ _ _ Hk eq_refl Hr) as [Hq Hv].
  destruct (quiet_evolves scope keep s1 g1 t2 o' Hq Hv) as (g2 & He2 & _).
  exists g2. unfold has_view, abs_of in Hv. injection Hv as Hv1 Hv2 _ _.
  split_all; [by eapply evolves_app|congruence|]. rewrite Hv2, Hr1. destruct r as [[?|]|]; auto.
Qed.

(** *** Creation *)

Lemma created_actions c path opts i es last :
  let rq := ApiPost (api c) path (BCreateInstance opts) TInstance in
  actions c (retry_trace rq i es last) = acts c (Ev rq last).
Proof.
  revert i. induction es as [|e es IH]; intros i.
  - unfold actions. cbn [retry_trace map concat]. by rewrite app_nil_r.
  - apply (IH (S i)).
Qed.

Lemma CreateInstance_actions c opts t r :
  runs (CreateInstance c opts) t r -> Forall (honest c) t ->
  actions c t = match r with Ok inst => [Created (Instance_ID inst)] | Err _ => [] end /\
  match r with Ok inst => Instance_ID inst <> "" | Err _ => True end.
Proof.
  intros Hr Hh. unfold CreateInstance, apiPost in Hr. rinv. rewrite app_nil_r in *.
  apply retryWithBackoff_runs in Hr0 as (es & last & -> & _ & _ & _ & ->).
  rewrite created_actions. match type of Hh with Forall _ (retry_trace ?rq _ _ _) =>
    destruct (retry_trace_last rq 0 es last) as [t' Ht] end.
  rewrite Ht in Hh. apply Forall_app in Hh as [_ Hh]. apply Forall_cons in Hh as [Hh _].
  cbn [honest] in Hh. destruct last as [inst|e]; cbn [retry_result wrapErr acts].
  - change (projectPath c "/instance") with (instanceCollection c). by rewrite strEqb_refl.
  - by destruct (IsRetryable (Some e)).
Qed.

Lemma requestInstance_evolves scope keep opts o g t r o' :
  runs (requestInstance scope opts o) t (r, o') -> Forall (honest (MScope_OVHClient scope)) t ->
  hasMFinalizer o = true -> instanceID o = "" ->
  exists g', evolves scope keep o g t o' g'.
Proof.
  intros Hr Hh Hf Hid. unfold requestInstance in Hr.
  apply runs_mbind in Hr as (t1 & t2 & u & s1 & -> & (? & ? & -> & -> & [= -> ->]) & Hr).
  apply runs_mbind in Hr as (t3 & t4 & ri & s2 & -> & [H2 ->]%runs_lift & Hr).
  apply Forall_cons in Hh as [_ Hh]. apply Forall_app in Hh as [Hh _].
  apply CreateInstance_actions in H2 as [Hact Hne]; [|done].
  cbn [app]. destruct ri as [inst|e].
  - unfold setMCondition, setMStatus in Hr. rinv. exists (g ∖ {[ Instance_ID inst ]}).
    unfold evolves. rewrite app_nil_r.
    change (actions ?c (Ev ?r ?x :: ?t)) with (acts c (Ev r x) ++ actions c t).
    rewrite Hact. cbn [acts app]. apply csteps_one. by apply (c_create _ _ (abs_of o g)).
  - unfold setMCondition, setMStatus in Hr. rinv. exists g.
    unfold evolves.
    change (actions ?c (Ev ?r ?x :: ?t)) with (acts c (Ev r x) ++ actions c t).
    rewrite actions_app, Hact. apply csteps_nil.
Qed.

Lemma createInstance_cases scope o t r o' :
  runs (createInstance scope o) t (r, o') ->
  (Forall (quiet (MScope_OVHClient scope)) t /\ o' = o) \/
  exists t1 t2 opts, t = t1 ++ t2 /\ Forall (quiet (MScope_OVHClient scope)) t1 /\
    runs (requestInstance scope opts o) t2 (r, o').
Proof.
  intros Hr. unfold createInstance in Hr. apply runs_mbind in Hr as (? & ? & ? & ? & -> & [-> [= -> ->]] & Hr).
  cbn [app]. generalize dependent x0. intros t Hr.
  repeat lazymatch goal with
  | Hr : runs (requestInstance _ _ _) _ _ |- _ => fail
  | Hr : runs (mbind (lift ?p) ?f _) ?t _ |- _ =>
      let Hp := fresh "Hp" in
      apply runs_mbind in Hr as (? & ? & ? & ? & -> & [Hp ->]%runs_lift & Hr);
      apply (emits_run (quiet (MScope_OVHClient scope))) in Hp; [|keeps_with stays]
  | Hr : runs ((match ?x with _ => _ end) _) _ _ |- _ => destruct x
  | Hr : runs (mret _ _) _ _ |- _ => destruct Hr as [-> [= -> ->]]
  end.
  { right. rewrite !app_assoc. do 3 eexists. split; [reflexivity|]. split; [|exact Hr].
    by repeat (apply Forall_app; split). }
  all: left; split; [by repeat (apply Forall_app; split)|done].
Qed.

(** *** An existing instance *)

Lemma handleExistingInstance_evolves scope keep inst o g t r o' :
  runs (handleExistingInstance scope inst o) t (r, o') -> hasMFinalizer o = true ->
  instanceID o = "" \/ instanceID o = Instance_ID inst ->
  exists g', evolves scope keep o g t o' g'.
Proof.
  intros Hr Hf Hid. pose proof (handleExistingInstance_run _ _ _ _ _ _ Hr) as (H1 & H2 & H3).
  assert (Hk : keeps (quiet (MScope_OVHClient scope)) (fun s => hasMFinalizer s = true)
                 (handleExistingInstance scope inst)).
  { keeps_with ltac:(first [done | quiet_event | intros ?; by apply quiet_nil]). }
  destruct (keeps_run _ _ _ _ _ _ _ Hk Hf Hr) as [Hq Hf'].
  set (active := Instance_Status inst =s? InstanceStatusActive) in *.
  destruct (quiet_then_step scope keep o g t o'
    (fun a => a {{ recorded := Instance_ID inst; ready := active; providerID :=
       if active then ProviderIDFromInstance (region_of scope) (Instance_ID inst)
       else providerID a }}) Hq) as (g' & He & _); [| |by exists g'].
  - intros g'. unfold abs_of. cbn. rewrite Hf, Hf', H1, H2.
    destruct active; [by destruct H3 as (-> & _)|by rewrite H3].
  - intros g' _ _. by apply c_observe.
Qed.

(** *** Normal reconciliation *)

Definition ticks (e : event) : Prop :=
  match e with Ev Now _ | Ev (MetricObserve _ _ _) _ | Ev (MetricSet _ _ _) _ => True | _ => False end.

Lemma machineNormalBody_evolves scope keep o g t r o' :
  DeletionTimestamp (OVHMachine_ObjectMeta o) = None ->
  runs (machineNormalBody scope o) t (r, o') -> Forall (honest (MScope_OVHClient scope)) t ->
  exists g', evolves scope keep o g t o' g'.
Proof.
  intros Hts Hr Hh. unfold machineNormalBody in Hr.
  apply runs_mbind in Hr as (? & ? & ? & ? & -> & [-> [= -> ->]] & Hr). cbn [app] in *.
  rewrite Hts in Hr. rewrite bool_decide_eq_true_2, andb_true_r in Hr by done.
  destruct (IsPaused _ _) in Hr.
  { unfold notProvisioned, setMStatus in Hr. rinv. exists g.
    apply csteps_one. apply (c_withdraw _ _ (abs_of o g)). }
  destruct (ContainsFinalizer _ _) eqn:Hf in Hr; cbn [negb] in Hr.
  2:{ unfold notProvisioned, setMStatus in Hr. rinv. exists g. apply csteps_one.
      pose proof (c_manage (region_of scope) keep (abs_of o g)) as Hm.
      unfold abs_of, hasMFinalizer in *. cbn -[ContainsFinalizer AddFinalizer] in *.
      rewrite ContainsFinalizer_Add. by apply Hm. }
  destruct (negb _) in Hr.
  { unfold setMCondition, setMStatus in Hr. rinv. exists g. constructor. }
  destruct (Machine_BootstrapDataSecretName _) in Hr; [|rinv; exists g; constructor].
  apply runs_mbind in Hr as (t1 & t2 & ri & s1 & -> & H1 & Hr). apply Forall_app in Hh as [Hh1 Hh2].
  destruct (findInstance_evolves scope keep o g t1 ri s1 H1 Hh1) as (g1 & He1 & Hf1 & Hri).
  assert (Hs1 : hasMFinalizer s1 = true) by by rewrite Hf1.
  enough (exists g2, evolves scope keep s1 g1 t2 o' g2) as [g2 He2].
  { exists g2. by eapply evolves_app. }
  destruct ri as [[inst|]|e].
  - by eapply handleExistingInstance_evolves.
  - destruct (createInstance_cases _ _ _ _ _ Hr) as [[Hq ->]|(u & v & opts & -> & Hq & Hreq)].
    + destruct (quiet_evolves scope keep s1 g1 t2 s1 Hq eq_refl) as (g2 & ? & _). by exists g2.
    + apply Forall_app in Hh2 as [_ Hh2].
      destruct (quiet_evolves scope keep s1 g1 u s1 Hq eq_refl) as (g2 & He2 & _).
      destruct (requestInstance_evolves scope keep opts s1 g2 v r o' Hreq Hh2 Hs1 Hri) as [g3 He3].
      exists g3. by eapply evolves_app.
  - rinv. exists g1. constructor.
Qed.

Lemma MachineReconcileNormal_evolves scope keep o g t r o' :
  DeletionTimestamp (OVHMachine_ObjectMeta o) = None ->
  runs (MachineReconcileNormal scope o) t (r, o') -> Forall (honest (MScope_OVHClient scope)) t ->
  exists g', evolves scope keep o g t o' g'.
Proof.
  intros Hts Hr Hh. unfold MachineReconcileNormal, observeMDuration, observeMachineStatus in Hr.
  apply runs_mbind in Hr as (t1 & t2 & start & s0 & -> & (? & ? & -> & -> & [= -> ->]) & Hr).
  apply runs_mbind in Hr as (t3 & t4 & out & s1 & -> & H1 & Hr).
  apply Forall_app in Hh as [_ Hh]. apply Forall_app in Hh as [Hh _].
  destruct (machineNormalBody_evolves scope keep o g t3 out s1 Hts H1 Hh) as [g1 He].
  exists g1. rinv. unfold evolves in *. rewrite !actions_app. unfold actions at 1 3.
  cbn [map concat acts app]. by rewrite app_nil_r.
Qed.

(** *** Deletion *)

Lemma DeleteInstance_actions c id t r :
  runs (DeleteInstance c id) t r ->
  Forall (fun e => forall a, a ∈ acts c e -> a = Deleted id) t /\
  (r = None -> Deleted id ∈ actions c t).
Proof.
  intros Hr. unfold DeleteInstance, apiDelete in Hr. rinv. rewrite app_nil_r in *.
  change (projectPath c ("/instance/" +:+ id)) with (instancePath c id) in Hr0.
  apply retryWithBackoff_runs in Hr0 as (es & last & -> & _ & _ & _ & ->). split.
  - apply retry_trace_forall; [intros ? ?; cbn; set_solver|]. intros x a. cbn [acts].
    rewrite instanceOf_path. destruct (deletion_done x); set_solver.
  - intros Hn. destruct (retry_trace_last (ApiDelete (api c) (instancePath c id)) 0 es last) as [t' Ht].
    rewrite Ht, actions_app. apply elem_of_app. right. unfold actions. cbn [map concat acts].
    rewrite instanceOf_path, app_nil_r. unfold deletion_done.
    unfold nilOnNotFound in *. destruct (retry_result _ _) as [|e]; [set_solver|].
    destruct (IsNotFound (Some e)); [set_solver|done].
Qed.

(** A sequence of deletions of the recorded instance. *)
Lemma deletions_csteps reg keep l a :
  recorded a <> "" -> (forall x, x ∈ l -> x = Deleted (recorded a)) ->
  exists g, csteps reg keep a l (a {{ gone := g }}) /\ gone a ⊆ g /\ (l <> [] -> recorded a ∈ g).
Proof.
  intros Hne. revert a Hne. induction l as [|x l IH]; intros a Hne Hl.
  - exists (gone a). split; [constructor|]. set_solver.
  - pose proof (Hl x ltac:(set_solver)) as ->.
    destruct (IH (a {{ gone ::= union {[ recorded a ]} }})) as (g & Hs & Hg & _); [done| |].
    { intros y Hy. apply Hl. set_solver. }
    cbn in Hs, Hg. exists g. split; [|set_solver].
    eapply (csteps_cons _ _ _ [_]); [by apply c_delete|exact Hs].
Qed.

Lemma machineDeleteBody_quiet scope v id vols :
  keeps (quiet (MScope_OVHClient scope)) (has_view v)
    (for_each vols (fun vol => lift (deleteVolume scope id vol))) /\
  keeps (quiet (MScope_OVHClient scope)) (has_view v) (removeLBPoolMember scope).
Proof. split; keeps_with stays. Qed.

Lemma elem_of_actions c a t : a ∈ actions c t <-> exists e, e ∈ t /\ a ∈ acts c e.
Proof.
  unfold actions. rewrite list_elem_of_In, in_concat. setoid_rewrite in_map_iff.
  setoid_rewrite list_elem_of_In. naive_solver.
Qed.

(** The deletion of the recorded instance: what [release] needs. *)
Lemma deleteInstance_evolves scope keep o g t r o' :
  runs (deleteInstance scope o) t (r, o') -> Forall (honest (MScope_OVHClient scope)) t ->
  o' = o /\ exists g', evolves scope keep o g t o g' /\
    (r = None -> instanceID o = "" \/ instanceID o ∈ g').
Proof.
  intros Hr Hh. split; [by apply deleteInstance_run in Hr as [-> _]|].
  unfold deleteInstance in Hr.
  apply runs_mbind in Hr as (? & ? & ? & ? & -> & [-> [= -> ->]] & Hr). cbn [app] in *.
  change (MStatus_InstanceID (OVHMachine_Status o)) with (instanceID o) in Hr.
  destruct (_ =s? "") eqn:Hid in Hr; str_simpl.
  { rinv. exists g. split; [constructor|]. by left. }
  apply runs_mbind in Hr as (t1 & t2 & rd & s1 & -> & [H1 ->]%runs_lift & Hr).
  apply DeleteInstance_actions in H1 as [Hdel Hdone].
  destruct (deletions_csteps (region_of scope) keep (actions (MScope_OVHClient scope) t1)
    (abs_of o g) Hid) as (g1 & Hs & _ & Hg1).
  { intros a (e & He & Ha)%elem_of_actions. rewrite Forall_forall in Hdel. by apply (Hdel e). }
  assert (He1 : evolves scope keep o g t1 o g1) by exact Hs.
  enough (exists g2, evolves scope keep o g1 t2 o g2 /\ g1 ⊆ g2 /\
            (r = None -> rd = None)) as (g2 & He2 & Hsub & Hnone).
  { exists g2. split; [by eapply evolves_app|]. intros Hn. right. apply Hsub, Hg1.
    specialize (Hdone (Hnone Hn)). intros Heq. rewrite Heq in Hdone. set_solver. }
  destruct rd as [e|].
  - rinv. exists g1. split; [constructor|]. done.
  - assert (Hk : keeps (quiet (MScope_OVHClient scope)) (has_view (abs_of o ∅))
      (let! r := lift (GetInstance (MScope_OVHClient scope) (instanceID o)) in
       match r with
       | Ok inst => if negb (Instance_Status inst =s? InstanceStatusDeleted)
                    then mret (Some (requeue requeueDelay, None)) else mret None
       | Err _ => mret (None : option outcome)
       end)) by keeps_with stays.
    destruct (keeps_run _ _ _ _ _ _ _ Hk eq_refl Hr) as [Hq _].
    destruct (quiet_evolves scope keep o g1 t2 o Hq eq_refl) as (g2 & He2 & Hsub & _).
    exists g2. by split_all.
Qed.

Lemma removeMachineFinalizer_evolves scope keep o g :
  keep = true \/ instanceID o = "" \/ instanceID o ∈ g ->
  forall t r o', runs (removeMachineFinalizer o) t (r, o') -> evolves scope keep o g t o' g.
Proof.
  intros Hrel t r o' Hr. unfold removeMachineFinalizer in Hr. rinv. apply csteps_one.
  pose proof (c_release (region_of scope) keep (abs_of o g)) as Hs.
  unfold abs_of, hasMFinalizer in *. cbn -[ContainsFinalizer RemoveFinalizer] in *.
  rewrite ContainsFinalizer_Remove. by apply Hs.
Qed.

Lemma MachineReconcileDelete_evolves scope o g t r o' :
  runs (MachineReconcileDelete scope o) t (r, o') -> Forall (honest (MScope_OVHClient scope)) t ->
  exists g', evolves scope (machineKeepPolicy o) o g t o' g'.
Proof.
  intros Hr Hh. set (keep := machineKeepPolicy o).
  unfold MachineReconcileDelete, observeMDuration in Hr.
  apply runs_mbind in Hr as (t1 & t2 & start & s0 & -> & (? & ? & -> & -> & [= -> ->]) & Hr).
  apply runs_mbind in Hr as (t3 & t4 & out & s1 & -> & H1 & Hr).
  enough (exists g', evolves scope keep o g t3 s1 g') as [g1 He].
  { exists g1. rinv. unfold evolves in *. rewrite !actions_app. unfold actions at 1 3.
    cbn [map concat acts app]. by rewrite app_nil_r. }
  apply Forall_app in Hh as [_ Hh]. apply Forall_app in Hh as [Hh _]. clear Hr.
  unfold machineDeleteBody in H1.
  apply runs_mbind in H1 as (? & ? & ? & ? & -> & [-> [= -> ->]] & H1). cbn [app] in *.
  fold keep in H1. destruct keep eqn:Hkeep.
  { apply runs_mbind in H1 as (u & v & ? & s & -> & H1 & Hr). rinv. exists g. rewrite app_nil_r.
    eapply removeMachineFinalizer_evolves; [by left|exact H1]. }
  apply runs_mbind in H1 as (? & u & ? & ? & -> & (? & ? & -> & -> & [= _ ->]) & H1).
  apply runs_mbind in H1 as (? & ? & ? & ? & -> & [-> [= -> ->]] & H1). cbn [app] in *.
  apply runs_mbind in H1 as (u1 & u2 & ? & s2 & -> & Hv & H1).
  apply runs_mbind in H1 as (u3 & u4 & ? & s3 & -> & Hp & H1).
  apply (keeps_run _ _ _ _ _ _ _ (proj1 (machineDeleteBody_quiet scope _ _ _)) eq_refl) in Hv as [Hq1 Hv].
  apply (keeps_run _ _ _ _ _ _ _ (proj2 (machineDeleteBody_quiet scope _ "" [])) Hv) in Hp as [Hq2 Hv'].
  change (Ev ?r ?x :: u1 ++ u3 ++ u4) with ([Ev r x] ++ u1 ++ u3 ++ u4) in *.
  rewrite !app_assoc in *. apply Forall_app in Hh as [_ Hh].
  match goal with |- exists g', evolves _ _ _ _ (?q ++ u4) _ _ =>
    destruct (quiet_evolves scope false o g q s3) as (g1 & He1 & _) end; [|exact Hv'|].
  { repeat (apply Forall_app; split); try done. constructor; [by apply quiet_nil|done]. }
  enough (exists g2, evolves scope false s3 g1 u4 s1 g2) as [g2 He2].
  { exists g2. by eapply evolves_app. }
  clear He1 Hv Hv' Hq1 Hq2.
  apply orElse_cases in H1 as [H1|(v1 & v2 & s4 & -> & H1 & Hr)].
  - destruct (deleteInstance_evolves scope false s3 g1 _ _ _ H1 Hh) as (-> & g2 & He & _). by exists g2.
  - apply Forall_app in Hh as [Hh _].
    destruct (deleteInstance_evolves scope false s3 g1 _ _ _ H1 Hh) as (-> & g2 & He & Hg).
    apply runs_mbind in Hr as (w1 & w2 & ? & s5 & -> & H2 & Hr). rinv. exists g2.
    rewrite app_nil_r. eapply evolves_app; [exact He|].
    eapply removeMachineFinalizer_evolves; [right; by apply Hg|exact H2].
Qed.

(** ** Lives of a machine *)

(** One step of the life of a machine of the project of [c] in the region [reg]:
    a normal reconciliation of an object that is not being deleted, a deletion
    of an object whose policy is to keep only if [keep] allows it, each with a
    scope of its own, or an edit of the object by others. *)
Inductive mstep (c : Client) (reg : string) (keep : bool) : OVHMachine -> trace -> OVHMachine -> Prop :=
| mstep_normal scope o t r o' :
    MScope_OVHClient scope = c -> region_of scope = reg ->
    DeletionTimestamp (OVHMachine_ObjectMeta o) = None ->
    runs (MachineReconcileNormal scope o) t (r, o') -> mstep c reg keep o t o'
| mstep_delete scope o t r o' :
    MScope_OVHClient scope = c -> region_of scope = reg ->
    (machineKeepPolicy o = true -> keep = true) ->
    runs (MachineReconcileDelete scope o) t (r, o') -> mstep c reg keep o t o'
| mstep_edit o o' :
    OVHMachine_Status o' = OVHMachine_Status o -> hasMFinalizer o' = hasMFinalizer o ->
    MSpec_ProviderID (OVHMachine_Spec o') = MSpec_ProviderID (OVHMachine_Spec o) ->
    mstep c reg keep o [] o'.

Inductive mlife (c : Client) (reg : string) (keep : bool) : OVHMachine -> trace -> OVHMachine -> Prop :=
| mlife_nil o : mlife c reg keep o [] o
| mlife_step o t o' t' o'' :
    mstep c reg keep o t o' -> mlife c reg keep o' t' o'' -> mlife c reg keep o (t ++ t') o''.

Lemma csteps_keep reg (k keep : bool) a l a' :
  (k = true -> keep = true) -> csteps reg k a l a' -> csteps reg keep a l a'.
Proof.
  intros Hk. induction 1 as [a|a l a' m b Hs _ IH]; [constructor|].
  econstructor; [|exact IH]. destruct Hs; try by constructor. constructor. naive_solver.
Qed.

Lemma mstep_csteps c reg keep o t o' g :
  mstep c reg keep o t o' -> Forall (honest c) t ->
  exists g', csteps reg keep (abs_of o g) (actions c t) (abs_of o' g').
Proof.
  intros Hs Hh. destruct Hs as [scope o t r o' <- <- Hts Hr|scope o t r o' <- <- Hk Hr|o o' Hst Hf Hp].
  - by eapply MachineReconcileNormal_evolves in Hr.
  - destruct (MachineReconcileDelete_evolves scope o g t r o' Hr Hh) as [g' He].
    exists g'. by eapply csteps_keep.
  - exists g. replace (abs_of o' g) with (abs_of o g); [constructor|].
    unfold abs_of, instanceID. by rewrite Hst, Hf, Hp.
Qed.

Lemma mlife_csteps c reg keep o t o' g :
  mlife c reg keep o t o' -> Forall (honest c) t ->
  exists g', csteps reg keep (abs_of o g) (actions c t) (abs_of o' g').
Proof.
  intros Hl. revert g. induction Hl as [o|o t o1 t' o2 Hs _ IH]; intros g Hh.
  - exists g. constructor.
  - apply Forall_app in Hh as [Hh1 Hh2].
    destruct (mstep_csteps _ _ _ _ _ _ g Hs Hh1) as [g1 H1]. destruct (IH g1 Hh2) as [g2 H2].
    exists g2. rewrite actions_app. by eapply csteps_app.
Qed.

Definition fresh (o : OVHMachine) : Prop :=
  instanceID o = "" /\ MStatus_Ready (OVHMachine_Status o) = false.

Lemma fresh_inv o : fresh o -> contract_inv [] (abs_of o ∅).
Proof.
  intros [Hid Hr].
  assert (Hacc : forall id, accounted [] id) by by intros id [|x h1] h2 Heq.
  split; cbn; try by auto. by rewrite Hr.
Qed.

Lemma mlife_inv c reg o t o' :
  fresh o -> mlife c reg false o t o' -> Forall (honest c) t ->
  exists g, contract_inv (actions c t) (abs_of o' g).
Proof.
  intros Ho Hl Hh. destruct (mlife_csteps c reg false o t o' ∅ Hl Hh) as [g Hs].
  exists g. exact (csteps_inv reg [] _ _ _ (fresh_inv o Ho) Hs).
Qed.

(** C5.  The reconciler implements the contract: over a whole life of a machine, of
    normal reconciliations, deletions and edits in any order and with any
    answers of OVH in which identifiers are honest, what is visible of the
    machine moves by contract steps, whose labels are exactly the instances the
    trace creates, deletes and finds missing, in this order. *)
Theorem machine_refines_contract c reg keep o t o' g :
  mlife c reg keep o t o' -> Forall (honest c) t ->
  exists g', csteps reg keep (abs_of o g) (actions c t) (abs_of o' g').
Proof. apply mlife_csteps. Qed.


(** At every point of such a life the status records every live instance: an
    instance OVH created for the machine and that was neither deleted nor found
    missing since is the one the status records, so there is at most one. *)
Theorem live_instance_is_recorded c reg o t o' :
  fresh o -> mlife c reg false o t o' -> Forall (honest c) t ->
  forall h1 id h2, actions c t = h1 ++ Created id :: h2 ->
    Deleted id ∉ h2 -> Unknown id ∉ h2 -> instanceID o' = id.
Proof.
  intros Ho Hl Hh h1 id h2 Heq Hd Hu. destruct (mlife_inv c reg o t o' Ho Hl Hh) as [g Hi].
  destruct (inv_accounted _ _ Hi id) as [->|Hacc]; [done|]. by destruct (Hacc h1 h2 Heq).
Qed.

(** A machine is ready only with a provider identifier, at every point of such a
    life. *)
Theorem ready_has_providerID c reg o t o' :
  fresh o -> mlife c reg false o t o' -> Forall (honest c) t ->
  MStatus_Ready (OVHMachine_Status o') = true -> MSpec_ProviderID (OVHMachine_Spec o') <> "".
Proof.
  intros Ho Hl Hh Hr. destruct (mlife_inv c reg o t o' Ho Hl Hh) as [g Hi].
  exact (inv_ready _ _ Hi Hr).
Qed.
End refinement.

(** ** Witnesses *)

(** A machine is created, observed ACTIVE and deleted. *)
Definition birth : trace * (outcome * OVHMachine) :=
  exec (creating_env (stocked [])) (MachineReconcileNormal worker (demo_machine false "")) tt.
Definition growth : trace * (outcome * OVHMachine) :=
  exec (demo_env healthy) (MachineReconcileNormal worker birth.2.2) tt.
Definition doomed : OVHMachine :=
  growth.2.2 {{ OVHMachine_ObjectMeta := demo_meta "m0" true [MachineFinalizer] }}.
Definition death : trace * (outcome * OVHMachine) :=
  exec (demo_env (stocked [])) (MachineReconcileDelete worker doomed) tt.

Lemma demo_mlife keep :
  mlife demo_client "GRA7" keep (demo_machine false "")
    (birth.1 ++ growth.1 ++ [] ++ death.1 ++ []) death.2.2.
Proof.
  eapply mlife_step; [apply (mstep_normal _ _ _ worker _ _ birth.2.1); try reflexivity;
    rewrite <- surjective_pairing; apply exec_runs|].
  eapply mlife_step; [apply (mstep_normal _ _ _ worker _ _ growth.2.1); try reflexivity;
    rewrite <- surjective_pairing; apply exec_runs|].
  eapply mlife_step; [apply (mstep_edit _ _ _ growth.2.2 doomed); reflexivity|].
  eapply mlife_step; [apply (mstep_delete _ _ _ worker _ _ death.2.1); try reflexivity;
    [discriminate|rewrite <- surjective_pairing; apply exec_runs]|].
  constructor.
Qed.

Lemma demo_mlife_up keep :
  mlife demo_client "GRA7" keep (demo_machine false "") (birth.1 ++ growth.1 ++ []) growth.2.2.
Proof.
  eapply mlife_step; [apply (mstep_normal _ _ _ worker _ _ birth.2.1); try reflexivity;
    rewrite <- surjective_pairing; apply exec_runs|].
  eapply mlife_step; [apply (mstep_normal _ _ _ worker _ _ growth.2.1); try reflexivity;
    rewrite <- surjective_pairing; apply exec_runs|].
  constructor.
Qed.

Ltac honest_run := vm_compute; repeat (constructor; [first [exact I | reflexivity | discriminate]|]); constructor.

Lemma machine_refines_contract_witness :
  exists g', csteps "GRA7" false (abs_of (demo_machine false "") ∅)
    [Created "i-1"; Deleted "i-1"; Unknown "i-1"] (abs_of death.2.2 g').
Proof.
  refine (machine_refines_contract demo_client "GRA7" false (demo_machine false "") _ death.2.2 ∅
            (demo_mlife false) _).
  honest_run.
Defined.


Lemma live_instance_is_recorded_witness : instanceID growth.2.2 = "i-1".
Proof.
  refine (live_instance_is_recorded demo_client "GRA7" (demo_machine false "") _ growth.2.2
            _ (demo_mlife_up false) _ [] "i-1" [] _ _ _).
  - split; reflexivity.
  - honest_run.
  - reflexivity.
  - set_solver.
  - set_solver.
Defined.

Lemma ready_has_providerID_witness : MSpec_ProviderID (OVHMachine_Spec growth.2.2) <> "".
Proof.
  refine (ready_has_providerID demo_client "GRA7" (demo_machine false "") _ growth.2.2
            _ (demo_mlife_up false) _ _).
  - split; reflexivity.
  - honest_run.
  - reflexivity.
Defined.
