(* ===== verification/World.v ===== *)
(** * World: programs run against a world, and an interface to an OVH project

    [run h p w] runs a program against a handler over a world and answers the
    world it leaves.  The class [OvhProject] states what a project that answers
    well promises about instances; the theorems on progress are proved against
    it, and [BootingProject] is an instance. *)
From S2P Require Import Prelude.
From S2P Require Import GoStrings.
From S2P Require Import GoErrors.
From S2P Require Import OvhTypes.
From S2P Require Import K8sTypes.
From S2P Require Import ApiV1alpha2.
From S2P Require Import Effects.
From S2P Require Import OvhClient.
From S2P Require Import OvhClientSpec.
From S2P Require Import Hoare.
From S2P Require Import CapiLib.
From S2P Require Import ClusterController.
From S2P Require Import MachineController.
From S2P Require Import Demo.
From S2P Require Import MachineSpec.
From S2P Require Import Idempotence.
#[local] Open Scope Z_scope.

(** ** Running against a world *)

Fixpoint run {W A} (h : handler W) (p : prog A) (w : W) : A * W :=
  match p with
  | Ret a => (a, w)
  | Vis r k => let '(x, w') := h _ w r in run h (k x) w'
  end.

(** The handler answers the events of [t] in this order, from [w] to [w']. *)
Fixpoint answers {W} (h : handler W) (w : W) (t : trace) (w' : W) : Prop :=
  match t with
  | [] => w' = w
  | Ev r x :: t => exists w1, h _ w r = (x, w1) /\ answers h w1 t w'
  end.

Section run.
Context {W : Type} (h : handler W).

Lemma answers_app w t1 t2 w' :
  answers h w (t1 ++ t2) w' <-> exists w1, answers h w t1 w1 /\ answers h w1 t2 w'.
Proof.
  revert w. induction t1 as [|[X r x] t1 IH]; intros w; cbn [app answers].
  - split; [by exists w|]. by intros (w1 & -> & ?).
  - split.
    + intros (w1 & Hw & (w2 & H1 & H2)%IH). exists w2. split; [by exists w1|done].
    + intros (w2 & (w1 & Hw & H1) & H2). exists w1. split; [done|]. apply IH. by exists w2.
Qed.

(** A run against a world is a run whose events the handler answers. *)
Lemma run_answers {A} (p : prog A) w a w' :
  run h p w = (a, w') <-> exists t, runs p t a /\ answers h w t w'.
Proof.
  revert w. induction p as [b|X r k IH]; intros w; cbn [run runs].
  - split; [intros [= -> ->]; by exists []|]. by intros (t & [-> ->] & ->).
  - destruct (h X w r) as [x w1] eqn:Hw. rewrite IH. split.
    + intros (t & Hr & Ha). exists (Ev r x :: t). split; [by exists x, t|by exists w1].
    + intros (t & (y & t' & -> & Hr) & (w2 & Hy & Ha)). rewrite Hw in Hy.
      injection Hy as <- <-. by exists t'.
Qed.

Lemma run_runs {A} (p : prog A) w :
  exists t, runs p t (run h p w).1 /\ answers h w t (run h p w).2.
Proof. apply run_answers. by destruct (run h p w). Qed.

(** What a program returns is determined by the world. *)
Lemma answers_run {A} (p : prog A) w t a w' :
  runs p t a -> answers h w t w' -> (run h p w).1 = a /\ (run h p w).2 = w'.
Proof.
  intros Hr Ha. assert (Hrun : run h p w = (a, w')) by (apply run_answers; eauto).
  by rewrite Hrun.
Qed.

Lemma run_bind {A B} (p : prog A) (f : A -> prog B) w :
  run h (pbind p f) w = let '(a, w') := run h p w in run h (f a) w'.
Proof.
  revert w. induction p as [a|X r k IH]; intros w; [done|]. cbn [run pbind].
  destruct (h X w r) as [x w']. apply IH.
Qed.

(** A call that succeeds at once is not retried. *)
Lemma run_retry_ok {T} op (r : req (gores T)) w x :
  (h _ w r).1 = Ok x -> run h (retryWithBackoff op (call r)) w = (Ok x, (h _ w r).2).
Proof.
  intros Hx. unfold retryWithBackoff, maxRetries. cbn [retry_from]. rewrite run_bind.
  cbn [call run]. destruct (h _ w r) as [y w']. cbn in Hx |- *. by subst y.
Qed.

(** Calls of a class [E] that move the world along a preorder. *)
Lemma answers_preorder (R : W -> W -> Prop) (E : event -> Prop) w t w' :
  (forall w, R w w) -> (forall w1 w2 w3, R w1 w2 -> R w2 w3 -> R w1 w3) ->
  (forall X (r : req X) w, E (Ev r (h _ w r).1) -> R w (h _ w r).2) ->
  Forall E t -> answers h w t w' -> R w w'.
Proof.
  intros Hrefl Htrans HE Ht. revert w. induction Ht as [|[X r x] t He _ IH]; intros w; cbn [answers].
  - by intros ->.
  - intros (w1 & Hw & Ha). apply (Htrans _ w1); [|by apply IH].
    specialize (HE X r w). rewrite Hw in HE. by apply HE.
Qed.
End run.

(** ** The promises of a project about instances *)

(** The event neither creates nor deletes an instance. *)
Definition keeps_instances (c : Client) (e : event) : Prop :=
  no_post_on (instanceCollection c) e /\ forall id, no_delete_on (instancePath c id) e.

Class OvhProject {W} (h : handler W) (c : Client) := {
  (** the instance exists; the rounds before it is ACTIVE; a bound on them *)
  has : W -> string -> Prop;
  left : W -> string -> nat;
  boot : nat;
  (** the passing of time between two reconciliations *)
  tick : W -> W;
  (** the world may change by itself, and does not lose instances *)
  later : W -> W -> Prop;
  later_refl w : later w w;
  later_trans w1 w2 w3 : later w1 w2 -> later w2 w3 -> later w1 w3;
  later_has w w' id : later w w' -> has w id -> has w' id /\ (left w' id <= left w id)%nat;
  left_boot w id : has w id -> (left w id <= boot)%nat;
  tick_has w id : has w id -> has (tick w) id /\ (left (tick w) id <= pred (left w id))%nat;
  (** requests *)
  other_later {X} (r : req X) w :
    keeps_instances c (Ev r (h _ w r).1) -> later w (h _ w r).2;
  get_has w id : has w id ->
    exists i, (h _ w (ApiGet (api c) (instancePath c id) TInstance)).1 = Ok i /\
      Instance_ID i = id /\ (left w id = 0%nat -> Instance_Status i = InstanceStatusActive);
  list_has w :
    exists l, (h _ w (ApiGet (api c) (listPath c) TInstances)).1 = Ok l /\
      forall i, i ∈ l -> Instance_ID i <> "" /\ has w (Instance_ID i) /\
        (left w (Instance_ID i) = 0%nat -> Instance_Status i = InstanceStatusActive);
  create_has w opts :
    let answer := h _ w (ApiPost (api c) (instanceCollection c) (BCreateInstance opts) TInstance) in
    exists i, answer.1 = Ok i /\ Instance_ID i <> "" /\ has answer.2 (Instance_ID i);
}.

Section project.
Context {W} (h : handler W) (c : Client) `{!OvhProject h c}.

Lemma answers_later w t w' :
  Forall (keeps_instances c) t -> answers h w t w' -> later w w'.
Proof.
  apply answers_preorder; [exact later_refl|exact later_trans|]. intros X r w1. apply other_later.
Qed.

Lemma run_GetInstance w id t r w' :
  has w id -> runs (GetInstance c id) t r -> answers h w t w' ->
  exists i, r = Ok i /\ Instance_ID i = id /\
    (left w id = 0%nat -> Instance_Status i = InstanceStatusActive).
Proof.
  intros Hw Hr Ha. destruct (get_has w id Hw) as (i & Hi & Hid & Hact).
  exists i. split_all. destruct (answers_run h _ _ _ _ _ Hr Ha) as [<- _].
  unfold GetInstance, apiGet. rewrite run_bind.
  change (projectPath c ("/instance/" +:+ id)) with (instancePath c id).
  by rewrite (run_retry_ok h _ _ w i Hi).
Qed.

Lemma run_FindInstanceByName w name t r w' :
  runs (FindInstanceByName c name) t r -> answers h w t w' ->
  exists oi, r = Ok oi /\
    forall i, oi = Some i -> Instance_ID i <> "" /\ has w (Instance_ID i) /\
      (left w (Instance_ID i) = 0%nat -> Instance_Status i = InstanceStatusActive).
Proof.
  intros Hr Ha. destruct (list_has w) as (l & Hl & Hin).
  exists (find_first (named name) l). destruct (answers_run h _ _ _ _ _ Hr Ha) as [<- _]. split.
  - unfold FindInstanceByName, ListInstances, apiGet. rewrite !run_bind.
    change (withRegion c (projectPath c "/instance")) with (listPath c).
    by rewrite (run_retry_ok h _ _ w l Hl).
  - intros i [Hi _]%find_first_in. by apply Hin.
Qed.

Lemma run_CreateInstance w opts t r w' :
  runs (CreateInstance c opts) t r -> answers h w t w' ->
  exists i, r = Ok i /\ Instance_ID i <> "" /\ has w' (Instance_ID i).
Proof.
  intros Hr Ha. destruct (create_has w opts) as (i & Hi & Hne & Hhas).
  exists i. destruct (answers_run h _ _ _ _ _ Hr Ha) as [<- <-].
  unfold CreateInstance, apiPost. rewrite run_bind.
  change (projectPath c "/instance") with (instanceCollection c).
  by rewrite (run_retry_ok h _ _ w i Hi).
Qed.
End project.

(** ** A project that boots its instance in two rounds *)

Inductive stage := Absent | Booting | Starting | Running.

Definition stage_left (s : stage) : nat :=
  match s with Absent | Running => 0 | Starting => 1 | Booting => 2 end.
Definition stage_tick (s : stage) : stage :=
  match s with Absent => Absent | Booting => Starting | _ => Running end.
Definition stage_instances (s : stage) : list Instance_ :=
  match s with
  | Absent => []
  | Running => [demo_instance "ACTIVE"]
  | _ => [demo_instance "BUILD"]
  end.

Definition booting_get (w : stage) {T} (path : string) (tg : target T) : gores T :=
  match tg in target T return gores T with
  | TInstances => Ok (stage_instances w)
  | TInstance => match stage_instances w with i :: _ => Ok i | [] => refused end
  | tg => on_get (stocked []) _ path tg
  end.

Definition booting_post (w : stage) {T} (path : string) (tg : target T) : gores T * stage :=
  match tg in target T return gores T * stage with
  | TInstance => if strEqb path (instanceCollection demo_client)
                 then (Ok (demo_instance "BUILD"), Booting) else (refused, w)
  | tg => (healthy_post _ path tg, w)
  end.

Definition booting_env : handler stage := fun X w r =>
  match r in req X return X * stage with
  | ApiGet _ path tg => (booting_get w path tg, w)
  | ApiPost _ path _ tg => booting_post w path tg
  | r => ((creating_env (stocked []) _ tt r).1, w)
  end.

Lemma booting_other {X} (r : req X) w :
  keeps_instances demo_client (Ev r (booting_env _ w r).1) -> (booting_env _ w r).2 = w.
Proof.
  intros [Hp _]. destruct r; try done. cbn in Hp |- *. destruct tg; try done.
  cbn. apply strEqb_neq in Hp. by rewrite Hp.
Qed.

#[export] Instance BootingProject : OvhProject booting_env demo_client.
Proof.
  refine {|
    has w id := w <> Absent /\ id = "i-1"; left w _ := stage_left w; boot := 2;
    tick := stage_tick; later w w' := w' = w |}.
  - done.
  - by intros w1 w2 w3 -> ->.
  - by intros w w' id ->.
  - intros w id _. destruct w; cbn; lia.
  - intros w id [Hw ->]. destruct w; cbn; split_and!; try done; lia.
  - intros X r w. apply booting_other.
  - intros w id [Hw ->]. destruct w; [done|..]; eexists; split_and!; done.
  - intros w. eexists. split; [reflexivity|]. intros i Hi.
    destruct w; [by apply not_elem_of_nil in Hi|..];
      apply list_elem_of_singleton in Hi as ->; split_and!; done.
  - intros w opts. eexists. cbn. rewrite strEqb_refl. split_and!; done.
Defined.
