(* ===== verification/MachineProgress.v ===== *)
(** * MachineProgress: repeated reconciliations make a machine ready

    On a project that answers well ([World.OvhProject]) a machine whose
    prerequisites are met gets its instance, and is ready once the instance is
    ACTIVE, for good: the first reconciliation records an instance, found or
    created; each later one observes it. *)
From S2P Require Import Prelude.
From S2P Require Import GoStrings.
From S2P Require Import GoErrors.
From S2P Require Import OvhTypes.
From S2P Require Import K8sTypes.
From S2P Require Import ApiV1alpha2.
From S2P Require Import Effects.
From S2P Require Import OvhClient.
From S2P Require Import OvhClientSpec.
From S2P Require Import Hoare.
From S2P Require Import Naming.
From S2P Require Import CapiLib.
From S2P Require Import ClusterController.
From S2P Require Import ClusterLB.
From S2P Require Import WorkloadNode.
From S2P Require Import MachineController.
From S2P Require Import Demo.
From S2P Require Import ClusterLBSpec.
From S2P Require Import MachineSpec.
From S2P Require Import Idempotence.
From S2P Require Import World.
#[local] Open Scope Z_scope.
#[local] Open Scope go_scope.

Section progress.
Context `{CapiLib} {W : Type} (h : handler W) (scope : MachineScope).
#[local] Abbreviation c := (MScope_OVHClient scope).
Context `{!OvhProject h c}.

(** ** What a machine waits for *)

(** The cluster is not paused and its infrastructure is ready, the machine has
    its finalizer and its bootstrap secret is named. *)
Record unblocked (o : OVHMachine) : Prop := {
  ub_not_paused : IsPaused (MScope_Cluster scope) (OVHMachine_ObjectMeta o) = false;
  ub_finalizer : ContainsFinalizer (OVHMachine_ObjectMeta o) MachineFinalizer = true;
  ub_infra : Cluster_InfrastructureProvisioned (MScope_Cluster scope) = Some true;
  ub_secret : is_Some (Machine_BootstrapDataSecretName (MScope_Machine scope));
}.

(** The flavor, the image, the bootstrap data and the SSH key resolve. *)
Record resolvable (o : OVHMachine) : Prop := {
  rs_flavor w : is_ok (run h (GetFlavorByName c (MSpec_FlavorName (OVHMachine_Spec o))) w).1 = true;
  rs_image w : is_ok (run h (GetImageByName c (MSpec_ImageName (OVHMachine_Spec o))) w).1 = true;
  rs_data w : exists d u, (run h (getBootstrapData scope) w).1 = Ok d /\ PrepareUserData d = Ok u;
  rs_key w : is_ok (run h (resolveSSHKey scope (OVHMachine_Spec o)) w).1 = true;
}.

(** ** One reconciliation *)

Ltac keeps_insts := first
  [ done
  | split; [|intros ?]; autounfold with paths; path_neq
  | intros ?; split; [|intros ?]; autounfold with paths; path_neq ].

Definition meta_is (m : ObjectMeta) (o : OVHMachine) : Prop := OVHMachine_ObjectMeta o = m.

(** Up to the lookup of the instance, and from there on. *)
Lemma normal_run_steps o t r o' :
  unblocked o -> runs (MachineReconcileNormal scope o) t (r, o') ->
  exists t0 t1 t2 t3 ri s1, t = t0 ++ t1 ++ t2 ++ t3 /\
    Forall (keeps_instances c) t0 /\ Forall (keeps_instances c) t3 /\
    runs (findInstance scope o) t1 (ri, s1) /\
    runs (match ri with
          | Ok (Some inst) => handleExistingInstance scope inst s1
          | Ok None => createInstance scope s1
          | Err e => mret (noRequeue, Some e) s1
          end) t2 (r, o').
Proof.
  intros [Hp Hf Hi [secret Hs]] Hr.
  unfold MachineReconcileNormal, observeMDuration, observeMachineStatus in Hr.
  apply runs_mbind in Hr as (t1 & t2 & start & s0 & -> & (? & ? & -> & -> & [= -> ->]) & Hr).
  apply runs_mbind in Hr as (t3 & t4 & out & s1 & -> & H1 & Hr).
  unfold machineNormalBody in H1.
  apply runs_mbind in H1 as (? & ? & ? & ? & -> & [-> [= -> ->]] & H1). cbn [app] in *.
  rewrite Hp, Hf, Hi, Hs in H1. cbn [andb negb default from_option] in H1.
  apply runs_mbind in H1 as (u1 & u2 & ri & s2 & -> & H1 & H2).
  eexists [_], u1, u2, t4, ri, s2. split; [by rewrite <- app_assoc|].
  split; [by repeat constructor|].
  assert (out = r /\ s1 = o' /\ Forall (keeps_instances c) t4) as (-> & -> & Ht4).
  { rinv. split_all; repeat constructor. }
  split_all. by destruct ri as [[inst|]|e].
Qed.

Lemma findInstance_recorded o w w' t ri s1 :
  instanceID o <> "" -> has w (instanceID o) ->
  runs (findInstance scope o) t (ri, s1) -> answers h w t w' ->
  Forall (keeps_instances c) t /\ s1 = o /\
  exists i, ri = Ok (Some i) /\ Instance_ID i = instanceID o /\
    (left w (instanceID o) = 0%nat -> Instance_Status i = InstanceStatusActive).
Proof.
  intros Hid Hhas Hr Ha. split.
  { refine (proj1 (keeps_run (keeps_instances c) any _ _ _ _ _ _ I Hr)).
    keeps_with keeps_insts. }
  unfold findInstance, orLookup at 1 in Hr.
  apply runs_mbind in Hr as (t1 & t2 & r1 & s & -> & H1 & Hr).
  unfold findByStatus, getMStatus in H1.
  apply runs_mbind in H1 as (? & ? & ? & ? & -> & [-> [= -> ->]] & H1). cbn [app] in *.
  change (MStatus_InstanceID (OVHMachine_Status o)) with (instanceID o) in H1.
  apply strEqb_neq in Hid. rewrite Hid in H1.
  apply runs_mbind in H1 as (u1 & u2 & rg & ? & -> & [H1 ->]%runs_lift & H2).
  rewrite <- app_assoc in Ha. apply answers_app in Ha as (w1 & Ha & _).
  destruct (run_GetInstance h c w (instanceID o) u1 rg w1 Hhas H1 Ha) as (i & -> & Hi & Hact).
  rinv. split; [done|]. exists i. by split_all.
Qed.

Lemma handle_meta inst m : keeps (fun _ => True) (meta_is m) (handleExistingInstance scope inst).
Proof. keeps_with ltac:(first [done | unfold meta_is in *; cbn in *; done]). Qed.
Lemma create_meta m : keeps (fun _ => True) (meta_is m) (createInstance scope).
Proof. keeps_with ltac:(first [done | unfold meta_is in *; cbn in *; done]). Qed.

Lemma meta_kept o t r o' :
  unblocked o -> runs (MachineReconcileNormal scope o) t (r, o') ->
  OVHMachine_ObjectMeta o' = OVHMachine_ObjectMeta o.
Proof.
  intros Hub Hr.
  apply normal_run_steps in Hr as (t0 & t1 & t2 & t3 & ri & s1 & -> & _ & _ & H1 & H2); [|done].
  assert (Hs1 : meta_is (OVHMachine_ObjectMeta o) s1).
  { apply (keeps_run _ _ _ _ _ _ _ (findInstance_upToID scope o)) in H1 as [_ [id ->]]; [done|].
    by eexists (MStatus_InstanceID _). }
  destruct ri as [[inst|]|e].
  - by apply (keeps_run _ _ _ _ _ _ _ (handle_meta inst _) Hs1) in H2 as [_ ?].
  - by apply (keeps_run _ _ _ _ _ _ _ (create_meta _) Hs1) in H2 as [_ ?].
  - by rinv.
Qed.

(** The reconciliation of a recorded instance that exists. *)
Lemma recorded_round o w :
  unblocked o -> instanceID o <> "" -> has w (instanceID o) ->
  let '(r, o', w') := run h (MachineReconcileNormal scope o) w in
  unblocked o' /\ instanceID o' = instanceID o /\ has w' (instanceID o) /\
  (left w' (instanceID o) <= left w (instanceID o))%nat /\
  (left w (instanceID o) = 0%nat ->
     MStatus_Ready (OVHMachine_Status o') = true /\
     MSpec_ProviderID (OVHMachine_Spec o') =
       ProviderIDFromInstance (region_of scope) (instanceID o)).
Proof.
  intros Hub Hid Hhas. destruct (run h _ w) as [[r o'] w'] eqn:Hrun.
  apply run_answers in Hrun as (t & Hr & Ha).
  pose proof (meta_kept o t r o' Hub Hr) as Hmeta.
  apply normal_run_steps in Hr as (t0 & t1 & t2 & t3 & ri & s1 & -> & Ht0 & Ht3 & H1 & H2); [|done].
  apply answers_app in Ha as (w0 & Ha0 & Ha). apply answers_app in Ha as (w1 & Ha1 & Ha).
  apply answers_app in Ha as (w2 & Ha2 & Ha3).
  pose proof (answers_later h c w t0 w0 Ht0 Ha0) as Hl0.
  destruct (later_has w w0 _ Hl0 Hhas) as [Hhas0 Hleft0].
  destruct (findInstance_recorded o w0 w1 t1 ri s1 Hid Hhas0 H1 Ha1) as (Hk1 & -> & i & -> & Hi & Hact).
  assert (Hk2 : Forall (keeps_instances c) t2).
  { refine (proj1 (keeps_run (keeps_instances c) any _ _ _ _ _ _ I H2)).
    keeps_with keeps_insts. }
  assert (Hl : later w0 w').
  { eapply later_trans; [exact (answers_later h c _ _ _ Hk1 Ha1)|].
    eapply later_trans; [exact (answers_later h c _ _ _ Hk2 Ha2)|].
    exact (answers_later h c _ _ _ Ht3 Ha3). }
  destruct (later_has w0 w' _ Hl Hhas0) as [Hhas' Hleft'].
  apply handleExistingInstance_run in H2 as (Ho1 & Ho2 & Ho3).
  split; [by destruct Hub; split; rewrite ?Hmeta|].
  split; [by rewrite Ho1|]. split; [done|]. split; [lia|].
  intros Hz. rewrite Hact in Ho2, Ho3 by lia. rewrite strEqb_refl in *. rewrite Ho2.
  destruct Ho3 as (Hp & _). by rewrite Hp, Hi.
Qed.

(** *** The first instance *)

Lemma createInstance_run o w t r o' w' :
  resolvable o -> runs (createInstance scope o) t (r, o') -> answers h w t w' ->
  instanceID o' <> "" /\ has w' (instanceID o').
Proof.
  intros [Hfl Him Hda Hkey] Hr Ha. unfold createInstance in Hr.
  apply runs_mbind in Hr as (? & ? & ? & ? & -> & [-> [= -> ->]] & Hr). cbn [app] in *.
  apply runs_mbind in Hr as (t1 & t2 & fl & ? & -> & [H1 ->]%runs_lift & Hr).
  apply answers_app in Ha as (w1 & Ha1 & Ha).
  specialize (Hfl w). rewrite (proj1 (answers_run h _ _ _ _ _ H1 Ha1)) in Hfl.
  destruct fl as [fl|]; [|done].
  apply runs_mbind in Hr as (t3 & t4 & im & ? & -> & [H2 ->]%runs_lift & Hr).
  apply answers_app in Ha as (w2 & Ha2 & Ha).
  specialize (Him w1). rewrite (proj1 (answers_run h _ _ _ _ _ H2 Ha2)) in Him.
  destruct im as [im|]; [|done].
  apply runs_mbind in Hr as (t5 & t6 & da & ? & -> & [H3 ->]%runs_lift & Hr).
  apply answers_app in Ha as (w3 & Ha3 & Ha).
  destruct (Hda w2) as (d & u & Hd & Hu). rewrite (proj1 (answers_run h _ _ _ _ _ H3 Ha3)) in Hd.
  subst da. rewrite Hu in Hr.
  apply runs_mbind in Hr as (t7 & t8 & key & ? & -> & [H4 ->]%runs_lift & Hr).
  apply answers_app in Ha as (w4 & Ha4 & Ha).
  specialize (Hkey w3). rewrite (proj1 (answers_run h _ _ _ _ _ H4 Ha4)) in Hkey.
  destruct key as [key|]; [|done]. clear -Hr Ha OvhProject0.
  unfold requestInstance in Hr.
  apply runs_mbind in Hr as (t1 & t2 & u0 & ? & -> & (? & ? & -> & -> & [= _ ->]) & Hr).
  apply runs_mbind in Hr as (t3 & t4 & ri & ? & -> & [H1 ->]%runs_lift & Hr).
  apply answers_app in Ha as (w1 & _ & Ha). apply answers_app in Ha as (w2 & Ha2 & Ha).
  destruct (run_CreateInstance h c _ _ _ _ _ H1 Ha2) as (i & -> & Hne & Hhas).
  unfold setMCondition, setMStatus in Hr. rinv. cbn [answers app] in Ha. by subst w'.
Qed.

(** Without a recorded instance or one to adopt, the lookup by name decides. *)
Lemma findInstance_unrecorded o w w' t ri s1 :
  instanceID o = "" -> MSpec_ExistingInstanceID (OVHMachine_Spec o) = "" ->
  runs (findInstance scope o) t (ri, s1) -> answers h w t w' ->
  s1 = o /\ exists oi, ri = Ok oi /\ Forall (keeps_instances c) t /\
    forall i, oi = Some i -> Instance_ID i <> "" /\ has w (Instance_ID i).
Proof.
  intros Hid Hadopt Hr Ha. unfold findInstance, orLookup, findByStatus, findByAdoption,
    getMStatus, getMSpec in Hr. unfold instanceID in Hid. rinv.
  rewrite Hid, strEqb_refl in *. rinv. rewrite Hadopt, strEqb_refl in *. rinv.
  unfold findByName in Hr. rinv. rewrite ?app_nil_r in *. cbn [app] in *.
  match goal with Hf : runs (FindInstanceByName _ _) _ _ |- _ =>
    destruct (run_FindInstanceByName h c _ _ _ _ _ Hf Ha) as (oi & -> & Hoi); rename Hf into Hfind end.
  split; [done|]. exists oi. split; [done|]. split.
  - refine (emits_run _ _ _ _ _ Hfind). keeps_with keeps_insts.
  - intros i Hi. by destruct (Hoi i Hi) as (? & ? & _).
Qed.

(** The first reconciliation records an instance: one it finds, or one it creates. *)
Lemma first_round o w :
  unblocked o -> resolvable o -> instanceID o = "" ->
  MSpec_ExistingInstanceID (OVHMachine_Spec o) = "" ->
  let '(r, o', w') := run h (MachineReconcileNormal scope o) w in
  unblocked o' /\ instanceID o' <> "" /\ has w' (instanceID o').
Proof.
  intros Hub Hres Hid Hadopt. destruct (run h _ w) as [[r o'] w'] eqn:Hrun.
  apply run_answers in Hrun as (t & Hr & Ha).
  pose proof (meta_kept o t r o' Hub Hr) as Hmeta.
  apply normal_run_steps in Hr as (t0 & t1 & t2 & t3 & ri & s1 & -> & Ht0 & Ht3 & H1 & H2); [|done].
  apply answers_app in Ha as (w0 & Ha0 & Ha). apply answers_app in Ha as (w1 & Ha1 & Ha).
  apply answers_app in Ha as (w2 & Ha2 & Ha3).
  split; [by destruct Hub; split; rewrite ?Hmeta|].
  enough (instanceID o' <> "" /\ has w2 (instanceID o')) as [Hne Hhas].
  { split; [done|]. by apply (later_has w2 w' _ (answers_later h c _ _ _ Ht3 Ha3)). }
  destruct (findInstance_unrecorded o w0 w1 t1 ri s1 Hid Hadopt H1 Ha1) as (-> & oi & -> & Hk1 & Hoi).
  destruct oi as [i|].
  - destruct (Hoi i eq_refl) as [Hne Hhas].
    assert (Hk2 : Forall (keeps_instances c) t2).
    { refine (proj1 (keeps_run (keeps_instances c) any _ _ _ _ _ _ I H2)).
      keeps_with keeps_insts. }
    apply handleExistingInstance_run in H2 as (Ho1 & _). rewrite Ho1. split; [done|].
    apply (later_has w1 w2 _ (answers_later h c _ _ _ Hk2 Ha2)).
    by apply (later_has w0 w1 _ (answers_later h c _ _ _ Hk1 Ha1)).
  - by eapply createInstance_run.
Qed.

(** ** Rounds *)

(** A reconciliation and the time to the next one. *)
Definition round (s : OVHMachine * W) : OVHMachine * W :=
  let '(_, o', w') := run h (MachineReconcileNormal scope s.1) s.2 in (o', tick w').

Fixpoint rounds (n : nat) (s : OVHMachine * W) : OVHMachine * W :=
  match n with O => s | S n => rounds n (round s) end.

(** The instance [id] is recorded, exists, and is ACTIVE in at most [n] rounds. *)
Definition growing (id : string) (n : nat) (s : OVHMachine * W) : Prop :=
  unblocked s.1 /\ id <> "" /\ instanceID s.1 = id /\ has s.2 id /\ (left s.2 id <= n)%nat.

Lemma growing_round id n s :
  growing id n s -> growing id (pred n) (round s) /\
  (n = 0%nat -> MStatus_Ready (OVHMachine_Status (round s).1) = true /\
     MSpec_ProviderID (OVHMachine_Spec (round s).1) = ProviderIDFromInstance (region_of scope) id).
Proof.
  destruct s as [o w]. intros (Hub & Hid & <- & Hhas & Hn). cbn [fst snd] in *.
  pose proof (recorded_round o w Hub Hid Hhas) as Hr. unfold round. cbn [fst snd].
  destruct (run h _ w) as [[r o'] w']. destruct Hr as (Hub' & Hid' & Hhas' & Hl & Hz).
  destruct (tick_has w' _ Hhas') as [Hhas2 Hl2]. split.
  - unfold growing. cbn [fst snd]. rewrite Hid'. split_and!; try done. lia.
  - intros ->. apply Hz. lia.
Qed.

Lemma growing_rounds id n k s :
  growing id n s -> growing id (n - k) (rounds k s).
Proof.
  revert n s. induction k as [|k IH]; intros n s Hs; cbn [rounds]; [by rewrite Nat.sub_0_r|].
  apply growing_round in Hs as [Hs _]. apply IH in Hs. by replace (n - S k)%nat with (pred n - k)%nat by lia.
Qed.

Lemma rounds_S n s : rounds (S n) s = round (rounds n s).
Proof. revert s. induction n as [|n IH]; intros s; [done|]. cbn [rounds] in *. by rewrite <- IH. Qed.

(** C11.  A machine becomes ready, and stays so: on a project that answers well, a
    machine that is not blocked and whose flavor, image, bootstrap data and key
    resolve is, after [boot + 2] reconciliations and ever after, ready with the
    provider identifier of one and the same instance, which exists. *)
Theorem machine_converges o w :
  unblocked o -> resolvable o -> instanceID o = "" ->
  MSpec_ExistingInstanceID (OVHMachine_Spec o) = "" ->
  exists id, id <> "" /\ forall n, (boot + 2 <= n)%nat ->
    let s := rounds n (o, w) in
    instanceID s.1 = id /\ has s.2 id /\ MStatus_Ready (OVHMachine_Status s.1) = true /\
    MSpec_ProviderID (OVHMachine_Spec s.1) = ProviderIDFromInstance (region_of scope) id.
Proof.
  intros Hub Hres Hid Hadopt. pose proof (first_round o w Hub Hres Hid Hadopt) as H1.
  assert (exists id, id <> "" /\ growing id boot (round (o, w))) as (id & Hne & Hg).
  { unfold round. cbn [fst snd]. destruct (run h _ w) as [[r o'] w']. destruct H1 as (Hub' & Hne & Hhas).
    exists (instanceID o'). split; [done|]. destruct (tick_has w' _ Hhas) as [Hhas' _].
    unfold growing. cbn [fst snd]. split_and!; try done. by apply left_boot. }
  exists id. split; [done|]. intros n Hn. cbv zeta.
  destruct n as [|[|n]]; [lia|lia|]. change (rounds (S (S n)) (o, w)) with (rounds (S n) (round (o, w))).
  rewrite rounds_S. pose proof (growing_rounds id boot n _ Hg) as Hgn.
  replace (boot - n)%nat with 0%nat in Hgn by lia.
  apply growing_round in Hgn as [(_ & _ & Hi & Hh & _) Hrd]. destruct (Hrd eq_refl) as [? ?].
  by split_all.
Qed.
End progress.

(** ** Witness *)

(** On the booting project, a machine whose creation has not been requested. *)
Lemma machine_converges_witness :
  MStatus_Ready (OVHMachine_Status
    (rounds booting_env (demo_machine_scope false) 2 (demo_machine false "", Absent)).1) = false /\
  exists id, id <> "" /\ forall n, (4 <= n)%nat ->
    let s := rounds booting_env (demo_machine_scope false) n (demo_machine false "", Absent) in
    instanceID s.1 = id /\ has s.2 id /\ MStatus_Ready (OVHMachine_Status s.1) = true /\
    MSpec_ProviderID (OVHMachine_Spec s.1) =
      ProviderIDFromInstance (region_of (demo_machine_scope false)) id.
Proof.
  split; [vm_compute; reflexivity|].
  refine (machine_converges booting_env (demo_machine_scope false) (demo_machine false "") Absent _ _ _ _).
  - split; try reflexivity. by eexists.
  - split; intros w.
    + by destruct w; vm_compute.
    + by destruct w; vm_compute.
    + exists "#cloud-config", "#cloud-config". split; [by destruct w|reflexivity].
    + by destruct w; vm_compute.
  - reflexivity.
  - reflexivity.
Defined.
