(* ===== verification/ClusterProgress.v ===== *)
(** * ClusterProgress: repeated reconciliations make a cluster ready

    [answers_well] says what a healthy project answers to one request, and
    [balancer_appears] that a created balancer is listed.  A cluster whose
    specification is complete gets its finalizer in a first reconciliation,
    records its load balancer in the next one all of whose answers are good,
    and is ready, with an endpoint, after the one that follows, for good.  The
    class [GoodProject] states the assumptions as an interface; [GrowingProject]
    is an instance. *)
From S2P Require Import Prelude.
From S2P Require Import GoStrings.
From S2P Require Import GoErrors.
From S2P Require Import OvhTypes.
From S2P Require Import K8sTypes.
From S2P Require Import ApiV1alpha2.
From S2P Require Import Effects.
From S2P Require Import OvhClient.
From S2P Require Import OvhClientSpec.
From S2P Require Import Hoare.
From S2P Require Import Naming.
From S2P Require Import CapiLib.
From S2P Require Import ClusterController.
From S2P Require Import ClusterLB.
From S2P Require Import ClusterReconcile.
From S2P Require Import Demo.
From S2P Require Import World.
#[local] Open Scope Z_scope.
#[local] Open Scope go_scope.

(** ** Good answers *)

(** What the specification asks of the answers: the region of the network, the
    flavor of the balancer, and whether the balancer is to carry a floating IP. *)
Record wanted := { want_region : string; want_flavor : string; want_floating : bool }.

Definition carries_fip (lb : LoadBalancer) : bool :=
  match LoadBalancer_FloatingIP lb with
  | Some ref => negb (FloatingIPRef_IP ref =s? "")
  | None => false
  end.

(** The steps up to the load balancer decode their answers into one of these;
    failure domains, security groups and DNS may fail. *)
Definition needed_get {T} (tg : target T) : bool :=
  match tg with
  | TStrings | TPrivateNetwork | TSubnets | TLBFlavors | TLoadBalancer | TLoadBalancers
  | TListeners | TPools | THealthMonitors => true
  | _ => false
  end.
Definition needed_post {T} (tg : target T) : bool :=
  match tg with
  | TNil | TTask | TPrivateNetwork | TSubnet | TListener | TPool | THealthMonitor => true
  | _ => false
  end.

Section good.
Context (v : wanted).

Definition good_get {T} (tg : target T) : gores T -> Prop :=
  match tg in target T return gores T -> Prop with
  | TStrings => fun a => match a with Ok (_ :: _) => True | _ => False end
  | TPrivateNetwork => fun a =>
      match a with
      | Ok n => regionStatus n (want_region v) = "ACTIVE" /\
                OpenStackIDForRegion n (want_region v) <> ""
      | Err _ => False
      end
  | TSubnets => fun a =>
      match a with Ok l => Forall (fun s => Subnet_ID s <> "") l | Err _ => False end
  | TLBFlavors => fun a =>
      match a with
      | Ok l => existsb (fun f => EqualFold (LBFlavor_Name f) (want_flavor v)) l = true
      | Err _ => False
      end
  | TLoadBalancer => fun a =>
      match a with
      | Ok lb => LoadBalancer_ProvisioningStatus lb = LBProvisioningStatusActive /\
                 LoadBalancer_VIPAddress lb <> "" /\
                 (want_floating v = true -> carries_fip lb = true)
      | Err _ => False
      end
  | TLoadBalancers => fun a =>
      match a with Ok l => Forall (fun lb => LoadBalancer_ID lb <> "") l | Err _ => False end
  | _ => fun a => needed_get tg = true -> is_ok a = true
  end.

Definition good_post {T} (tg : target T) : gores T -> Prop :=
  match tg in target T return gores T -> Prop with
  | TPrivateNetwork => fun a =>
      match a with Ok n => PrivateNetwork_ID n <> "" | Err _ => False end
  | TSubnet => fun a => match a with Ok s => Subnet_ID s <> "" | Err _ => False end
  | _ => fun a => needed_post tg = true -> is_ok a = true
  end.

(** The needed requests succeed, networks and balancers are ACTIVE, the flavor
    exists, and identifiers are not empty. *)
Definition answers_well (e : event) : Prop :=
  match e with
  | Ev r x =>
      match r in req X return X -> Prop with
      | ApiGet _ _ tg => good_get tg
      | ApiPost _ _ _ tg => good_post tg
      | ApiDelete _ _ => fun a => is_ok a = true
      | _ => fun _ => True
      end x
  end.

Lemma good_get_ok {T} (tg : target T) e : needed_get tg = true -> ~ good_get tg (Err e).
Proof. intros Hn Hg. destruct tg; cbn in Hg, Hn; try done; by specialize (Hg Hn). Qed.
Lemma good_post_ok {T} (tg : target T) e : needed_post tg = true -> ~ good_post tg (Err e).
Proof. intros Hn Hg. destruct tg; cbn in Hg, Hn; try done; by specialize (Hg Hn). Qed.

(** A good call is not retried. *)
Lemma retry_good {T} op (rq : req (gores T)) t r :
  (forall e, ~ answers_well (Ev rq (Err e))) ->
  runs (retryWithBackoff op (call rq)) t r -> Forall answers_well t ->
  t = [Ev rq r] /\ answers_well (Ev rq r).
Proof.
  intros Hno (es & last & -> & _ & _ & _ & ->)%retryWithBackoff_runs Hg.
  destruct es as [|e es].
  - cbn [retry_trace] in *. apply Forall_cons in Hg as [Hg _].
    destruct last as [x|e]; [done|]. by destruct (Hno e).
  - cbn [retry_trace] in Hg. apply Forall_cons in Hg as [Hg _]. by destruct (Hno e).
Qed.

Lemma get_good c op path {T} (tg : target T) t r :
  needed_get tg = true ->
  runs (apiGet c op path tg) t r -> Forall answers_well t ->
  t = [Ev (ApiGet (api c) path tg) r] /\ exists x, r = Ok x /\ good_get tg (Ok x).
Proof.
  intros Hn Hr Hg. apply retry_good in Hr as [-> Hr]; [|by intros e; apply good_get_ok|done].
  split; [done|]. destruct r as [x|e]; [by exists x|]. by apply good_get_ok in Hr.
Qed.
Lemma post_good c op path b {T} (tg : target T) t r :
  needed_post tg = true ->
  runs (apiPost c op path b tg) t r -> Forall answers_well t ->
  t = [Ev (ApiPost (api c) path b tg) r] /\ exists x, r = Ok x /\ good_post tg (Ok x).
Proof.
  intros Hn Hr Hg. apply retry_good in Hr as [-> Hr]; [|by intros e; apply good_post_ok|done].
  split; [done|]. destruct r as [x|e]; [by exists x|]. by apply good_post_ok in Hr.
Qed.
End good.

(** The event, if it is a listing of the balancers, shows one called [name]; the
    event is a creation of a balancer. *)
Definition lists_balancer (c : Client) (name : string) (e : event) : Prop :=
  match e with
  | Ev r x =>
      match r in req X return X -> Prop with
      | ApiGet _ path tg =>
          match tg in target T return gores T -> Prop with
          | TLoadBalancers => fun a =>
              match a with
              | Ok l => path = lbCollection c ->
                        exists lb, lb ∈ l /\ LoadBalancer_Name lb = name
              | Err _ => True
              end
          | _ => fun _ => True
          end
      | _ => fun _ => True
      end x
  end.
Definition posts_balancer (c : Client) (e : event) : bool :=
  match e with Ev (ApiPost _ path _ _) _ => path =s? lbCollection c | _ => false end.

(** Once the creation of a balancer was sent, the listings show the name. *)
Fixpoint balancer_appears (c : Client) (name : string) (posted : bool) (t : trace) : Prop :=
  match t with
  | [] => True
  | e :: t =>
      (posted = true -> lists_balancer c name e) /\
      balancer_appears c name (posted || posts_balancer c e) t
  end.

Lemma balancer_appears_weaken c name b t :
  balancer_appears c name b t -> balancer_appears c name false t.
Proof.
  destruct b; [|done]. enough (forall b b' t, (b' = true -> b = true) ->
    balancer_appears c name b t -> balancer_appears c name b' t) as Hw by (by apply Hw).
  clear t. intros b b' t. revert b b'. induction t as [|e t IH]; intros b b' Hb; [done|].
  intros [H1 H2]. split; [intros Hb'; by apply H1, Hb|]. eapply IH; [|exact H2].
  destruct b, b'; cbn [orb]; try done. by specialize (Hb eq_refl).
Qed.

Lemma balancer_appears_app c name b t t' :
  balancer_appears c name b (t ++ t') ->
  balancer_appears c name b t /\ balancer_appears c name false t'.
Proof.
  revert b. induction t as [|e t IH]; intros b; cbn [app balancer_appears].
  - intros Ht. split; [done|]. by eapply balancer_appears_weaken.
  - intros [H1 [H2 H3]%IH]. done.
Qed.

(** ** The steps on good answers *)

Section steps.
Context `{CapiLib} (v : wanted) (scope : ClusterScope).
#[local] Abbreviation c := (CScope_OVHClient scope).
#[local] Abbreviation good := (Forall (answers_well v)).

(** Give the API calls of the context their answers. *)
Ltac good_calls :=
  repeat match goal with
  | Hg : good (_ ++ _) |- _ => apply Forall_app in Hg as [? ?]
  | Hr : runs (apiGet _ _ _ _) ?t _, Hg : good ?t |- _ =>
      let x := fresh "answer" in let Hx := fresh "Hanswer" in
      apply (get_good v) in Hr as [-> (x & -> & Hx)]; [|reflexivity|exact Hg]; clear Hg; cbn [wrapErr] in *
  | Hr : runs (apiPost _ _ _ _ _) ?t _, Hg : good ?t |- _ =>
      let x := fresh "answer" in let Hx := fresh "Hanswer" in
      apply (post_good v) in Hr as [-> (x & -> & Hx)]; [|reflexivity|exact Hg]; clear Hg; cbn [wrapErr] in *
  end.
(** The read of the state at the head of a run. *)
Ltac read_state Hr :=
  apply runs_mbind in Hr as (? & ? & ? & ? & -> & [-> [= -> ->]] & Hr); cbn [app] in *.
Ltac good_runs := repeat (rinv1 || good_calls).

Lemma credentials_good o t r o' :
  serviceName c <> "" -> runs (reconcileCredentials scope o) t (r, o') -> good t -> r = None.
Proof.
  intros Hs Hr Hg. unfold reconcileCredentials in Hr.
  apply runs_mbind in Hr as (t1 & t2 & e & s1 & -> & [H1 ->]%runs_lift & Hr).
  apply Forall_app in Hg as [Hg _]. unfold ValidateCredentials in H1.
  apply strEqb_neq in Hs. rewrite Hs in H1. good_runs.
  destruct answer; [done|]. by good_runs.
Qed.

(** *** Network *)

Definition networkID (o : OVHCluster) : string := CStatus_NetworkID (OVHCluster_Status o).
Definition subnetID (o : OVHCluster) : string := CStatus_SubnetID (OVHCluster_Status o).
Definition balancerID (o : OVHCluster) : string := CStatus_LoadBalancerID (OVHCluster_Status o).

Lemma ensureNetwork_good cfg reg o t r o' :
  runs (ensureNetwork scope cfg reg o) t (r, o') -> good t ->
  r = None /\ networkID o' <> "" /\ subnetID o' = subnetID o.
Proof.
  intros Hr Hg. unfold ensureNetwork, getStatus, setCondition, setStatus in Hr. rinv.
  destruct (_ =s? "") eqn:Hid in Hr; cbn [negb] in Hr; str_simpl; [|by rinv].
  destruct (_ =s? "") eqn:Hgiven in Hr; cbn [negb] in Hr; str_simpl; [|by rinv].
  unfold CreatePrivateNetwork in Hr. cbn [app] in *. by good_runs.
Qed.

Lemma ensureSubnet_good cfg reg o t r o' :
  NetConfig_SubnetCIDR cfg <> "" ->
  runs (ensureSubnet scope cfg reg o) t (r, o') -> good t ->
  r = None /\ subnetID o' <> "" /\ networkID o' = networkID o.
Proof.
  intros Hc Hr Hg. unfold ensureSubnet, getStatus, setStatus, ListSubnets, CreateSubnet in Hr. rinv.
  destruct (_ =s? "") eqn:Hid in Hr; cbn [negb] in Hr; str_simpl; [|by rinv].
  cbn [app] in *. good_runs. cbn [good_get] in *. destruct answer as [|sub subs].
  - apply strEqb_neq in Hc. rewrite Hc in Hr. destruct (subnetRange _) as [start end_]. by good_runs.
  - apply Forall_cons in Hanswer as [Hne _]. by rinv.
Qed.

(** What the specification says, as far as [v] and the steps depend on it. *)
Definition specified (o : OVHCluster) : Prop :=
  let sp := OVHCluster_Spec o in
  (exists cfg, CSpec_NetworkConfig sp = Some cfg /\ NetConfig_SubnetCIDR cfg <> "") /\
  CSpec_Region sp = want_region v /\ lbFlavorName sp = want_flavor v /\
  strEqb (LBConfig_FloatingNetworkID (CSpec_LoadBalancerConfig sp)) "" = negb (want_floating v).

Lemma network_good o t r o' :
  specified o -> runs (reconcileNetwork scope o) t (r, o') -> good t ->
  r = None /\ networkID o' <> "" /\ subnetID o' <> "".
Proof.
  intros ((cfg & Hcfg & Hcidr) & Hreg & _) Hr Hg.
  unfold reconcileNetwork, getSpec, getStatus in Hr. rinv. rewrite Hcfg, Hreg in Hr. cbn [app] in *.
  apply runs_mbind in Hr as (t1 & t2 & e & s1 & -> & H1 & Hr). apply Forall_app in Hg as [Hg1 Hg].
  destruct (ensureNetwork_good _ _ _ _ _ _ H1 Hg1) as (-> & Hnet & _). rinv. cbn [app] in *.
  unfold GetPrivateNetwork in *. good_runs. destruct Hanswer as [Hact _].
  rewrite Hact, strEqb_refl in Hr. cbn [negb] in Hr.
  apply runs_mbind in Hr as (t3 & t4 & e & s2 & -> & Hsn & Hr). good_calls.
  destruct (ensureSubnet_good _ _ _ _ _ _ Hcidr Hsn) as (-> & Hsub & Hsame); [done|].
  unfold networkReady, setCondition, setStatus in Hr. rinv. split_and!; [done| |done].
  change (networkID s2 <> ""). by rewrite Hsame.
Qed.

(** *** Load balancer *)

Lemma ensureListener_good lb name port p o t r o' :
  runs (ensureListener scope lb name port p o) t (r, o') -> good t -> r = None.
Proof.
  intros Hr Hg. unfold ensureListener, getStatus, FindListenerByName, ListListeners,
    CreateListener, setStatus in Hr. rinv. destruct (negb _) in Hr; cbn [app] in *; good_runs; [done|].
  destruct (find_first _ answer); by good_runs.
Qed.

Lemma ensurePool_good lb name p q o t r o' :
  runs (ensurePool scope lb name p q o) t (r, o') -> good t -> r = None.
Proof.
  intros Hr Hg. unfold ensurePool, getStatus, FindPoolByName, CreatePool, setStatus in Hr.
  rinv. destruct (negb _) in Hr; cbn [app] in *; good_runs; [done|].
  destruct (find_first _ answer); by good_runs.
Qed.

Lemma reconcileLBPort_good name port p q o t r o' :
  runs (reconcileLBPort scope name port p q o) t (r, o') -> good t -> r = None.
Proof.
  intros Hr Hg. unfold reconcileLBPort, getStatus in Hr. read_state Hr.
  apply runs_mbind in Hr as (t1 & t2 & e & s1 & -> & H1 & Hr). apply Forall_app in Hg as [Hg1 Hg].
  apply ensureListener_good in H1 as ->; [|done].
  apply runs_mbind in Hr as (t3 & t4 & e & s2 & -> & H2 & Hr). apply Forall_app in Hg as [Hg2 Hg].
  apply ensurePool_good in H2 as ->; [|done]. by rinv.
Qed.

(** The endpoint is known at the end. *)
Definition has_endpoint (o : OVHCluster) : Prop :=
  Host (CSpec_ControlPlaneEndpoint (OVHCluster_Spec o)) <> "".

Lemma lbReady_good host o t r o' :
  host <> "" -> runs (lbReady host o) t (r, o') ->
  r = (noRequeue, None) /\ has_endpoint o' /\ balancerID o' = balancerID o.
Proof.
  intros Hh Hr. unfold lbReady, setEndpoint, setCondition, setStatus in Hr. rinv.
  apply strEqb_neq in Hh as Hh'. unfold has_endpoint, balancerID. rewrite Hh'. cbn [negb andb].
  destruct (Host _ =s? "") eqn:He; split_and!; try done. by str_simpl.
Qed.

Lemma floating_good lb o t r o' :
  carries_fip lb = true -> runs (reconcileFloatingIP scope lb o) t (r, o') ->
  exists ip, r = Ok ip /\ ip <> "".
Proof.
  intros Hc Hr. unfold carries_fip in Hc. unfold reconcileFloatingIP, orElse at 1, fipOfLB in Hr.
  destruct (LoadBalancer_FloatingIP lb) as [ref|]; [|done].
  apply negb_true_iff in Hc. rewrite Hc in Hr. rinv. exists (FloatingIPRef_IP ref).
  split; [done|]. by apply strEqb_neq.
Qed.

Lemma specified_port name port p q :
  keeps (fun _ => True) specified (reconcileLBPort scope name port p q).
Proof. keeps_with ltac:(first [done | unfold specified in *; cbn in *; assumption]). Qed.
Lemma balancer_port name port p q id :
  (p, q) ∈ [(ListenerIDPtr, PoolIDPtr); (RegisterListenerIDPtr, RegisterPoolIDPtr)] ->
  keeps (fun _ => True) (fun o => balancerID o = id) (reconcileLBPort scope name port p q).
Proof.
  rewrite elem_of_cons, list_elem_of_singleton. intros [[= -> ->]|[= -> ->]];
    keeps_with ltac:(first [done | unfold balancerID in *; cbn in *; done]).
Qed.
Lemma balancer_fip lb id :
  keeps (fun _ => True) (fun o => balancerID o = id) (reconcileFloatingIP scope lb).
Proof. keeps_with ltac:(first [done | unfold balancerID in *; cbn in *; done]). Qed.

Lemma handleExistingLB_good lb o t r o' :
  specified o -> LoadBalancer_ProvisioningStatus lb = LBProvisioningStatusActive ->
  LoadBalancer_VIPAddress lb <> "" -> (want_floating v = true -> carries_fip lb = true) ->
  runs (handleExistingLB scope lb o) t (r, o') -> good t ->
  r = (noRequeue, None) /\ has_endpoint o' /\ balancerID o' = balancerID o.
Proof.
  intros Hsp Hact Hvip Hfip Hr Hg. unfold handleExistingLB in Hr.
  rewrite Hact, strEqb_refl in Hr. cbn [negb] in Hr.
  apply runs_mbind in Hr as (t1 & t2 & e & s1 & -> & H1 & Hr). apply Forall_app in Hg as [Hg1 Hg].
  pose proof (keeps_run _ _ _ _ _ _ _ (specified_port _ _ _ _) Hsp H1) as [_ Hsp1].
  pose proof (keeps_run _ _ _ _ _ _ _ (balancer_port apiServerListenerName apiServerLBPort
    ListenerIDPtr PoolIDPtr (balancerID o) ltac:(set_solver)) eq_refl H1) as [_ Hb1].
  apply reconcileLBPort_good in H1 as ->; [|done].
  apply runs_mbind in Hr as (t3 & t4 & e & s2 & -> & H2 & Hr). apply Forall_app in Hg as [Hg2 Hg].
  pose proof (keeps_run _ _ _ _ _ _ _ (specified_port _ _ _ _) Hsp1 H2) as [_ Hsp2].
  pose proof (keeps_run _ _ _ _ _ _ _ (balancer_port rke2RegisterListenerName rke2RegisterLBPort
    RegisterListenerIDPtr RegisterPoolIDPtr (balancerID o) ltac:(set_solver)) Hb1 H2) as [_ Hb2].
  apply reconcileLBPort_good in H2 as ->; [|done].
  destruct Hsp2 as (_ & _ & _ & Hf). unfold getSpec in Hr. read_state Hr.
  rewrite Hf in Hr. destruct (want_floating v); cbn [negb] in Hr.
  - apply runs_mbind in Hr as (t5 & t6 & ip & s3 & -> & H3 & Hr).
    pose proof (keeps_run _ _ _ _ _ _ _ (balancer_fip lb (balancerID o)) Hb2 H3) as [_ Hb3].
    apply floating_good in H3 as (ip' & -> & Hip); [|by apply Hfip].
    apply strEqb_neq in Hip as Hip'. rewrite Hip' in Hr. rewrite <- Hb3. by apply lbReady_good in Hr.
  - rewrite <- Hb2. by apply lbReady_good in Hr.
Qed.

Lemma find_first_existsb_true {A} (p : A -> bool) l :
  existsb p l = true -> exists x, find_first p l = Some x.
Proof. intros (x & Hin & Hp)%existsb_exists. by eapply find_first_exists; [apply list_elem_of_In|]. Qed.

(** Creating a balancer: the lookup or the first poll finds it. *)
Lemma findLoadBalancerByName_good name t r :
  runs (findLoadBalancerByName c name) t r -> good t ->
  exists l, t = [Ev (ApiGet (api c) (lbCollection c) TLoadBalancers) (Ok l)] /\
    r = Ok (find_first (fun lb => LoadBalancer_Name lb =s? name) l) /\
    forall lb, find_first (fun lb => LoadBalancer_Name lb =s? name) l = Some lb -> LoadBalancer_ID lb <> "".
Proof.
  intros Hr Hg. unfold findLoadBalancerByName in Hr. good_runs. rewrite app_nil_r in *. good_calls.
  exists answer. split_all. intros lb [Hin _]%find_first_in. cbn in Hanswer.
  rewrite Forall_forall in Hanswer. by apply Hanswer.
Qed.

Lemma CreateLoadBalancer_good opts t r :
  runs (CreateLoadBalancer c opts) t r -> good t ->
  balancer_appears c (CreateLoadBalancerOpts_Name opts) false t ->
  exists lb, r = Ok lb /\ LoadBalancer_ID lb <> "".
Proof.
  intros Hr Hg Happ. unfold CreateLoadBalancer in Hr. set (name := CreateLoadBalancerOpts_Name opts) in *.
  apply runs_bind in Hr as (t1 & t2 & ex & -> & H1 & Hr). apply Forall_app in Hg as [Hg1 Hg].
  destruct (findLoadBalancerByName_good _ _ _ H1 Hg1) as (l & -> & -> & Hid).
  destruct (find_first _ l) as [lb|] eqn:Hl.
  { destruct Hr as [-> ->]. exists lb. split; [done|]. by apply Hid. }
  apply runs_bind in Hr as (t3 & t4 & rp & -> & H2 & Hr). apply Forall_app in Hg as [Hg2 Hg].
  apply (post_good v) in H2 as [-> (u & -> & _)]; [|done|done].
  cbn [app balancer_appears posts_balancer orb] in Happ. rewrite strEqb_refl in Happ.
  destruct Happ as (_ & _ & Happ). unfold maxLookupAttempts in Hr. cbn [pollLoadBalancer] in Hr.
  apply runs_bind in Hr as (t5 & t6 & rf & -> & H3 & Hr). apply Forall_app in Hg as [Hg3 Hg].
  destruct (findLoadBalancerByName_good _ _ _ H3 Hg3) as (l' & -> & -> & Hid').
  cbn [app balancer_appears lists_balancer] in Happ. destruct Happ as [Happ _].
  destruct (Happ eq_refl eq_refl) as (lb & Hin & Hn).
  destruct (find_first_exists (fun lb => LoadBalancer_Name lb =s? name) l' lb Hin) as [lb' Hlb'].
  { by apply strEqb_eq. }
  rewrite Hlb' in Hr. destruct Hr as [-> ->]. exists lb'. split; [done|]. by apply Hid'.
Qed.

Lemma createLB_good flavorID osNetID subnet o t r o' :
  runs (createLB scope flavorID osNetID subnet o) t (r, o') -> good t ->
  balancer_appears c (loadBalancerName scope) false t ->
  snd r = None /\ balancerID o' <> "".
Proof.
  intros Hr Hg Happ. unfold createLB in Hr.
  apply runs_mbind in Hr as (t1 & t2 & ? & ? & -> & (? & ? & -> & -> & [= _ ->]) & Hr).
  apply runs_mbind in Hr as (t3 & t4 & rl & ? & -> & [H1 ->]%runs_lift & Hr).
  cbn [app] in *. apply Forall_cons in Hg as [_ Hg]. apply Forall_app in Hg as [Hg1 Hg].
  destruct Happ as [_ Happ]. apply balancer_appears_app in Happ as [Happ _].
  destruct (CreateLoadBalancer_good _ _ _ H1 Hg1 Happ) as (lb & -> & Hid).
  unfold setStatus in Hr. by rinv.
Qed.

Lemma createNewLB_good o t r o' :
  specified o -> networkID o <> "" -> subnetID o <> "" ->
  runs (createNewLB scope o) t (r, o') -> good t ->
  balancer_appears c (loadBalancerName scope) false t ->
  snd r = None /\ balancerID o' <> "".
Proof.
  intros (_ & Hreg & Hfl & _) Hnet Hsub Hr Hg Happ.
  unfold createNewLB, getSpec, getStatus in Hr. do 2 read_state Hr.
  unfold GetLBFlavorByName, ListLBFlavors in Hr.
  apply runs_mbind in Hr as (t1 & t2 & fl & s & -> & [H1 ->]%runs_lift & Hr).
  good_runs. cbn [good_get] in *. destruct (find_first_existsb_true _ _ Hanswer) as [f Hf].
  rewrite Hfl in *. rewrite Hf in *. rinv. cbn [app] in *. rewrite Hreg in Hr.
  assert (Hsn : (lbSubnetID (OVHCluster_Spec o) (OVHCluster_Status o) =s? "") = false).
  { unfold lbSubnetID. destruct (LBConfig_SubnetID _ =s? "") eqn:He; [by apply strEqb_neq|exact He]. }
  apply strEqb_neq in Hnet. unfold networkID in Hnet. rewrite Hsn, Hnet in Hr. cbn [orb] in Hr.
  destruct Happ as [_ Happ].
  apply runs_mbind in Hr as (t3 & t4 & net & s & -> & [Hn ->]%runs_lift & Hr).
  apply balancer_appears_app in Happ as [_ Happ].
  unfold GetPrivateNetwork in Hn. good_runs. destruct Hanswer0 as [_ Hos].
  apply strEqb_neq in Hos. rewrite Hos in Hr. by eapply createLB_good.
Qed.

(** A step of the load balancer keeps the network; adoption keeps a recorded balancer. *)
Definition networked (o : OVHCluster) : Prop :=
  specified o /\ networkID o <> "" /\ subnetID o <> "".

Lemma adoptExisting_good o t r o' :
  networked o -> runs (adoptExisting o) t (r, o') ->
  t = [] /\ networked o' /\ (balancerID o <> "" -> balancerID o' = balancerID o).
Proof.
  intros Hn [-> [= _ ->]]. split; [done|]. unfold networked, specified, networkID, subnetID in *.
  split; [by do 2 (case_match; cbn)|]. intros Hb%strEqb_neq. unfold balancerID in *.
  rewrite Hb, andb_false_r. by case_match.
Qed.

Lemma reconcileLoadBalancer_good o t r o' :
  networked o -> runs (reconcileLoadBalancer scope o) t (r, o') -> good t ->
  balancer_appears c (loadBalancerName scope) false t ->
  snd r = None /\ balancerID o' <> "" /\
  (balancerID o <> "" -> r = (noRequeue, None) /\ has_endpoint o').
Proof.
  intros Hn Hr Hg Happ. unfold reconcileLoadBalancer, getStatus in Hr.
  apply runs_mbind in Hr as (t1 & t2 & ? & o1 & -> & H1 & Hr).
  destruct (adoptExisting_good _ _ _ _ Hn H1) as (-> & (Hsp & Hnet & Hsub) & Hbal).
  cbn [app] in *. read_state Hr.
  change (CStatus_LoadBalancerID (OVHCluster_Status o1)) with (balancerID o1) in Hr.
  destruct (balancerID o1 =s? "") eqn:Hid; str_simpl.
  { destruct (createNewLB_good _ _ _ _ Hsp Hnet Hsub Hr Hg Happ) as [? ?].
    split_and!; [done..|]. intros Hne. by rewrite <- (Hbal Hne) in Hne. }
  unfold GetLoadBalancer in Hr.
  apply runs_mbind in Hr as (t1 & t3 & lb & s & -> & [H2 ->]%runs_lift & Hr).
  good_runs. destruct Hanswer as (Hact & Hvip & Hfip).
  destruct (handleExistingLB_good _ _ _ _ _ Hsp Hact Hvip Hfip Hr) as (-> & Hep & Hb); [done|].
  split_all. by rewrite Hb.
Qed.
(** *** The whole reconciliation *)

(** Specified, and if [b] with a recorded balancer; then with its network. *)
Definition begun (b : bool) (o : OVHCluster) : Prop :=
  specified o /\ (b = true -> balancerID o <> "").
Definition known (b : bool) (o : OVHCluster) : Prop :=
  networked o /\ (b = true -> balancerID o <> "").
(** Ready, with an endpoint and its balancer. *)
Definition settled (o : OVHCluster) : Prop :=
  CStatus_Ready (OVHCluster_Status o) = true /\ has_endpoint o /\ known true o.

Ltac kept := first [done | unfold begun, known, networked, specified, has_endpoint, networkID,
                             subnetID, balancerID in *; cbn in *; try case_match; cbn in *; done].

Lemma credentials_begun b : keeps (fun _ => True) (begun b) (reconcileCredentials scope).
Proof. keeps_with kept. Qed.
Lemma network_begun b : keeps (fun _ => True) (begun b) (reconcileNetwork scope).
Proof. keeps_with kept. Qed.
Lemma domains_known b : keeps (fun _ => True) (known b) (reconcileFailureDomains scope).
Proof. keeps_with kept. Qed.
Lemma groups_known b : keeps (fun _ => True) (known b) (reconcileSecurityGroups scope).
Proof. keeps_with kept. Qed.
Lemma adoptExisting_networked : keeps (fun _ => True) networked adoptExisting.
Proof. apply keeps_modify. intros o Ho. by destruct (adoptExisting_good o [] tt _ Ho ltac:(done)) as (_ & ? & _). Qed.
#[local] Hint Resolve adoptExisting_networked : keeps.
Lemma balancer_networked : keeps (fun _ => True) networked (reconcileLoadBalancer scope).
Proof. keeps_with kept. Qed.
Lemma dns_kept b :
  keeps (fun _ => True) (fun o => (b = true -> has_endpoint o) /\ known true o) (reconcileDNS scope).
Proof. keeps_with kept. Qed.

Lemma infrastructure_good b o t r o' :
  serviceName c <> "" -> begun b o -> runs (reconcileInfrastructure scope o) t (r, o') -> good t ->
  balancer_appears c (loadBalancerName scope) false t ->
  snd r = None /\ known true o' /\ (b = true -> settled o').
Proof.
  intros Hs Ho Hr Hg Happ. unfold reconcileInfrastructure in Hr.
  apply runs_mbind in Hr as (t1 & t2 & e & s1 & -> & H1 & Hr).
  apply Forall_app in Hg as [Hg1 Hg]. apply balancer_appears_app in Happ as [_ Happ].
  destruct (keeps_run _ _ _ _ _ _ _ (credentials_begun b) Ho H1) as [_ Hb1].
  rewrite (credentials_good _ _ _ _ Hs H1 Hg1) in Hr. clear Ho H1.
  apply runs_mbind in Hr as (t3 & t4 & e2 & s2 & -> & H1 & Hr).
  apply Forall_app in Hg as [Hg2 Hg]. apply balancer_appears_app in Happ as [_ Happ].
  destruct (keeps_run _ _ _ _ _ _ _ (network_begun b) Hb1 H1) as [_ [Hsp2 Hb2]].
  destruct (network_good _ _ _ _ (proj1 Hb1) H1 Hg2) as (-> & Hnet & Hsub).
  pose proof (conj (conj Hsp2 (conj Hnet Hsub)) Hb2 : known b s2) as Hk. clear Hb1 Hb2 Hsp2 Hnet Hsub H1.
  apply runs_mbind in Hr as (t5 & t6 & u & s3 & -> & H1 & Hr).
  apply Forall_app in Hg as [_ Hg]. apply balancer_appears_app in Happ as [_ Happ].
  destruct (keeps_run _ _ _ _ _ _ _ (domains_known b) Hk H1) as [_ Hk3]. clear Hk H1.
  apply runs_mbind in Hr as (t7 & t8 & e4 & s4 & -> & H1 & Hr).
  apply Forall_app in Hg as [_ Hg]. apply balancer_appears_app in Happ as [_ Happ].
  destruct (keeps_run _ _ _ _ _ _ _ (groups_known b) Hk3 H1) as [_ [Hk4 Hb4]]. clear Hk3 H1.
  apply runs_mbind in Hr as (t9 & t10 & [res err] & s5 & -> & H1 & Hr).
  apply Forall_app in Hg as [Hg5 Hg]. apply balancer_appears_app in Happ as [Happ _].
  destruct (keeps_run _ _ _ _ _ _ _ balancer_networked Hk4 H1) as [_ Hk5].
  destruct (reconcileLoadBalancer_good _ _ _ _ Hk4 H1 Hg5 Happ) as (Herr & Hbal & Hend).
  cbn [snd] in Herr. subst err. destruct (0 <? RequeueAfter res) eqn:Hreq.
  { rinv. split_and!; [done|done|]. intros Hb. by destruct (Hend (Hb4 Hb)) as [[= ->] _]. }
  apply runs_mbind in Hr as (t11 & t12 & e6 & s6 & -> & H2 & Hr).
  assert (Hk : (b = true -> has_endpoint s5) /\ known true s5).
  { split; [|by split]. intros Hb. by destruct (Hend (Hb4 Hb)) as [_ ?]. }
  destruct (keeps_run _ _ _ _ _ _ _ (dns_kept b) Hk H2) as [_ [He6 Hk6]].
  unfold markReady, setCondition, setStatus in Hr. rinv. split_and!; [done|done|].
  intros Hb. split_and!; [done|by apply He6|done].
Qed.

Definition meta_is (m : ObjectMeta) (o : OVHCluster) : Prop := OVHCluster_ObjectMeta o = m.
Lemma infrastructure_meta m : keeps (fun _ => True) (meta_is m) (reconcileInfrastructure scope).
Proof. keeps_with ltac:(first [done | unfold meta_is in *; repeat case_match; cbn; done]). Qed.

(** A cluster that is specified, not being deleted, and of which [b] tells
    whether its balancer is recorded and [f] whether it has its finalizer. *)
Definition underway (f b : bool) (o : OVHCluster) : Prop :=
  begun b o /\ DeletionTimestamp (OVHCluster_ObjectMeta o) = None /\
  (f = true -> ContainsFinalizer (OVHCluster_ObjectMeta o) ClusterFinalizer = true).

Lemma normal_good b o t r o' :
  serviceName c <> "" -> underway true b o -> runs (ReconcileNormal scope o) t (r, o') -> good t ->
  balancer_appears c (loadBalancerName scope) false t ->
  snd r = None /\ underway true true o' /\ (b = true -> settled o').
Proof.
  intros Hs (Hb & Hd & Hf) Hr Hg Happ. specialize (Hf eq_refl).
  unfold ReconcileNormal, normalBody in Hr.
  apply runs_mbind in Hr as (t1 & t2 & st & s1 & -> & (x & ? & -> & -> & [= -> ->]) & Hr).
  apply runs_mbind in Hr as (t3 & t4 & out & s2 & -> & H1 & Hr). read_state H1.
  rewrite Hf in H1. cbn [negb andb] in H1.
  unfold observeDuration, observeReady in Hr. rinv.
  apply Forall_cons in Hg as [_ Hg]. apply Forall_app in Hg as [Hg _].
  destruct Happ as [_ Happ]. apply balancer_appears_app in Happ as [Happ _].
  destruct (infrastructure_good b _ _ _ _ Hs Hb H1 Hg Happ) as (He & [[Hsp Hn] Hk] & Hset).
  destruct (keeps_run _ _ _ _ _ _ _ (infrastructure_meta _) eq_refl H1) as [_ Hm].
  split_and!; [done| |done]. unfold underway, begun. rewrite Hm. by split_and!.
Qed.

(** The reconciliation of a cluster without its finalizer adds it. *)
Lemma normal_unfinalized o t r o' :
  underway false false o -> ContainsFinalizer (OVHCluster_ObjectMeta o) ClusterFinalizer = false ->
  runs (ReconcileNormal scope o) t (r, o') -> r = (noRequeue, None) /\ underway true false o'.
Proof.
  intros (Hb & Hd & _) Hf Hr. unfold ReconcileNormal, normalBody, observeDuration, observeReady in Hr.
  rinv. rewrite Hf, Hd in *. cbn [negb andb] in *. rewrite bool_decide_true in * by done.
  rinv. split; [done|]. split_and!; [done| |intros _; apply ContainsFinalizer_Add].
  cbn. by rewrite AddFinalizer_only.
Qed.
End steps.

(** ** Projects that answer well *)

(** Every answer is good, and a project that has the balancer called [name]
    lists it. *)
Class GoodProject {W} (h : handler W) (v : wanted) (c : Client) (name : string) := {
  lists : W -> Prop;
  answer_good {X} (r : req X) w : answers_well v (Ev r (h _ w r).1);
  list_good {X} (r : req X) w : lists w -> lists_balancer c name (Ev r (h _ w r).1);
  lists_kept {X} (r : req X) w : lists w -> lists (h _ w r).2;
  lists_posted {X} (r : req X) w :
    posts_balancer c (Ev r (h _ w r).1) = true -> lists (h _ w r).2;
}.

Section converges.
Context `{CapiLib} {W : Type} (h : handler W) (v : wanted) (scope : ClusterScope).
#[local] Abbreviation c := (CScope_OVHClient scope).
Context `{!GoodProject h v c (loadBalancerName scope)}.

Lemma answers_good w t w' : answers h w t w' -> Forall (answers_well v) t.
Proof.
  revert w. induction t as [|[X r x] t IH]; intros w; [done|]. intros (w1 & Hw & Ha).
  constructor; [|by eapply IH]. pose proof (answer_good r w) as Hg. by rewrite Hw in Hg.
Qed.

Lemma answers_appear b w t w' :
  (b = true -> lists w) -> answers h w t w' -> balancer_appears c (loadBalancerName scope) b t.
Proof.
  revert b w. induction t as [|[X r x] t IH]; intros b w Hb; [done|]. intros (w1 & Hw & Ha).
  pose proof (list_good r w) as Hl. pose proof (lists_kept r w) as Hk.
  pose proof (lists_posted r w) as Hp. rewrite Hw in Hl, Hk, Hp. cbn [fst snd] in *.
  split; [by intros Hbt; apply Hl, Hb|]. apply (IH _ w1); [|done].
  intros [Hbt|Hpt]%orb_true_iff; [by apply Hk, Hb|by apply Hp].
Qed.

(** A reconciliation, and what happens to the world until the next one. *)
Context (pass : W -> W).
Definition cluster_round (s : OVHCluster * W) : OVHCluster * W :=
  let '(_, o', w') := run h (ReconcileNormal scope s.1) s.2 in (o', pass w').
Fixpoint cluster_rounds (n : nat) (s : OVHCluster * W) : OVHCluster * W :=
  match n with O => s | S n => cluster_rounds n (cluster_round s) end.

Lemma round_runs s :
  exists t r, runs (ReconcileNormal scope s.1) t (r, (cluster_round s).1) /\
    Forall (answers_well v) t /\ balancer_appears c (loadBalancerName scope) false t.
Proof.
  unfold cluster_round. destruct (run h _ _) as [[r o'] w'] eqn:Hrun.
  apply run_answers in Hrun as (t & Hr & Ha). exists t, r. split; [done|].
  split; [by eapply answers_good|by eapply answers_appear].
Qed.

Lemma round_underway b s :
  serviceName c <> "" -> underway v true b s.1 ->
  underway v true true (cluster_round s).1 /\ (b = true -> settled v (cluster_round s).1).
Proof.
  intros Hs Hu. destruct (round_runs s) as (t & r & Hr & Hg & Happ).
  by destruct (normal_good v scope b _ _ _ _ Hs Hu Hr Hg Happ) as (_ & ? & ?).
Qed.

Lemma rounds_settled n s :
  serviceName c <> "" -> underway v true true s.1 -> (1 <= n)%nat ->
  settled v (cluster_rounds n s).1.
Proof.
  intros Hs. revert s. induction n as [|n IH]; intros s Hu Hn; [lia|]. cbn [cluster_rounds].
  destruct (round_underway true s Hs Hu) as [Hu' Hset]. destruct n as [|n]; [by apply Hset|].
  apply IH; [done|lia].
Qed.

End converges.

(** ** Witness *)

(** A project whose balancer is listed once its creation has been requested. *)
Definition growing_get (created : bool) {T} (path : string) (tg : target T) : gores T :=
  match tg in target T return gores T with
  | TLoadBalancers => Ok (if created then [demo_lb "lb-1" "capi-test-lb" "active"] else [])
  | tg => healthy_get _ path tg
  end.
Definition growing_post {T} (path : string) (tg : target T) : gores T :=
  match tg in target T return gores T with
  | TSubnet => Ok demo_subnet
  | tg => healthy_post _ path tg
  end.
Definition growing_env : handler bool := fun X w r =>
  match r in req X return X * bool with
  | ApiGet _ path tg => (growing_get w path tg, w)
  | ApiPost _ path _ tg => (growing_post path tg, w || (path =s? lbCollection demo_client))
  | r => ((demo_env healthy _ tt r).1, w)
  end.

Definition demo_wanted : wanted :=
  {| want_region := "GRA7"; want_flavor := "small"; want_floating := false |}.

#[export] Instance GrowingProject :
  GoodProject growing_env demo_wanted demo_client (loadBalancerName demo_scope).
Proof.
  refine {| lists w := w = true |}.
  - intros X r w. destruct r; try exact I; [| |reflexivity].
    + match goal with tg : target _ |- _ => destruct tg end; cbn; try done;
        try (destruct w; repeat constructor; done).
    + match goal with tg : target _ |- _ => destruct tg end; done.
  - intros X r w ->. destruct r; try exact I. match goal with tg : target _ |- _ => destruct tg end; try exact I. intros _.
    exists (demo_lb "lb-1" "capi-test-lb" "active"). split; [by apply list_elem_of_singleton|reflexivity].
  - intros X r w ->. by destruct r.
  - intros X r w. destruct r; try done. cbn. intros ->. apply orb_true_r.
Defined.

(** From a cluster without its finalizer whose project has no balancer. *)
Definition fresh_object : OVHCluster :=
  (demo_object "net" false) {{ OVHCluster_ObjectMeta := demo_meta "test" false [] }}.

