(* ===== verification/Tenancy.v ===== *)
(** * Tenancy: machines and clusters that share one OVH project

    Instances are found by name, and every machine of every cluster of a project
    looks in the same listing.  Machines whose instance names differ never touch
    each other's instances, whatever the interleaving of their reconciliations
    and however stale the objects these start from; the names, which are the
    cluster's and the machine's joined by a hyphen, need not differ. *)
From S2P Require Import Prelude.
From S2P Require Import GoStrings.
From S2P Require Import GoErrors.
From S2P Require Import OvhTypes.
From S2P Require Import K8sTypes.
From S2P Require Import ApiV1alpha2.
From S2P Require Import Effects.
From S2P Require Import OvhClient.
From S2P Require Import OvhClientSpec.
From S2P Require Import Hoare.
From S2P Require Import Naming.
From S2P Require Import CapiLib.
From S2P Require Import ClusterController.
From S2P Require Import ClusterLB.
From S2P Require Import ClusterReconcile.
From S2P Require Import WorkloadNode.
From S2P Require Import MachineController.
From S2P Require Import Demo.
From S2P Require Import ClusterSafety.
From S2P Require Import ClusterDelete.
From S2P Require Import ClusterLBSpec.
From S2P Require Import MachineSpec.
From S2P Require Import Idempotence.
From S2P Require Import MachineContract.
From S2P Require Import World.
From S2P Require Import MachineProgress.
#[local] Open Scope Z_scope.
#[local] Open Scope go_scope.

(** ** Names are faithful *)

(** The project keeps the name an instance was created with: [nameOf id] is the
    name of the instance [id], in the answer to its creation and in listings. *)
Definition faithful (c : Client) (nameOf : string -> string) (e : event) : Prop :=
  match e with
  | Ev r x =>
      match r in req X return X -> Prop with
      | ApiPost _ path (BCreateInstance opts) tg =>
          match tg in target T return gores T -> Prop with
          | TInstance => fun answer =>
              match answer with
              | Ok inst => path = instanceCollection c ->
                           nameOf (Instance_ID inst) = CreateInstanceOpts_Name opts
              | Err _ => True
              end
          | _ => fun _ => True
          end
      | ApiGet _ path tg =>
          match tg in target T return gores T -> Prop with
          | TInstances => fun answer =>
              match answer with
              | Ok l => path = listPath c ->
                        Forall (fun i => nameOf (Instance_ID i) = Instance_Name i) l
              | Err _ => True
              end
          | _ => fun _ => True
          end
      | _ => fun _ => True
      end x
  end.

(** The lists that listings of instances, and of health monitors, answer. *)
Definition instances_listed (c : Client) (P : list Instance_ -> Prop) (e : event) : Prop :=
  match e with
  | Ev r x =>
      match r in req X return X -> Prop with
      | ApiGet _ path tg =>
          match tg in target T return gores T -> Prop with
          | TInstances => fun answer =>
              match answer with Ok l => path = listPath c -> P l | Err _ => True end
          | _ => fun _ => True
          end
      | _ => fun _ => True
      end x
  end.
Definition monitors_listed (P : list HealthMonitor -> Prop) (e : event) : Prop :=
  match e with
  | Ev r x =>
      match r in req X return X -> Prop with
      | ApiGet _ path tg =>
          match tg in target T return gores T -> Prop with
          | THealthMonitors => fun answer =>
              match answer with Ok l => P l | Err _ => True end
          | _ => fun _ => True
          end
      | _ => fun _ => True
      end x
  end.

(** The event deletes only instances called [name]. *)
Definition deletes_only (c : Client) (nameOf : string -> string) (name : string) (e : event) : Prop :=
  forall id, nameOf id <> name -> no_delete_on (instancePath c id) e.
Definition deletes_none (c : Client) (e : event) : Prop :=
  forall id, no_delete_on (instancePath c id) e.

(** An answered call ends with the request that was answered. *)
Lemma answered_call {T} op (rq : req (gores T)) t r x pre :
  runs (retryWithBackoff op (call rq)) t r -> wrapErr pre r = Ok x -> Ev rq (Ok x) ∈ t.
Proof.
  intros (es & last & -> & _ & _ & _ & ->)%retryWithBackoff_runs Hw.
  destruct (retry_result op last) as [y|] eqn:Hl; [|done]. injection Hw as ->.
  apply retry_result_ok in Hl as ->. destruct (retry_trace_last rq 0 es (Ok x)) as [t' ->]. set_solver.
Qed.

Lemma FindInstanceByName_listing c n t oi :
  runs (FindInstanceByName c n) t (Ok oi) ->
  exists l, Ev (ApiGet (api c) (listPath c) TInstances) (Ok l) ∈ t /\ oi = find_first (named n) l.
Proof.
  intros Hr. unfold FindInstanceByName, ListInstances, apiGet in Hr. rinv.
  destruct (wrapErr _ _) as [l|e] eqn:Hw in Hr; rinv; exists l.
  split; [|done]. rewrite !app_nil_r. by eapply answered_call.
Qed.

Section machine.
Context `{CapiLib} (scope : MachineScope) (nameOf : string -> string) (name : string).
#[local] Abbreviation c := (MScope_OVHClient scope).

(** The object records, and adopts, only an instance of its own name. *)
Definition owns (o : OVHMachine) : Prop := instanceID o = "" \/ nameOf (instanceID o) = name.
Definition adopts_own (o : OVHMachine) : Prop :=
  MSpec_ExistingInstanceID (OVHMachine_Spec o) = "" \/
  nameOf (MSpec_ExistingInstanceID (OVHMachine_Spec o)) = name.

Ltac spared := first [ done | intros ?; autounfold with paths; path_neq ].

(** ** One reconciliation *)

Lemma GetInstance_id id t inst :
  runs (GetInstance c id) t (Ok inst) -> Forall (honest c) t -> Instance_ID inst = id.
Proof. intros Hr Hh. by destruct (GetInstance_actions c id t _ Hr Hh) as [_ ?]. Qed.

Lemma FindInstanceByName_name n t inst :
  runs (FindInstanceByName c n) t (Ok (Some inst)) -> Forall (faithful c nameOf) t ->
  nameOf (Instance_ID inst) = n.
Proof.
  intros (l & Hl & Heq)%FindInstanceByName_listing Hf. rewrite Forall_forall in Hf.
  symmetry in Heq. apply find_first_in in Heq as [Hin Hn].
  specialize (Hf _ Hl eq_refl). rewrite Forall_forall in Hf. rewrite Hf by done. unfold named in Hn. by str_simpl.
Qed.

Lemma CreateInstance_name opts t inst :
  runs (CreateInstance c opts) t (Ok inst) -> Forall (faithful c nameOf) t ->
  nameOf (Instance_ID inst) = CreateInstanceOpts_Name opts.
Proof.
  intros Hr Hf. unfold CreateInstance, apiPost in Hr. rinv. rewrite !app_nil_r in *.
  rewrite Forall_forall in Hf.
  match goal with Hc : runs (retryWithBackoff _ _) _ _, Hw : Ok _ = wrapErr _ _ |- _ =>
    exact (Hf _ (answered_call _ _ _ _ _ _ Hc (eq_sym Hw)) eq_refl) end.
Qed.

Lemma findByStatus_owns o t r o' :
  owns o -> runs (findByStatus scope o) t (r, o') -> Forall (honest c) t ->
  owns o' /\ upToID o o' /\
  match r with Ok (Some inst) => nameOf (Instance_ID inst) = name | _ => True end.
Proof.
  intros Ho Hr Hh. assert (Hid : upToID o o) by by eexists (MStatus_InstanceID _).
  unfold findByStatus, getMStatus, setMStatus in Hr. rinv. case_run Hr; [done|].
  str_simpl. case_run Hr.
  - split_and!; [done..|]. rewrite (GetInstance_id _ _ _ Hr0 Hh). by destruct Ho.
  - case_run Hr; split_and!; try done; [by left|by eexists].
Qed.

Lemma findByAdoption_owns o t r o' :
  adopts_own o -> runs (findByAdoption scope o) t (r, o') -> Forall (honest c) t ->
  o' = o /\ match r with Ok (Some inst) => nameOf (Instance_ID inst) = name | _ => True end.
Proof.
  intros Ha Hr Hh. unfold findByAdoption, getMSpec in Hr. rinv. case_run Hr; [done|].
  str_simpl. rinv. rewrite ?app_nil_r in *. split; [done|].
  match goal with Hg : runs (GetInstance _ _) _ ?a |- _ => destruct a; [|done] end.
  rewrite (GetInstance_id _ _ _ Hr0 Hh). by destruct Ha.
Qed.

(** Whatever instance the lookups answer bears the machine's name. *)
Lemma findInstance_owns o t r o' :
  instanceName scope o = name -> owns o -> adopts_own o ->
  runs (findInstance scope o) t (r, o') -> Forall (honest c) t -> Forall (faithful c nameOf) t ->
  owns o' /\ instanceName scope o' = name /\
  match r with Ok (Some inst) => nameOf (Instance_ID inst) = name | _ => True end.
Proof.
  intros Hn Ho Ha Hr Hh Hf. unfold findInstance, orLookup in Hr.
  apply runs_mbind in Hr as (t1 & t2 & r1 & s1 & -> & H1 & Hr).
  apply Forall_app in Hh as [Hh1 Hh2]. apply Forall_app in Hf as [Hf1 Hf2].
  destruct (findByStatus_owns o t1 r1 s1 Ho H1 Hh1) as (Ho1 & [id ->] & Hr1).
  destruct r1 as [[inst|]|e]; [by rinv| |by rinv].
  apply runs_mbind in Hr as (t3 & t4 & r2 & s2 & -> & H2 & Hr). split_traces.
  apply findByAdoption_owns in H2 as [-> Hr2]; [|done..].
  destruct r2 as [[inst|]|e]; [by rinv| |by rinv].
  unfold findByName in Hr. rinv. rewrite app_nil_r in *. split_all.
  repeat case_match; simplify_eq; try done.
  rewrite <- Hn. by eapply FindInstanceByName_name.
Qed.

Lemma createInstance_owns o t r o' :
  instanceName scope o = name -> owns o ->
  runs (createInstance scope o) t (r, o') -> Forall (faithful c nameOf) t -> owns o'.
Proof.
  intros Hn Ho Hr Hf. unfold createInstance in Hr. rinv.
  repeat (case_run Hr; [|done]).
  unfold requestInstance, setMCondition, setMStatus in Hr. rinv. case_run Hr; [|done].
  right. rewrite <- Hn. split_traces.
  match goal with Hc : runs (CreateInstance _ ?opts) ?t (Ok ?i) |- _ =>
    exact (CreateInstance_name opts t i Hc Hf) end.
Qed.

Lemma MachineReconcileNormal_owns o t r o' :
  instanceName scope o = name -> owns o -> adopts_own o ->
  runs (MachineReconcileNormal scope o) t (r, o') ->
  Forall (honest c) t -> Forall (faithful c nameOf) t -> owns o'.
Proof.
  intros Hn Ho Ha Hr Hh Hf.
  unfold MachineReconcileNormal, observeMDuration, observeMachineStatus in Hr. rinv.
  split_traces.
  match goal with Hb : runs (machineNormalBody _ _) _ _ |- _ => unfold machineNormalBody in Hb;
    rename Hb into Hr end. rinv.
  destruct (IsPaused _ _) in Hr; [unfold notProvisioned, setMStatus in Hr; by rinv|].
  destruct (_ && _) in Hr; [unfold notProvisioned, setMStatus in Hr; by rinv|].
  destruct (negb _) in Hr; [unfold setMCondition, setMStatus in Hr; by rinv|].
  case_run Hr; [|done].
  cbn [app] in *. split_traces.
  match goal with Hf : runs (findInstance _ _) ?t (?ri, ?s) |- _ =>
    destruct (findInstance_owns o t ri s Hn Ho Ha Hf) as (Ho1 & Hn1 & Hri); [done..|];
    destruct ri as [[inst|]|e]; [| |by rinv] end.
  - apply handleExistingInstance_run in Hr as (Hid & _). right. by rewrite Hid.
  - by eapply createInstance_owns.
Qed.

Lemma MachineReconcileNormal_spares : keeps (deletes_none c) any (MachineReconcileNormal scope).
Proof. keeps_with spared. Qed.

(** Volumes and pool members are not instances. *)
Lemma machineCleanup_spares id vols :
  keeps (deletes_none c) (fun o => instanceID o = id)
    (for_each vols (fun v => lift (deleteVolume scope id v))) /\
  keeps (deletes_none c) (fun o => instanceID o = id) (removeLBPoolMember scope).
Proof.
  split; keeps_with ltac:(first [spared | unfold instanceID in *; cbn in *; done]).
Qed.

Lemma deletes_none_only e : deletes_none c e -> deletes_only c nameOf name e.
Proof. intros He id _. apply He. Qed.

Lemma instancePath_inj id id' : instancePath c id = instancePath c id' -> id = id'.
Proof. intros Heq. pose proof (instanceOf_path c id) as Hp. rewrite Heq, instanceOf_path in Hp. by injection Hp. Qed.

Lemma deleteInstance_spares o t r o' :
  owns o -> runs (deleteInstance scope o) t (r, o') ->
  Forall (deletes_only c nameOf name) t /\ o' = o.
Proof.
  intros Ho Hr. split; [|by apply deleteInstance_run in Hr as [-> _]].
  unfold deleteInstance, getMStatus in Hr. rinv.
  change (MStatus_InstanceID (OVHMachine_Status o)) with (instanceID o) in *.
  destruct (_ =s? "") eqn:Hid in Hr; str_simpl; rinv; [done|]. destruct Ho as [|Ho]; [done|].
  match goal with Hd : runs (DeleteInstance _ _) ?t1 _ |- _ =>
    assert (Forall (deletes_only c nameOf name) t1) end.
  { refine (emits_run _ _ _ _ _ Hr0). unfold DeleteInstance. keeps_with ltac:(idtac).
    - done.
    - intros id Hne. unfold no_delete_on. cbn. intros Heq. apply (instancePath_inj (instanceID o)) in Heq.
      by subst id. }
  assert (Hget : emits (deletes_only c nameOf name) (GetInstance c (instanceID o))) by (keeps_with done).
  case_match; rinv; repeat (apply Forall_app; split); try done; try (by repeat constructor).
  - eapply (emits_run _ _ _ _ Hget); eassumption.
  - repeat case_match; rinv; by repeat constructor.
Qed.

Lemma MachineReconcileDelete_owns o t r o' :
  owns o -> runs (MachineReconcileDelete scope o) t (r, o') ->
  Forall (deletes_only c nameOf name) t /\ owns o'.
Proof.
  intros Ho Hr. unfold MachineReconcileDelete, observeMDuration, machineDeleteBody, getMStatus,
    removeMachineFinalizer in Hr. rinv.
  destruct (machineKeepPolicy o); rinv; [by split; [repeat constructor|]|].
  match goal with Hv : runs (for_each _ _ _) _ _ |- _ =>
    apply (keeps_run _ _ _ _ _ _ _ (proj1 (machineCleanup_spares _ _)) eq_refl) in Hv as [Hq1 Hid1] end.
  match goal with Hv : runs (removeLBPoolMember _ _) _ _ |- _ =>
    apply (keeps_run _ _ _ _ _ _ _ (proj2 (machineCleanup_spares (instanceID o) [])) Hid1) in Hv as [Hq2 Hid2] end.
  match goal with Hor : runs (orElse _ _ _) _ _ |- _ =>
    apply orElse_cases in Hor as [Hor|(u & v & s' & -> & Hor & Hr)] end; rinv.
  all: match goal with Hd : runs (deleteInstance _ ?s) ?u _ |- _ =>
    apply (deleteInstance_spares s u) in Hd as [Hd ->];
      [|unfold owns in *; congruence] end.
  all: split; [|unfold owns in *; cbn in *; unfold instanceID in *; cbn; congruence].
  all: repeat (apply Forall_app; split); try done; try (by repeat constructor).
  all: eapply Forall_impl; [eassumption|apply deletes_none_only].
Qed.
End machine.

(** ** A project and its tenants *)

Section project.
Context `{CapiLib} (c : Client) (nameOf iname : string -> string).

(** Every version of every machine object that was ever stored, by key. *)
Abbreviation fleet := (gmap string (list OVHMachine)).

Definition version (fl : fleet) (k : string) (o : OVHMachine) : Prop :=
  exists vs, fl !! k = Some vs /\ o ∈ vs.
Definition store (fl : fleet) (k : string) (o : OVHMachine) : fleet :=
  <[k := o :: default [] (fl !! k)]> fl.

(** One step of the management cluster.  A machine with the key [k] has the
    instance name [iname k].  A reconciliation starts from any version of its
    machine, which covers stale caches and lost patches; it need not be the
    only one running, since nothing else of the fleet is read.  Clusters of the
    project are reconciled too, from any object.  The events are labelled with
    the machine they belong to. *)
Inductive tstep (fl : fleet) : list (option string * event) -> fleet -> Prop :=
| t_new k o :
    instanceID o = "" -> tstep fl [] (store fl k o)
| t_edit k o o' :
    version fl k o -> OVHMachine_Status o' = OVHMachine_Status o -> tstep fl [] (store fl k o')
| t_normal k scope o t r o' :
    version fl k o -> MScope_OVHClient scope = c -> instanceName scope o = iname k ->
    adopts_own nameOf (iname k) o ->
    runs (MachineReconcileNormal scope o) t (r, o') ->
    tstep fl (map (pair (Some k)) t) (store fl k o')
| t_delete k scope o t r o' :
    version fl k o -> MScope_OVHClient scope = c ->
    runs (MachineReconcileDelete scope o) t (r, o') ->
    tstep fl (map (pair (Some k)) t) (store fl k o')
| t_cluster scope o t r :
    CScope_OVHClient scope = c ->
    runs (ReconcileNormal scope o) t r \/ runs (ReconcileDelete scope o) t r ->
    tstep fl (map (pair None) t) fl.

(** The histories of a project, from no object at all. *)
Inductive tsteps : list (option string * event) -> fleet -> Prop :=
| tsteps_nil : tsteps [] ∅
| tsteps_snoc t fl t' fl' : tsteps t fl -> tstep fl t' fl' -> tsteps (t ++ t') fl'.

(** What holds of a history: objects record instances of their name, and
    instances are deleted by machines of their name. *)
Definition recorded_own (fl : fleet) : Prop :=
  forall k o, version fl k o -> owns nameOf (iname k) o.
Definition deleted_own (le : option string * event) : Prop :=
  match le.1 with
  | Some k => deletes_only c nameOf (iname k) le.2
  | None => deletes_none c le.2
  end.

Lemma version_store fl k o k' o' :
  version (store fl k o) k' o' -> (k' = k /\ o' = o) \/ version fl k' o'.
Proof.
  intros (vs & Hl & Hin). unfold store in Hl.
  destruct (decide (k = k')) as [<-|Hne].
  - rewrite lookup_insert_eq in Hl. injection Hl as <-.
    apply elem_of_cons in Hin as [->|Hin]; [by left|right].
    destruct (fl !! k) as [vs|] eqn:Hk; [by exists vs|]. by apply not_elem_of_nil in Hin.
  - rewrite lookup_insert_ne in Hl by done. right. by exists vs.
Qed.

Lemma recorded_own_store fl k o :
  recorded_own fl -> owns nameOf (iname k) o -> recorded_own (store fl k o).
Proof. intros Hfl Ho k' o' [[-> ->]|Hv]%version_store; [done|by apply Hfl]. Qed.

Lemma Forall_label {P : option string * event -> Prop} l t :
  Forall P (map (pair l) t) <-> Forall (fun e => P (l, e)) t.
Proof. rewrite !List.Forall_forall. setoid_rewrite in_map_iff. naive_solver. Qed.

Lemma cluster_spares_instances (cs : ClusterScope) :
  keeps (deletes_none (CScope_OVHClient cs)) any (ReconcileNormal cs) /\
  keeps (deletes_none (CScope_OVHClient cs)) any (ReconcileDelete cs).
Proof. split; keeps_with ltac:(first [done | intros ?; autounfold with paths; path_neq]). Qed.

(** A project that is honest about identifiers and faithful to names. *)
Definition fair (le : option string * event) : Prop := honest c le.2 /\ faithful c nameOf le.2.

Lemma tstep_own fl t fl' :
  tstep fl t fl' -> Forall fair t -> recorded_own fl -> recorded_own fl' /\ Forall deleted_own t.
Proof.
  intros Hs Hf Hfl.
  destruct Hs as [k o Hid|k o o' Hv Hst|k scope o t r o' Hv Hc Hn Ha Hr|k scope o t r o' Hv Hc Hr
                 |scope o t [r o'] Hc Hr].
  - split; [|done]. apply recorded_own_store; [done|by left].
  - split; [|done]. apply recorded_own_store; [done|]. apply Hfl in Hv.
    unfold owns, instanceID in *. by rewrite Hst.
  - rewrite Forall_label in Hf; rewrite Forall_label. unfold deleted_own, fair in *. cbn [fst snd] in *.
    rewrite <- Hc in Hf |- *. apply Forall_and in Hf as [Hh Hf]. split.
    + apply recorded_own_store; [done|].
      exact (MachineReconcileNormal_owns scope nameOf (iname k) o t r o' Hn (Hfl k o Hv) Ha Hr Hh Hf).
    + destruct (keeps_run _ _ _ _ _ _ _ (MachineReconcileNormal_spares scope) I Hr) as [Hd _].
      eapply Forall_impl; [exact Hd|]. intros e. apply deletes_none_only.
  - destruct (MachineReconcileDelete_owns scope nameOf (iname k) o t r o' (Hfl k o Hv) Hr) as [Hd Ho].
    rewrite Hc in Hd. split; [by apply recorded_own_store|by apply Forall_label].
  - split; [done|]. apply Forall_label. unfold deleted_own. cbn [fst snd]. rewrite <- Hc.
    destruct (cluster_spares_instances scope) as [H1 H2].
    by destruct Hr as [Hr|Hr]; [apply (keeps_run _ any _ _ _ _ _ H1 I Hr)
                               |apply (keeps_run _ any _ _ _ _ _ H2 I Hr)].
Qed.

Lemma tsteps_own t fl :
  tsteps t fl -> Forall fair t -> recorded_own fl /\ Forall deleted_own t.
Proof.
  induction 1 as [|t fl t' fl' _ IH Hs]; intros Hf.
  - split; [|done]. intros k o (vs & Hl & _). by rewrite lookup_empty in Hl.
  - apply Forall_app in Hf as [Hf1 Hf2]. destruct (IH Hf1) as [Hfl Ht].
    destruct (tstep_own fl t' fl' Hs Hf2 Hfl) as [Hfl' Ht']. split; [done|].
    by apply Forall_app.
Qed.

End project.

(** ** Machines of the same name *)

(** Instance names are not unique: the hyphen that joins the name of the cluster
    to that of the machine is allowed in both. *)
Theorem instance_names_ambiguous a b d :
  GenerateRFC1035Name [a +:+ "-" +:+ b; d] = GenerateRFC1035Name [a; b +:+ "-" +:+ d].
Proof. unfold GenerateRFC1035Name, Join. cbn. by rewrite !sapp_assoc. Qed.

Section namesake.
Context `{CapiLib} (scope : MachineScope).
#[local] Abbreviation c := (MScope_OVHClient scope).

(** Without a recorded instance or one to adopt, the listing decides. *)
Lemma findInstance_listed o t ri s :
  instanceID o = "" -> MSpec_ExistingInstanceID (OVHMachine_Spec o) = "" ->
  runs (findInstance scope o) t (ri, s) ->
  s = o /\ Forall (keeps_instances c) t /\
  forall oi, ri = Ok oi -> exists l, Ev (ApiGet (api c) (listPath c) TInstances) (Ok l) ∈ t /\
                             oi = find_first (named (instanceName scope o)) l.
Proof.
  intros Hid Ha Hr. unfold findInstance, orLookup, findByStatus, findByAdoption, getMStatus, getMSpec in Hr.
  unfold instanceID in Hid. rinv. rewrite Hid, strEqb_refl in *. rinv. rewrite Ha, strEqb_refl in *. rinv.
  unfold findByName in Hr. rinv. rewrite ?app_nil_r in *. cbn [app] in *.
  match goal with Hf : runs (FindInstanceByName _ _) _ ?a |- _ =>
    rename Hf into Hfind; destruct a as [oi|e] end; (split; [done|]; split;
    [refine (emits_run _ _ _ _ _ Hfind); keeps_with ltac:(first [done | split; [|intros ?]; autounfold with paths; path_neq])|]).
  - intros oi' [= ->]. by apply FindInstanceByName_listing.
  - done.
Qed.

(** A deletion sends the DELETE of the recorded instance. *)
Lemma MachineReconcileDelete_sends o t r o' :
  machineKeepPolicy o = false -> instanceID o <> "" ->
  runs (MachineReconcileDelete scope o) t (r, o') ->
  exists res, within t (DeleteInstance c (instanceID o)) res.
Proof.
  intros Hk Hne Hr. unfold MachineReconcileDelete, observeMDuration, machineDeleteBody, getMStatus in Hr.
  rinv. rewrite Hk in *. rinv.
  match goal with Hv : runs (for_each _ _ _) _ _ |- _ =>
    apply (keeps_run _ (fun s => instanceID s = instanceID o) _ _ _ _ _
             (deleteVolumes_same scope _ _ _) eq_refl) in Hv as [_ Hid1] end.
  match goal with Hv : runs (removeLBPoolMember _ _) _ _ |- _ =>
    apply (keeps_run _ _ _ _ _ _ _ (proj2 (machineCleanup_spares scope (instanceID o) [])) Hid1) in Hv as [_ Hid2] end.
  match goal with Hor : runs (orElse _ _ _) _ _ |- _ => unfold orElse, deleteInstance, getMStatus in Hor end.
  rinv. unfold instanceID in Hid2. rewrite Hid2 in *. fold (instanceID o) in *.
  apply strEqb_neq in Hne. rewrite Hne in *. rinv.
  eexists. in_run.
Qed.

(** A machine takes the instance of a namesake: when every listing shows an
    instance [i] of its name, whoever created it, a reconciliation of a machine
    that records none creates none, records [i] unless it fails, and a later
    deletion of the machine sends the DELETE of [i]. *)
Theorem namesake_instance_taken o i t r o' :
  unblocked scope o -> instanceID o = "" -> MSpec_ExistingInstanceID (OVHMachine_Spec o) = "" ->
  runs (MachineReconcileNormal scope o) t (r, o') ->
  Forall (instances_listed c (fun l => find_first (named (instanceName scope o)) l = Some i)) t ->
  Forall (no_post_on (instanceCollection c)) t /\
  (r.2 = None -> instanceID o' = Instance_ID i /\
     forall t2 r2 o2, machineKeepPolicy o' = false -> Instance_ID i <> "" ->
       runs (MachineReconcileDelete scope o') t2 (r2, o2) ->
       exists res, within t2 (DeleteInstance c (Instance_ID i)) res).
Proof.
  intros Hub Hid Ha Hr Hl.
  apply normal_run_steps in Hr as (t0 & t1 & t2 & t3 & ri & s1 & -> & Ht0 & Ht3 & H1 & H2); [|done].
  destruct (findInstance_listed o t1 ri s1 Hid Ha H1) as (-> & Hk & Hri).
  assert (Hpost : forall t', Forall (keeps_instances c) t' -> Forall (no_post_on (instanceCollection c)) t').
  { intros t' Ht'. eapply Forall_impl; [exact Ht'|]. by intros e [? _]. }
  destruct ri as [oi|e].
  2:{ rinv. split; [|done]. repeat (apply Forall_app; split); auto. }
  destruct (Hri oi eq_refl) as (l & Hin & ->). rewrite Forall_forall in Hl.
  assert (Hlist : find_first (named (instanceName scope o)) l = Some i)
    by (apply (Hl _ ltac:(apply elem_of_app; right; apply elem_of_app; left; exact Hin)); done).
  rewrite Hlist in H2.
  split.
  { repeat (apply Forall_app; split); auto.
    refine (emits_run _ _ _ _ (keeps_emits _ any _ _ _ I) H2). keeps_with posts. }
  intros _. apply handleExistingInstance_run in H2 as (Hid' & _). split; [done|].
  intros u r2 o2 Hkeep Hne Hd. rewrite <- Hid' in *. by eapply MachineReconcileDelete_sends.
Qed.
End namesake.

(** ** Clusters and health monitors *)

(** The health monitor of a pool is looked up by a name that mentions neither the
    cluster nor the pool's identifier: when another cluster of the region already
    has a monitor called so, none is created for this pool, and no error is
    reported. *)
Theorem monitor_of_other_cluster_suffices scope poolID poolName t r :
  runs (ensurePoolHealthMonitor scope poolID poolName) t r ->
  let c := CScope_OVHClient scope in
  Forall (monitors_listed (fun l => exists m, m ∈ l /\ HealthMonitor_Name m = poolName +:+ "-hm" /\
                                       HealthMonitor_PoolID m <> poolID)) t ->
  Forall (no_post_on (hmCollection c)) t /\
  (r <> None -> exists e, within t (ListHealthMonitors c) (Err e)).
Proof.
  intros Hr c Hl. subst c. unfold ensurePoolHealthMonitor, FindHealthMonitorByName in Hr. rinv.
  assert (Hq : emits (no_post_on (hmCollection (CScope_OVHClient scope)))
                 (ListHealthMonitors (CScope_OVHClient scope))) by keeps_with posts.
  assert (Hlist : forall u l, runs (ListHealthMonitors (CScope_OVHClient scope)) u (Ok l) ->
    Ev (ApiGet (api (CScope_OVHClient scope)) (hmCollection (CScope_OVHClient scope)) THealthMonitors) (Ok l) ∈ u).
  { intros u l Hu. unfold ListHealthMonitors, apiGet in Hu. rinv. rewrite !app_nil_r.
    by eapply answered_call. }
  match goal with Hu : runs (ListHealthMonitors _) ?u ?w |- _ =>
    pose proof (emits_run _ _ _ _ Hq Hu) as Hposts; destruct w as [l|e]; rinv end.
  - rewrite Forall_forall in Hl.
    assert (Hin := Hlist _ _ Hr1). rewrite app_nil_r in Hl.
    destruct (Hl _ (proj2 (elem_of_app _ _ _) (or_introl Hin))) as (m & Hm & Hn & _).
    destruct (find_first _ l) as [m'|] eqn:Hf in Hr; rinv.
    + by rewrite !app_nil_r.
    + apply find_first_none in Hf. rewrite Forall_forall in Hf. specialize (Hf m Hm).
      cbn in Hf. by rewrite Hn, strEqb_refl in Hf.
  - rewrite !app_nil_r. split; [done|]. intros _. exists e. in_run.
Qed.

(** ** Witnesses *)

Ltac listing_run :=
  vm_compute; repeat (constructor; [first [exact I | by intros _ | by intros ?]|]); constructor.

Definition demo_names (id : string) : string := if id =s? "i-1" then "test-m0" else "".
Definition demo_iname (k : string) : string := "test-" +:+ k.

(** Two machines of the demo cluster, one of which gets its instance. *)
Definition demo_fleet : gmap string (list OVHMachine) :=
  store (store (store ∅ "m0" (demo_machine false "")) "m1" (demo_machine false "")) "m0" birth.2.2.

Lemma demo_history :
  tsteps demo_client demo_names demo_iname
    ((([] ++ []) ++ []) ++ map (pair (Some "m0")) birth.1) demo_fleet.
Proof.
  eapply tsteps_snoc; [eapply tsteps_snoc; [eapply tsteps_snoc; [constructor|]|]|].
  - by apply (t_new _ _ _ _ "m0" (demo_machine false "")).
  - by apply (t_new _ _ _ _ "m1" (demo_machine false "")).
  - apply (t_normal _ _ _ _ "m0" worker (demo_machine false "") _ birth.2.1); try reflexivity.
    + eexists. split; [reflexivity|]. set_solver.
    + by left.
    + rewrite <- surjective_pairing. apply exec_runs.
Qed.


(** The instance of a namesake is listed. *)
Definition taken : trace * (outcome * OVHMachine) :=
  exec (creating_env (stocked [demo_instance "BUILD"]))
    (MachineReconcileNormal worker (demo_machine false "")) tt.

Lemma namesake_instance_taken_witness :
  GenerateRFC1035Name ["prod-eu"; "w0"] = GenerateRFC1035Name ["prod"; "eu-w0"] /\
  instanceID taken.2.2 = "i-1".
Proof.
  split; [reflexivity|].
  refine (proj1 (proj2 (namesake_instance_taken worker (demo_machine false "") (demo_instance "BUILD")
                   taken.1 taken.2.1 taken.2.2 _ _ _ _ _) _)).
  - split; try reflexivity. by eexists.
  - reflexivity.
  - reflexivity.
  - rewrite <- !surjective_pairing. apply exec_runs.
  - listing_run.
  - reflexivity.
Defined.

Definition foreign_monitor : HealthMonitor :=
  demo_monitor {{ HealthMonitor_Name := "api-server-pool-hm"; HealthMonitor_PoolID := "other" }}.
Definition monitored : Answers := {|
  on_get T path tg := match tg in target T return gores T with
    | THealthMonitors => Ok [foreign_monitor] | tg => healthy_get _ path tg end;
  on_post := healthy_post; on_delete := fun _ => Ok tt |}.
Definition unmonitored := demo_run monitored (ensurePoolHealthMonitor demo_scope "pool-1" "api-server-pool").

Lemma monitor_of_other_cluster_suffices_witness :
  unmonitored.2 = None /\ Forall (no_post_on (hmCollection demo_client)) unmonitored.1.
Proof.
  split; [reflexivity|].
  refine (proj1 (monitor_of_other_cluster_suffices demo_scope "pool-1" "api-server-pool" _ unmonitored.2
                   (demo_runs monitored _) _)).
  constructor; [|constructor]. exists foreign_monitor.
  split_and!; [set_solver|reflexivity|discriminate].
Defined.
