(* ===== verification/MachineRetirement.v ===== *)
(** * MachineRetirement: repeated reconciliations release a deleted machine

    OVH deletes asynchronously: it accepts the DELETE, keeps answering the
    instance for a while, and then no more.  On such a project
    ([RetiringProject]) the reconciliations of a machine that is being deleted
    remove its finalizer after as many rounds as the instance takes to fade, and
    never before its deletion was accepted. *)
From S2P Require Import Prelude.
From S2P Require Import GoStrings.
From S2P Require Import GoErrors.
From S2P Require Import OvhTypes.
From S2P Require Import K8sTypes.
From S2P Require Import ApiV1alpha2.
From S2P Require Import Effects.
From S2P Require Import OvhClient.
From S2P Require Import OvhClientSpec.
From S2P Require Import Hoare.
From S2P Require Import CapiLib.
From S2P Require Import ClusterController.
From S2P Require Import ClusterLB.
From S2P Require Import MachineController.
From S2P Require Import Demo.
From S2P Require Import ClusterSafety.
From S2P Require Import ClusterDelete.
From S2P Require Import ClusterLBSpec.
From S2P Require Import MachineSpec.
From S2P Require Import DeleteProgress.
From S2P Require Import World.
#[local] Open Scope Z_scope.
#[local] Open Scope go_scope.

(** ** The promises of a project about deletions *)

Class RetiringProject {W} (h : handler W) (c : Client) := {
  (** the instance exists; its deletion was accepted, and it can be read for at
      most so many rounds more; a bound on them *)
  alive : W -> string -> Prop;
  fading : W -> string -> nat -> Prop;
  fade : nat;
  (** the passing of time between two reconciliations *)
  pass : W -> W;
  (** the world may change by itself, and revives nothing *)
  since : W -> W -> Prop;
  since_refl w : since w w;
  since_trans w1 w2 w3 : since w1 w2 -> since w2 w3 -> since w1 w3;
  since_alive w w' id : since w w' -> alive w id -> alive w' id;
  since_fading w w' id n : since w w' -> fading w id n -> fading w' id n;
  pass_fading w id n : fading w id n -> fading (pass w) id (pred n);
  (** requests *)
  other_since {X} (r : req X) w :
    keeps_instances c (Ev r (h _ w r).1) -> since w (h _ w r).2;
  delete_alive w id : alive w id ->
    let answer := h _ w (ApiDelete (api c) (instancePath c id)) in
    answer.1 = Ok tt /\ fading answer.2 id fade;
  delete_fading w id n : fading w id n ->
    let answer := h _ w (ApiDelete (api c) (instancePath c id)) in
    answer.1 = Ok tt /\ fading answer.2 id n;
  get_faded w id : fading w id 0 ->
    match (h _ w (ApiGet (api c) (instancePath c id) TInstance)).1 with
    | Ok inst => Instance_Status inst = InstanceStatusDeleted
    | Err e => IsRetryable (Some e) = false
    end;
}.

Section project.
Context {W} (h : handler W) (c : Client) `{!RetiringProject h c}.

Lemma answers_since w t w' : Forall (keeps_instances c) t -> answers h w t w' -> since w w'.
Proof.
  apply answers_preorder; [exact since_refl|exact since_trans|]. intros X r w1. apply other_since.
Qed.

(** How much longer an instance can be read, if its deletion has begun. *)
Definition retiring (w : W) (id : string) (n : nat) : Prop :=
  (alive w id /\ n = fade) \/ fading w id n.

Lemma since_retiring w w' id n : since w w' -> retiring w id n -> retiring w' id n.
Proof.
  intros Hs [[Ha ->]|Hf]; [left|right]; [split; [by eapply since_alive|done]|by eapply since_fading].
Qed.

(** A call that is answered, or refused for good, is not retried. *)
Lemma run_retry_final {T} op (r : req (gores T)) w :
  match (h _ w r).1 with Ok _ => True | Err e => IsRetryable (Some e) = false end ->
  run h (retryWithBackoff op (call r)) w = (retry_result op (h _ w r).1, (h _ w r).2).
Proof.
  intros Hx. unfold retryWithBackoff, maxRetries. cbn [retry_from]. rewrite run_bind.
  cbn [call run]. destruct (h _ w r) as [[y|e] w']; cbn in Hx |- *; [done|]. by rewrite Hx.
Qed.

Lemma run_DeleteInstance w id n t r w' :
  retiring w id n -> runs (DeleteInstance c id) t r -> answers h w t w' ->
  r = None /\ fading w' id n.
Proof.
  intros Hw Hr Ha.
  assert (Hd : let answer := h _ w (ApiDelete (api c) (instancePath c id)) in
    answer.1 = Ok tt /\ fading answer.2 id n).
  { destruct Hw as [[Hw ->]|Hw]; [by apply delete_alive|by apply delete_fading]. }
  cbv zeta in Hd. destruct Hd as [Hok Hf].
  destruct (answers_run h _ _ _ _ _ Hr Ha) as [<- <-].
  unfold DeleteInstance, apiDelete. rewrite run_bind.
  change (projectPath c ("/instance/" +:+ id)) with (instancePath c id).
  by rewrite (run_retry_ok h _ _ w tt Hok).
Qed.

Lemma run_GetInstance_faded w id t r w' :
  fading w id 0 -> runs (GetInstance c id) t r -> answers h w t w' -> gone r.
Proof.
  intros Hw Hr Ha. pose proof (get_faded w id Hw) as Hg.
  destruct (answers_run h _ _ _ _ _ Hr Ha) as [<- _].
  unfold GetInstance, apiGet. rewrite run_bind.
  change (projectPath c ("/instance/" +:+ id)) with (instancePath c id).
  rewrite run_retry_final by (case_match; done).
  destruct (h _ w _).1 as [inst|e]; cbn; [done|]. by rewrite Hg.
Qed.
End project.

(** ** One reconciliation *)

Section retirement.
Context `{CapiLib} {W : Type} (h : handler W) (scope : MachineScope).
#[local] Abbreviation c := (MScope_OVHClient scope).
Context `{!RetiringProject h c}.

(** What the cleanup before the deletion of the instance leaves as it is. *)
Definition same_machine (o o' : OVHMachine) : Prop :=
  instanceID o' = instanceID o /\ OVHMachine_ObjectMeta o' = OVHMachine_ObjectMeta o.

Ltac keeps_insts := first
  [ done
  | split; [|intros ?]; autounfold with paths; path_neq
  | intros ?; split; [|intros ?]; autounfold with paths; path_neq ].

Lemma cleanup_keeps o id vols :
  keeps (keeps_instances c) (same_machine o)
    (for_each vols (fun v => lift (deleteVolume scope id v))) /\
  keeps (keeps_instances c) (same_machine o) (removeLBPoolMember scope).
Proof.
  split; keeps_with ltac:(first [unfold same_machine, instanceID in *; cbn in *; done | keeps_insts]).
Qed.

(** A deletion is a cleanup, then the deletion of the instance, then, unless
    that returns, the removal of the finalizer. *)
Lemma delete_run_steps o t r o' :
  machineKeepPolicy o = false -> runs (MachineReconcileDelete scope o) t (r, o') ->
  exists t1 t2 t3 out s, t = t1 ++ t2 ++ t3 /\
    Forall (keeps_instances c) t1 /\ Forall (keeps_instances c) t3 /\
    same_machine o s /\ runs (deleteInstance scope s) t2 (out, s) /\
    match out with
    | Some _ => o' = s
    | None => hasMFinalizer o' = false
    end.
Proof.
  intros Hk Hr. unfold MachineReconcileDelete, observeMDuration, machineDeleteBody, getMStatus in Hr.
  rinv. rewrite Hk in *. rinv.
  match goal with Hv : runs (for_each _ _ _) _ _ |- _ =>
    apply (keeps_run _ (same_machine o) _ _ _ _ _ (proj1 (cleanup_keeps o _ _)) (conj eq_refl eq_refl)) in Hv
      as [Hq1 Hs1] end.
  match goal with Hv : runs (removeLBPoolMember _ _) _ _ |- _ =>
    apply (keeps_run _ _ _ _ _ _ _ (proj2 (cleanup_keeps o "" [])) Hs1) in Hv as [Hq2 Hs2] end.
  match goal with Hor : runs (orElse _ _ _) _ _ |- _ =>
    apply orElse_cases in Hor as [Ho|(u & v & s1 & -> & Ho & Hrest)] end;
    pose proof Ho as [-> _]%deleteInstance_run.
  all: try unfold removeMachineFinalizer in Hrest; rinv.
  all: lazymatch type of Ho with runs _ ?d (?out, ?s) =>
    lazymatch goal with |- exists t1 t2 t3 out s,
      [?e1] ++ ([] ++ [?e2] ++ [] ++ ?u ++ ?v ++ _) ++ ?l = _ /\ _ =>
      exists (e1 :: e2 :: u ++ v), d, l, out, s end end.
  all: split; [cbn [app]; rewrite ?app_nil_r; by rewrite <- ?app_assoc|].
  all: split; [constructor; [by repeat constructor|]; constructor; [by repeat constructor|]; by apply Forall_app|].
  all: split; [by repeat constructor|]; split; [done|]; split; [done|].
  - done.
  - apply ContainsFinalizer_Remove.
Qed.

(** The deletion of an instance that fades: it is asked for, and waited for. *)
Lemma deleteInstance_fades o w n t out s w' :
  instanceID o <> "" -> retiring h c w (instanceID o) n ->
  runs (deleteInstance scope o) t (out, s) -> answers h w t w' ->
  fading w' (instanceID o) n /\ (n = 0%nat -> out = None).
Proof.
  intros Hid Hw Hr Ha. unfold deleteInstance, getMStatus in Hr. rinv.
  change (MStatus_InstanceID (OVHMachine_Status o)) with (instanceID o) in *.
  apply strEqb_neq in Hid. rewrite Hid in Hr. rinv. cbn [app] in Ha.
  apply answers_app in Ha as (w1 & Ha1 & Ha).
  match goal with Hd : runs (DeleteInstance _ _) _ _ |- _ =>
    destruct (run_DeleteInstance h c w (instanceID o) n _ _ w1 Hw Hd Ha1) as [-> Hf] end.
  rinv. apply answers_app in Ha as (w2 & Ha2 & Ha).
  match goal with Hg : runs (GetInstance _ _) ?u ?g |- _ =>
    assert (Hk : Forall (keeps_instances c) u) by (refine (emits_run _ _ _ _ _ Hg); keeps_with keeps_insts);
    pose proof (answers_since h c w1 u w2 Hk Ha2) as Hs;
    assert (Hgone : n = 0%nat -> gone g) by (intros ->; exact (run_GetInstance_faded h c w1 _ _ _ w2 Hf Hg Ha2));
    destruct g as [inst|e] end.
  - destruct (_ =s? InstanceStatusDeleted) eqn:Hd in Hr; cbn [negb] in Hr; rinv; cbn [answers] in Ha; subst w'.
    + split; [by eapply since_fading|done].
    + split; [by eapply since_fading|]. intros Hz. apply strEqb_neq in Hd. by specialize (Hgone Hz).
  - rinv. cbn [answers] in Ha. subst w'. split; [by eapply since_fading|done].
Qed.

(** ** Rounds *)

(** A reconciliation of an object that still has its finalizer, and the time to
    the next one. *)
Definition retire (s : OVHMachine * W) : OVHMachine * W :=
  if hasMFinalizer s.1 then
    let '(_, o', w') := run h (MachineReconcileDelete scope s.1) s.2 in (o', pass w')
  else s.

Fixpoint retires (n : nat) (s : OVHMachine * W) : OVHMachine * W :=
  match n with O => s | S n => retires n (retire s) end.

(** The deletion of [id] was accepted, unless the finalizer is still there. *)
Definition released (id : string) (s : OVHMachine * W) : Prop :=
  hasMFinalizer s.1 = false /\ exists n, fading s.2 id n.
Definition waiting (o : OVHMachine) (n : nat) (s : OVHMachine * W) : Prop :=
  same_machine o s.1 /\ retiring h c s.2 (instanceID o) n.

Lemma retire_round o n s :
  machineKeepPolicy o = false -> hasMFinalizer o = true -> instanceID o <> "" -> waiting o n s ->
  released (instanceID o) (retire s) \/
  (n <> 0%nat /\ same_machine o (retire s).1 /\ fading (retire s).2 (instanceID o) (pred n)).
Proof.
  intros Hk Hf Hid [[Hi Hm] Hw]. destruct s as [o1 w]. cbn [fst snd] in *.
  unfold retire, hasMFinalizer in *. cbn [fst snd]. rewrite Hm, Hf.
  destruct (run h _ w) as [[r o'] w'] eqn:Hrun. apply run_answers in Hrun as (t & Hr & Ha).
  apply delete_run_steps in Hr as (t1 & t2 & t3 & out & s & -> & Ht1 & Ht3 & [Hsi Hsm] & Hd & Hout);
    [|by unfold machineKeepPolicy in *; rewrite Hm].
  apply answers_app in Ha as (w1 & Ha1 & Ha). apply answers_app in Ha as (w2 & Ha2 & Ha3).
  assert (Hsid : instanceID s = instanceID o) by congruence.
  destruct (deleteInstance_fades s w1 n t2 out s w2) as [Hfade Hzero]; [congruence| |done..|].
  { rewrite Hsid. eapply since_retiring; [|exact Hw]. exact (answers_since h c w t1 w1 Ht1 Ha1). }
  rewrite Hsid in Hfade.
  apply (since_fading w2 w') in Hfade; [|exact (answers_since h c w2 t3 w' Ht3 Ha3)].
  apply pass_fading in Hfade. destruct out as [out|].
  - right. subst o'. split_and!; [by intros Hz; specialize (Hzero Hz)|split; cbn; congruence|exact Hfade].
  - left. split; [exact Hout|]. by exists (pred n).
Qed.

Lemma retires_released id k s : released id s -> retires k s = s.
Proof.
  intros [Hf _]. induction k as [|k IH]; [done|]. cbn [retires]. unfold retire at 1. by rewrite Hf.
Qed.

Lemma retires_waiting o n k s :
  machineKeepPolicy o = false -> hasMFinalizer o = true -> instanceID o <> "" -> waiting o n s ->
  (n < k)%nat -> released (instanceID o) (retires k s).
Proof.
  intros Hk Hf Hid. revert n s. induction k as [|k IH]; intros n s Hw Hn; [lia|]. cbn [retires].
  destruct (retire_round o n s Hk Hf Hid Hw) as [Hr|(Hz & Hs & Hfd)].
  - by rewrite (retires_released (instanceID o)).
  - apply (IH (pred n)); [split; [done|by right]|lia].
Qed.

End retirement.

(** ** A project whose instance fades in one round *)

Inductive remains := Existing | Stopping | Removed.

Definition remains_left (w : remains) : nat := match w with Stopping => 1 | _ => 0 end.

Definition retiring_get (w : remains) {T} (path : string) (tg : target T) : gores T :=
  match tg in target T return gores T with
  | TInstance => match w with
      | Existing => Ok (demo_instance "ACTIVE")
      | Stopping => Ok (demo_instance "DELETING")
      | Removed => refused
      end
  | tg => healthy_get _ path tg
  end.

Definition retiring_env : handler remains := fun X w r =>
  match r in req X return X * remains with
  | ApiGet _ path tg => (retiring_get w path tg, w)
  | ApiDelete _ path =>
      (Ok tt, if strEqb path (instancePath demo_client "i-1")
              then match w with Existing => Stopping | w => w end else w)
  | r => ((demo_env healthy _ tt r).1, w)
  end.

Lemma retiring_other {X} (r : req X) w :
  keeps_instances demo_client (Ev r (retiring_env _ w r).1) -> (retiring_env _ w r).2 = w.
Proof.
  intros [_ Hd]. destruct r; try done. cbn in Hd |- *.
  specialize (Hd "i-1"). apply strEqb_neq in Hd. by rewrite Hd.
Qed.

#[export] Instance OneRoundProject : RetiringProject retiring_env demo_client.
Proof.
  refine {|
    alive w id := w = Existing /\ id = "i-1";
    fading w id n := w <> Existing /\ id = "i-1" /\ (remains_left w <= n)%nat;
    fade := 1; pass w := match w with Stopping => Removed | w => w end;
    since w w' := w' = w |}.
  - done.
  - by intros w1 w2 w3 -> ->.
  - by intros w w' id ->.
  - by intros w w' id n ->.
  - intros w id n (Hw & -> & Hn). destruct w; cbn in *; split_and!; try done; lia.
  - intros X r w. apply retiring_other.
  - intros w id [-> ->]. by vm_compute; split_and!; try done; repeat constructor.
  - intros w id n (Hw & -> & Hn). cbn. rewrite strEqb_refl. split; [done|]. by destruct w.
  - intros w id (Hw & -> & Hn). destruct w; [done|cbn in Hn; lia|done].
Defined.

