(* ===== verification/NetworkContract.v ===== *)
(** * NetworkContract: no private network is leaked

    The private network of a cluster follows a contract like that of the
    instance of a machine ([MachineContract]): it is created only when none is
    recorded, recorded at once, forgotten only when OVH says it does not exist,
    and the cluster is released only once OVH accepted its deletion.  [nstep] is
    the contract; every reconciliation of a cluster is a sequence of its steps
    whose labels are the effects of the trace on private networks. *)
From S2P Require Import Prelude.
From S2P Require Import GoStrings.
From S2P Require Import GoErrors.
From S2P Require Import OvhTypes.
From S2P Require Import K8sTypes.
From S2P Require Import ApiV1alpha2.
From S2P Require Import Effects.
From S2P Require Import OvhClient.
From S2P Require Import OvhClientSpec.
From S2P Require Import Hoare.
From S2P Require Import Naming.
From S2P Require Import Metrics.
From S2P Require Import CapiLib.
From S2P Require Import ClusterController.
From S2P Require Import ClusterLB.
From S2P Require Import ClusterReconcile.
From S2P Require Import Demo.
From S2P Require Import ClusterSafety.
From S2P Require Import ClusterDelete.
From S2P Require Import ClusterLBSpec.
From S2P Require Import MachineSpec.
From S2P Require Import MachineContract.
#[local] Open Scope Z_scope.
#[local] Open Scope go_scope.

(** ** The contract *)

(** A cluster as its owner sees it, and the networks known to be gone. *)
Record ncontract := {
  n_managed : bool;      (* the finalizer is set *)
  n_recorded : string;   (* status.networkID *)
  n_mine : bool;         (* the condition NetworkCreatedByController *)
  n_gone : gset string;
}.

Inductive nstep (keep : bool) : ncontract -> list action -> ncontract -> Prop :=
| n_manage a :
    nstep keep a [] (a {{ n_managed := true }})
| n_unknown a id :
    nstep keep a [Unknown id] (a {{ n_gone ::= union {[ id ]} }})
| n_forget a :
    n_recorded a ∈ n_gone a -> nstep keep a [] (a {{ n_recorded := "" }})
| n_given a id :
    n_managed a = true -> n_recorded a = "" -> nstep keep a [] (a {{ n_recorded := id }})
| n_create a id :
    n_managed a = true -> n_recorded a = "" -> id <> "" ->
    nstep keep a [Created id]
      (a {{ n_recorded := id; n_mine := true; n_gone ::= fun g => g ∖ {[ id ]} }})
| n_delete a :
    n_recorded a <> "" -> n_mine a = true ->
    nstep keep a [Deleted (n_recorded a)] (a {{ n_gone ::= union {[ n_recorded a ]} }})
| n_release a :
    keep = true \/ n_mine a = false \/ n_recorded a = "" \/ n_recorded a ∈ n_gone a ->
    nstep keep a [] (a {{ n_managed := false }}).

Inductive nsteps (keep : bool) : ncontract -> list action -> ncontract -> Prop :=
| nsteps_nil a : nsteps keep a [] a
| nsteps_cons a l a' l' a'' :
    nstep keep a l a' -> nsteps keep a' l' a'' -> nsteps keep a (l ++ l') a''.

Lemma nsteps_one keep a l a' : nstep keep a l a' -> nsteps keep a l a'.
Proof. intros H. rewrite <- (app_nil_r l). econstructor; [exact H|constructor]. Qed.

Lemma nsteps_app keep a l a' l' a'' :
  nsteps keep a l a' -> nsteps keep a' l' a'' -> nsteps keep a (l ++ l') a''.
Proof.
  induction 1 as [a|a l a' m b Hs _ IH]; intros H'; [done|].
  rewrite <- app_assoc. econstructor; [exact Hs|auto].
Qed.

(** What the contract guarantees: a network in the history that was created is the
    recorded one or its end comes later in the history. *)
Record ncontract_inv (h : list action) (a : ncontract) : Prop := {
  ninv_accounted : forall id, id = n_recorded a \/ accounted h id;
  ninv_gone : forall id, id ∈ n_gone a -> accounted h id;
  ninv_empty : accounted h "";
  ninv_other : n_mine a = false -> forall id, accounted h id;
  ninv_released : n_managed a = false -> forall id, accounted h id;
}.

Lemma ncontract_inv_gone h a x id :
  ncontract_inv h a -> x = Deleted id \/ x = Unknown id ->
  ncontract_inv (h ++ [x]) (a {{ n_gone ::= union {[ id ]} }}).
Proof.
  intros [Ha Hg He Ho Hr] Hx. pose proof (accounted_gone h x id Hx) as Hacc.
  assert (Hmono : forall id', accounted h id' -> accounted (h ++ [x]) id').
  { intros id' Hid'. apply accounted_app; [done|]. set_solver. }
  split; cbn; auto.
  - intros id'. destruct (Ha id') as [->|?]; auto.
  - intros id'. rewrite elem_of_union, elem_of_singleton. intros [->|?]; auto.
Qed.

Lemma ncontract_inv_create h a id :
  ncontract_inv h a -> n_managed a = true -> n_recorded a = "" -> id <> "" ->
  ncontract_inv (h ++ [Created id])
    (a {{ n_recorded := id; n_mine := true; n_gone ::= fun g => g ∖ {[ id ]} }}).
Proof.
  intros [Ha Hg He Ho Hr] Hm Hrec Hid. split; cbn; try congruence.
  - intros id'. destruct (decide (id' = id)) as [->|Hne]; [by left|right].
    apply accounted_app; [|set_solver]. destruct (Ha id') as [->|?]; [by rewrite Hrec|done].
  - intros id' Hin. apply accounted_app; [apply Hg; set_solver|set_solver].
  - apply accounted_app; [done|set_solver].
Qed.

Lemma nstep_inv h a l a' :
  ncontract_inv h a -> nstep false a l a' -> ncontract_inv (h ++ l) a'.
Proof.
  intros Hi Hs. destruct Hs as [a|a id|a Hf|a id Hm Hrec|a id Hm Hrec Hid|a Hrec Hmine|a Hrel];
    rewrite ?app_nil_r.
  - destruct Hi as [? ? ? ? ?]. by split.
  - apply ncontract_inv_gone; auto.
  - destruct Hi as [Ha Hg He Ho Hr]. split; cbn; auto.
    intros id. destruct (Ha id) as [->|?]; auto.
  - destruct Hi as [Ha Hg He Ho Hr]. split; cbn; auto.
    intros id'. right. destruct (Ha id') as [->|?]; [by rewrite Hrec|done].
  - by apply ncontract_inv_create.
  - apply ncontract_inv_gone; auto.
  - destruct Hi as [Ha Hg He Ho Hr]. split; cbn; auto. intros _ id.
    destruct Hrel as [?|[Hm|[Hrec|Hrec]]]; [done|by apply Ho| |]; destruct (Ha id) as [->|?]; auto.
    by rewrite Hrec.
Qed.

Lemma nsteps_inv h a l a' :
  ncontract_inv h a -> nsteps false a l a' -> ncontract_inv (h ++ l) a'.
Proof.
  intros Ha Hs. revert h Ha. induction Hs as [a|a l a' m b H1 _ IH]; intros h Ha.
  - by rewrite app_nil_r.
  - rewrite app_assoc. apply IH. by eapply nstep_inv.
Qed.

(** ** The effects of a trace *)

(** The identifier of the network a path names. *)
Definition networkOf (c : Client) (path : string) : option string :=
  if HasPrefix path (projectPath c "/network/private/")
  then Some (TrimPrefix path (projectPath c "/network/private/")) else None.

Definition network_deleted (answer : gores unit) : bool :=
  match nilOnNotFound "" (retry_result "DeletePrivateNetwork" answer) with None => true | Some _ => false end.
Definition network_unknown (id : string) (answer : gores PrivateNetwork) : bool :=
  match wrapErr ("getting private network " +:+ id +:+ ": ") (retry_result "GetPrivateNetwork" answer) with
  | Ok _ => false
  | Err e => IsNotFound (Some e)
  end.

Definition nacts (c : Client) (e : event) : list action :=
  match e with
  | Ev r x =>
      match r in req X return X -> list action with
      | ApiPost _ path (BCreateNetwork _) tg =>
          match tg in target T return gores T -> list action with
          | TPrivateNetwork => fun answer =>
              match answer with
              | Ok net => if path =s? networkCollection c then [Created (PrivateNetwork_ID net)] else []
              | Err _ => []
              end
          | _ => fun _ => []
          end
      | ApiDelete _ path => fun answer =>
          match networkOf c path with
          | Some id => if network_deleted answer then [Deleted id] else []
          | None => []
          end
      | ApiGet _ path tg =>
          match tg in target T return gores T -> list action with
          | TPrivateNetwork => fun answer =>
              match networkOf c path with
              | Some id => if network_unknown id answer then [Unknown id] else []
              | None => []
              end
          | _ => fun _ => []
          end
      | _ => fun _ => []
      end x
  end.

Definition nactions (c : Client) (t : trace) : list action := concat (map (nacts c) t).

(** A created network has an identifier. *)
Definition names_networks (e : event) : Prop :=
  match e with
  | Ev r x =>
      match r in req X return X -> Prop with
      | ApiPost _ _ (BCreateNetwork _) tg =>
          match tg in target T return gores T -> Prop with
          | TPrivateNetwork => fun answer =>
              match answer with Ok net => PrivateNetwork_ID net <> "" | Err _ => True end
          | _ => fun _ => True
          end
      | _ => fun _ => True
      end x
  end.

Section effects.
Context (c : Client).

Lemma nactions_app t t' : nactions c (t ++ t') = nactions c t ++ nactions c t'.
Proof. unfold nactions. by rewrite List.map_app, List.concat_app. Qed.

Lemma networkOf_path id : networkOf c (networkPath c id) = Some id.
Proof.
  unfold networkOf, networkPath, projectPath. rewrite <- !sapp_assoc.
  by rewrite HasPrefix_app, TrimPrefix_app.
Qed.

Lemma networkOf_other s :
  HasPrefix s "/network/private/" = false -> networkOf c (projectPath c s) = None.
Proof. intros Hs. unfold networkOf, projectPath. by rewrite !HasPrefix_cancel, Hs. Qed.

(** Events with no other effect than showing that a network is unknown. *)
Definition nquiet (e : event) : Prop := forall a, a ∈ nacts c e -> exists id, a = Unknown id.

Lemma nquiet_nil e : nacts c e = [] -> nquiet e.
Proof. intros He a. rewrite He. set_solver. Qed.
Lemma nquiet_get {T} c' path (tg : target T) x : nquiet (Ev (ApiGet c' path tg) x).
Proof. intros a. destruct tg; cbn; repeat case_match; set_solver. Qed.
Lemma nquiet_delete c' path x : networkOf c path = None -> nquiet (Ev (ApiDelete c' path) x).
Proof. intros Hp a. cbn. rewrite Hp. set_solver. Qed.

(** A quiet trace is a sequence of [n_unknown] steps. *)
Lemma nquiet_nsteps keep t a :
  Forall nquiet t ->
  exists g, nsteps keep a (nactions c t) (a {{ n_gone := g }}) /\ n_gone a ⊆ g /\
            forall id, Unknown id ∈ nactions c t -> id ∈ g.
Proof.
  intros Ht. assert (Hq : forall x, x ∈ nactions c t -> exists id, x = Unknown id).
  { intros x Hx. unfold nactions in Hx. apply list_elem_of_In, in_concat in Hx as (l & Hl & Hx).
    apply in_map_iff in Hl as (e & <- & He). rewrite Forall_forall in Ht.
    apply (Ht e); by apply list_elem_of_In. }
  clear Ht. revert a Hq. generalize (nactions c t) as l.
  induction l as [|x l IH]; intros a Hq.
  - exists (n_gone a). split; [constructor|]. set_solver.
  - destruct (Hq x) as [id ->]; [set_solver|].
    destruct (IH (a {{ n_gone ::= union {[ id ]} }})) as (g & Hs & Hg & Hin).
    { intros y Hy. apply Hq. set_solver. }
    cbn in Hs, Hg. exists g. split; [|set_solver].
    eapply (nsteps_cons keep a [Unknown id]); [apply n_unknown|exact Hs].
Qed.
End effects.

Ltac nquiet_event :=
  lazymatch goal with
  | |- nquiet _ (Ev (ApiGet _ _ _) _) => apply nquiet_get
  | |- nquiet ?c (Ev (ApiDelete _ _) _) =>
      apply nquiet_delete; autounfold with paths;
      first [ by apply networkOf_other
            | by apply (networkOf_other c ("/region/" +:+ _)) ]
  | |- nquiet _ _ => by apply nquiet_nil
  end.

(** ** Refinement *)

Section refinement.
Context `{CapiLib}.

Definition nabs (o : OVHCluster) (g : gset string) : ncontract := {|
  n_managed := hasFinalizer o; n_recorded := CStatus_NetworkID (OVHCluster_Status o);
  n_mine := createdByController o; n_gone := g |}.

(** The trace [t] takes [o] to [o'] by contract steps. *)
Definition nevolves (c : Client) (keep : bool) (o : OVHCluster) (g : gset string)
  (t : trace) (o' : OVHCluster) (g' : gset string) : Prop :=
  nsteps keep (nabs o g) (nactions c t) (nabs o' g').

Lemma nevolves_app c keep o g t o1 g1 t' o2 g2 :
  nevolves c keep o g t o1 g1 -> nevolves c keep o1 g1 t' o2 g2 ->
  nevolves c keep o g (t ++ t') o2 g2.
Proof. unfold nevolves. rewrite nactions_app. apply nsteps_app. Qed.

(** Two states with one view; a run of quiet calls that keeps the view evolves. *)
Definition nview (v : ncontract) (o : OVHCluster) : Prop := nabs o ∅ = v.

Lemma nabs_same o o' g : nabs o ∅ = nabs o' ∅ -> nabs o g = nabs o' g.
Proof. unfold nabs. by intros [= -> -> ->]. Qed.

Lemma nquiet_evolves c keep o g t o' :
  Forall (nquiet c) t -> nview (nabs o ∅) o' ->
  exists g', nevolves c keep o g t o' g' /\ g ⊆ g' /\
    forall id, Unknown id ∈ nactions c t -> id ∈ g'.
Proof.
  intros Ht Hv. destruct (nquiet_nsteps c keep t (nabs o g) Ht) as (g' & Hs & Hg & Hin).
  exists g'. split; [|done]. unfold nevolves. by rewrite (nabs_same o' o g').
Qed.

Ltac nview_kept :=
  match goal with Hs : nview ?v _ |- nview ?v _ =>
    unfold nview, nabs, hasFinalizer, createdByController in *;
    cbn -[conditions_IsTrue conditions_Set ContainsFinalizer] in *;
    repeat (case_match; cbn -[conditions_IsTrue conditions_Set ContainsFinalizer]);
    rewrite ?IsTrue_Set_ne by done; exact Hs end.
Ltac nstays := first [nquiet_event | nview_kept | intros ?; by apply nquiet_nil].

(** *** The network step *)

Section cluster.
Context (scope : ClusterScope).
#[local] Abbreviation c := (CScope_OVHClient scope).

(** Everything else of a normal reconciliation leaves the network alone. *)
Lemma normal_view v :
  keeps (nquiet c) (nview v) (reconcileCredentials scope) /\
  keeps (nquiet c) (nview v) (reconcileFailureDomains scope) /\
  keeps (nquiet c) (nview v) (reconcileSecurityGroups scope) /\
  keeps (nquiet c) (nview v) (reconcileLoadBalancer scope) /\
  keeps (nquiet c) (nview v) (reconcileDNS scope) /\
  keeps (nquiet c) (nview v) markReady.
Proof. split_and!; keeps_with nstays. Qed.

(** The creation of the network, when none is recorded. *)
Lemma ncreated_actions path opts i es last :
  let rq := ApiPost (api c) path (BCreateNetwork opts) TPrivateNetwork in
  nactions c (retry_trace rq i es last) = nacts c (Ev rq last).
Proof.
  revert i. induction es as [|e es IH]; intros i.
  - unfold nactions. cbn [retry_trace map concat]. by rewrite app_nil_r.
  - apply (IH (S i)).
Qed.

Lemma CreatePrivateNetwork_actions opts t r :
  runs (CreatePrivateNetwork c opts) t r -> Forall names_networks t ->
  nactions c t = match r with Ok net => [Created (PrivateNetwork_ID net)] | Err _ => [] end /\
  match r with Ok net => PrivateNetwork_ID net <> "" | Err _ => True end.
Proof.
  intros Hr Hh. unfold CreatePrivateNetwork, apiPost in Hr. rinv. rewrite app_nil_r in *.
  apply retryWithBackoff_runs in Hr0 as (es & last & -> & _ & _ & _ & ->).
  rewrite ncreated_actions. match type of Hh with Forall _ (retry_trace ?rq _ _ _) =>
    destruct (retry_trace_last rq 0 es last) as [t' Ht] end.
  rewrite Ht in Hh. apply Forall_app in Hh as [_ Hh]. apply Forall_cons in Hh as [Hh _].
  cbn [names_networks] in Hh. destruct last as [net|e]; cbn [retry_result wrapErr nacts].
  - change (projectPath c "/network/private") with (networkCollection c). by rewrite strEqb_refl.
  - by destruct (IsRetryable (Some e)).
Qed.

Lemma mine_Set cs :
  conditions_IsTrue (conditions_Set cs (cond NetworkCreatedByControllerCondition ConditionTrue
    NetworkCreatedByControllerCondition "")) NetworkCreatedByControllerCondition = true.
Proof. by apply (IsTrue_Set_true cs (cond NetworkCreatedByControllerCondition _ _ _)). Qed.

Lemma ensureNetwork_evolves keep cfg region o g t r o' :
  hasFinalizer o = true ->
  runs (ensureNetwork scope cfg region o) t (r, o') -> Forall names_networks t ->
  exists g', nevolves c keep o g t o' g'.
Proof.
  intros Hf Hr Hh. unfold ensureNetwork, getStatus, setStatus, setCondition in Hr. rinv.
  destruct (_ =s? "") eqn:Hid in Hr; cbn [negb] in Hr; str_simpl; [|rinv; exists g; constructor].
  destruct (_ =s? "") eqn:Hgiven in Hr; cbn [negb] in Hr; rinv.
  2:{ exists g. apply nsteps_one. unfold nabs. cbn. by apply (n_given keep (nabs o g)). }
  cbn [app] in *. apply Forall_app in Hh as [Hh _].
  match goal with Hc : runs (CreatePrivateNetwork _ _) _ ?a |- _ =>
    apply CreatePrivateNetwork_actions in Hc as [Hact Hne]; [|done]; destruct a as [net|e] end.
  - unfold setStatus in Hr. rinv. exists (g ∖ {[ PrivateNetwork_ID net ]}).
    unfold nevolves. rewrite app_nil_r, Hact. apply nsteps_one.
    pose proof (n_create keep (nabs o g) (PrivateNetwork_ID net) Hf Hid Hne) as Hs.
    unfold nabs, createdByController in *.
    cbn -[conditions_IsTrue conditions_Set hasFinalizer] in *.
    rewrite mine_Set. exact Hs.
  - unfold setStatus in Hr. rinv. exists g. unfold nevolves. rewrite app_nil_r, Hact.
    match goal with |- nsteps _ _ _ (nabs ?s _) =>
      replace (nabs s g) with (nabs o g); [constructor|] end.
    unfold nabs, createdByController. cbn -[conditions_IsTrue conditions_Set hasFinalizer].
    by rewrite IsTrue_Set_ne.
Qed.

(** A read of the recorded network. *)
Lemma GetPrivateNetwork_actions id t r :
  runs (GetPrivateNetwork c id) t r ->
  Forall (nquiet c) t /\
  match r with Ok _ => True | Err e => IsNotFound (Some e) = true -> Unknown id ∈ nactions c t end.
Proof.
  intros Hr. unfold GetPrivateNetwork, apiGet in Hr. rinv. rewrite app_nil_r in *.
  change (projectPath c ("/network/private/" +:+ id)) with (networkPath c id) in Hr0.
  apply retryWithBackoff_runs in Hr0 as (es & last & -> & _ & _ & _ & ->).
  split; [apply retry_trace_forall; intros ?; [by apply nquiet_nil|apply nquiet_get]|].
  destruct (retry_trace_last (ApiGet (api c) (networkPath c id) TPrivateNetwork) 0 es last) as [t' Ht].
  rewrite Ht, nactions_app. destruct (wrapErr _ _) as [net|e] eqn:Hw; [done|].
  intros He. apply elem_of_app. right. unfold nactions. cbn [map concat nacts].
  rewrite networkOf_path, app_nil_r. unfold network_unknown. rewrite Hw, He. set_solver.
Qed.

(** After a quiet run, a network that OVH does not know is forgotten. *)
Lemma forget_evolves keep o g t :
  Forall (nquiet c) t -> Unknown (CStatus_NetworkID (OVHCluster_Status o)) ∈ nactions c t ->
  exists g', nevolves c keep o g t (o {{ OVHCluster_Status ::= fun s =>
    s {{ CStatus_NetworkID := ""; CStatus_SubnetID := "" }} }}) g'.
Proof.
  intros Hq Hu. destruct (nquiet_evolves c keep o g t o Hq eq_refl) as (g' & He & _ & Hin).
  exists g'. rewrite <- (app_nil_r t). eapply nevolves_app; [exact He|].
  apply nsteps_one. apply (n_forget keep (nabs o g')). by apply Hin.
Qed.

Lemma reconcileNetwork_evolves keep o g t r o' :
  hasFinalizer o = true ->
  runs (reconcileNetwork scope o) t (r, o') -> Forall names_networks t ->
  exists g', nevolves c keep o g t o' g'.
Proof.
  intros Hf Hr Hh. unfold reconcileNetwork, getSpec in Hr.
  apply runs_mbind in Hr as (? & ? & ? & ? & -> & [-> [= -> ->]] & Hr). cbn [app] in *.
  destruct (CSpec_NetworkConfig (OVHCluster_Spec o)) as [cfg|].
  2:{ assert (Hk : keeps (nquiet c) (nview (nabs o ∅)) (do! networkReady in mret (None : option goerror)))
        by keeps_with nstays.
      destruct (keeps_run _ _ _ _ _ _ _ Hk eq_refl Hr) as [Hq Hv].
      destruct (nquiet_evolves c keep o g _ o' Hq Hv) as (g' & He & _). by exists g'. }
  apply runs_mbind in Hr as (t1 & t2 & en & s1 & -> & H1 & Hr). apply Forall_app in Hh as [Hh _].
  destruct (ensureNetwork_evolves keep cfg _ o g t1 en s1 Hf H1 Hh) as [g1 He1].
  enough (exists g2, nevolves c keep s1 g1 t2 o' g2) as [g2 He2].
  { exists g2. by eapply nevolves_app. }
  destruct en as [e|]; [rinv; exists g1; constructor|].
  apply runs_mbind in Hr as (? & u & ? & ? & -> & [-> [= -> ->]] & Hr). cbn [app] in *.
  apply runs_mbind in Hr as (u1 & u2 & rn & ? & -> & [H2 ->]%runs_lift & Hr).
  apply GetPrivateNetwork_actions in H2 as [Hq Hunk]. destruct rn as [net|e].
  - match type of Hr with runs (?m s1) _ _ =>
      assert (Hk : keeps (nquiet c) (nview (nabs s1 ∅)) m) by keeps_with nstays end.
    destruct (keeps_run _ _ _ _ _ _ _ Hk eq_refl Hr) as [Hq2 Hv].
    destruct (nquiet_evolves c keep s1 g1 (u1 ++ u2) o') as (g2 & He & _); [by apply Forall_app|done|].
    by exists g2.
  - destruct (IsNotFound (Some e)) eqn:Hnf.
    + unfold setStatus, getStatus in Hr. rinv. rewrite app_nil_r. by apply forget_evolves, Hunk.
    + destruct (nquiet_evolves c keep s1 g1 u1 s1 Hq eq_refl) as (g2 & He & _).
      rinv. rewrite app_nil_r. by exists g2.
Qed.

(** *** Normal reconciliation *)

(** A step that leaves the network alone, then the rest. *)
Lemma quiet_bind keep {A B} (m : CM A) (f : A -> CM B) o g t r o' :
  keeps (nquiet c) (nview (nabs o ∅)) m ->
  (forall a s g1 t2, hasFinalizer s = hasFinalizer o -> runs (f a s) t2 (r, o') ->
     Forall names_networks t2 -> exists g', nevolves c keep s g1 t2 o' g') ->
  runs (mbind m f o) t (r, o') -> Forall names_networks t ->
  exists g', nevolves c keep o g t o' g'.
Proof.
  intros Hk Hf Hr Hh. apply runs_mbind in Hr as (t1 & t2 & a & s & -> & H1 & Hr).
  apply Forall_app in Hh as [_ Hh].
  destruct (keeps_run _ _ _ _ _ _ _ Hk eq_refl H1) as [Hq Hv].
  destruct (nquiet_evolves c keep o g t1 s Hq Hv) as (g1 & He & _).
  destruct (Hf a s g1 t2) as [g2 He2]; [|done..|].
  - unfold nview, nabs in Hv. by injection Hv.
  - exists g2. by eapply nevolves_app.
Qed.

Lemma quiet_rest keep {A} (m : CM A) o g t r o' :
  keeps (nquiet c) (nview (nabs o ∅)) m -> runs (m o) t (r, o') -> exists g', nevolves c keep o g t o' g'.
Proof.
  intros Hk Hr. destruct (keeps_run _ _ _ _ _ _ _ Hk eq_refl Hr) as [Hq Hv].
  destruct (nquiet_evolves c keep o g t o' Hq Hv) as (g1 & He & _). by exists g1.
Qed.

Lemma reconcileInfrastructure_evolves keep o g t r o' :
  hasFinalizer o = true ->
  runs (reconcileInfrastructure scope o) t (r, o') -> Forall names_networks t ->
  exists g', nevolves c keep o g t o' g'.
Proof.
  intros Hf Hr Hh. unfold reconcileInfrastructure in Hr. revert Hr Hh.
  apply quiet_bind; [apply normal_view|]. intros cr s1 g1 t2 Hf1 Hr Hh1.
  destruct cr as [e|]; [rinv; exists g1; constructor|].
  apply runs_mbind in Hr as (t3 & t4 & nr & s2 & -> & H2 & Hr). apply Forall_app in Hh1 as [Hh2 _].
  destruct (reconcileNetwork_evolves keep s1 g1 t3 nr s2 ltac:(congruence) H2 Hh2) as [g2 He2].
  enough (exists g3, nevolves c keep s2 g2 t4 o' g3) as [g3 He3].
  { exists g3. by eapply nevolves_app. }
  destruct nr as [e|]; [destruct (IsNetworkNotReady e); rinv; exists g2; constructor|].
  eapply quiet_rest; [|exact Hr].
  destruct (normal_view (nabs s2 ∅)) as (_ & ? & ? & ? & ? & ?).
  repeat (apply keeps_bind; [done|intros ?]). destruct a1 as [res [e|]]; [apply keeps_ret|].
  destruct (0 <? RequeueAfter res); [apply keeps_ret|].
  repeat (apply keeps_bind; [done|intros ?]). apply keeps_ret.
Qed.

Lemma ReconcileNormal_evolves keep o g t r o' :
  DeletionTimestamp (OVHCluster_ObjectMeta o) = None ->
  runs (ReconcileNormal scope o) t (r, o') -> Forall names_networks t ->
  exists g', nevolves c keep o g t o' g'.
Proof.
  intros Hts Hr Hh. unfold ReconcileNormal in Hr.
  apply runs_mbind in Hr as (t1 & t2 & start & s0 & -> & (? & ? & -> & -> & [= -> ->]) & Hr).
  apply runs_mbind in Hr as (t3 & t4 & out & s1 & -> & H1 & Hr).
  apply Forall_app in Hh as [_ Hh]. apply Forall_app in Hh as [Hh _].
  assert (Hb : exists g1, nevolves c keep o g t3 s1 g1).
  { unfold normalBody in H1.
    apply runs_mbind in H1 as (? & ? & ? & ? & -> & [-> [= -> ->]] & H1). cbn [app] in *.
    rewrite Hts in H1. rewrite bool_decide_eq_true_2, andb_true_r in H1 by done.
    destruct (ContainsFinalizer _ _) eqn:Hf in H1; cbn [negb] in H1.
    - by eapply reconcileInfrastructure_evolves.
    - rinv. exists g. apply nsteps_one. pose proof (n_manage keep (nabs o g)) as Hm.
      unfold nabs, hasFinalizer, createdByController in *. cbn -[ContainsFinalizer AddFinalizer conditions_IsTrue] in *.
      by rewrite ContainsFinalizer_Add. }
  destruct Hb as [g1 He1].
  assert (Hrest : exists g2, nevolves c keep s1 g1 t4 o' g2).
  { eapply quiet_rest; [|exact Hr]. keeps_with nstays. }
  destruct Hrest as [g2 He2].
  exists g2.
  eapply (nevolves_app c keep o g [_] o g); [constructor|]. by eapply nevolves_app.
Qed.

(** *** Deletion *)

(** The steps before the network leave it alone. *)
Lemma delete_view v fips :
  keeps (nquiet c) (nview v) (deleteDNS scope) /\
  keeps (nquiet c) (nview v) (deleteSecurityGroups scope) /\
  keeps (nquiet c) (nview v) (captureFips scope) /\
  keeps (nquiet c) (nview v) (deleteLB scope) /\
  keeps (nquiet c) (nview v) (deleteOrphanLBs scope) /\
  keeps (nquiet c) (nview v) (lift (cleanupFloatingIPs scope fips)) /\
  keeps (nquiet c) (nview v) (deleteGateway scope).
Proof. split_and!; keeps_with nstays. Qed.

Lemma DeletePrivateNetwork_actions id t r :
  runs (DeletePrivateNetwork c id) t r ->
  (forall a, a ∈ nactions c t -> a = Deleted id) /\ (r = None -> Deleted id ∈ nactions c t).
Proof.
  intros Hr. unfold DeletePrivateNetwork, apiDelete in Hr. rinv. rewrite app_nil_r in *.
  change (projectPath c ("/network/private/" +:+ id)) with (networkPath c id) in Hr0.
  apply retryWithBackoff_runs in Hr0 as (es & last & -> & _ & _ & _ & ->). split.
  - assert (Hall : Forall (fun e => forall a, a ∈ nacts c e -> a = Deleted id)
                     (retry_trace (ApiDelete (api c) (networkPath c id)) 0 es last)).
    { apply retry_trace_forall; [intros ? ?; cbn; set_solver|]. intros x a. cbn [nacts].
      rewrite networkOf_path. destruct (network_deleted x); set_solver. }
    intros a Ha. unfold nactions in Ha. apply list_elem_of_In, in_concat in Ha as (l & Hl & Ha).
    apply in_map_iff in Hl as (e & <- & He). rewrite Forall_forall in Hall.
    apply (Hall e); by apply list_elem_of_In.
  - intros Hn. destruct (retry_trace_last (ApiDelete (api c) (networkPath c id)) 0 es last) as [t' Ht].
    rewrite Ht, nactions_app. apply elem_of_app. right. unfold nactions. cbn [map concat nacts].
    rewrite networkOf_path, app_nil_r. unfold network_deleted.
    unfold nilOnNotFound in *. destruct (retry_result _ _) as [|e]; [set_solver|].
    destruct (IsNotFound (Some e)); [set_solver|done].
Qed.

(** A sequence of deletions of the recorded network. *)
Lemma ndeletions_nsteps keep l a :
  n_recorded a <> "" -> n_mine a = true -> (forall x, x ∈ l -> x = Deleted (n_recorded a)) ->
  exists g, nsteps keep a l (a {{ n_gone := g }}) /\ (l <> [] -> n_recorded a ∈ g).
Proof.
  intros Hne Hm. revert a Hne Hm. induction l as [|x l IH]; intros a Hne Hm Hl.
  - exists (n_gone a). split; [constructor|done].
  - pose proof (Hl x ltac:(set_solver)) as ->.
    destruct (IH (a {{ n_gone ::= union {[ n_recorded a ]} }})) as (g & Hs & Hg); [done|done| |].
    { intros y Hy. apply Hl. set_solver. }
    cbn in Hs, Hg. destruct (decide (l = [])) as [->|Hnl].
    + exists ({[ n_recorded a ]} ∪ n_gone a). split; [|set_solver].
      by apply nsteps_one, n_delete.
    + exists g. split; [|intros _; by apply Hg].
      eapply (nsteps_cons _ _ [_]); [by apply n_delete|exact Hs].
Qed.

(** The deletion of the network: what [release] needs. *)
Lemma deleteNetwork_evolves keep o g t r o' :
  runs (deleteNetwork scope o) t (r, o') ->
  o' = o /\ exists g', nevolves c keep o g t o g' /\
    (r = None -> createdByController o = false \/ CStatus_NetworkID (OVHCluster_Status o) = "" \/
                 CStatus_NetworkID (OVHCluster_Status o) ∈ g').
Proof.
  intros Hr. split; [by apply deleteNetwork_run in Hr as [-> _]|].
  unfold deleteNetwork, getStatus in Hr. rinv. unfold createdByController.
  destruct (conditions_IsTrue _ _) eqn:Hc in Hr; cbn [andb] in Hr.
  2:{ rinv. exists g. split; [constructor|by left]. }
  destruct (_ =s? "") eqn:Hn in Hr; cbn [negb] in Hr; str_simpl.
  { rinv. exists g. split; [constructor|by right; left]. }
  apply runs_mbind in Hr as (t1 & t2 & rd & s1 & -> & [H1 ->]%runs_lift & Hr).
  apply DeletePrivateNetwork_actions in H1 as [Hdel Hdone].
  destruct (ndeletions_nsteps keep (nactions c t1) (nabs o g) Hn Hc Hdel) as (g1 & Hs & Hg1).
  exists g1. destruct rd as [e|]; rinv; cbn [app]; rewrite ?app_nil_r; (split; [exact Hs|]); [done|].
  intros _. right. right. apply Hg1. specialize (Hdone eq_refl). intros Heq. rewrite Heq in Hdone. set_solver.
Qed.

Lemma removeClusterFinalizer_evolves keep o g :
  keep = true \/ createdByController o = false \/ CStatus_NetworkID (OVHCluster_Status o) = "" \/
    CStatus_NetworkID (OVHCluster_Status o) ∈ g ->
  forall t r o', runs (removeClusterFinalizer o) t (r, o') -> nevolves c keep o g t o' g.
Proof.
  intros Hrel t r o' Hr. unfold removeClusterFinalizer in Hr. rinv. apply nsteps_one.
  pose proof (n_release keep (nabs o g)) as Hs.
  unfold nabs, hasFinalizer, createdByController in *.
  cbn -[ContainsFinalizer RemoveFinalizer conditions_IsTrue] in *.
  rewrite ContainsFinalizer_Remove. by apply Hs.
Qed.

Lemma deleteResources_evolves keep o g t r o' :
  runs (deleteResources scope o) t (r, o') -> Forall names_networks t ->
  exists g', nevolves c keep o g t o' g'.
Proof.
  intros Hr Hh. unfold deleteResources in Hr.
  revert Hr Hh.
  do 3 (apply quiet_bind; [by apply (delete_view _ [])|intros ? s g1 u _; clear o g t; rename s into o, g1 into g, u into t]).
  rename a1 into fips. apply quiet_bind; [by apply (delete_view _ [])|intros e s g1 u _; clear o g t; rename s into o, g1 into g, u into t].
  destruct e as [e|]; [intros Hr _; rinv; exists g; constructor|].
  apply quiet_bind; [by apply (delete_view _ [])|intros ? s g1 u _; clear o g t; rename s into o, g1 into g, u into t].
  apply quiet_bind; [by apply (delete_view _ fips)|intros present s g1 u _; clear o g t; rename s into o, g1 into g, u into t].
  destruct present; [intros Hr _; rinv; exists g; constructor|].
  apply quiet_bind; [by apply (delete_view _ [])|intros ? s g1 u _; clear o g t; rename s into o, g1 into g, u into t].
  intros Hr _. apply orElse_cases in Hr as [Hr|(t1 & t2 & s & -> & H1 & Hr)].
  - destruct (deleteNetwork_evolves keep o g _ _ _ Hr) as (-> & g' & He & _). by exists g'.
  - destruct (deleteNetwork_evolves keep o g _ _ _ H1) as (-> & g' & He & Hg).
    apply runs_mbind in Hr as (u1 & u2 & ? & s & -> & H2 & Hr). rinv. exists g'.
    rewrite app_nil_r. eapply nevolves_app; [exact He|].
    eapply removeClusterFinalizer_evolves; [right; by apply Hg|exact H2].
Qed.

Lemma ReconcileDelete_evolves o g t r o' :
  runs (ReconcileDelete scope o) t (r, o') -> Forall names_networks t ->
  exists g', nevolves c (keepPolicy o) o g t o' g'.
Proof.
  intros Hr Hh. unfold ReconcileDelete in Hr.
  apply runs_mbind in Hr as (t1 & t2 & start & s0 & -> & (? & ? & -> & -> & [= -> ->]) & Hr).
  apply runs_mbind in Hr as (? & ? & ? & ? & -> & [-> [= -> ->]] & Hr). cbn [app] in *.
  apply runs_mbind in Hr as (t3 & t4 & out & s1 & -> & H1 & Hr).
  apply Forall_cons in Hh as [_ Hh]. apply Forall_app in Hh as [Hh _].
  assert (Hb : exists g1, nevolves c (keepPolicy o) o g t3 s1 g1).
  { destruct (keepPolicy o) eqn:Hk; [|by eapply deleteResources_evolves].
    apply runs_mbind in H1 as (u & v & ? & s & -> & H1 & Hr1). rinv. exists g. rewrite app_nil_r.
    eapply removeClusterFinalizer_evolves; [by left|exact H1]. }
  destruct Hb as [g1 He1].
  assert (Hrest : exists g2, nevolves c (keepPolicy o) s1 g1 t4 o' g2).
  { eapply quiet_rest; [|exact Hr]. keeps_with nstays. }
  destruct Hrest as [g2 He2]. exists g2.
  eapply (nevolves_app c _ o g [_] o g); [constructor|]. by eapply nevolves_app.
Qed.
End cluster.

(** ** Lives of a cluster *)

(** One step of the life of a cluster of the project of [c]: a normal
    reconciliation of an object that is not being deleted, a deletion of an
    object whose policy is to keep only if [keep] allows it, each with a scope of
    its own, or an edit of the specification or metadata by others. *)
Inductive nlife_step (c : Client) (keep : bool) : OVHCluster -> trace -> OVHCluster -> Prop :=
| nl_normal scope o t r o' :
    CScope_OVHClient scope = c -> DeletionTimestamp (OVHCluster_ObjectMeta o) = None ->
    runs (ReconcileNormal scope o) t (r, o') -> nlife_step c keep o t o'
| nl_delete scope o t r o' :
    CScope_OVHClient scope = c -> (keepPolicy o = true -> keep = true) ->
    runs (ReconcileDelete scope o) t (r, o') -> nlife_step c keep o t o'
| nl_edit o o' :
    OVHCluster_Status o' = OVHCluster_Status o -> hasFinalizer o' = hasFinalizer o ->
    nlife_step c keep o [] o'.

Inductive nlife (c : Client) (keep : bool) : OVHCluster -> trace -> OVHCluster -> Prop :=
| nlife_nil o : nlife c keep o [] o
| nlife_step_ o t o' t' o'' :
    nlife_step c keep o t o' -> nlife c keep o' t' o'' -> nlife c keep o (t ++ t') o''.

Lemma nsteps_keep (k keep : bool) a l a' :
  (k = true -> keep = true) -> nsteps k a l a' -> nsteps keep a l a'.
Proof.
  intros Hk. induction 1 as [a|a l a' m b Hs _ IH]; [constructor|].
  econstructor; [|exact IH]. destruct Hs; try by constructor. constructor. naive_solver.
Qed.

Lemma nlife_nsteps c keep o t o' g :
  nlife c keep o t o' -> Forall names_networks t ->
  exists g', nsteps keep (nabs o g) (nactions c t) (nabs o' g').
Proof.
  intros Hl. revert g. induction Hl as [o|o t o1 t' o2 Hs _ IH]; intros g Hh.
  - exists g. constructor.
  - apply Forall_app in Hh as [Hh1 Hh2].
    assert (Hstep : exists g1, nsteps keep (nabs o g) (nactions c t) (nabs o1 g1)).
    { destruct Hs as [scope o t r o1 <- Hts Hr|scope o t r o1 <- Hk Hr|o o1 Hst Hf].
      - exact (ReconcileNormal_evolves scope keep o g t r o1 Hts Hr Hh1).
      - destruct (ReconcileDelete_evolves scope o g t r o1 Hr Hh1) as [g1 He].
        exists g1. by eapply nsteps_keep.
      - exists g. replace (nabs o1 g) with (nabs o g); [constructor|].
        unfold nabs, createdByController. by rewrite Hst, Hf. }
    destruct Hstep as [g1 H1]. destruct (IH g1 Hh2) as [g2 H2].
    exists g2. rewrite nactions_app. by eapply nsteps_app.
Qed.

(** C6.  The cluster reconciler implements the contract of its private network:
    over a whole life of a cluster, what is visible of the network moves by
    contract steps, whose labels are exactly the networks the trace creates,
    deletes and finds missing, in this order. *)
Theorem cluster_refines_network_contract c keep o t o' g :
  nlife c keep o t o' -> Forall names_networks t ->
  exists g', nsteps keep (nabs o g) (nactions c t) (nabs o' g').
Proof. apply nlife_nsteps. Qed.

End refinement.

(** ** Witnesses *)

(** A cluster creates its network, is deleted, and goes. *)
Definition founded := after_normal (demo_object "" false).
Definition closing : OVHCluster :=
  founded.2.2 {{ OVHCluster_ObjectMeta := demo_meta "test" true [ClusterFinalizer] }}.
Definition closed := after_delete closing.

Lemma demo_nlife keep :
  nlife demo_client keep (demo_object "" false) (founded.1 ++ [] ++ closed.1 ++ []) closed.2.2.
Proof.
  eapply nlife_step_; [apply (nl_normal _ _ demo_scope _ _ founded.2.1); try reflexivity;
    rewrite <- surjective_pairing; apply demo_runs|].
  eapply nlife_step_; [apply (nl_edit _ _ founded.2.2 closing); reflexivity|].
  eapply nlife_step_; [apply (nl_delete _ _ demo_scope _ _ closed.2.1); try reflexivity;
    [discriminate|rewrite <- surjective_pairing; apply demo_runs]|].
  constructor.
Qed.

Lemma cluster_refines_network_contract_witness :
  exists g', nsteps false (nabs (demo_object "" false) ∅)
    [Created "net-created"; Deleted "net-created"] (nabs closed.2.2 g').
Proof.
  refine (cluster_refines_network_contract demo_client false (demo_object "" false) _ closed.2.2 ∅
            (demo_nlife false) _).
  honest_run.
Defined.

