(* ===== verification/Orchestration.v ===== *)
(** * Orchestration: the two reconcilers and Cluster API together

    The reconcilers never call each other: the cluster's publishes
    status.initialization.provisioned, Cluster API copies it to the Cluster, and
    the machine's waits for it there.  [sys_step] composes the two whole
    [Reconcile] functions through the objects stored in the management cluster,
    which every run may read in any earlier version; instances come after the
    infrastructure in every such history. *)
From S2P Require Import Prelude.
From S2P Require Import GoStrings.
From S2P Require Import GoErrors.
From S2P Require Import OvhTypes.
From S2P Require Import K8sTypes.
From S2P Require Import ApiV1alpha2.
From S2P Require Import Effects.
From S2P Require Import OvhClient.
From S2P Require Import OvhClientSpec.
From S2P Require Import Hoare.
From S2P Require Import Naming.
From S2P Require Import CapiLib.
From S2P Require Import ClusterController.
From S2P Require Import ClusterLB.
From S2P Require Import ClusterReconcile.
From S2P Require Import WorkloadNode.
From S2P Require Import MachineController.
From S2P Require Import Demo.
From S2P Require Import ClusterSafety.
From S2P Require Import ClusterDelete.
From S2P Require Import ClusterNormal.
From S2P Require Import ClusterLBSpec.
From S2P Require Import MachineSpec.
From S2P Require Import ReconcileSpec.
From S2P Require Import Idempotence.
#[local] Open Scope Z_scope.
#[local] Open Scope go_scope.

Definition initialized (o : OVHCluster) : bool :=
  bool_decide (Provisioned (CStatus_Initialization (OVHCluster_Status o)) = Some true).

(** The event does not ask OVH for an instance. *)
Definition asks_none (e : event) : Prop :=
  match e with
  | Ev (ApiPost _ _ (BCreateInstance _) _) _ => False
  | _ => True
  end.

(** ** One reconciliation *)

Section reconcilers.
Context `{CapiLib}.

(** A machine whose cluster is not provisioned asks for no instance. *)
Lemma MachineReconcileNormal_waits scope o t r :
  Cluster_InfrastructureProvisioned (MScope_Cluster scope) <> Some true ->
  runs (MachineReconcileNormal scope o) t r -> Forall asks_none t.
Proof.
  intros Hw Hr. destruct r as [r o'].
  assert (Hd : default false (Cluster_InfrastructureProvisioned (MScope_Cluster scope)) = false).
  { by destruct (Cluster_InfrastructureProvisioned _) as [[]|]. }
  assert (Hk : keeps asks_none any (MachineReconcileNormal scope)).
  { unfold MachineReconcileNormal. keeps_step; [keeps_with done|].
    keeps_step; [|keeps_with done].
    unfold machineNormalBody. rewrite Hd. cbn [negb]. keeps_with done. }
  by apply (keeps_run _ _ _ _ _ _ _ Hk I Hr).
Qed.

Lemma MachineReconcileDelete_asks_none scope :
  keeps asks_none any (MachineReconcileDelete scope).
Proof. keeps_with done. Qed.

(** What a run reads of the Cluster: provisioned only if [seen]. *)
Definition reads_flag (seen : bool) (e : event) : Prop :=
  match e with
  | Ev r x =>
      match r in req X return X -> Prop with
      | GetClusterFromMetadata _ => fun a =>
          match a with
          | Ok (Some cl) => Cluster_InfrastructureProvisioned cl = Some true -> seen = true
          | _ => True
          end
      | _ => fun _ => True
      end x
  end.

Lemma machineReconcileOwned_waits o t r :
  runs (machineReconcileOwned o) t r -> Forall (reads_flag false) t -> Forall asks_none t.
Proof.
  intros Hr Hf. unfold machineReconcileOwned in Hr. destruct r as [r o'].
  apply runs_mbind in Hr as (? & ? & ? & ? & -> & [-> [= -> ->]] & Hr). cbn [app] in *.
  rinv. case_run Hr; [|by repeat constructor]. case_run Hr; [|by repeat constructor].
  case_run Hr; [case_run Hr|]; [|by repeat constructor..].
  case_run Hr; [|by repeat constructor].
  assert (Hclient : Forall asks_none x1).
  { refine (emits_run _ _ _ _ _ Hr0). keeps_with done. }
  assert (Hflag : Cluster_InfrastructureProvisioned c <> Some true).
  { apply Forall_app in Hf as [_ Hf]. apply Forall_app in Hf as [Hf _].
    apply Forall_cons in Hf as [Hf _]. cbn in Hf. intros Hc. by specialize (Hf Hc). }
  do 3 (apply Forall_app; split; [by repeat constructor|]). apply Forall_app; split; [done|].
  destruct x4 as [client|e]; [|rinv; constructor]. case_run Hr.
  - eapply MachineReconcileNormal_waits; [|exact Hr]. exact Hflag.
  - by apply (keeps_run _ _ _ _ _ _ _ (MachineReconcileDelete_asks_none _) I Hr).
Qed.

Lemma no_ovh_asks_none e : no_ovh e -> asks_none e.
Proof. unfold no_ovh. by destruct e as [X [] x]. Qed.

Lemma MachineReconcile_waits ns name t r :
  runs (MachineReconcile ns name) t r -> Forall (reads_flag false) t -> Forall asks_none t.
Proof.
  intros [[_ Hn]|(o & h & t2 & o' & res & err & p & -> & H1 & _)]%MachineReconcile_cases Hf.
  - eapply Forall_impl; [exact Hn|]. apply no_ovh_asks_none.
  - do 2 (apply Forall_cons in Hf as [_ Hf]). apply Forall_app in Hf as [Hf _].
    do 2 (constructor; [done|]). apply Forall_app; split; [|by repeat constructor].
    by eapply machineReconcileOwned_waits.
Qed.

(** A reconciliation of a cluster ends provisioned, or leaves the ready flag as
    it was, and is never initialized without being ready. *)
Definition init_ready (o : OVHCluster) : Prop := initialized o = true -> ready o = true.

Ltac init_kept :=
  match goal with Hs : init_ready _ |- init_ready _ =>
    unfold init_ready, initialized, ready in *; cbn in *; repeat (case_match; cbn in * ); done end.

Lemma reconcileOwned_init : keeps (fun _ => True) init_ready reconcileOwned.
Proof. keeps_with ltac:(first [done | init_kept]). Qed.

Lemma ReconcileDelete_ready scope b :
  keeps (fun _ => True) (fun o => ready o = b) (ReconcileDelete scope).
Proof. keeps_with ltac:(first [done | unfold ready in *; cbn in *; done]). Qed.

Lemma ReconcileNormal_ready scope o t r o' :
  runs (ReconcileNormal scope o) t (r, o') -> provisioned o' \/ ready o' = ready o.
Proof.
  intros Hr. unfold ReconcileNormal, observeDuration, observeReady in Hr. rinv.
  match goal with Hb : runs (normalBody _ _) _ _ |- _ => unfold normalBody in Hb; rename Hb into Hb0 end.
  rinv. case_run Hb0; [by right|].
  destruct (reconcileInfrastructure_run _ _ _ _ _ Hb0) as [[_ ?]|[_ ?]]; [by left|by right].
Qed.

Lemma reconcileOwned_ready o t r o' :
  runs (reconcileOwned o) t (r, o') -> provisioned o' \/ ready o' = ready o.
Proof.
  intros Hr. unfold reconcileOwned in Hr. rinv. case_run Hr; [|by right].
  case_run Hr; [|by right]. unfold setCondition, setStatus in Hr.
  match type of Hr with runs ((match ?x with _ => _ end) _) _ _ => destruct x as [cl|e] end.
  - case_run Hr; [by eapply ReconcileNormal_ready|right].
    by apply (keeps_run _ _ _ _ _ _ _ (ReconcileDelete_ready _ (ready o)) eq_refl Hr).
  - rinv. by right.
Qed.
End reconcilers.

(** ** The system *)

Section system.
Context `{CapiLib}.

(** The versions of the OVHCluster that were ever stored, and whether Cluster API
    has marked the Cluster as having its infrastructure. *)
Record sys := { stored : list OVHCluster; flagged : bool }.

(** What a run reads was stored, now or earlier. *)
Definition reads_of (s : sys) (e : event) : Prop :=
  reads_flag (flagged s) e /\
  match e with
  | Ev r x =>
      match r in req X return X -> Prop with
      | GetOVHCluster _ _ => fun a => match a with Ok v => v ∈ stored s | Err _ => True end
      | _ => fun _ => True
      end x
  end.

(** The versions a run stores. *)
Definition stores (e : event) : list OVHCluster :=
  match e with
  | Ev r x =>
      match r in req X return X -> list OVHCluster with
      | PatchOVHCluster o => fun a => match a with None => [o] | Some _ => [] end
      | _ => fun _ => []
      end x
  end.

(** One step: a reconciliation of the cluster or of one of its machines; Cluster
    API, which marks the Cluster once an OVHCluster is initialized; an edit of
    the specification or metadata. *)
Inductive sys_step (s : sys) : trace -> sys -> Prop :=
| s_cluster ns name t r :
    runs (Reconcile ns name) t r -> Forall (reads_of s) t ->
    sys_step s t {| stored := concat (map stores t) ++ stored s; flagged := flagged s |}
| s_machine ns name t r :
    runs (MachineReconcile ns name) t r -> Forall (reads_of s) t -> sys_step s t s
| s_flag v :
    v ∈ stored s -> initialized v = true ->
    sys_step s [] {| stored := stored s; flagged := true |}
| s_edit v v' :
    v ∈ stored s -> OVHCluster_Status v' = OVHCluster_Status v ->
    sys_step s [] {| stored := v' :: stored s; flagged := flagged s |}.

Inductive sys_steps : sys -> trace -> sys -> Prop :=
| sys_nil s : sys_steps s [] s
| sys_snoc s t s1 t' s2 : sys_steps s t s1 -> sys_step s1 t' s2 -> sys_steps s (t ++ t') s2.

(** A version was provisioned: it was ready, with its four conditions true and a
    load balancer recorded. *)
Definition was_provisioned (s : sys) : Prop := exists v, v ∈ stored s /\ provisioned v.

Record sys_inv (s : sys) : Prop := {
  si_init v : v ∈ stored s -> init_ready v;
  si_ready v : v ∈ stored s -> ready v = true -> was_provisioned s;
  si_flag : flagged s = true -> was_provisioned s;
}.

Lemma was_provisioned_mono s l b :
  was_provisioned s -> was_provisioned {| stored := l ++ stored s; flagged := b |}.
Proof. intros (v & Hv & Hp). exists v. split; [|done]. cbn. set_solver. Qed.

(** A stored version comes from one that was read. *)
Lemma Reconcile_stores s ns name t r :
  runs (Reconcile ns name) t r -> Forall (reads_of s) t ->
  concat (map stores t) = [] \/
  exists o o' t2 x, concat (map stores t) = [o'] /\ o ∈ stored s /\ runs (reconcileOwned o) t2 (x, o').
Proof.
  assert (Hnone : forall u, Forall no_patch u -> concat (map stores u) = []).
  { induction 1 as [|e u He _ IH]; [done|]. cbn. rewrite IH.
    destruct e as [X [] x]; done. }
  intros [[Hn _]|(o & h & t2 & o' & res & err & p & -> & H1 & _)]%Reconcile_cases Hf; [left; by apply Hnone|].
  apply Forall_cons in Hf as [[_ Hread] _]. cbn in Hread.
  cbn [map concat stores app]. rewrite List.map_app, List.concat_app, Hnone.
  2:{ by apply (keeps_run _ any _ _ _ _ _ reconcileOwned_no_patch I H1). }
  cbn. destruct p; [by left|right]. by exists o, o', t2, (res, err).
Qed.

Lemma sys_step_inv s t s' : sys_step s t s' -> sys_inv s -> sys_inv s'.
Proof.
  intros Hs [Hi Hr Hfl]. destruct Hs as [ns name t r Hrun Hf|ns name t r _ _|v Hv Hin|v v' Hv Hst].
  - destruct (Reconcile_stores s ns name t r Hrun Hf) as [->|(o & o' & t2 & x & -> & Ho & H1)]; [by split|].
    set (s' := {| stored := [o'] ++ stored s; flagged := flagged s |}).
    assert (Ho' : init_ready o').
    { exact (proj2 (keeps_run _ _ _ _ _ _ _ reconcileOwned_init (Hi o Ho) H1)). }
    assert (Hready : ready o' = true -> was_provisioned s').
    { intros Hro. apply reconcileOwned_ready in H1 as [Hp|Heq].
      - exists o'. split; [|done]. cbn. set_solver.
      - apply was_provisioned_mono. apply (Hr o); congruence. }
    split.
    + intros v [->|Hv]%elem_of_cons; [done|by apply Hi].
    + intros v [->|Hv]%elem_of_cons Hv'; [by apply Hready|]. by eapply was_provisioned_mono, Hr.
    + intros Hb. by apply was_provisioned_mono, Hfl.
  - done.
  - split; [done|done|]. intros _. by apply (Hr v), (Hi v).
  - assert (Hmono : was_provisioned s -> was_provisioned {| stored := v' :: stored s; flagged := flagged s |}).
    { apply (was_provisioned_mono s [v']). }
    split.
    + intros u [->|Hu]%elem_of_cons; [|by apply Hi]. specialize (Hi v Hv).
      unfold init_ready, initialized, ready in *. by rewrite Hst.
    + intros u [->|Hu]%elem_of_cons Hru; apply Hmono; [apply (Hr v Hv)|by apply (Hr u)].
      unfold ready in *. by rewrite Hst in Hru.
    + intros Hb. by apply Hmono, Hfl.
Qed.

Lemma sys_steps_inv s t s' : sys_steps s t s' -> sys_inv s -> sys_inv s'.
Proof. induction 1 as [|s t s1 t' s2 _ IH Hs]; [done|]. intros Hi. eapply sys_step_inv; eauto. Qed.

(** A cluster before its first reconciliation. *)
Definition unprovisioned (o : OVHCluster) : Prop := ready o = false /\ initialized o = false.

(** C9.  Instances come after the infrastructure: in every history of a cluster and
    its machines, of whole reconciliations that read the OVHCluster in any
    earlier version, of Cluster API and of edits, starting before the first
    reconciliation, a run of the machine reconciler that asks OVH for an instance
    comes after a version of the OVHCluster was stored that is ready, with true
    conditions for credentials, network, load balancer and infrastructure, and a
    recorded load balancer. *)
Theorem instances_after_infrastructure o0 t s ns name t' r :
  unprovisioned o0 -> sys_steps {| stored := [o0]; flagged := false |} t s ->
  runs (MachineReconcile ns name) t' r -> Forall (reads_of s) t' ->
  ~ Forall asks_none t' -> exists v, v ∈ stored s /\ provisioned v.
Proof.
  intros [Hr Hi] Hs Hrun Hf Hasks.
  assert (Hinv : sys_inv s).
  { eapply sys_steps_inv; [exact Hs|]. split; cbn; [| |done].
    - intros v ->%list_elem_of_singleton. intros Hin. congruence.
    - intros v ->%list_elem_of_singleton Hready. congruence. }
  apply (si_flag s Hinv). destruct (flagged s) eqn:Hfl; [done|]. destruct Hasks.
  eapply MachineReconcile_waits; [exact Hrun|]. eapply Forall_impl; [exact Hf|].
  unfold reads_of. rewrite Hfl. by intros e [? _].
Qed.
End system.

(** ** A network that vanishes *)

(** A provisioned cluster stays initialized, also while its network is being
    replaced; a machine reconciled in between gets an instance without the
    private network.  Here the network OVH lost is forgotten, the object stays
    initialized, and the request for an instance names no network. *)
Definition ready_object : OVHCluster := owned_object {{ OVHCluster_Status ::= fun s =>
  s {{ CStatus_Ready := true; CStatus_Initialization := {| Provisioned := Some true |} }} }}.
Definition bereft_object : OVHCluster := (demo_run no_network (ReconcileNormal demo_scope ready_object)).2.2.
Definition bereft_scope : MachineScope := worker {{ MScope_OVHCluster := bereft_object }}.

(** The networks the requests for instances name. *)
Definition asked_networks (e : event) : list (list InstanceNetwork) :=
  match e with
  | Ev (ApiPost _ _ (BCreateInstance opts) _) _ => [CreateInstanceOpts_Networks opts]
  | _ => []
  end.

Lemma asks_none_networks t : Forall asks_none t -> concat (map asked_networks t) = [].
Proof.
  induction 1 as [|e t He _ IH]; [done|]. cbn. rewrite IH.
  destruct e as [X [] x]; try done. by destruct b.
Qed.

Theorem vanished_network_leaves_machines_unattached :
  initialized bereft_object = true /\
  is_Some (CSpec_NetworkConfig (OVHCluster_Spec bereft_object)) /\
  concat (map asked_networks
    (exec (creating_env (stocked [])) (MachineReconcileNormal bereft_scope (demo_machine false "")) tt).1) = [[]].
Proof. split; [reflexivity|]. split; [by eexists|]. vm_compute. reflexivity. Qed.

(** ** Witness *)

(** The management cluster: the OVHCluster is [cl], one machine has no instance. *)
Definition management_env (cl : OVHCluster) (b : bool) : handler unit := fun X w r =>
  match r in req X return X * unit with
  | GetSecret ns name => (Ok {| Secret_ObjectMeta := demo_meta name false [];
      Secret_Data := {[ "value" := "#cloud-config"; "endpoint" := "ovh-eu"; "applicationKey" := "ak";
                        "applicationSecret" := "as"; "consumerKey" := "ck" ]} |}, w)
  | GoOvhNewClient _ => (None, w)
  | GetOVHCluster _ _ => (Ok cl, w)
  | GetOVHMachine _ _ => (Ok (demo_machine false ""), w)
  | GetOwnerMachine _ => (Ok (Some (MScope_Machine worker)), w)
  | GetClusterFromMetadata _ => (Ok (Some (demo_cluster {{ Cluster_InfrastructureProvisioned := Some b }})), w)
  | r => demo_env (stocked []) _ w r
  end.

Definition sys_run {A} (cl : OVHCluster) (b : bool) (p : prog A) := exec (management_env cl b) p tt.

Lemma exec_forall {W A} (P : event -> Prop) (h : handler W) (p : prog A) w :
  (forall X (r : req X) w, P (Ev r (h _ w r).1)) -> Forall P (exec h p w).1.
Proof.
  intros HP. revert w. induction p as [a|X r k IH]; intros w; cbn [exec]; [constructor|].
  pose proof (HP X r w) as Hr. destruct (h X w r) as [x w']. specialize (IH x w').
  destruct (exec h (k x) w') as [t a]. by constructor.
Qed.

Lemma sys_run_reads {A} s cl b (p : prog A) :
  cl ∈ stored s -> (b = true -> flagged s = true) -> Forall (reads_of s) (sys_run cl b p).1.
Proof.
  intros Hcl Hb. apply exec_forall. intros X r w. split; destruct r; try done.
  cbn. intros [= ->]. by apply Hb.
Qed.
Definition first_object : OVHCluster := demo_object "net" false.
Definition cluster_run (cl : OVHCluster) := sys_run cl false (Reconcile "default" "test").
Definition left_by (cl : OVHCluster) : OVHCluster := (sys_run cl false (reconcileOwned cl)).2.2.
Definition second_object := left_by first_object.
Definition third_object := left_by second_object.
Definition orchestrated : sys := {| stored := [third_object; second_object; first_object]; flagged := true |}.

Lemma s_cluster_stores `{CapiLib} s ns name t r l :
  runs (Reconcile ns name) t r -> Forall (reads_of s) t -> concat (map stores t) = l ->
  sys_step s t {| stored := l ++ stored s; flagged := flagged s |}.
Proof. intros Hr Hf <-. by eapply s_cluster. Qed.

Lemma demo_sys_steps :
  sys_steps {| stored := [first_object]; flagged := false |}
    ((([] ++ (cluster_run first_object).1) ++ (cluster_run second_object).1) ++ []) orchestrated.
Proof.
  eapply sys_snoc; [eapply sys_snoc; [eapply sys_snoc; [constructor|]|]|].
  - eapply (s_cluster_stores _ "default" "test" _ _ [second_object]);
      [apply exec_runs|by apply sys_run_reads; [left|]|vm_compute; reflexivity].
  - eapply (s_cluster_stores _ "default" "test" _ _ [third_object]);
      [apply exec_runs|by apply sys_run_reads; [left|]|vm_compute; reflexivity].
  - apply (s_flag {| stored := [third_object; second_object; first_object]; flagged := false |} third_object);
      [left|vm_compute; reflexivity].
Qed.

Definition machine_run := sys_run third_object true (MachineReconcile "default" "m0").

Lemma instances_after_infrastructure_witness :
  concat (map asked_networks machine_run.1) = [[{| InstanceNetwork_NetworkID := "net" |}]] /\
  exists v, v ∈ stored orchestrated /\ provisioned v.
Proof.
  split; [vm_compute; reflexivity|].
  refine (instances_after_infrastructure first_object _ orchestrated "default" "m0"
            machine_run.1 machine_run.2 _ demo_sys_steps _ _ _).
  - split; reflexivity.
  - apply exec_runs.
  - by apply sys_run_reads; [left|].
  - intros Hn%asks_none_networks. vm_compute in Hn. discriminate Hn.
Defined.
