(* ===== verification/BalancerSpec.v ===== *)
(** * BalancerSpec: how many load balancers a cluster gets

    Load balancers are found again by name, like instances, but a failed lookup
    does not stop a creation.  [sober] bounds the creations a trace may contain by
    what its listings answered; it holds of a concatenation when it holds of its
    parts, so the proof follows the structure of the program ([traces]). *)
From S2P Require Import Prelude.
From S2P Require Import GoStrings.
From S2P Require Import GoErrors.
From S2P Require Import OvhTypes.
From S2P Require Import K8sTypes.
From S2P Require Import ApiV1alpha2.
From S2P Require Import Effects.
From S2P Require Import OvhClient.
From S2P Require Import OvhClientSpec.
From S2P Require Import Hoare.
From S2P Require Import Naming.
From S2P Require Import CapiLib.
From S2P Require Import ClusterController.
From S2P Require Import ClusterLB.
From S2P Require Import ClusterReconcile.
From S2P Require Import MachineController.
From S2P Require Import Demo.
From S2P Require Import ClusterSafety.
From S2P Require Import ClusterLBSpec.
From S2P Require Import World.
#[local] Open Scope Z_scope.
#[local] Open Scope go_scope.

(** ** Properties of traces that follow the structure of a program *)

Section traces.
Context (P : trace -> Prop).

(** Every run of [m], from any state, has a trace in [P]. *)
Definition traces {S A} (m : M S A) : Prop := forall s t r, runs (m s) t r -> P t.

Class TraceClosed := { closed_nil : P []; closed_app t1 t2 : P t1 -> P t2 -> P (t1 ++ t2) }.
Context `{!TraceClosed}.

Lemma traces_bind {S A B} (m : M S A) (f : A -> M S B) :
  traces m -> (forall a, traces (f a)) -> traces (mbind m f).
Proof.
  intros Hm Hf s t r (t1 & t2 & a & s1 & -> & H1 & H2)%runs_mbind.
  apply closed_app; [by eapply Hm|by eapply Hf].
Qed.

Lemma traces_keeps {S A} E (m : M S A) :
  keeps E any m -> (forall t, Forall E t -> P t) -> traces m.
Proof. intros Hk HE s t [a s'] Hr. apply HE. by destruct (keeps_run _ _ _ _ _ _ _ Hk I Hr). Qed.

Lemma traces_lift {S A} (p : prog A) :
  (forall t a, runs p t a -> P t) -> traces (S := S) (lift p).
Proof. intros Hp s t [a s'] [Hr _]%runs_lift. by eapply Hp. Qed.

Lemma traces_concat ts : Forall P ts -> P (concat ts).
Proof. induction 1; cbn; [apply closed_nil|by apply closed_app]. Qed.
End traces.

(** ** Accepted creations, listings *)

Section balancers.
Context (c : Client) (name : string).

(** OVH accepted the creation of a balancer of the name. *)
Definition lb_created (e : event) : bool :=
  match e with
  | Ev r x =>
      match r in req X return X -> bool with
      | ApiPost _ path (BCreateLoadBalancer opts) _ => fun answer =>
          (path =s? lbCollection c) && (CreateLoadBalancerOpts_Name opts =s? name) && is_ok answer
      | _ => fun _ => false
      end x
  end.

(** The answer of a listing of the balancers; [None] is another event. *)
Definition lb_listing (e : event) : option (gores (list LoadBalancer)) :=
  match e with
  | Ev r x =>
      match r in req X return X -> option (gores (list LoadBalancer)) with
      | ApiGet _ path tg =>
          match tg in target T return gores T -> option (gores (list LoadBalancer)) with
          | TLoadBalancers => fun answer => if path =s? lbCollection c then Some answer else None
          | _ => fun _ => None
          end
      | _ => fun _ => None
      end x
  end.

Definition called (lb : LoadBalancer) : bool := LoadBalancer_Name lb =s? name.

(** A listing that succeeds shows a balancer of the name. *)
Definition lb_shows (e : event) : bool :=
  match lb_listing e with Some (Ok l) => existsb called l | _ => true end.
Definition lb_unlisted (e : event) : bool :=
  match lb_listing e with Some (Err _) => true | _ => false end.

Definition lb_creations (t : trace) : nat := length (List.filter lb_created t).
Definition lb_failures (t : trace) : nat := length (List.filter lb_unlisted t).

(** Once a creation was accepted ([seen]), every listing that succeeds shows it. *)
Fixpoint lb_complete (seen : bool) (t : trace) : Prop :=
  match t with
  | [] => True
  | e :: t => (seen = true -> lb_shows e = true) /\ lb_complete (seen || lb_created e) t
  end.

Definition sober (t : trace) : Prop :=
  forall seen, lb_complete seen t -> (lb_creations t <= (if seen then 0 else 1) + lb_failures t)%nat.

Lemma lb_creations_app t t' : lb_creations (t ++ t') = (lb_creations t + lb_creations t')%nat.
Proof. unfold lb_creations. by rewrite List.filter_app, length_app. Qed.
Lemma lb_failures_app t t' : lb_failures (t ++ t') = (lb_failures t + lb_failures t')%nat.
Proof. unfold lb_failures. by rewrite List.filter_app, length_app. Qed.

Lemma lb_complete_app seen t t' :
  lb_complete seen (t ++ t') <->
  lb_complete seen t /\ lb_complete (seen || negb (lb_creations t =? 0)%nat) t'.
Proof.
  revert seen. induction t as [|e t IH]; intros seen; cbn [app lb_complete].
  - rewrite orb_false_r. tauto.
  - rewrite IH. unfold lb_creations in *. cbn [List.filter].
    destruct (lb_created e); cbn [length Nat.eqb negb]; rewrite ?orb_true_r, ?orb_false_r; tauto.
Qed.

#[export] Instance sober_closed : TraceClosed sober.
Proof.
  split; [by intros []; cbn; lia|]. intros t1 t2 H1 H2 seen [Hc1 Hc2]%lb_complete_app.
  rewrite lb_creations_app, lb_failures_app. specialize (H1 _ Hc1). specialize (H2 _ Hc2).
  destruct (lb_creations t1) as [|n]; cbn [Nat.eqb negb] in H2; rewrite ?orb_false_r, ?orb_true_r in H2; lia.
Qed.

Lemma no_creation t : Forall (no_post_on (lbCollection c)) t -> lb_creations t = 0%nat.
Proof.
  induction 1 as [|e t He _ IH]; [done|]. unfold lb_creations in *. cbn [List.filter].
  replace (lb_created e) with false; [done|]. destruct e as [X [] x]; try done.
  cbn in He |- *. destruct b; try done. by apply strEqb_neq in He as ->.
Qed.

(** A lookup by name: it creates nothing, and ends with the listing that decides. *)
Lemma find_run n t x :
  runs (findLoadBalancerByName c n) t x ->
  lb_creations t = 0%nat /\
  exists t' last, t = t' ++ [Ev (ApiGet (api c) (lbCollection c) TLoadBalancers) last] /\
    match x with
    | Err _ => exists e, last = Err e
    | Ok r => exists l, last = Ok l /\ r = find_first (fun lb => LoadBalancer_Name lb =s? n) l
    end.
Proof.
  intros Hr. split.
  { apply no_creation. apply findLoadBalancerByName_runs in Hr as [Hro _].
    eapply Forall_impl; [exact Hro|]. intros [X [] y] [Hp _]; try done. }
  unfold findLoadBalancerByName, apiGet in Hr. rinv.
  match goal with H : runs (retryWithBackoff _ _) _ _ |- _ =>
    apply retryWithBackoff_runs in H as (es & last & -> & _ & _ & _ & Hl) end.
  destruct (retry_trace_last (ApiGet (api c) (lbCollection c) TLoadBalancers) 0 es last) as [t' ->].
  case_match; rinv; rewrite !app_nil_r; exists t', last; (split; [done|]).
  - symmetry in Hl. apply retry_result_ok in Hl as ->. by eexists.
  - destruct last as [l|e']; [done|by eexists].
Qed.

(** The creation itself, with its retries. *)
Lemma post_creations opts i es last :
  (lb_creations (retry_trace (ApiPost (api c) (lbCollection c) (BCreateLoadBalancer opts) TTask) i es last)
   <= if CreateLoadBalancerOpts_Name opts =s? name then 1 else 0)%nat.
Proof.
  revert i. induction es as [|e es IH]; intros i; unfold lb_creations in *; cbn [retry_trace List.filter].
  - cbn [lb_created]. rewrite strEqb_refl. cbn [andb].
    destruct (CreateLoadBalancerOpts_Name opts =s? name); [|done]. destruct (is_ok last); cbn; lia.
  - cbn [lb_created is_ok]. rewrite andb_false_r. apply IH.
Qed.

Lemma poll_creations n left t r : runs (pollLoadBalancer c n left) t r -> lb_creations t = 0%nat.
Proof.
  intros Hr. apply no_creation. refine (emits_run _ _ _ _ _ Hr). clear Hr.
  induction left as [|left IH]; [by apply triple_ret|]. cbn [pollLoadBalancer].
  apply emits_bind; [keeps_with posts|]. intros [[lb|]|e]; try by apply triple_ret.
  apply triple_vis; [done|]. intros _. exact IH.
Qed.

Lemma CreateLoadBalancer_sober opts t r : runs (CreateLoadBalancer c opts) t r -> sober t.
Proof.
  intros Hr. unfold CreateLoadBalancer in Hr.
  apply runs_bind in Hr as (t1 & t2 & x & -> & H1 & Hr).
  pose proof (find_run _ _ _ H1) as [Hc1 (t' & last & -> & Hx)].
  assert (Hafter : lb_creations t2 = 0%nat \/
            (x <> Ok None -> exists e, x = Err e) /\
            (lb_creations t2 <= if CreateLoadBalancerOpts_Name opts =s? name then 1 else 0)%nat).
  { assert (Hpost : forall u, runs (let* r := apiPost c "CreateLoadBalancer" (lbCollection c)
        (BCreateLoadBalancer opts) TTask in
        match r with
        | Err e => Ret (Err (Errorf ("creating load balancer " +:+ fmt_q (CreateLoadBalancerOpts_Name opts) +:+ ": ") e))
        | Ok _ => pollLoadBalancer c (CreateLoadBalancerOpts_Name opts) maxLookupAttempts
        end) u r -> (lb_creations u <= if CreateLoadBalancerOpts_Name opts =s? name then 1 else 0)%nat).
    { intros u (u1 & u2 & y & -> & Hp & Hq)%runs_bind. rewrite lb_creations_app.
      apply retryWithBackoff_runs in Hp as (es & l & -> & _). pose proof (post_creations opts 0 es l).
      assert (lb_creations u2 = 0%nat); [|lia].
      destruct y; [by eapply poll_creations|by destruct Hq as [-> _]]. }
    destruct x as [[lb|]|e]; [left; by destruct Hr as [-> _]|right..]; (split; [|by apply Hpost]).
    - done.
    - intros _. by eexists. }
  intros seen [Hs1 _]%lb_complete_app. rewrite lb_creations_app, lb_failures_app, Hc1.
  destruct Hafter as [->|[Hne H2]]; [lia|].
  destruct (CreateLoadBalancerOpts_Name opts =s? name) eqn:Hn; [|lia]. apply strEqb_eq in Hn.
  rewrite lb_failures_app. destruct seen; [|lia].
  apply lb_complete_app in Hs1 as [_ Hs1]. cbn [lb_complete orb] in Hs1. destruct Hs1 as [Hshow _].
  specialize (Hshow eq_refl). unfold lb_shows, lb_failures, lb_unlisted in *.
  cbn [lb_listing List.filter] in *. rewrite strEqb_refl in *.
  destruct x as [r1|e].
  - destruct Hx as (l & -> & ->). exfalso. apply existsb_exists in Hshow as (lb & Hin & Hcall).
    destruct (find_first _ l) as [lb'|] eqn:Hf.
    { destruct Hne as [e He]; done. }
    apply find_first_none in Hf. rewrite Hn in Hf. rewrite Forall_forall in Hf.
    apply list_elem_of_In in Hin. specialize (Hf _ Hin). unfold called in Hcall. congruence.
  - destruct Hx as [e' ->]. cbn. lia.
Qed.

Lemma sober_none t : lb_creations t = 0%nat -> sober t.
Proof. intros H seen _. lia. Qed.
End balancers.

Create HintDb traces discriminated.

(** One step on a goal [traces P m]. *)
Ltac traces_step :=
  lazymatch goal with
  | |- traces _ (mbind _ _) => apply traces_bind; [exact _| |intros ?]
  | |- traces _ (match ?x with _ => _ end) => destruct x
  | |- traces _ ?m => let h := head_of m in unfold h
  end.

(** ** The reconcilers *)

Section sober.
Context `{CapiLib} (name : string).
#[local] Abbreviation sober_of c m := (traces (sober c name) m).

Lemma sober_keeps {S A} c (m : M S A) : keeps (no_post_on (lbCollection c)) any m -> sober_of c m.
Proof. intros Hk. eapply traces_keeps; [exact Hk|]. intros t Ht. by apply sober_none, no_creation. Qed.

Ltac quiet := solve [apply sober_keeps; keeps_with posts].
(** Known parts first; a sequence is taken apart before its parts are tried. *)
Ltac sobers :=
  repeat first [solve [eauto with traces nocore]
               | lazymatch goal with |- traces _ (mbind _ _) => traces_step end
               | quiet | traces_step].

Lemma sober_createLB scope f n s : sober_of (CScope_OVHClient scope) (createLB scope f n s).
Proof.
  unfold createLB. apply traces_bind; [exact _|quiet|intros start].
  apply traces_bind; [exact _|apply traces_lift; apply CreateLoadBalancer_sober|intros r].
  apply traces_bind; [exact _|quiet|intros now]. quiet.
Qed.
#[local] Hint Resolve sober_createLB : traces.
Lemma sober_createNewLB scope : sober_of (CScope_OVHClient scope) (createNewLB scope).
Proof. sobers. Qed.
#[local] Hint Resolve sober_createNewLB : traces.
Lemma sober_reconcileLoadBalancer scope : sober_of (CScope_OVHClient scope) (reconcileLoadBalancer scope).
Proof. sobers. Qed.
#[local] Hint Resolve sober_reconcileLoadBalancer : traces.
Lemma sober_ReconcileNormal scope : sober_of (CScope_OVHClient scope) (ReconcileNormal scope).
Proof. sobers. Qed.
Lemma sober_MachineReconcileNormal scope :
  sober_of (MScope_OVHClient scope) (MachineReconcileNormal scope).
Proof. quiet. Qed.
Lemma sober_MachineReconcileDelete scope :
  sober_of (MScope_OVHClient scope) (MachineReconcileDelete scope).
Proof. quiet. Qed.
End sober.

(** ** The theorem *)

Section single.
Context `{CapiLib}.

(** A reconciliation on the client [c] that deletes no cluster: a normal one of
    any cluster, or any of a machine; nothing is assumed about the objects. *)
Definition builds (c : Client) (t : trace) : Prop :=
  (exists scope o r, CScope_OVHClient scope = c /\ runs (ReconcileNormal scope o) t r) \/
  (exists scope o r, MScope_OVHClient scope = c /\
     (runs (MachineReconcileNormal scope o) t r \/ runs (MachineReconcileDelete scope o) t r)).

(** C3.  A cluster gets one load balancer, and one more for each failed lookup: over
    any sequence of reconciliations of any clusters and machines of a project that
    deletes no cluster, each from an arbitrary status, OVH accepts at most
    [1 + f] creations of a balancer of a name, [f] the number of listings of the
    balancers that failed, provided a listing that succeeds shows the balancer once
    its creation was accepted. *)
Theorem single_balancer c name ts :
  Forall (builds c) ts -> lb_complete c name false (concat ts) ->
  (lb_creations c name (concat ts) <= 1 + lb_failures c (concat ts))%nat.
Proof.
  intros Hts Hc. refine (traces_concat (sober c name) ts _ false Hc).
  eapply Forall_impl; [exact Hts|].
  intros t [(scope & o & r & <- & Hr)|(scope & o & r & <- & [Hr|Hr])].
  - by eapply sober_ReconcileNormal.
  - by eapply sober_MachineReconcileNormal.
  - by eapply sober_MachineReconcileDelete.
Qed.
End single.

(** ** Witness *)

(** A world that keeps the balancers it was asked for; it refuses the listing of
    those it has as often as its number says. *)
Record lb_world := { made : list LoadBalancer; refusals : nat }.

Definition new_lb (opts : CreateLoadBalancerOpts) : LoadBalancer :=
  demo_lb "lb-1" (CreateLoadBalancerOpts_Name opts) "active".

Definition lb_env : handler lb_world := fun X w r =>
  match r in req X return X * lb_world with
  | ApiGet _ path tg =>
      match tg in target T return gores T * lb_world with
      | TLoadBalancers =>
          match made w, refusals w with
          | _ :: _, S n => (Err (APIError 403 "forbidden"), w {{ refusals := n }})
          | l, _ => (Ok l, w)
          end
      | tg => (healthy_get _ path tg, w)
      end
  | ApiPost _ path b tg =>
      match b with
      | BCreateLoadBalancer opts => (healthy_post _ path tg, w {{ made ::= cons (new_lb opts) }})
      | _ => (healthy_post _ path tg, w)
      end
  | r => ((demo_env healthy _ tt r).1, w)
  end.

(** Two reconciliations of a cluster without a recorded balancer. *)
Definition unbalanced : OVHCluster := (demo_object "net" false) {{ OVHCluster_Status ::= fun s => s {{
  CStatus_NetworkID := "net"; CStatus_SubnetID := "subnet" }} }}.
Definition twice (n : nat) : list trace :=
  let w := {| made := []; refusals := n |} in
  let p := ReconcileNormal demo_scope unbalanced in
  [(exec lb_env p w).1; (exec lb_env p (run lb_env p w).2).1].

(** With complete listings the second one finds the balancer of the first; when its
    lookup is refused, it makes another. *)
Lemma single_balancer_witness :
  lb_creations demo_client "capi-test-lb" (concat (twice 0)) = 1%nat /\
  lb_creations demo_client "capi-test-lb" (concat (twice 2)) = 2%nat /\
  (lb_creations demo_client "capi-test-lb" (concat (twice 2))
   <= 1 + lb_failures demo_client (concat (twice 2)))%nat.
Proof.
  split; [vm_compute; reflexivity|]. split; [vm_compute; reflexivity|].
  apply single_balancer.
  - apply Forall_forall. intros t Ht. left. exists demo_scope, unbalanced.
    unfold twice in Ht. set_unfold in Ht. destruct Ht as [->|[->|[]]]; eexists; (split; [reflexivity|]); apply exec_runs.
  - vm_compute. repeat split; done.
Defined.
