(* ===== verification/ClusterSteps.v ===== *)
(** * ClusterSteps: DNS record, failure domains, security groups, orphans

    The best-effort steps of the cluster reconciler: what they record, when they
    call OVH, that the deletion of the security groups, which ranges over a map,
    does not depend on the order Go's runtime chooses, and that a deletion sweeps
    the load balancers of the cluster's name. *)
From S2P Require Import Prelude.
From S2P Require Import GoStrings.
From S2P Require Import GoErrors.
From S2P Require Import OvhTypes.
From S2P Require Import K8sTypes.
From S2P Require Import ApiV1alpha2.
From S2P Require Import Effects.
From S2P Require Import OvhClient.
From S2P Require Import OvhClientSpec.
From S2P Require Import Hoare.
From S2P Require Import CapiLib.
From S2P Require Import ClusterController.
From S2P Require Import ClusterLB.
From S2P Require Import ClusterReconcile.
From S2P Require Import Demo.
From S2P Require Import ClusterSafety.
From S2P Require Import ClusterDelete.
From S2P Require Import World.
#[local] Open Scope Z_scope.
#[local] Open Scope go_scope.

(** ** Order of iteration *)

(** The event does not ask the runtime for an order. *)
Definition no_range (e : event) : Prop := match e with Ev MapRange _ => False | _ => True end.

(** Two environments that answer alike, but for the order of iteration. *)
Definition alike (h1 h2 : handler unit) : Prop :=
  forall X (r : req X), no_range (Ev r (h1 _ tt r).1) -> (h1 _ tt r).1 = (h2 _ tt r).1.

Lemma run_alike {A} (p : prog A) h1 h2 :
  alike h1 h2 -> emits no_range p -> run h1 p tt = run h2 p tt.
Proof.
  intros Hh Hp. destruct (run_runs h1 p tt) as (t & Hr & Ha).
  assert (Ha2 : answers h2 tt t tt).
  { pose proof (emits_run _ _ _ _ Hp Hr) as Ht. revert Ha. generalize (run h1 p tt).2. clear Hr.
    induction Ht as [|[X r x] t He _ IH]; intros w; cbn [answers]; [by destruct w|].
    intros ([] & Hx & Ha). exists tt. split; [|by eapply IH].
    specialize (Hh X r). rewrite Hx in Hh. specialize (Hh He). cbn in Hh.
    destruct (h2 X tt r) as [y []]. cbn in Hh. by subst y. }
  destruct (answers_run h2 p tt t _ _ Hr Ha2) as [H1 H2].
  destruct (run h1 p tt) as [a1 []], (run h2 p tt) as [a2 []]. cbn in *. by subst.
Qed.

Section groups.
Context (h : handler unit) (scope : ClusterScope).
#[local] Abbreviation c := (CScope_OVHClient scope).

(** OVH lets the group [id] be deleted. *)
Definition deletable (id : string) : bool :=
  match (run h (DeleteSecurityGroup c id) tt).1 with None => true | Some _ => false end.

(** What the loop over [order] leaves of the map [m]. *)
Definition remaining (order : list (string * string)) (m : gmap string string) : gmap string string :=
  foldl (fun m '(name, id) => if deletable id then delete name m else m) m order.

Lemma remaining_lookup order m name :
  remaining order m !! name =
  if bool_decide (Exists (fun e => e.1 = name /\ deletable e.2 = true) order) then None else m !! name.
Proof.
  revert m. induction order as [|[n id] order IH]; intros m; cbn; [done|].
  unfold remaining in IH. rewrite IH. case_bool_decide as H1; case_bool_decide as H2; try done.
  - destruct H2. by right.
  - apply Exists_cons in H2 as [[Hn Hd]|H2]; [|done]. cbn in *. subst n. rewrite Hd.
    apply lookup_delete_eq.
  - destruct (deletable id) eqn:Hd; [|done]. apply lookup_delete_ne. intros ->. destruct H2. by left.
Qed.

#[export] Instance remaining_perm : Proper ((≡ₚ) ==> eq ==> eq) remaining.
Proof.
  intros l1 l2 Hl m ? <-. apply map_eq. intros name. rewrite !remaining_lookup.
  assert (Hex : forall P : string * string -> Prop, Exists P l1 <-> Exists P l2).
  { intros P. rewrite !Exists_exists. by setoid_rewrite Hl. }
  do 2 case_bool_decide; naive_solver.
Qed.

(** The security groups of an object. *)
Definition with_groups (f : gmap string string -> gmap string string) (o : OVHCluster) : OVHCluster :=
  o {{ OVHCluster_Status ::= fun s => s {{ CStatus_SecurityGroupIDs ::= f }} }}.

Lemma with_groups_comp f g o : with_groups g (with_groups f o) = with_groups (fun m => g (f m)) o.
Proof. done. Qed.

Lemma run_delete_groups order o :
  (run h (for_each order (fun '(name, id) =>
     check! lift (DeleteSecurityGroup c id) catch err => mret tt in
     setStatus (fun s => s {{ CStatus_SecurityGroupIDs ::= fun m => delete name m }})) o) tt).1
  = (tt, with_groups (remaining order) o).
Proof.
  revert o. induction order as [|[name id] order IH]; intros o; cbn [for_each].
  - by destruct o as [? ? []].
  - unfold mbind at 1. rewrite run_bind. unfold mbind at 1. rewrite run_bind. unfold lift. rewrite run_bind.
    assert (Hd : deletable id = match (run h (DeleteSecurityGroup c id) tt).1 with None => true | Some _ => false end)
      by done.
    destruct (run h (DeleteSecurityGroup c id) tt) as [[e|] []]; cbn in Hd |- *; rewrite IH;
      change (remaining ((name, id) :: order)) with
        (fun m => remaining order (if deletable id then delete name m else m)); by rewrite Hd.
Qed.

Lemma run_deleteSecurityGroups o :
  exists order, order ≡ₚ map_to_list (CStatus_SecurityGroupIDs (OVHCluster_Status o)) /\
    (run h (deleteSecurityGroups scope o) tt).1 = (tt, with_groups (remaining order) o).
Proof.
  set (m := CStatus_SecurityGroupIDs (OVHCluster_Status o)).
  exists (range_order (size m) (h _ tt MapRange).1 (map_to_list m)). split; [apply range_order_perm|].
  rewrite <- run_delete_groups. unfold deleteSecurityGroups, getStatus, mbind at 1. cbn [pbind].
  unfold mbind at 1, range_map. cbn [pbind run]. by destruct (h _ tt MapRange) as [code []].
Qed.
End groups.

(** C24.  The order in which Go ranges over the map of security groups is irrelevant:
    on two environments that answer every request alike but for that order, the
    deletion of the groups leaves the same object, from which exactly the groups
    OVH deleted are gone. *)
Theorem group_order_irrelevant h1 h2 scope o :
  alike h1 h2 ->
  (run h1 (deleteSecurityGroups scope o) tt).1 = (run h2 (deleteSecurityGroups scope o) tt).1 /\
  forall name, CStatus_SecurityGroupIDs (OVHCluster_Status (run h1 (deleteSecurityGroups scope o) tt).1.2) !! name =
    match CStatus_SecurityGroupIDs (OVHCluster_Status o) !! name with
    | Some id => if deletable h1 scope id then None else Some id
    | None => None
    end.
Proof.
  intros Hh. destruct (run_deleteSecurityGroups h1 scope o) as (l1 & Hl1 & ->).
  destruct (run_deleteSecurityGroups h2 scope o) as (l2 & Hl2 & ->). split.
  - assert (Hd : forall id, deletable h1 scope id = deletable h2 scope id).
    { intros id. unfold deletable. rewrite (run_alike _ h1 h2); [done|done|]. keeps_with done. }
    assert (Hrem : forall m, remaining h1 scope l1 m = remaining h2 scope l2 m).
    { intros m. rewrite Hl1, <- Hl2. unfold remaining. clear Hl1 Hl2. revert m.
      induction l2 as [|[n id] l IH]; intros m; cbn; [done|]. by rewrite Hd, IH. }
    f_equal. unfold with_groups. cbn. destruct o as [? ? []]. cbn. by rewrite Hrem.
  - intros name. cbn. rewrite remaining_lookup. set (m := CStatus_SecurityGroupIDs (OVHCluster_Status o)) in *.
    destruct (m !! name) as [id|] eqn:Hm; case_bool_decide as Hex.
    + apply Exists_exists in Hex as ([n i] & Hin & Hn & Hdel). cbn in *. subst n.
      rewrite Hl1 in Hin. apply elem_of_map_to_list in Hin. replace i with id in Hdel by congruence.
      by rewrite Hdel.
    + destruct (deletable h1 scope id) eqn:Hdel; [|done]. destruct Hex. apply Exists_exists.
      exists (name, id). split; [|done]. rewrite Hl1. by apply elem_of_map_to_list.
    + done.
    + done.
Qed.

(** Two groups, of which OVH refuses to delete the second; [code] is the order. *)
Definition two_groups : OVHCluster :=
  with_groups (fun _ => {[ "api" := "sg-1"; "etcd" := "sg-2" ]}) (demo_object "net" true).
Definition refusing_env (code : list nat) : handler unit := fun X w r =>
  match r in req X return X * unit with
  | MapRange => (code, w)
  | r => demo_env {| on_get := healthy_get; on_post := healthy_post;
                     on_delete := fun path =>
                       if path =s? sgCollection demo_client +:+ "/sg-2" then Err (APIError 409 "in use")
                       else Ok tt |} _ w r
  end.

Definition deletions (t : trace) : list string :=
  omap (fun e => match e with Ev (ApiDelete _ path) _ => Some path | _ => None end) t.

Lemma group_order_irrelevant_witness :
  let out code := (run (refusing_env code) (deleteSecurityGroups demo_scope two_groups) tt).1 in
  deletions (exec (refusing_env [0%nat]) (deleteSecurityGroups demo_scope two_groups) tt).1 <>
  deletions (exec (refusing_env [1%nat]) (deleteSecurityGroups demo_scope two_groups) tt).1 /\
  out [0%nat] = out [1%nat] /\
  CStatus_SecurityGroupIDs (OVHCluster_Status (out [1%nat]).2) !! "api" = None /\
  CStatus_SecurityGroupIDs (OVHCluster_Status (out [1%nat]).2) !! "etcd" = Some "sg-2".
Proof.
  intros out. subst out. cbv beta.
  split; [vm_compute; discriminate|].
  destruct (group_order_irrelevant (refusing_env [0%nat]) (refusing_env [1%nat]) demo_scope two_groups)
    as [Heq Hleft]; [intros X r; destruct r; intros Hr; by try destruct Hr|].
  split; [exact Heq|]. rewrite <- Heq, !Hleft. split; reflexivity.
Defined.

(** ** The DNS record *)

(** The record [reconcileDNS] would ask for, none when it has nothing to do. *)
Definition dns_due (scope : ClusterScope) (o : OVHCluster) : option (string * CreateDNSRecordOpts) :=
  let host := Host (CSpec_ControlPlaneEndpoint (OVHCluster_Spec o)) in
  match CSpec_DNSConfig (OVHCluster_Spec o) with
  | Some dns =>
      if (CStatus_DNSRecordID (OVHCluster_Status o) =? 0) && negb (host =s? "") then
        Some (DNSConfig_ZoneName dns,
              {| CreateDNSRecordOpts_FieldType := "A";
                 CreateDNSRecordOpts_SubDomain :=
                   if DNSConfig_RecordName dns =s? "" then clusterName scope else DNSConfig_RecordName dns;
                 CreateDNSRecordOpts_Target := host;
                 CreateDNSRecordOpts_TTL := if DNSConfig_TTL dns =? 0 then 300 else DNSConfig_TTL dns |})
      else None
  | None => None
  end.

Definition with_record (id : Z) (o : OVHCluster) : OVHCluster :=
  o {{ OVHCluster_Status ::= fun s => s {{ CStatus_DNSRecordID := id }} }}.

(** The two requests, up to their retries. *)
Definition postRecord (c : Client) (zone : string) (opts : CreateDNSRecordOpts) : req (gores DNSRecord) :=
  ApiPost (api c) ("/domain/zone/" +:+ zone +:+ "/record") (BCreateDNSRecord opts) TDNSRecord.
Definition postRefresh (c : Client) (zone : string) : req (gores unit) :=
  ApiPost (api c) ("/domain/zone/" +:+ zone +:+ "/refresh") BNil TNil.

Lemma reconcileDNS_unfold scope o :
  reconcileDNS scope o =
  match dns_due scope o with
  | None => Ret (None, o)
  | Some (zone, opts) =>
      (try! record := lift (CreateDNSRecord (CScope_OVHClient scope) zone opts)
       catch err => mret (Some (Errorf "creating DNS record: " err)) in
       do! setStatus (fun s => s {{ CStatus_DNSRecordID := DNSRecord_ID record }}) in
       do! lift (RefreshDNSZone (CScope_OVHClient scope) zone) in
       mret None) o
  end.
Proof.
  unfold reconcileDNS, dns_due, getSpec, getStatus, mbind at 1. cbn [pbind].
  destruct (CSpec_DNSConfig (OVHCluster_Spec o)) as [dns|]; [|done].
  unfold mbind at 1. cbn [pbind]. destruct (CStatus_DNSRecordID _ =? 0); [|done]. cbn [negb andb].
  by destruct (Host _ =s? "").
Qed.

(** C30.  What [reconcileDNS] does on every branch.  It is silent without a DNS
    configuration, without an endpoint, or once a record is known: whatever later
    becomes of the endpoint or of the configuration, the record is neither posted
    again nor updated.  Otherwise it posts one A record for the endpoint, named
    after the cluster and with a lifetime of 300 s by default; refused, it leaves
    the object alone and returns the error; accepted, it records the identifier
    and posts a refresh of the zone, whose outcome nobody looks at. *)
Theorem dns_record_posted_once scope o t r o' :
  runs (reconcileDNS scope o) t (r, o') ->
  match dns_due scope o with
  | None => t = [] /\ r = None /\ o' = o
  | Some (zone, opts) =>
      exists es last t2, t = retry_trace (postRecord (CScope_OVHClient scope) zone opts) 0 es last ++ t2 /\
      match last with
      | Err _ => t2 = [] /\ r <> None /\ o' = o
      | Ok record =>
          (exists es2 last2, t2 = retry_trace (postRefresh (CScope_OVHClient scope) zone) 0 es2 last2) /\
          r = None /\ o' = with_record (DNSRecord_ID record) o
      end
  end /\
  forall o2, CStatus_DNSRecordID (OVHCluster_Status o2) = CStatus_DNSRecordID (OVHCluster_Status o') ->
    CStatus_DNSRecordID (OVHCluster_Status o') <> 0 -> reconcileDNS scope o2 = Ret (None, o2).
Proof.
  intros Hr. split.
  - rewrite reconcileDNS_unfold in Hr. destruct (dns_due scope o) as [[zone opts]|].
    2:{ destruct Hr as [-> [= -> ->]]. done. }
    apply runs_mbind in Hr as (t1 & t2 & a & s1 & -> & Ha & Hr). rinv.
    rename Ha into Hc. unfold CreateDNSRecord, apiPost in Hc.
    apply runs_bind in Hc as (u1 & u2 & x & -> & (es & last & -> & _ & _ & _ & ->)%retryWithBackoff_runs & Hc).
    destruct Hc as [-> ->]. rewrite app_nil_r. exists es, last, t2. split; [done|].
    destruct last as [rec|e]; cbn [retry_result wrapErr] in Hr.
    + unfold setStatus in Hr. rinv. unfold RefreshDNSZone, apiPost in *. rinv.
      match goal with H : runs (retryWithBackoff _ _) _ _ |- _ =>
        apply retryWithBackoff_runs in H as (es2 & last2 & -> & _) end.
      rewrite !app_nil_r.
      split_all. by exists es2, last2.
    + destruct (IsRetryable (Some e)); cbn [wrapErr] in Hr; rinv; split_all.
  - intros o2 Hid Hnz. rewrite reconcileDNS_unfold. unfold dns_due.
    destruct (CSpec_DNSConfig (OVHCluster_Spec o2)); [|done]. rewrite Hid. by apply Z.eqb_neq in Hnz as ->.
Qed.

(** A cluster with an endpoint and a DNS zone, at an OVH that accepts records. *)
Definition named_cluster (host : string) : OVHCluster :=
  (demo_object "net" false) {{ OVHCluster_Spec ::= fun s => s {{
    CSpec_ControlPlaneEndpoint := {| Host := host; Port := 6443 |};
    CSpec_DNSConfig := Some {| DNSConfig_ZoneName := "example.com"; DNSConfig_RecordName := "";
                               DNSConfig_TTL := 0 |} }} }}.
Definition dns_answers : Answers := {|
  on_get := healthy_get; on_delete := fun _ => Ok tt;
  on_post := fun T path tg =>
    match tg in target T return gores T with
    | TDNSRecord => Ok {| DNSRecord_ID := 42; DNSRecord_FieldType := "A"; DNSRecord_SubDomain := "test";
                          DNSRecord_Target := "1.2.3.4"; DNSRecord_TTL := 300;
                          DNSRecord_Zone := "example.com" |}
    | tg => healthy_post _ path tg
    end |}.

Lemma dns_record_posted_once_witness :
  let run := demo_run dns_answers (reconcileDNS demo_scope (named_cluster "1.2.3.4")) in
  CStatus_DNSRecordID (OVHCluster_Status run.2.2) = 42 /\
  reconcileDNS demo_scope (with_record 42 (named_cluster "5.6.7.8"))
  = Ret (None, with_record 42 (named_cluster "5.6.7.8")).
Proof.
  intros run.
  assert (Hid : CStatus_DNSRecordID (OVHCluster_Status run.2.2) = 42) by reflexivity.
  split; [exact Hid|].
  destruct (dns_record_posted_once demo_scope (named_cluster "1.2.3.4") run.1 run.2.1 run.2.2) as [_ Hsilent].
  { rewrite <- surjective_pairing. apply demo_runs. }
  apply Hsilent; rewrite Hid; [reflexivity|discriminate].
Defined.

(** ** Failure domains *)

(** The domains of the status once discovered, those of the region or of the
    specification otherwise. *)
Theorem failure_domains_outcome scope o t u o' :
  runs (reconcileFailureDomains scope o) t (u, o') ->
  OVHCluster_Spec o' = OVHCluster_Spec o /\
  match CStatus_FailureDomains (OVHCluster_Status o) with
  | _ :: _ => t = [] /\ o' = o
  | [] =>
      exists r, within t (GetRegionInfo (CScope_OVHClient scope)) r /\
      CStatus_FailureDomains (OVHCluster_Status o') =
        match r with Ok info => discoverFailureDomains (OVHCluster_Spec o) info | Err _ => [] end
  end.
Proof.
  unfold reconcileFailureDomains, getStatus, getSpec. intros Hr. rinv.
  destruct (CStatus_FailureDomains (OVHCluster_Status o)) eqn:Hfd; [|by rinv].
  rinv. match type of Hr with context [match ?r with Ok _ => _ | Err _ => _ end] => rename r into res end.
  assert (Hin : forall t1 t2, within (t1 ++ x ++ t2) (GetRegionInfo (CScope_OVHClient scope)) res)
    by (intros; in_run).
  destruct res as [info|e]; rinv; [|by split; [|exists (Err e)]].
  destruct (discoverFailureDomains (OVHCluster_Spec o) info) eqn:Hd; unfold setStatus in *; rinv;
    (split; [done|]; exists (Ok info); split; [apply Hin|by rewrite ?Hd, ?Hfd]).
Qed.

(** With domains in the specification, each is reported once, in order, and
    usable for control planes; without, the region stands for each of its
    running instance services. *)
Lemma discovered_domains spec info fd :
  In fd (discoverFailureDomains spec info) ->
  FailureDomain_ControlPlane fd = Some true /\
  (if decide (CSpec_FailureDomains spec = []) then FailureDomain_Name fd = CSpec_Region spec
   else In (FailureDomain_Name fd) (CSpec_FailureDomains spec)).
Proof.
  unfold discoverFailureDomains. destruct (CSpec_FailureDomains spec) as [|d ds]; intros H;
    apply in_map_iff in H as (x & <- & Hx); case_decide; naive_solver.
Qed.

(** ** The orphaned load balancers *)

Lemma for_each_within {S X A} (p : X -> prog A) (l : list X) (s s' : S) t u x :
  runs (for_each l (fun x => do! lift (p x) in mret tt) s) t (u, s') -> x ∈ l ->
  exists a, within t (p x) a.
Proof.
  revert t s. induction l as [|y l IH]; intros t s Hr Hx; [set_solver|]. cbn [for_each] in Hr. rinv.
  apply elem_of_cons in Hx as [->|Hx]; [eexists; in_run|].
  destruct (IH _ _ Hr Hx) as [a Ha]. exists a. in_run.
Qed.

Lemma deleteOrphanLBs_sweeps scope o t u o' :
  runs (deleteOrphanLBs scope o) t (u, o') ->
  o' = o /\ exists listing,
    within t (ListLoadBalancersByPrefix (CScope_OVHClient scope) (loadBalancerName scope)) listing /\
    forall l lb, listing = Ok l -> lb ∈ l ->
      exists res, within t (DeleteLoadBalancer (CScope_OVHClient scope) (LoadBalancer_ID lb)) res.
Proof.
  intros Hr. split; [eapply (reads_only (deleteOrphanLBs scope)); [|exact Hr]; keeps_with done|].
  unfold deleteOrphanLBs in Hr.
  apply runs_mbind in Hr as (t1 & t2 & listing & s1 & -> & [H1 ->]%runs_lift & Hr).
  exists listing. split; [in_run|]. intros l lb -> Hlb.
  apply (for_each_within (fun orphan => DeleteLoadBalancer (CScope_OVHClient scope) (LoadBalancer_ID orphan))
           l o o' t2 u lb) in Hr as [res Hres]; [|done]. exists res. in_run.
Qed.

(** What [ListLoadBalancersByPrefix] returns is what the listing shows under the prefix. *)
Lemma listed_by_prefix c prefix t l :
  runs (ListLoadBalancersByPrefix c prefix) t (Ok l) ->
  exists all, Ev (ApiGet (api c) (lbCollection c) TLoadBalancers) (Ok all) ∈ t /\
    l = List.filter (fun lb => HasPrefix (LoadBalancer_Name lb) prefix) all.
Proof.
  intros Hr. unfold ListLoadBalancersByPrefix, apiGet in Hr. rinv. case_match; rinv.
  match goal with H : runs (retryWithBackoff _ _) _ _ |- _ =>
    apply retryWithBackoff_runs in H as (es & last & -> & _ & _ & _ & Hl) end.
  symmetry in Hl. apply retry_result_ok in Hl as ->. eexists. split; [|done].
  match goal with |- Ev _ (Ok ?x) ∈ _ =>
    destruct (retry_trace_last (ApiGet (api c) (lbCollection c) TLoadBalancers) 0 es (Ok x)) as [t' ->] end.
  set_solver.
Qed.

(** C20.  No load balancer of the cluster is left behind unnoticed: a deletion that
    removes the finalizer has listed the balancers, and sent the deletion of every
    one whose name starts with that of the cluster's balancer - also those the
    status does not record, because a patch was lost or a creation timed out -
    unless the listing itself failed. *)
Theorem balancers_swept `{CapiLib} scope o t r o' :
  keepPolicy o = false -> hasFinalizer o = true -> runs (ReconcileDelete scope o) t (r, o') ->
  hasFinalizer o' = false ->
  (exists e, within t (ListLoadBalancersByPrefix (CScope_OVHClient scope) (loadBalancerName scope)) (Err e)) \/
  exists all, Ev (ApiGet (api (CScope_OVHClient scope)) (lbCollection (CScope_OVHClient scope)) TLoadBalancers)
                (Ok all) ∈ t /\
    forall lb, lb ∈ all -> HasPrefix (LoadBalancer_Name lb) (loadBalancerName scope) = true ->
      exists res, within t (DeleteLoadBalancer (CScope_OVHClient scope) (LoadBalancer_ID lb)) res.
Proof.
  intros Hk Hf Hr Hgone. unfold ReconcileDelete, observeDuration in Hr. rinv. rewrite Hk in *.
  match goal with Hd : runs (deleteResources _ _) _ _ |- _ => rename Hd into Hres end.
  unfold deleteResources in Hres. rinv.
  match goal with H1 : runs (deleteDNS _ _) _ _ |- _ =>
    apply (keeps_run _ _ _ _ _ _ _ (deleteDNS_cleaned scope o) (cleaned_refl o)) in H1 as [_ Hc1] end.
  match goal with H2 : runs (deleteSecurityGroups _ _) _ _ |- _ =>
    apply (keeps_run _ _ _ _ _ _ _ (deleteSecurityGroups_cleaned scope o) Hc1) in H2 as [_ (d & m & ->)] end.
  match goal with H3 : runs (captureFips _ _) _ _ |- _ =>
    apply (reads_only (captureFips scope)) in H3 as ->; [|keeps_with done] end.
  match goal with H4 : runs (deleteLB _ _) _ (?e, _) |- _ =>
    apply deleteLB_run in H4 as [-> _]; destruct e as [e|] end.
  { rinv. unfold hasFinalizer in *. cbn in Hgone. congruence. }
  rinv. match goal with H5 : runs (deleteOrphanLBs _ _) _ _ |- _ =>
    apply deleteOrphanLBs_sweeps in H5 as (-> & [l|e] & Hin & Hall) end; [right|left].
  - destruct Hin as (u1 & u2 & u3 & -> & Hl). apply listed_by_prefix in Hl as (all & Hev & ->).
    exists all. split; [set_solver|]. intros lb Hlb Hp.
    destruct (Hall _ lb eq_refl) as [res Hw]; [|exists res; in_run].
    apply list_elem_of_In, List.filter_In. by rewrite <- list_elem_of_In.
  - exists e. in_run.
Qed.

(** The status records no balancer, but one of the cluster's name exists. *)
Lemma balancers_swept_witness :
  let run := demo_run healthy (ReconcileDelete demo_scope (demo_object "net" true)) in
  hasFinalizer run.2.2 = false /\
  ((exists e, within run.1 (ListLoadBalancersByPrefix demo_client "capi-test-lb") (Err e)) \/
   exists all, Ev (ApiGet (api demo_client) (lbCollection demo_client) TLoadBalancers) (Ok all) ∈ run.1 /\
     forall lb, lb ∈ all -> HasPrefix (LoadBalancer_Name lb) "capi-test-lb" = true ->
       exists res, within run.1 (DeleteLoadBalancer demo_client (LoadBalancer_ID lb)) res).
Proof.
  intros run. assert (Hgone : hasFinalizer run.2.2 = false) by reflexivity. split; [exact Hgone|].
  assert (Hrun : runs (ReconcileDelete demo_scope (demo_object "net" true)) run.1 (run.2.1, run.2.2)).
  { rewrite <- surjective_pairing. apply demo_runs. }
  clearbody run.
  exact (balancers_swept demo_scope (demo_object "net" true) _ _ _ eq_refl eq_refl Hrun Hgone).
Defined.

(** ** The rules of a security group *)

(** A recorded group is done with, whatever became of its rules: they are posted in
    the run that creates the group, which records it first and ignores their
    answers, and no later run posts them again. *)
Theorem recorded_group_untouched scope byName sg o id :
  CStatus_SecurityGroupIDs (OVHCluster_Status o) !! SecurityGroupSpec_Name sg = Some id -> id <> "" ->
  reconcileSecurityGroup scope byName sg o = Ret (None, o).
Proof.
  intros Hid Hne. unfold reconcileSecurityGroup, getStatus, mbind at 1. cbn [pbind].
  rewrite Hid. cbn [default from_option]. apply strEqb_neq in Hne. unfold Datatypes.id. by rewrite Hne.
Qed.
