(* ===== verification/ClusterRetirement.v ===== *)
(** * ClusterRetirement: the deletion of a cluster ends

    The counterpart of [MachineRetirement] for clusters.  The class
    [DismantlingProject] states what a project that carries deletions out promises
    about a balancer: until its deletion is accepted it stands; after, the
    resources behind it drain for a bounded number of rounds, and then the floating
    IPs are gone and the network can be deleted.  Against it the reconciler removes
    the finalizer in a bounded number of rounds; [TwoRoundProject] is an instance. *)
From S2P Require Import Prelude.
From S2P Require Import GoStrings.
From S2P Require Import GoErrors.
From S2P Require Import OvhTypes.
From S2P Require Import K8sTypes.
From S2P Require Import ApiV1alpha2.
From S2P Require Import Effects.
From S2P Require Import OvhClient.
From S2P Require Import OvhClientSpec.
From S2P Require Import Hoare.
From S2P Require Import CapiLib.
From S2P Require Import ClusterController.
From S2P Require Import ClusterLB.
From S2P Require Import ClusterReconcile.
From S2P Require Import Demo.
From S2P Require Import ClusterSafety.
From S2P Require Import ClusterDelete.
From S2P Require Import DeleteProgress.
From S2P Require Import World.
From S2P Require Import MachineRetirement.
#[local] Open Scope Z_scope.
#[local] Open Scope go_scope.

(** ** The promises of a project *)

(** The event creates nothing: deletions, readings, Kubernetes and the refresh of
    a DNS zone, the only request a deletion posts. *)
Definition teardown (e : event) : Prop :=
  match e with Ev (ApiPost _ _ b _) _ => b = BNil | _ => True end.

Definition fipPath (c : Client) (id : string) : string := regionPath c ("/floatingip/" +:+ id).

Class DismantlingProject {W} (h : handler W) (c : Client) (lbID : string) := {
  (** the balancer is there; its deletion was accepted and what hangs on it stays
      for at most so many rounds more; a bound on them *)
  standing : W -> Prop;
  draining : W -> nat -> Prop;
  drain : nat;
  (** the passing of time between two reconciliations *)
  lapse : W -> W;
  lapse_draining w n : draining w n -> draining (lapse w) (pred n);
  (** requests: nothing comes back while nothing is created *)
  teardown_standing {X} (r : req X) w :
    teardown (Ev r (h _ w r).1) -> standing w -> standing (h _ w r).2 \/ draining (h _ w r).2 drain;
  teardown_draining {X} (r : req X) w n :
    teardown (Ev r (h _ w r).1) -> draining w n -> draining (h _ w r).2 n;
  delete_standing w : standing w ->
    let answer := h _ w (ApiDelete (api c) (lbPath c lbID)) in
    answer.1 = Ok tt /\ draining answer.2 drain;
  delete_draining w n : draining w n -> (h _ w (ApiDelete (api c) (lbPath c lbID))).1 = Ok tt;
  drained_fip w id : draining w 0 ->
    match (h _ w (ApiGet (api c) (fipPath c id) TFloatingIP)).1 with
    | Ok fip => fipReaped fip = true
    | Err e => IsRetryable (Some e) = false
    end;
  drained_network w id : draining w 0 -> (h _ w (ApiDelete (api c) (networkPath c id))).1 = Ok tt;
}.

Section project.
Context {W} (h : handler W) (c : Client) (lbID : string) `{!DismantlingProject h c lbID}.

(** The balancer's deletion has progressed at least as far. *)
Definition later (w w' : W) : Prop :=
  (standing w -> standing w' \/ draining w' drain) /\ (forall n, draining w n -> draining w' n).

Lemma later_refl w : later w w.
Proof. split; auto. Qed.
Lemma later_trans w1 w2 w3 : later w1 w2 -> later w2 w3 -> later w1 w3.
Proof. intros [H1 H2] [H3 H4]. split; [|auto]. intros [Hs|Hd]%H1; auto. Qed.

Lemma teardown_later w t w' : Forall teardown t -> answers h w t w' -> later w w'.
Proof.
  apply answers_preorder; [exact later_refl|exact later_trans|]. intros X r w1 Hr.
  split; [by apply teardown_standing|by intros n; apply teardown_draining].
Qed.

(** A part of a run, and the worlds around it. *)
Lemma within_world {A} (p : prog A) a w t w' :
  Forall teardown t -> within t p a -> answers h w t w' ->
  exists w1 w2, later w w1 /\ run h p w1 = (a, w2) /\ later w2 w'.
Proof.
  intros Ht (t1 & t2 & t3 & -> & Hp) Ha. split_traces.
  apply answers_app in Ha as (w1 & Ha1 & Ha). apply answers_app in Ha as (w2 & Ha2 & Ha3).
  exists w1, w2. split_and!; [by apply (teardown_later w t1)|apply run_answers; by eexists|by apply (teardown_later w2 t3)].
Qed.

Lemma run_DeleteLoadBalancer w :
  (h _ w (ApiDelete (api c) (lbPath c lbID))).1 = Ok tt ->
  run h (DeleteLoadBalancer c lbID) w = (None, (h _ w (ApiDelete (api c) (lbPath c lbID))).2).
Proof.
  intros Hok. unfold DeleteLoadBalancer, apiDelete. rewrite run_bind. by rewrite (run_retry_ok h _ _ w tt Hok).
Qed.

Lemma run_GetFloatingIP_drained w id :
  draining w 0 -> match (run h (GetFloatingIP c id) w).1 with Ok fip => fipReaped fip = true | Err _ => True end.
Proof.
  intros Hw. pose proof (drained_fip w id Hw) as Hg. unfold GetFloatingIP, apiGet. rewrite run_bind.
  change (regionPath c ("/floatingip/" +:+ id)) with (fipPath c id).
  rewrite run_retry_final by (case_match; done).
  destruct (h _ w _).1 as [fip|e]; cbn; [done|]. by rewrite Hg.
Qed.

Lemma run_DeletePrivateNetwork_drained w id :
  draining w 0 -> (run h (DeletePrivateNetwork c id) w).1 = None.
Proof.
  intros Hw. unfold DeletePrivateNetwork, apiDelete. rewrite run_bind.
  change (projectPath c ("/network/private/" +:+ id)) with (networkPath c id).
  by rewrite (run_retry_ok h _ _ w tt (drained_network w id Hw)).
Qed.
End project.

(** ** One reconciliation *)

Section retirement.
Context `{CapiLib} (scope : ClusterScope).
#[local] Abbreviation c := (CScope_OVHClient scope).
#[local] Abbreviation balancer o := (CStatus_LoadBalancerID (OVHCluster_Status o)).

Lemma deletion_teardown o t r : runs (ReconcileDelete scope o) t r -> Forall teardown t.
Proof.
  assert (Hk : keeps teardown any (ReconcileDelete scope)) by (keeps_with ltac:(by try intros ?)).
  destruct r as [r o']. intros Hr. by destruct (keeps_run _ _ _ _ _ _ _ Hk I Hr).
Qed.

Lemma deleteResources_balancer o t r :
  balancer o <> "" -> runs (deleteResources scope o) t r ->
  exists e, within t (DeleteLoadBalancer c (balancer o)) e.
Proof.
  intros Hne Hr. destruct r as [r o']. unfold deleteResources in Hr. rinv.
  match goal with H1 : runs (deleteDNS _ _) _ _ |- _ =>
    apply (keeps_run _ _ _ _ _ _ _ (deleteDNS_cleaned scope o) (cleaned_refl o)) in H1 as [_ Hc1] end.
  match goal with H2 : runs (deleteSecurityGroups _ _) _ _ |- _ =>
    apply (keeps_run _ _ _ _ _ _ _ (deleteSecurityGroups_cleaned scope o) Hc1) in H2 as [_ (d & m & ->)] end.
  match goal with H3 : runs (captureFips _ _) _ _ |- _ =>
    apply (reads_only (captureFips scope)) in H3 as ->; [|keeps_with done] end.
  match goal with H4 : runs (deleteLB _ _) ?u (?e, _) |- _ =>
    assert (Hd : exists e, within u (DeleteLoadBalancer c (balancer o)) e) end.
  { match goal with H4 : runs (deleteLB _ _) _ (?e, _) |- _ => destruct e as [e|];
      [apply deleteLB_held in H4 as [e' He]; by exists (Some e')
      |apply deleteLB_run in H4 as [_ He]; exists None; by apply He] end. }
  destruct Hd as [e He]. exists e. in_run.
Qed.

(** A deletion deletes the balancer, and either removes the finalizer or leaves the
    object as it was, up to the records of DNS and security groups, because
    something held it up. *)
Lemma deletion_run o t r o' :
  keepPolicy o = false -> balancer o <> "" -> runs (ReconcileDelete scope o) t (r, o') ->
  (hasFinalizer o' = false \/ cleaned o o' /\ cluster_held scope o t) /\
  exists e, within t (DeleteLoadBalancer c (balancer o)) e.
Proof.
  intros Hk Hne Hr. unfold ReconcileDelete, observeDuration in Hr. rinv. rewrite Hk in *.
  match goal with Hd : runs (deleteResources _ _) _ _ |- _ => rename Hd into Hres end. split.
  - destruct (deleteResources_held _ _ _ _ _ Hres) as [?|Hh]; [by left|].
    apply deleteResources_run in Hres as [[_ ?]|(_ & ? & _)]; [right|by left].
    split; [done|]. exact (cluster_held_within scope o [_] _ _ Hh).
  - apply (deleteResources_balancer _ _ _ Hne) in Hres as [e He]. exists e. in_run.
Qed.

Context {W : Type} (h : handler W) (lbID : string) `{!DismantlingProject h c lbID}.

(** The answers of a drained project hold no deletion up. *)
Lemma drained_not_held o t w w' :
  balancer o = lbID -> draining w 0 -> Forall teardown t -> answers h w t w' -> ~ cluster_held scope o t.
Proof.
  intros Hlb Hw Ht Ha. destruct 1 as [e He|id fip Hf Hr|e _ He].
  - rewrite Hlb in He. destruct (within_world h c lbID _ _ w t w' Ht He Ha) as (w1 & w2 & [_ Hl] & Hrun & _).
    rewrite (run_DeleteLoadBalancer h c lbID) in Hrun by (eapply delete_draining, Hl, Hw). done.
  - destruct (within_world h c lbID _ _ w t w' Ht Hf Ha) as (w1 & w2 & [_ Hl] & Hrun & _).
    pose proof (run_GetFloatingIP_drained h c lbID w1 id (Hl _ Hw)) as Hg. rewrite Hrun in Hg. cbn in Hg. congruence.
  - destruct (within_world h c lbID _ _ w t w' Ht He Ha) as (w1 & w2 & [_ Hl] & Hrun & _).
    pose proof (run_DeletePrivateNetwork_drained h c lbID w1 (CStatus_NetworkID (OVHCluster_Status o)) (Hl _ Hw)) as Hg.
    rewrite Hrun in Hg. done.
Qed.

(** After the deletion of the balancer was asked for, it drains. *)
Lemma balancer_drains t e w w' :
  Forall teardown t -> within t (DeleteLoadBalancer c lbID) e -> answers h w t w' ->
  (standing w -> draining w' drain) /\ (forall n, draining w n -> draining w' n).
Proof.
  intros Ht He Ha. destruct (within_world h c lbID _ _ w t w' Ht He Ha) as (w1 & w2 & [H1 H2] & Hrun & [H3 H4]).
  split; [|intros n Hn; by apply (teardown_later h c lbID w t w' Ht Ha)].
  intros [Hs|Hd]%H1; [|].
  - apply delete_standing in Hs as [Hok Hd]. rewrite run_DeleteLoadBalancer in Hrun by done.
    injection Hrun as _ <-. by apply H4.
  - assert (Hl : later h c lbID w1 w'); [|by apply Hl].
    apply (later_trans h c lbID _ w2); [|by split].
    destruct (run_runs h (DeleteLoadBalancer c lbID) w1) as (u & Hu & Hau). rewrite Hrun in Hau.
    refine (teardown_later h c lbID w1 u w2 _ Hau). refine (emits_run _ _ _ _ _ Hu). keeps_with done.
Qed.

(** ** Rounds *)

Definition dismantle (s : OVHCluster * W) : OVHCluster * W :=
  if hasFinalizer s.1 then
    let '(_, o', w') := run h (ReconcileDelete scope s.1) s.2 in (o', lapse w')
  else s.

Fixpoint dismantles (n : nat) (s : OVHCluster * W) : OVHCluster * W :=
  match n with O => s | S n => dismantles n (dismantle s) end.

(** The deletion of the balancer was accepted, and the finalizer is gone. *)
Definition dismantled (s : OVHCluster * W) : Prop :=
  hasFinalizer s.1 = false /\ exists n, draining s.2 n.

(** Still to do: at most [n] rounds after this one. *)
Definition underway (w : W) (n : nat) : Prop :=
  (standing w /\ n = S drain) \/ exists m, (m <= n)%nat /\ draining w m.

Lemma dismantle_round o n s :
  keepPolicy o = false -> hasFinalizer o = true -> balancer o = lbID -> lbID <> "" ->
  cleaned o s.1 -> underway s.2 n ->
  dismantled (dismantle s) \/
  (n <> 0%nat /\ cleaned o (dismantle s).1 /\ underway (dismantle s).2 (pred n)).
Proof.
  intros Hk Hf Hlb Hne (d & m & Ho) Hw. destruct s as [o1 w]. cbn [fst snd] in *.
  assert (Hsame : balancer o1 = lbID /\ keepPolicy o1 = false /\ hasFinalizer o1 = true) by by subst o1.
  destruct Hsame as (Hlb1 & Hk1 & Hf1). unfold dismantle. cbn [fst snd]. rewrite Hf1.
  destruct (run h _ w) as [[r o'] w'] eqn:Hrun. apply run_answers in Hrun as (t & Hr & Ha). cbn [fst snd].
  pose proof (deletion_teardown _ _ _ Hr) as Ht.
  destruct (deletion_run o1 t r o' Hk1) as [Hout [e He]]; [by rewrite Hlb1|done|]. rewrite Hlb1 in He.
  destruct (balancer_drains t e w w' Ht He Ha) as [Hs Hd].
  assert (Hnext : (n <> 0%nat -> underway (lapse w') (pred n)) /\ exists m, draining (lapse w') m).
  { destruct Hw as [[Hw ->]|(k & Hkn & Hw)].
    - apply Hs, lapse_draining in Hw. split; [intros _; right; exists (pred drain); split; [lia|done]|by eexists].
    - apply Hd, lapse_draining in Hw. split; [intros _; right; exists (pred k); split; [lia|done]|by eexists]. }
  destruct Hnext as [Hnext Hsome]. destruct Hout as [Hgone|[(d' & m' & ->) Hheld]]; [by left|right].
  assert (Hn : n <> 0%nat).
  { intros ->. destruct Hw as [[_ ?]|(k & Hk0 & Hw)]; [done|]. replace k with 0%nat in Hw by lia.
    by apply (drained_not_held o1 t w w'). }
  split_and!; [done| |by apply Hnext]. subst o1. by exists d', m'.
Qed.

Lemma dismantles_done k s : dismantled s -> dismantles k s = s.
Proof.
  intros [Hf _]. induction k as [|k IH]; [done|]. cbn [dismantles]. unfold dismantle at 1. by rewrite Hf.
Qed.

Lemma dismantles_underway o n k s :
  keepPolicy o = false -> hasFinalizer o = true -> balancer o = lbID -> lbID <> "" ->
  cleaned o s.1 -> underway s.2 n -> (n < k)%nat -> dismantled (dismantles k s).
Proof.
  intros Hk Hf Hlb Hne. revert n s. induction k as [|k IH]; intros n s Hc Hw Hn; [lia|]. cbn [dismantles].
  destruct (dismantle_round o n s Hk Hf Hlb Hne Hc Hw) as [Hd|(Hz & Hc' & Hw')].
  - by rewrite dismantles_done.
  - apply (IH (pred n)); [done..|lia].
Qed.

End retirement.

(** ** A project that takes two rounds *)

(** The balancer, its deletion under way for so many rounds more, or gone. *)
Inductive stage := Up | Closing (n : nat) | Down.

Definition close (w : stage) : stage := match w with Up => Closing 2 | w => w end.

Definition attached_fip : FloatingIP := {|
  FloatingIP_ID := "fip-1"; FloatingIP_IP := "1.2.3.4"; FloatingIP_Status := "active";
  FloatingIP_AssociatedEntity := Some {| FloatingIPAssociation_ID := "lb-1";
    FloatingIPAssociation_Type := "loadBalancer"; FloatingIPAssociation_IP := "10.0.0.3";
    FloatingIPAssociation_GatewayID := "gw-1" |};
  FloatingIP_Region := "GRA7"; FloatingIP_NetworkID := "net" |}.

Definition closing_get (w : stage) {T} (path : string) (tg : target T) : gores T :=
  match tg in target T return gores T with
  | TFloatingIP => match w with Down => refused | _ => Ok attached_fip end
  | tg => healthy_get _ path tg
  end.

Definition closing_env : handler stage := fun X w r =>
  match r in req X return X * stage with
  | ApiGet _ path tg => (closing_get w path tg, w)
  | ApiDelete _ path =>
      if strEqb path (lbPath demo_client "lb-1") then (Ok tt, close w)
      else (match w with Down => Ok tt | _ => Err (APIError 409 "in use") end, w)
  | r => ((demo_env healthy _ tt r).1, w)
  end.

Definition closing (w : stage) (n : nat) : Prop :=
  match w with Up => False | Closing k => (0 < k <= n)%nat | Down => True end.

Lemma closing_env_world {X} (r : req X) w : (closing_env _ w r).2 = w \/ (closing_env _ w r).2 = close w.
Proof. destruct r; cbn; auto. destruct (strEqb _ _); auto. Qed.

#[export] Instance TwoRoundProject : DismantlingProject closing_env demo_client "lb-1".
Proof.
  refine {|
    standing w := w = Up; draining := closing; drain := 2;
    lapse w := match w with Closing (S (S k)) => Closing (S k) | Up => Up | _ => Down end |}.
  - intros [|[|[|k]]|] n Hn; cbn in *; try done; lia.
  - intros X r w _ ->. destruct (closing_env_world r Up) as [-> | ->]; [by left|right; cbn; lia].
  - intros X r w n _ Hw. destruct (closing_env_world r w) as [-> | ->]; [done|by destruct w].
  - intros w ->. split; [reflexivity|]. change (0 < 2 <= 2)%nat. lia.
  - intros w n Hw. reflexivity.
  - intros [|k|] id Hw; unfold closing in Hw; [done|lia|reflexivity].
  - intros [|k|] id Hw; unfold closing in Hw; [done|lia|]. unfold closing_env. by destruct (strEqb _ _).
Defined.

(** A cluster with a network of its own: the finalizer stays while the floating IP
    and the network are held, and goes when they are let go. *)
Definition closing_object : OVHCluster := deleting_object {{ OVHCluster_Status ::= fun s => s {{
  CStatus_Conditions := [cond NetworkCreatedByControllerCondition ConditionTrue
                           NetworkCreatedByControllerCondition ""] }} }}.

