(* ===== verification/IgnoredFields.v ===== *)
(** * IgnoredFields: what the reconcilers never look at

    A relational reading of the reconcilers: [sim f m1 m2] says that every run of
    [m1] is, on the object changed by [f], a run of [m2] with the same requests,
    answers and result, which ends in the same object changed by [f].  With [f]
    the change of a set of fields and [m1], [m2] the same reconciler, the
    reconciler neither reads nor writes those fields. *)
From S2P Require Import Prelude.
From S2P Require Import GoStrings.
From S2P Require Import GoErrors.
From S2P Require Import OvhTypes.
From S2P Require Import K8sTypes.
From S2P Require Import ApiV1alpha2.
From S2P Require Import Effects.
From S2P Require Import OvhClient.
From S2P Require Import Hoare.
From S2P Require Import Naming.
From S2P Require Import Metrics.
From S2P Require Import CapiLib.
From S2P Require Import ClusterController.
From S2P Require Import ClusterLB.
From S2P Require Import ClusterReconcile.
From S2P Require Import WorkloadNode.
From S2P Require Import MachineController.
From S2P Require Import Demo.
#[local] Open Scope Z_scope.
#[local] Open Scope go_scope.

(** ** The judgement and its rules *)

Definition sim {S A} (f : S -> S) (m1 m2 : M S A) : Prop :=
  forall s t a s', runs (m1 s) t (a, s') -> runs (m2 (f s)) t (a, f s').

(** A program that does not depend on what [f] changes. *)
Abbreviation blind f m := (sim f m m).

Section sim.
Context {S : Type} (f : S -> S).

Lemma sim_ret {A} (a : A) : blind f (mret a).
Proof. intros s t b s' [-> [= -> ->]]. done. Qed.

Lemma sim_bind {A B} (m1 m2 : M S A) (k1 k2 : A -> M S B) :
  sim f m1 m2 -> (forall a, sim f (k1 a) (k2 a)) -> sim f (mbind m1 k1) (mbind m2 k2).
Proof.
  intros Hm Hk s t b s' (t1 & t2 & a & s1 & -> & H1 & H2)%runs_mbind. apply runs_mbind.
  exists t1, t2, a, (f s1). split_all; [by apply Hm|by apply Hk].
Qed.

(** Reading the state: the two continuations get the two readings of one state. *)
Lemma sim_read {X B} (g : S -> X) (k1 k2 : X -> M S B) :
  (forall s, sim f (k1 (g s)) (k2 (g (f s)))) ->
  sim f (mbind (fun s => Ret (g s, s)) k1) (mbind (fun s => Ret (g s, s)) k2).
Proof. intros Hk s t b s' H. by apply (Hk s). Qed.

Lemma sim_modify (g1 g2 : S -> S) :
  (forall s, g2 (f s) = f (g1 s)) -> sim f (modify g1) (modify g2).
Proof. intros Hg s t a s' [-> [= -> ->]]. cbn. by rewrite Hg. Qed.

Lemma sim_lift {A} (p : prog A) : blind f (lift p).
Proof. intros s t a s' [H ->]%runs_lift. by apply runs_lift. Qed.

Lemma sim_mcall {X} (r : req X) : blind f (mcall r).
Proof. intros s t a s' (x & t' & -> & -> & [= -> ->]). by exists x, []. Qed.

Lemma sim_range_map m : blind f (range_map m).
Proof. intros s t a s' (x & t' & -> & -> & [= -> ->]). by exists x, []. Qed.

Lemma sim_for_each {X} (l : list X) (b1 b2 : X -> M S unit) :
  (forall x, sim f (b1 x) (b2 x)) -> sim f (for_each l b1) (for_each l b2).
Proof.
  intros Hb. induction l as [|x l IH]; [apply sim_ret|]. by apply sim_bind; [|intros []].
Qed.

Lemma sim_for_each_err {X} (l : list X) (b1 b2 : X -> M S (option goerror)) :
  (forall x, sim f (b1 x) (b2 x)) -> sim f (for_each_err l b1) (for_each_err l b2).
Proof.
  intros Hb. induction l as [|x l IH]; [apply sim_ret|].
  apply sim_bind; [done|]. intros [e|]; [apply sim_ret|exact IH].
Qed.
End sim.

Create HintDb sim discriminated.

(** One step on a goal [sim f m1 m2]: the readings are unfolded first, a branch
    is taken by both sides because their conditions are convertible. *)
Ltac sim_step :=
  lazymatch goal with
  | |- sim _ (mret _) _ => apply sim_ret
  | |- sim _ (lift _) _ => apply sim_lift
  | |- sim _ (mcall _) _ => apply sim_mcall
  | |- sim _ (range_map _) _ => apply sim_range_map
  | |- sim _ (modify _) _ => apply sim_modify; intros ?
  | |- sim _ (mbind (fun _ => Ret (_, _)) _) _ => apply sim_read; intros ?
  | |- sim _ (mbind get _) _ => apply (sim_read _ id); intros ?
  | |- sim _ (mbind getSpec _) _ => apply (sim_read _ OVHCluster_Spec); intros ?
  | |- sim _ (mbind getStatus _) _ => apply (sim_read _ OVHCluster_Status); intros ?
  | |- sim _ (mbind getMSpec _) _ => apply (sim_read _ OVHMachine_Spec); intros ?
  | |- sim _ (mbind getMStatus _) _ => apply (sim_read _ OVHMachine_Status); intros ?
  | |- sim _ (mbind _ _) _ => apply sim_bind; [|intros ?]
  | |- sim _ (for_each _ _) _ => apply sim_for_each; intros ?
  | |- sim _ (for_each_err _ _) _ => apply sim_for_each_err; intros ?
  | |- sim _ (match ?x with _ => _ end) (match ?y with _ => _ end) =>
      first [change y with x | idtac]; destruct x
  | |- sim _ ?m1 ?m2 => let h := head_of m1 in unfold h; cbn beta
  end.
Ltac sims := repeat (first [solve [eauto with sim nocore] | sim_step]); try done.

(** ** OVHMachine *)

(** Fields of [OVHMachineSpec] that a user may set. *)
Record MachineExtras := {
  x_RootDiskSize : Z;
  x_AdditionalVolumes : list OVHVolume;
  x_FailureDomain : string;
  x_SecurityGroupNames : list string;
  x_Tags : gmap string string;
  x_BootstrapFormat : string;
}.

Definition with_extras (x : MachineExtras) (o : OVHMachine) : OVHMachine :=
  o {{ OVHMachine_Spec ::= fun s => s {{
    MSpec_RootDiskSize := x_RootDiskSize x;
    MSpec_AdditionalVolumes := x_AdditionalVolumes x;
    MSpec_FailureDomain := x_FailureDomain x;
    MSpec_SecurityGroupNames := x_SecurityGroupNames x;
    MSpec_Tags := x_Tags x;
    MSpec_BootstrapFormat := x_BootstrapFormat x }} }}.

Section machine.
Context `{CapiLib} (x : MachineExtras) (scope : MachineScope).

Lemma blind_createInstance : blind (with_extras x) (createInstance scope).
Proof. sims. Qed.
Lemma blind_handleExistingInstance instance : blind (with_extras x) (handleExistingInstance scope instance).
Proof. sims. Qed.
Lemma blind_findInstance : blind (with_extras x) (findInstance scope).
Proof. sims. Qed.
#[local] Hint Resolve blind_createInstance blind_handleExistingInstance blind_findInstance : sim.
Lemma blind_MachineReconcileNormal : blind (with_extras x) (MachineReconcileNormal scope).
Proof. sims. Qed.
Lemma blind_MachineReconcileDelete : blind (with_extras x) (MachineReconcileDelete scope).
Proof. sims. Qed.
End machine.

(** What the machine reconcilers read of the [OVHCluster] of the scope. *)
Record ClusterView := {
  v_Region : string;
  v_SSHKeyName : string;
  v_NetworkID : string;
  v_LoadBalancerID : string;
  v_PoolID : string;
}.

Definition cluster_view (o : OVHCluster) : ClusterView := {|
  v_Region := CSpec_Region (OVHCluster_Spec o);
  v_SSHKeyName := CSpec_SSHKeyName (OVHCluster_Spec o);
  v_NetworkID := CStatus_NetworkID (OVHCluster_Status o);
  v_LoadBalancerID := CStatus_LoadBalancerID (OVHCluster_Status o);
  v_PoolID := CStatus_PoolID (OVHCluster_Status o) |}.

(** The object with the fields of a view, and otherwise that of [Demo]. *)
Definition of_view (v : ClusterView) : OVHCluster := {|
  OVHCluster_ObjectMeta := OVHCluster_ObjectMeta (demo_object "" false);
  OVHCluster_Spec := (demo_spec "") {{ CSpec_Region := v_Region v; CSpec_SSHKeyName := v_SSHKeyName v }};
  OVHCluster_Status := demo_status {{ CStatus_NetworkID := v_NetworkID v;
                                      CStatus_LoadBalancerID := v_LoadBalancerID v;
                                      CStatus_PoolID := v_PoolID v }} |}.

Definition on_cluster (o : OVHCluster) (scope : MachineScope) : MachineScope :=
  scope {{ MScope_OVHCluster := o }}.

Lemma machine_normal_view `{CapiLib} scope :
  MachineReconcileNormal scope =
  MachineReconcileNormal (on_cluster (of_view (cluster_view (MScope_OVHCluster scope))) scope).
Proof. reflexivity. Qed.
Lemma machine_delete_view `{CapiLib} scope :
  MachineReconcileDelete scope =
  MachineReconcileDelete (on_cluster (of_view (cluster_view (MScope_OVHCluster scope))) scope).
Proof. reflexivity. Qed.

(** C25.  The machine reconcilers ignore six fields of the machine's specification -
    the root disk, the additional volumes, the failure domain, the security groups,
    the tags and the bootstrap format - and, of the [OVHCluster], everything but
    five fields, its security groups and default tags included: changed in any way,
    they make the same requests in the same order, return the same result and leave
    the same machine. *)
Theorem machine_fields_ignored `{CapiLib} x scope cluster o t r o' :
  cluster_view cluster = cluster_view (MScope_OVHCluster scope) ->
  (runs (MachineReconcileNormal scope o) t (r, o') ->
   runs (MachineReconcileNormal (on_cluster cluster scope) (with_extras x o)) t (r, with_extras x o')) /\
  (runs (MachineReconcileDelete scope o) t (r, o') ->
   runs (MachineReconcileDelete (on_cluster cluster scope) (with_extras x o)) t (r, with_extras x o')).
Proof.
  intros Hv. rewrite (machine_normal_view (on_cluster cluster scope)),
    (machine_delete_view (on_cluster cluster scope)).
  change (MScope_OVHCluster (on_cluster cluster scope)) with cluster. rewrite Hv.
  change (on_cluster ?a (on_cluster cluster scope)) with (on_cluster a scope).
  rewrite <- machine_normal_view, <- machine_delete_view.
  split; [apply blind_MachineReconcileNormal|apply blind_MachineReconcileDelete].
Qed.

(** ** OVHCluster *)

Record ClusterExtras := {
  x_Listeners : list OVHListener;
  x_Gateway : string;
  x_DNSServers : list string;
  x_DefaultTags : gmap string string;
}.

Definition net_extras (x : ClusterExtras) (n : OVHNetworkConfig) : OVHNetworkConfig :=
  n {{ NetConfig_Gateway := x_Gateway x; NetConfig_DNSServers := x_DNSServers x }}.

Definition with_cluster_extras (x : ClusterExtras) (o : OVHCluster) : OVHCluster :=
  o {{ OVHCluster_Spec ::= fun s => s {{
    CSpec_LoadBalancerConfig ::= (fun l => l {{ LBConfig_Listeners := x_Listeners x }});
    CSpec_NetworkConfig ::= option_map (net_extras x);
    CSpec_DefaultTags := x_DefaultTags x }} }}.

Section cluster.
Context `{CapiLib} (x : ClusterExtras) (scope : ClusterScope).
#[local] Abbreviation blindC m := (blind (with_cluster_extras x) m).

Lemma sim_ensureNetwork n region :
  sim (with_cluster_extras x) (ensureNetwork scope n region) (ensureNetwork scope (net_extras x n) region).
Proof. sims. Qed.
Lemma sim_ensureSubnet n region :
  sim (with_cluster_extras x) (ensureSubnet scope n region) (ensureSubnet scope (net_extras x n) region).
Proof. sims. Qed.
#[local] Hint Resolve sim_ensureNetwork sim_ensureSubnet : sim.
Lemma blind_reconcileNetwork : blindC (reconcileNetwork scope).
Proof.
  unfold reconcileNetwork. sim_step. cbn. destruct (CSpec_NetworkConfig _) as [n|]; cbn; sims.
Qed.
Lemma blind_createNewLB : blindC (createNewLB scope).
Proof. sims. Qed.
Lemma blind_reconcileLBPort name port p1 p2 : blindC (reconcileLBPort scope name port p1 p2).
Proof. sims. Qed.
Lemma blind_setEndpoint host : blindC (setEndpoint host).
Proof. unfold setEndpoint. sim_step. cbn. by destruct (_ && _). Qed.
Lemma blind_adoptExisting : blindC adoptExisting.
Proof. unfold adoptExisting. sim_step. cbn. repeat case_match; cbn in *; try done; congruence. Qed.
#[local] Hint Resolve blind_reconcileNetwork blind_createNewLB blind_reconcileLBPort
  blind_setEndpoint blind_adoptExisting : sim.
Lemma blind_handleExistingLB lb : blindC (handleExistingLB scope lb).
Proof. sims. Qed.
#[local] Hint Resolve blind_handleExistingLB : sim.
Lemma blind_reconcileLoadBalancer : blindC (reconcileLoadBalancer scope).
Proof. sims. Qed.
#[local] Hint Resolve blind_reconcileLoadBalancer : sim.
Lemma blind_reconcileInfrastructure : blindC (reconcileInfrastructure scope).
Proof. sims. Qed.
#[local] Hint Resolve blind_reconcileInfrastructure : sim.
Lemma blind_ReconcileNormal : blindC (ReconcileNormal scope).
Proof. sims. Qed.
Lemma blind_ReconcileDelete : blindC (ReconcileDelete scope).
Proof. sims. Qed.
End cluster.

(** The cluster reconcilers ignore the listeners of the load balancer, the
    gateway and DNS servers of the network, and the default tags. *)
Theorem cluster_fields_ignored `{CapiLib} x scope o t r o' :
  (runs (ReconcileNormal scope o) t (r, o') ->
   runs (ReconcileNormal scope (with_cluster_extras x o)) t (r, with_cluster_extras x o')) /\
  (runs (ReconcileDelete scope o) t (r, o') ->
   runs (ReconcileDelete scope (with_cluster_extras x o)) t (r, with_cluster_extras x o')).
Proof. split; [apply blind_ReconcileNormal|apply blind_ReconcileDelete]. Qed.

(** The volumes of the status, which deletion ranges over: no reconciliation
    records one. *)
Theorem volumes_never_recorded `{CapiLib} scope o t r o' :
  runs (MachineReconcileNormal scope o) t (r, o') \/ runs (MachineReconcileDelete scope o) t (r, o') ->
  MStatus_VolumeIDs (OVHMachine_Status o') = MStatus_VolumeIDs (OVHMachine_Status o).
Proof.
  assert (Hn : keeps any (fun o' => MStatus_VolumeIDs (OVHMachine_Status o') = MStatus_VolumeIDs (OVHMachine_Status o))
                 (MachineReconcileNormal scope)) by (keeps_with done).
  assert (Hd : keeps any (fun o' => MStatus_VolumeIDs (OVHMachine_Status o') = MStatus_VolumeIDs (OVHMachine_Status o))
                 (MachineReconcileDelete scope)) by (keeps_with done).
  intros [Hr|Hr]; [by destruct (keeps_run _ _ _ _ _ _ _ Hn eq_refl Hr)|
                   by destruct (keeps_run _ _ _ _ _ _ _ Hd eq_refl Hr)].
Qed.

(** A machine that asks for a bigger disk, a volume and a security group, in a
    cluster whose groups are recorded, is treated like one that does not. *)
Definition demanding : MachineExtras := {|
  x_RootDiskSize := 500; x_AdditionalVolumes := []; x_FailureDomain := "zone-2";
  x_SecurityGroupNames := ["workers"]; x_Tags := {[ "team" := "a" ]}; x_BootstrapFormat := "ignition" |}.
Definition grouped_cluster : OVHCluster :=
  (demo_object "net" false) {{ OVHCluster_Status ::= fun s => s {{
    CStatus_SecurityGroupIDs := {[ "workers" := "sg-1" ]} }} }}.

Lemma machine_fields_ignored_witness :
  let scope := demo_machine_scope false in
  let run := demo_run healthy (MachineReconcileNormal scope (demo_machine false "i-1")) in
  runs (MachineReconcileNormal (on_cluster grouped_cluster scope)
          (with_extras demanding (demo_machine false "i-1")))
       run.1 (run.2.1, with_extras demanding run.2.2).
Proof.
  intros scope run.
  assert (Hrun : runs (MachineReconcileNormal scope (demo_machine false "i-1")) run.1 (run.2.1, run.2.2)).
  { rewrite <- surjective_pairing. apply demo_runs. }
  clearbody run.
  exact (proj1 (machine_fields_ignored demanding scope grouped_cluster _ _ _ _ eq_refl) Hrun).
Defined.

Lemma cluster_fields_ignored_witness :
  let x := {| x_Listeners := []; x_Gateway := "10.0.0.1"; x_DNSServers := ["1.1.1.1"];
              x_DefaultTags := {[ "team" := "a" ]} |} in
  let run := demo_run healthy (ReconcileNormal demo_scope (demo_object "net" false)) in
  runs (ReconcileNormal demo_scope (with_cluster_extras x (demo_object "net" false)))
       run.1 (run.2.1, with_cluster_extras x run.2.2).
Proof.
  intros x run.
  assert (Hrun : runs (ReconcileNormal demo_scope (demo_object "net" false)) run.1 (run.2.1, run.2.2)).
  { rewrite <- surjective_pairing. apply demo_runs. }
  clearbody run. exact (proj1 (cluster_fields_ignored x demo_scope _ _ _ _) Hrun).
Defined.
