(* ===== verification/Vocabulary.v ===== *)
(** * Vocabulary: the conditions the reconcilers write

    The constants of both API versions name many conditions and reasons; here is
    which of them the reconcilers use, with which status, and what that implies
    for a reader of the conditions. *)
From Stdlib Require Import Ascii.
From S2P Require Import Prelude.
From S2P Require Import GoStrings.
From S2P Require Import GoErrors.
From S2P Require Import OvhTypes.
From S2P Require Import K8sTypes.
From S2P Require ApiV1alpha1.
From S2P Require Import ApiV1alpha2.
From S2P Require Import Effects.
From S2P Require Import OvhClient.
From S2P Require Import Hoare.
From S2P Require Import CapiLib.
From S2P Require Import ClusterController.
From S2P Require Import ClusterLB.
From S2P Require Import ClusterReconcile.
From S2P Require Import MachineController.
From S2P Require Import Demo.
#[local] Open Scope Z_scope.
#[local] Open Scope go_scope.

(** A type, a status and a reason. *)
Definition word : Type := string * string * string.

Definition cluster_vocabulary : list word := [
  (OVHConnectionReadyCondition, ConditionTrue, OVHConnectionReadyCondition);
  (OVHConnectionReadyCondition, ConditionFalse, OVHConnectionFailedReason);
  (OVHConnectionReadyCondition, ConditionFalse, OVHAuthenticationFailedReason);
  (NetworkReadyCondition, ConditionTrue, NetworkReadyCondition);
  (NetworkReadyCondition, ConditionFalse, NetworkCreationFailedReason);
  (NetworkCreatedByControllerCondition, ConditionTrue, NetworkCreatedByControllerCondition);
  (LoadBalancerReadyCondition, ConditionTrue, LoadBalancerReadyCondition);
  (LoadBalancerReadyCondition, ConditionFalse, LoadBalancerNotReadyReason);
  (LoadBalancerReadyCondition, ConditionFalse, LoadBalancerCreationFailedReason);
  (InfrastructureReadyCondition, ConditionTrue, InfrastructureReadyCondition)].

Definition machine_vocabulary : list word := [
  (InstanceCreatedCondition, ConditionTrue, InstanceCreatedCondition);
  (InstanceCreatedCondition, ConditionFalse, InstanceProvisioningFailedReason);
  (InstanceProvisioningReadyCondition, ConditionTrue, InstanceProvisioningReadyCondition);
  (InstanceProvisioningReadyCondition, ConditionFalse, InfrastructureProvisioningInProgressReason);
  (InstanceProvisioningReadyCondition, ConditionFalse, InstanceProvisioningInProgressReason);
  (InstanceProvisioningReadyCondition, ConditionFalse, InstanceProvisioningFailedReason);
  (InstanceRunningCondition, ConditionTrue, InstanceRunningCondition);
  (InstanceRunningCondition, ConditionFalse, InstanceNotRunningReason)].

(** The pattern of the API server for the reason of a condition:
    [A-Za-z]([A-Za-z0-9_,:]*[A-Za-z0-9_])? of at most 1024 characters. *)
Definition letter (c : ascii) : bool :=
  let n := N_of_ascii c in ((65 <=? n) && (n <=? 90) || (97 <=? n) && (n <=? 122))%N.
Definition digit_ (c : ascii) : bool :=
  let n := N_of_ascii c in ((48 <=? n) && (n <=? 57) || (n =? 95))%N.
Definition mark (c : ascii) : bool := (c =? ",")%char || (c =? ":")%char.
Definition valid_reason (reason : string) : bool :=
  let cs := String.list_ascii_of_string reason in
  match cs, reverse cs with
  | first :: _, last :: _ =>
      letter first && (letter last || digit_ last) &&
      forallb (fun c => letter c || digit_ c || mark c) cs && (length cs <=? 1024)%nat
  | _, _ => false
  end.

Section vocabulary.
Context `{CapiLib}.

(** Every condition of [cs] is the one of its type in [cs0] or a word of [voc]. *)
Definition speaks (voc : list word) (cs0 cs : list Condition) : Prop :=
  forall ty, conditions_Get cs ty = conditions_Get cs0 ty \/
    exists c, conditions_Get cs ty = Some c /\ (ty, Condition_Status c, Condition_Reason c) ∈ voc.

Lemma speaks_refl voc cs : speaks voc cs cs.
Proof. by left. Qed.

Lemma speaks_Set voc cs0 cs ty status reason message :
  (ty, status, reason) ∈ voc -> speaks voc cs0 cs ->
  speaks voc cs0 (conditions_Set cs (cond ty status reason message)).
Proof.
  intros Hw Hs ty'. rewrite conditions_Get_Set. case_decide as Hty; [|apply Hs].
  cbn in Hty. subst ty'. right. by eexists.
Qed.

Definition cluster_speaks cs0 (o : OVHCluster) : Prop :=
  speaks cluster_vocabulary cs0 (CStatus_Conditions (OVHCluster_Status o)).
Definition machine_speaks cs0 (o : OVHMachine) : Prop :=
  speaks machine_vocabulary cs0 (MStatus_Conditions (OVHMachine_Status o)).

Lemma keeps_setCondition E cs0 ty status reason message :
  (ty, status, reason) ∈ cluster_vocabulary ->
  keeps E (cluster_speaks cs0) (setCondition ty status reason message).
Proof. intros Hw. apply keeps_modify. intros o Ho. by apply speaks_Set. Qed.
Lemma keeps_setMCondition E cs0 ty status reason message :
  (ty, status, reason) ∈ machine_vocabulary ->
  keeps E (machine_speaks cs0) (setMCondition ty status reason message).
Proof. intros Hw. apply keeps_modify. intros o Ho. by apply speaks_Set. Qed.

Ltac a_word := apply (bool_decide_unpack _); reflexivity.
#[local] Hint Extern 1 (keeps _ (cluster_speaks _) (setCondition _ _ _ _)) =>
  apply keeps_setCondition; a_word : keeps.
#[local] Hint Extern 1 (keeps _ (machine_speaks _) (setMCondition _ _ _ _)) =>
  apply keeps_setMCondition; a_word : keeps.

Lemma setEndpoint_speaks cs0 host : keeps any (cluster_speaks cs0) (setEndpoint host).
Proof. apply keeps_modify. intros o Ho. by destruct (_ && _). Qed.
Lemma adoptExisting_speaks cs0 : keeps any (cluster_speaks cs0) adoptExisting.
Proof. apply keeps_modify. intros o Ho. cbn. by repeat case_match. Qed.
#[local] Hint Resolve setEndpoint_speaks adoptExisting_speaks : keeps.

Lemma reconcileOwned_speaks cs0 : keeps any (cluster_speaks cs0) reconcileOwned.
Proof. keeps_with done. Qed.
Lemma machineReconcileOwned_speaks cs0 : keeps any (machine_speaks cs0) machineReconcileOwned.
Proof. keeps_with done. Qed.
End vocabulary.

(** ** What a reader of the conditions may rely on *)

(** Both versions of the API use the same words. *)
Lemma versions_share_words :
  [ApiV1alpha1.OVHConnectionReadyCondition; ApiV1alpha1.NetworkReadyCondition;
   ApiV1alpha1.NetworkCreatedByControllerCondition; ApiV1alpha1.LoadBalancerReadyCondition;
   ApiV1alpha1.InfrastructureReadyCondition; ApiV1alpha1.InstanceCreatedCondition;
   ApiV1alpha1.InstanceProvisioningReadyCondition; ApiV1alpha1.InstanceRunningCondition;
   ApiV1alpha1.ClusterFinalizer; ApiV1alpha1.MachineFinalizer] =
  [OVHConnectionReadyCondition; NetworkReadyCondition; NetworkCreatedByControllerCondition;
   LoadBalancerReadyCondition; InfrastructureReadyCondition; InstanceCreatedCondition;
   InstanceProvisioningReadyCondition; InstanceRunningCondition; ClusterFinalizer; MachineFinalizer].
Proof. reflexivity. Qed.

Section readers.
Context `{CapiLib}.

(** C26.  Whatever OVH and Kubernetes answer, a reconciliation leaves each condition
    of the object as it was or writes one of ten words for a cluster and eight for
    a machine, whose reasons the API server all accepts.  So the conditions of the
    controller at the API server are never refused for their reason; the
    infrastructure is never reported unready, nor the network as not created, once
    it was reported; the condition of the first machine is never written; and a
    true condition's reason is the condition's own type. *)
Theorem conditions_spoken :
  (forall o t r o', runs (reconcileOwned o) t (r, o') ->
     speaks cluster_vocabulary (CStatus_Conditions (OVHCluster_Status o))
       (CStatus_Conditions (OVHCluster_Status o'))) /\
  (forall m t r m', runs (machineReconcileOwned m) t (r, m') ->
     speaks machine_vocabulary (MStatus_Conditions (OVHMachine_Status m))
       (MStatus_Conditions (OVHMachine_Status m'))) /\
  Forall (fun '(ty, status, reason) =>
    valid_reason reason = true /\ ty <> InitMachineCreatedCondition /\
    (status = ConditionTrue -> reason = ty) /\
    (ty ∈ [InfrastructureReadyCondition; NetworkCreatedByControllerCondition] -> status = ConditionTrue))
    (cluster_vocabulary ++ machine_vocabulary).
Proof.
  split_and!.
  - intros o t r o' Hr.
    by destruct (keeps_run _ _ _ _ _ _ _ (reconcileOwned_speaks _) (speaks_refl _ _) Hr).
  - intros m t r m' Hr.
    by destruct (keeps_run _ _ _ _ _ _ _ (machineReconcileOwned_speaks _) (speaks_refl _ _) Hr).
  - repeat constructor; try reflexivity; try discriminate; intros Hin; vm_compute in Hin; set_solver.
Qed.

(** What Cluster API waits for: the flags of a cluster that once was provisioned. *)
Definition provisioned_flags (o : OVHCluster) : Prop :=
  CStatus_Ready (OVHCluster_Status o) = true /\
  CStatus_Initialization (OVHCluster_Status o) = {| Provisioned := Some true |} /\
  conditions_IsTrue (CStatus_Conditions (OVHCluster_Status o)) InfrastructureReadyCondition = true.

Lemma flags_setCondition E ty status reason message :
  ty <> InfrastructureReadyCondition \/ status = ConditionTrue ->
  keeps E provisioned_flags (setCondition ty status reason message).
Proof.
  intros Hw. apply keeps_modify. intros o (Hr & Hp & Hi). split_and!; [done..|].
  cbn. rewrite IsTrue_Set. case_decide as Hty; [|done]. cbn in Hty. subst ty.
  destruct Hw as [?| ->]; done.
Qed.
#[local] Hint Extern 1 (keeps _ provisioned_flags (setCondition _ _ _ _)) =>
  apply flags_setCondition; first [by left|by right] : keeps.

Lemma flags_setEndpoint host : keeps any provisioned_flags (setEndpoint host).
Proof. apply keeps_modify. intros o Ho. by destruct (_ && _). Qed.
Lemma flags_adoptExisting : keeps any provisioned_flags adoptExisting.
Proof. apply keeps_modify. intros o Ho. cbn. by repeat case_match. Qed.
Lemma flags_markReady : keeps any provisioned_flags markReady.
Proof.
  apply keeps_bind; [|intros _; eauto with keeps nocore].
  apply keeps_modify. by intros o (? & ? & ?).
Qed.
#[local] Hint Resolve flags_setEndpoint flags_adoptExisting flags_markReady : keeps.

(** C15.  The contract of Cluster API for an infrastructure: once a cluster is ready
    and provisioned no reconciliation, normal or deleting, on whatever answers,
    takes it back - nor does it when the network, the balancer or the credentials
    are lost. *)
Theorem provisioned_is_latched o t r o' :
  provisioned_flags o -> runs (reconcileOwned o) t (r, o') -> provisioned_flags o'.
Proof.
  intros Ho Hr.
  assert (Hk : keeps any provisioned_flags reconcileOwned) by (keeps_with done).
  by destruct (keeps_run _ _ _ _ _ _ _ Hk Ho Hr).
Qed.
End readers.

(** A provisioned cluster whose credentials can no longer be read. *)
Definition provisioned_cluster : OVHCluster :=
  (demo_object "net" false) {{ OVHCluster_Status := demo_status {{
    CStatus_Ready := true; CStatus_Initialization := {| Provisioned := Some true |};
    CStatus_Conditions := [cond InfrastructureReadyCondition ConditionTrue InfrastructureReadyCondition ""] }} }}.

Lemma provisioned_is_latched_witness :
  let run := demo_run healthy (reconcileOwned provisioned_cluster) in
  conditions_Get (CStatus_Conditions (OVHCluster_Status run.2.2)) OVHConnectionReadyCondition <> None /\
  provisioned_flags run.2.2.
Proof.
  intros run. split; [vm_compute; discriminate|].
  assert (Hrun : runs (reconcileOwned provisioned_cluster) run.1 (run.2.1, run.2.2)).
  { rewrite <- surjective_pairing. apply demo_runs. }
  assert (Hf : provisioned_flags provisioned_cluster) by (split_and!; reflexivity).
  clearbody run. exact (provisioned_is_latched _ _ _ _ Hf Hrun).
Defined.

Lemma conditions_spoken_witness :
  let run := demo_run healthy (reconcileOwned (demo_object "net" false)) in
  exists c, conditions_Get (CStatus_Conditions (OVHCluster_Status run.2.2)) OVHConnectionReadyCondition = Some c /\
    Condition_Reason c = OVHConnectionFailedReason /\
    speaks cluster_vocabulary [] (CStatus_Conditions (OVHCluster_Status run.2.2)).
Proof.
  intros run. eexists. split; [reflexivity|]. split; [reflexivity|].
  assert (Hrun : runs (reconcileOwned (demo_object "net" false)) run.1 (run.2.1, run.2.2)).
  { rewrite <- surjective_pairing. apply demo_runs. }
  exact (proj1 conditions_spoken _ _ _ _ Hrun).
Defined.
