(* ===== verification/Scheme.v ===== *)
(** * Scheme: the kinds the program registers

    api/v1alpha1/groupversion_info.go and api/v1alpha2/groupversion_info.go, and
    the [init] functions that register the types of each version.  The builder and
    the scheme are those of controller-runtime and apimachinery: operations of the
    class [SchemeLib], with their documented behaviour; the theorems hold for any
    instance. *)
From S2P Require Import Prelude.
From S2P Require Import GoStrings.
From S2P Require Import GoErrors.
From S2P Require Import K8sTypes.
From S2P Require Import ApiV1alpha2.
From S2P Require Import Effects.
From S2P Require Import Manager.
#[local] Open Scope Z_scope.
#[local] Open Scope go_scope.

Record GroupVersion := { Group : string; Version : string }.
#[export] Instance GroupVersion_eq_dec : EqDecision GroupVersion.
Proof. solve_decision. Defined.

(** [GroupVersion.String]. *)
Definition gv_string (gv : GroupVersion) : string := Group gv +:+ "/" +:+ Version gv.

(** A kind of a group and version: a Go type is registered under its own name. *)
Definition GVK : Type := GroupVersion * string.

Class SchemeLib := {
  Builder : Type;
  Scheme : Type;
  NewBuilder : GroupVersion -> Builder;
  Register : Builder -> list string -> Builder;
  AddToScheme_ : Builder -> Scheme -> option goerror * Scheme;
  Recognizes : Scheme -> GVK -> bool;
  (** What a builder registers. *)
  registered : Builder -> list GVK;
  builder_gv : Builder -> GroupVersion;
  gv_NewBuilder gv : builder_gv (NewBuilder gv) = gv;
  gv_Register b kinds : builder_gv (Register b kinds) = builder_gv b;
  registered_Register b kinds :
    registered (Register b kinds) = registered b ++ map (fun k => (builder_gv b, k)) kinds;
  (** Without an error the registered types are known, and none is forgotten. *)
  AddToScheme_registered b s s' gvk :
    AddToScheme_ b s = (None, s') -> gvk ∈ registered b -> Recognizes s' gvk = true;
  AddToScheme_keeps b s s' err gvk :
    AddToScheme_ b s = (err, s') -> Recognizes s gvk = true -> Recognizes s' gvk = true;
}.

(** ** The two packages *)

Definition v1alpha1_GroupVersion : GroupVersion :=
  {| Group := "infrastructure.cluster.x-k8s.io"; Version := "v1alpha1" |}.
Definition v1alpha2_GroupVersion : GroupVersion :=
  {| Group := "infrastructure.cluster.x-k8s.io"; Version := "v1alpha2" |}.

(** The arguments of [Register] in the [init] of each file. *)
Definition v1alpha1_init_ovhcluster : list string := ["OVHCluster"; "OVHClusterList"].
Definition v1alpha1_init_ovhclustertemplate : list string := ["OVHClusterTemplate"; "OVHClusterTemplateList"].
Definition v1alpha1_init_ovhmachine : list string := ["OVHMachine"; "OVHMachineList"].
Definition v1alpha1_init_ovhmachinetemplate : list string := ["OVHMachineTemplate"; "OVHMachineTemplateList"].
Definition v1alpha2_init_ovhcluster : list string := ["OVHCluster"; "OVHClusterList"].
Definition v1alpha2_init_ovhclustertemplate : list string := ["OVHClusterTemplate"; "OVHClusterTemplateList"].
Definition v1alpha2_init_ovhmachine : list string := ["OVHMachine"; "OVHMachineList"].
Definition v1alpha2_init_ovhmachinepool : list string := ["OVHMachinePool"; "OVHMachinePoolList"].
Definition v1alpha2_init_ovhmachinetemplate : list string := ["OVHMachineTemplate"; "OVHMachineTemplateList"].

(** The [init] functions in the order Go runs them: by file name. *)
Definition v1alpha1_inits : list (list string) :=
  [v1alpha1_init_ovhcluster;
   v1alpha1_init_ovhclustertemplate;
   v1alpha1_init_ovhmachine;
   v1alpha1_init_ovhmachinetemplate].
Definition v1alpha2_inits : list (list string) :=
  [v1alpha2_init_ovhcluster;
   v1alpha2_init_ovhclustertemplate;
   v1alpha2_init_ovhmachine;
   v1alpha2_init_ovhmachinepool;
   v1alpha2_init_ovhmachinetemplate].

Section scheme.
Context `{SchemeLib}.

Definition v1alpha1_SchemeBuilder : Builder :=
  foldl Register (NewBuilder v1alpha1_GroupVersion) v1alpha1_inits.
Definition v1alpha2_SchemeBuilder : Builder :=
  foldl Register (NewBuilder v1alpha2_GroupVersion) v1alpha2_inits.
Definition v1alpha1_AddToScheme : Scheme -> option goerror * Scheme :=
  AddToScheme_ v1alpha1_SchemeBuilder.
Definition v1alpha2_AddToScheme : Scheme -> option goerror * Scheme :=
  AddToScheme_ v1alpha2_SchemeBuilder.

Lemma registered_inits inits b k :
  k ∈ concat inits -> (builder_gv b, k) ∈ registered (foldl Register b inits).
Proof.
  assert (Hmono : forall inits b gvk, gvk ∈ registered b -> gvk ∈ registered (foldl Register b inits)).
  { clear. intros inits. induction inits as [|l inits IH]; intros b gvk Hin; [done|].
    apply IH. rewrite registered_Register. set_solver. }
  revert b. induction inits as [|l inits IH]; intros b Hk; [set_solver|]. cbn in *.
  apply elem_of_app in Hk as [Hk|Hk].
  - apply Hmono. rewrite registered_Register. apply elem_of_app. right.
    apply list_elem_of_In, in_map, list_elem_of_In, Hk.
  - rewrite <- (gv_Register b l). by apply IH.
Qed.

(** The scheme [main] serves with, filled in the order of its [init]: it knows
    every kind of both versions with its list, so each kind stored in one version
    can be read in the other; and the kinds the two controllers reconcile are, with
    their lists, among those of the hub version. *)
Theorem every_kind_is_registered s s1 s2 :
  v1alpha1_AddToScheme s = (None, s1) -> v1alpha2_AddToScheme s1 = (None, s2) ->
  (forall k, k ∈ concat v1alpha1_inits ->
     Recognizes s2 (v1alpha1_GroupVersion, k) = true /\ Recognizes s2 (v1alpha2_GroupVersion, k) = true) /\
  (forall k, k ∈ concat v1alpha2_inits -> Recognizes s2 (v1alpha2_GroupVersion, k) = true) /\
  Forall (fun k => Recognizes s2 (v1alpha2_GroupVersion, k) = true /\
                   Recognizes s2 (v1alpha2_GroupVersion, k +:+ "List") = true)
    [For_Kind clusterBuilder; For_Kind machineBuilder].
Proof.
  intros H1 H2.
  assert (Hv1 : forall k, k ∈ concat v1alpha1_inits -> Recognizes s2 (v1alpha1_GroupVersion, k) = true).
  { intros k Hk. eapply AddToScheme_keeps; [exact H2|]. eapply AddToScheme_registered; [exact H1|].
    rewrite <- (gv_NewBuilder v1alpha1_GroupVersion). by apply registered_inits. }
  assert (Hv2 : forall k, k ∈ concat v1alpha2_inits -> Recognizes s2 (v1alpha2_GroupVersion, k) = true).
  { intros k Hk. eapply AddToScheme_registered; [exact H2|].
    rewrite <- (gv_NewBuilder v1alpha2_GroupVersion). by apply registered_inits. }
  split_and!; [|done|].
  - intros k Hk. split; [by apply Hv1|]. apply Hv2. vm_compute in Hk |- *. set_solver.
  - repeat constructor; apply Hv2; vm_compute; set_solver.
Qed.
End scheme.

(** The requests of the entry point name the two packages. *)
Lemma registrations_named :
  [gv_string v1alpha1_GroupVersion; gv_string v1alpha2_GroupVersion] =
  ["infrastructure.cluster.x-k8s.io/v1alpha1"; "infrastructure.cluster.x-k8s.io/v1alpha2"].
Proof. reflexivity. Qed.

(** ** A list as a scheme *)

#[export] Instance ListScheme : SchemeLib.
Proof.
  refine {|
    Builder := GroupVersion * list GVK; Scheme := list GVK;
    NewBuilder gv := (gv, []);
    Register b kinds := (b.1, b.2 ++ map (fun k => (b.1, k)) kinds);
    AddToScheme_ b s := (None, s ++ b.2);
    Recognizes s gvk := bool_decide (gvk ∈ s);
    registered b := b.2; builder_gv b := b.1 |}; try done.
  - intros b s s' gvk [= <-] Hin. apply bool_decide_eq_true. set_solver.
  - intros b s s' err gvk [= <- <-] Hin. apply bool_decide_eq_true in Hin. apply bool_decide_eq_true. set_solver.
Defined.

Lemma every_kind_is_registered_witness :
  let s1 := (v1alpha1_AddToScheme []).2 in
  let s2 := (v1alpha2_AddToScheme s1).2 in
  Recognizes s1 (v1alpha2_GroupVersion, "OVHMachine") = false /\
  Recognizes s2 (v1alpha2_GroupVersion, "OVHMachine") = true.
Proof.
  intros s1 s2. split; [reflexivity|].
  refine (proj2 (proj1 (every_kind_is_registered [] s1 s2 eq_refl eq_refl) "OVHMachine" _)).
  apply (bool_decide_unpack _). reflexivity.
Defined.
